(* ===== verification/_CoqProject ===== *)
-Q . S2P
Prelude.v
Python.v
Sha256.v
Uuid.v
Ddl.v
Migrations.v
Regex.v
Redaction.v
Enums.v
Metadata.v
SchemaHistory.v
StateMachines.v
HealerYaml.v
Schema.v
Session.v
Hoare.v
Widths.v
Permissions.v
DbAdmin.v
Repositories.v
Security.v
Protocol.v
Invariants.v
LockService.v
CommandService.v
NginxManager.v
Certificates.v
Scenario.v
DbAdminProperties.v
ApplicationService.v
AppValidation.v
CertificateProperties.v
AuditService.v
AuthService.v
ServerService.v
GatewayService.v
GatewayEndToEnd.v
HealthCheckService.v
DeploymentService.v
LogService.v
MetricsService.v
ScaleService.v
ReleaseService.v
SelfHealingService.v
InstanceService.v
Requests.v
Pages.v
Routes.v
SystemProperties.v
AccountProperties.v
Enrolment.v
ReleaseSwitch.v
LockRelease.v
DeploymentOutcome.v
ScaleOutcome.v
Reconcile.v
Lifespan.v
CommandProperties.v
FakeAgent.v
ScaleProperties.v
HealingProperties.v
HealingBudget.v
InstanceProperties.v
LogProperties.v
SecretProperties.v
SlugProperties.v
ConfigProperties.v
HealerYamlParse.v
Witnesses.v
Findings.v
