(* ===== verification/Prelude.v ===== *)
(** * Healer: a verification of the control plane and the Gateway Manager

    Healer deploys web applications as numbered instances on registered
    servers. The control plane (src/services/control-plane, a FastAPI service)
    owns all state in one SQL database; agents on the servers hold a WebSocket
    to it and execute commands; the Gateway Manager
    (src/services/gateway-manager) turns the control plane's routing decisions
    into the configuration of one central nginx. Operators act through HTTP
    routes: a route checks the request, takes the application's operation lock,
    records a deployment, and schedules a background pipeline (first
    deployment, scaling, blue-green release switch or rollback) that sends
    commands to the agent, gates new instances on health probes, synchronises
    the gateway, and releases the lock. A health monitor restarts or replaces
    unhealthy instances; a restart of the control plane reconciles what was in
    flight.

    ** How the code is modelled

    Service code is written in one state and exception monad ([ST], here;
    [M] = [ST World exn] in [Session]), one definition per Python function, with
    the function's name, in the order of its statements. Exceptions keep the
    state changes made before them; [try/except], [finally] and [for] are
    combinators. A mapped object is handed around as its primary key and its
    attributes are read from its row.

    - [World] (Session) is the state of the process: the database as the
      session sees it, the committed database, whether a failed flush left the
      session unusable, pending deletions, connections, waiters, and the
      messages sent. [Env] is everything the code cannot determine - clocks,
      what agents send while an operation awaits, HTTP replies, decryption,
      third-party parsing - and every theorem holds for all of them.
      Code of other packages enters as an argument in the same way: [Security]
      (bcrypt, PyJWT, the random source, the settings), [NginxEnv] ([nginx],
      [Path.resolve]), [CertEnv] (the cryptography package and the files it
      reads), [AdminEnv] (how PostgreSQL reads, prints, orders and constrains
      values, and its clock), [YamlLibraries] (PyYAML, pydantic's reading of a mapping), [AgentEnv]
      (the clock of the demonstration agent). What a theorem needs of one is a
      named hypothesis of it: the laws of Fernet in [secrets_round_trip], of PyJWT in
      [access_tokens_identify_their_user], of the random source in
      [enrolment_round_trip], of binding text in [admin_edit_is_exact], of
      pydantic ([PydanticLaws]) in [parse_yaml_verdict].
    - FastAPI checks a request in the order dependencies, then body and query:
      an operation of [perform] first needs its permission, then its model
      ([Requests]; 422 otherwise), and then runs the handler.
    - A UUID is a number drawn from a counter that skips keys in use, with its
      text form in [Uuid]. A timestamp is a number of microseconds. Strings are
      sequences of 8-bit characters. [updated_at] columns are left out.
      Unordered queries return rows in the order of [map_to_list].
    - An exception that becomes an HTTP error answers with a response of its
      own, so cookies set before it are lost, as in FastAPI.
    - Other tasks interleave where the command service awaits and in
      [asyncio.sleep]: the agent messages [Env] delivers there are handled, each
      on a session of its own. They do not interleave at the awaits of HTTP
      requests. Two pipelines of one application do not run at once, which is
      what the operation lock is for; two pipelines of different applications
      share only the instance ports, whose uniqueness the index enforces.
    - Recursion is structural except for loops with fuel: [wait_loop]
      (healthy + unhealthy threshold attempts, which is the code's own bound),
      [unique_slug_loop] (one more than the number of applications; the
      search is proved to end before that), the log stream (301 polls two
      seconds apart in ten minutes, proved to be enough by [log_stream_ends]), the blocks of
      SHA-256 and the scan of a log line for a pattern (the length of the
      input, of which each round consumes something).

    ** Files

    Foundations: [Prelude] (monad, weakest preconditions, record update),
    [Python] (JSON, strings, formatting, Windows paths, exceptions), [Regex]
    (matching by derivatives, proved to decide the language), [Enums] and
    [Schema] (db/models), [Uuid] and [Sha256] (the text of identifiers, the
    digest of tokens), [Session] (db/session.py and SQLAlchemy), [Hoare]
    (invariants of service code and the [keeps] proof automation), [Widths]
    (the widths of text columns and the rows that respect them),
    [Repositories] (repositories/ and the partial unique index on ports),
    [Permissions] (domain/permissions.py, command_permissions.py, api/deps.py),
    [Security] (core/security.py, core/cookies.py, the identity of a request).

    The database schema: [Ddl] (the catalogue and the statements of Alembic),
    [Migrations] (migrations/versions, every upgrade and downgrade), [Metadata]
    (the models as declared), [SchemaHistory] (the chain of migrations).

    Components: [StateMachines] (domain/state_machines.py), [HealerYaml]
    (schemas/healer_yaml.py), [LockService], [CommandService] (with the agent
    socket of api/routes/ws.py), [ApplicationService], [AuditService] (with
    secrets and notifications), [AuthService] (with user_service.py, db/seed.py
    and the first administrator), [ServerService] (with enrolment and the
    socket's authentication), [LogService] and [MetricsService] (with
    retention), [Redaction] (services/log_redaction.py), [AppValidation]
    (domain/app_validation.py), [DbAdmin] (services/db_admin_service.py and its
    registry), [GatewayService], [HealthCheckService], [DeploymentService],
    [ScaleService], [ReleaseService], [SelfHealingService] (with the health
    monitor), [InstanceService] (with startup reconciliation) model the files
    of services/ of those names; [Requests] the request models of schemas/ and the
    bounds of query parameters; [Pages] the pages that only read; [Routes] the
    other handlers of api/routes and, in [perform], the whole control plane as a
    sequence of operations;
    [NginxManager] and [Certificates] the Gateway Manager; [HealerYamlParse]
    domain/healer_yaml.py and the preview of a descriptor; [Lifespan] main.py, the
    two endless background loops and the settings, the process as a step relation;
    [FakeAgent] scripts/fake_agent.py, the other end of the agent socket, and
    [Enrolment] its enroll command with the control plane at the other end.

    Specifications: [Protocol] is the abstract specification of the control
    plane, a step relation [db_step] on databases whose rules are the kinds of
    write an operation may make, each with the condition that must have been
    checked. The class [Stable] (an invariant kept by every step) is the
    interface between it and the components: each component proves that its
    operations keep every [Stable] invariant, and [Invariants] derives the
    system's invariants from the rules alone, by rule induction.

    ** What the theorems show

    - The whole system ([SystemProperties]): every history of requests (edits on
      the administration page apart), agent traffic, monitor rounds and restarts,
      from any database on, refines [db_step]; hence live ports stay unique,
      instance rows live by their state machine and are not lost, every deployment
      transition is audited, the audit log is only appended to, slugs are unique
      and permanent, and no text that came from
      outside is longer than its column ([Widths], from the bounds in
      [Requests], of the descriptor and of the handlers); a request without the
      permission changes and sends nothing.
    - First deployment ([DeploymentOutcome]): the four ways it can end, each with
      deployment, instance and active release in agreement.
    - Scaling ([ScaleOutcome]): exactly the requested number of replicas, or the
      operation FAILED or was interrupted; what it may have touched.
    - Release switch ([ReleaseSwitch]): all or nothing.
    - Operation lock ([LockService], [LockRelease]): at most one holder within
      its lease under any interleaving; each pipeline releases its lock.
    - The process ([Reconcile], [Lifespan]): startup always succeeds and leaves
      nothing that only a lost task could move on; the background loops survive
      every failure of a round; that holds whatever is edited on the administration
      page and wherever the process is killed, and between two such events the
      committed database follows the protocol.
    - Conversations: what the control plane posts, the Gateway Manager reads, and
      what it answers is what nginx runs ([GatewayEndToEnd]); a command sent to an
      agent comes back as three events that complete it ([FakeAgent]); an enrolment
      token becomes a credential that opens the socket of the server's agent, once,
      and the credential before it stops working ([Enrolment]).
    - Descriptors ([HealerYamlParse]): every text gets a verdict, unless a
      constructor of PyYAML raises on a scalar of it, which nothing catches; an
      accepted one is well formed and routable ([ConfigProperties]).
    - Components: the health gate and its termination ([HealthCheckService]),
      exact port allocation ([DeploymentService]), the gateway payload and its
      synchronisation ([GatewayService]), commands: events, isolation of
      agents, idempotency, expiry ([CommandProperties]), scaling
      ([ScaleProperties]), bounded healing ([HealingProperties]: the counters;
      [HealingBudget]: the restarts, each paid for from what the counters leave),
      manual actions ([InstanceProperties]), bounded lifecycles ([StateMachines]).
    - Gateway Manager ([NginxManager]): activation restores every byte on
      failure, and no validated value can add a directive.
    - Accounts ([AccountProperties]): a revoked refresh token and a spent
      enrolment token never work again; rotation, enrolment and role assignment
      do exactly what they say; no active administrator loses the account by
      an action of their own; an access token names the user it was issued to.
    - Logs and secrets ([LogProperties], [SecretProperties]): no line a
      log reader sees contains a stored secret of the application (the error text
      of an agent may); the stream ends with the event its outcome calls for;
      secrets are stored encrypted and read back by deployment and redaction.
    - The schema ([SchemaHistory]): the migrations build the catalogue the
      models declare; over any rows that obey the constraints in force every walk
      up and down the chain succeeds, except that 0011 cannot be taken back once
      two instances share a port; going back restores the catalogue that was
      there before.
    - Administration page ([DbAdminProperties]): an answer does not depend on
      a redacted value, unless the request orders by its column or searches
      redacted JSON; an edit changes the
      editable columns it names, stamps updated_at, and changes nothing else.
    - Preflight ([AppValidation], [CertificateProperties]): an application that
      passes has its secrets, its host name and a connected agent that does not
      lack the adapter, and the control plane reports exactly what the Gateway Manager finds in a certificate.
    - Agreement of the two services ([SlugProperties], [ConfigProperties]): slugs
      and domains the control plane accepts are accepted by the Gateway Manager.
    - [Scenario] and [Witnesses] hold a concrete control plane on which the
      hypotheses are met; [Findings] holds runs in which the code does not do
      what its comments say.

    ** What is not modelled

    - Wiring of routers and CORS; the Celery worker, which has a ping task only; the
      settings and the liveness probe of the Gateway Manager; the argument parser
      and the output of the demonstration agent.
    - Response models are the views of the pages; their JSON text is FastAPI's work.
    - Cancellation of a background task in the middle of a round, and where in an
      operation a killed process was: [life_step] lets it leave any database.
    - The administration page works on rows as dictionaries, beside the typed
      database, and its edits are no operation of [perform]: an administrator who
      edits rows there can break the invariants of the system theorems, which
      speak of the operations between two edits.
    - The values in rows during a migration, except the roles that 0003 inserts and
      removes: a statement that could fail on some rows leaves what it asks of
      them ([RowCondition]), and a history is over any rows that obey the
      constraints in force.
    - Text: the Gateway Manager reads a file back with newlines translated, which
      matters only for a carriage return, and it never writes one; NUL
      characters, which PostgreSQL refuses in text; a gateway secret that is not
      ASCII, which [hmac.compare_digest] refuses.
    - Errors of the file system in the Gateway Manager's activation.
    - The Go agent and the dashboard, programs in other languages: the agent is
      seen through what it sends. Several agents act through the
      sequence of messages that [Env] delivers, each handled in a session of its
      own. *)

From stdpp Require Export base tactics option list sorting gmap strings pretty relations.
From Stdlib Require Export ZArith Lia.

#[global] Set Default Goal Selector "!".
#[global] Set Warnings "-clear-no-such-hyp,-register-all".
#[global] Open Scope string_scope.
#[global] Open Scope list_scope.
#[global] Open Scope nat_scope.

(** ** Outcomes of fallible code *)

Inductive result (E A : Type) : Type :=
| Ok (a : A)
| Raise (e : E).
Arguments Ok {E A} a.
Arguments Raise {E A} e.

(** ** A state and exception monad

    [ST S E A] threads a state [S] and either returns a value or raises an
    exception [E]; as in Python, the state changes made before an exception
    stay. *)

Definition ST (S E A : Type) : Type := S → result E A * S.

#[export] Instance st_ret {S E} : MRet (ST S E) := λ A a s, (Ok a, s).

#[export] Instance st_bind {S E} : MBind (ST S E) := λ A B f m s,
  match m s with
  | (Ok a, s') => f a s'
  | (Raise e, s') => (Raise e, s')
  end.

Definition raise {S E A} (e : E) : ST S E A := λ s, (Raise e, s).
Definition gets {S E A} (f : S → A) : ST S E A := λ s, (Ok (f s), s).
Definition modify {S E} (f : S → S) : ST S E unit := λ s, (Ok tt, f s).

(** [try: m except e: h e]; a handler that does not match raises [e] again. *)
Definition try_except {S E A} (m : ST S E A) (h : E → ST S E A) : ST S E A := λ s,
  match m s with
  | (Ok a, s') => (Ok a, s')
  | (Raise e, s') => h e s'
  end.

(** [try: m finally: fin]; an exception of [fin] replaces the outcome of [m]. *)
Definition try_finally {S E A} (m : ST S E A) (fin : ST S E unit) : ST S E A := λ s,
  let '(r, s') := m s in
  match fin s' with
  | (Ok _, s'') => (r, s'')
  | (Raise e, s'') => (Raise e, s'')
  end.

(** [for x in xs: body x]. *)
Fixpoint for_each {S E A} (xs : list A) (body : A → ST S E unit) : ST S E unit :=
  match xs with
  | [] => mret tt
  | x :: xs' => body x ;; for_each xs' body
  end.

(** [when b m]: a conditional statement with no else branch. *)
Definition when {S E} (b : bool) (m : ST S E unit) : ST S E unit :=
  if b then m else mret tt.

(** ** Weakest preconditions

    [wp m Q s]: running [m] from [s] ends with an outcome and a state in [Q].
    The monad is total, so this is total correctness. *)

Definition wp {S E A} (m : ST S E A) (Q : result E A → S → Prop) (s : S) : Prop :=
  Q (m s).1 (m s).2.

Section wp_rules.
Context {S E : Type}.
Implicit Types s : S.

Lemma wp_mono {A} (m : ST S E A) (P Q : result E A → S → Prop) s :
  wp m P s → (∀ r s', P r s' → Q r s') → wp m Q s.
Proof. unfold wp. eauto. Qed.

Lemma wp_ret {A} (a : A) (Q : result E A → S → Prop) s : Q (Ok a) s → wp (mret a) Q s.
Proof. done. Qed.

Lemma wp_raise {A} (e : E) (Q : result E A → S → Prop) s : Q (Raise e) s → wp (raise e) Q s.
Proof. done. Qed.

Lemma wp_gets {A} (f : S → A) (Q : result E A → S → Prop) s : Q (Ok (f s)) s → wp (gets f) Q s.
Proof. done. Qed.

Lemma wp_modify f (Q : result E unit → S → Prop) s : Q (Ok tt) (f s) → wp (modify f) Q s.
Proof. done. Qed.

Lemma wp_bind {A B} (m : ST S E A) (f : A → ST S E B) Q s :
  wp m (λ r s', match r with Ok a => wp (f a) Q s' | Raise e => Q (Raise e) s' end) s →
  wp (m ≫= f) Q s.
Proof. unfold wp, mbind, st_bind. by destruct (m s) as [[a|e] s']. Qed.

Lemma wp_try_except {A} (m : ST S E A) h Q s :
  wp m (λ r s', match r with Ok a => Q (Ok a) s' | Raise e => wp (h e) Q s' end) s →
  wp (try_except m h) Q s.
Proof. unfold wp, try_except. by destruct (m s) as [[a|e] s']. Qed.

Lemma wp_try_finally {A} (m : ST S E A) fin Q s :
  wp m (λ r s', wp fin (λ rf s'', match rf with Ok _ => Q r s'' | Raise e => Q (Raise e) s'' end) s') s →
  wp (try_finally m fin) Q s.
Proof.
  unfold wp, try_finally. destruct (m s) as [r s']; simpl.
  by destruct (fin s') as [[[]|e] s''].
Qed.

Lemma wp_when b (m : ST S E unit) Q s :
  (b = true → wp m Q s) → (b = false → Q (Ok tt) s) → wp (when b m) Q s.
Proof. destruct b; simpl; intros H1 H2; [by apply H1|by apply wp_ret, H2]. Qed.

(** A loop keeps an invariant that its body keeps; an exception of the body
    ends the loop. *)
Lemma wp_for_each {A} (I : list A → S → Prop) (X : E → S → Prop) xs (body : A → ST S E unit) s :
  I xs s →
  (∀ x xs' s', I (x :: xs') s' →
     wp (body x) (λ r s'', match r with Ok _ => I xs' s'' | Raise e => X e s'' end) s') →
  wp (for_each xs body) (λ r s', match r with Ok _ => I [] s' | Raise e => X e s' end) s.
Proof.
  intros HI Hbody. revert s HI. induction xs as [|x xs IH]; intros s HI; simpl.
  - by apply wp_ret.
  - apply wp_bind. eapply wp_mono; [by apply Hbody|]. intros [[]|e] s'; simpl; auto.
Qed.

End wp_rules.

#[global] Arguments wp {S E A} m Q s : simpl never.

(** ** Record update

    [r <| f := v |>] replaces field [f] of [r]. A record with assignable fields
    has one [Eta] instance that rebuilds it from its projections, from which
    [solve_upd] derives the update of each field. *)

Class Upd {R T : Type} (proj : R → T) := upd : T → R → R.
Notation "r <| f := v |>" := (upd (proj:=f) v r)
  (at level 1, f at level 200, left associativity, format "r  <| f  :=  v |>").

Class Eta (R : Type) := eta : R → R.

Ltac solve_upd :=
  match goal with
  | |- @Upd ?R ?T ?proj =>
      let inst := constr:(_ : Eta R) in
      exact (λ (v : T) (r : R),
        ltac:(let body := eval hnf in (inst r) in
              match eval pattern (proj r) in body with
              | ?f _ => let res := eval cbv beta in (f v) in exact res
              end))
  end.
