(* ===== verification/Python.v ===== *)
(** What the sources use of Python and its standard library: JSON values and
    their truthiness, dictionary reads, string methods, [repr] and [str] of the
    values that reach a message, UUID and timestamp formatting, Windows paths,
    and the exceptions the control plane raises or lets through.

    Strings are sequences of 8-bit characters (code points below 256). A
    timestamp is the number of microseconds since the Unix epoch, UTC. *)

From S2P Require Import Prelude.
From Stdlib Require Import Ascii.
Local Open Scope Z_scope.

(** ** Exceptions *)

Inductive exn : Type :=
| InvalidTransition (current target : string)
| DeploymentSetupError (msg : string)
| ScaleSetupError (msg : string)
| ReleaseSetupError (msg : string)
| InstanceActionError (msg : string)
| OperationLockHeldError (msg : string)
| LogUnavailableError (msg : string)
| DBAdminError (msg : string)
| EnrollmentError (code : string)
| AuthError (code : string)
| UserServiceError (msg : string)
| HTTPException (status_code : Z) (detail : string)
| ValidationError                (* pydantic: a value does not fit its schema *)
| IntegrityError                 (* SQLAlchemy: a database constraint refused a statement *)
| ObjectDeletedError             (* SQLAlchemy: the row behind a loaded object is gone *)
| StatementError                 (* SQLAlchemy: a value that its column cannot hold *)
| PendingRollbackError           (* SQLAlchemy: a flush failed and rollback was not called yet *)
| WebSocketDisconnect            (* Starlette: the peer of a socket is gone *)
| SecretDecryptionError
| InvalidURL (msg : string)      (* httpx: the text is no URL; not an [httpx.HTTPError] *)
| SystemExit (msg : string)
| AttributeError
| KeyError
| TypeError
| ValueError (msg : string).

(** ** JSON values

    A float is [m * 2^e]. An object is its list of members in insertion order. *)

Inductive json : Type :=
| JNull
| JBool (b : bool)
| JInt (z : Z)
| JFloat (m e : Z)
| JStr (s : string)
| JArr (l : list json)
| JObj (kvs : list (string * json)).

(** Induction that reaches the members of arrays and objects. *)
Section json_induction.
Context (P : json → Prop) (HNull : P JNull) (HBool : ∀ b, P (JBool b)) (HInt : ∀ z, P (JInt z)).
Context (HFloat : ∀ m e, P (JFloat m e)) (HStr : ∀ s, P (JStr s)).
Context (HArr : ∀ l, Forall P l → P (JArr l)) (HObj : ∀ kvs, Forall (λ kv, P kv.2) kvs → P (JObj kvs)).

Fixpoint json_induction (v : json) : P v :=
  match v with
  | JNull => HNull
  | JBool b => HBool b
  | JInt z => HInt z
  | JFloat m e => HFloat m e
  | JStr s => HStr s
  | JArr l => HArr l ((fix go l : Forall P l := match l with
                                   | [] => Forall_nil_2 _
                                   | x :: l' => Forall_cons_2 _ _ _ (json_induction x) (go l')
                                   end) l)
  | JObj kvs => HObj kvs ((fix go kvs : Forall (λ kv, P kv.2) kvs := match kvs with
                                         | [] => Forall_nil_2 _
                                         | kv :: kvs' => Forall_cons_2 (λ kv, P kv.2) _ _ (json_induction kv.2) (go kvs')
                                         end) kvs)
  end.
End json_induction.

(** [bool(v)]. *)
Definition truthy (v : json) : bool :=
  match v with
  | JNull => false
  | JBool b => b
  | JInt z => negb (z =? 0)
  | JFloat m _ => negb (m =? 0)
  | JStr s => negb (bool_decide (s = ""))
  | JArr l => match l with [] => false | _ => true end
  | JObj kvs => match kvs with [] => false | _ => true end
  end.

(** Truthiness of the optional strings of the data model ([None] and the empty
    string are false). *)
Definition str_truthy (o : option string) : bool :=
  match o with
  | Some s => negb (bool_decide (s = ""))
  | None => false
  end.

(** Association lists as dictionaries: [d.get(k)], [d.get(k, default)]. *)
Fixpoint dict_lookup {K V} `{EqDecision K} (d : list (K * V)) (k : K) : option V :=
  match d with
  | [] => None
  | (k', v) :: d' => if decide (k = k') then Some v else dict_lookup d' k
  end.

Definition dict_get {K V} `{EqDecision K} (d : list (K * V)) (k : K) (default : V) : V :=
  match dict_lookup d k with
  | Some v => v
  | None => default
  end.

(** [d[k] = v]: replaces in place, or appends. *)
Fixpoint dict_set {K V} `{EqDecision K} (d : list (K * V)) (k : K) (v : V) : list (K * V) :=
  match d with
  | [] => [(k, v)]
  | (k', v') :: d' => if decide (k = k') then (k', v) :: d' else (k', v') :: dict_set d' k v
  end.

(** [d.update(d2)]. *)
Definition dict_update {K V} `{EqDecision K} (d d2 : list (K * V)) : list (K * V) :=
  fold_left (λ acc kv, dict_set acc kv.1 kv.2) d2 d.

(** [value.get(...)] needs a dictionary. *)
Definition as_dict {S} (v : json) : ST S exn (list (string * json)) :=
  match v with
  | JObj kvs => mret kvs
  | _ => raise AttributeError
  end.

(** [value or {}] for an optional JSON column. *)
Definition or_empty_dict (v : option json) : json :=
  match v with
  | Some j => if truthy j then j else JObj []
  | None => JObj []
  end.

(** [for x in value]. *)
Definition py_iter {S} (v : json) : ST S exn (list json) :=
  match v with
  | JArr l => mret l
  | JObj kvs => mret (map (λ kv, JStr kv.1) kvs)
  | JStr s => mret (map (λ c, JStr (String c "")) (String.list_ascii_of_string s))
  | _ => raise TypeError
  end.

(** ** Strings *)

Definition str_upper_char (c : ascii) : bool :=
  let n := Ascii.nat_of_ascii c in
  (Nat.leb 65 n && Nat.leb n 90 || Nat.leb 192 n && Nat.leb n 222 && negb (Nat.eqb n 215))%bool.

Definition lower_char (c : ascii) : ascii :=
  if str_upper_char c then Ascii.ascii_of_nat (Ascii.nat_of_ascii c + 32) else c.

Fixpoint str_map (f : ascii → ascii) (s : string) : string :=
  match s with
  | EmptyString => EmptyString
  | String c s' => String (f c) (str_map f s')
  end.

(** [s.lower()]. *)
Definition lower (s : string) : string := str_map lower_char s.

Definition is_space (c : ascii) : bool :=
  let n := Ascii.nat_of_ascii c in
  (Nat.eqb n 32 || (Nat.leb 9 n && Nat.leb n 13) || (Nat.leb 28 n && Nat.leb n 31)
   || Nat.eqb n 133 || Nat.eqb n 160)%bool.

Fixpoint lstrip_by (p : ascii → bool) (s : string) : string :=
  match s with
  | EmptyString => EmptyString
  | String c s' => if p c then lstrip_by p s' else s
  end.

Definition str_rev (s : string) : string :=
  String.string_of_list_ascii (rev (String.list_ascii_of_string s)).

Definition strip_by (p : ascii → bool) (s : string) : string :=
  str_rev (lstrip_by p (str_rev (lstrip_by p s))).

(** [s.strip()]. *)
Definition strip (s : string) : string := strip_by is_space s.

(** [s.startswith(p)]. *)
Definition startswith (p s : string) : bool := String.prefix p s.

(** [s.split(c)] for a one-character separator. *)
Fixpoint split_on (c : ascii) (s : string) : list string :=
  match s with
  | EmptyString => [""]
  | String d s' =>
      let rest := split_on c s' in
      if Ascii.eqb c d then "" :: rest
      else match rest with
           | [] => [String d ""]
           | w :: ws => String d w :: ws
           end
  end.

(** [sep.join(l)]. *)
Fixpoint join (sep : string) (l : list string) : string :=
  match l with
  | [] => ""
  | [x] => x
  | x :: l' => x +:+ sep +:+ join sep l'
  end.

(** [str(n)] for an integer. *)
Definition str_int (z : Z) : string := pretty z.

(** ** Formatting *)

Definition hex_digit (d : N) : ascii :=
  if (d <? 10)%N then Ascii.ascii_of_N (48 + d) else Ascii.ascii_of_N (87 + d).

Fixpoint hex_digits (k : nat) (n : N) (acc : string) : string :=
  match k with
  | O => acc
  | S k' => hex_digits k' (n / 16)%N (String (hex_digit (n mod 16)%N) acc)
  end.

(** [str(u)] of a UUID: 32 hexadecimal digits in groups of 8-4-4-4-12. *)
Definition str_uuid (u : N) : string :=
  let h := hex_digits 32 u "" in
  String.substring 0 8 h +:+ "-" +:+ String.substring 8 4 h +:+ "-" +:+ String.substring 12 4 h +:+ "-"
  +:+ String.substring 16 4 h +:+ "-" +:+ String.substring 20 12 h.

(** [repr(s)] of a string. *)
Definition repr_char (quote : ascii) (c : ascii) : string :=
  let n := Ascii.nat_of_ascii c in
  if Ascii.eqb c quote then String "092" (String c "")
  else if Nat.eqb n 92 then String "092" (String "092" "")
  else if Nat.eqb n 9 then String "092" "t"
  else if Nat.eqb n 10 then String "092" "n"
  else if Nat.eqb n 13 then String "092" "r"
  else if (Nat.ltb n 32 || (Nat.leb 127 n && Nat.leb n 160) || Nat.eqb n 173)%bool
  then String "092" (String "x" (hex_digits 2 (Ascii.N_of_ascii c) ""))
  else String c "".

Definition str_concat_map (f : ascii → string) (s : string) : string :=
  fold_right (λ c acc, f c +:+ acc) "" (String.list_ascii_of_string s).

Definition str_has (c : ascii) (s : string) : bool :=
  existsb (Ascii.eqb c) (String.list_ascii_of_string s).

Definition repr_str (s : string) : string :=
  let quote := if (str_has "039" s && negb (str_has "034" s))%bool then "034"%char else "039"%char in
  String quote (str_concat_map (repr_char quote) s +:+ String quote "").

(** Zero-padded decimal digits. *)
Fixpoint dec_digits (k : nat) (z : Z) (acc : string) : string :=
  match k with
  | O => acc
  | S k' => dec_digits k' (z / 10) (String (Ascii.ascii_of_N (48 + Z.to_N (z mod 10))) acc)
  end.

(** Year, month and day of a day count since 1970-01-01. *)
Definition civil_from_days (d : Z) : Z * Z * Z :=
  let z := d + 719468 in
  let era := z / 146097 in
  let doe := z mod 146097 in
  let yoe := (doe - doe / 1460 + doe / 36524 - doe / 146096) / 365 in
  let doy := doe - (365 * yoe + yoe / 4 - yoe / 100) in
  let mp := (5 * doy + 2) / 153 in
  let day := doy - (153 * mp + 2) / 5 + 1 in
  let month := if mp <? 10 then mp + 3 else mp - 9 in
  let year := yoe + era * 400 + (if month <=? 2 then 1 else 0) in
  (year, month, day).

(** [t.strftime("%Y%m%d%H%M%S")]. *)
Definition strftime_compact (t : Z) : string :=
  let secs := t / 1000000 in
  let '(y, m, d) := civil_from_days (secs / 86400) in
  let tod := secs mod 86400 in
  dec_digits 4 y (dec_digits 2 m (dec_digits 2 d
    (dec_digits 2 (tod / 3600) (dec_digits 2 (tod / 60 mod 60) (dec_digits 2 (tod mod 60) ""))))).

(** [t.isoformat()] of an aware UTC datetime. *)
Definition isoformat (t : Z) : string :=
  let secs := t / 1000000 in
  let micros := t mod 1000000 in
  let '(y, m, d) := civil_from_days (secs / 86400) in
  let tod := secs mod 86400 in
  dec_digits 4 y "" +:+ "-" +:+ dec_digits 2 m "" +:+ "-" +:+ dec_digits 2 d "" +:+ "T"
  +:+ dec_digits 2 (tod / 3600) "" +:+ ":" +:+ dec_digits 2 (tod / 60 mod 60) "" +:+ ":"
  +:+ dec_digits 2 (tod mod 60) ""
  +:+ (if micros =? 0 then "" else "." +:+ dec_digits 6 micros "") +:+ "+00:00".

(** [repr(v)] of a decoded JSON value; [float_repr] formats a float. *)
Fixpoint py_repr (float_repr : Z → Z → string) (v : json) : string :=
  match v with
  | JNull => "None"
  | JBool true => "True"
  | JBool false => "False"
  | JInt z => str_int z
  | JFloat m e => float_repr m e
  | JStr s => repr_str s
  | JArr l => "[" +:+ join ", " (map (py_repr float_repr) l) +:+ "]"
  | JObj kvs =>
      "{" +:+ join ", " (map (λ kv, repr_str kv.1 +:+ ": " +:+ py_repr float_repr kv.2) kvs) +:+ "}"
  end.

(** [str(v)], as in an f-string. *)
Definition py_str (float_repr : Z → Z → string) (v : json) : string :=
  match v with
  | JStr s => s
  | _ => py_repr float_repr v
  end.

(** [s.replace(p, "")]: non-overlapping occurrences from the left. *)
Fixpoint remove_all_fuel (fuel : nat) (p s : string) : string :=
  match fuel, s with
  | S n, String c s' =>
      if (String.prefix p s && negb (String.eqb p ""))%bool
      then remove_all_fuel n p (String.substring (String.length p) (String.length s) s)
      else String c (remove_all_fuel n p s')
  | _, _ => s
  end.
Definition remove_all (p s : string) : string := remove_all_fuel (String.length s) p s.

Definition hex_value (c : ascii) : option N :=
  let n := Ascii.N_of_ascii c in
  if ((48 <=? n) && (n <=? 57))%N then Some (n - 48)%N
  else if ((97 <=? n) && (n <=? 102))%N then Some (n - 87)%N
  else if ((65 <=? n) && (n <=? 70))%N then Some (n - 55)%N
  else None.

(** The digits of [int(s, 16)]: hexadecimal digits, with single underscores
    between them. [digit] says that the previous character was a digit. *)
Fixpoint int16_digits (s : string) (digit : bool) (acc : N) : option N :=
  match s with
  | EmptyString => if digit then Some acc else None
  | String c s' =>
      match hex_value c with
      | Some v => int16_digits s' true (16 * acc + v)%N
      | None => if (Ascii.eqb c "_" && digit)%bool then int16_digits s' false acc else None
      end
  end.

(** [int(s, 16)] for a result that is not negative. *)
Definition int16 (s : string) : option N :=
  let s := strip s in
  let s := match s with String "+" s' => s' | _ => s end in
  match s with
  | String "-" s' => match int16_digits s' false 0 with Some 0%N => Some 0%N | _ => None end
  | String "0" (String "x" s') | String "0" (String "X" s') =>
      int16_digits (match s' with String "_" s'' => s'' | _ => s' end) false 0
  | _ => int16_digits s false 0
  end.

(** [uuid.UUID(s)]; [None] for a [ValueError]. *)
Definition uuid_of_string (s : string) : option N :=
  let hex := remove_all "-"
    (strip_by (λ c, (Ascii.eqb c "{" || Ascii.eqb c "}")%bool) (remove_all "uuid:" (remove_all "urn:" s))) in
  if (String.length hex =? 32)%nat then int16 hex else None.

(** ** [PureWindowsPath]: drive, root and the other components *)

Definition bslash : ascii := "092".
Definition bslashes (n : nat) : string := String.string_of_list_ascii (repeat bslash n).

Record WindowsPath := {
  wp_drive : string;
  wp_root : string;
  wp_tail : list string;
}.

(** The position of the first backslash at or after [n]. *)
Definition find_sep (n : nat) (s : string) : option nat := String.index n (bslashes 1) s.

(** [ntpath.splitroot]. *)
Definition splitroot (path : string) : string * string * string :=
  let p := str_map (λ c, if Ascii.eqb c "/" then bslash else c) path in
  let len := String.length p in
  let from n := String.substring n len p in
  if String.prefix (bslashes 2) p then
    let unc := String.prefix (bslashes 2 +:+ "?" +:+ bslashes 1 +:+ "unc" +:+ bslashes 1) (lower p) in
    match find_sep (if unc then 8 else 2) p with
    | None => (p, "", "")
    | Some i =>
        match find_sep (i + 1) p with
        | None => (p, "", "")
        | Some j => (String.substring 0 j p, bslashes 1, from (j + 1)%nat)
        end
    end
  else if String.prefix (bslashes 1) p then ("", bslashes 1, from 1%nat)
  else match String.get 1 p with
       | Some ":"%char =>
           match String.get 2 p with
           | Some c => if Ascii.eqb c bslash then (String.substring 0 2 p, bslashes 1, from 3%nat)
                       else (String.substring 0 2 p, "", from 2%nat)
           | None => (String.substring 0 2 p, "", from 2%nat)
           end
       | _ => ("", "", p)
       end.

(** [PureWindowsPath(s)]. *)
Definition windows_path (s : string) : WindowsPath :=
  let '(drv, root, rel) := splitroot s in
  let drv_parts := split_on bslash drv in
  let unc_root := (String.prefix (bslashes 1) drv && negb (String.prefix (bslashes 1) (str_rev drv))
                   && (((length drv_parts =? 4)%nat
                        && negb (bool_decide (nth 2 drv_parts "" ∈ [""; "?"; "."; "?."])))
                       || (length drv_parts =? 6)%nat))%bool in
  {| wp_drive := drv;
     wp_root := if ((String.eqb root "") && unc_root)%bool then bslashes 1 else root;
     wp_tail := List.filter (λ x, negb (String.eqb x "" || String.eqb x ".")%bool) (split_on bslash rel) |}.

(** [path.parent] and [path / name]. *)
Definition windows_parent (p : WindowsPath) : WindowsPath :=
  {| wp_drive := wp_drive p; wp_root := wp_root p; wp_tail := removelast (wp_tail p) |}.
Definition windows_join (p : WindowsPath) (name : string) : WindowsPath :=
  {| wp_drive := wp_drive p; wp_root := wp_root p; wp_tail := wp_tail p ++ [name] |}.

(** [str(path)]. *)
Definition str_windows_path (p : WindowsPath) : string :=
  let s :=
    if (String.eqb (wp_drive p) "" && String.eqb (wp_root p) "")%bool then
      let tail := match wp_tail p with
                  | t :: _ => if String.eqb (splitroot t).1.1 "" then wp_tail p else "." :: wp_tail p
                  | [] => []
                  end in
      join (bslashes 1) tail
    else wp_drive p +:+ wp_root p +:+ join (bslashes 1) (wp_tail p) in
  if String.eqb s "" then "." else s.

Example strftime_compact_ex : strftime_compact 1753272489123456 = "20250723120809".
Proof. reflexivity. Qed.

Example str_uuid_ex : str_uuid 255 = "00000000-0000-0000-0000-0000000000ff".
Proof. reflexivity. Qed.

Example isoformat_ex : isoformat 1753272489120000 = "2025-07-23T12:08:09.120000+00:00".
Proof. reflexivity. Qed.

Example uuid_of_string_ex : uuid_of_string (str_uuid 48879) = Some 48879%N.
Proof. reflexivity. Qed.

Example py_repr_ex :
  py_repr (λ _ _, "") (JObj [("a", JArr [JInt (-3); JNull]); ("b", JStr "its")]) =
  "{'a': [-3, None], 'b': 'its'}".
Proof. reflexivity. Qed.

(** ** Time deltas *)

Definition seconds (n : Z) : Z := n * 1000000.
Definition minutes (n : Z) : Z := seconds (n * 60).
Definition hours (n : Z) : Z := minutes (n * 60).
Definition days (n : Z) : Z := hours (n * 24).

(** ** Characters of a string *)

Lemma string_app_inj (a b c : string) : a +:+ b = a +:+ c → b = c.
Proof. induction a as [|x a IH]; simpl; [done|]. intros [= ?]. auto. Qed.

Lemma string_app_neq (a b : string) : b ≠ "" → a +:+ b ≠ a.
Proof.
  intros Hb E. apply Hb. apply (string_app_inj a). rewrite E. clear.
  induction a as [|x a IH]; [done|]. change (String x a = String x (a +:+ "")). by f_equal.
Qed.

Lemma chars_app (a b : string) :
  String.list_ascii_of_string (a +:+ b) = String.list_ascii_of_string a ++ String.list_ascii_of_string b.
Proof. induction a as [|x a IH]; [done|]. simpl. by f_equal. Qed.

(** A decimal digit. *)
Definition dec_digit (c : ascii) : bool :=
  let n := Ascii.nat_of_ascii c in (Nat.leb 48 n && Nat.leb n 57)%bool.

Lemma str_int_chars z c : c ∈ String.list_ascii_of_string (str_int z) → dec_digit c = true ∨ c = "-"%char.
Proof.
  assert (∀ x s, (∀ c, c ∈ String.list_ascii_of_string s → dec_digit c = true ∨ c = "-"%char) →
            ∀ c, c ∈ String.list_ascii_of_string (pretty_N_go x s) → dec_digit c = true ∨ c = "-"%char) as Hgo.
  { intros x. induction (N.lt_wf_0 x) as [x _ IH]. intros s Hs.
    destruct (decide (x = 0%N)) as [->|]; [by rewrite pretty_N_go_0|].
    rewrite pretty_N_go_step by lia. apply IH; [apply N.div_lt; lia|]. simpl.
    intros c' [->|Hc]%elem_of_cons; [left|by apply Hs]. unfold pretty_N_char. by repeat case_match. }
  assert (∀ (n : N) c, c ∈ String.list_ascii_of_string (pretty n) → dec_digit c = true ∨ c = "-"%char) as HN.
  { intros n c'. unfold pretty, pretty_N. case_decide; [|apply Hgo; intros ? Hx; by apply elem_of_nil in Hx].
    simpl. rewrite elem_of_cons, elem_of_nil. intros [->|[]]. by left. }
  unfold str_int. destruct z as [|p|p]; [apply (HN 0%N)|apply (HN (N.pos p))|].
  simpl. intros [->|Hc]%elem_of_cons; [by right|by apply (HN (N.pos p))].
Qed.

Lemma length_hex_digits k n acc : String.length (hex_digits k n acc) = (k + String.length acc)%nat.
Proof. revert n acc. induction k as [|k IH]; intros n acc; simpl; [done|]. rewrite IH. simpl. lia. Qed.
