(* ===== verification/Sha256.v ===== *)
(** SHA-256 and UTF-8, as the sources use them to store tokens:
    [hashlib.sha256(s.encode("utf-8")).hexdigest()].

    A byte and a 32-bit word are integers, the operations on words reduce
    modulo 2^32. *)

From Stdlib Require Import Ascii.
From S2P Require Import Prelude Python.
Local Open Scope Z_scope.

(** ** UTF-8 *)

(** A code point below 256 takes one or two bytes. *)
Definition utf8_char (c : ascii) : list Z :=
  let n := Z.of_nat (Ascii.nat_of_ascii c) in
  if n <? 128 then [n] else [192 + Z.shiftr n 6; 128 + Z.land n 63].

(** [s.encode("utf-8")] *)
Definition utf8 (s : string) : list Z := concat (map utf8_char (String.list_ascii_of_string s)).

(** ** Words *)

Definition w32 (x : Z) : Z := Z.land x 0xFFFFFFFF.
Definition rotr (n x : Z) : Z := Z.lor (Z.shiftr x n) (w32 (Z.shiftl x (32 - n))).

Definition Sigma0 (x : Z) : Z := Z.lxor (rotr 2 x) (Z.lxor (rotr 13 x) (rotr 22 x)).
Definition Sigma1 (x : Z) : Z := Z.lxor (rotr 6 x) (Z.lxor (rotr 11 x) (rotr 25 x)).
Definition sigma0 (x : Z) : Z := Z.lxor (rotr 7 x) (Z.lxor (rotr 18 x) (Z.shiftr x 3)).
Definition sigma1 (x : Z) : Z := Z.lxor (rotr 17 x) (Z.lxor (rotr 19 x) (Z.shiftr x 10)).
Definition Ch (x y z : Z) : Z := Z.lxor (Z.land x y) (Z.land (Z.lxor x 0xFFFFFFFF) z).
Definition Maj (x y z : Z) : Z := Z.lxor (Z.land x y) (Z.lxor (Z.land x z) (Z.land y z)).

(** The constants come from the first primes: the round constants are the first
    32 bits of the fractional parts of their cube roots, the initial hash those
    of their square roots. *)
Definition is_prime (n : nat) : bool :=
  forallb (λ d, negb (Nat.eqb (Nat.modulo n d) 0)) (seq 2 (n - 2)).

Definition primes (k : nat) : list Z := firstn k (map Z.of_nat (List.filter is_prime (seq 2 400))).

(** The integer cube root of [n] by bisection, one bit at a time. *)
Fixpoint cube_root (bits : nat) (n acc : Z) : Z :=
  match bits with
  | O => acc
  | S b => let r := acc + 2 ^ Z.of_nat b in cube_root b n (if r * r * r <=? n then r else acc)
  end.

Definition round_constants : list Z :=
  Eval vm_compute in map (λ p, w32 (cube_root 36 (Z.shiftl p 96) 0)) (primes 64).

(** The eight words of the hash state. *)
Record Hash := { ha : Z; hb : Z; hc : Z; hd : Z; he : Z; hf : Z; hg : Z; hh : Z }.

Definition initial_hash : Hash :=
  Eval vm_compute in
    match map (λ p, w32 (Z.sqrt (Z.shiftl p 64))) (primes 8) with
    | [a; b; c; d; e; f; g; h] => {| ha := a; hb := b; hc := c; hd := d; he := e; hf := f; hg := g; hh := h |}
    | _ => {| ha := 0; hb := 0; hc := 0; hd := 0; he := 0; hf := 0; hg := 0; hh := 0 |}
    end.

(** ** Compression *)

Definition word_at (w : list Z) (i : nat) : Z := nth i w 0.

(** One round; [w] is the window of the next sixteen words of the schedule. *)
Definition round (s : Hash) (k w : Z) : Hash :=
  let t1 := hh s + Sigma1 (he s) + Ch (he s) (hf s) (hg s) + k + w in
  let t2 := Sigma0 (ha s) + Maj (ha s) (hb s) (hc s) in
  {| ha := w32 (t1 + t2); hb := ha s; hc := hb s; hd := hc s;
     he := w32 (hd s + t1); hf := he s; hg := hf s; hh := hg s |}.

Fixpoint rounds (ks : list Z) (w : list Z) (s : Hash) : Hash :=
  match ks with
  | [] => s
  | k :: ks' =>
      let next := w32 (sigma1 (word_at w 14) + word_at w 9 + sigma0 (word_at w 1) + word_at w 0) in
      rounds ks' (tail w ++ [next]) (round s k (word_at w 0))
  end.

Definition add_hash (s t : Hash) : Hash :=
  {| ha := w32 (ha s + ha t); hb := w32 (hb s + hb t); hc := w32 (hc s + hc t); hd := w32 (hd s + hd t);
     he := w32 (he s + he t); hf := w32 (hf s + hf t); hg := w32 (hg s + hg t); hh := w32 (hh s + hh t) |}.

Definition compress (s : Hash) (block : list Z) : Hash := add_hash s (rounds round_constants block s).

(** ** Padding *)

(** [k] bytes of [n], most significant first. *)
Fixpoint big_endian (k : nat) (n : Z) : list Z :=
  match k with
  | O => []
  | S k' => big_endian k' (Z.shiftr n 8) ++ [Z.land n 255]
  end.

Definition padded (msg : list Z) : list Z :=
  let len := Z.of_nat (length msg) in
  msg ++ [128] ++ replicate (Z.to_nat ((55 - len) mod 64)) 0 ++ big_endian 8 (8 * len).

(** Groups of [n] elements; an incomplete rest is dropped. *)
Fixpoint chunks {A} (fuel n : nat) (l : list A) : list (list A) :=
  match fuel with
  | O => []
  | S fuel' => if (length l <? n)%nat then [] else take n l :: chunks fuel' n (drop n l)
  end.

Definition be_word (bs : list Z) : Z := fold_left (λ acc b, Z.lor (Z.shiftl acc 8) b) bs 0.

Definition block_words (block : list Z) : list Z := map be_word (chunks 16 4 block).

Definition sha256 (msg : list Z) : Hash :=
  let m := padded msg in
  fold_left compress (map block_words (chunks (length m) 64 m)) initial_hash.

Definition hex_word (x : Z) (rest : string) : string := hex_digits 8 (Z.to_N x) rest.

(** [.hexdigest()] *)
Definition hexdigest (h : Hash) : string :=
  hex_word (ha h) (hex_word (hb h) (hex_word (hc h) (hex_word (hd h)
    (hex_word (he h) (hex_word (hf h) (hex_word (hg h) (hex_word (hh h) EmptyString))))))).

(** The test vectors of the standard. *)
Example sha256_abc :
  hexdigest (sha256 (utf8 "abc")) = "ba7816bf8f01cfea414140de5dae2223b00361a396177a9cb410ff61f20015ad".
Proof. vm_compute. reflexivity. Qed.

Example sha256_two_blocks :
  hexdigest (sha256 (utf8 "abcdbcdecdefdefgefghfghighijhijkijkljklmklmnlmnomnopnopq")) =
  "248d6a61d20638b8e5c026930c3e6039a33ce45964ff2167f6ecedd419db06c1".
Proof. vm_compute. reflexivity. Qed.

(** A digest has 64 characters, so it fits every column that stores one. *)
Lemma length_hexdigest h : String.length (hexdigest h) = 64%nat.
Proof. unfold hexdigest, hex_word. by rewrite !length_hex_digits. Qed.
