(* ===== verification/Uuid.v ===== *)
(** The text form of identifiers: [uuid.UUID(str(u)) == u]. The control plane
    sends identifiers to agents and puts them into access tokens as text, and
    reads them back from there. *)

From Stdlib Require Import Ascii.
From S2P Require Import Prelude Python.

(** ** Strings without some characters *)

Definition has_no (p : ascii → bool) (s : string) : Prop := ∀ c, c ∈ String.list_ascii_of_string s → p c = false.

Lemma has_no_app p a b : has_no p (a +:+ b) ↔ has_no p a ∧ has_no p b.
Proof.
  unfold has_no. setoid_rewrite chars_app. setoid_rewrite elem_of_app. naive_solver.
Qed.

Lemma has_no_cons p c s : has_no p (String c s) ↔ p c = false ∧ has_no p s.
Proof. unfold has_no. simpl. setoid_rewrite elem_of_cons. naive_solver. Qed.

Lemma lstrip_by_none p s : has_no p s → lstrip_by p s = s.
Proof. destruct s as [|c s]; [done|]. rewrite has_no_cons. intros [Hc _]. simpl. by rewrite Hc. Qed.

Lemma str_rev_rev s : str_rev (str_rev s) = s.
Proof.
  unfold str_rev. by rewrite String.list_ascii_of_string_of_list_ascii, rev_involutive,
    String.string_of_list_ascii_of_string.
Qed.

Lemma strip_by_none p s : has_no p s → strip_by p s = s.
Proof.
  intros Hs. unfold strip_by. rewrite (lstrip_by_none p s Hs), lstrip_by_none; [apply str_rev_rev|].
  intros c. unfold str_rev. rewrite String.list_ascii_of_string_of_list_ascii.
  intros Hc. apply Hs. apply list_elem_of_In, in_rev. by apply list_elem_of_In in Hc.
Qed.

Lemma prefix_other c p d s : Ascii.eqb c d = false → String.prefix (String c p) (String d s) = false.
Proof. intros Hd. simpl. destruct (ascii_dec c d) as [->|_]; [by rewrite Ascii.eqb_refl in Hd|done]. Qed.

Lemma prefix_char c s : String.prefix (String c EmptyString) (String c s) = true.
Proof. simpl. destruct (ascii_dec c c); [|done]. by destruct s. Qed.

Lemma substring_all s n : String.length s ≤ n → String.substring 0 n s = s.
Proof. revert n. induction s as [|c s IH]; intros [|n] Hn; simpl in *; try done; [lia|]. f_equal. apply IH. lia. Qed.

(** A pattern whose first character does not occur. *)
Lemma remove_all_none c p s : has_no (Ascii.eqb c) s → remove_all (String c p) s = s.
Proof.
  unfold remove_all. generalize (String.length s). intros n. revert s.
  induction n as [|n IH]; intros [|d s] Hs; try done. apply has_no_cons in Hs as [Hd Hs].
  cbn [remove_all_fuel]. rewrite prefix_other by done. cbn [andb]. f_equal. by apply IH.
Qed.

(** Removing a character. *)
Lemma remove_char_app_none c a b :
  has_no (Ascii.eqb c) a → remove_all (String c EmptyString) (a +:+ b) = a +:+ remove_all (String c EmptyString) b.
Proof.
  unfold remove_all. induction a as [|d a IH]; intros Ha; [done|]. apply has_no_cons in Ha as [Hd Ha].
  change (String d a +:+ b) with (String d (a +:+ b)). cbn [String.length remove_all_fuel].
  rewrite prefix_other by done. cbn [andb]. rewrite IH by done. done.
Qed.

Lemma remove_char_cons c s :
  remove_all (String c EmptyString) (String c s) = remove_all (String c EmptyString) s.
Proof.
  unfold remove_all. cbn [String.length remove_all_fuel]. rewrite prefix_char. cbn [andb negb String.eqb].
  change (String.substring 1 (S (String.length s)) (String c s)) with (String.substring 0 (S (String.length s)) s).
  by rewrite substring_all by lia.
Qed.

(** A group of characters and the separator after it. *)
Lemma remove_group c a b :
  has_no (Ascii.eqb c) a →
  remove_all (String c EmptyString) (a +:+ String c EmptyString +:+ b) = a +:+ remove_all (String c EmptyString) b.
Proof. intros Ha. rewrite remove_char_app_none by done. f_equal. apply remove_char_cons. Qed.

(** ** Hexadecimal digits *)

Lemma hex_digit_char n : (n < 16)%N → hex_value (hex_digit n) = Some n ∧
  ∀ p, (∀ c, hex_value c ≠ None → p c = false) → p (hex_digit n) = false.
Proof.
  intros Hn. assert (hex_value (hex_digit n) = Some n) as Hv.
  { destruct n as [|q]; [done|]. do 4 (destruct q as [q|q|]; try done); lia. }
  split; [done|]. intros p Hp. apply Hp. by rewrite Hv.
Qed.

Lemma hex_digits_no p k n acc :
  (∀ c, hex_value c ≠ None → p c = false) → has_no p acc → has_no p (hex_digits k n acc).
Proof.
  intros Hp. revert n acc. induction k as [|k IH]; intros n acc Ha; simpl; [done|]. apply IH.
  apply has_no_cons. split; [|done]. apply hex_digit_char; [|done]. by apply N.mod_lt.
Qed.

Lemma int16_digits_hex k n acc d a :
  int16_digits (hex_digits k n acc) d a =
  int16_digits acc (if k is O then d else true) (a * 16 ^ N.of_nat k + n mod 16 ^ N.of_nat k)%N.
Proof.
  revert n acc d a. induction k as [|k IH]; intros n acc d a.
  - simpl. by rewrite N.mul_1_r, N.mod_1_r, N.add_0_r.
  - cbn [hex_digits]. rewrite IH. cbn [int16_digits].
    destruct (hex_digit_char (n mod 16)) as [-> _]; [by apply N.mod_lt|].
    replace (match k with O => true | S _ => true end) with true by by destruct k.
    f_equal. rewrite Nat2N.inj_succ, N.pow_succ_r'.
    rewrite (N.Div0.mod_mul_r n 16 (16 ^ N.of_nat k)). lia.
Qed.

(** ** The round trip *)

Lemma chars_inj a b : String.list_ascii_of_string a = String.list_ascii_of_string b → a = b.
Proof. intros E. by rewrite <-(String.string_of_list_ascii_of_string a), E, String.string_of_list_ascii_of_string. Qed.

Lemma chars_substring a n s :
  String.list_ascii_of_string (String.substring a n s) = take n (drop a (String.list_ascii_of_string s)).
Proof.
  revert a n. induction s as [|c s IH]; intros [|a] [|n]; simpl; try done.
  f_equal. rewrite IH. by rewrite drop_0.
Qed.

Lemma length_chars s : length (String.list_ascii_of_string s) = String.length s.
Proof. induction s; simpl; [done|]. by f_equal. Qed.

Lemma substring_no p a n s : has_no p s → has_no p (String.substring a n s).
Proof.
  intros Hs c. rewrite chars_substring, elem_of_take. intros (i & Hi & _). apply Hs.
  rewrite lookup_drop in Hi. by eapply list_elem_of_lookup_2.
Qed.

(** The groups of an identifier are its digits. *)
Lemma groups_join h :
  String.length h = 32%nat →
  String.substring 0 8 h +:+ String.substring 8 4 h +:+ String.substring 12 4 h +:+ String.substring 16 4 h
    +:+ String.substring 20 12 h = h.
Proof.
  rewrite <-length_chars. intros Hlen. apply chars_inj. rewrite !chars_app, !chars_substring.
  set (l := String.list_ascii_of_string h) in *. rewrite drop_0, (take_ge (drop 20 l)) by (rewrite length_drop; lia).
  assert (∀ a n, take n (drop a l) ++ drop (a + n) l = drop a l) as Hstep.
  { intros a n. rewrite <-drop_drop. apply take_drop. }
  rewrite (Hstep 16%nat 4%nat : take 4 (drop 16 l) ++ drop 20 l = _).
  rewrite (Hstep 12%nat 4%nat : take 4 (drop 12 l) ++ drop 16 l = _).
  rewrite (Hstep 8%nat 4%nat : take 4 (drop 8 l) ++ drop 12 l = _). apply take_drop.
Qed.

(** Plain digits have neither a sign nor a base prefix. *)
Lemma int16_plain s : (∀ c, c ∈ String.list_ascii_of_string s → hex_value c ≠ None) → int16 s = int16_digits s false 0.
Proof.
  intros Hs. unfold int16. unfold strip. rewrite strip_by_none.
  2: { intros c Hc. specialize (Hs c Hc). unfold hex_value in Hs. unfold is_space.
       destruct c as [[] [] [] [] [] [] [] []]; done. }
  destruct s as [|c s]; [done|]. assert (hex_value c ≠ None) as Hc by (apply Hs; left).
  destruct c as [[] [] [] [] [] [] [] []]; try (by destruct Hc); try reflexivity.
  destruct s as [|d s]; [done|]. assert (hex_value d ≠ None) as Hd by (apply Hs; right; left).
  destruct d as [[] [] [] [] [] [] [] []]; try (by destruct Hd); reflexivity.
Qed.

(** [uuid.UUID(str(u)) == u]. *)
Lemma uuid_of_str_uuid u : (u < 2 ^ 128)%N → uuid_of_string (str_uuid u) = Some u.
Proof.
  intros Hu. set (h := hex_digits 32 u EmptyString).
  assert (String.length h = 32%nat) as Hlen by by unfold h; rewrite length_hex_digits.
  assert (∀ p, (∀ c, hex_value c ≠ None → p c = false) → has_no p h) as Hno.
  { intros p Hp. apply hex_digits_no; [done|]. intros c Hc. by apply elem_of_nil in Hc. }
  assert (∀ p, (∀ c, hex_value c ≠ None → p c = false) → p "-"%char = false → has_no p (str_uuid u)) as Hno'.
  { intros p Hp Hd. specialize (Hno p Hp). unfold str_uuid. fold h.
    rewrite !has_no_app, !has_no_cons. assert (has_no p EmptyString) by (intros c Hc; by apply elem_of_nil in Hc).
    repeat split; try done; by apply substring_no. }
  unfold uuid_of_string.
  assert (∀ c d, hex_value d = None → hex_value c ≠ None → Ascii.eqb d c = false) as Hneq.
  { intros c d Hd Hc. destruct (Ascii.eqb_spec d c) as [->|]; [done|done]. }
  rewrite (remove_all_none "u" "rn:"), (remove_all_none "u" "uid:"), strip_by_none;
    try (apply Hno'; [|done]; intros c Hc; rewrite ?(Ascii.eqb_sym c), ?Hneq by done; done).
  assert (remove_all "-" (str_uuid u) = h) as ->.
  { assert (∀ a n, has_no (Ascii.eqb "-") (String.substring a n h)) as Hsub.
    { intros a n. apply substring_no, Hno. intros c Hc. by apply Hneq. }
    unfold str_uuid. fold h. rewrite !remove_group, remove_all_none by done. by apply groups_join. }
  rewrite Hlen. simpl (32 =? 32)%nat. cbn iota. rewrite int16_plain.
  - unfold h. rewrite int16_digits_hex. simpl int16_digits. f_equal. rewrite N.mod_small; [done|exact Hu].
  - intros c Hc Hv. assert (has_no (λ d, match hex_value d with None => true | _ => false end) h) as Hall.
    { apply Hno. intros d Hd. by destruct (hex_value d). }
    specialize (Hall c Hc). cbv beta in Hall. by rewrite Hv in Hall.
Qed.
