(* ===== verification/Ddl.v ===== *)
(** The statements the migrations are made of: PostgreSQL's catalogue and the
    Alembic operations of services/control-plane/migrations/versions/ as
    functions on it.

    The state is the catalogue. What a statement asks of the rows of a table that
    may have some is a [RowCondition], which it leaves in the state of the
    migration: adding a unique constraint, a unique index or a foreign key, and
    converting a column to another enum type. Such a statement asks nothing of a
    table the migration emptied or created, or of a column it added without a
    default. [add_column] refuses a column that is NOT NULL and has no server
    default. *)

From S2P Require Import Prelude Python.
Local Open Scope Z_scope.

(** ** Maps of the catalogue

    Association lists in the order of their keys, so that equal maps are equal
    lists and evaluation is cheap. *)

Abbreviation smap A := (list (string * A)).

Section smap.
Context {A : Type}.

Fixpoint sm_lookup (k : string) (m : smap A) : option A :=
  match m with
  | [] => None
  | (k', v) :: m' => if String.eqb k k' then Some v else sm_lookup k m'
  end.

Fixpoint sm_insert (k : string) (v : A) (m : smap A) : smap A :=
  match m with
  | [] => [(k, v)]
  | (k', v') :: m' =>
      match String.compare k k' with
      | Lt => (k, v) :: m
      | Eq => (k, v) :: m'
      | Gt => (k', v') :: sm_insert k v m'
      end
  end.

Definition sm_delete (k : string) (m : smap A) : smap A := List.filter (λ kv, negb (String.eqb kv.1 k)) m.

Definition sm_mem (k : string) (m : smap A) : bool := existsb (λ kv, String.eqb kv.1 k) m.

Lemma sm_lookup_insert k v m : sm_lookup k (sm_insert k v m) = Some v.
Proof.
  induction m as [|[k' v'] m IH]; simpl; [by rewrite String.eqb_refl|].
  destruct (String.compare k k') eqn:E; simpl; rewrite ?String.eqb_refl; try done.
  destruct (String.eqb_spec k k') as [->|]; [|done].
  pose proof (String.compare_antisym k' k') as Hanti. rewrite E in Hanti. discriminate Hanti.
Qed.

Lemma sm_lookup_insert_ne k j v m : j ≠ k → sm_lookup j (sm_insert k v m) = sm_lookup j m.
Proof.
  intros Hne. induction m as [|[k' v'] m IH]; simpl.
  - by destruct (String.eqb_spec j k).
  - destruct (String.compare k k') eqn:E; simpl.
    + apply String.compare_eq_iff in E as ->. by destruct (String.eqb_spec j k').
    + by destruct (String.eqb_spec j k).
    + by rewrite IH.
Qed.

Lemma sm_lookup_delete k m : sm_lookup k (sm_delete k m) = None.
Proof.
  induction m as [|[k' v'] m IH]; simpl; [done|].
  destruct (String.eqb_spec k' k) as [->|]; simpl; [done|]. by destruct (String.eqb_spec k k').
Qed.

End smap.

(** ** Columns and tables *)

(** The types the models and migrations use; an enum is a type of its own in
    the catalogue. *)
Inductive SqlType : Type :=
| UUID
| String_ (length : Z)
| Text
| Integer
| Boolean
| DateTime (timezone : bool)
| Numeric (precision scale : Z)
| JSONB
| EnumType (name : string).
#[export] Instance SqlType_eq_dec : EqDecision SqlType.
Proof. solve_decision. Defined.

Record ColumnDef := {
  cd_type : SqlType;
  cd_nullable : bool;
  cd_server_default : option string;
}.
#[export] Instance ColumnDef_eq_dec : EqDecision ColumnDef.
Proof. solve_decision. Defined.

Inductive Constraint : Type :=
| Unique (columns : list string)
| ForeignKey (columns : list string) (referent : string) (remote : list string) (ondelete : string).
#[export] Instance Constraint_eq_dec : EqDecision Constraint.
Proof. solve_decision. Defined.

Record IndexDef := {
  ix_columns : list string;
  ix_unique : bool;
  ix_where : option string;
}.
#[export] Instance IndexDef_eq_dec : EqDecision IndexDef.
Proof. solve_decision. Defined.

Record TableDef := {
  td_columns : smap ColumnDef;
  td_primary_key : list string;
  td_constraints : smap Constraint;
  td_indexes : smap IndexDef;
}.
#[export] Instance TableDef_eq_dec : EqDecision TableDef.
Proof. solve_decision. Defined.
#[export] Instance eta_TableDef : Eta TableDef := λ r, Build_TableDef
  (td_columns r) (td_primary_key r) (td_constraints r) (td_indexes r).
#[export] Instance upd_td_columns : Upd td_columns := ltac:(solve_upd).
#[export] Instance upd_td_constraints : Upd td_constraints := ltac:(solve_upd).
#[export] Instance upd_td_indexes : Upd td_indexes := ltac:(solve_upd).

Record Catalog := {
  cat_types : smap (list string);
  cat_tables : smap TableDef;
}.
#[export] Instance Catalog_eq_dec : EqDecision Catalog.
Proof. solve_decision. Defined.
#[export] Instance eta_Catalog : Eta Catalog := λ r, Build_Catalog (cat_types r) (cat_tables r).
#[export] Instance upd_cat_tables : Upd cat_tables := ltac:(solve_upd).
#[export] Instance upd_cat_types : Upd cat_types := ltac:(solve_upd).

Definition empty_catalog : Catalog := {| cat_tables := []; cat_types := [] |}.

(** ** Rows *)

(** What a statement asks of the rows of a table: no two of them (for which the
    predicate holds) have the same values in the columns, none null; every value
    of a column is a label of another type; every value, if none is null, is a key of
    the other table. *)
Inductive RowCondition : Type :=
| Distinct (table : string) (columns : list string) (where_ : option string)
| Castable (table column new_type : string)
| Refers (table : string) (columns : list string) (referent : string) (remote : list string).
#[export] Instance RowCondition_eq_dec : EqDecision RowCondition.
Proof. solve_decision. Defined.

(** A migration that runs: the catalogue, what it made blank (a table without
    rows, or one of its columns without values), and what it asks of the rows. *)
Record Migration := {
  mg_catalog : Catalog;
  mg_blank : list (string * option string);
  mg_asks : list RowCondition;
}.
#[export] Instance eta_Migration : Eta Migration := λ r, Build_Migration (mg_catalog r) (mg_blank r) (mg_asks r).
#[export] Instance upd_mg_catalog : Upd mg_catalog := ltac:(solve_upd).
#[export] Instance upd_mg_blank : Upd mg_blank := ltac:(solve_upd).
#[export] Instance upd_mg_asks : Upd mg_asks := ltac:(solve_upd).

(** ** Errors *)

Inductive ddl_error : Type :=
| DuplicateTable (name : string)
| UndefinedTable (name : string)
| DuplicateColumn (name : string)
| UndefinedColumn (name : string)
| DuplicateObject (name : string)
| UndefinedObject (name : string)
| DependentObjectsStillExist (name : string)
| InvalidForeignKey (name : string)
| NotNullViolation (name : string)
| RowsViolate (condition : RowCondition).

Abbreviation DDL := (ST Migration ddl_error).

Definition catalog {A} (f : Catalog → A) : DDL A := gets (λ s, f (mg_catalog s)).
Definition change_catalog (f : Catalog → Catalog) : DDL unit :=
  modify (λ s, s <| mg_catalog := f (mg_catalog s) |>).

Definition make_blank (table : string) (column : option string) : DDL unit :=
  modify (λ s, s <| mg_blank := (table, column) :: mg_blank s |>).

(** A statement that asks something of the columns of a table. *)
Definition asks (table : string) (columns : list string) (condition : RowCondition) : DDL unit :=
  blank ← gets mg_blank;
  if existsb (λ tc, bool_decide (tc.1 = table)
                    && match tc.2 with Some c => existsb (String.eqb c) columns | None => true end)%bool blank
  then mret tt
  else modify (λ s, s <| mg_asks := mg_asks s ++ [condition] |>).

Definition require (b : bool) (e : ddl_error) : DDL unit := if b then mret tt else raise e.

Definition get_table_def (name : string) : DDL TableDef :=
  tables ← catalog cat_tables;
  match sm_lookup name tables with
  | Some t => mret t
  | None => raise (UndefinedTable name)
  end.

Definition put_table (name : string) (t : TableDef) : DDL unit :=
  change_catalog (λ c, c <| cat_tables := sm_insert name t (cat_tables c) |>).

(** Tables, indexes and unique constraints share one name space, as do the
    constraints of a table. *)
Definition is_unique (k : Constraint) : bool := match k with Unique _ => true | _ => false end.

Definition relation_names (c : Catalog) : list string :=
  concat (map (λ '(name, t), name :: map fst (td_indexes t)
                               ++ map fst (List.filter (λ kv, is_unique kv.2) (td_constraints t)))
              (cat_tables c)).

Definition relation_free (name : string) : DDL unit :=
  c ← catalog id;
  require (negb (existsb (String.eqb name) (relation_names c))) (DuplicateTable name).

(** ** Types *)

Definition create_type (name : string) (labels : list string) : DDL unit :=
  types ← catalog cat_types;
  require (negb (sm_mem name types)) (DuplicateObject name) ;;
  change_catalog (λ c, c <| cat_types := sm_insert name labels (cat_types c) |>).

Definition uses_type (name : string) (t : TableDef) : bool :=
  existsb (λ kv, bool_decide (cd_type kv.2 = EnumType name)) (td_columns t).

(** [DROP TYPE] without [CASCADE] refuses a type that a column has. *)
Definition drop_type (name : string) (if_exists : bool) : DDL unit :=
  c ← catalog id;
  match sm_lookup name (cat_types c) with
  | None => require if_exists (UndefinedObject name)
  | Some _ =>
      require (negb (existsb (λ kv, uses_type name kv.2) (cat_tables c))) (DependentObjectsStillExist name) ;;
      change_catalog (λ c, c <| cat_types := sm_delete name (cat_types c) |>)
  end.

(** [ALTER TYPE .. RENAME TO ..]: the columns that have the type follow. *)
Definition retype (old new : string) (cd : ColumnDef) : ColumnDef :=
  if decide (cd_type cd = EnumType old)
  then {| cd_type := EnumType new; cd_nullable := cd_nullable cd; cd_server_default := cd_server_default cd |}
  else cd.

Definition rename_type (old new : string) : DDL unit :=
  types ← catalog cat_types;
  match sm_lookup old types with
  | None => raise (UndefinedObject old)
  | Some labels =>
      require (negb (sm_mem new types)) (DuplicateObject new) ;;
      change_catalog (λ c, c <| cat_types := sm_insert new labels (sm_delete old (cat_types c)) |>
                     <| cat_tables := prod_map id (λ t, t <| td_columns := prod_map id (retype old new) <$> td_columns t |>) <$> cat_tables c |>)
  end.

(** [ALTER TYPE .. ADD VALUE IF NOT EXISTS ..]: at the end of the labels. *)
Definition add_value (name label : string) : DDL unit :=
  types ← catalog cat_types;
  match sm_lookup name types with
  | None => raise (UndefinedObject name)
  | Some labels =>
      if existsb (String.eqb label) labels then mret tt
      else change_catalog (λ c, c <| cat_types := sm_insert name (labels ++ [label]) (cat_types c) |>)
  end.

Definition type_exists (ty : SqlType) : DDL unit :=
  types ← catalog cat_types;
  match ty with
  | EnumType name => require (sm_mem name types) (UndefinedObject name)
  | _ => mret tt
  end.

(** [ALTER TABLE .. ALTER COLUMN .. TYPE <enum> USING ..]. *)
Definition alter_column_type (table column new_type : string) : DDL unit :=
  t ← get_table_def table;
  type_exists (EnumType new_type) ;;
  match sm_lookup column (td_columns t) with
  | None => raise (UndefinedColumn column)
  | Some cd =>
      asks table [column] (Castable table column new_type) ;;
      put_table table (t <| td_columns := sm_insert column {| cd_type := EnumType new_type; cd_nullable := cd_nullable cd;
                                                              cd_server_default := cd_server_default cd |}
                                            (td_columns t) |>)
  end.

(** [TRUNCATE TABLE .. CASCADE] changes rows only. *)
Definition truncate (table : string) : DDL unit := get_table_def table ;; make_blank table None.

(** ** Constraints and indexes *)

Definition has_columns (t : TableDef) (columns : list string) : bool :=
  forallb (λ c, sm_mem c (td_columns t)) columns.

Definition column_types (t : TableDef) (columns : list string) : list (option SqlType) :=
  map (λ c, cd_type <$> sm_lookup c (td_columns t)) columns.

(** A foreign key refers to the primary key or to unique columns of the other
    table, of the same types. *)
Definition valid_referent (t referent : TableDef) (columns remote : list string) : bool :=
  has_columns t columns && has_columns referent remote
  && bool_decide (column_types t columns = column_types referent remote)
  && (bool_decide (td_primary_key referent = remote)
      || existsb (λ kv, bool_decide (kv.2 = Unique remote)) (td_constraints referent)).

Definition add_constraint (table name : string) (k : Constraint) : DDL unit :=
  t ← get_table_def table;
  require (negb (sm_mem name (td_constraints t))) (DuplicateObject name) ;;
  match k with
  | Unique columns =>
      relation_free name ;;
      require (has_columns t columns) (UndefinedColumn name) ;;
      asks table columns (Distinct table columns None)
  | ForeignKey columns referent remote _ =>
      r ← get_table_def referent;
      require (valid_referent t r columns remote) (InvalidForeignKey name) ;;
      asks table columns (Refers table columns referent remote)
  end ;;
  put_table table (t <| td_constraints := sm_insert name k (td_constraints t) |>).

Definition create_unique_constraint (name table : string) (columns : list string) : DDL unit :=
  add_constraint table name (Unique columns).

Definition create_foreign_key (name source referent : string) (local remote : list string) (ondelete : string) : DDL unit :=
  add_constraint source name (ForeignKey local referent remote ondelete).

(** A unique constraint that a foreign key of another table relies on cannot be
    dropped. *)
Definition relies_on (table : string) (columns : list string) (kv : string * TableDef) : bool :=
  existsb (λ nk, match nk.2 with
                 | ForeignKey _ referent remote _ => (String.eqb referent table && bool_decide (remote = columns))%bool
                 | Unique _ => false
                 end) (td_constraints kv.2).

Definition drop_constraint (name table : string) : DDL unit :=
  t ← get_table_def table;
  c ← catalog id;
  match sm_lookup name (td_constraints t) with
  | None => raise (UndefinedObject name)
  | Some k =>
      match k with
      | Unique columns =>
          require (bool_decide (td_primary_key t = columns)
                   || negb (existsb (relies_on table columns) (cat_tables c)))
            (DependentObjectsStillExist name)
      | ForeignKey _ _ _ _ => mret tt
      end ;;
      put_table table (t <| td_constraints := sm_delete name (td_constraints t) |>)
  end.

Definition create_index (name table : string) (columns : list string) (unique : bool) (where_ : option string) : DDL unit :=
  t ← get_table_def table;
  relation_free name ;;
  require (has_columns t columns) (UndefinedColumn name) ;;
  (if unique then asks table columns (Distinct table columns where_) else mret tt) ;;
  put_table table (t <| td_indexes := sm_insert name {| ix_columns := columns; ix_unique := unique; ix_where := where_ |}
                                        (td_indexes t) |>).

Definition drop_index (name table_name : string) : DDL unit :=
  t ← get_table_def table_name;
  require (sm_mem name (td_indexes t)) (UndefinedObject name) ;;
  put_table table_name (t <| td_indexes := sm_delete name (td_indexes t) |>).

(** ** Tables and columns *)

(** What the arguments of [op.create_table] and [op.add_column] are. A column
    of an enum type brings the type with it, except with [create_type=False]. *)
Inductive ColumnType : Type :=
| Plain (ty : SqlType)
| Enum (labels : list string) (name : string) (create : bool).

Record Column := {
  col_name : string;
  col_type : ColumnType;
  col_nullable : bool;
  col_server_default : option string;
}.

Inductive TableItem : Type :=
| Col (c : Column)
| PrimaryKeyConstraint (columns : list string)
| UniqueConstraint (columns : list string) (name : option string)
| ForeignKeyConstraint (columns : list string) (referent : string) (remote : list string) (ondelete : string).

(** [sa.Column(name, type, nullable=.., server_default=..)] *)
Definition column (name : string) (ty : ColumnType) (nullable : bool) (server_default : option string) : TableItem :=
  Col {| col_name := name; col_type := ty; col_nullable := nullable; col_server_default := server_default |}.

Definition sql_type (ty : ColumnType) : SqlType :=
  match ty with
  | Plain ty => ty
  | Enum _ name _ => EnumType name
  end.

Definition column_def (c : Column) : ColumnDef :=
  {| cd_type := sql_type (col_type c); cd_nullable := col_nullable c; cd_server_default := col_server_default c |}.

Definition create_column_type (c : Column) : DDL unit :=
  match col_type c with
  | Enum labels name true => create_type name labels
  | _ => mret tt
  end ;;
  type_exists (sql_type (col_type c)).

Definition add_new_column (table : string) (c : Column) : DDL unit :=
  t ← get_table_def table;
  require (negb (sm_mem (col_name c) (td_columns t))) (DuplicateColumn (col_name c)) ;;
  create_column_type c ;;
  put_table table (t <| td_columns := sm_insert (col_name c) (column_def c) (td_columns t) |>).

(** The names PostgreSQL gives constraints that have none. *)
Definition default_key_name (table : string) (columns : list string) : string := join "_" (table :: columns) +:+ "_key".
Definition default_fkey_name (table : string) (columns : list string) : string := join "_" (table :: columns) +:+ "_fkey".

Definition add_item (table : string) (item : TableItem) : DDL unit :=
  match item with
  | Col c => add_new_column table c
  | PrimaryKeyConstraint columns =>
      t ← get_table_def table;
      require (has_columns t columns && bool_decide (td_primary_key t = [])) (UndefinedColumn table) ;;
      put_table table {| td_columns := td_columns t; td_primary_key := columns; td_constraints := td_constraints t;
                         td_indexes := td_indexes t |}
  | UniqueConstraint columns name =>
      add_constraint table (default (default_key_name table columns) name) (Unique columns)
  | ForeignKeyConstraint columns referent remote ondelete =>
      add_constraint table (default_fkey_name table columns) (ForeignKey columns referent remote ondelete)
  end.

Definition empty_table : TableDef :=
  {| td_columns := []; td_primary_key := []; td_constraints := []; td_indexes := [] |}.

Definition create_table (name : string) (items : list TableItem) : DDL unit :=
  relation_free name ;;
  put_table name empty_table ;;
  make_blank name None ;;
  for_each items (add_item name).

Definition refers_to (table : string) (kv : string * TableDef) : bool :=
  negb (String.eqb kv.1 table)
  && existsb (λ nk, match nk.2 with
                    | ForeignKey _ referent _ _ => String.eqb referent table
                    | Unique _ => false
                    end) (td_constraints kv.2).

(** Without [CASCADE] a table that another refers to cannot be dropped; its
    types stay. *)
Definition drop_table (name : string) : DDL unit :=
  get_table_def name ;;
  c ← catalog id;
  require (negb (existsb (refers_to name) (cat_tables c))) (DependentObjectsStillExist name) ;;
  change_catalog (λ c, c <| cat_tables := sm_delete name (cat_tables c) |>).

Definition add_column (table : string) (item : TableItem) : DDL unit :=
  match item with
  | Col c =>
      require (col_nullable c || bool_decide (is_Some (col_server_default c))) (NotNullViolation (col_name c)) ;;
      add_new_column table c ;;
      if bool_decide (is_Some (col_server_default c)) then mret tt else make_blank table (Some (col_name c))
  | _ => raise (UndefinedObject table)
  end.

(** [DROP COLUMN] takes the table's own indexes and constraints on the column
    along, and refuses a column that a foreign key refers to. *)
Definition constraint_columns (k : Constraint) : list string :=
  match k with
  | Unique columns => columns
  | ForeignKey columns _ _ _ => columns
  end.

Definition refers_to_column (table column : string) (kv : string * TableDef) : bool :=
  existsb (λ nk, match nk.2 with
                 | ForeignKey _ referent remote _ => (String.eqb referent table && existsb (String.eqb column) remote)%bool
                 | Unique _ => false
                 end) (td_constraints kv.2).

Definition drop_column (table column : string) : DDL unit :=
  t ← get_table_def table;
  c ← catalog id;
  require (sm_mem column (td_columns t)) (UndefinedColumn column) ;;
  require (negb (existsb (String.eqb column) (td_primary_key t))
           && negb (existsb (refers_to_column table column) (cat_tables c)))
    (DependentObjectsStillExist column) ;;
  put_table table
    {| td_columns := sm_delete column (td_columns t);
       td_primary_key := td_primary_key t;
       td_constraints := List.filter (λ nk, negb (existsb (String.eqb column) (constraint_columns nk.2))) (td_constraints t);
       td_indexes := List.filter (λ ni, negb (existsb (String.eqb column) (ix_columns ni.2))) (td_indexes t) |}.
