(* ===== verification/Migrations.v ===== *)
(** The schema's history: services/control-plane/migrations/versions/, one
    definition per [op.create_table] and one per [upgrade] and [downgrade].
    The rows that 0003 inserts are in [AuthService]; the catalogue it leaves alone. *)

From S2P Require Import Prelude Python Ddl.
Local Open Scope Z_scope.

(** ** 0001_baseline.py *)

Definition upgrade_0001 : DDL unit :=
  mret tt.

Definition downgrade_0001 : DDL unit :=
  mret tt.

(** ** 0002_core_schema.py *)

Definition create_applications : DDL unit :=
  create_table "applications"
    [ column "name" (Plain (String_ 255)) false None;
      column "slug" (Plain (String_ 255)) false None;
      column "adapter_type" (Enum ["WINDOWS_WAITRESS_SERVICE"; "LINUX_DOCKER"] "adapter_type" true) false None;
      column "id" (Plain UUID) false None;
      column "created_at" (Plain (DateTime true)) false (Some "now()");
      column "updated_at" (Plain (DateTime true)) false (Some "now()");
      PrimaryKeyConstraint ["id"];
      UniqueConstraint ["slug"] None ].

Definition create_roles : DDL unit :=
  create_table "roles"
    [ column "name" (Plain (String_ 50)) false None;
      column "id" (Plain UUID) false None;
      column "created_at" (Plain (DateTime true)) false (Some "now()");
      column "updated_at" (Plain (DateTime true)) false (Some "now()");
      PrimaryKeyConstraint ["id"];
      UniqueConstraint ["name"] None ].

Definition create_servers : DDL unit :=
  create_table "servers"
    [ column "name" (Plain (String_ 255)) false None;
      column "hostname" (Plain (String_ 255)) false None;
      column "os" (Enum ["WINDOWS"; "LINUX"] "server_os" true) false None;
      column "status" (Enum ["PENDING"; "ACTIVE"; "UNREACHABLE"; "DECOMMISSIONED"] "server_status" true) false None;
      column "id" (Plain UUID) false None;
      column "created_at" (Plain (DateTime true)) false (Some "now()");
      column "updated_at" (Plain (DateTime true)) false (Some "now()");
      PrimaryKeyConstraint ["id"];
      UniqueConstraint ["hostname"] None ].

Definition create_users : DDL unit :=
  create_table "users"
    [ column "email" (Plain (String_ 320)) false None;
      column "password_hash" (Plain (String_ 255)) false None;
      column "is_active" (Plain Boolean) false None;
      column "id" (Plain UUID) false None;
      column "created_at" (Plain (DateTime true)) false (Some "now()");
      column "updated_at" (Plain (DateTime true)) false (Some "now()");
      PrimaryKeyConstraint ["id"];
      UniqueConstraint ["email"] None ].

Definition create_agents : DDL unit :=
  create_table "agents"
    [ column "server_id" (Plain UUID) false None;
      column "agent_version" (Plain (String_ 50)) false None;
      column "status" (Enum ["DISCONNECTED"; "CONNECTED"; "DEGRADED"] "agent_status" true) false None;
      column "last_seen_at" (Plain (DateTime true)) true None;
      column "id" (Plain UUID) false None;
      column "created_at" (Plain (DateTime true)) false (Some "now()");
      column "updated_at" (Plain (DateTime true)) false (Some "now()");
      ForeignKeyConstraint ["server_id"] "servers" ["id"] "CASCADE";
      PrimaryKeyConstraint ["id"];
      UniqueConstraint ["server_id"] None ].

Definition create_audit_logs : DDL unit :=
  create_table "audit_logs"
    [ column "actor_id" (Plain UUID) true None;
      column "action" (Plain (String_ 100)) false None;
      column "target_type" (Plain (String_ 50)) false None;
      column "target_id" (Plain (String_ 64)) false None;
      column "detail" (Plain JSONB) true None;
      column "occurred_at" (Plain (DateTime true)) false None;
      column "id" (Plain UUID) false None;
      ForeignKeyConstraint ["actor_id"] "users" ["id"] "SET NULL";
      PrimaryKeyConstraint ["id"] ].

Definition create_configurations : DDL unit :=
  create_table "configurations"
    [ column "application_id" (Plain UUID) false None;
      column "key" (Plain (String_ 255)) false None;
      column "value" (Plain Text) true None;
      column "id" (Plain UUID) false None;
      column "created_at" (Plain (DateTime true)) false (Some "now()");
      column "updated_at" (Plain (DateTime true)) false (Some "now()");
      ForeignKeyConstraint ["application_id"] "applications" ["id"] "CASCADE";
      PrimaryKeyConstraint ["id"];
      UniqueConstraint ["application_id"; "key"] (Some "uq_configurations_application_key") ].

Definition create_domains : DDL unit :=
  create_table "domains"
    [ column "application_id" (Plain UUID) false None;
      column "hostname" (Plain (String_ 255)) false None;
      column "cert_path" (Plain Text) true None;
      column "key_path" (Plain Text) true None;
      column "id" (Plain UUID) false None;
      column "created_at" (Plain (DateTime true)) false (Some "now()");
      column "updated_at" (Plain (DateTime true)) false (Some "now()");
      ForeignKeyConstraint ["application_id"] "applications" ["id"] "CASCADE";
      PrimaryKeyConstraint ["id"];
      UniqueConstraint ["hostname"] None ].

Definition create_enrollment_tokens : DDL unit :=
  create_table "enrollment_tokens"
    [ column "server_id" (Plain UUID) false None;
      column "token_hash" (Plain (String_ 255)) false None;
      column "expires_at" (Plain (DateTime true)) false None;
      column "used_at" (Plain (DateTime true)) true None;
      column "id" (Plain UUID) false None;
      column "created_at" (Plain (DateTime true)) false (Some "now()");
      column "updated_at" (Plain (DateTime true)) false (Some "now()");
      ForeignKeyConstraint ["server_id"] "servers" ["id"] "CASCADE";
      PrimaryKeyConstraint ["id"];
      UniqueConstraint ["token_hash"] (Some "uq_enrollment_tokens_token_hash") ].

Definition create_health_checks : DDL unit :=
  create_table "health_checks"
    [ column "application_id" (Plain UUID) false None;
      column "check_type" (Enum ["HTTP"; "TCP"] "health_check_type" true) false None;
      column "path" (Plain (String_ 255)) true None;
      column "interval_seconds" (Plain Integer) false None;
      column "timeout_seconds" (Plain Integer) false None;
      column "healthy_threshold" (Plain Integer) false None;
      column "unhealthy_threshold" (Plain Integer) false None;
      column "id" (Plain UUID) false None;
      column "created_at" (Plain (DateTime true)) false (Some "now()");
      column "updated_at" (Plain (DateTime true)) false (Some "now()");
      ForeignKeyConstraint ["application_id"] "applications" ["id"] "CASCADE";
      PrimaryKeyConstraint ["id"];
      UniqueConstraint ["application_id"] (Some "uq_health_checks_application_id") ].

Definition create_metrics_snapshots : DDL unit :=
  create_table "metrics_snapshots"
    [ column "server_id" (Plain UUID) false None;
      column "cpu_percent" (Plain (Numeric 5 2)) false None;
      column "memory_percent" (Plain (Numeric 5 2)) false None;
      column "disk_percent" (Plain (Numeric 5 2)) false None;
      column "recorded_at" (Plain (DateTime true)) false None;
      column "id" (Plain UUID) false None;
      ForeignKeyConstraint ["server_id"] "servers" ["id"] "CASCADE";
      PrimaryKeyConstraint ["id"] ].

Definition create_notifications : DDL unit :=
  create_table "notifications"
    [ column "user_id" (Plain UUID) true None;
      column "notification_type" (Plain (String_ 50)) false None;
      column "message" (Plain Text) false None;
      column "read_at" (Plain (DateTime true)) true None;
      column "created_at" (Plain (DateTime true)) false (Some "now()");
      column "id" (Plain UUID) false None;
      ForeignKeyConstraint ["user_id"] "users" ["id"] "CASCADE";
      PrimaryKeyConstraint ["id"] ].

Definition create_refresh_sessions : DDL unit :=
  create_table "refresh_sessions"
    [ column "user_id" (Plain UUID) false None;
      column "token_hash" (Plain (String_ 255)) false None;
      column "expires_at" (Plain (DateTime true)) false None;
      column "revoked_at" (Plain (DateTime true)) true None;
      column "id" (Plain UUID) false None;
      column "created_at" (Plain (DateTime true)) false (Some "now()");
      column "updated_at" (Plain (DateTime true)) false (Some "now()");
      ForeignKeyConstraint ["user_id"] "users" ["id"] "CASCADE";
      PrimaryKeyConstraint ["id"];
      UniqueConstraint ["token_hash"] (Some "uq_refresh_sessions_token_hash") ].

Definition create_secret_records : DDL unit :=
  create_table "secret_records"
    [ column "application_id" (Plain UUID) true None;
      column "key" (Plain (String_ 255)) false None;
      column "encrypted_value" (Plain Text) false None;
      column "id" (Plain UUID) false None;
      column "created_at" (Plain (DateTime true)) false (Some "now()");
      column "updated_at" (Plain (DateTime true)) false (Some "now()");
      ForeignKeyConstraint ["application_id"] "applications" ["id"] "CASCADE";
      PrimaryKeyConstraint ["id"];
      UniqueConstraint ["application_id"; "key"] (Some "uq_secret_records_application_id_key") ].

Definition create_sources : DDL unit :=
  create_table "sources"
    [ column "application_id" (Plain UUID) false None;
      column "source_type" (Enum ["GIT"; "FOLDER"] "source_type" true) false None;
      column "location" (Plain Text) false None;
      column "id" (Plain UUID) false None;
      column "created_at" (Plain (DateTime true)) false (Some "now()");
      column "updated_at" (Plain (DateTime true)) false (Some "now()");
      ForeignKeyConstraint ["application_id"] "applications" ["id"] "CASCADE";
      PrimaryKeyConstraint ["id"] ].

Definition create_user_roles : DDL unit :=
  create_table "user_roles"
    [ column "user_id" (Plain UUID) false None;
      column "role_id" (Plain UUID) false None;
      column "created_at" (Plain (DateTime true)) false (Some "now()");
      ForeignKeyConstraint ["role_id"] "roles" ["id"] "CASCADE";
      ForeignKeyConstraint ["user_id"] "users" ["id"] "CASCADE";
      PrimaryKeyConstraint ["user_id"; "role_id"] ].

Definition create_agent_commands : DDL unit :=
  create_table "agent_commands"
    [ column "agent_id" (Plain UUID) false None;
      column "command_type" (Enum ["DEPLOY"; "INSTANCE_START"; "INSTANCE_STOP";
          "INSTANCE_RESTART"] "agent_command_type" true) false None;
      column "payload" (Plain JSONB) false None;
      column "idempotency_key" (Plain (String_ 255)) false None;
      column "status" (Enum ["PENDING"; "SENT"; "ACKED"; "FAILED"; "EXPIRED"] "agent_command_status" true) false None;
      column "id" (Plain UUID) false None;
      column "created_at" (Plain (DateTime true)) false (Some "now()");
      column "updated_at" (Plain (DateTime true)) false (Some "now()");
      ForeignKeyConstraint ["agent_id"] "agents" ["id"] "CASCADE";
      PrimaryKeyConstraint ["id"];
      UniqueConstraint ["idempotency_key"] (Some "uq_agent_commands_idempotency_key") ].

Definition create_agent_connections : DDL unit :=
  create_table "agent_connections"
    [ column "agent_id" (Plain UUID) false None;
      column "connected_at" (Plain (DateTime true)) false None;
      column "disconnected_at" (Plain (DateTime true)) true None;
      column "remote_addr" (Plain (String_ 64)) true None;
      column "id" (Plain UUID) false None;
      column "created_at" (Plain (DateTime true)) false (Some "now()");
      column "updated_at" (Plain (DateTime true)) false (Some "now()");
      ForeignKeyConstraint ["agent_id"] "agents" ["id"] "CASCADE";
      PrimaryKeyConstraint ["id"] ].

Definition create_agent_events : DDL unit :=
  create_table "agent_events"
    [ column "agent_id" (Plain UUID) false None;
      column "event_type" (Plain (String_ 100)) false None;
      column "payload" (Plain JSONB) false None;
      column "occurred_at" (Plain (DateTime true)) false None;
      column "id" (Plain UUID) false None;
      column "created_at" (Plain (DateTime true)) false (Some "now()");
      column "updated_at" (Plain (DateTime true)) false (Some "now()");
      ForeignKeyConstraint ["agent_id"] "agents" ["id"] "CASCADE";
      PrimaryKeyConstraint ["id"] ].

Definition create_releases : DDL unit :=
  create_table "releases"
    [ column "application_id" (Plain UUID) false None;
      column "source_id" (Plain UUID) true None;
      column "ref" (Plain (String_ 255)) false None;
      column "status" (Enum ["PENDING"; "BUILDING"; "READY"; "FAILED"] "release_status" true) false None;
      column "id" (Plain UUID) false None;
      column "created_at" (Plain (DateTime true)) false (Some "now()");
      column "updated_at" (Plain (DateTime true)) false (Some "now()");
      ForeignKeyConstraint ["application_id"] "applications" ["id"] "CASCADE";
      ForeignKeyConstraint ["source_id"] "sources" ["id"] "SET NULL";
      PrimaryKeyConstraint ["id"] ].

Definition create_upstream_groups : DDL unit :=
  create_table "upstream_groups"
    [ column "application_id" (Plain UUID) false None;
      column "domain_id" (Plain UUID) false None;
      column "name" (Plain (String_ 255)) false None;
      column "id" (Plain UUID) false None;
      column "created_at" (Plain (DateTime true)) false (Some "now()");
      column "updated_at" (Plain (DateTime true)) false (Some "now()");
      ForeignKeyConstraint ["application_id"] "applications" ["id"] "CASCADE";
      ForeignKeyConstraint ["domain_id"] "domains" ["id"] "CASCADE";
      PrimaryKeyConstraint ["id"];
      UniqueConstraint ["domain_id"; "name"] (Some "uq_upstream_groups_domain_id_name") ].

Definition create_deployments : DDL unit :=
  create_table "deployments"
    [ column "application_id" (Plain UUID) false None;
      column "release_id" (Plain UUID) false None;
      column "status" (Enum ["PENDING"; "IN_PROGRESS"; "SUCCEEDED"; "FAILED";
          "ROLLED_BACK"] "deployment_status" true) false None;
      column "instance_count" (Plain Integer) false None;
      column "zero_downtime" (Plain Boolean) false None;
      column "created_by" (Plain UUID) true None;
      column "id" (Plain UUID) false None;
      column "created_at" (Plain (DateTime true)) false (Some "now()");
      column "updated_at" (Plain (DateTime true)) false (Some "now()");
      ForeignKeyConstraint ["application_id"] "applications" ["id"] "CASCADE";
      ForeignKeyConstraint ["created_by"] "users" ["id"] "SET NULL";
      ForeignKeyConstraint ["release_id"] "releases" ["id"] "CASCADE";
      PrimaryKeyConstraint ["id"] ].

Definition create_instances : DDL unit :=
  create_table "instances"
    [ column "application_id" (Plain UUID) false None;
      column "release_id" (Plain UUID) true None;
      column "server_id" (Plain UUID) false None;
      column "port" (Plain Integer) false None;
      column "status" (Enum ["PENDING"; "STARTING"; "RUNNING"; "UNHEALTHY"; "STOPPED";
          "FAILED"] "instance_status" true) false None;
      column "id" (Plain UUID) false None;
      column "created_at" (Plain (DateTime true)) false (Some "now()");
      column "updated_at" (Plain (DateTime true)) false (Some "now()");
      ForeignKeyConstraint ["application_id"] "applications" ["id"] "CASCADE";
      ForeignKeyConstraint ["release_id"] "releases" ["id"] "SET NULL";
      ForeignKeyConstraint ["server_id"] "servers" ["id"] "CASCADE";
      PrimaryKeyConstraint ["id"];
      UniqueConstraint ["server_id"; "port"] (Some "uq_instances_server_id_port") ].

Definition create_deployment_steps : DDL unit :=
  create_table "deployment_steps"
    [ column "deployment_id" (Plain UUID) false None;
      column "name" (Plain (String_ 100)) false None;
      column "status" (Enum ["PENDING"; "RUNNING"; "SUCCEEDED"; "FAILED";
          "SKIPPED"] "deployment_step_status" true) false None;
      column "started_at" (Plain (DateTime true)) true None;
      column "finished_at" (Plain (DateTime true)) true None;
      column "id" (Plain UUID) false None;
      column "created_at" (Plain (DateTime true)) false (Some "now()");
      column "updated_at" (Plain (DateTime true)) false (Some "now()");
      ForeignKeyConstraint ["deployment_id"] "deployments" ["id"] "CASCADE";
      PrimaryKeyConstraint ["id"] ].

Definition create_health_check_results : DDL unit :=
  create_table "health_check_results"
    [ column "health_check_id" (Plain UUID) false None;
      column "instance_id" (Plain UUID) false None;
      column "healthy" (Plain Boolean) false None;
      column "detail" (Plain Text) true None;
      column "consecutive_failures" (Plain Integer) false None;
      column "checked_at" (Plain (DateTime true)) false None;
      column "id" (Plain UUID) false None;
      ForeignKeyConstraint ["health_check_id"] "health_checks" ["id"] "CASCADE";
      ForeignKeyConstraint ["instance_id"] "instances" ["id"] "CASCADE";
      PrimaryKeyConstraint ["id"] ].

Definition create_upstream_instances : DDL unit :=
  create_table "upstream_instances"
    [ column "upstream_group_id" (Plain UUID) false None;
      column "instance_id" (Plain UUID) false None;
      column "weight" (Plain Integer) false None;
      column "id" (Plain UUID) false None;
      ForeignKeyConstraint ["instance_id"] "instances" ["id"] "CASCADE";
      ForeignKeyConstraint ["upstream_group_id"] "upstream_groups" ["id"] "CASCADE";
      PrimaryKeyConstraint ["id"];
      UniqueConstraint ["upstream_group_id"; "instance_id"] (Some "uq_upstream_instances_group_instance") ].

Definition create_deployment_logs : DDL unit :=
  create_table "deployment_logs"
    [ column "deployment_id" (Plain UUID) false None;
      column "step_id" (Plain UUID) true None;
      column "level" (Plain (String_ 20)) false None;
      column "message" (Plain Text) false None;
      column "created_at" (Plain (DateTime true)) false (Some "now()");
      column "id" (Plain UUID) false None;
      ForeignKeyConstraint ["deployment_id"] "deployments" ["id"] "CASCADE";
      ForeignKeyConstraint ["step_id"] "deployment_steps" ["id"] "SET NULL";
      PrimaryKeyConstraint ["id"] ].

Definition upgrade_0002 : DDL unit :=
  create_applications ;;
  create_roles ;;
  create_servers ;;
  create_index "ix_servers_status" "servers" ["status"] false None ;;
  create_users ;;
  create_agents ;;
  create_index "ix_agents_status" "agents" ["status"] false None ;;
  create_audit_logs ;;
  create_index "ix_audit_logs_occurred_at" "audit_logs" ["occurred_at"] false None ;;
  create_index "ix_audit_logs_target_type_target_id" "audit_logs" ["target_type"; "target_id"] false None ;;
  create_configurations ;;
  create_domains ;;
  create_index "ix_domains_application_id" "domains" ["application_id"] false None ;;
  create_enrollment_tokens ;;
  create_index "ix_enrollment_tokens_server_id" "enrollment_tokens" ["server_id"] false None ;;
  create_health_checks ;;
  create_metrics_snapshots ;;
  create_index "ix_metrics_snapshots_server_id_recorded_at" "metrics_snapshots" ["server_id";
      "recorded_at"] false None ;;
  create_notifications ;;
  create_index "ix_notifications_user_id_read_at" "notifications" ["user_id"; "read_at"] false None ;;
  create_refresh_sessions ;;
  create_index "ix_refresh_sessions_expires_at" "refresh_sessions" ["expires_at"] false None ;;
  create_index "ix_refresh_sessions_user_id" "refresh_sessions" ["user_id"] false None ;;
  create_secret_records ;;
  create_sources ;;
  create_index "ix_sources_application_id" "sources" ["application_id"] false None ;;
  create_user_roles ;;
  create_agent_commands ;;
  create_index "ix_agent_commands_agent_id_status" "agent_commands" ["agent_id"; "status"] false None ;;
  create_agent_connections ;;
  create_index "ix_agent_connections_agent_id_connected_at" "agent_connections" ["agent_id";
      "connected_at"] false None ;;
  create_agent_events ;;
  create_index "ix_agent_events_agent_id_occurred_at" "agent_events" ["agent_id"; "occurred_at"] false None ;;
  create_releases ;;
  create_index "ix_releases_application_id_created_at" "releases" ["application_id"; "created_at"] false None ;;
  create_upstream_groups ;;
  create_deployments ;;
  create_index "ix_deployments_application_id_status" "deployments" ["application_id"; "status"] false None ;;
  create_instances ;;
  create_index "ix_instances_application_id_status" "instances" ["application_id"; "status"] false None ;;
  create_index "ix_instances_server_id_status" "instances" ["server_id"; "status"] false None ;;
  create_deployment_steps ;;
  create_index "ix_deployment_steps_deployment_id_status" "deployment_steps" ["deployment_id"; "status"] false None ;;
  create_health_check_results ;;
  create_index "ix_health_check_results_health_check_id_checked_at" "health_check_results" ["health_check_id";
      "checked_at"] false None ;;
  create_index "ix_health_check_results_instance_id_checked_at" "health_check_results" ["instance_id";
      "checked_at"] false None ;;
  create_upstream_instances ;;
  create_deployment_logs ;;
  create_index "ix_deployment_logs_deployment_id_created_at" "deployment_logs" ["deployment_id";
      "created_at"] false None.

Definition downgrade_0002 : DDL unit :=
  drop_index "ix_deployment_logs_deployment_id_created_at" "deployment_logs" ;;
  drop_table "deployment_logs" ;;
  drop_table "upstream_instances" ;;
  drop_index "ix_health_check_results_instance_id_checked_at" "health_check_results" ;;
  drop_index "ix_health_check_results_health_check_id_checked_at" "health_check_results" ;;
  drop_table "health_check_results" ;;
  drop_index "ix_deployment_steps_deployment_id_status" "deployment_steps" ;;
  drop_table "deployment_steps" ;;
  drop_index "ix_instances_server_id_status" "instances" ;;
  drop_index "ix_instances_application_id_status" "instances" ;;
  drop_table "instances" ;;
  drop_index "ix_deployments_application_id_status" "deployments" ;;
  drop_table "deployments" ;;
  drop_table "upstream_groups" ;;
  drop_index "ix_releases_application_id_created_at" "releases" ;;
  drop_table "releases" ;;
  drop_index "ix_agent_events_agent_id_occurred_at" "agent_events" ;;
  drop_table "agent_events" ;;
  drop_index "ix_agent_connections_agent_id_connected_at" "agent_connections" ;;
  drop_table "agent_connections" ;;
  drop_index "ix_agent_commands_agent_id_status" "agent_commands" ;;
  drop_table "agent_commands" ;;
  drop_table "user_roles" ;;
  drop_index "ix_sources_application_id" "sources" ;;
  drop_table "sources" ;;
  drop_table "secret_records" ;;
  drop_index "ix_refresh_sessions_user_id" "refresh_sessions" ;;
  drop_index "ix_refresh_sessions_expires_at" "refresh_sessions" ;;
  drop_table "refresh_sessions" ;;
  drop_index "ix_notifications_user_id_read_at" "notifications" ;;
  drop_table "notifications" ;;
  drop_index "ix_metrics_snapshots_server_id_recorded_at" "metrics_snapshots" ;;
  drop_table "metrics_snapshots" ;;
  drop_table "health_checks" ;;
  drop_index "ix_enrollment_tokens_server_id" "enrollment_tokens" ;;
  drop_table "enrollment_tokens" ;;
  drop_index "ix_domains_application_id" "domains" ;;
  drop_table "domains" ;;
  drop_table "configurations" ;;
  drop_index "ix_audit_logs_target_type_target_id" "audit_logs" ;;
  drop_index "ix_audit_logs_occurred_at" "audit_logs" ;;
  drop_table "audit_logs" ;;
  drop_index "ix_agents_status" "agents" ;;
  drop_table "agents" ;;
  drop_table "users" ;;
  drop_index "ix_servers_status" "servers" ;;
  drop_table "servers" ;;
  drop_table "roles" ;;
  drop_table "applications" ;;
  for_each ["health_check_type"; "deployment_step_status"; "deployment_status"; "instance_status"; "release_status";
      "source_type"; "agent_command_status"; "agent_command_type"; "agent_status"; "server_status"; "server_os";
      "adapter_type"]
    (λ enum_name, drop_type enum_name true).

(** ** 0003_seed_default_roles.py *)

Definition upgrade_0003 : DDL unit := get_table_def "roles" ;; mret tt.

Definition downgrade_0003 : DDL unit := get_table_def "roles" ;; mret tt.

(** ** 0004_agent_protocol_v2.py *)

Definition NEW_COMMAND_TYPES : list string :=
  ["INSPECT_HOST"; "VALIDATE_APP"; "DEPLOY_RELEASE"; "START_INSTANCE"; "STOP_INSTANCE"; "RESTART_INSTANCE";
      "INSPECT_INSTANCE"; "COLLECT_LOGS"; "COLLECT_METRICS"; "UPDATE_PROXY"].

Definition OLD_COMMAND_TYPES : list string :=
  ["DEPLOY"; "INSTANCE_START"; "INSTANCE_STOP"; "INSTANCE_RESTART"].

Definition NEW_COMMAND_STATUSES : list string :=
  ["PENDING"; "SENT"; "ACKNOWLEDGED"; "RUNNING"; "SUCCEEDED"; "FAILED"; "TIMED_OUT"; "EXPIRED"].

Definition OLD_COMMAND_STATUSES : list string :=
  ["PENDING"; "SENT"; "ACKED"; "FAILED"; "EXPIRED"].

Definition _replace_enum (type_name column_ : string) (new_values : list string) : DDL unit :=
  let old_type_name := type_name +:+ "_prev" in
  rename_type type_name old_type_name ;;
  create_type type_name new_values ;;
  alter_column_type "agent_commands" column_ type_name ;;
  drop_type old_type_name false.

Definition create_agent_command_events : DDL unit :=
  create_table "agent_command_events"
    [ column "command_id" (Plain UUID) false None;
      column "status" (Enum ["PENDING"; "SENT"; "ACKNOWLEDGED"; "RUNNING"; "SUCCEEDED"; "FAILED"; "TIMED_OUT";
          "EXPIRED"] "agent_command_status" false) false None;
      column "detail" (Plain JSONB) true None;
      column "occurred_at" (Plain (DateTime true)) false None;
      column "created_at" (Plain (DateTime true)) false (Some "now()");
      column "id" (Plain UUID) false None;
      ForeignKeyConstraint ["command_id"] "agent_commands" ["id"] "CASCADE";
      PrimaryKeyConstraint ["id"] ].

Definition upgrade_0004 : DDL unit :=
  truncate "agent_commands" ;;
  _replace_enum "agent_command_type" "command_type" NEW_COMMAND_TYPES ;;
  _replace_enum "agent_command_status" "status" NEW_COMMAND_STATUSES ;;
  create_agent_command_events ;;
  create_index "ix_agent_command_events_command_id_occurred_at" "agent_command_events" ["command_id";
      "occurred_at"] false None ;;
  add_column "agent_commands" (column "correlation_id" (Plain UUID) true None) ;;
  add_column "agent_commands" (column "expires_at" (Plain (DateTime true)) true None) ;;
  add_column "agent_commands" (column "result" (Plain JSONB) true None) ;;
  add_column "agent_commands" (column "error" (Plain Text) true None) ;;
  add_column "agents" (column "credential_hash" (Plain (String_ 64)) true None) ;;
  add_column "agents" (column "capabilities" (Plain JSONB) true None) ;;
  create_unique_constraint "uq_agents_credential_hash" "agents" ["credential_hash"] ;;
  add_column "enrollment_tokens" (column "revoked_at" (Plain (DateTime true)) true None).

Definition downgrade_0004 : DDL unit :=
  drop_column "enrollment_tokens" "revoked_at" ;;
  drop_constraint "uq_agents_credential_hash" "agents" ;;
  drop_column "agents" "capabilities" ;;
  drop_column "agents" "credential_hash" ;;
  drop_column "agent_commands" "error" ;;
  drop_column "agent_commands" "result" ;;
  drop_column "agent_commands" "expires_at" ;;
  drop_column "agent_commands" "correlation_id" ;;
  drop_index "ix_agent_command_events_command_id_occurred_at" "agent_command_events" ;;
  drop_table "agent_command_events" ;;
  truncate "agent_commands" ;;
  _replace_enum "agent_command_status" "status" OLD_COMMAND_STATUSES ;;
  _replace_enum "agent_command_type" "command_type" OLD_COMMAND_TYPES.

(** ** 0005_application_config.py *)

Definition upgrade_0005 : DDL unit :=
  add_value "source_type" "DOCKERFILE" ;;
  add_value "source_type" "IMAGE" ;;
  add_column "applications" (column "server_id" (Plain UUID) true None) ;;
  add_column "applications" (column "config" (Plain JSONB) true None) ;;
  add_column "applications" (column "port_range_start" (Plain Integer) true None) ;;
  add_column "applications" (column "port_range_end" (Plain Integer) true None) ;;
  create_foreign_key "fk_applications_server_id_servers" "applications" "servers" ["server_id"] ["id"] "SET NULL" ;;
  add_column "sources" (column "ref" (Plain (String_ 255)) true None).

Definition downgrade_0005 : DDL unit :=
  drop_column "sources" "ref" ;;
  drop_constraint "fk_applications_server_id_servers" "applications" ;;
  drop_column "applications" "port_range_end" ;;
  drop_column "applications" "port_range_start" ;;
  drop_column "applications" "config" ;;
  drop_column "applications" "server_id".

(** ** 0006_deploy_release.py *)

Definition upgrade_0006 : DDL unit :=
  add_column "releases" (column "release_dir" (Plain Text) true None) ;;
  add_column "releases" (column "venv_python" (Plain Text) true None) ;;
  add_column "instances" (column "service_name" (Plain (String_ 255)) true None).

Definition downgrade_0006 : DDL unit :=
  drop_column "instances" "service_name" ;;
  drop_column "releases" "venv_python" ;;
  drop_column "releases" "release_dir".

(** ** 0007_scaling.py *)

Definition upgrade_0007 : DDL unit :=
  add_column "applications" (column "min_replicas" (Plain Integer) false (Some "1")) ;;
  add_column "applications" (column "max_replicas" (Plain Integer) false (Some "1")) ;;
  add_column "applications" (column "desired_replicas" (Plain Integer) false (Some "1")) ;;
  add_column "applications" (column "operation_lock" (Plain (String_ 50)) true None) ;;
  add_column "applications" (column "operation_lock_acquired_at" (Plain (DateTime true)) true None) ;;
  add_column "health_check_results" (column "response_time_ms" (Plain Integer) true None) ;;
  add_column "instances" (column "deployment_id" (Plain UUID) true None) ;;
  create_foreign_key "fk_instances_deployment_id" "instances" "deployments" ["deployment_id"] ["id"] "SET NULL" ;;
  create_index "ix_instances_deployment_id" "instances" ["deployment_id"] false None ;;
  add_value "instance_status" "DRAINING".

Definition downgrade_0007 : DDL unit :=
  drop_index "ix_instances_deployment_id" "instances" ;;
  drop_constraint "fk_instances_deployment_id" "instances" ;;
  drop_column "instances" "deployment_id" ;;
  drop_column "health_check_results" "response_time_ms" ;;
  drop_column "applications" "operation_lock_acquired_at" ;;
  drop_column "applications" "operation_lock" ;;
  drop_column "applications" "desired_replicas" ;;
  drop_column "applications" "max_replicas" ;;
  drop_column "applications" "min_replicas".

(** ** 0008_self_healing.py *)

Definition upgrade_0008 : DDL unit :=
  add_column "health_checks" (column "expected_status" (Plain Integer) true None) ;;
  add_column "health_checks" (column "max_restart_attempts" (Plain Integer) false (Some "3")) ;;
  add_column "health_checks" (column "restart_cooldown_seconds" (Plain Integer) false (Some "30")) ;;
  add_column "instances" (column "healing_attempts" (Plain Integer) false (Some "0")) ;;
  add_column "instances" (column "last_healing_attempt_at" (Plain (DateTime true)) true None) ;;
  add_column "instances" (column "failure_reason" (Plain Text) true None) ;;
  add_value "instance_status" "RESTARTING".

Definition downgrade_0008 : DDL unit :=
  drop_column "instances" "failure_reason" ;;
  drop_column "instances" "last_healing_attempt_at" ;;
  drop_column "instances" "healing_attempts" ;;
  drop_column "health_checks" "restart_cooldown_seconds" ;;
  drop_column "health_checks" "max_restart_attempts" ;;
  drop_column "health_checks" "expected_status".

(** ** 0009_blue_green.py *)

Definition upgrade_0009 : DDL unit :=
  add_column "applications" (column "active_release_id" (Plain UUID) true None) ;;
  create_foreign_key "fk_applications_active_release_id" "applications" "releases" ["active_release_id"] ["id"] "SET NULL" ;;
  add_column "applications" (column "release_retention_count" (Plain Integer) false (Some "5")) ;;
  add_column "deployments" (column "kind" (Plain (String_ 20)) false (Some "deploy")) ;;
  add_column "deployments" (column "failure_reason" (Plain Text) true None).

Definition downgrade_0009 : DDL unit :=
  drop_column "deployments" "failure_reason" ;;
  drop_column "deployments" "kind" ;;
  drop_column "applications" "release_retention_count" ;;
  drop_constraint "fk_applications_active_release_id" "applications" ;;
  drop_column "applications" "active_release_id".

(** ** 0010_linux_docker.py *)

Definition upgrade_0010 : DDL unit :=
  add_column "releases" (column "image_ref" (Plain Text) true None).

Definition downgrade_0010 : DDL unit :=
  drop_column "releases" "image_ref".

(** ** 0011_scope_instance_port_uniqueness_to_live.py *)

Definition upgrade_0011 : DDL unit :=
  drop_constraint "uq_instances_server_id_port" "instances" ;;
  create_index "uq_instances_server_id_port_live" "instances" ["server_id";
      "port"] true (Some "status NOT IN ('STOPPED'::instance_status, 'FAILED'::instance_status)").

Definition downgrade_0011 : DDL unit :=
  drop_index "uq_instances_server_id_port_live" "instances" ;;
  create_unique_constraint "uq_instances_server_id_port" "instances" ["server_id"; "port"].

(** ** The chain of revisions *)

Record Revision := {
  rv_revision : string;
  rv_down_revision : option string;
  rv_upgrade : DDL unit;
  rv_downgrade : DDL unit;
}.

Definition revisions : list Revision :=
  [ {| rv_revision := "0001"; rv_down_revision := None;
       rv_upgrade := upgrade_0001; rv_downgrade := downgrade_0001 |};
    {| rv_revision := "0002"; rv_down_revision := Some "0001";
       rv_upgrade := upgrade_0002; rv_downgrade := downgrade_0002 |};
    {| rv_revision := "0003"; rv_down_revision := Some "0002";
       rv_upgrade := upgrade_0003; rv_downgrade := downgrade_0003 |};
    {| rv_revision := "0004"; rv_down_revision := Some "0003";
       rv_upgrade := upgrade_0004; rv_downgrade := downgrade_0004 |};
    {| rv_revision := "0005"; rv_down_revision := Some "0004";
       rv_upgrade := upgrade_0005; rv_downgrade := downgrade_0005 |};
    {| rv_revision := "0006"; rv_down_revision := Some "0005";
       rv_upgrade := upgrade_0006; rv_downgrade := downgrade_0006 |};
    {| rv_revision := "0007"; rv_down_revision := Some "0006";
       rv_upgrade := upgrade_0007; rv_downgrade := downgrade_0007 |};
    {| rv_revision := "0008"; rv_down_revision := Some "0007";
       rv_upgrade := upgrade_0008; rv_downgrade := downgrade_0008 |};
    {| rv_revision := "0009"; rv_down_revision := Some "0008";
       rv_upgrade := upgrade_0009; rv_downgrade := downgrade_0009 |};
    {| rv_revision := "0010"; rv_down_revision := Some "0009";
       rv_upgrade := upgrade_0010; rv_downgrade := downgrade_0010 |};
    {| rv_revision := "0011"; rv_down_revision := Some "0010";
       rv_upgrade := upgrade_0011; rv_downgrade := downgrade_0011 |} ].
