(* ===== verification/Regex.v ===== *)
(** Regular expressions, for the patterns the sources check names and paths
    with. Matching is executable, by derivatives, and is proved to decide the
    usual language of an expression. *)

From S2P Require Import Prelude.
From Stdlib Require Import Ascii.

Inductive regex : Type :=
| Void
| Eps
| Cls (p : ascii → bool)
| Seq (r1 r2 : regex)
| Alt (r1 r2 : regex)
| Star (r : regex).

(** The language of an expression. *)
Inductive lang : regex → list ascii → Prop :=
| lang_eps : lang Eps []
| lang_cls p c : p c = true → lang (Cls p) [c]
| lang_seq r1 r2 s1 s2 : lang r1 s1 → lang r2 s2 → lang (Seq r1 r2) (s1 ++ s2)
| lang_alt_l r1 r2 s : lang r1 s → lang (Alt r1 r2) s
| lang_alt_r r1 r2 s : lang r2 s → lang (Alt r1 r2) s
| lang_star_nil r : lang (Star r) []
| lang_star_app r s1 s2 : lang r s1 → lang (Star r) s2 → lang (Star r) (s1 ++ s2).

Fixpoint nullable (r : regex) : bool :=
  match r with
  | Void | Cls _ => false
  | Eps | Star _ => true
  | Seq r1 r2 => nullable r1 && nullable r2
  | Alt r1 r2 => nullable r1 || nullable r2
  end.

(** Constructors that drop the trivial cases, to keep derivatives small. *)
Definition seq' (r1 r2 : regex) : regex :=
  match r1 with
  | Void => Void
  | Eps => r2
  | _ => Seq r1 r2
  end.

Definition alt' (r1 r2 : regex) : regex :=
  match r1, r2 with
  | Void, _ => r2
  | _, Void => r1
  | _, _ => Alt r1 r2
  end.

Fixpoint deriv (c : ascii) (r : regex) : regex :=
  match r with
  | Void | Eps => Void
  | Cls p => if p c then Eps else Void
  | Seq r1 r2 =>
      let d := seq' (deriv c r1) r2 in
      if nullable r1 then alt' d (deriv c r2) else d
  | Alt r1 r2 => alt' (deriv c r1) (deriv c r2)
  | Star r1 => seq' (deriv c r1) (Star r1)
  end.

Fixpoint match_list (r : regex) (s : list ascii) : bool :=
  match s with
  | [] => nullable r
  | c :: s' => match_list (deriv c r) s'
  end.

(** The whole string is in the language ([re.fullmatch], and the anchored
    patterns of pydantic fields, whose [$] is the end of the text). *)
Definition fullmatch (r : regex) (s : string) : bool :=
  match_list r (String.list_ascii_of_string s).

(** [re.match] of a pattern that ends in [$]: Python's [$] also matches just
    before a newline that ends the string. *)
Definition newline : ascii := Ascii.ascii_of_nat 10.

Definition match_dollar (r : regex) (s : string) : bool :=
  let l := String.list_ascii_of_string s in
  match_list r l ||
  match rev l with
  | c :: l' => Ascii.eqb c newline && match_list r (rev l')
  | [] => false
  end.

(** ** Notations of the pattern language *)

Definition opt (r : regex) : regex := Alt Eps r.
Definition plus (r : regex) : regex := Seq r (Star r).

(** [r{0,n}] and [r{m,n}] with [n = m + k]. *)
Fixpoint upto (n : nat) (r : regex) : regex :=
  match n with
  | O => Eps
  | S n' => opt (Seq r (upto n' r))
  end.

Fixpoint between (m k : nat) (r : regex) : regex :=
  match m with
  | O => upto k r
  | S m' => Seq r (between m' k r)
  end.

Definition chr (c : ascii) : regex := Cls (Ascii.eqb c).

Fixpoint lit (l : list ascii) : regex :=
  match l with
  | [] => Eps
  | c :: l' => Seq (chr c) (lit l')
  end.

Definition in_range (lo hi : nat) (c : ascii) : bool :=
  let n := Ascii.nat_of_ascii c in (lo <=? n) && (n <=? hi).

Definition is_digit (c : ascii) : bool := in_range 48 57 c.
Definition is_lower (c : ascii) : bool := in_range 97 122 c.
Definition is_upper (c : ascii) : bool := in_range 65 90 c.
Definition is_alpha (c : ascii) : bool := is_lower c || is_upper c.
Definition is_alnum (c : ascii) : bool := is_alpha c || is_digit c.
Definition is_one_of (s : string) (c : ascii) : bool :=
  existsb (Ascii.eqb c) (String.list_ascii_of_string s).

(** ** Correctness of the matcher *)

Lemma lang_seq_inv r1 r2 s :
  lang (Seq r1 r2) s → ∃ s1 s2 : list ascii, s = s1 ++ s2 ∧ lang r1 s1 ∧ lang r2 s2.
Proof. inversion 1; subst; eauto. Qed.

Lemma nullable_lang r : nullable r = true ↔ lang r [].
Proof.
  induction r as [| |p|r1 IH1 r2 IH2|r1 IH1 r2 IH2|r IH]; simpl.
  - split; [done|inversion 1].
  - split; [constructor|done].
  - split; [done|inversion 1].
  - rewrite andb_true_iff, IH1, IH2. split.
    + intros [H1 H2]. by apply (lang_seq _ _ [] []).
    + intros (s1 & s2 & Heq & H1 & H2)%lang_seq_inv. symmetry in Heq.
      by apply app_nil in Heq as [-> ->].
  - rewrite orb_true_iff, IH1, IH2. split; [intros [H|H]; by constructor|].
    inversion 1; auto.
  - split; [constructor|done].
Qed.

Lemma lang_seq' r1 r2 s : lang (seq' r1 r2) s ↔ lang (Seq r1 r2) s.
Proof.
  destruct r1; simpl; try done.
  - split; [inversion 1|]. intros (s1 & s2 & -> & H1 & _)%lang_seq_inv. inversion H1.
  - split; [apply (lang_seq _ _ []); constructor|].
    intros (s1 & s2 & -> & H1 & H2)%lang_seq_inv. by inversion H1; subst.
Qed.

Lemma lang_void s : ¬ lang Void s.
Proof. inversion 1. Qed.

Lemma lang_alt r1 r2 s : lang (Alt r1 r2) s ↔ lang r1 s ∨ lang r2 s.
Proof. split; [inversion 1; auto|intros [?|?]; by constructor]. Qed.

Lemma lang_alt' r1 r2 s : lang (alt' r1 r2) s ↔ lang (Alt r1 r2) s.
Proof.
  rewrite lang_alt. pose proof (lang_void s).
  destruct r1, r2; simpl; rewrite ?lang_alt; naive_solver.
Qed.

Lemma lang_seq_cons c r1 r2 s :
  lang (Seq r1 r2) (c :: s) ↔
  (∃ s1 s2 : list ascii, s = s1 ++ s2 ∧ lang r1 (c :: s1) ∧ lang r2 s2) ∨ (lang r1 [] ∧ lang r2 (c :: s)).
Proof.
  split.
  - intros ([|c' s1] & s2 & Heq & H1 & H2)%lang_seq_inv; simplify_eq/=; [by right|]. left; eauto.
  - intros [(s1 & s2 & -> & H1 & H2)|[H1 H2]].
    + by apply (lang_seq _ _ (c :: s1)).
    + by apply (lang_seq _ _ []).
Qed.

Lemma lang_star_cons c r s :
  lang (Star r) (c :: s) ↔ ∃ s1 s2 : list ascii, s = s1 ++ s2 ∧ lang r (c :: s1) ∧ lang (Star r) s2.
Proof.
  split.
  - remember (Star r) as q eqn:Hq. remember (c :: s) as l eqn:Hl. intros H. revert c s Hl.
    induction H as [| | | | | |r' s1 s2 H1 _ H2 IH2]; intros c0 s0 Hl; simplify_eq.
    destruct s1 as [|c' s1]; simplify_eq/=; [by apply IH2|]. eauto 10.
  - intros (s1 & s2 & -> & H1 & H2). by apply (lang_star_app _ (c :: s1)).
Qed.

Lemma deriv_lang c r s : lang (deriv c r) s ↔ lang r (c :: s).
Proof.
  revert s. induction r as [| |p|r1 IH1 r2 IH2|r1 IH1 r2 IH2|r IH]; intros s; simpl.
  - split; inversion 1.
  - split; inversion 1.
  - destruct (p c) eqn:Hp; split; inversion 1; subst; (by constructor || congruence).
  - rewrite lang_seq_cons. assert (lang (seq' (deriv c r1) r2) s ↔
      ∃ s1 s2 : list ascii, s = s1 ++ s2 ∧ lang r1 (c :: s1) ∧ lang r2 s2) as Hseq.
    { rewrite lang_seq'. split.
      - intros (s1 & s2 & -> & H1 & H2)%lang_seq_inv. apply IH1 in H1. eauto.
      - intros (s1 & s2 & -> & H1 & H2). apply IH1 in H1. by constructor. }
    destruct (nullable r1) eqn:Hn.
    + apply nullable_lang in Hn. rewrite lang_alt', lang_alt, Hseq, IH2. naive_solver.
    + assert (¬ lang r1 []) by (rewrite <- nullable_lang; by rewrite Hn). naive_solver.
  - rewrite lang_alt', !lang_alt, IH1, IH2. done.
  - rewrite lang_seq', lang_star_cons. split.
    + intros (s1 & s2 & -> & H1 & H2)%lang_seq_inv. apply IH in H1. eauto.
    + intros (s1 & s2 & -> & H1 & H2). apply IH in H1. by constructor.
Qed.

Lemma match_list_lang r s : match_list r s = true ↔ lang r s.
Proof.
  revert r. induction s as [|c s IH]; intros r; simpl; [apply nullable_lang|].
  by rewrite IH, deriv_lang.
Qed.

Lemma fullmatch_lang r s : fullmatch r s = true ↔ lang r (String.list_ascii_of_string s).
Proof. apply match_list_lang. Qed.

(** ** The characters an expression can match *)

Fixpoint alphabet (r : regex) (c : ascii) : bool :=
  match r with
  | Void | Eps => false
  | Cls p => p c
  | Seq r1 r2 | Alt r1 r2 => alphabet r1 c || alphabet r2 c
  | Star r1 => alphabet r1 c
  end.

Lemma lang_alphabet r s : lang r s → Forall (λ c, alphabet r c = true) s.
Proof.
  induction 1 as [|p c Hp|r1 r2 s1 s2 _ IH1 _ IH2|r1 r2 s _ IH|r1 r2 s _ IH|r|r s1 s2 _ IH1 _ IH2];
    simpl; rewrite ?Forall_app, ?Forall_singleton; try done.
  all: try split; eapply Forall_impl; try eassumption; simpl; intros ? ->; by rewrite ?orb_true_r.
Qed.

(** Every character of a full match satisfies a predicate that holds of the
    expression's whole alphabet. *)
Lemma fullmatch_alphabet (P : ascii → bool) r s :
  (∀ c, alphabet r c = true → P c = true) →
  fullmatch r s = true → Forall (λ c, P c = true) (String.list_ascii_of_string s).
Proof.
  intros HP Hm. apply fullmatch_lang, lang_alphabet in Hm.
  eapply Forall_impl; [exact Hm|]. auto.
Qed.
