(* ===== verification/Redaction.v ===== *)
(** Redaction of secrets: services/control-plane/app/services/log_redaction.py
    (log lines) and [_redact] of app/schemas/commands.py (command payloads).

    The patterns of log_redaction.py are matched the way [re] does it: the
    alternatives of a pattern in order, repetitions as long as possible first,
    with backtracking. *)

From Stdlib Require Import Ascii.
From S2P Require Import Prelude Python Regex.

Abbreviation text := (list ascii).

Definition to_text (s : string) : text := String.list_ascii_of_string s.
Definition of_text (l : text) : string := String.string_of_list_ascii l.

(** ** Backtracking patterns *)

(** A repetition is always of a character class here. *)
Inductive pattern : Type :=
| PEmpty
| PChar (p : ascii → bool)
| PSeq (a b : pattern)
| PAlt (a b : pattern)
| PStar (p : ascii → bool).

(** The longest run of [p] that lets the rest match. *)
Fixpoint star_match {R} (p : ascii → bool) (s : text) (k : text → option R) : option R :=
  match s with
  | c :: s' =>
      if p c then match star_match p s' k with
                  | Some r => Some r
                  | None => k s
                  end
      else k s
  | [] => k s
  end.

(** Match a prefix of [s], then go on with what is left. *)
Fixpoint bt_match {R} (q : pattern) (s : text) (k : text → option R) : option R :=
  match q with
  | PEmpty => k s
  | PChar p => match s with
               | c :: s' => if p c then k s' else None
               | [] => None
               end
  | PSeq a b => bt_match a s (λ s', bt_match b s' k)
  | PAlt a b => match bt_match a s k with
                | Some r => Some r
                | None => bt_match b s k
                end
  | PStar p => star_match p s k
  end.

Definition plus_of (p : ascii → bool) : pattern := PSeq (PChar p) (PStar p).
Definition opt_of (p : ascii → bool) : pattern := PAlt (PChar p) PEmpty.

Definition fold_case (c d : ascii) : bool := Ascii.eqb (lower_char c) (lower_char d).

(** A word, letters in either case. *)
Fixpoint word (s : string) : pattern :=
  match s with
  | EmptyString => PEmpty
  | String c s' => PSeq (PChar (fold_case c)) (word s')
  end.

Definition alt_all (l : list pattern) : pattern :=
  match rev l with
  | [] => PChar (λ _, false)
  | q :: l' => fold_left (λ acc a, PAlt a acc) l' q
  end.

(** A pattern with the groups [g1], [g2] and [g3], one after the other: what is
    left of [s] behind each of them. *)
Definition groups_match (g1 g2 g3 : pattern) (s : text) : option (text * text * text) :=
  bt_match g1 s (λ s1, bt_match g2 s1 (λ s2, bt_match g3 s2 (λ s3, Some (s1, s2, s3)))).

(** The part of [s] before its suffix [rest]. *)
Definition until (s rest : text) : text := take (length s - length rest) s.

(** ** log_redaction.py *)

Definition _REDACTED : string := "[REDACTED]".

(** [pattern.sub(mask, line)], where the mask keeps the first and the third
    group and puts [_REDACTED] in place of the second; no pattern matches the
    empty string. *)
Fixpoint sub_groups (fuel : nat) (g1 g2 g3 : pattern) (s : text) : text :=
  match fuel, s with
  | S n, c :: s' =>
      match groups_match g1 g2 g3 s with
      | Some (s1, s2, s3) =>
          until s s1 ++ to_text _REDACTED ++ until s2 s3 ++ sub_groups n g1 g2 g3 s3
      | None => c :: sub_groups n g1 g2 g3 s'
      end
  | _, _ => []
  end.

Definition pattern_sub (g1 g2 g3 : pattern) (line : string) : string :=
  of_text (sub_groups (String.length line) g1 g2 g3 (to_text line)).

Definition one_of (chars : string) (c : ascii) : bool := str_has c chars.
Definition none_of (chars : string) (c : ascii) : bool := negb (one_of chars c || is_space c).

Definition quotes : string := String "034" (String "039" "").

(** [api[_-]?key] *)
Definition joined (a b : string) : pattern := PSeq (word a) (PSeq (opt_of (one_of "_-")) (word b)).

Definition _KEY_VALUE_PATTERN : pattern * pattern * pattern :=
  (PSeq (alt_all [ word "password"; word "passwd"; word "pwd"; word "secret"; word "token"; joined "api" "key";
                   joined "access" "key"; word "auth"; word "credential"; joined "client" "secret" ])
     (PSeq (PStar is_space) (PSeq (PChar (one_of ":=")) (PSeq (PStar is_space) (opt_of (one_of quotes))))),
   plus_of (none_of (quotes +:+ "&,;")),
   PEmpty).

Definition bearer_char (c : ascii) : bool := (is_alnum c || one_of "-._~+/" c)%bool.

Definition _BEARER_PATTERN : pattern * pattern * pattern :=
  (PSeq (word "bearer") (plus_of is_space), PSeq (plus_of bearer_char) (PStar (one_of "=")), PEmpty).

Definition _CONNECTION_STRING_PATTERN : pattern * pattern * pattern :=
  (PSeq (word "://") (PSeq (plus_of (none_of ":/@")) (word ":")), plus_of (none_of "@"), word "@").

Definition sub_pattern (g : pattern * pattern * pattern) (line : string) : string :=
  let '(g1, g2, g3) := g in pattern_sub g1 g2 g3 line.

(** [s.replace(value, _REDACTED)] for a [value] that is not empty. *)
Fixpoint replace_text (fuel : nat) (value s : text) : text :=
  match fuel, s with
  | S n, c :: s' =>
      if decide (value `prefix_of` s) then to_text _REDACTED ++ replace_text n value (drop (length value) s)
      else c :: replace_text n value s'
  | _, _ => []
  end.

Definition replace_redacted (value s : string) : string :=
  of_text (replace_text (String.length s) (to_text value) (to_text s)).

Definition redact_values (line : string) (known_secret_values : list string) : string :=
  fold_left (λ redacted value, if String.eqb value "" then redacted else replace_redacted value redacted)
    known_secret_values line.

Definition redact_line (line : string) (known_secret_values : list string) : string :=
  let redacted := redact_values line known_secret_values in
  let redacted := sub_pattern _CONNECTION_STRING_PATTERN redacted in
  let redacted := sub_pattern _BEARER_PATTERN redacted in
  sub_pattern _KEY_VALUE_PATTERN redacted.

Definition redact_lines (lines known_secret_values : list string) : list string :=
  map (λ line, redact_line line known_secret_values) lines.

(** What the patterns do to typical lines. *)
Example redact_url : redact_line "connecting to postgres://app:hunter2@db/app" [] =
  "connecting to postgres://app:[REDACTED]@db/app".
Proof. vm_compute. reflexivity. Qed.

Example redact_bearer : redact_line "Authorization: Bearer abc.def-1== sent" [] =
  "Authorization: Bearer [REDACTED] sent".
Proof. vm_compute. reflexivity. Qed.

Example redact_key_value : redact_line "API-KEY = k123, next" [] = "API-KEY = [REDACTED], next".
Proof. vm_compute. reflexivity. Qed.

Example redact_known : redact_line "value s3cr3t and s3cr3ts3cr3t" ["s3cr3t"] =
  "value [REDACTED] and [REDACTED][REDACTED]".
Proof. vm_compute. reflexivity. Qed.

(** ** Redacted text *)

(** [v] occurs in [t]. *)
Definition occurs (v t : text) : Prop := ∃ a b, t = a ++ v ++ b.

Definition marker : text := to_text _REDACTED.

(** [t] is [s] with some stretches replaced by the marker. *)
Inductive marked : text → text → Prop :=
| marked_nil : marked [] []
| marked_keep c s t : marked s t → marked (c :: s) (c :: t)
| marked_cut x s t : marked s t → marked (x ++ s) (marker ++ t).

Lemma marked_app x s t : marked s t → marked (x ++ s) (x ++ t).
Proof. intros. induction x; simpl; [done|by constructor]. Qed.

(** A value that no marker can produce or complete: it has no bracket and is no
    part of the marker. *)
Definition hideable (v : text) : Prop := (("[" : ascii) ∉ v) ∧ (("]" : ascii) ∉ v) ∧ ¬ occurs v marker.

Lemma occurs_app_r v a t : occurs v t → occurs v (a ++ t).
Proof. intros (x & y & ->). exists (a ++ x), y. by rewrite <-app_assoc. Qed.

Lemma marked_prefix v s t b : (("[" : ascii) ∉ v) → marked s t → t = v ++ b → ∃ b', s = v ++ b'.
Proof.
  intros Hv Hm. revert v b Hv. induction Hm as [|c s t Hm IH|x s t Hm IH]; intros [|c' v] b Hv E; simplify_eq/=.
  - by eexists.
  - by eexists.
  - destruct (IH v b) as (b' & ->); [set_solver|done|]. by exists b'.
  - by eexists.
  - set_solver.
Qed.

Lemma hideable_nonempty v : hideable v → (0 < length v)%nat.
Proof. intros (_ & _ & Hm). destruct v; simpl; [|lia]. destruct Hm. by exists [], marker. Qed.

(** An occurrence of a hideable value lies within what was kept. *)
Lemma hideable_behind_marker v t a b : hideable v → marker ++ t = a ++ v ++ b → ∃ a', t = a' ++ v ++ b.
Proof.
  intros (Ho & Hc & Hm) [(k & Ea & Et)|(k & Ek & Et)]%app_eq_inv; [|by exists k].
  apply app_eq_inv in Et as [(k' & Ev & Eb)|(k' & Ev & Eb)].
  - destruct k as [|c k _] using rev_ind; [by exists []; subst|].
    exfalso. apply Hc. rewrite Ev. assert (c = "]"%char) as ->; [|set_solver].
    change marker with (removelast marker ++ [("]" : ascii)]) in Ea. rewrite app_assoc in Ea.
    by apply app_inj_tail in Ea as [_ <-].
  - exfalso. apply Hm. exists a, k'. by rewrite Ea, Ev.
Qed.

Lemma marked_occurs v s t : hideable v → marked s t → occurs v t → occurs v s.
Proof.
  intros Hv Hm. pose proof Hv as (Ho & _). induction Hm as [|c s t Hm IH|x s t Hm IH]; intros (a & b & E).
  - by exists a, b.
  - destruct a as [|c' a]; simplify_eq/=.
    + destruct (marked_prefix v (c :: s) (c :: t) b) as (b' & E'); [done|by constructor|done|].
      exists [], b'. by rewrite E'.
    + destruct IH as (a' & b' & ->); [by exists a, b|]. by exists (c' :: a'), b'.
  - destruct (hideable_behind_marker v t a b Hv E) as (a' & E'). apply occurs_app_r, IH. by exists a', b.
Qed.

(** ** What the steps of [redact_line] do *)

Lemma replace_text_marked fuel v s : (0 < length v)%nat → (length s <= fuel)%nat → marked s (replace_text fuel v s).
Proof.
  intros Hv. revert s. induction fuel as [|n IH]; intros [|c s] Hf; simpl in *; try by constructor; try lia.
  - lia.
  - case_decide as Hp.
    + destruct Hp as [b E]. rewrite E at 1. apply marked_cut.
      replace b with (drop (length v) (c :: s)) at 1 by (rewrite E; apply drop_app_length).
      apply IH. rewrite length_drop. simpl. lia.
    + constructor. apply IH. lia.
Qed.

(** Once replaced, a value is gone. *)
Lemma replace_text_gone fuel v s :
  hideable v → (length s <= fuel)%nat → ¬ occurs v (replace_text fuel v s).
Proof.
  intros Hv. pose proof (hideable_nonempty v Hv) as Hlen. pose proof Hv as (Ho & _). revert s.
  induction fuel as [|n IH]; intros [|c s] Hf (a & b & E); simpl in *.
  - destruct a, v; simpl in *; [lia|done..].
  - lia.
  - destruct a, v; simpl in *; [lia|done..].
  - case_decide as Hp.
    + destruct (hideable_behind_marker v _ a b Hv E) as (a' & E').
      apply (IH (drop (length v) (c :: s))); [rewrite length_drop; simpl; lia|]. by exists a', b.
    + destruct a as [|c' a]; simplify_eq/=.
      * apply Hp. destruct (marked_prefix v (c :: s) (c :: replace_text n v s) b) as (b' & ->); [done|..|done|by exists b'].
        constructor. apply replace_text_marked; lia.
      * apply (IH s); [lia|]. by exists a, b.
Qed.

Lemma star_match_suffix {R} p s (k : text → option R) r :
  star_match p s k = Some r → ∃ x s', s = x ++ s' ∧ k s' = Some r.
Proof.
  revert r. induction s as [|c s IH]; simpl; intros r E; [by exists [], []|].
  destruct (p c); [|by exists [], (c :: s)].
  destruct (star_match p s k) as [r'|] eqn:E'; simplify_eq/=.
  - destruct (IH r) as (x & s' & -> & Hk); [done|]. by exists (c :: x), s'.
  - by exists [], (c :: s).
Qed.

(** Patterns that match no empty text. *)
Fixpoint needs_char (q : pattern) : bool :=
  match q with
  | PEmpty | PStar _ => false
  | PChar _ => true
  | PSeq a b => needs_char a || needs_char b
  | PAlt a b => needs_char a && needs_char b
  end.

Lemma bt_match_suffix {R} q s (k : text → option R) r :
  bt_match q s k = Some r → ∃ x s', s = x ++ s' ∧ k s' = Some r ∧ (needs_char q = true → x ≠ []).
Proof.
  revert s k r. induction q as [|p|q1 IH1 q2 IH2|q1 IH1 q2 IH2|p]; simpl; intros s k r E.
  - by exists [], s.
  - destruct s as [|c s]; [done|]. destruct (p c); [|done]. by exists [c], s.
  - apply IH1 in E as (x & s' & -> & E & Hx). apply IH2 in E as (y & s'' & -> & E & Hy). exists (x ++ y), s''.
    rewrite <-app_assoc. split_and!; [done..|]. intros [Hn|Hn]%orb_true_iff [-> ->]%app_nil; naive_solver.
  - destruct (bt_match q1 s k) as [r'|] eqn:E1; simplify_eq.
    + apply IH1 in E1 as (x & s' & ? & ? & Hx). exists x, s'. split_and!; [done..|].
      intros [? _]%andb_true_iff. by apply Hx.
    + apply IH2 in E as (x & s' & ? & ? & Hx). exists x, s'. split_and!; [done..|].
      intros [_ ?]%andb_true_iff. by apply Hx.
  - apply star_match_suffix in E as (x & s' & ? & ?). by exists x, s'.
Qed.

Lemma until_app x s : until (x ++ s) s = x.
Proof. unfold until. rewrite length_app. replace (length x + length s - length s)%nat with (length x) by lia. apply take_app_length. Qed.

Lemma groups_match_spec g1 g2 g3 s s1 s2 s3 :
  groups_match g1 g2 g3 s = Some (s1, s2, s3) →
  s = until s s1 ++ s1 ∧ (∃ x, s1 = x ++ s2 ∧ (needs_char g2 = true → x ≠ [])) ∧ s2 = until s2 s3 ++ s3.
Proof.
  intros (x & t1 & -> & (y & t2 & -> & (z & t3 & -> & E & _)%bt_match_suffix & Hy)%bt_match_suffix & _)%bt_match_suffix.
  simplify_eq. rewrite !until_app. eauto.
Qed.

Lemma sub_groups_marked fuel g1 g2 g3 s :
  needs_char g2 = true → (length s <= fuel)%nat → marked s (sub_groups fuel g1 g2 g3 s).
Proof.
  intros Hn. revert s. induction fuel as [|n IH]; intros [|c s] Hf; simpl in *; try by constructor.
  - lia.
  - destruct (groups_match g1 g2 g3 (c :: s)) as [[[s1 s2] s3]|] eqn:E; [|constructor; apply IH; lia].
    apply groups_match_spec in E as (E & (x & E1 & Hx) & E2).
    assert (length s3 < S (length s))%nat as Hl.
    { apply (f_equal length) in E, E1, E2. rewrite length_app in E, E1, E2. simpl in E.
      specialize (Hx Hn). destruct x; [done|]. simpl in E1. lia. }
    rewrite E at 1. apply marked_app. rewrite E1. apply marked_cut. rewrite E2 at 1. apply marked_app, IH. lia.
Qed.

(** ** Redacted lines *)

Lemma to_of_text l : to_text (of_text l) = l.
Proof. apply String.list_ascii_of_string_of_list_ascii. Qed.

Lemma length_to_text s : length (to_text s) = String.length s.
Proof. induction s; simpl; [done|]. by rewrite IHs. Qed.

Lemma sub_pattern_marked g1 g2 g3 line :
  needs_char g2 = true → marked (to_text line) (to_text (sub_pattern (g1, g2, g3) line)).
Proof.
  intros Hn. unfold sub_pattern, pattern_sub. rewrite to_of_text. apply sub_groups_marked; [done|].
  by rewrite length_to_text.
Qed.

Lemma replace_redacted_marked value s :
  value ≠ "" → marked (to_text s) (to_text (replace_redacted value s)).
Proof.
  intros Hv. unfold replace_redacted. rewrite to_of_text. apply replace_text_marked.
  - destruct value; simpl; [done|lia].
  - by rewrite length_to_text.
Qed.

(** The values redacted so far stay redacted. *)
Lemma redact_values_occurs v line values :
  hideable v → occurs v (to_text (redact_values line values)) → occurs v (to_text line).
Proof.
  intros Hv. revert line. induction values as [|x values IH]; simpl; intros line; [done|].
  intros Ho%IH. destruct (String.eqb_spec x ""); [done|].
  eapply marked_occurs; [done|by apply (replace_redacted_marked x)|done].
Qed.

Lemma redact_values_gone v line values :
  v ∈ values → hideable (to_text v) → ¬ occurs (to_text v) (to_text (redact_values line values)).
Proof.
  intros Hin Hv. revert line. induction Hin as [v values|v x values Hin IH]; simpl; intros line; [|by apply IH].
  destruct (String.eqb_spec v "") as [->|Hne].
  - by apply hideable_nonempty in Hv; simpl in Hv; lia.
  - intros Ho%redact_values_occurs; [|done]. revert Ho. unfold replace_redacted. rewrite to_of_text.
    apply replace_text_gone; [done|by rewrite length_to_text].
Qed.

(** The line that is returned is the given one with stretches blacked out. *)
Lemma redact_line_patterns_occurs v line :
  hideable v → occurs v (to_text (redact_line line [])) → occurs v (to_text line).
Proof.
  intros Hv Ho. unfold redact_line in Ho. simpl in Ho.
  do 3 (eapply marked_occurs in Ho; [|done|by apply sub_pattern_marked]). done.
Qed.

Lemma redact_line_split line values : redact_line line values = redact_line (redact_values line values) [].
Proof. done. Qed.

(** No known value survives in a redacted line. *)
Lemma redact_line_hides v line values :
  v ∈ values → hideable (to_text v) → ¬ occurs (to_text v) (to_text (redact_line line values)).
Proof.
  intros Hin Hv. rewrite redact_line_split. intros Ho%redact_line_patterns_occurs; [|done].
  by eapply redact_values_gone.
Qed.

(** ** schemas/commands.py: payloads shown to users *)

(** The values of an ["env"] object at any depth are masked, its keys kept. *)
Fixpoint _redact (value : json) : json :=
  match value with
  | JObj kvs =>
      JObj (map (λ kv, (kv.1, match kv.2 with
                              | JObj inner =>
                                  if String.eqb kv.1 "env" then JObj (map (λ kv', (kv'.1, JStr _REDACTED)) inner)
                                  else _redact kv.2
                              | _ => _redact kv.2
                              end)) kvs)
  | JArr l => JArr (map _redact l)
  | _ => value
  end.

(** The value with other environment values: [f] says which. *)
Fixpoint with_env (f : string → json → json) (value : json) : json :=
  match value with
  | JObj kvs =>
      JObj (map (λ kv, (kv.1, match kv.2 with
                              | JObj inner =>
                                  if String.eqb kv.1 "env" then JObj (map (λ kv', (kv'.1, f kv'.1 kv'.2)) inner)
                                  else with_env f kv.2
                              | _ => with_env f kv.2
                              end)) kvs)
  | JArr l => JArr (map (with_env f) l)
  | _ => value
  end.

(** What is shown does not depend on the environment values. *)
Lemma redact_with_env f value : _redact (with_env f value) = _redact value.
Proof.
  induction value as [| | | | |l IH|kvs IH] using json_induction; simpl; try done.
  - f_equal. rewrite map_map. apply map_ext_Forall. exact IH.
  - f_equal. rewrite map_map. apply map_ext_Forall. eapply Forall_impl; [exact IH|]. intros [k v] Hv. simpl in *.
    f_equal. destruct v as [| | | | |l|inner]; try exact Hv.
    destruct (String.eqb k "env") eqn:E; [|exact Hv]. f_equal. rewrite map_map. done.
Qed.
