(* ===== verification/Enums.v ===== *)
(** Enumerations of services/control-plane/app/db/models/enums.py.

    One module per Python enum, its constructors named as in the source; the
    [_value] functions are the members' string values, the [_of_value]
    functions the enum's constructor from a string ([None] where Python raises
    ValueError). *)

From S2P Require Import Prelude.

Module ServerOS.
Inductive server_os : Type :=
| WINDOWS
| LINUX.
#[global] Instance server_os_eq_dec : EqDecision server_os.
Proof. solve_decision. Defined.
Definition server_os_value (x : server_os) : string :=
  match x with
  | WINDOWS => "windows"
  | LINUX => "linux"
  end.
End ServerOS.
Export ServerOS(server_os, server_os_value).

Module ServerStatus.
Inductive server_status : Type :=
| PENDING
| ACTIVE
| UNREACHABLE
| DECOMMISSIONED.
#[global] Instance server_status_eq_dec : EqDecision server_status.
Proof. solve_decision. Defined.
Definition server_status_value (x : server_status) : string :=
  match x with
  | PENDING => "pending"
  | ACTIVE => "active"
  | UNREACHABLE => "unreachable"
  | DECOMMISSIONED => "decommissioned"
  end.
End ServerStatus.
Export ServerStatus(server_status, server_status_value).

Module AgentStatus.
Inductive agent_status : Type :=
| DISCONNECTED
| CONNECTED
| DEGRADED.
#[global] Instance agent_status_eq_dec : EqDecision agent_status.
Proof. solve_decision. Defined.
Definition agent_status_value (x : agent_status) : string :=
  match x with
  | DISCONNECTED => "disconnected"
  | CONNECTED => "connected"
  | DEGRADED => "degraded"
  end.
End AgentStatus.
Export AgentStatus(agent_status, agent_status_value).

Module AgentCommandType.
Inductive agent_command_type : Type :=
| INSPECT_HOST
| VALIDATE_APP
| DEPLOY_RELEASE
| START_INSTANCE
| STOP_INSTANCE
| RESTART_INSTANCE
| INSPECT_INSTANCE
| COLLECT_LOGS
| COLLECT_METRICS
| UPDATE_PROXY.
#[global] Instance agent_command_type_eq_dec : EqDecision agent_command_type.
Proof. solve_decision. Defined.
Definition agent_command_type_value (x : agent_command_type) : string :=
  match x with
  | INSPECT_HOST => "inspect_host"
  | VALIDATE_APP => "validate_app"
  | DEPLOY_RELEASE => "deploy_release"
  | START_INSTANCE => "start_instance"
  | STOP_INSTANCE => "stop_instance"
  | RESTART_INSTANCE => "restart_instance"
  | INSPECT_INSTANCE => "inspect_instance"
  | COLLECT_LOGS => "collect_logs"
  | COLLECT_METRICS => "collect_metrics"
  | UPDATE_PROXY => "update_proxy"
  end.
End AgentCommandType.
Export AgentCommandType(agent_command_type, agent_command_type_value).

Module AgentCommandStatus.
Inductive agent_command_status : Type :=
| PENDING
| SENT
| ACKNOWLEDGED
| RUNNING
| SUCCEEDED
| FAILED
| TIMED_OUT
| EXPIRED.
#[global] Instance agent_command_status_eq_dec : EqDecision agent_command_status.
Proof. solve_decision. Defined.
Definition agent_command_status_value (x : agent_command_status) : string :=
  match x with
  | PENDING => "pending"
  | SENT => "sent"
  | ACKNOWLEDGED => "acknowledged"
  | RUNNING => "running"
  | SUCCEEDED => "succeeded"
  | FAILED => "failed"
  | TIMED_OUT => "timed_out"
  | EXPIRED => "expired"
  end.
Definition agent_command_status_of_value (v : string) : option agent_command_status :=
  if decide (v = "pending") then Some PENDING
  else if decide (v = "sent") then Some SENT
  else if decide (v = "acknowledged") then Some ACKNOWLEDGED
  else if decide (v = "running") then Some RUNNING
  else if decide (v = "succeeded") then Some SUCCEEDED
  else if decide (v = "failed") then Some FAILED
  else if decide (v = "timed_out") then Some TIMED_OUT
  else if decide (v = "expired") then Some EXPIRED
  else None.
End AgentCommandStatus.
Export AgentCommandStatus(agent_command_status, agent_command_status_value, agent_command_status_of_value).

Module AdapterType.
Inductive adapter_type : Type :=
| WINDOWS_WAITRESS_SERVICE
| LINUX_DOCKER.
#[global] Instance adapter_type_eq_dec : EqDecision adapter_type.
Proof. solve_decision. Defined.
Definition adapter_type_value (x : adapter_type) : string :=
  match x with
  | WINDOWS_WAITRESS_SERVICE => "windows-waitress-service"
  | LINUX_DOCKER => "linux-docker"
  end.
Definition adapter_type_of_value (v : string) : option adapter_type :=
  if decide (v = "windows-waitress-service") then Some WINDOWS_WAITRESS_SERVICE
  else if decide (v = "linux-docker") then Some LINUX_DOCKER
  else None.
End AdapterType.
Export AdapterType(adapter_type, adapter_type_value, adapter_type_of_value).

Module SourceType.
Inductive source_type : Type :=
| GIT
| FOLDER
| DOCKERFILE
| IMAGE.
#[global] Instance source_type_eq_dec : EqDecision source_type.
Proof. solve_decision. Defined.
Definition source_type_value (x : source_type) : string :=
  match x with
  | GIT => "git"
  | FOLDER => "folder"
  | DOCKERFILE => "dockerfile"
  | IMAGE => "image"
  end.
Definition source_type_of_value (v : string) : option source_type :=
  if decide (v = "git") then Some GIT
  else if decide (v = "folder") then Some FOLDER
  else if decide (v = "dockerfile") then Some DOCKERFILE
  else if decide (v = "image") then Some IMAGE
  else None.
End SourceType.
Export SourceType(source_type, source_type_value, source_type_of_value).

Module ReleaseStatus.
Inductive release_status : Type :=
| PENDING
| BUILDING
| READY
| FAILED.
#[global] Instance release_status_eq_dec : EqDecision release_status.
Proof. solve_decision. Defined.
Definition release_status_value (x : release_status) : string :=
  match x with
  | PENDING => "pending"
  | BUILDING => "building"
  | READY => "ready"
  | FAILED => "failed"
  end.
End ReleaseStatus.
Export ReleaseStatus(release_status, release_status_value).

Module InstanceStatus.
Inductive instance_status : Type :=
| PENDING
| STARTING
| RUNNING
| UNHEALTHY
| RESTARTING
| DRAINING
| STOPPED
| FAILED.
#[global] Instance instance_status_eq_dec : EqDecision instance_status.
Proof. solve_decision. Defined.
Definition instance_status_value (x : instance_status) : string :=
  match x with
  | PENDING => "pending"
  | STARTING => "starting"
  | RUNNING => "running"
  | UNHEALTHY => "unhealthy"
  | RESTARTING => "restarting"
  | DRAINING => "draining"
  | STOPPED => "stopped"
  | FAILED => "failed"
  end.
End InstanceStatus.
Export InstanceStatus(instance_status, instance_status_value).

Module DeploymentStatus.
Inductive deployment_status : Type :=
| PENDING
| IN_PROGRESS
| SUCCEEDED
| FAILED
| ROLLED_BACK.
#[global] Instance deployment_status_eq_dec : EqDecision deployment_status.
Proof. solve_decision. Defined.
Definition deployment_status_value (x : deployment_status) : string :=
  match x with
  | PENDING => "pending"
  | IN_PROGRESS => "in_progress"
  | SUCCEEDED => "succeeded"
  | FAILED => "failed"
  | ROLLED_BACK => "rolled_back"
  end.
End DeploymentStatus.
Export DeploymentStatus(deployment_status, deployment_status_value).

Module DeploymentStepStatus.
Inductive deployment_step_status : Type :=
| PENDING
| RUNNING
| SUCCEEDED
| FAILED
| SKIPPED.
#[global] Instance deployment_step_status_eq_dec : EqDecision deployment_step_status.
Proof. solve_decision. Defined.
Definition deployment_step_status_value (x : deployment_step_status) : string :=
  match x with
  | PENDING => "pending"
  | RUNNING => "running"
  | SUCCEEDED => "succeeded"
  | FAILED => "failed"
  | SKIPPED => "skipped"
  end.
End DeploymentStepStatus.
Export DeploymentStepStatus(deployment_step_status, deployment_step_status_value).

Module HealthCheckType.
Inductive health_check_type : Type :=
| HTTP
| TCP.
#[global] Instance health_check_type_eq_dec : EqDecision health_check_type.
Proof. solve_decision. Defined.
Definition health_check_type_value (x : health_check_type) : string :=
  match x with
  | HTTP => "http"
  | TCP => "tcp"
  end.
End HealthCheckType.
Export HealthCheckType(health_check_type, health_check_type_value).
