(* ===== verification/Metadata.v ===== *)
(** The schema as the models declare it: services/control-plane/app/db/models/,
    column by column ([Base.metadata]), and what it means for a catalogue to have
    been built for them. *)

From S2P Require Import Prelude Python Enums Ddl.
Local Open Scope Z_scope.

(** ** Declarations *)

(** A Python enum: the names of its members, which are the labels in the
    database, with their values. *)
Record PyEnum := {
  en_name : string;
  en_members : list (string * string);
}.

Definition py_enum {A} (name : string) (members : list A) (label value : A → string) : PyEnum :=
  {| en_name := name; en_members := map (λ x, (label x, value x)) members |}.

Inductive ModelType : Type :=
| Plain_ (ty : SqlType)
| Enum_ (e : PyEnum).

(** [default=..], which the session applies, not the database. *)
Inductive PyDefault : Type :=
| PyInt (n : Z)
| PyStr (s : string)
| PyBool (b : bool)
| PyMember (name : string)
| PyCall (f : string).

Record MappedColumn := {
  mc_name : string;
  mc_type : ModelType;
  mc_nullable : bool;
  mc_foreign_key : option (string * string * string);
  mc_primary_key : bool;
  mc_unique : bool;
  mc_index : bool;
  mc_default : option PyDefault;
  mc_server_default : option string;
  mc_onupdate : option string;
}.
#[export] Instance eta_MappedColumn : Eta MappedColumn := λ r, Build_MappedColumn
  (mc_name r) (mc_type r) (mc_nullable r) (mc_foreign_key r) (mc_primary_key r) (mc_unique r) (mc_index r)
  (mc_default r) (mc_server_default r) (mc_onupdate r).
#[export] Instance upd_mc_foreign_key : Upd mc_foreign_key := ltac:(solve_upd).
#[export] Instance upd_mc_primary_key : Upd mc_primary_key := ltac:(solve_upd).
#[export] Instance upd_mc_unique : Upd mc_unique := ltac:(solve_upd).
#[export] Instance upd_mc_index : Upd mc_index := ltac:(solve_upd).
#[export] Instance upd_mc_default : Upd mc_default := ltac:(solve_upd).
#[export] Instance upd_mc_server_default : Upd mc_server_default := ltac:(solve_upd).
#[export] Instance upd_mc_onupdate : Upd mc_onupdate := ltac:(solve_upd).

Definition mapped_column (name : string) (ty : ModelType) (nullable : bool) : MappedColumn :=
  {| mc_name := name; mc_type := ty; mc_nullable := nullable; mc_foreign_key := None; mc_primary_key := false;
     mc_unique := false; mc_index := false; mc_default := None; mc_server_default := None; mc_onupdate := None |}.

(** The members of [__table_args__]. *)
Inductive TableArg : Type :=
| ArgUnique (columns : list string) (name : string)
| ArgIndex (name : string) (columns : list string) (unique : bool) (postgresql_where : option string).

Record Model := {
  md_tablename : string;
  md_columns : list MappedColumn;
  md_args : list TableArg;
}.

(** ** enums.py *)

Definition server_os_name (x : server_os) : string :=
  match x with
  | ServerOS.WINDOWS => "WINDOWS"
  | ServerOS.LINUX => "LINUX"
  end.

Definition server_os_members : list server_os :=
  [ ServerOS.WINDOWS; ServerOS.LINUX ].

Definition server_os_enum : PyEnum :=
  py_enum "server_os" server_os_members server_os_name server_os_value.

Definition server_status_name (x : server_status) : string :=
  match x with
  | ServerStatus.PENDING => "PENDING"
  | ServerStatus.ACTIVE => "ACTIVE"
  | ServerStatus.UNREACHABLE => "UNREACHABLE"
  | ServerStatus.DECOMMISSIONED => "DECOMMISSIONED"
  end.

Definition server_status_members : list server_status :=
  [ ServerStatus.PENDING; ServerStatus.ACTIVE; ServerStatus.UNREACHABLE;
     ServerStatus.DECOMMISSIONED ].

Definition server_status_enum : PyEnum :=
  py_enum "server_status" server_status_members server_status_name server_status_value.

Definition agent_status_name (x : agent_status) : string :=
  match x with
  | AgentStatus.DISCONNECTED => "DISCONNECTED"
  | AgentStatus.CONNECTED => "CONNECTED"
  | AgentStatus.DEGRADED => "DEGRADED"
  end.

Definition agent_status_members : list agent_status :=
  [ AgentStatus.DISCONNECTED; AgentStatus.CONNECTED; AgentStatus.DEGRADED ].

Definition agent_status_enum : PyEnum :=
  py_enum "agent_status" agent_status_members agent_status_name agent_status_value.

Definition agent_command_type_name (x : agent_command_type) : string :=
  match x with
  | AgentCommandType.INSPECT_HOST => "INSPECT_HOST"
  | AgentCommandType.VALIDATE_APP => "VALIDATE_APP"
  | AgentCommandType.DEPLOY_RELEASE => "DEPLOY_RELEASE"
  | AgentCommandType.START_INSTANCE => "START_INSTANCE"
  | AgentCommandType.STOP_INSTANCE => "STOP_INSTANCE"
  | AgentCommandType.RESTART_INSTANCE => "RESTART_INSTANCE"
  | AgentCommandType.INSPECT_INSTANCE => "INSPECT_INSTANCE"
  | AgentCommandType.COLLECT_LOGS => "COLLECT_LOGS"
  | AgentCommandType.COLLECT_METRICS => "COLLECT_METRICS"
  | AgentCommandType.UPDATE_PROXY => "UPDATE_PROXY"
  end.

Definition agent_command_type_members : list agent_command_type :=
  [ AgentCommandType.INSPECT_HOST; AgentCommandType.VALIDATE_APP; AgentCommandType.DEPLOY_RELEASE;
     AgentCommandType.START_INSTANCE; AgentCommandType.STOP_INSTANCE;
     AgentCommandType.RESTART_INSTANCE; AgentCommandType.INSPECT_INSTANCE;
     AgentCommandType.COLLECT_LOGS; AgentCommandType.COLLECT_METRICS; AgentCommandType.UPDATE_PROXY ].

Definition agent_command_type_enum : PyEnum :=
  py_enum "agent_command_type" agent_command_type_members agent_command_type_name agent_command_type_value.

Definition agent_command_status_name (x : agent_command_status) : string :=
  match x with
  | AgentCommandStatus.PENDING => "PENDING"
  | AgentCommandStatus.SENT => "SENT"
  | AgentCommandStatus.ACKNOWLEDGED => "ACKNOWLEDGED"
  | AgentCommandStatus.RUNNING => "RUNNING"
  | AgentCommandStatus.SUCCEEDED => "SUCCEEDED"
  | AgentCommandStatus.FAILED => "FAILED"
  | AgentCommandStatus.TIMED_OUT => "TIMED_OUT"
  | AgentCommandStatus.EXPIRED => "EXPIRED"
  end.

Definition agent_command_status_members : list agent_command_status :=
  [ AgentCommandStatus.PENDING; AgentCommandStatus.SENT; AgentCommandStatus.ACKNOWLEDGED;
     AgentCommandStatus.RUNNING; AgentCommandStatus.SUCCEEDED; AgentCommandStatus.FAILED;
     AgentCommandStatus.TIMED_OUT; AgentCommandStatus.EXPIRED ].

Definition agent_command_status_enum : PyEnum :=
  py_enum "agent_command_status" agent_command_status_members agent_command_status_name agent_command_status_value.

Definition adapter_type_name (x : adapter_type) : string :=
  match x with
  | AdapterType.WINDOWS_WAITRESS_SERVICE => "WINDOWS_WAITRESS_SERVICE"
  | AdapterType.LINUX_DOCKER => "LINUX_DOCKER"
  end.

Definition adapter_type_members : list adapter_type :=
  [ AdapterType.WINDOWS_WAITRESS_SERVICE; AdapterType.LINUX_DOCKER ].

Definition adapter_type_enum : PyEnum :=
  py_enum "adapter_type" adapter_type_members adapter_type_name adapter_type_value.

Definition source_type_name (x : source_type) : string :=
  match x with
  | SourceType.GIT => "GIT"
  | SourceType.FOLDER => "FOLDER"
  | SourceType.DOCKERFILE => "DOCKERFILE"
  | SourceType.IMAGE => "IMAGE"
  end.

Definition source_type_members : list source_type :=
  [ SourceType.GIT; SourceType.FOLDER; SourceType.DOCKERFILE; SourceType.IMAGE ].

Definition source_type_enum : PyEnum :=
  py_enum "source_type" source_type_members source_type_name source_type_value.

Definition release_status_name (x : release_status) : string :=
  match x with
  | ReleaseStatus.PENDING => "PENDING"
  | ReleaseStatus.BUILDING => "BUILDING"
  | ReleaseStatus.READY => "READY"
  | ReleaseStatus.FAILED => "FAILED"
  end.

Definition release_status_members : list release_status :=
  [ ReleaseStatus.PENDING; ReleaseStatus.BUILDING; ReleaseStatus.READY; ReleaseStatus.FAILED ].

Definition release_status_enum : PyEnum :=
  py_enum "release_status" release_status_members release_status_name release_status_value.

Definition instance_status_name (x : instance_status) : string :=
  match x with
  | InstanceStatus.PENDING => "PENDING"
  | InstanceStatus.STARTING => "STARTING"
  | InstanceStatus.RUNNING => "RUNNING"
  | InstanceStatus.UNHEALTHY => "UNHEALTHY"
  | InstanceStatus.RESTARTING => "RESTARTING"
  | InstanceStatus.DRAINING => "DRAINING"
  | InstanceStatus.STOPPED => "STOPPED"
  | InstanceStatus.FAILED => "FAILED"
  end.

Definition instance_status_members : list instance_status :=
  [ InstanceStatus.PENDING; InstanceStatus.STARTING; InstanceStatus.RUNNING;
     InstanceStatus.UNHEALTHY; InstanceStatus.RESTARTING; InstanceStatus.DRAINING;
     InstanceStatus.STOPPED; InstanceStatus.FAILED ].

Definition instance_status_enum : PyEnum :=
  py_enum "instance_status" instance_status_members instance_status_name instance_status_value.

Definition deployment_status_name (x : deployment_status) : string :=
  match x with
  | DeploymentStatus.PENDING => "PENDING"
  | DeploymentStatus.IN_PROGRESS => "IN_PROGRESS"
  | DeploymentStatus.SUCCEEDED => "SUCCEEDED"
  | DeploymentStatus.FAILED => "FAILED"
  | DeploymentStatus.ROLLED_BACK => "ROLLED_BACK"
  end.

Definition deployment_status_members : list deployment_status :=
  [ DeploymentStatus.PENDING; DeploymentStatus.IN_PROGRESS; DeploymentStatus.SUCCEEDED;
     DeploymentStatus.FAILED; DeploymentStatus.ROLLED_BACK ].

Definition deployment_status_enum : PyEnum :=
  py_enum "deployment_status" deployment_status_members deployment_status_name deployment_status_value.

Definition deployment_step_status_name (x : deployment_step_status) : string :=
  match x with
  | DeploymentStepStatus.PENDING => "PENDING"
  | DeploymentStepStatus.RUNNING => "RUNNING"
  | DeploymentStepStatus.SUCCEEDED => "SUCCEEDED"
  | DeploymentStepStatus.FAILED => "FAILED"
  | DeploymentStepStatus.SKIPPED => "SKIPPED"
  end.

Definition deployment_step_status_members : list deployment_step_status :=
  [ DeploymentStepStatus.PENDING; DeploymentStepStatus.RUNNING; DeploymentStepStatus.SUCCEEDED;
     DeploymentStepStatus.FAILED; DeploymentStepStatus.SKIPPED ].

Definition deployment_step_status_enum : PyEnum :=
  py_enum "deployment_step_status" deployment_step_status_members deployment_step_status_name deployment_step_status_value.

Definition health_check_type_name (x : health_check_type) : string :=
  match x with
  | HealthCheckType.HTTP => "HTTP"
  | HealthCheckType.TCP => "TCP"
  end.

Definition health_check_type_members : list health_check_type :=
  [ HealthCheckType.HTTP; HealthCheckType.TCP ].

Definition health_check_type_enum : PyEnum :=
  py_enum "health_check_type" health_check_type_members health_check_type_name health_check_type_value.

(** ** mixins.py *)

Definition UUIDPrimaryKeyMixin : list MappedColumn :=
    [ (mapped_column "id" (Plain_ UUID) false) <| mc_primary_key := true |>
         <| mc_default := Some (PyCall "uuid.uuid4") |> ].

Definition TimestampMixin : list MappedColumn :=
    [ (mapped_column "created_at" (Plain_ (DateTime true)) false) <| mc_server_default := Some "now()" |>;
      (mapped_column "updated_at" (Plain_ (DateTime true)) false) <| mc_server_default := Some "now()" |>
         <| mc_onupdate := Some "now()" |> ].

(** ** user.py *)

Definition users_model : Model :=
  {| md_tablename := "users";
     md_columns :=
    [ (mapped_column "email" (Plain_ (String_ 320)) false) <| mc_unique := true |>;
      mapped_column "password_hash" (Plain_ (String_ 255)) false;
      (mapped_column "is_active" (Plain_ Boolean) false) <| mc_default := Some (PyBool true) |> ]
      ++ UUIDPrimaryKeyMixin
      ++ TimestampMixin;
     md_args := [] |}.

Definition roles_model : Model :=
  {| md_tablename := "roles";
     md_columns :=
    [ (mapped_column "name" (Plain_ (String_ 50)) false) <| mc_unique := true |> ]
      ++ UUIDPrimaryKeyMixin
      ++ TimestampMixin;
     md_args := [] |}.

Definition user_roles_model : Model :=
  {| md_tablename := "user_roles";
     md_columns :=
    [ (mapped_column "user_id" (Plain_ UUID) false) <| mc_foreign_key := Some ("users", "id", "CASCADE") |>
         <| mc_primary_key := true |>;
      (mapped_column "role_id" (Plain_ UUID) false) <| mc_foreign_key := Some ("roles", "id", "CASCADE") |>
         <| mc_primary_key := true |>;
      (mapped_column "created_at" (Plain_ (DateTime true)) false) <| mc_server_default := Some "now()" |> ];
     md_args := [] |}.

Definition refresh_sessions_model : Model :=
  {| md_tablename := "refresh_sessions";
     md_columns :=
    [ (mapped_column "user_id" (Plain_ UUID) false) <| mc_foreign_key := Some ("users", "id", "CASCADE") |>
         <| mc_index := true |>;
      mapped_column "token_hash" (Plain_ (String_ 255)) false;
      (mapped_column "expires_at" (Plain_ (DateTime true)) false) <| mc_index := true |>;
      mapped_column "revoked_at" (Plain_ (DateTime true)) true ]
      ++ UUIDPrimaryKeyMixin
      ++ TimestampMixin;
     md_args := [ArgUnique ["token_hash"] "uq_refresh_sessions_token_hash"] |}.

(** ** server.py *)

Definition servers_model : Model :=
  {| md_tablename := "servers";
     md_columns :=
    [ mapped_column "name" (Plain_ (String_ 255)) false;
      (mapped_column "hostname" (Plain_ (String_ 255)) false) <| mc_unique := true |>;
      mapped_column "os" (Enum_ server_os_enum) false;
      (mapped_column "status" (Enum_ server_status_enum) false) <| mc_index := true |>
         <| mc_default := Some (PyMember "PENDING") |> ]
      ++ UUIDPrimaryKeyMixin
      ++ TimestampMixin;
     md_args := [] |}.

Definition enrollment_tokens_model : Model :=
  {| md_tablename := "enrollment_tokens";
     md_columns :=
    [ (mapped_column "server_id" (Plain_ UUID) false) <| mc_foreign_key := Some ("servers", "id", "CASCADE") |>
         <| mc_index := true |>;
      mapped_column "token_hash" (Plain_ (String_ 255)) false;
      mapped_column "expires_at" (Plain_ (DateTime true)) false;
      mapped_column "used_at" (Plain_ (DateTime true)) true;
      mapped_column "revoked_at" (Plain_ (DateTime true)) true ]
      ++ UUIDPrimaryKeyMixin
      ++ TimestampMixin;
     md_args := [ArgUnique ["token_hash"] "uq_enrollment_tokens_token_hash"] |}.

(** ** agent.py *)

Definition agents_model : Model :=
  {| md_tablename := "agents";
     md_columns :=
    [ (mapped_column "server_id" (Plain_ UUID) false) <| mc_foreign_key := Some ("servers", "id", "CASCADE") |>
         <| mc_unique := true |>;
      mapped_column "agent_version" (Plain_ (String_ 50)) false;
      (mapped_column "status" (Enum_ agent_status_enum) false) <| mc_index := true |>
         <| mc_default := Some (PyMember "DISCONNECTED") |>;
      mapped_column "last_seen_at" (Plain_ (DateTime true)) true;
      (mapped_column "credential_hash" (Plain_ (String_ 64)) true) <| mc_unique := true |>;
      mapped_column "capabilities" (Plain_ JSONB) true ]
      ++ UUIDPrimaryKeyMixin
      ++ TimestampMixin;
     md_args := [] |}.

Definition agent_connections_model : Model :=
  {| md_tablename := "agent_connections";
     md_columns :=
    [ (mapped_column "agent_id" (Plain_ UUID) false) <| mc_foreign_key := Some ("agents", "id", "CASCADE") |>;
      mapped_column "connected_at" (Plain_ (DateTime true)) false;
      mapped_column "disconnected_at" (Plain_ (DateTime true)) true;
      mapped_column "remote_addr" (Plain_ (String_ 64)) true ]
      ++ UUIDPrimaryKeyMixin
      ++ TimestampMixin;
     md_args := [ArgIndex "ix_agent_connections_agent_id_connected_at" ["agent_id"; "connected_at"] false None] |}.

Definition agent_commands_model : Model :=
  {| md_tablename := "agent_commands";
     md_columns :=
    [ (mapped_column "agent_id" (Plain_ UUID) false) <| mc_foreign_key := Some ("agents", "id", "CASCADE") |>;
      mapped_column "command_type" (Enum_ agent_command_type_enum) false;
      (mapped_column "payload" (Plain_ JSONB) false) <| mc_default := Some (PyCall "dict") |>;
      mapped_column "idempotency_key" (Plain_ (String_ 255)) false;
      (mapped_column "status" (Enum_ agent_command_status_enum) false)
         <| mc_default := Some (PyMember "PENDING") |>;
      mapped_column "correlation_id" (Plain_ UUID) true;
      mapped_column "expires_at" (Plain_ (DateTime true)) true;
      mapped_column "result" (Plain_ JSONB) true;
      mapped_column "error" (Plain_ Text) true ]
      ++ UUIDPrimaryKeyMixin
      ++ TimestampMixin;
     md_args := [ArgUnique ["idempotency_key"] "uq_agent_commands_idempotency_key";
                  ArgIndex "ix_agent_commands_agent_id_status" ["agent_id"; "status"] false None] |}.

Definition agent_command_events_model : Model :=
  {| md_tablename := "agent_command_events";
     md_columns :=
    [ (mapped_column "command_id" (Plain_ UUID) false)
         <| mc_foreign_key := Some ("agent_commands", "id", "CASCADE") |>;
      mapped_column "status" (Enum_ agent_command_status_enum) false;
      mapped_column "detail" (Plain_ JSONB) true;
      mapped_column "occurred_at" (Plain_ (DateTime true)) false;
      (mapped_column "created_at" (Plain_ (DateTime true)) false) <| mc_server_default := Some "now()" |> ]
      ++ UUIDPrimaryKeyMixin;
     md_args := [ArgIndex "ix_agent_command_events_command_id_occurred_at" ["command_id"; "occurred_at"] false None] |}.

Definition agent_events_model : Model :=
  {| md_tablename := "agent_events";
     md_columns :=
    [ (mapped_column "agent_id" (Plain_ UUID) false) <| mc_foreign_key := Some ("agents", "id", "CASCADE") |>;
      mapped_column "event_type" (Plain_ (String_ 100)) false;
      (mapped_column "payload" (Plain_ JSONB) false) <| mc_default := Some (PyCall "dict") |>;
      mapped_column "occurred_at" (Plain_ (DateTime true)) false ]
      ++ UUIDPrimaryKeyMixin
      ++ TimestampMixin;
     md_args := [ArgIndex "ix_agent_events_agent_id_occurred_at" ["agent_id"; "occurred_at"] false None] |}.

(** ** application.py *)

Definition applications_model : Model :=
  {| md_tablename := "applications";
     md_columns :=
    [ mapped_column "name" (Plain_ (String_ 255)) false;
      (mapped_column "slug" (Plain_ (String_ 255)) false) <| mc_unique := true |>;
      mapped_column "adapter_type" (Enum_ adapter_type_enum) false;
      (mapped_column "server_id" (Plain_ UUID) true) <| mc_foreign_key := Some ("servers", "id", "SET NULL") |>;
      mapped_column "config" (Plain_ JSONB) true;
      mapped_column "port_range_start" (Plain_ Integer) true;
      mapped_column "port_range_end" (Plain_ Integer) true;
      (mapped_column "min_replicas" (Plain_ Integer) false) <| mc_default := Some (PyInt 1) |>;
      (mapped_column "max_replicas" (Plain_ Integer) false) <| mc_default := Some (PyInt 1) |>;
      (mapped_column "desired_replicas" (Plain_ Integer) false) <| mc_default := Some (PyInt 1) |>;
      mapped_column "operation_lock" (Plain_ (String_ 50)) true;
      mapped_column "operation_lock_acquired_at" (Plain_ (DateTime true)) true;
      (mapped_column "active_release_id" (Plain_ UUID) true)
         <| mc_foreign_key := Some ("releases", "id", "SET NULL") |>;
      (mapped_column "release_retention_count" (Plain_ Integer) false) <| mc_default := Some (PyInt 5) |> ]
      ++ UUIDPrimaryKeyMixin
      ++ TimestampMixin;
     md_args := [] |}.

Definition sources_model : Model :=
  {| md_tablename := "sources";
     md_columns :=
    [ (mapped_column "application_id" (Plain_ UUID) false)
         <| mc_foreign_key := Some ("applications", "id", "CASCADE") |> <| mc_index := true |>;
      mapped_column "source_type" (Enum_ source_type_enum) false;
      mapped_column "location" (Plain_ Text) false;
      mapped_column "ref" (Plain_ (String_ 255)) true ]
      ++ UUIDPrimaryKeyMixin
      ++ TimestampMixin;
     md_args := [] |}.

Definition configurations_model : Model :=
  {| md_tablename := "configurations";
     md_columns :=
    [ (mapped_column "application_id" (Plain_ UUID) false)
         <| mc_foreign_key := Some ("applications", "id", "CASCADE") |>;
      mapped_column "key" (Plain_ (String_ 255)) false;
      mapped_column "value" (Plain_ Text) true ]
      ++ UUIDPrimaryKeyMixin
      ++ TimestampMixin;
     md_args := [ArgUnique ["application_id"; "key"] "uq_configurations_application_key"] |}.

Definition releases_model : Model :=
  {| md_tablename := "releases";
     md_columns :=
    [ (mapped_column "application_id" (Plain_ UUID) false)
         <| mc_foreign_key := Some ("applications", "id", "CASCADE") |>;
      (mapped_column "source_id" (Plain_ UUID) true) <| mc_foreign_key := Some ("sources", "id", "SET NULL") |>;
      mapped_column "ref" (Plain_ (String_ 255)) false;
      (mapped_column "status" (Enum_ release_status_enum) false) <| mc_default := Some (PyMember "PENDING") |>;
      mapped_column "release_dir" (Plain_ Text) true;
      mapped_column "venv_python" (Plain_ Text) true;
      mapped_column "image_ref" (Plain_ Text) true ]
      ++ UUIDPrimaryKeyMixin
      ++ TimestampMixin;
     md_args := [ArgIndex "ix_releases_application_id_created_at" ["application_id"; "created_at"] false None] |}.

Definition instances_model : Model :=
  {| md_tablename := "instances";
     md_columns :=
    [ (mapped_column "application_id" (Plain_ UUID) false)
         <| mc_foreign_key := Some ("applications", "id", "CASCADE") |>;
      (mapped_column "release_id" (Plain_ UUID) true) <| mc_foreign_key := Some ("releases", "id", "SET NULL") |>;
      (mapped_column "server_id" (Plain_ UUID) false) <| mc_foreign_key := Some ("servers", "id", "CASCADE") |>;
      mapped_column "port" (Plain_ Integer) false;
      (mapped_column "status" (Enum_ instance_status_enum) false) <| mc_default := Some (PyMember "PENDING") |>;
      mapped_column "service_name" (Plain_ (String_ 255)) true;
      (mapped_column "deployment_id" (Plain_ UUID) true)
         <| mc_foreign_key := Some ("deployments", "id", "SET NULL") |> <| mc_index := true |>;
      (mapped_column "healing_attempts" (Plain_ Integer) false) <| mc_default := Some (PyInt 0) |>;
      mapped_column "last_healing_attempt_at" (Plain_ (DateTime true)) true;
      mapped_column "failure_reason" (Plain_ Text) true ]
      ++ UUIDPrimaryKeyMixin
      ++ TimestampMixin;
     md_args := [ArgIndex "uq_instances_server_id_port_live" ["server_id"; "port"] true
                    (Some "status NOT IN ('STOPPED'::instance_status, 'FAILED'::instance_status)");
                  ArgIndex "ix_instances_application_id_status" ["application_id"; "status"] false None;
                  ArgIndex "ix_instances_server_id_status" ["server_id"; "status"] false None] |}.

(** ** deployment.py *)

Definition deployments_model : Model :=
  {| md_tablename := "deployments";
     md_columns :=
    [ (mapped_column "application_id" (Plain_ UUID) false)
         <| mc_foreign_key := Some ("applications", "id", "CASCADE") |>;
      (mapped_column "release_id" (Plain_ UUID) false) <| mc_foreign_key := Some ("releases", "id", "CASCADE") |>;
      (mapped_column "status" (Enum_ deployment_status_enum) false) <| mc_default := Some (PyMember "PENDING") |>;
      mapped_column "instance_count" (Plain_ Integer) false;
      (mapped_column "zero_downtime" (Plain_ Boolean) false) <| mc_default := Some (PyBool true) |>;
      (mapped_column "kind" (Plain_ (String_ 20)) false) <| mc_default := Some (PyStr "deploy") |>;
      mapped_column "failure_reason" (Plain_ Text) true;
      (mapped_column "created_by" (Plain_ UUID) true) <| mc_foreign_key := Some ("users", "id", "SET NULL") |> ]
      ++ UUIDPrimaryKeyMixin
      ++ TimestampMixin;
     md_args := [ArgIndex "ix_deployments_application_id_status" ["application_id"; "status"] false None] |}.

Definition deployment_steps_model : Model :=
  {| md_tablename := "deployment_steps";
     md_columns :=
    [ (mapped_column "deployment_id" (Plain_ UUID) false)
         <| mc_foreign_key := Some ("deployments", "id", "CASCADE") |>;
      mapped_column "name" (Plain_ (String_ 100)) false;
      (mapped_column "status" (Enum_ deployment_step_status_enum) false)
         <| mc_default := Some (PyMember "PENDING") |>;
      mapped_column "started_at" (Plain_ (DateTime true)) true;
      mapped_column "finished_at" (Plain_ (DateTime true)) true ]
      ++ UUIDPrimaryKeyMixin
      ++ TimestampMixin;
     md_args := [ArgIndex "ix_deployment_steps_deployment_id_status" ["deployment_id"; "status"] false None] |}.

Definition deployment_logs_model : Model :=
  {| md_tablename := "deployment_logs";
     md_columns :=
    [ (mapped_column "deployment_id" (Plain_ UUID) false)
         <| mc_foreign_key := Some ("deployments", "id", "CASCADE") |>;
      (mapped_column "step_id" (Plain_ UUID) true)
         <| mc_foreign_key := Some ("deployment_steps", "id", "SET NULL") |>;
      mapped_column "level" (Plain_ (String_ 20)) false;
      mapped_column "message" (Plain_ Text) false;
      (mapped_column "created_at" (Plain_ (DateTime true)) false) <| mc_server_default := Some "now()" |> ]
      ++ UUIDPrimaryKeyMixin;
     md_args := [ArgIndex "ix_deployment_logs_deployment_id_created_at" ["deployment_id"; "created_at"] false None] |}.

(** ** domain.py *)

Definition domains_model : Model :=
  {| md_tablename := "domains";
     md_columns :=
    [ (mapped_column "application_id" (Plain_ UUID) false)
         <| mc_foreign_key := Some ("applications", "id", "CASCADE") |> <| mc_index := true |>;
      (mapped_column "hostname" (Plain_ (String_ 255)) false) <| mc_unique := true |>;
      mapped_column "cert_path" (Plain_ Text) true;
      mapped_column "key_path" (Plain_ Text) true ]
      ++ UUIDPrimaryKeyMixin
      ++ TimestampMixin;
     md_args := [] |}.

Definition upstream_groups_model : Model :=
  {| md_tablename := "upstream_groups";
     md_columns :=
    [ (mapped_column "application_id" (Plain_ UUID) false)
         <| mc_foreign_key := Some ("applications", "id", "CASCADE") |>;
      (mapped_column "domain_id" (Plain_ UUID) false) <| mc_foreign_key := Some ("domains", "id", "CASCADE") |>;
      mapped_column "name" (Plain_ (String_ 255)) false ]
      ++ UUIDPrimaryKeyMixin
      ++ TimestampMixin;
     md_args := [ArgUnique ["domain_id"; "name"] "uq_upstream_groups_domain_id_name"] |}.

Definition upstream_instances_model : Model :=
  {| md_tablename := "upstream_instances";
     md_columns :=
    [ (mapped_column "upstream_group_id" (Plain_ UUID) false)
         <| mc_foreign_key := Some ("upstream_groups", "id", "CASCADE") |>;
      (mapped_column "instance_id" (Plain_ UUID) false)
         <| mc_foreign_key := Some ("instances", "id", "CASCADE") |>;
      (mapped_column "weight" (Plain_ Integer) false) <| mc_default := Some (PyInt 1) |> ]
      ++ UUIDPrimaryKeyMixin;
     md_args := [ArgUnique ["upstream_group_id"; "instance_id"] "uq_upstream_instances_group_instance"] |}.

(** ** health.py *)

Definition health_checks_model : Model :=
  {| md_tablename := "health_checks";
     md_columns :=
    [ (mapped_column "application_id" (Plain_ UUID) false)
         <| mc_foreign_key := Some ("applications", "id", "CASCADE") |>;
      (mapped_column "check_type" (Enum_ health_check_type_enum) false) <| mc_default := Some (PyMember "HTTP") |>;
      mapped_column "path" (Plain_ (String_ 255)) true;
      (mapped_column "interval_seconds" (Plain_ Integer) false) <| mc_default := Some (PyInt 10) |>;
      (mapped_column "timeout_seconds" (Plain_ Integer) false) <| mc_default := Some (PyInt 5) |>;
      (mapped_column "healthy_threshold" (Plain_ Integer) false) <| mc_default := Some (PyInt 2) |>;
      (mapped_column "unhealthy_threshold" (Plain_ Integer) false) <| mc_default := Some (PyInt 3) |>;
      mapped_column "expected_status" (Plain_ Integer) true;
      (mapped_column "max_restart_attempts" (Plain_ Integer) false) <| mc_default := Some (PyInt 3) |>;
      (mapped_column "restart_cooldown_seconds" (Plain_ Integer) false) <| mc_default := Some (PyInt 30) |> ]
      ++ UUIDPrimaryKeyMixin
      ++ TimestampMixin;
     md_args := [ArgUnique ["application_id"] "uq_health_checks_application_id"] |}.

Definition health_check_results_model : Model :=
  {| md_tablename := "health_check_results";
     md_columns :=
    [ (mapped_column "health_check_id" (Plain_ UUID) false)
         <| mc_foreign_key := Some ("health_checks", "id", "CASCADE") |>;
      (mapped_column "instance_id" (Plain_ UUID) false)
         <| mc_foreign_key := Some ("instances", "id", "CASCADE") |>;
      mapped_column "healthy" (Plain_ Boolean) false;
      mapped_column "detail" (Plain_ Text) true;
      (mapped_column "consecutive_failures" (Plain_ Integer) false) <| mc_default := Some (PyInt 0) |>;
      mapped_column "response_time_ms" (Plain_ Integer) true;
      mapped_column "checked_at" (Plain_ (DateTime true)) false ]
      ++ UUIDPrimaryKeyMixin;
     md_args := [ArgIndex "ix_health_check_results_instance_id_checked_at" ["instance_id"; "checked_at"] false None;
                  ArgIndex "ix_health_check_results_health_check_id_checked_at" ["health_check_id"; "checked_at"] false None] |}.

(** ** secret.py *)

Definition secret_records_model : Model :=
  {| md_tablename := "secret_records";
     md_columns :=
    [ (mapped_column "application_id" (Plain_ UUID) true)
         <| mc_foreign_key := Some ("applications", "id", "CASCADE") |>;
      mapped_column "key" (Plain_ (String_ 255)) false;
      mapped_column "encrypted_value" (Plain_ Text) false ]
      ++ UUIDPrimaryKeyMixin
      ++ TimestampMixin;
     md_args := [ArgUnique ["application_id"; "key"] "uq_secret_records_application_id_key"] |}.

(** ** metrics.py *)

Definition metrics_snapshots_model : Model :=
  {| md_tablename := "metrics_snapshots";
     md_columns :=
    [ (mapped_column "server_id" (Plain_ UUID) false) <| mc_foreign_key := Some ("servers", "id", "CASCADE") |>;
      mapped_column "cpu_percent" (Plain_ (Numeric 5 2)) false;
      mapped_column "memory_percent" (Plain_ (Numeric 5 2)) false;
      mapped_column "disk_percent" (Plain_ (Numeric 5 2)) false;
      mapped_column "recorded_at" (Plain_ (DateTime true)) false ]
      ++ UUIDPrimaryKeyMixin;
     md_args := [ArgIndex "ix_metrics_snapshots_server_id_recorded_at" ["server_id"; "recorded_at"] false None] |}.

(** ** audit.py *)

Definition audit_logs_model : Model :=
  {| md_tablename := "audit_logs";
     md_columns :=
    [ (mapped_column "actor_id" (Plain_ UUID) true) <| mc_foreign_key := Some ("users", "id", "SET NULL") |>;
      mapped_column "action" (Plain_ (String_ 100)) false;
      mapped_column "target_type" (Plain_ (String_ 50)) false;
      mapped_column "target_id" (Plain_ (String_ 64)) false;
      mapped_column "detail" (Plain_ JSONB) true;
      mapped_column "occurred_at" (Plain_ (DateTime true)) false ]
      ++ UUIDPrimaryKeyMixin;
     md_args := [ArgIndex "ix_audit_logs_target_type_target_id" ["target_type"; "target_id"] false None;
                  ArgIndex "ix_audit_logs_occurred_at" ["occurred_at"] false None] |}.

(** ** notification.py *)

Definition notifications_model : Model :=
  {| md_tablename := "notifications";
     md_columns :=
    [ (mapped_column "user_id" (Plain_ UUID) true) <| mc_foreign_key := Some ("users", "id", "CASCADE") |>;
      mapped_column "notification_type" (Plain_ (String_ 50)) false;
      mapped_column "message" (Plain_ Text) false;
      mapped_column "read_at" (Plain_ (DateTime true)) true;
      (mapped_column "created_at" (Plain_ (DateTime true)) false) <| mc_server_default := Some "now()" |> ]
      ++ UUIDPrimaryKeyMixin;
     md_args := [ArgIndex "ix_notifications_user_id_read_at" ["user_id"; "read_at"] false None] |}.

(** [Base.metadata.tables] *)
Definition models : list Model :=
  [ users_model; roles_model; user_roles_model; refresh_sessions_model; servers_model;
    enrollment_tokens_model; agents_model; agent_connections_model; agent_commands_model;
    agent_command_events_model; agent_events_model; applications_model; sources_model;
    configurations_model; releases_model; instances_model; deployments_model; deployment_steps_model;
    deployment_logs_model; domains_model; upstream_groups_model; upstream_instances_model;
    health_checks_model; health_check_results_model; secret_records_model; metrics_snapshots_model;
    audit_logs_model; notifications_model ].

Definition enums : list PyEnum :=
  [ server_os_enum; server_status_enum; agent_status_enum; agent_command_type_enum;
    agent_command_status_enum; adapter_type_enum; source_type_enum; release_status_enum;
    instance_status_enum; deployment_status_enum; deployment_step_status_enum; health_check_type_enum ].
