(* ===== verification/SchemaHistory.v ===== *)
(** The migrations of services/control-plane/migrations/ against the models: what
    it means that a catalogue was built for the models, and the histories of
    upgrades and downgrades over whatever rows the tables hold. *)

From S2P Require Import Prelude Python Enums Ddl Migrations Metadata.
Local Open Scope Z_scope.

(** ** What the models ask of the catalogue *)

Definition model_type (ty : ModelType) : SqlType :=
  match ty with
  | Plain_ ty => ty
  | Enum_ e => EnumType (en_name e)
  end.

(** The server default is the declared one; where none is declared there may be
    one, which then is the default the session applies. *)
Definition default_text (d : PyDefault) : option string :=
  match d with
  | PyInt n => Some (str_int n)
  | PyStr s => Some s
  | PyBool _ | PyMember _ | PyCall _ => None
  end.

Definition default_matches (mc : MappedColumn) (server_default : option string) : Prop :=
  match mc_server_default mc, server_default with
  | Some d, _ => server_default = Some d
  | None, None => True
  | None, Some d => (mc_default mc ≫= default_text) = Some d
  end.

Definition column_matches (mc : MappedColumn) (cd : ColumnDef) : Prop :=
  cd_type cd = model_type (mc_type mc) ∧ cd_nullable cd = mc_nullable mc ∧
  default_matches mc (cd_server_default cd).

Definition model_primary_key (m : Model) : list string := map mc_name (List.filter mc_primary_key (md_columns m)).

(** The unique constraints, named and unnamed, the foreign keys and the indexes
    a model declares. *)
Definition named_uniques (m : Model) : list (string * list string) :=
  omap (λ a, match a with ArgUnique columns name => Some (name, columns) | _ => None end) (md_args m).

Definition model_uniques (m : Model) : list (list string) :=
  map snd (named_uniques m) ++ map (λ mc, [mc_name mc]) (List.filter mc_unique (md_columns m)).

Definition model_foreign_keys (m : Model) : list (list string * string * list string * string) :=
  omap (λ mc, '(table, column, ondelete) ← mc_foreign_key mc; Some ([mc_name mc], table, [column], ondelete))
       (md_columns m).

Definition model_indexes (m : Model) : list (string * IndexDef) :=
  omap (λ a, match a with
                | ArgIndex name columns unique where_ =>
                    Some (name, {| ix_columns := columns; ix_unique := unique; ix_where := where_ |})
                | ArgUnique _ _ => None
                end) (md_args m)
  ++ map (λ mc, ("ix_" +:+ md_tablename m +:+ "_" +:+ mc_name mc,
                    {| ix_columns := [mc_name mc]; ix_unique := false; ix_where := None |}))
       (List.filter mc_index (md_columns m)).

(** What a table of the catalogue has. *)
Definition table_uniques (t : TableDef) : list (list string) :=
  omap (λ nk, match nk.2 with Unique columns => Some columns | _ => None end) (td_constraints t).

Definition table_foreign_keys (t : TableDef) : list (list string * string * list string * string) :=
  omap (λ nk, match nk.2 with
              | ForeignKey columns referent remote ondelete => Some (columns, referent, remote, ondelete)
              | Unique _ => None
              end) (td_constraints t).

(** Two lists with the same members. *)
Definition same_elements {A} (l k : list A) : Prop := Forall (λ x, x ∈ k) l ∧ Forall (λ x, x ∈ l) k.

(** The value under a key satisfies [P]. *)
Definition holds_at {A} (P : A → Prop) (o : option A) : Prop :=
  match o with
  | Some a => P a
  | None => False
  end.

Definition table_matches (m : Model) (t : TableDef) : Prop :=
  same_elements (map fst (td_columns t)) (map mc_name (md_columns m)) ∧
  Forall (λ mc, holds_at (column_matches mc) (sm_lookup (mc_name mc) (td_columns t))) (md_columns m) ∧
  td_primary_key t = model_primary_key m ∧
  same_elements (table_uniques t) (model_uniques m) ∧
  Forall (λ nc, sm_lookup nc.1 (td_constraints t) = Some (Unique nc.2)) (named_uniques m) ∧
  same_elements (table_foreign_keys t) (model_foreign_keys m) ∧
  same_elements (td_indexes t) (model_indexes m).

(** The labels are the names of the members, in any order. *)
Definition type_matches (e : PyEnum) (labels : list string) : Prop :=
  NoDup labels ∧ same_elements labels (map fst (en_members e)).

Definition catalog_matches (c : Catalog) : Prop :=
  same_elements (map fst (cat_tables c)) (map md_tablename models) ∧
  Forall (λ m, holds_at (table_matches m) (sm_lookup (md_tablename m) (cat_tables c))) models ∧
  same_elements (map fst (cat_types c)) (map en_name enums) ∧
  Forall (λ e, holds_at (type_matches e) (sm_lookup (en_name e) (cat_types c))) enums.

#[export] Instance same_elements_dec {A} `{!EqDecision A} (l k : list A) : Decision (same_elements l k).
Proof. unfold same_elements. apply _. Defined.
#[export] Instance default_matches_dec mc d : Decision (default_matches mc d).
Proof. unfold default_matches. destruct (mc_server_default mc), d; apply _. Defined.
#[export] Instance column_matches_dec mc cd : Decision (column_matches mc cd).
Proof. unfold column_matches. apply _. Defined.
#[export] Instance holds_at_dec {A} (P : A → Prop) `{!∀ a, Decision (P a)} o : Decision (holds_at P o).
Proof. destruct o; simpl; apply _. Defined.
#[export] Instance table_matches_dec m t : Decision (table_matches m t).
Proof. unfold table_matches. apply _. Defined.
#[export] Instance type_matches_dec e l : Decision (type_matches e l).
Proof. unfold type_matches. apply _. Defined.
#[export] Instance catalog_matches_dec c : Decision (catalog_matches c).
Proof. unfold catalog_matches. apply _. Defined.

(** ** Histories *)

Inductive Move : Type := Upgrade | Downgrade.
#[export] Instance Move_eq_dec : EqDecision Move.
Proof. solve_decision. Defined.

(** The number of revisions applied, and the catalogue. *)
Definition State : Type := nat * Catalog.

(** What a revision does to the catalogue and what it asks of the rows. *)
Definition run_revision (step : DDL unit) (c : Catalog) : result ddl_error (Catalog * list RowCondition) :=
  match step {| mg_catalog := c; mg_blank := []; mg_asks := [] |} with
  | (Ok _, s) => Ok (mg_catalog s, mg_asks s)
  | (Raise e, _) => Raise e
  end.

(** [alembic upgrade +1] and [alembic downgrade -1]; at the ends of the chain
    nothing is left to do. *)
Definition plan (m : Move) (s : State) : result ddl_error (State * list RowCondition) :=
  let '(n, c) := s in
  let run step n' :=
    match run_revision step c with Ok (c', need) => Ok ((n', c'), need) | Raise e => Raise e end in
  match m, n with
  | Upgrade, _ => match revisions !! n with Some r => run (rv_upgrade r) (S n) | None => Ok (s, []) end
  | Downgrade, S k => match revisions !! k with Some r => run (rv_downgrade r) k | None => Ok (s, []) end
  | Downgrade, O => Ok (s, [])
  end.

(** What the rows of the database satisfy. *)
Definition Rows : Type := RowCondition → bool.

Definition no_rows : Rows := λ _, true.

(** A revision fails on the first condition that the rows do not satisfy. *)
Definition move (rows : Rows) (m : Move) (s : State) : result ddl_error State :=
  match plan m s with
  | Ok (s', need) =>
      match List.find (λ k, negb (rows k)) need with
      | Some k => Raise (RowsViolate k)
      | None => Ok s'
      end
  | Raise e => Raise e
  end.

Fixpoint moves (rows : Rows) (l : list Move) (s : State) : result ddl_error State :=
  match l with
  | [] => Ok s
  | m :: l' => match move rows m s with Ok s' => moves rows l' s' | Raise e => Raise e end
  end.

Definition base : State := (0%nat, empty_catalog).

Definition catalog_of (r : result ddl_error State) : Catalog :=
  match r with Ok (_, c) => c | Raise _ => empty_catalog end.

(** The catalogue after the first [n] upgrades. *)
Definition upgraded (n : nat) : Catalog := catalog_of (moves no_rows (repeat Upgrade n) base).

(** The states on the way from [n] revisions back to the base. *)
Fixpoint way_back (n : nat) (c : Catalog) : list State :=
  (n, c) :: match n with
            | O => []
            | S k => match move no_rows Downgrade (n, c) with Ok (_, c') => way_back k c' | Raise _ => [] end
            end.

(** Every state that upgrades and downgrades lead to: those of a first upgrade,
    and those that a downgrade leaves, which differ from them in the enum labels
    that 0005, 0007 and 0008 added. *)
Definition known : list State := concat (map (λ n, way_back n (upgraded n)) [4; 6; 7; 11]%nat).

Definition head : nat := 11.

(** The number of revisions applied after a move that succeeds. *)
Definition target (m : Move) (n : nat) : nat :=
  match m with
  | Upgrade => Nat.min head (S n)
  | Downgrade => pred n
  end.

(** What the rows satisfy because the database enforces the constraints and
    unique indexes of the catalogue. *)
Definition obeys (rows : Rows) (c : Catalog) : Prop :=
  ∀ table t, sm_lookup table (cat_tables c) = Some t →
    (∀ name columns where_, (name, Unique columns) ∈ td_constraints t → rows (Distinct table columns where_) = true) ∧
    (∀ name ix, (name, ix) ∈ td_indexes t → ix_unique ix = true → rows (Distinct table (ix_columns ix) (ix_where ix)) = true).

(** The catalogue enforces the condition. *)
Definition granted (c : Catalog) (k : RowCondition) : bool :=
  match k with
  | Distinct table columns where_ =>
      match sm_lookup table (cat_tables c) with
      | Some t =>
          existsb (λ nk, bool_decide (nk.2 = Unique columns)) (td_constraints t)
          || existsb (λ ni, ix_unique ni.2 && bool_decide (ix_columns ni.2 = columns)
                            && bool_decide (ix_where ni.2 = where_)) (td_indexes t)
      | None => false
      end
  | Castable _ _ _ | Refers _ _ _ _ => false
  end.

(** No two instances, stopped and failed ones included, have the same server and
    port. *)
Definition port_pairs : RowCondition := Distinct "instances" ["server_id"; "port"] None.

(** Every move from these states leads to one of them and to the next revision;
    what it asks of the rows the catalogue grants, except that leaving the newest
    revision asks for [port_pairs]. *)
Definition leads (states : list State) (m : Move) (s : State) : bool :=
  match plan m s with
  | Ok (s', need) =>
      bool_decide (s' ∈ states) && bool_decide (s'.1 = target m s.1)
      && (if bool_decide (m = Downgrade ∧ s.1 = head) then bool_decide (need = [port_pairs])
          else forallb (granted s.2) need)
  | Raise _ => false
  end.

Definition closed (states : list State) : bool :=
  forallb (λ s, forallb (λ m, leads states m s) [Upgrade; Downgrade]) states.

(** An attempt at a move, over any rows that obey the catalogue: what fails is
    rolled back. *)
Definition after (rows : Rows) (m : Move) (s : State) : State :=
  match move rows m s with Ok s' => s' | Raise _ => s end.

Inductive attempt (s : State) : State → Prop :=
| Attempt rows m : obeys rows s.2 → attempt s (after rows m s).

(** At the base nothing is left, at the head is the catalogue of a fresh
    upgrade, and in between its tables. *)
Definition regular (s : State) : Prop :=
  cat_tables s.2 = cat_tables (upgraded s.1) ∧
  (s.1 ≤ 1 → s.2 = empty_catalog)%nat ∧
  (s.1 = head → s.2 = upgraded head).

#[export] Instance regular_dec s : Decision (regular s).
Proof. unfold regular. apply _. Defined.

(** The newest revision was reached with the catalogue of the models. *)
Definition built (r : result ddl_error State) : bool :=
  match r with
  | Ok (n, c) => bool_decide (n = head) && bool_decide (catalog_matches c)
  | Raise _ => false
  end.

(** Each revision names the one before it. *)
Definition chained : bool :=
  bool_decide (map rv_down_revision revisions = None :: map (Some ∘ rv_revision) (take 10 revisions)).

(** ** Theorems *)

(** The labels of [Metadata] leave out no member. *)
Lemma enum_members_complete :
  (∀ x, x ∈ server_os_members) ∧ (∀ x, x ∈ server_status_members) ∧ (∀ x, x ∈ agent_status_members) ∧
  (∀ x, x ∈ agent_command_type_members) ∧ (∀ x, x ∈ agent_command_status_members) ∧
  (∀ x, x ∈ adapter_type_members) ∧ (∀ x, x ∈ source_type_members) ∧ (∀ x, x ∈ release_status_members) ∧
  (∀ x, x ∈ instance_status_members) ∧ (∀ x, x ∈ deployment_status_members) ∧
  (∀ x, x ∈ deployment_step_status_members) ∧ (∀ x, x ∈ health_check_type_members).
Proof. split_and!; intros []; apply (bool_decide_unpack _); exact I. Qed.

Lemma built_spec r : built r = true → ∃ c, r = Ok (head, c) ∧ catalog_matches c.
Proof.
  destruct r as [[n c]|e]; [|done]. intros [->%bool_decide_eq_true Hm%bool_decide_eq_true]%andb_true_iff. by exists c.
Qed.

Lemma granted_holds rows c k : obeys rows c → granted c k = true → rows k = true.
Proof.
  intros Ho. destruct k as [table columns where_| |]; [|done..]. cbn [granted].
  destruct (sm_lookup table (cat_tables c)) as [t|] eqn:Et; [|done]. destruct (Ho _ _ Et) as [Hu Hi].
  intros [([name k] & Hin & Hk)%existsb_exists|([name ix] & Hin & Hk)%existsb_exists]%orb_true_iff; cbn [snd] in Hk.
  - apply bool_decide_eq_true in Hk as ->. eapply Hu. by apply list_elem_of_In.
  - apply andb_true_iff in Hk as [[Hux <-%bool_decide_eq_true]%andb_true_iff <-%bool_decide_eq_true].
    eapply Hi; [|done]. by apply list_elem_of_In.
Qed.

(** A downgrade from the newest revision over rows that share a port. *)
Definition blocked (rows : Rows) (m : Move) (s : State) : Prop :=
  m = Downgrade ∧ s.1 = head ∧ rows port_pairs = false.

Section closed.
Context (states : list State) (Hclosed : closed states = true).

Lemma closed_leads m s : s ∈ states → leads states m s = true.
Proof.
  intros Hs%list_elem_of_In. unfold closed in Hclosed. rewrite forallb_forall in Hclosed.
  specialize (Hclosed s Hs). rewrite forallb_forall in Hclosed. apply Hclosed. destruct m; simpl; auto.
Qed.

Lemma closed_move rows m s : s ∈ states → obeys rows s.2 →
  match move rows m s with
  | Ok s' => s' ∈ states ∧ s'.1 = target m s.1 ∧ ¬ blocked rows m s
  | Raise e => blocked rows m s ∧ e = RowsViolate port_pairs
  end.
Proof.
  intros Hs Ho. pose proof (closed_leads m s Hs) as Hl. unfold leads in Hl. unfold move, blocked.
  destruct (plan m s) as [[s' need]|e]; [|done].
  apply andb_true_iff in Hl as [[Hs'%bool_decide_eq_true Ht%bool_decide_eq_true]%andb_true_iff Hneed].
  case_bool_decide as Hd.
  - apply bool_decide_eq_true in Hneed as ->. destruct Hd as [-> Hh]. cbn [List.find].
    destruct (rows port_pairs) eqn:Er; cbn [negb]; [|by split_and!]. split_and!; [done..|]. intros (_ & _ & ?). done.
  - destruct (List.find (λ k, negb (rows k)) need) as [k|] eqn:Ef.
    + apply List.find_some in Ef as [Hin Hk]. rewrite forallb_forall in Hneed.
      rewrite (granted_holds rows s.2 k Ho (Hneed k Hin)) in Hk. done.
    + split_and!; [done..|]. intros (-> & Hh & _). by apply Hd.
Qed.

Lemma closed_attempts s s' : rtc attempt s s' → s ∈ states → s' ∈ states.
Proof.
  induction 1 as [|s _ s' [rows m Ho] _ IH]; [done|]. intros Hs. apply IH. unfold after.
  pose proof (closed_move rows m s Hs Ho) as Hm. destruct (move rows m s); [apply Hm|done].
Qed.

End closed.

Lemma known_closed : closed known = true.
Proof. vm_cast_no_check (eq_refl true). Qed.

Lemma known_regular : bool_decide (base ∈ known ∧ Forall regular known) = true.
Proof. vm_cast_no_check (eq_refl true). Qed.

(** C35. The migrations build the schema the models declare: upgrading an empty
    database to the newest revision succeeds and ends with exactly the tables,
    columns (with type, nullability and default), primary keys, unique
    constraints, foreign keys with their ON DELETE action, indexes and enum
    labels of the models; each revision follows the one it names. *)
Theorem migrations_build_the_models :
  chained = true ∧
  ∃ c, moves no_rows (repeat Upgrade head) base = Ok (head, c) ∧ catalog_matches c.
Proof.
  split; [vm_cast_no_check (eq_refl true)|]. apply built_spec. vm_cast_no_check (eq_refl true).
Qed.

(** C36. Histories of upgrades and downgrades, over whatever rows the tables hold
    as long as they obey the constraints in force. After any such history the
    schema is a known one: at each revision the tables of a first upgrade, at the
    base the empty schema (so that the chain can be applied anew), at the newest
    revision the same schema however it was reached. From there an upgrade always
    succeeds, and a downgrade fails in one case only: at the newest revision,
    exactly when two instances share a server and a port, which the partial index
    of 0011 allows for stopped and failed ones; it then fails on that and is
    rolled back. *)
Theorem migration_histories_are_regular rows m s :
  rtc attempt base s → obeys rows s.2 →
  regular s ∧
  match move rows m s with
  | Ok s' => s'.1 = target m s.1 ∧ ¬ blocked rows m s
  | Raise e => blocked rows m s ∧ e = RowsViolate port_pairs
  end.
Proof.
  intros Hs Ho. pose proof known_regular as [Hb Hr]%bool_decide_eq_true.
  assert (s ∈ known) as Hk by (by eapply closed_attempts; [apply known_closed| |]). rewrite Forall_forall in Hr.
  split; [by apply Hr|]. pose proof (closed_move _ known_closed rows m s Hk Ho) as Hm.
  destruct (move rows m s); [apply Hm|done].
Qed.

(** Two stopped instances of one server and port, once 0011 is applied. *)
Definition reused_port : Rows := λ k, bool_decide (k ≠ port_pairs).

Definition at_head : State := (head, upgraded head).

Lemma upgrade_attempts n s s' : moves no_rows (repeat Upgrade n) s = Ok s' → rtc attempt s s'.
Proof.
  revert s. induction n as [|n IH]; intros s; cbn [repeat moves]; [by intros [= <-]|].
  pose proof (Attempt s no_rows Upgrade (λ _ _ _, conj (λ _ _ _ _, eq_refl) (λ _ _ _ _, eq_refl))) as Ha.
  unfold after in Ha. destruct (move no_rows Upgrade s) as [s1|e]; [|done]. intros E.
  eapply rtc_l; [exact Ha|by apply IH].
Qed.

Lemma at_head_reached : moves no_rows (repeat Upgrade head) base = Ok at_head.
Proof. vm_cast_no_check (eq_refl (@Ok ddl_error State at_head)). Qed.

(** At the newest revision no constraint keeps all the pairs apart. *)
Lemma at_head_ports :
  holds_at (λ t, Forall (λ nk, nk.2 ≠ Unique ["server_id"; "port"]) (td_constraints t) ∧
                 Forall (λ ni, ix_columns ni.2 = ["server_id"; "port"] → is_Some (ix_where ni.2)) (td_indexes t))
           (sm_lookup "instances" (cat_tables (upgraded head))).
Proof.
  destruct (sm_lookup "instances" (cat_tables (upgraded head))) as [t|] eqn:Et; vm_compute in Et; [|discriminate].
  injection Et as <-. split; cbn [td_constraints td_indexes]; repeat constructor; done.
Qed.

Lemma reused_port_obeys : obeys reused_port at_head.2.
Proof.
  intros table t Ht. cbn [at_head snd] in Ht. unfold reused_port, port_pairs. pose proof at_head_ports as Hp.
  split; [intros name columns where_ Hin|intros name ix Hin _]; apply bool_decide_eq_true; intros E;
    injection E; [intros -> -> ->|intros Hw Hc ->];
    rewrite Ht in Hp; destruct Hp as [Hc' Hi]; rewrite Forall_forall in Hc'; rewrite Forall_forall in Hi.
  - by apply (Hc' _ Hin).
  - destruct (Hi _ Hin Hc) as [w Ew]. cbn [snd] in Ew. congruence.
Qed.

Lemma migration_histories_are_regular_witness :
  regular at_head ∧ move reused_port Downgrade at_head = Raise (RowsViolate port_pairs).
Proof.
  pose proof (migration_histories_are_regular reused_port Downgrade at_head
                (upgrade_attempts head base at_head at_head_reached) reused_port_obeys) as [Hr Hm].
  split; [exact Hr|].
  destruct (move reused_port Downgrade at_head) as [s'|e].
  - destruct Hm as [_ Hb]. exfalso. apply Hb. split_and!; [reflexivity|reflexivity|].
    apply bool_decide_eq_false. intros H. by apply H.
  - by destruct Hm as [_ ->].
Defined.
