(* ===== verification/StateMachines.v ===== *)
(** Status state machines: services/control-plane/app/domain/state_machines.py.

    The three transition tables, [can_transition] and [require_transition], and
    what the tables promise: which statuses are terminal, that a command or a
    deployment goes through a bounded number of transitions, and that a stopped
    or failed instance serves again only after it was started again. *)

From S2P Require Import Prelude Python Enums.

(** ** The tables *)

Definition DEPLOYMENT_TRANSITIONS : list (deployment_status * list deployment_status) :=
  [ (DeploymentStatus.PENDING, [DeploymentStatus.IN_PROGRESS; DeploymentStatus.FAILED]);
    (DeploymentStatus.IN_PROGRESS, [DeploymentStatus.SUCCEEDED; DeploymentStatus.FAILED]);
    (DeploymentStatus.SUCCEEDED, [DeploymentStatus.ROLLED_BACK]);
    (DeploymentStatus.FAILED, [DeploymentStatus.ROLLED_BACK]);
    (DeploymentStatus.ROLLED_BACK, []) ].

Definition INSTANCE_TRANSITIONS : list (instance_status * list instance_status) :=
  [ (InstanceStatus.PENDING, [InstanceStatus.STARTING; InstanceStatus.FAILED]);
    (InstanceStatus.STARTING, [InstanceStatus.RUNNING; InstanceStatus.FAILED]);
    (InstanceStatus.RUNNING,
       [InstanceStatus.UNHEALTHY; InstanceStatus.RESTARTING; InstanceStatus.DRAINING;
        InstanceStatus.STOPPED]);
    (InstanceStatus.UNHEALTHY,
       [InstanceStatus.RUNNING; InstanceStatus.RESTARTING; InstanceStatus.DRAINING;
        InstanceStatus.STOPPED; InstanceStatus.FAILED]);
    (InstanceStatus.RESTARTING, [InstanceStatus.RUNNING; InstanceStatus.FAILED]);
    (InstanceStatus.DRAINING, [InstanceStatus.STOPPED; InstanceStatus.FAILED]);
    (InstanceStatus.STOPPED, [InstanceStatus.STARTING]);
    (InstanceStatus.FAILED, [InstanceStatus.STARTING]) ].

Definition AGENT_COMMAND_TRANSITIONS : list (agent_command_status * list agent_command_status) :=
  [ (AgentCommandStatus.PENDING, [AgentCommandStatus.SENT; AgentCommandStatus.EXPIRED]);
    (AgentCommandStatus.SENT,
       [AgentCommandStatus.ACKNOWLEDGED; AgentCommandStatus.FAILED; AgentCommandStatus.TIMED_OUT]);
    (AgentCommandStatus.ACKNOWLEDGED,
       [AgentCommandStatus.RUNNING; AgentCommandStatus.FAILED; AgentCommandStatus.TIMED_OUT]);
    (AgentCommandStatus.RUNNING,
       [AgentCommandStatus.SUCCEEDED; AgentCommandStatus.FAILED; AgentCommandStatus.TIMED_OUT]);
    (AgentCommandStatus.SUCCEEDED, []);
    (AgentCommandStatus.FAILED, []);
    (AgentCommandStatus.TIMED_OUT, []);
    (AgentCommandStatus.EXPIRED, []) ].

(** ** The checks *)

Definition can_transition {A} `{EqDecision A} (transitions : list (A * list A)) (current target : A) : bool :=
  if decide (current = target) then false
  else bool_decide (target ∈ dict_get transitions current []).

Definition require_transition {S A} `{EqDecision A} (value : A → string)
    (transitions : list (A * list A)) (current target : A) : ST S exn unit :=
  if can_transition transitions current target then mret tt
  else raise (InvalidTransition (value current) (value target)).

(** One legal move of a table, and any number of them. *)
Definition legal {A} `{EqDecision A} (transitions : list (A * list A)) (a b : A) : Prop :=
  can_transition transitions a b = true.

Abbreviation instance_path := (rtc (legal INSTANCE_TRANSITIONS)).
Abbreviation deployment_path := (rtc (legal DEPLOYMENT_TRANSITIONS)).
Abbreviation command_path := (rtc (legal AGENT_COMMAND_TRANSITIONS)).

#[export] Instance legal_dec {A} `{EqDecision A} (T : list (A * list A)) (a b : A) : Decision (legal T a b).
Proof. unfold legal. apply _. Defined.

Lemma require_transition_run {S A} `{EqDecision A} value (T : list (A * list A)) a b (s : S) :
  require_transition value T a b s =
  (if can_transition T a b then Ok tt else Raise (InvalidTransition (value a) (value b)), s).
Proof. unfold require_transition. by destruct (can_transition T a b). Qed.

(** ** Bounded histories

    A rank that drops with every move bounds the length of any history. *)

Lemma nsteps_rank {A} `{EqDecision A} (T : list (A * list A)) (rank : A → nat) n a b :
  (∀ x y, legal T x y → rank y < rank x) → nsteps (legal T) n a b → n + rank b ≤ rank a.
Proof. intros Hr H. induction H as [|n x y z Hxy _ IH]; [lia|]. apply Hr in Hxy. lia. Qed.

Definition command_rank (s : agent_command_status) : nat :=
  match s with
  | AgentCommandStatus.PENDING => 4
  | AgentCommandStatus.SENT => 3
  | AgentCommandStatus.ACKNOWLEDGED => 2
  | AgentCommandStatus.RUNNING => 1
  | _ => 0
  end.

Definition deployment_rank (s : deployment_status) : nat :=
  match s with
  | DeploymentStatus.PENDING => 3
  | DeploymentStatus.IN_PROGRESS => 2
  | DeploymentStatus.SUCCEEDED | DeploymentStatus.FAILED => 1
  | DeploymentStatus.ROLLED_BACK => 0
  end.

Lemma command_rank_decreases x y : legal AGENT_COMMAND_TRANSITIONS x y → command_rank y < command_rank x.
Proof. destruct x, y; vm_compute; (done || lia). Qed.

Lemma deployment_rank_decreases x y : legal DEPLOYMENT_TRANSITIONS x y → deployment_rank y < deployment_rank x.
Proof. destruct x, y; vm_compute; (done || lia). Qed.

(** No table lets an entity move to the status it already has. *)
Lemma legal_irreflexive {A} `{EqDecision A} (T : list (A * list A)) a : ¬ legal T a a.
Proof. unfold legal, can_transition. by rewrite decide_True. Qed.

(** The move out of a stopped or failed instance is to STARTING. *)
Lemma terminal_instance_move s t :
  s = InstanceStatus.STOPPED ∨ s = InstanceStatus.FAILED →
  legal INSTANCE_TRANSITIONS s t → t = InstanceStatus.STARTING.
Proof. intros [-> | ->]; by destruct t. Qed.

(** Lifecycles are bounded: a command goes through at most four
    transitions and a deployment through at most three, a command that
    succeeded, failed, timed out or expired never moves again, and an instance
    that was stopped or failed can serve again only by being started again. *)
Theorem lifecycles_are_bounded :
  (∀ n a b, nsteps (legal AGENT_COMMAND_TRANSITIONS) n a b → n ≤ 4) ∧
  (∀ n a b, nsteps (legal DEPLOYMENT_TRANSITIONS) n a b → n ≤ 3) ∧
  (∀ s t, s ∈ [AgentCommandStatus.SUCCEEDED; AgentCommandStatus.FAILED; AgentCommandStatus.TIMED_OUT;
               AgentCommandStatus.EXPIRED] → ¬ legal AGENT_COMMAND_TRANSITIONS s t) ∧
  (∀ s t, s ∈ [InstanceStatus.STOPPED; InstanceStatus.FAILED] → instance_path s t →
     t = s ∨ instance_path InstanceStatus.STARTING t).
Proof.
  split; [|split; [|split]].
  - intros n a b H%(nsteps_rank _ command_rank); [|apply command_rank_decreases]. destruct a; simpl in H; lia.
  - intros n a b H%(nsteps_rank _ deployment_rank); [|apply deployment_rank_decreases]. destruct a; simpl in H; lia.
  - intros s t Hs. rewrite !elem_of_cons, elem_of_nil in Hs. destruct Hs as [->|[->|[->|[->|[]]]]]; by destruct t.
  - intros s t Hs Hp. rewrite !elem_of_cons, elem_of_nil in Hs. inversion Hp as [|? u ? Hl Hr]; subst; [by left|right].
    rewrite (terminal_instance_move s u) in Hr; [done| |done]. naive_solver.
Qed.
