(* ===== verification/HealerYaml.v ===== *)
(** The application descriptor: services/control-plane/app/schemas/healer_yaml.py.

    The pydantic models as records, their field constraints and model
    validators as boolean checks, [model_validate] and the [model_dump] of the
    adapter sections. Type coercion of raw input is pydantic's and is not
    modelled: a record already has the declared field types. A float is
    [m * 2^e]. *)

From S2P Require Import Prelude Python Regex.
From Stdlib Require Import Ascii.
Local Open Scope Z_scope.

Definition HEALER_YAML_VERSION : Z := 1.

(** [^[a-zA-Z0-9][a-zA-Z0-9._:/-]*@sha256:[a-fA-F0-9]{64}$] *)
Definition is_hex (c : ascii) : bool :=
  (is_digit c || in_range 97 102 c || in_range 65 70 c)%bool.
Definition IMMUTABLE_IMAGE_RE : regex :=
  Seq (Cls is_alnum)
    (Seq (Star (Cls (λ c, (is_alnum c || is_one_of "._:/-" c)%bool)))
      (Seq (lit (String.list_ascii_of_string "@sha256:")) (between 64 0 (Cls is_hex)))).

(** [^([A-Za-z0-9]([A-Za-z0-9-]{0,61}[A-Za-z0-9])?\.)+[A-Za-z]{2,63}$] *)
Definition is_label_char (c : ascii) : bool := (is_alnum c || Ascii.eqb c "-")%bool.
Definition _HOSTNAME_RE : regex :=
  Seq (plus (Seq (Cls is_alnum)
              (Seq (opt (Seq (upto 61 (Cls is_label_char)) (Cls is_alnum))) (chr "."))))
      (between 2 61 (Cls is_alpha)).

(** [^/[A-Za-z0-9_./-]+$] *)
Definition is_path_char (c : ascii) : bool := (is_alnum c || is_one_of "_./-" c)%bool.
Definition _UNIX_PATH_RE : regex := Seq (chr "/") (plus (Cls is_path_char)).

(** ** Sections of the descriptor *)

Record SourceConfig := {
  sc_type : string;
  sc_location : string;
  sc_ref : option string;
}.

Record WindowsAdapterConfig := {
  wc_python_executable : string;
  wc_requirements_file : string;
  wc_manage_py : string;
  wc_wsgi_module : string;
  wc_settings_module : string;
  wc_static_dir : string;
  wc_media_dir : string;
  wc_log_dir : string;
  wc_exclude : list string;
}.

Record LinuxAdapterConfig := {
  lc_internal_port : Z;
  lc_env : list (string * string);
  lc_cpu_limit : option (Z * Z);
  lc_memory_limit_mb : option Z;
}.

Record HealthConfig := {
  hlc_path : string;
  hlc_interval_seconds : Z;
  hlc_timeout_seconds : Z;
  hlc_healthy_threshold : Z;
  hlc_unhealthy_threshold : Z;
}.

Record PortRangeConfig := {
  pr_start : Z;
  pr_end : Z;
}.

Record DomainConfig := {
  dc_hostname : string;
  dc_cert_path : option string;
  dc_key_path : option string;
}.

Record ReplicaConfig := {
  rc_min : Z;
  rc_max : Z;
}.

Record HealerYamlV1 := {
  hy_version : Z;
  hy_name : string;
  hy_adapter : string;
  hy_server_id : option N;
  hy_source : SourceConfig;
  hy_windows : option WindowsAdapterConfig;
  hy_linux : option LinuxAdapterConfig;
  hy_health : HealthConfig;
  hy_ports : PortRangeConfig;
  hy_replicas : ReplicaConfig;
  hy_domain : option DomainConfig;
  hy_secrets : list string;
}.

(** ** Field constraints and model validators *)

Definition length_between (lo hi : nat) (s : string) : bool :=
  ((lo <=? String.length s)%nat && (String.length s <=? hi)%nat)%bool.

Definition int_between (lo hi z : Z) : bool := ((lo <=? z) && (z <=? hi))%bool.

Definition opt_check {A} (p : A → bool) (o : option A) : bool :=
  match o with
  | Some a => p a
  | None => true
  end.

Definition valid_source_config (c : SourceConfig) : bool :=
  (bool_decide (sc_type c ∈ ["folder"; "git"; "dockerfile"; "image"])
   && length_between 1 2000 (sc_location c)
   && opt_check (length_between 0 255) (sc_ref c))%bool.

Definition valid_windows_config (c : WindowsAdapterConfig) : bool :=
  ((1 <=? String.length (wc_python_executable c))%nat
   && (1 <=? String.length (wc_wsgi_module c))%nat
   && (1 <=? String.length (wc_settings_module c))%nat)%bool.

Definition valid_linux_config (c : LinuxAdapterConfig) : bool :=
  (int_between 1 65535 (lc_internal_port c)
   && opt_check (λ f : Z * Z, 0 <? f.1) (lc_cpu_limit c)
   && opt_check (λ m, 16 <=? m) (lc_memory_limit_mb c))%bool.

Definition _path_is_absolute (c : HealthConfig) : bool := startswith "/" (hlc_path c).

Definition valid_health_config (c : HealthConfig) : bool :=
  (length_between 1 500 (hlc_path c)
   && int_between 1 3600 (hlc_interval_seconds c)
   && int_between 1 300 (hlc_timeout_seconds c)
   && int_between 1 100 (hlc_healthy_threshold c)
   && int_between 1 100 (hlc_unhealthy_threshold c)
   && _path_is_absolute c)%bool.

Definition valid_port_range (c : PortRangeConfig) : bool :=
  (int_between 1 65535 (pr_start c)
   && int_between 1 65535 (pr_end c)
   && negb (pr_end c <? pr_start c))%bool.

(** [".." in value.split("/")] *)
Definition has_traversal (path : string) : bool := bool_decide (".." ∈ split_on "/" path).

Definition _no_traversal (c : DomainConfig) : bool :=
  (opt_check (λ p, negb (has_traversal p)) (dc_cert_path c)
   && opt_check (λ p, negb (has_traversal p)) (dc_key_path c))%bool.

Definition valid_domain_config (c : DomainConfig) : bool :=
  (length_between 1 255 (dc_hostname c)
   && fullmatch _HOSTNAME_RE (dc_hostname c)
   && opt_check (λ p, (length_between 0 1000 p && fullmatch _UNIX_PATH_RE p)%bool) (dc_cert_path c)
   && opt_check (λ p, (length_between 0 1000 p && fullmatch _UNIX_PATH_RE p)%bool) (dc_key_path c)
   && _no_traversal c)%bool.

Definition valid_replica_config (c : ReplicaConfig) : bool :=
  ((1 <=? rc_min c) && (1 <=? rc_max c) && negb (rc_max c <? rc_min c))%bool.

Definition _replicas_fit_in_the_port_range (c : HealerYamlV1) : bool :=
  let port_count := pr_end (hy_ports c) - pr_start (hy_ports c) + 1 in
  negb (port_count <? rc_max (hy_replicas c)).

Definition _adapter_matches_source_and_section (c : HealerYamlV1) : bool :=
  if decide (hy_adapter c = "windows-waitress-service") then
    (bool_decide (is_Some (hy_windows c))
     && bool_decide (sc_type (hy_source c) ∈ ["folder"; "git"]))%bool
  else if decide (hy_adapter c = "linux-docker") then
    (bool_decide (is_Some (hy_linux c))
     && bool_decide (sc_type (hy_source c) ∈ ["dockerfile"; "image"])
     && negb (bool_decide (sc_type (hy_source c) = "image") && str_truthy (sc_ref (hy_source c)))
     && negb (bool_decide (sc_type (hy_source c) = "image")
              && negb (fullmatch IMMUTABLE_IMAGE_RE (sc_location (hy_source c)))))%bool
  else true.

Definition valid_healer_yaml (c : HealerYamlV1) : bool :=
  ((hy_version c =? 1)
   && length_between 1 255 (hy_name c)
   && bool_decide (hy_adapter c ∈ ["windows-waitress-service"; "linux-docker"])
   && valid_source_config (hy_source c)
   && opt_check valid_windows_config (hy_windows c)
   && opt_check valid_linux_config (hy_linux c)
   && valid_health_config (hy_health c)
   && valid_port_range (hy_ports c)
   && valid_replica_config (hy_replicas c)
   && opt_check valid_domain_config (hy_domain c)
   && _replicas_fit_in_the_port_range c
   && _adapter_matches_source_and_section c)%bool.

(** [HealerYamlV1.model_validate]. *)
Definition model_validate {S} (c : HealerYamlV1) : ST S exn HealerYamlV1 :=
  if valid_healer_yaml c then mret c else raise ValidationError.

(** ** [model_dump] of the adapter sections *)

Definition json_opt {A} (f : A → json) (o : option A) : json :=
  match o with
  | Some a => f a
  | None => JNull
  end.

Definition windows_model_dump (c : WindowsAdapterConfig) : json :=
  JObj [ ("python_executable", JStr (wc_python_executable c));
         ("requirements_file", JStr (wc_requirements_file c));
         ("manage_py", JStr (wc_manage_py c));
         ("wsgi_module", JStr (wc_wsgi_module c));
         ("settings_module", JStr (wc_settings_module c));
         ("static_dir", JStr (wc_static_dir c));
         ("media_dir", JStr (wc_media_dir c));
         ("log_dir", JStr (wc_log_dir c));
         ("exclude", JArr (map JStr (wc_exclude c))) ].

Definition linux_model_dump (c : LinuxAdapterConfig) : json :=
  JObj [ ("internal_port", JInt (lc_internal_port c));
         ("env", JObj (map (λ kv, (kv.1, JStr kv.2)) (lc_env c)));
         ("cpu_limit", json_opt (λ f : Z * Z, JFloat f.1 f.2) (lc_cpu_limit c));
         ("memory_limit_mb", json_opt JInt (lc_memory_limit_mb c)) ].

(** ** What a valid descriptor guarantees *)

Ltac split_valid H :=
  repeat (rewrite andb_true_iff in H; let H1 := fresh "Hv" in destruct H as [H H1]).

Lemma valid_port_range_spec c :
  valid_port_range c = true → 1 ≤ pr_start c ∧ pr_start c ≤ pr_end c ∧ pr_end c ≤ 65535.
Proof. unfold valid_port_range, int_between. lia. Qed.

Lemma valid_ports_and_replicas c :
  valid_healer_yaml c = true →
  1 ≤ pr_start (hy_ports c) ∧ pr_start (hy_ports c) ≤ pr_end (hy_ports c) ∧
  pr_end (hy_ports c) ≤ 65535 ∧
  1 ≤ rc_min (hy_replicas c) ∧ rc_min (hy_replicas c) ≤ rc_max (hy_replicas c) ∧
  rc_max (hy_replicas c) ≤ pr_end (hy_ports c) - pr_start (hy_ports c) + 1.
Proof.
  intros H. unfold valid_healer_yaml in H. split_valid H.
  assert (valid_port_range (hy_ports c) = true) as [? [? ?]]%valid_port_range_spec by done.
  unfold valid_replica_config, _replicas_fit_in_the_port_range in *.
  repeat match goal with
  | H : context [hy_ports c] |- _ => progress (cbv zeta in H)
  end. lia.
Qed.

Lemma length_between_spec lo hi s : length_between lo hi s = true → (lo ≤ String.length s ≤ hi)%nat.
Proof. unfold length_between. rewrite andb_true_iff, !Nat.leb_le. done. Qed.

Lemma valid_text_lengths c :
  valid_healer_yaml c = true →
  (String.length (hy_name c) ≤ 255)%nat ∧
  (∀ ref, sc_ref (hy_source c) = Some ref → (String.length ref ≤ 255)%nat) ∧
  (∀ x, hy_domain c = Some x → (String.length (dc_hostname x) ≤ 255)%nat).
Proof.
  intros H. unfold valid_healer_yaml in H. split_valid H.
  assert (length_between 1 255 (hy_name c) = true) as Hn by done.
  assert (valid_source_config (hy_source c) = true) as Hs by done.
  assert (opt_check valid_domain_config (hy_domain c) = true) as Hd by done.
  apply length_between_spec in Hn. split; [lia|]. split.
  - intros ref E. unfold valid_source_config in Hs. split_valid Hs. rewrite E in *. simpl in *.
    match goal with Hr : length_between 0 255 ref = true |- _ => apply length_between_spec in Hr; lia end.
  - intros x E. rewrite E in Hd. simpl in Hd. unfold valid_domain_config in Hd. split_valid Hd.
    apply length_between_spec in Hd. lia.
Qed.
