(* ===== verification/Schema.v ===== *)
(** The data model: services/control-plane/app/db/models/*.py.

    One record per ORM class, with the class's columns, and the database as one
    record of tables. A row's primary key is its key in the table; tables that
    are only ever appended to and read by a filter are lists, newest last.
    [updated_at] columns, and the [created_at] of roles, role assignments and
    refresh sessions, are left out: nothing in the sources reads them.
    [Application.config] is kept as the descriptor it was dumped from.
    Every assignable column has a [Upd] instance for [r <| f := v |>]. *)

From S2P Require Import Prelude Python Enums HealerYaml.
Local Open Scope Z_scope.

(** A UUID primary key (128 bits). *)
Definition uuid : Type := N.

(** ** Server (server.py) *)

Record Server := {
  srv_name : string;
  srv_hostname : string;
  srv_os : server_os;
  srv_status : server_status;
  srv_created_at : Z;
}.

(** ** EnrollmentToken (server.py) *)

Record EnrollmentToken := {
  et_server_id : uuid;
  et_token_hash : string;
  et_expires_at : Z;
  et_used_at : option Z;
  et_revoked_at : option Z;
  et_created_at : Z;
}.

#[export] Instance eta_EnrollmentToken : Eta EnrollmentToken := λ r, Build_EnrollmentToken
  (et_server_id r) (et_token_hash r) (et_expires_at r) (et_used_at r) (et_revoked_at r)
  (et_created_at r).
#[export] Instance upd_et_used_at : Upd et_used_at := ltac:(solve_upd).
#[export] Instance upd_et_revoked_at : Upd et_revoked_at := ltac:(solve_upd).

(** ** Agent (agent.py) *)

Record Agent := {
  ag_server_id : uuid;
  ag_agent_version : string;
  ag_status : agent_status;
  ag_last_seen_at : option Z;
  ag_credential_hash : option string;
  ag_capabilities : option json;
  ag_created_at : Z;
}.

#[export] Instance eta_Agent : Eta Agent := λ r, Build_Agent
  (ag_server_id r) (ag_agent_version r) (ag_status r) (ag_last_seen_at r) (ag_credential_hash r)
  (ag_capabilities r) (ag_created_at r).
#[export] Instance upd_ag_agent_version : Upd ag_agent_version := ltac:(solve_upd).
#[export] Instance upd_ag_status : Upd ag_status := ltac:(solve_upd).
#[export] Instance upd_ag_last_seen_at : Upd ag_last_seen_at := ltac:(solve_upd).
#[export] Instance upd_ag_credential_hash : Upd ag_credential_hash := ltac:(solve_upd).
#[export] Instance upd_ag_capabilities : Upd ag_capabilities := ltac:(solve_upd).

(** ** AgentConnection (agent.py) *)

Record AgentConnection := {
  ac_agent_id : uuid;
  ac_connected_at : Z;
  ac_disconnected_at : option Z;
  ac_remote_addr : option string;
}.

#[export] Instance eta_AgentConnection : Eta AgentConnection := λ r, Build_AgentConnection
  (ac_agent_id r) (ac_connected_at r) (ac_disconnected_at r) (ac_remote_addr r).
#[export] Instance upd_ac_disconnected_at : Upd ac_disconnected_at := ltac:(solve_upd).

(** ** AgentCommand (agent.py) *)

Record AgentCommand := {
  cmd_agent_id : uuid;
  cmd_command_type : agent_command_type;
  cmd_payload : json;
  cmd_idempotency_key : string;
  cmd_status : agent_command_status;
  cmd_correlation_id : option uuid;
  cmd_expires_at : option Z;
  cmd_result : option json;
  cmd_error : option string;
  cmd_created_at : Z;
}.

#[export] Instance eta_AgentCommand : Eta AgentCommand := λ r, Build_AgentCommand
  (cmd_agent_id r) (cmd_command_type r) (cmd_payload r) (cmd_idempotency_key r) (cmd_status r)
  (cmd_correlation_id r) (cmd_expires_at r) (cmd_result r) (cmd_error r) (cmd_created_at r).
#[export] Instance upd_cmd_status : Upd cmd_status := ltac:(solve_upd).
#[export] Instance upd_cmd_result : Upd cmd_result := ltac:(solve_upd).
#[export] Instance upd_cmd_error : Upd cmd_error := ltac:(solve_upd).

(** ** AgentCommandEvent (agent.py) *)

Record AgentCommandEvent := {
  ev_command_id : uuid;
  ev_status : agent_command_status;
  ev_detail : option json;
  ev_occurred_at : Z;
}.

(** ** Application (application.py) *)

Record Application := {
  app_name : string;
  app_slug : string;
  app_adapter_type : adapter_type;
  app_server_id : option uuid;
  app_config : option HealerYamlV1;
  app_port_range_start : option Z;
  app_port_range_end : option Z;
  app_min_replicas : Z;
  app_max_replicas : Z;
  app_desired_replicas : Z;
  app_operation_lock : option string;
  app_operation_lock_acquired_at : option Z;
  app_active_release_id : option uuid;
  app_release_retention_count : Z;
  app_created_at : Z;
}.

#[export] Instance eta_Application : Eta Application := λ r, Build_Application
  (app_name r) (app_slug r) (app_adapter_type r) (app_server_id r) (app_config r)
  (app_port_range_start r) (app_port_range_end r) (app_min_replicas r) (app_max_replicas r)
  (app_desired_replicas r) (app_operation_lock r) (app_operation_lock_acquired_at r)
  (app_active_release_id r) (app_release_retention_count r) (app_created_at r).
#[export] Instance upd_app_name : Upd app_name := ltac:(solve_upd).
#[export] Instance upd_app_adapter_type : Upd app_adapter_type := ltac:(solve_upd).
#[export] Instance upd_app_server_id : Upd app_server_id := ltac:(solve_upd).
#[export] Instance upd_app_config : Upd app_config := ltac:(solve_upd).
#[export] Instance upd_app_port_range_start : Upd app_port_range_start := ltac:(solve_upd).
#[export] Instance upd_app_port_range_end : Upd app_port_range_end := ltac:(solve_upd).
#[export] Instance upd_app_min_replicas : Upd app_min_replicas := ltac:(solve_upd).
#[export] Instance upd_app_max_replicas : Upd app_max_replicas := ltac:(solve_upd).
#[export] Instance upd_app_desired_replicas : Upd app_desired_replicas := ltac:(solve_upd).
#[export] Instance upd_app_operation_lock : Upd app_operation_lock := ltac:(solve_upd).
#[export] Instance upd_app_operation_lock_acquired_at : Upd app_operation_lock_acquired_at := ltac:(solve_upd).
#[export] Instance upd_app_active_release_id : Upd app_active_release_id := ltac:(solve_upd).

(** ** Source (application.py) *)

Record Source := {
  src_application_id : uuid;
  src_source_type : source_type;
  src_location : string;
  src_ref : option string;
}.

#[export] Instance eta_Source : Eta Source := λ r, Build_Source
  (src_application_id r) (src_source_type r) (src_location r) (src_ref r).
#[export] Instance upd_src_source_type : Upd src_source_type := ltac:(solve_upd).
#[export] Instance upd_src_location : Upd src_location := ltac:(solve_upd).
#[export] Instance upd_src_ref : Upd src_ref := ltac:(solve_upd).

(** ** Release (application.py) *)

Record Release := {
  rel_application_id : uuid;
  rel_source_id : option uuid;
  rel_ref : string;
  rel_status : release_status;
  rel_release_dir : option string;
  rel_venv_python : option string;
  rel_image_ref : option string;
  rel_created_at : Z;
}.

#[export] Instance eta_Release : Eta Release := λ r, Build_Release
  (rel_application_id r) (rel_source_id r) (rel_ref r) (rel_status r) (rel_release_dir r)
  (rel_venv_python r) (rel_image_ref r) (rel_created_at r).
#[export] Instance upd_rel_status : Upd rel_status := ltac:(solve_upd).
#[export] Instance upd_rel_release_dir : Upd rel_release_dir := ltac:(solve_upd).
#[export] Instance upd_rel_venv_python : Upd rel_venv_python := ltac:(solve_upd).
#[export] Instance upd_rel_image_ref : Upd rel_image_ref := ltac:(solve_upd).

(** ** Instance (application.py) *)

Record Instance := {
  inst_application_id : uuid;
  inst_release_id : option uuid;
  inst_server_id : uuid;
  inst_port : Z;
  inst_status : instance_status;
  inst_service_name : option string;
  inst_deployment_id : option uuid;
  inst_healing_attempts : Z;
  inst_last_healing_attempt_at : option Z;
  inst_failure_reason : option string;
  inst_created_at : Z;
}.

#[export] Instance eta_Instance : Eta Instance := λ r, Build_Instance
  (inst_application_id r) (inst_release_id r) (inst_server_id r) (inst_port r) (inst_status r)
  (inst_service_name r) (inst_deployment_id r) (inst_healing_attempts r)
  (inst_last_healing_attempt_at r) (inst_failure_reason r) (inst_created_at r).
#[export] Instance upd_inst_release_id : Upd inst_release_id := ltac:(solve_upd).
#[export] Instance upd_inst_status : Upd inst_status := ltac:(solve_upd).
#[export] Instance upd_inst_deployment_id : Upd inst_deployment_id := ltac:(solve_upd).
#[export] Instance upd_inst_healing_attempts : Upd inst_healing_attempts := ltac:(solve_upd).
#[export] Instance upd_inst_last_healing_attempt_at : Upd inst_last_healing_attempt_at := ltac:(solve_upd).
#[export] Instance upd_inst_failure_reason : Upd inst_failure_reason := ltac:(solve_upd).

(** ** Deployment (deployment.py) *)

Record Deployment := {
  dep_application_id : uuid;
  dep_release_id : uuid;
  dep_status : deployment_status;
  dep_instance_count : Z;
  dep_zero_downtime : bool;
  dep_kind : string;
  dep_failure_reason : option string;
  dep_created_by : option uuid;
  dep_created_at : Z;
}.

#[export] Instance eta_Deployment : Eta Deployment := λ r, Build_Deployment
  (dep_application_id r) (dep_release_id r) (dep_status r) (dep_instance_count r)
  (dep_zero_downtime r) (dep_kind r) (dep_failure_reason r) (dep_created_by r) (dep_created_at
  r).
#[export] Instance upd_dep_status : Upd dep_status := ltac:(solve_upd).
#[export] Instance upd_dep_failure_reason : Upd dep_failure_reason := ltac:(solve_upd).

(** ** DeploymentStep (deployment.py) *)

Record DeploymentStep := {
  step_deployment_id : uuid;
  step_name : string;
  step_status : deployment_step_status;
  step_started_at : option Z;
  step_finished_at : option Z;
  step_created_at : Z;
}.

(** ** DeploymentLog (deployment.py) *)

Record DeploymentLog := {
  log_deployment_id : uuid;
  log_step_id : option uuid;
  log_level : string;
  log_message : string;
  log_created_at : Z;
}.

(** ** Domain (domain.py) *)

Record Domain := {
  dom_application_id : uuid;
  dom_hostname : string;
  dom_cert_path : option string;
  dom_key_path : option string;
}.

#[export] Instance eta_Domain : Eta Domain := λ r, Build_Domain
  (dom_application_id r) (dom_hostname r) (dom_cert_path r) (dom_key_path r).
#[export] Instance upd_dom_hostname : Upd dom_hostname := ltac:(solve_upd).
#[export] Instance upd_dom_cert_path : Upd dom_cert_path := ltac:(solve_upd).
#[export] Instance upd_dom_key_path : Upd dom_key_path := ltac:(solve_upd).

(** ** HealthCheck (health.py) *)

Record HealthCheck := {
  hc_application_id : uuid;
  hc_check_type : health_check_type;
  hc_path : option string;
  hc_interval_seconds : Z;
  hc_timeout_seconds : Z;
  hc_healthy_threshold : Z;
  hc_unhealthy_threshold : Z;
  hc_expected_status : option Z;
  hc_max_restart_attempts : Z;
  hc_restart_cooldown_seconds : Z;
}.

#[export] Instance eta_HealthCheck : Eta HealthCheck := λ r, Build_HealthCheck
  (hc_application_id r) (hc_check_type r) (hc_path r) (hc_interval_seconds r)
  (hc_timeout_seconds r) (hc_healthy_threshold r) (hc_unhealthy_threshold r) (hc_expected_status
  r) (hc_max_restart_attempts r) (hc_restart_cooldown_seconds r).
#[export] Instance upd_hc_path : Upd hc_path := ltac:(solve_upd).
#[export] Instance upd_hc_interval_seconds : Upd hc_interval_seconds := ltac:(solve_upd).
#[export] Instance upd_hc_timeout_seconds : Upd hc_timeout_seconds := ltac:(solve_upd).
#[export] Instance upd_hc_healthy_threshold : Upd hc_healthy_threshold := ltac:(solve_upd).
#[export] Instance upd_hc_unhealthy_threshold : Upd hc_unhealthy_threshold := ltac:(solve_upd).

(** ** HealthCheckResult (health.py) *)

Record HealthCheckResult := {
  hr_health_check_id : uuid;
  hr_instance_id : uuid;
  hr_healthy : bool;
  hr_detail : option string;
  hr_consecutive_failures : Z;
  hr_response_time_ms : option Z;
  hr_checked_at : Z;
}.

(** ** SecretRecord (secret.py) *)

Record SecretRecord := {
  sec_application_id : option uuid;
  sec_key : string;
  sec_encrypted_value : string;
}.

#[export] Instance eta_SecretRecord : Eta SecretRecord := λ r, Build_SecretRecord
  (sec_application_id r) (sec_key r) (sec_encrypted_value r).
#[export] Instance upd_sec_encrypted_value : Upd sec_encrypted_value := ltac:(solve_upd).

(** ** MetricsSnapshot (metrics.py) *)

Record MetricsSnapshot := {
  ms_server_id : uuid;
  ms_cpu_percent : json;
  ms_memory_percent : json;
  ms_disk_percent : json;
  ms_recorded_at : Z;
}.

(** ** AuditLog (audit.py) *)

Record AuditLog := {
  au_actor_id : option uuid;
  au_action : string;
  au_target_type : string;
  au_target_id : string;
  au_detail : option json;
  au_occurred_at : Z;
}.

(** ** Notification (notification.py) *)

Record Notification := {
  n_user_id : option uuid;
  n_notification_type : string;
  n_message : string;
  n_read_at : option Z;
  n_created_at : Z;
}.

#[export] Instance eta_Notification : Eta Notification := λ r, Build_Notification
  (n_user_id r) (n_notification_type r) (n_message r) (n_read_at r) (n_created_at r).
#[export] Instance upd_n_read_at : Upd n_read_at := ltac:(solve_upd).

(** ** User (user.py) *)

Record User := {
  user_email : string;
  user_password_hash : string;
  user_is_active : bool;
  user_created_at : Z;
}.

#[export] Instance eta_User : Eta User := λ r, Build_User
  (user_email r) (user_password_hash r) (user_is_active r) (user_created_at r).
#[export] Instance upd_user_password_hash : Upd user_password_hash := ltac:(solve_upd).
#[export] Instance upd_user_is_active : Upd user_is_active := ltac:(solve_upd).

(** ** Role (user.py) *)

Record Role := {
  role_name : string;
}.

(** ** UserRole (user.py) *)

Record UserRole := {
  ur_user_id : uuid;
  ur_role_id : uuid;
}.

(** ** RefreshSession (user.py) *)

Record RefreshSession := {
  rs_user_id : uuid;
  rs_token_hash : string;
  rs_expires_at : Z;
  rs_revoked_at : option Z;
}.

#[export] Instance eta_RefreshSession : Eta RefreshSession := λ r, Build_RefreshSession
  (rs_user_id r) (rs_token_hash r) (rs_expires_at r) (rs_revoked_at r).
#[export] Instance upd_rs_revoked_at : Upd rs_revoked_at := ltac:(solve_upd).

(** ** The database *)

Record DB := {
  db_servers : gmap uuid Server;
  db_enrollment_tokens : gmap uuid EnrollmentToken;
  db_agents : gmap uuid Agent;
  db_agent_connections : gmap uuid AgentConnection;
  db_agent_commands : gmap uuid AgentCommand;
  db_agent_command_events : list AgentCommandEvent;
  db_applications : gmap uuid Application;
  db_sources : gmap uuid Source;
  db_releases : gmap uuid Release;
  db_instances : gmap uuid Instance;
  db_deployments : gmap uuid Deployment;
  db_deployment_steps : gmap uuid DeploymentStep;
  db_deployment_logs : list DeploymentLog;
  db_domains : gmap uuid Domain;
  db_health_checks : gmap uuid HealthCheck;
  db_health_check_results : list HealthCheckResult;
  db_secret_records : gmap uuid SecretRecord;
  db_metrics_snapshots : list MetricsSnapshot;
  db_audit_logs : list AuditLog;
  db_notifications : gmap uuid Notification;
  db_users : gmap uuid User;
  db_roles : gmap uuid Role;
  db_user_roles : list UserRole;
  db_refresh_sessions : gmap uuid RefreshSession;
}.

#[export] Instance eta_DB : Eta DB := λ r, Build_DB
  (db_servers r) (db_enrollment_tokens r) (db_agents r) (db_agent_connections r)
  (db_agent_commands r) (db_agent_command_events r) (db_applications r) (db_sources r)
  (db_releases r) (db_instances r) (db_deployments r) (db_deployment_steps r)
  (db_deployment_logs r) (db_domains r) (db_health_checks r) (db_health_check_results r)
  (db_secret_records r) (db_metrics_snapshots r) (db_audit_logs r) (db_notifications r)
  (db_users r) (db_roles r) (db_user_roles r) (db_refresh_sessions r).
#[export] Instance upd_db_servers : Upd db_servers := ltac:(solve_upd).
#[export] Instance upd_db_enrollment_tokens : Upd db_enrollment_tokens := ltac:(solve_upd).
#[export] Instance upd_db_agents : Upd db_agents := ltac:(solve_upd).
#[export] Instance upd_db_agent_connections : Upd db_agent_connections := ltac:(solve_upd).
#[export] Instance upd_db_agent_commands : Upd db_agent_commands := ltac:(solve_upd).
#[export] Instance upd_db_agent_command_events : Upd db_agent_command_events := ltac:(solve_upd).
#[export] Instance upd_db_applications : Upd db_applications := ltac:(solve_upd).
#[export] Instance upd_db_sources : Upd db_sources := ltac:(solve_upd).
#[export] Instance upd_db_releases : Upd db_releases := ltac:(solve_upd).
#[export] Instance upd_db_instances : Upd db_instances := ltac:(solve_upd).
#[export] Instance upd_db_deployments : Upd db_deployments := ltac:(solve_upd).
#[export] Instance upd_db_deployment_steps : Upd db_deployment_steps := ltac:(solve_upd).
#[export] Instance upd_db_deployment_logs : Upd db_deployment_logs := ltac:(solve_upd).
#[export] Instance upd_db_domains : Upd db_domains := ltac:(solve_upd).
#[export] Instance upd_db_health_checks : Upd db_health_checks := ltac:(solve_upd).
#[export] Instance upd_db_health_check_results : Upd db_health_check_results := ltac:(solve_upd).
#[export] Instance upd_db_secret_records : Upd db_secret_records := ltac:(solve_upd).
#[export] Instance upd_db_metrics_snapshots : Upd db_metrics_snapshots := ltac:(solve_upd).
#[export] Instance upd_db_audit_logs : Upd db_audit_logs := ltac:(solve_upd).
#[export] Instance upd_db_notifications : Upd db_notifications := ltac:(solve_upd).
#[export] Instance upd_db_users : Upd db_users := ltac:(solve_upd).
#[export] Instance upd_db_roles : Upd db_roles := ltac:(solve_upd).
#[export] Instance upd_db_user_roles : Upd db_user_roles := ltac:(solve_upd).
#[export] Instance upd_db_refresh_sessions : Upd db_refresh_sessions := ltac:(solve_upd).

Definition empty_db : DB :=
  {|
    db_servers := ∅;
    db_enrollment_tokens := ∅;
    db_agents := ∅;
    db_agent_connections := ∅;
    db_agent_commands := ∅;
    db_agent_command_events := [];
    db_applications := ∅;
    db_sources := ∅;
    db_releases := ∅;
    db_instances := ∅;
    db_deployments := ∅;
    db_deployment_steps := ∅;
    db_deployment_logs := [];
    db_domains := ∅;
    db_health_checks := ∅;
    db_health_check_results := [];
    db_secret_records := ∅;
    db_metrics_snapshots := [];
    db_audit_logs := [];
    db_notifications := ∅;
    db_users := ∅;
    db_roles := ∅;
    db_user_roles := [];
    db_refresh_sessions := ∅ |}.

