(* ===== verification/Session.v ===== *)
(** The running process: services/control-plane/app/db/session.py and what the
    services use of SQLAlchemy's session, of the event loop and of the outside
    world.

    [World] is the state one operation runs in: the database as its session
    sees it, the committed database, the session's own flags, and the
    in-memory registries of the process. [Env] is what the process observes
    and cannot determine: clocks, what agents send while the operation awaits,
    HTTP replies. [M] is the monad of all service code.

    An assignment to a mapped object and the flush that writes it are one step
    of the model ([autoflush=False] makes the difference visible only for
    [session.delete], which is kept pending until the next flush). Reading an
    attribute reads the row, as it does after a commit has expired the object;
    a row that is gone raises [ObjectDeletedError]. A failed flush rolls the
    transaction back and leaves the session unusable until [rollback]. A UUID
    primary key is drawn from a counter that skips the keys in use. An unordered
    query returns rows in the order of [map_to_list]. *)

From S2P Require Import Prelude Python Enums HealerYaml Schema.
Local Open Scope Z_scope.

(** ** The outside world *)

(** What reaches the process from other tasks of the event loop. *)
Inductive Incoming : Type :=
| AgentConnects (agent_id : uuid) (websocket : N) (remote_addr : option string)
| AgentSends (agent_id : uuid) (message : json)
| AgentDisconnects (agent_id : uuid)
| CommandSweep.                    (* a request handler that expires overdue commands *)

(** One [httpx] call: a response with its status, body and the elapsed time in
    milliseconds, or an [httpx.HTTPError] with its text, or [httpx.InvalidURL],
    which is not one: the text of the URL cannot be read. The body is the parsed
    JSON, or nothing when [response.json()] raises [ValueError]. *)
Inductive HttpReply : Type :=
| HttpResponse (status_code : Z) (body : option json) (elapsed_ms : Z)
| HttpError (text : string)
| HttpInvalidURL (text : string).

Record AgentHello := {
  hello_agent_version : string;
  hello_os : string;
  hello_arch : string;
  hello_adapters : list string;
}.

(** Every observation is indexed by the number of observations made before it.
    The two [validate] fields are pydantic's [model_validate] of
    [AgentHelloPayload] and [AgentHeartbeatPayload]; [env_encrypt] (with the random
    bytes drawn at an observation) and [env_decrypt] are Fernet under the
    configured key; [env_gateway_post] and [env_certificates_post] are posts to
    the Gateway Manager's reload and certificate endpoints; [env_elapsed] is
    how far [time.monotonic()] moved since it was last read, apart from sleeps,
    in microseconds; [env_exn_text] is [str(exc)]. *)
Class Env := {
  env_now : nat → Z;
  env_incoming : nat → list Incoming;
  env_send_ok : nat → bool;
  env_http_get : nat → string → Z → HttpReply;
  env_gateway_post : nat → json → HttpReply;
  env_elapsed : nat → N;
  env_certificates_post : nat → json → HttpReply;
  env_encrypt : nat → string → string;
  env_decrypt : string → option string;
  env_float_repr : Z → Z → string;
  env_exn_text : exn → string;
  env_fromisoformat : string → option Z;
  env_validate_hello : json → option AgentHello;
  env_validate_heartbeat : json → option (json * json * json);
}.

(** ** The process *)

Record World := {
  w_db : DB;                           (* the database as the session sees it *)
  w_committed : DB;                    (* the committed database *)
  w_active : bool;                     (* false after a failed flush *)
  w_deleted : list uuid;               (* releases passed to session.delete *)
  w_tick : nat;                        (* observations made so far *)
  w_uuid : N;                          (* source of primary keys *)
  w_connections : gmap uuid N;         (* ConnectionManager._connections *)
  w_waiters : gmap uuid bool;          (* command_service._waiters: is the event set? *)
  w_wire : list (N * json);            (* messages sent over websockets, newest last *)
  w_gateway_log : list json;           (* payloads posted to the Gateway Manager *)
}.

#[export] Instance eta_World : Eta World := λ r, Build_World
  (w_db r) (w_committed r) (w_active r) (w_deleted r) (w_tick r) (w_uuid r) (w_connections r)
  (w_waiters r) (w_wire r) (w_gateway_log r).
#[export] Instance upd_w_db : Upd w_db := ltac:(solve_upd).
#[export] Instance upd_w_committed : Upd w_committed := ltac:(solve_upd).
#[export] Instance upd_w_active : Upd w_active := ltac:(solve_upd).
#[export] Instance upd_w_deleted : Upd w_deleted := ltac:(solve_upd).
#[export] Instance upd_w_tick : Upd w_tick := ltac:(solve_upd).
#[export] Instance upd_w_uuid : Upd w_uuid := ltac:(solve_upd).
#[export] Instance upd_w_connections : Upd w_connections := ltac:(solve_upd).
#[export] Instance upd_w_waiters : Upd w_waiters := ltac:(solve_upd).
#[export] Instance upd_w_wire : Upd w_wire := ltac:(solve_upd).
#[export] Instance upd_w_gateway_log : Upd w_gateway_log := ltac:(solve_upd).

Abbreviation M := (ST World exn).

(** A process that has just started, over a database. *)
Definition boot (d : DB) : World :=
  {| w_db := d; w_committed := d; w_active := true; w_deleted := []; w_tick := 0; w_uuid := 1;
     w_connections := ∅; w_waiters := ∅; w_wire := []; w_gateway_log := [] |}.

(** ** Observations *)

(** [observe f]: the next observation. *)
Definition observe {A} (f : nat → A) : M A :=
  t ← gets w_tick; modify (λ w, w <| w_tick := S (w_tick w) |>) ;; mret (f t).

(** [datetime.now(UTC)], and [func.now()] of the database. *)
Definition now `{Env} : M Z := observe env_now.

(** ** The session *)

Definition require_active : M unit :=
  b ← gets w_active; if b : bool then mret tt else raise PendingRollbackError.

(** A query. *)
Definition query {A} (f : DB → A) : M A := require_active ;; gets (f ∘ w_db).

(** A write. *)
Definition db_modify (f : DB → DB) : M unit :=
  require_active ;; modify (λ w, w <| w_db := f (w_db w) |>).

(** The foreign keys that point at a release: its deployments go with it (and
    their steps and logs with them), instances and applications forget it. *)
Definition delete_release (r : uuid) (d : DB) : DB :=
  let gone := λ dep_id, match db_deployments d !! dep_id with
                        | Some dep => bool_decide (dep_release_id dep = r)
                        | None => false
                        end in
  d <| db_releases := delete r (db_releases d) |>
    <| db_deployments := filter (λ kv, dep_release_id kv.2 ≠ r) (db_deployments d) |>
    <| db_deployment_steps := filter (λ kv, gone (step_deployment_id kv.2) = false) (db_deployment_steps d) |>
    <| db_deployment_logs := List.filter (λ l, negb (gone (log_deployment_id l))) (db_deployment_logs d) |>
    <| db_instances :=
         (λ i, i <| inst_release_id := if decide (inst_release_id i = Some r) then None else inst_release_id i |>
                 <| inst_deployment_id := match inst_deployment_id i with
                                          | Some dep_id => if gone dep_id then None else Some dep_id
                                          | None => None
                                          end |>) <$> db_instances d |>
    <| db_applications :=
         (λ a, if decide (app_active_release_id a = Some r) then a <| app_active_release_id := None |> else a)
           <$> db_applications d |>.

(** [session.flush()]: writes the pending deletes. *)
Definition flush : M unit :=
  require_active ;;
  modify (λ w, w <| w_db := foldr delete_release (w_db w) (w_deleted w) |> <| w_deleted := [] |>).

(** [session.commit()]. *)
Definition commit : M unit := flush ;; modify (λ w, w <| w_committed := w_db w |>).

(** [session.rollback()]. *)
Definition rollback : M unit :=
  modify (λ w, w <| w_db := w_committed w |> <| w_deleted := [] |> <| w_active := true |>).

(** A flush that the database refuses. *)
Definition flush_error {A} (e : exn) : M A :=
  modify (λ w, w <| w_db := w_committed w |> <| w_deleted := [] |> <| w_active := false |>) ;; raise e.

(** [session.delete(release)]. *)
Definition session_delete_release (r : uuid) : M unit :=
  require_active ;; modify (λ w, w <| w_deleted := r :: w_deleted w |>).

(** ** Rows *)

Section rows.
Context {R : Type} (tbl : DB → gmap uuid R) `{!Upd tbl}.

(** [session.get(Model, id)]. *)
Definition session_get (id : uuid) : M (option R) := query (λ d, tbl d !! id).

(** An attribute of a mapped object. *)
Definition row (id : uuid) : M R :=
  r ← session_get id;
  match r with
  | Some r => mret r
  | None => raise ObjectDeletedError
  end.

(** Assignments to a mapped object. *)
Definition assign (id : uuid) (f : R → R) : M unit :=
  r ← row id; db_modify (λ d, d <| tbl := <[id := f r]> (tbl d) |>).

(** The least number above every key of a table. *)
Definition next_key (m : gmap uuid R) : N := map_fold (λ k _ acc, N.max acc (k + 1)) 0%N m.

(** [session.add(Model(...))] and the flush that inserts it. *)
Definition insert_row (r : R) : M uuid :=
  id ← query (λ d, next_key (tbl d));
  n ← gets w_uuid;
  let id := N.max n id in
  modify (λ w, w <| w_uuid := (id + 1)%N |>) ;;
  db_modify (λ d, d <| tbl := <[id := r]> (tbl d) |>) ;;
  mret id.

(** [select(Model).where(p)]. *)
Definition select (p : R → bool) (d : DB) : list (uuid * R) :=
  List.filter (λ kv, p kv.2) (map_to_list (tbl d)).

(** The same under a unique constraint: [conflict] are the rows that have the
    new row's value. *)
Definition insert_unique (conflict : R → bool) (r : R) : M uuid :=
  taken ← query (select conflict);
  match taken with
  | [] => insert_row r
  | _ => flush_error IntegrityError
  end.

End rows.

Arguments session_get {R} tbl id.
Arguments row {R} tbl id.
Arguments assign {R} tbl {_} id f.
Arguments insert_row {R} tbl {_} r.
Arguments select {R} tbl p d.
Arguments insert_unique {R} tbl {_} conflict r.

(** The rows a query returns. *)
Lemma elem_of_select {R} (tbl : DB → gmap uuid R) p d id r :
  (id, r) ∈ select tbl p d ↔ tbl d !! id = Some r ∧ p r = true.
Proof. unfold select. rewrite list_elem_of_In, filter_In, <-list_elem_of_In, elem_of_map_to_list. done. Qed.

Lemma select_keys {R} (tbl : DB → gmap uuid R) p d id :
  id ∈ map fst (select tbl p d) ↔ ∃ r, tbl d !! id = Some r ∧ p r = true.
Proof.
  rewrite list_elem_of_fmap. split.
  - intros ([k r] & -> & Hk). exists r. by apply elem_of_select.
  - intros (r & Hr). exists (id, r). split; [done|]. by apply elem_of_select.
Qed.

Lemma select_keys_nodup {R} (tbl : DB → gmap uuid R) p d : NoDup (map fst (select tbl p d)).
Proof.
  unfold select. pose proof (NoDup_fst_map_to_list (tbl d)) as Hnd.
  induction (map_to_list (tbl d)) as [|[k r] l IH]; simpl in *; [apply NoDup_nil_2|].
  apply NoDup_cons in Hnd as [Hk Hnd]. destruct (p r); simpl; [|by apply IH].
  apply NoDup_cons. split; [|by apply IH]. intros Hin. apply Hk.
  apply list_elem_of_fmap in Hin as (x & -> & Hx). apply list_elem_of_In, filter_In in Hx as [Hx _].
  apply list_elem_of_fmap. exists x. split; [done|by apply list_elem_of_In].
Qed.

Lemma select_nil {R} (tbl : DB → gmap uuid R) p d :
  select tbl p d = [] ↔ ∀ id r, tbl d !! id = Some r → p r = false.
Proof.
  split.
  - intros E id r Hr. apply not_true_is_false. intros Hp.
    assert ((id, r) ∈ select tbl p d) as Hin by by apply elem_of_select.
    rewrite E in Hin. by apply elem_of_nil in Hin.
  - intros Hno. destruct (select tbl p d) as [|[id r] l] eqn:E; [done|].
    assert ((id, r) ∈ select tbl p d) as Hin by (rewrite E; left).
    apply elem_of_select in Hin as [Hr Hp]. rewrite (Hno id r Hr) in Hp. done.
Qed.

(** [.first()]. *)
Definition first {A} (l : list A) : option A := head l.

(** [.first()] of a query: a row that satisfies it, if there is one. *)
Lemma first_select {R} (tbl : DB → gmap uuid R) p d :
  match first (select tbl p d) with
  | Some (id, r) => tbl d !! id = Some r ∧ p r = true
  | None => ∀ id r, tbl d !! id = Some r → p r = false
  end.
Proof.
  destruct (select tbl p d) as [|[id r] l] eqn:E; simpl; [by apply select_nil|].
  apply elem_of_select. rewrite E. left.
Qed.

(** A stable sort: an element goes before those that came after it unless it
    must follow them. *)
Fixpoint insert_by {A} (before : A → A → bool) (x : A) (l : list A) : list A :=
  match l with
  | [] => [x]
  | y :: l' => if before x y then x :: l else y :: insert_by before x l'
  end.

Definition sort_by {A} (before : A → A → bool) (l : list A) : list A := foldr (insert_by before) [] l.

(** [.order_by(key.desc())] and [sorted(..., reverse=True)]. *)
Definition order_by_desc {A} (key : A → Z) (l : list A) : list A := sort_by (λ a b, key b <=? key a) l.

(** [.order_by(key)]. *)
Definition order_by_asc {A} (key : A → Z) (l : list A) : list A := sort_by (λ a b, key a <=? key b) l.

Lemma insert_by_permutation {A} (before : A → A → bool) x l : insert_by before x l ≡ₚ x :: l.
Proof.
  induction l as [|y l IH]; simpl; [done|]. destruct (before x y); [done|]. rewrite IH. apply Permutation_swap.
Qed.

Lemma sort_by_permutation {A} (before : A → A → bool) l : sort_by before l ≡ₚ l.
Proof. induction l as [|x l IH]; simpl; [done|]. by rewrite insert_by_permutation, IH. Qed.

Lemma order_by_desc_sorted {A} (key : A → Z) l : StronglySorted (λ a b, key b ≤ key a) (order_by_desc key l).
Proof.
  unfold order_by_desc. induction l as [|x l IH]; simpl; [constructor|].
  induction (sort_by _ l) as [|y m IHm]; simpl; [by repeat constructor|].
  apply StronglySorted_inv in IH as [Hm Hy]. destruct (Z.leb_spec (key y) (key x)).
  - constructor; [by constructor|]. constructor; [lia|].
    eapply Forall_impl; [exact Hy|]. simpl. intros z Hz. lia.
  - constructor; [by apply IHm|]. rewrite insert_by_permutation. constructor; [lia|done].
Qed.

(** [uuid.uuid4()] used outside a primary key. *)
Definition uuid4 : M uuid :=
  n ← gets w_uuid; modify (λ w, w <| w_uuid := (n + 1)%N |>) ;; mret n.

(** ** Column values *)

(** A JSON value bound to a text column; [limit] is the length of a
    [String(limit)] column. The flush fails when the column cannot hold it. *)
Definition text_value (limit : option nat) (v : json) : M string :=
  match v with
  | JStr s => if (match limit with Some n => (n <? String.length s)%nat | None => false end)
              then flush_error StatementError else mret s
  | JNull => flush_error IntegrityError
  | _ => flush_error StatementError
  end.

(** The same for a nullable text column. *)
Definition opt_text_value (v : json) : M (option string) :=
  match v with
  | JNull => mret None
  | _ => s ← text_value None v; mret (Some s)
  end.

(** ** Other tasks

    [get_db]: a request's session commits when its handler returns and rolls
    back when it raises. *)

Definition get_db {A} (handler : M A) : M A :=
  try_except (a ← handler; commit ;; mret a) (λ e, rollback ;; raise e).

(** A handler of another task runs between two steps of this one, on a session
    of its own; every [await] of the sources that can let one run follows a
    commit. What it raises ends that task only. *)
Definition other_session (handler : M unit) : M unit := λ w,
  let '(_, w') := get_db handler (w <| w_active := true |>) in
  (Ok tt, w' <| w_active := w_active w |>).
