(* ===== verification/Hoare.v ===== *)
(** Invariants of service code.

    An [invariant] is a predicate on databases together with the releases
    whose deletion may be pending, which it must survive. [inv I w]: [I] holds
    of the database as the session sees it and of the committed one, and only
    such deletions are pending.
    [hoare I m Q]: from such a state [m] ends in such a state, whatever its
    outcome, and a value it returns satisfies [Q]. [keeps I m] says nothing of
    the value. The rules follow the operations of [Session]; [keeps_auto]
    applies them and the lemmas of the [keeps] database. *)

From S2P Require Import Prelude Python Schema Session.

Record invariant := {
  holds :> DB → Prop;
  pending : uuid → Prop;
  survives : ∀ r d, pending r → holds d → holds (delete_release r d);
}.

(** A predicate with no deletion pending. *)
Definition strict (P : DB → Prop) : invariant :=
  {| holds := P; pending := λ _, False; survives := λ r d (H : False) _, False_ind _ H |}.

Definition inv (I : invariant) (w : World) : Prop :=
  I (w_db w) ∧ I (w_committed w) ∧ ∀ r, r ∈ w_deleted w → pending I r.

Definition hoare {A} (I : invariant) (m : M A) (Q : A → Prop) : Prop :=
  ∀ w, inv I w → inv I (m w).2 ∧ ∀ a, (m w).1 = Ok a → Q a.

Abbreviation keeps I m := (hoare I m (λ _, True)).

Create HintDb keeps.

Section rules.
Context (I : invariant).

Lemma hoare_weaken {A} (m : M A) (P Q : A → Prop) :
  hoare I m P → (∀ a, P a → Q a) → hoare I m Q.
Proof. intros Hm HPQ w Hw. destruct (Hm w Hw) as [? HP]. split; [done|]. intros a Ha. by apply HPQ, HP. Qed.

Lemma hoare_keeps {A} (m : M A) (P : A → Prop) : hoare I m P → keeps I m.
Proof. intros H. eapply hoare_weaken; [exact H|done]. Qed.

Lemma hoare_ret {A} (a : A) (Q : A → Prop) : Q a → hoare I (mret a) Q.
Proof. intros HQ w Hw. split; [done|]. by intros ? [= <-]. Qed.

Lemma hoare_raise {A} e (Q : A → Prop) : hoare I (raise e) Q.
Proof. by intros w Hw. Qed.

Lemma hoare_gets {A} (f : World → A) : keeps I (gets f).
Proof. by intros w Hw. Qed.

(** Changes to the state of the process other than the database. *)
Lemma hoare_modify (f : World → World) :
  (∀ w, w_db (f w) = w_db w ∧ w_committed (f w) = w_committed w ∧ w_deleted (f w) = w_deleted w) →
  keeps I (modify f).
Proof.
  intros Hf w Hw. split; [|done]. unfold inv in *. simpl.
  destruct (Hf w) as (-> & -> & ->). done.
Qed.

Lemma hoare_bind {A B} (m : M A) (f : A → M B) (P : A → Prop) (Q : B → Prop) :
  hoare I m P → (∀ a, P a → hoare I (f a) Q) → hoare I (m ≫= f) Q.
Proof.
  intros Hm Hf w Hw. destruct (Hm w Hw) as [Hw' HP]. unfold mbind, st_bind.
  destruct (m w) as [[a|e] w']; simpl in *; [|done]. by apply Hf; [apply HP|].
Qed.

Lemma keeps_bind {A B} (m : M A) (f : A → M B) (Q : B → Prop) :
  keeps I m → (∀ a, hoare I (f a) Q) → hoare I (m ≫= f) Q.
Proof. intros Hm Hf. eapply hoare_bind; [exact Hm|]. intros a _. apply Hf. Qed.

Lemma hoare_try_except {A} (m : M A) h (Q : A → Prop) :
  hoare I m Q → (∀ e, hoare I (h e) Q) → hoare I (try_except m h) Q.
Proof.
  intros Hm Hh w Hw. destruct (Hm w Hw) as [Hw' HP]. unfold try_except.
  destruct (m w) as [[a|e] w']; simpl in *; [done|]. by apply Hh.
Qed.

Lemma hoare_try_finally {A} (m : M A) fin (Q : A → Prop) :
  hoare I m Q → keeps I fin → hoare I (try_finally m fin) Q.
Proof.
  intros Hm Hf w Hw. destruct (Hm w Hw) as [Hw' HP]. unfold try_finally.
  destruct (m w) as [r w']; simpl in *. destruct (Hf w' Hw') as [Hw'' _].
  destruct (fin w') as [[[]|e] w'']; simpl in *; [|done]. split; [done|apply HP].
Qed.

Lemma keeps_when b m : keeps I m → keeps I (when b m).
Proof. destruct b; [done|]. intros _. by apply hoare_ret. Qed.

Lemma keeps_for_each {A} (xs : list A) body :
  (∀ x, x ∈ xs → keeps I (body x)) → keeps I (for_each xs body).
Proof.
  induction xs as [|x xs IH]; intros H; simpl; [by apply hoare_ret|].
  apply keeps_bind; [apply H; left|]. intros _. apply IH. intros y Hy. apply H. by right.
Qed.

(** ** The session *)

Lemma hoare_observe {A} (f : nat → A) : keeps I (observe f).
Proof. by intros w Hw. Qed.

Lemma keeps_now `{Env} : keeps I now.
Proof. apply hoare_observe. Qed.

Lemma hoare_require_active : keeps I require_active.
Proof. intros w Hw. unfold require_active, mbind, st_bind. simpl. by destruct (w_active w). Qed.

Lemma hoare_query {A} (f : DB → A) : hoare I (query f) (λ a, ∃ d, I d ∧ a = f d).
Proof.
  intros w Hw. unfold query, require_active, mbind, st_bind. simpl.
  destruct (w_active w); simpl; [|done]. split; [done|]. intros a [= <-]. exists (w_db w).
  split; [apply Hw|done].
Qed.

Lemma hoare_db_modify f : (∀ d, I d → I (f d)) → keeps I (db_modify f).
Proof.
  intros Hf w Hw. unfold db_modify, require_active, mbind, st_bind. simpl.
  destruct (w_active w); simpl; [|done]. split; [|done]. destruct Hw as (?&?&?).
  split; [by apply Hf|done].
Qed.

(** Pending deletions that are allowed keep the predicate. *)
Lemma flush_deletes d dels :
  I d → (∀ r, r ∈ dels → pending I r) → I (foldr delete_release d dels).
Proof.
  intros Hd Hdel. induction dels as [|r l IH]; simpl; [done|].
  apply survives; [apply Hdel; left|]. apply IH. intros r' Hr'. apply Hdel. by right.
Qed.

Lemma keeps_flush : keeps I flush.
Proof.
  intros w (Hdb & Hc & Hdel). unfold flush, require_active, mbind, st_bind. simpl.
  destruct (w_active w); simpl; [|done]. split; [|done]. split; [|split; [done|]].
  - simpl. by apply flush_deletes.
  - simpl. intros r Hr. by apply elem_of_nil in Hr.
Qed.

Lemma keeps_commit : keeps I commit.
Proof.
  apply keeps_bind; [apply keeps_flush|]. intros _ w (?&?&?). split; [|done]. done.
Qed.

Lemma keeps_rollback : keeps I rollback.
Proof.
  intros w (Hdb & Hc & Hdel). split; [|done]. split; [done|]. split; [done|].
  intros r Hr. by apply elem_of_nil in Hr.
Qed.

Lemma hoare_flush_error {A} e (Q : A → Prop) : hoare I (flush_error e) Q.
Proof.
  intros w (Hdb & Hc & Hdel). split; [|done]. split; [done|]. split; [done|].
  intros r Hr. by apply elem_of_nil in Hr.
Qed.

Lemma hoare_session_delete_release r : pending I r → keeps I (session_delete_release r).
Proof.
  intros Hr w (Hdb & Hc & Hdel).
  unfold session_delete_release, require_active, mbind, st_bind. simpl.
  destruct (w_active w); simpl; [|done]. split; [|done]. split; [done|]. split; [done|].
  simpl. intros r' [->|Hr']%elem_of_cons; [done|by apply Hdel].
Qed.

Lemma hoare_row {R} (tbl : DB → gmap uuid R) id :
  hoare I (row tbl id) (λ r, ∃ d, I d ∧ tbl d !! id = Some r).
Proof.
  eapply hoare_bind; [apply hoare_query|]. intros o (d & Hd & ->).
  destruct (tbl d !! id) as [r|] eqn:E; [|apply hoare_raise].
  apply hoare_ret. by exists d.
Qed.

Lemma hoare_assign {R} (tbl : DB → gmap uuid R) `{!Upd tbl} id f :
  (∀ d r, I d → tbl d !! id = Some r → I (d <| tbl := <[id := f r]> (tbl d) |>)) →
  keeps I (assign tbl id f).
Proof.
  intros Hf w Hw. unfold assign, row, session_get, query, db_modify, require_active, mbind, st_bind.
  simpl. destruct (w_active w) eqn:Ha; simpl; [|done].
  destruct (tbl (w_db w) !! id) as [r|] eqn:E; simpl; [|done].
  rewrite Ha. simpl. split; [|done]. destruct Hw as (?&?&?). split; [by apply Hf|done].
Qed.

Lemma next_key_spec {R} (m : gmap uuid R) k r : m !! k = Some r → (k < next_key m)%N.
Proof.
  unfold next_key. revert k r.
  apply (map_fold_weak_ind (λ acc m, ∀ k r, m !! k = Some r → (k < acc)%N)); [done|].
  intros k r m' acc Hk IH k' r' [[<- <-]|[? Hk']]%lookup_insert_Some; [lia|].
  specialize (IH _ _ Hk'). lia.
Qed.

(** An insert on a usable session takes a key that is not in use. *)
Lemma insert_row_run {R} (tbl : DB → gmap uuid R) `{!Upd tbl} r w :
  w_active w = true →
  ∃ id, tbl (w_db w) !! id = None ∧ (w_uuid w ≤ id)%N ∧
    insert_row tbl r w =
    (Ok id, w <| w_uuid := (id + 1)%N |> <| w_db := (w_db w) <| tbl := <[id := r]> (tbl (w_db w)) |> |>).
Proof.
  intros Ha. exists (N.max (w_uuid w) (next_key (tbl (w_db w)))). split; [|split; [lia|]].
  - destruct (tbl (w_db w) !! _) as [r'|] eqn:E; [|done]. apply next_key_spec in E. lia.
  - unfold insert_row, query, db_modify, require_active, mbind, st_bind. simpl. rewrite Ha. simpl. by rewrite Ha.
Qed.

Lemma hoare_insert_row {R} (tbl : DB → gmap uuid R) `{!Upd tbl} r :
  (∀ d id, I d → tbl d !! id = None → I (d <| tbl := <[id := r]> (tbl d) |>)) →
  hoare I (insert_row tbl r) (λ id, ∃ d, I d ∧ tbl d !! id = None).
Proof.
  intros Hf w Hw. unfold insert_row, query, db_modify, require_active, mbind, st_bind.
  simpl. destruct (w_active w) eqn:Ha; simpl; [|done]. rewrite Ha. simpl.
  set (id := N.max _ _).
  assert (tbl (w_db w) !! id = None) as Hid.
  { destruct (tbl (w_db w) !! id) as [r'|] eqn:E; [|done].
    apply next_key_spec in E. subst id. lia. }
  destruct Hw as (Hdb&?&?). split.
  - split; [by apply Hf|done].
  - intros a [= <-]. by exists (w_db w).
Qed.

Lemma insert_unique_run {R} (tbl : DB → gmap uuid R) `{!Upd tbl} conflict r w :
  w_active w = true →
  insert_unique tbl conflict r w =
  match select tbl conflict (w_db w) with
  | [] => insert_row tbl r w
  | _ => flush_error IntegrityError w
  end.
Proof.
  intros Ha. unfold insert_unique. unfold query, require_active, mbind at 1, st_bind at 1.
  unfold mbind at 1, st_bind at 1. unfold mbind at 1, st_bind at 1. simpl. rewrite Ha. simpl.
  by destruct (select tbl conflict (w_db w)).
Qed.

Lemma keeps_insert_unique {R} (tbl : DB → gmap uuid R) `{!Upd tbl} conflict r :
  (∀ d id, I d → tbl d !! id = None → (∀ k x, tbl d !! k = Some x → conflict x = false) →
     I (d <| tbl := <[id := r]> (tbl d) |>)) →
  keeps I (insert_unique tbl conflict r).
Proof.
  intros Hf w Hw. destruct (w_active w) eqn:Ha.
  2: { unfold insert_unique, query, require_active, mbind, st_bind. simpl. by rewrite Ha. }
  rewrite insert_unique_run by done.
  destruct (select tbl conflict (w_db w)) as [|x l] eqn:E; [|by apply hoare_flush_error].
  destruct (insert_row_run tbl r w Ha) as (id & Hid & _ & ->). simpl. split; [|done].
  destruct Hw as (Hdb & Hc & Hd). split; [|done]. simpl. apply Hf; [done..|]. by apply select_nil.
Qed.

Lemma keeps_uuid4 : keeps I uuid4.
Proof.
  apply keeps_bind; [apply hoare_gets|]. intros n. apply keeps_bind; [by apply hoare_modify|].
  intros _. by apply hoare_ret.
Qed.

Lemma keeps_text_value limit v : keeps I (text_value limit v).
Proof.
  destruct v; simpl; try apply hoare_flush_error.
  destruct (match limit with Some _ => _ | None => _ end);
    [apply hoare_flush_error|by apply hoare_ret].
Qed.

Lemma keeps_opt_text_value v : keeps I (opt_text_value v).
Proof.
  destruct v; unfold opt_text_value; [by apply hoare_ret|..];
    (apply keeps_bind; [apply keeps_text_value|intros ?; by apply hoare_ret]).
Qed.

Lemma keeps_get_db {A} (m : M A) : keeps I m → keeps I (get_db m).
Proof.
  intros Hm. apply hoare_try_except.
  - apply keeps_bind; [done|]. intros a. apply keeps_bind; [apply keeps_commit|].
    intros _. by apply hoare_ret.
  - intros e. apply keeps_bind; [apply keeps_rollback|]. intros _. apply hoare_raise.
Qed.

Lemma keeps_other_session m : keeps I m → keeps I (other_session m).
Proof.
  intros Hm w Hw. unfold other_session.
  assert (inv I (w <| w_active := true |>)) as Hw' by done.
  destruct (keeps_get_db m Hm _ Hw') as [Hi _].
  destruct (get_db m _) as [r w']. by split.
Qed.

End rules.

(** From an invariant to a specification of one run. *)
Lemma wp_hoare {A} (I : invariant) (m : M A) (P : A → Prop) (Q : result exn A → World → Prop) w :
  hoare I m P → inv I w →
  (∀ r w', inv I w' → (∀ a, r = Ok a → P a) → Q r w') → wp m Q w.
Proof. intros Hm Hw HQ. destruct (Hm w Hw) as [Hi HP]. unfold wp. by apply HQ. Qed.

Lemma wp_keeps {A} (I : invariant) (m : M A) (Q : result exn A → World → Prop) w :
  keeps I m → inv I w → (∀ r w', inv I w' → Q r w') → wp m Q w.
Proof. intros Hm Hw HQ. eapply wp_hoare; [done..|]. intros r w' Hw' _. by apply HQ. Qed.

(** A value handed on by [mbind] after steps that keep an invariant. *)
Lemma wp_bind_hoare {A B} (I : invariant) (m : M A) (f : A → M B) (P : A → Prop) (Q : result exn B → World → Prop) w :
  hoare I m P → inv I w →
  (∀ a w', inv I w' → P a → wp (f a) Q w') → (∀ e w', inv I w' → Q (Raise e) w') → wp (m ≫= f) Q w.
Proof.
  intros Hm Hw Hf He. apply wp_bind. eapply wp_hoare; [done..|].
  intros [a|e] w' Hw' HP; [apply Hf; [done|by apply HP]|by apply He].
Qed.

Lemma wp_bind_keeps {A B} (I : invariant) (m : M A) (f : A → M B) (Q : result exn B → World → Prop) w :
  keeps I m → inv I w →
  (∀ a w', inv I w' → wp (f a) Q w') → (∀ e w', inv I w' → Q (Raise e) w') → wp (m ≫= f) Q w.
Proof. intros Hm Hw Hf He. eapply wp_bind_hoare; [done..| |done]. intros a w' Hw' _. by apply Hf. Qed.

Lemma inv_strict P w : inv (strict P) w ↔ P (w_db w) ∧ P (w_committed w) ∧ w_deleted w = [].
Proof.
  unfold inv. simpl. split; intros (? & ? & Hd); (split; [done|split; [done|]]).
  - destruct (w_deleted w) as [|r l]; [done|]. destruct (Hd r). left.
  - intros r Hr. rewrite Hd in Hr. by apply elem_of_nil in Hr.
Qed.

(** An assignment that is committed at once takes the session and the committed
    database from one predicate to another. *)
Lemma wp_assign_commit {A R} (tbl : DB → gmap uuid R) `{!Upd tbl} id f (P P' : DB → Prop) (k : M A)
    (Q : result exn A → World → Prop) w :
  inv (strict P) w →
  (∀ d r, P d → tbl d !! id = Some r → P' (d <| tbl := <[id := f r]> (tbl d) |>)) →
  (∀ w', inv (strict P') w' → w_active w' = true → wp k Q w') →
  (∀ e w', inv (strict P) w' → Q (Raise e) w') →
  wp (assign tbl id f ≫= λ _, commit ≫= λ _, k) Q w.
Proof.
  intros Hw Hf Hk He. unfold wp at 1.
  unfold assign, row, session_get, query, db_modify, commit, flush, require_active, mbind, st_bind. simpl.
  destruct (w_active w) eqn:Ha; simpl; [|by apply He].
  destruct (tbl (w_db w) !! id) as [r|] eqn:E; simpl; [|by apply He].
  rewrite Ha. simpl. rewrite Ha. simpl. apply inv_strict in Hw as (Hdb & _ & Hdel). rewrite Hdel. simpl.
  apply Hk; [|done]. apply inv_strict. simpl. split; [by apply Hf|]. split; [by apply Hf|done].
Qed.

(** ** Runs on a session that can be used, with nothing pending *)

Definition ready (w : World) : Prop := w_active w = true ∧ w_deleted w = [].

Lemma bind_run {A B} (m : M A) (f : A → M B) w a w' : m w = (Ok a, w') → (m ≫= f) w = f a w'.
Proof. unfold mbind, st_bind. by intros ->. Qed.

Lemma flush_run w : ready w → flush w = (Ok tt, w).
Proof.
  destruct w as [db c act del t u cs ws wi g]. intros [Ha Hd]. simpl in Ha, Hd. subst. done.
Qed.

Lemma commit_run w : ready w → commit w = (Ok tt, w <| w_committed := w_db w |>).
Proof. intros Hr. unfold commit. by rewrite (bind_run _ _ _ _ _ (flush_run w Hr)). Qed.

Lemma query_run {A} (f : DB → A) w : w_active w = true → query f w = (Ok (f (w_db w)), w).
Proof. intros Ha. unfold query, require_active, mbind, st_bind. simpl. by rewrite Ha. Qed.

Lemma session_get_run {R} (tbl : DB → gmap uuid R) id w :
  w_active w = true → session_get tbl id w = (Ok (tbl (w_db w) !! id), w).
Proof. intros Ha. unfold session_get. by rewrite query_run. Qed.

Lemma row_run {R} (tbl : DB → gmap uuid R) id r w :
  w_active w = true → tbl (w_db w) !! id = Some r → row tbl id w = (Ok r, w).
Proof. intros Ha Hr. unfold row. rewrite (bind_run _ _ _ _ _ (session_get_run tbl id w Ha)). by rewrite Hr. Qed.

Lemma db_modify_run f w : w_active w = true → db_modify f w = (Ok tt, w <| w_db := f (w_db w) |>).
Proof. intros Ha. unfold db_modify, require_active, mbind, st_bind. simpl. by rewrite Ha. Qed.

Lemma assign_run {R} (tbl : DB → gmap uuid R) `{!Upd tbl} id f r w :
  w_active w = true → tbl (w_db w) !! id = Some r →
  assign tbl id f w = (Ok tt, w <| w_db := (w_db w) <| tbl := <[id := f r]> (tbl (w_db w)) |> |>).
Proof.
  intros Ha Hr. unfold assign. rewrite (bind_run _ _ _ _ _ (row_run tbl id r w Ha Hr)). by rewrite db_modify_run.
Qed.

Lemma now_run `{Env} w : now w = (Ok (env_now (w_tick w)), w <| w_tick := S (w_tick w) |>).
Proof. done. Qed.

#[export] Hint Resolve hoare_gets keeps_now hoare_observe keeps_flush keeps_commit keeps_rollback
  hoare_flush_error keeps_uuid4 keeps_text_value keeps_opt_text_value hoare_require_active : keeps.

(** ** Automation *)

(** One syntactic step of a [keeps] goal. *)
Ltac keeps_step :=
  match goal with
  | |- hoare _ (mret _) _ => apply hoare_ret; try done
  | |- hoare _ (raise _) _ => apply hoare_raise
  | |- hoare _ (query _) (λ _, True) => eapply hoare_keeps, hoare_query
  | |- hoare _ (session_get _ _) (λ _, True) => eapply hoare_keeps, hoare_query
  | |- hoare _ (row _ _) (λ _, True) => eapply hoare_keeps, hoare_row
  | |- hoare _ (when _ _) _ => apply keeps_when
  | |- hoare _ (for_each _ _) _ => apply keeps_for_each; intros
  | |- hoare _ (try_except _ _) _ => apply hoare_try_except; [|intros]
  | |- hoare _ (try_finally _ _) _ => apply hoare_try_finally
  | |- hoare _ (mbind _ _) _ => apply keeps_bind; [|intros]
  | |- hoare _ (modify _) _ => apply hoare_modify; done
  | |- hoare _ (let '(_, _) := ?x in _) _ => destruct x
  | |- hoare _ (if ?b then _ else _) _ => destruct b
  | |- hoare _ (match ?x with _ => _ end) _ => destruct x
  | |- hoare _ ((match ?x with _ => _ end) _) _ => destruct x; cbv beta
  | |- _ => solve [eauto 2 with keeps]
  end.
Ltac keeps_auto := repeat keeps_step.
