(* ===== verification/Widths.v ===== *)
(** The widths of text columns, as the models of app/db/models declare them, and
    the rows that respect them. PostgreSQL refuses a longer value. *)

From S2P Require Import Prelude Python Ddl Metadata Schema Session Hoare.
Local Open Scope Z_scope.

Definition find_column (table column : string) : option MappedColumn :=
  model ← List.find (λ m, String.eqb (md_tablename m) table) models;
  List.find (λ c, String.eqb (mc_name c) column) (md_columns model).

(** [n] for a [String(n)] column; other columns have no width. *)
Definition column_width (table column : string) : option Z :=
  c ← find_column table column;
  match mc_type c with
  | Plain_ (String_ n) => Some n
  | _ => None
  end.

Definition fits (table column text : string) : Prop :=
  match column_width table column with
  | Some n => Z.of_nat (String.length text) ≤ n
  | None => True
  end.

Definition opt_fits (table column : string) (text : option string) : Prop :=
  match text with
  | Some s => fits table column s
  | None => True
  end.

(** ** Rows *)

Definition user_fits (u : User) : Prop := fits "users" "email" (user_email u).
Definition server_fits (s : Server) : Prop :=
  fits "servers" "name" (srv_name s) ∧ fits "servers" "hostname" (srv_hostname s).
Definition application_fits (a : Application) : Prop :=
  fits "applications" "name" (app_name a) ∧ fits "applications" "slug" (app_slug a).
Definition instance_fits (i : Instance) : Prop := opt_fits "instances" "service_name" (inst_service_name i).
Definition secret_fits (s : SecretRecord) : Prop := fits "secret_records" "key" (sec_key s).
Definition source_fits (s : Source) : Prop := opt_fits "sources" "ref" (src_ref s).
Definition health_check_fits (h : HealthCheck) : Prop := opt_fits "health_checks" "path" (hc_path h).
Definition domain_fits (x : Domain) : Prop := fits "domains" "hostname" (dom_hostname x).

(** The rows an administrator configures. *)
Definition settings_fit (d : DB) : Prop :=
  map_Forall (λ _, source_fits) (db_sources d) ∧ map_Forall (λ _, health_check_fits) (db_health_checks d) ∧
  map_Forall (λ _, domain_fits) (db_domains d).

(** Every row of the tables whose text comes from outside. *)
Definition texts_fit (d : DB) : Prop :=
  map_Forall (λ _, user_fits) (db_users d) ∧ map_Forall (λ _, server_fits) (db_servers d) ∧
  map_Forall (λ _, application_fits) (db_applications d) ∧ map_Forall (λ _, instance_fits) (db_instances d) ∧
  map_Forall (λ _, secret_fits) (db_secret_records d) ∧ settings_fit d.

(** ** Widths as numbers *)

Lemma fits_width table column n text :
  column_width table column = Some n → fits table column text ↔ Z.of_nat (String.length text) ≤ n.
Proof. intros E. unfold fits. by rewrite E. Qed.

Lemma fits_bound table column n text :
  column_width table column = Some (Z.of_nat n) → (String.length text ≤ n)%nat → fits table column text.
Proof. intros E Hn. apply (fits_width _ _ _ _ E). lia. Qed.

(** [solve_fits n]: the column has width [n]; what is left is the length of the
    text. *)
Ltac solve_fits n := apply (fits_bound _ _ n); [vm_compute; reflexivity|].

(** A value that was bound to a column of [n] characters has at most that many. *)
Lemma hoare_text_value (I : invariant) n s :
  hoare I (text_value (Some n) (JStr s)) (λ _, (String.length s ≤ n)%nat).
Proof.
  unfold text_value. destruct (n <? String.length s)%nat eqn:E; [apply hoare_flush_error|].
  apply hoare_ret. by apply Nat.ltb_ge.
Qed.
