(* ===== verification/Permissions.v ===== *)
(** Who may do what: services/control-plane/app/domain/permissions.py,
    command_permissions.py and [require_permission] of app/api/deps.py. *)

From S2P Require Import Prelude Python Enums Schema Session.
Local Open Scope Z_scope.

(** A set of permissions is a list without a meaningful order. *)
Definition ROLE_PERMISSIONS : list (string * list string) :=
  [ ("Administrator", ["*"]);
    ("Operator", ["view"; "deploy"; "scale"; "restart"; "stop"; "rollback"]);
    ("Viewer", ["view"]) ].

Fixpoint has_permission (roles : list string) (permission : string) : bool :=
  match roles with
  | [] => false
  | role :: roles' =>
      let granted := dict_get ROLE_PERMISSIONS role [] in
      if (bool_decide ("*" ∈ granted) || bool_decide (permission ∈ granted))%bool then true
      else has_permission roles' permission
  end.

Definition COMMAND_TYPE_PERMISSIONS : list (agent_command_type * string) :=
  [ (AgentCommandType.INSPECT_HOST, "view");
    (AgentCommandType.VALIDATE_APP, "view");
    (AgentCommandType.INSPECT_INSTANCE, "view");
    (AgentCommandType.COLLECT_LOGS, "view");
    (AgentCommandType.COLLECT_METRICS, "view");
    (AgentCommandType.DEPLOY_RELEASE, "deploy");
    (AgentCommandType.UPDATE_PROXY, "deploy");
    (AgentCommandType.START_INSTANCE, "scale");
    (AgentCommandType.STOP_INSTANCE, "stop");
    (AgentCommandType.RESTART_INSTANCE, "restart") ].

(** [COMMAND_TYPE_PERMISSIONS[command_type]] *)
Definition permission_for (command_type : agent_command_type) : M string :=
  match dict_lookup COMMAND_TYPE_PERMISSIONS command_type with
  | Some permission => mret permission
  | None => raise KeyError
  end.

Record CurrentUser := {
  cu_id : uuid;
  cu_email : string;
  cu_roles : list string;
}.

(** [fastapi.status] *)
Definition HTTP_401_UNAUTHORIZED : Z := 401.
Definition HTTP_403_FORBIDDEN : Z := 403.
Definition HTTP_404_NOT_FOUND : Z := 404.
Definition HTTP_409_CONFLICT : Z := 409.
Definition HTTP_422_UNPROCESSABLE_ENTITY : Z := 422.

Definition require_permission (permission : string) (current_user : CurrentUser) : M unit :=
  if has_permission (cu_roles current_user) permission then mret tt
  else raise (HTTPException HTTP_403_FORBIDDEN "insufficient permissions").

(** A permission is granted exactly when one of the roles grants it, or grants
    everything. *)
Lemma has_permission_spec roles permission :
  has_permission roles permission = true ↔
  ∃ role, role ∈ roles ∧ ("*" ∈ dict_get ROLE_PERMISSIONS role [] ∨ permission ∈ dict_get ROLE_PERMISSIONS role []).
Proof.
  induction roles as [|role roles IH]; simpl.
  - split; [done|]. intros (role & Hin & _). by apply elem_of_nil in Hin.
  - destruct (_ || _)%bool eqn:E.
    + split; [intros _|done]. exists role. split; [left|]. by rewrite orb_true_iff, !bool_decide_eq_true in E.
    + rewrite IH. rewrite orb_false_iff, !bool_decide_eq_false in E. split.
      * intros (r & Hr & Hg). exists r. by split; [right|].
      * intros (r & [->|Hr]%elem_of_cons & Hg); [naive_solver|]. by exists r.
Qed.
