(* ===== verification/DbAdmin.v ===== *)
(** The database administration page: services/control-plane/app/services/
    db_admin_service.py, app/domain/db_admin_registry.py and
    app/api/routes/admin_db.py, over the tables that [Metadata] declares.

    The page reads and writes any table by its columns, so here a database is
    the rows of each table as dictionaries of cells. What SQLAlchemy and
    PostgreSQL make of a value, how they order, compare and cast cells and
    enforce constraints are parameters ([AdminEnv]). *)

From Stdlib Require Import Ascii.
From S2P Require Import Prelude Python Regex Redaction Enums HealerYaml Ddl Metadata Schema Session Permissions.
Local Open Scope Z_scope.

Definition HTTP_400_BAD_REQUEST : Z := 400.

(** ** Cells, rows and tables *)

Inductive cell : Type :=
| CNull
| CBool (b : bool)
| CInt (n : Z)
| CStr (s : string)
| CUuid (u : uuid)
| CTime (t : Z)
| CNumeric (text : string)
| CJson (v : json)
| CEnum (label : string).

(** A row: a dictionary of all its columns. *)
Definition Row : Type := list (string * cell).

Abbreviation Tables := (gmap string (list Row)).

(** A value that the page binds to a column; [PRaw] is a member of the request
    as it came. *)
Inductive pyval : Type :=
| PNone
| PBool (b : bool)
| PInt (n : Z)
| PUuid (u : uuid)
| PTime (t : Z)
| PRaw (v : json).

Class AdminEnv := {
  pg_bind : SqlType → pyval → option cell;         (* the cell, unless the column cannot hold it *)
  pg_text : cell → string;                         (* CAST(.. AS TEXT) of a cell that is not null *)
  pg_le : cell → cell → bool;                      (* ORDER BY *)
  pg_refuses : Tables → bool;                      (* some constraint does not hold *)
  pg_on_delete : string → Row → Tables → Tables;   (* referential actions *)
  pg_now : Z;                                      (* now(), the start of the transaction *)
  json_loads : string → string + json;             (* the value, or the text of the error *)
}.

(** The rows, and the entries [audit_service.record] added. *)
Record AuditCall := {
  ac_actor : uuid;
  ac_action : string;
  ac_target_type : string;
  ac_target_id : string;
  ac_detail : option json;
}.

Record Store := {
  st_tables : Tables;
  st_audit : list AuditCall;
}.
#[export] Instance eta_Store : Eta Store := λ r, Build_Store (st_tables r) (st_audit r).
#[export] Instance upd_st_tables : Upd st_tables := ltac:(solve_upd).
#[export] Instance upd_st_audit : Upd st_audit := ltac:(solve_upd).

Abbreviation AM := (ST Store exn).

Definition rows_of (table : string) : AM (list Row) := gets (λ s, st_tables s !!! table).

(** ** db_admin_registry.py *)

Definition GLOBAL_SENSITIVE_COLUMNS : list string :=
  ["password_hash"; "credential_hash"; "token_hash"; "encrypted_value"].

Definition JSON_REDACT_COLUMNS : list (string * list string) := [("agent_commands", ["payload"; "result"])].

Inductive Validator : Type := VHostname | VUnixPath.

Definition COLUMN_VALIDATORS : list ((string * string) * Validator) :=
  [ (("servers", "hostname"), VHostname); (("domains", "hostname"), VHostname);
    (("domains", "cert_path"), VUnixPath); (("domains", "key_path"), VUnixPath) ].

Definition validator_for (table_name column_name : string) : option Validator :=
  dict_lookup COLUMN_VALIDATORS (table_name, column_name).

Definition _validate_hostname (value : string) : AM unit :=
  if match_dollar _HOSTNAME_RE value then mret tt
  else raise (ValueError "must be a valid DNS hostname (e.g. app.example.com)").

Definition _validate_optional_unix_path (value : string) : AM unit :=
  if String.eqb value "" then mret tt
  else if negb (match_dollar _UNIX_PATH_RE value) then
    raise (ValueError "must be an absolute path using only letters, digits, '.', '_', '-', '/'")
  else if has_traversal value then raise (ValueError "must not contain '..' segments")
  else mret tt.

(** A validator of a value that is not text fails in [re.match]. *)
Definition run_validator (v : Validator) (value : json) : AM unit :=
  match value with
  | JStr s => match v with
              | VHostname => _validate_hostname s
              | VUnixPath => _validate_optional_unix_path s
              end
  | _ => raise TypeError
  end.

Record EditableColumn := {
  ec_name : string;
  ec_kind : string;
  ec_multiline : bool;
  ec_choices : option (list string);
  ec_validator : option Validator;
}.

(** ** The schema as the page sees it *)

Definition dbadmin_DEFAULT_LIMIT : Z := 50.
Definition dbadmin_MAX_LIMIT : Z := 200.
Definition REDACTED : string := "[REDACTED]".
Definition _EXCLUDED_TABLES : list string := ["alembic_version"].

Definition is_sensitive (name : string) : bool := existsb (String.eqb name) GLOBAL_SENSITIVE_COLUMNS.

Definition json_redacted (table_name : string) : list string := dict_get JSON_REDACT_COLUMNS table_name [].

Definition is_json_redacted (table_name name : string) : bool := existsb (String.eqb name) (json_redacted table_name).

Definition _table_names : list string :=
  sort_by String.leb (List.filter (λ n, negb (existsb (String.eqb n) _EXCLUDED_TABLES)) (map md_tablename models)).

Definition find_model (name : string) : option Model := List.find (λ m, String.eqb (md_tablename m) name) models.

Definition get_table (table_name : string) : AM Model :=
  if existsb (String.eqb table_name) _EXCLUDED_TABLES
  then raise (DBAdminError ("unknown table " +:+ repr_str table_name))
  else match find_model table_name with
       | None => raise (DBAdminError ("unknown table " +:+ repr_str table_name))
       | Some m => mret m
       end.

(** [column.type.python_type] of the types that are no enums. *)
Inductive python_type : Type := PyTBool | PyTInt | PyTDatetime | PyTUuid | PyTStr | PyTDecimal | PyTDict | PyTEnum.

Definition python_type_of (ty : ModelType) : python_type :=
  match ty with
  | Enum_ _ => PyTEnum
  | Plain_ ty =>
      match ty with
      | UUID => PyTUuid
      | String_ _ | Text => PyTStr
      | Integer => PyTInt
      | Boolean => PyTBool
      | DateTime _ => PyTDatetime
      | Numeric _ _ => PyTDecimal
      | JSONB => PyTDict
      | EnumType _ => PyTStr
      end
  end.

Definition _is_json_column (col : MappedColumn) : bool :=
  match mc_type col with Plain_ JSONB => true | _ => false end.

Definition _column_type_name (col : MappedColumn) : string :=
  match mc_type col with
  | Enum_ _ => "enum"
  | _ => if _is_json_column col then "json" else
      match python_type_of (mc_type col) with
      | PyTBool => "boolean"
      | PyTInt => "integer"
      | PyTDatetime => "datetime"
      | PyTUuid => "uuid"
      | _ => "string"
      end
  end.

Definition _single_column_pk (table : Model) : option string :=
  match List.filter mc_primary_key (md_columns table) with
  | [col] => Some (mc_name col)
  | _ => None
  end.

Definition _to_editable_column (col : MappedColumn) (table_name : string) : EditableColumn :=
  let validator := validator_for table_name (mc_name col) in
  let editable kind multiline choices :=
    {| ec_name := mc_name col; ec_kind := kind; ec_multiline := multiline; ec_choices := choices;
       ec_validator := validator |} in
  match mc_type col with
  | Enum_ e => editable "select" false (Some (map snd (en_members e)))
  | Plain_ ty =>
      if _is_json_column col then editable "json" true None else
      match python_type_of (mc_type col) with
      | PyTBool => editable "boolean" false None
      | _ => editable (if mc_nullable col then "optional_text" else "text")
               (match ty with Text => true | _ => false end) None
      end
  end.

Definition editable_column (table_name : string) (pk_name : option string) (col : MappedColumn) : bool :=
  negb (bool_decide (Some (mc_name col) = pk_name)) && negb (is_sensitive (mc_name col))
  && negb (is_json_redacted table_name (mc_name col)).

Definition _editable_columns (table : Model) (table_name : string) : list EditableColumn :=
  map (λ col, _to_editable_column col table_name)
    (List.filter (editable_column table_name (_single_column_pk table)) (md_columns table)).

Record ColumnInfo := {
  ci_name : string;
  ci_type : string;
  ci_nullable : bool;
  ci_primary_key : bool;
  ci_sensitive : bool;
}.

Record TableInfo := {
  ti_name : string;
  ti_row_count : nat;
  ti_editable : bool;
  ti_deletable : bool;
  ti_single_column_pk : option string;
  ti_columns : list ColumnInfo;
  ti_editable_columns : list EditableColumn;
}.

Definition column_info (col : MappedColumn) : ColumnInfo :=
  {| ci_name := mc_name col; ci_type := _column_type_name col; ci_nullable := mc_nullable col;
     ci_primary_key := mc_primary_key col; ci_sensitive := is_sensitive (mc_name col) |}.

Definition table_info (name : string) (table : Model) (row_count : nat) : TableInfo :=
  let single_pk := _single_column_pk table in
  let can_address_rows := bool_decide (is_Some single_pk) in
  {| ti_name := name; ti_row_count := row_count; ti_editable := can_address_rows; ti_deletable := can_address_rows;
     ti_single_column_pk := single_pk; ti_columns := map column_info (md_columns table);
     ti_editable_columns := if can_address_rows then _editable_columns table name else [] |}.

Fixpoint table_infos (names : list string) : AM (list TableInfo) :=
  match names with
  | [] => mret []
  | name :: names' =>
      match find_model name with
      | None => raise KeyError
      | Some table =>
          rows ← rows_of name;
          rest ← table_infos names';
          mret (table_info name table (length rows) :: rest)
      end
  end.

Definition list_tables : AM (list TableInfo) := table_infos _table_names.

(** ** Reading *)

(** A value is shown as it is, redacted when its column is a sensitive one, or
    without the environment values. *)
Definition redact_cell (table_name key : string) (value : cell) : cell :=
  match value with
  | CNull => CNull
  | _ => if is_sensitive key then CStr REDACTED
         else if is_json_redacted table_name key then
           match value with CJson v => CJson (_redact v) | _ => value end
         else value
  end.

Definition _redact_row (table_name : string) (row : Row) : Row :=
  map (λ kv, (kv.1, redact_cell table_name kv.1 kv.2)) row.

(** The value of an enum member, by the label that is stored. *)
Definition enum_value (ty : ModelType) (c : cell) : cell :=
  match ty, c with
  | Enum_ e, CEnum label => CStr (dict_get (en_members e) label label)
  | _, _ => c
  end.

Definition column_type (table : Model) (name : string) : ModelType :=
  match List.find (λ col, String.eqb (mc_name col) name) (md_columns table) with
  | Some col => mc_type col
  | None => Plain_ Text
  end.

Definition _row_to_dict (table : Model) (row : Row) : Row :=
  map (λ kv, (kv.1, enum_value (column_type table kv.1) kv.2)) row.

(** [term.replace(c, "\c")] for a single character. *)
Definition escape_char (c : ascii) (s : text) : text :=
  concat (map (λ d, if Ascii.eqb d c then [bslash; c] else [d]) s).

Definition _escape_like (term : text) : text := escape_char "_" (escape_char "%" (escape_char bslash term)).

(** ILIKE with the escape character [\]. *)
Inductive like_token : Type := LAny | LOne | LChar (c : ascii).

Fixpoint like_tokens (pattern : text) : list like_token :=
  match pattern with
  | [] => []
  | c :: rest =>
      if Ascii.eqb c bslash then
        match rest with
        | d :: rest' => LChar d :: like_tokens rest'
        | [] => []
        end
      else if Ascii.eqb c "%" then LAny :: like_tokens rest
      else if Ascii.eqb c "_" then LOne :: like_tokens rest
      else LChar c :: like_tokens rest
  end.

Fixpoint like_match (tokens : list like_token) (s : text) : bool :=
  match tokens with
  | [] => match s with [] => true | _ => false end
  | LChar c :: tokens' => match s with d :: s' => fold_case c d && like_match tokens' s' | [] => false end
  | LOne :: tokens' => match s with _ :: s' => like_match tokens' s' | [] => false end
  | LAny :: tokens' =>
      (fix skip (s : text) : bool :=
         like_match tokens' s || match s with _ :: s' => skip s' | [] => false end) s
  end.

Definition ilike (s pattern : text) : bool := like_match (like_tokens pattern) s.

Section admin.
Context `{AdminEnv} `{Env}.

(** Every column but the sensitive ones; a cell that is null matches nothing. *)
Definition _search_condition (search : string) (row : Row) : bool :=
  let pattern := ["%"%char] ++ _escape_like (to_text search) ++ ["%"%char] in
  existsb (λ kv, negb (is_sensitive kv.1)
                 && match kv.2 with CNull => false | c => ilike (to_text (pg_text c)) pattern end) row.

Definition cell_of (row : Row) (name : string) : cell := dict_get row name CNull.

Definition order_rows (column : string) (desc : bool) (rows : list Row) : list Row :=
  sort_by (λ a b, if desc then pg_le (cell_of b column) (cell_of a column)
                  else pg_le (cell_of a column) (cell_of b column)) rows.

Definition has_column (table : Model) (name : string) : bool :=
  existsb (λ col, String.eqb (mc_name col) name) (md_columns table).

(** The column and direction of the order. *)
Definition default_order (table : Model) : option (string * bool) :=
  if has_column table "created_at" then Some ("created_at", true)
  else match List.filter mc_primary_key (md_columns table) with
       | col :: _ => Some (mc_name col, true)
       | [] => None
       end.

Definition row_order (table : Model) (sort_by_ : option string) (sort_dir : string) : option (string * bool) :=
  match sort_by_ with
  | Some name => if negb (String.eqb name "") && has_column table name then Some (name, String.eqb sort_dir "desc")
                 else default_order table
  | None => default_order table
  end.

(** [max(1, min(limit or DEFAULT_LIMIT, MAX_LIMIT))], [max(0, offset or 0)]. *)
Definition clamp_limit (limit : Z) : Z :=
  Z.max 1 (Z.min (if limit =? 0 then dbadmin_DEFAULT_LIMIT else limit) dbadmin_MAX_LIMIT).
Definition clamp_offset (offset : Z) : Z := Z.max 0 offset.

(** The rows a search finds, in order. *)
Definition found_rows (search : option string) (order : option (string * bool)) (rows : list Row) : list Row :=
  let search := strip (default "" search) in
  let hits := if String.eqb search "" then rows else List.filter (_search_condition search) rows in
  match order with
  | Some (column, desc) => order_rows column desc hits
  | None => hits
  end.

Definition list_rows (table_name : string) (limit offset : Z) (search sort_by_ : option string) (sort_dir : string) :
    AM (list Row * nat) :=
  table ← get_table table_name;
  rows ← rows_of table_name;
  let hits := found_rows search (row_order table sort_by_ sort_dir) rows in
  let page := take (Z.to_nat (clamp_limit limit)) (drop (Z.to_nat (clamp_offset offset)) hits) in
  mret (map (λ row, _redact_row table_name (_row_to_dict table row)) page, length hits).

Definition _pk_column (table : Model) (table_name : string) : AM string :=
  match _single_column_pk table with
  | None => raise (DBAdminError (repr_str table_name +:+
              " has a composite primary key and can't be fetched/edited/deleted by id"))
  | Some pk => mret pk
  end.

Definition sql_type_of (ty : ModelType) : SqlType :=
  match ty with
  | Plain_ ty => ty
  | Enum_ e => EnumType (en_name e)
  end.

(** [pk == row_id], with the text bound to the type of the key. *)
Definition bind_id (table : Model) (pk row_id : string) : AM cell :=
  match pg_bind (sql_type_of (column_type table pk)) (PRaw (JStr row_id)) with
  | Some c => mret c
  | None => raise StatementError
  end.

(** [=] of two keys. *)
Definition same_key (c d : cell) : bool :=
  match c, d with
  | CUuid u, CUuid v => bool_decide (u = v)
  | CStr s, CStr t => String.eqb s t
  | CInt m, CInt n => m =? n
  | _, _ => false
  end.

Definition has_key (pk : string) (id : cell) (row : Row) : bool := same_key (cell_of row pk) id.

Definition no_row (table_name pk row_id : string) : exn :=
  DBAdminError ("no row in " +:+ repr_str table_name +:+ " with " +:+ pk +:+ "=" +:+ repr_str row_id).

Definition get_row (table_name row_id : string) : AM Row :=
  table ← get_table table_name;
  pk ← _pk_column table table_name;
  id ← bind_id table pk row_id;
  rows ← rows_of table_name;
  match List.find (has_key pk id) rows with
  | None => raise (no_row table_name pk row_id)
  | Some row => mret (_redact_row table_name (_row_to_dict table row))
  end.

(** ** Writing *)

(** [int(s)]: decimal digits with single underscores between them. *)
Fixpoint int10_digits (s : string) (digit : bool) (acc : Z) : option Z :=
  match s with
  | EmptyString => if digit then Some acc else None
  | String c s' =>
      if is_digit c then int10_digits s' true (10 * acc + (Z.of_N (Ascii.N_of_ascii c) - 48))
      else if Ascii.eqb c "_" && digit then int10_digits s' false acc else None
  end.

Definition int10 (s : string) : option Z :=
  match strip s with
  | String "-" s' => Z.opp <$> int10_digits s' false 0
  | String "+" s' => int10_digits s' false 0
  | s' => int10_digits s' false 0
  end.

Definition type_name (v : json) : string :=
  match v with
  | JNull => "NoneType" | JBool _ => "bool" | JInt _ => "int" | JFloat _ _ => "float" | JStr _ => "str"
  | JArr _ => "list" | JObj _ => "dict"
  end.

Definition or_value_error {A} (o : option A) (msg : string) : AM A :=
  match o with
  | Some a => mret a
  | None => raise (ValueError msg)
  end.

Definition _coerce_value (col : MappedColumn) (col_spec : EditableColumn) (raw_value : json) : AM pyval :=
  match raw_value with
  | JNull => mret PNone
  | _ =>
      if String.eqb (ec_kind col_spec) "json" then
        match raw_value with
        | JObj _ | JArr _ => mret (PRaw raw_value)
        | JStr s => match json_loads s with
                    | inr v => mret (PRaw v)
                    | inl text => raise (ValueError ("must be valid JSON (" +:+ text +:+ ")"))
                    end
        | _ => raise (ValueError ("must be valid JSON (the JSON object must be str, bytes or bytearray, not "
                                  +:+ type_name raw_value +:+ ")"))
        end
      else if String.eqb (ec_kind col_spec) "boolean" then
        match raw_value with
        | JBool b => mret (PBool b)
        | _ => mret (PBool (existsb (String.eqb (lower (strip (py_str env_float_repr raw_value))))
                              ["1"; "true"; "yes"; "on"]))
        end
      else
        let text_value := py_str env_float_repr raw_value in
        match python_type_of (mc_type col) with
        | PyTInt => n ← or_value_error (int10 text_value) "must be a whole number"; mret (PInt n)
        | PyTUuid => u ← or_value_error (uuid_of_string text_value) "must be a valid UUID"; mret (PUuid u)
        | PyTDatetime =>
            t ← or_value_error (env_fromisoformat text_value)
                  "must be an ISO 8601 datetime, e.g. 2026-01-31T12:00:00Z";
            mret (PTime t)
        | _ => mret (PRaw raw_value)
        end
  end.

(** A [ValueError] of the block names the column. *)
Definition for_column {A} (key : string) (m : AM A) : AM A :=
  try_except m (λ e, match e with
                     | ValueError msg => raise (DBAdminError (key +:+ ": " +:+ msg))
                     | _ => raise e
                     end).

Definition repr_list (l : list string) : string := "[" +:+ join ", " (map repr_str l) +:+ "]".

Definition is_choice (choices : list string) (value : json) : bool :=
  match value with
  | JStr s => existsb (String.eqb s) choices
  | _ => false
  end.

Definition validate_change (table : Model) (col_spec : EditableColumn) (key : string) (raw_value : json) : AM pyval :=
  let kind := ec_kind col_spec in
  let value := match raw_value with
               | JStr s => if (String.eqb kind "optional_text" || String.eqb kind "json") && String.eqb s ""
                           then JNull else raw_value
               | _ => raw_value
               end in
  match value, ec_validator col_spec with
  | JNull, _ | _, None => mret tt
  | _, Some v => if String.eqb kind "boolean" || String.eqb kind "json" then mret tt
                 else for_column key (run_validator v value)
  end ;;
  match ec_choices col_spec with
  | Some choices =>
      if String.eqb kind "select" && negb (is_choice choices value)
      then raise (DBAdminError (key +:+ ": must be one of " +:+ repr_list choices)) else mret tt
  | None => mret tt
  end ;;
  match List.find (λ col, String.eqb (mc_name col) key) (md_columns table) with
  | Some col => for_column key (_coerce_value col col_spec value)
  | None => raise KeyError
  end.

Fixpoint validate_changes (table : Model) (allowed : list EditableColumn) (changes : list (string * json)) :
    AM (list (string * pyval)) :=
  match changes with
  | [] => mret []
  | (key, raw_value) :: changes' =>
      match List.find (λ spec, String.eqb (ec_name spec) key) allowed with
      | None => raise KeyError
      | Some col_spec =>
          value ← validate_change table col_spec key raw_value;
          rest ← validate_changes table allowed changes';
          mret ((key, value) :: rest)
      end
  end.

(** The parameters of the statement; an enum member is bound by its value. *)
Definition bind_value (table : Model) (key : string) (v : pyval) : option cell :=
  match column_type table key, v with
  | Enum_ e, PRaw (JStr s) =>
      match List.find (λ nv, String.eqb nv.2 s) (en_members e) with
      | Some (label, _) => Some (CEnum label)
      | None => pg_bind (EnumType (en_name e)) v
      end
  | ty, _ => pg_bind (sql_type_of ty) v
  end.

Fixpoint bind_values (table : Model) (validated : list (string * pyval)) : option Row :=
  match validated with
  | [] => Some []
  | (key, v) :: rest =>
      c ← bind_value table key v;
      cells ← bind_values table rest;
      Some ((key, c) :: cells)
  end.

(** A row with new cells. *)
Definition assign_cells (cells row : Row) : Row :=
  map (λ kv, (kv.1, dict_get cells kv.1 kv.2)) row.

(** [sa.update(table)] also sets the columns that have an [onupdate] and are not
    set otherwise. *)
Definition set_onupdate (table : Model) (cells : Row) : Row :=
  cells ++ map (λ col, (mc_name col, CTime pg_now))
    (List.filter (λ col, bool_decide (mc_onupdate col = Some "now()")
                         && negb (existsb (String.eqb (mc_name col)) (map fst cells)))%bool (md_columns table)).

(** The [UPDATE]: every row with the key; the whole statement fails when a
    constraint does not hold afterwards. *)
Definition update_where (table : Model) (table_name pk : string) (id : cell) (values : Row) : AM (option Row) :=
  let cells := set_onupdate table values in
  rows ← rows_of table_name;
  let rows' := map (λ row, if has_key pk id row then assign_cells cells row else row) rows in
  tables ← gets st_tables;
  let tables' := <[table_name := rows']> tables in
  if pg_refuses tables' then raise IntegrityError else
  modify (λ s, s <| st_tables := tables' |>) ;;
  mret (assign_cells cells <$> List.find (has_key pk id) rows).

Definition update_row (table_name row_id : string) (changes : list (string * json)) : AM Row :=
  table ← get_table table_name;
  pk ← _pk_column table table_name;
  let allowed := _editable_columns table table_name in
  let unknown := List.filter (λ k, negb (existsb (λ spec, String.eqb (ec_name spec) k) allowed)) (map fst changes) in
  match unknown with
  | _ :: _ => raise (DBAdminError ("these columns are not editable on " +:+ repr_str table_name +:+ ": "
                                   +:+ repr_list (sort_by String.leb unknown)))
  | [] =>
      validated ← validate_changes table allowed changes;
      match validated with
      | [] => get_row table_name row_id
      | _ =>
          id ← bind_id table pk row_id;
          match bind_values table validated with
          | None => raise StatementError
          | Some cells =>
              row ← update_where table table_name pk id cells;
              match row with
              | None => raise (no_row table_name pk row_id)
              | Some row => mret (_redact_row table_name (_row_to_dict table row))
              end
          end
      end
  end.

Definition delete_row (table_name row_id : string) : AM unit :=
  table ← get_table table_name;
  pk ← _pk_column table table_name;
  id ← bind_id table pk row_id;
  rows ← rows_of table_name;
  match List.find (has_key pk id) rows with
  | None => raise (no_row table_name pk row_id)
  | Some row =>
      tables ← gets st_tables;
      let tables' := pg_on_delete table_name row
                       (<[table_name := List.filter (λ r, negb (has_key pk id r)) rows]> tables) in
      if pg_refuses tables' then raise IntegrityError else
      modify (λ s, s <| st_tables := tables' |>)
  end.

(** ** Routes *)

Definition or_http {A} (status_code : Z) (m : AM A) : AM A :=
  try_except m (λ e, match e with
                     | DBAdminError msg => raise (HTTPException status_code msg)
                     | _ => raise e
                     end).

Definition record_admin (c : AuditCall) : AM unit := modify (λ s, s <| st_audit := st_audit s ++ [c] |>).

(** [asdict] of a column description. *)
Definition column_info_out (c : ColumnInfo) : json :=
  JObj [ ("name", JStr (ci_name c)); ("type", JStr (ci_type c)); ("nullable", JBool (ci_nullable c));
         ("primary_key", JBool (ci_primary_key c)); ("sensitive", JBool (ci_sensitive c)) ].

(** The validator, a function, has no JSON form and is left out. *)
Definition _editable_column_out (col : EditableColumn) : json :=
  JObj [ ("name", JStr (ec_name col)); ("kind", JStr (ec_kind col)); ("multiline", JBool (ec_multiline col));
         ("choices", match ec_choices col with Some l => JArr (map JStr l) | None => JNull end) ].

Definition table_info_out (info : TableInfo) : json :=
  JObj [ ("name", JStr (ti_name info)); ("row_count", JInt (Z.of_nat (ti_row_count info)));
         ("editable", JBool (ti_editable info)); ("deletable", JBool (ti_deletable info));
         ("single_column_pk", match ti_single_column_pk info with Some pk => JStr pk | None => JNull end);
         ("columns", JArr (map column_info_out (ti_columns info)));
         ("editable_columns", JArr (map _editable_column_out (ti_editable_columns info))) ].

Definition list_tables_route : AM (list json) :=
  infos ← list_tables;
  mret (map table_info_out infos).

(** The [Query] bounds of the page of rows. *)
Definition rows_query (limit offset : Z) (search sort_by_ : option string) (sort_dir : string) : bool :=
  (int_between 1 dbadmin_MAX_LIMIT limit && (0 <=? offset) && opt_check (length_between 0 200) search
   && opt_check (length_between 0 200) sort_by_ && (String.eqb sort_dir "asc" || String.eqb sort_dir "desc"))%bool.

Definition list_rows_route (table_name : string) (limit offset : Z) (search sort_by_ : option string)
    (sort_dir : string) : AM (list Row * nat) :=
  if negb (rows_query limit offset search sort_by_ sort_dir) then raise (HTTPException HTTP_422_UNPROCESSABLE_ENTITY "") else
  or_http HTTP_404_NOT_FOUND (list_rows table_name limit offset search sort_by_ sort_dir).

Definition get_row_route (table_name row_id : string) : AM Row :=
  or_http HTTP_404_NOT_FOUND (get_row table_name row_id).

Definition update_row_route (table_name row_id : string) (changes : list (string * json)) (user : uuid) : AM Row :=
  row ← or_http HTTP_400_BAD_REQUEST (update_row table_name row_id changes);
  record_admin {| ac_actor := user; ac_action := "admin.db_row_updated"; ac_target_type := table_name;
                  ac_target_id := row_id;
                  ac_detail := Some (JObj [("columns", JArr (map JStr (sort_by String.leb (map fst changes))))]) |} ;;
  mret row.

Definition delete_row_route (table_name row_id : string) (user : uuid) : AM unit :=
  or_http HTTP_400_BAD_REQUEST (delete_row table_name row_id) ;;
  record_admin {| ac_actor := user; ac_action := "admin.db_row_deleted"; ac_target_type := table_name;
                  ac_target_id := row_id; ac_detail := None |}.

(** A request: permission, handler, and the transaction of [get_db], which
    keeps nothing of a handler that raised. *)
Definition admin_request {A} (user : CurrentUser) (handler : AM A) : AM A := λ s,
  if has_permission (cu_roles user) "manage_db" then
    match handler s with
    | (Ok a, s') => (Ok a, s')
    | (Raise e, _) => (Raise e, s)
    end
  else (Raise (HTTPException HTTP_403_FORBIDDEN "insufficient permissions"), s).

End admin.
