(* ===== verification/Repositories.v ===== *)
(** Repositories: services/control-plane/app/repositories/*.py, and the
    constraints of the instances table (app/db/models/application.py) that the
    services rely on.

    A mapped object is handed around as its primary key. *)

From S2P Require Import Prelude Python Enums StateMachines Schema Session Hoare.
Local Open Scope Z_scope.

(** ** Agents *)

Definition AgentRepository_get_by_server_id (server_id : uuid) : M (option (uuid * Agent)) :=
  query (λ d, first (select db_agents (λ a, bool_decide (ag_server_id a = server_id)) d)).

Definition AgentRepository_get_by_credential_hash (credential_hash : string) : M (option (uuid * Agent)) :=
  query (λ d, first (select db_agents (λ a, bool_decide (ag_credential_hash a = Some credential_hash)) d)).

(** ** Agent commands *)

Definition get_by_idempotency_key (key : string) : M (option (uuid * AgentCommand)) :=
  query (λ d, first (select db_agent_commands (λ c, bool_decide (cmd_idempotency_key c = key)) d)).

Definition list_by_agent (agent_id : uuid) (limit : nat) : M (list (uuid * AgentCommand)) :=
  query (λ d, take limit (order_by_desc (λ kv, cmd_created_at kv.2)
    (select db_agent_commands (λ c, bool_decide (cmd_agent_id c = agent_id)) d))).

Definition list_pending_for_agent (agent_id : uuid) : M (list (uuid * AgentCommand)) :=
  query (select db_agent_commands
    (λ c, (bool_decide (cmd_agent_id c = agent_id)
           && bool_decide (cmd_status c = AgentCommandStatus.PENDING))%bool)).

(** [transition] of a command whose [status] attribute reads [current]. *)
Definition AgentCommandRepository_transition (command : uuid) (current target : agent_command_status) : M unit :=
  require_transition agent_command_status_value AGENT_COMMAND_TRANSITIONS current target ;;
  assign db_agent_commands command (λ c, c <| cmd_status := target |>) ;;
  flush.

(** ** Deployments *)

Definition latest_for_application (application_id : uuid) : M (option (uuid * Deployment)) :=
  query (λ d, first (order_by_desc (λ kv, dep_created_at kv.2)
    (select db_deployments (λ p, bool_decide (dep_application_id p = application_id)) d))).

Definition DeploymentRepository_transition (deployment : uuid) (target : deployment_status) : M unit :=
  p ← row db_deployments deployment;
  require_transition deployment_status_value DEPLOYMENT_TRANSITIONS (dep_status p) target ;;
  assign db_deployments deployment (λ p, p <| dep_status := target |>) ;;
  flush.

(** ** Instances *)

(** The rows the partial index [uq_instances_server_id_port_live] covers. *)
Definition live_status (s : instance_status) : bool :=
  match s with
  | InstanceStatus.STOPPED | InstanceStatus.FAILED => false
  | _ => true
  end.

Definition holds_port (i j : Instance) : Prop :=
  live_status (inst_status j) = true ∧ inst_server_id j = inst_server_id i ∧ inst_port j = inst_port i.
#[export] Instance holds_port_dec i j : Decision (holds_port i j).
Proof. unfold holds_port. apply _. Defined.

(** The index accepts row [i] under key [self]. *)
Definition index_accepts (d : DB) (self : option uuid) (i : Instance) : Prop :=
  live_status (inst_status i) = true → map_Forall (λ k j, self ≠ Some k → ¬ holds_port i j) (db_instances d).
#[export] Instance index_accepts_dec d self i : Decision (index_accepts d self i).
Proof. unfold index_accepts. apply _. Defined.

(** The foreign keys of row [i]. *)
Definition foreign_keys_ok (d : DB) (i : Instance) : Prop :=
  is_Some (db_applications d !! inst_application_id i) ∧ is_Some (db_servers d !! inst_server_id i) ∧
  match inst_release_id i with
  | Some r => is_Some (db_releases d !! r)
  | None => True
  end.
#[export] Instance foreign_keys_ok_dec d i : Decision (foreign_keys_ok d i).
Proof. unfold foreign_keys_ok. destruct (inst_release_id i); apply _. Defined.

Definition list_by_server (server_id : uuid) : M (list (uuid * Instance)) :=
  query (select db_instances (λ i, bool_decide (inst_server_id i = server_id))).

Definition InstanceRepository_transition (instance : uuid) (target : instance_status) : M unit :=
  i ← row db_instances instance;
  require_transition instance_status_value INSTANCE_TRANSITIONS (inst_status i) target ;;
  ok ← query (λ d, bool_decide (index_accepts d (Some instance) (i <| inst_status := target |>)));
  if ok : bool then
    assign db_instances instance (λ i, i <| inst_status := target |>) ;;
    flush
  else flush_error IntegrityError.

(** ** Other tables *)

Definition get_by_slug (slug : string) : M (option (uuid * Application)) :=
  query (λ d, first (select db_applications (λ a, bool_decide (app_slug a = slug)) d)).

Definition get_by_hostname (hostname : string) : M (option (uuid * Server)) :=
  query (λ d, first (select db_servers (λ s, bool_decide (srv_hostname s = hostname)) d)).

Definition get_by_token_hash (token_hash : string) : M (option (uuid * EnrollmentToken)) :=
  query (λ d, first (select db_enrollment_tokens (λ t, bool_decide (et_token_hash t = token_hash)) d)).

Definition list_tokens_by_server (server_id : uuid) : M (list (uuid * EnrollmentToken)) :=
  query (select db_enrollment_tokens (λ t, bool_decide (et_server_id t = server_id))).

Definition get_by_email (email : string) : M (option (uuid * User)) :=
  query (λ d, first (select db_users (λ u, bool_decide (user_email u = email)) d)).

Definition get_by_name (name : string) : M (option (uuid * Role)) :=
  query (λ d, first (select db_roles (λ r, bool_decide (role_name r = name)) d)).

Definition get_or_create (name : string) : M uuid :=
  role ← get_by_name name;
  match role with
  | Some (id, _) => mret id
  | None => insert_row db_roles {| role_name := name |}
  end.
