(* ===== verification/Security.v ===== *)
(** Passwords, tokens and the identity of a request:
    services/control-plane/app/core/security.py, core/cookies.py and
    [get_current_user] and [verify_csrf] of app/api/deps.py.

    [Security] holds what these files only call or read: the random source, the
    third-party packages bcrypt and PyJWT, and the settings. *)

From S2P Require Import Prelude Python Sha256 Schema Session Hoare Permissions Repositories.
Local Open Scope Z_scope.

(** The claims of an access token; times are [datetime] values. *)
Record AccessClaims := {
  cl_sub : string;
  cl_roles : list string;
  cl_type : string;
  cl_iat : Z;
  cl_exp : Z;
}.

Class Security := {
  token_urlsafe : nat → string;                   (* secrets.token_urlsafe(32), at an observation *)
  bcrypt_hashpw : nat → list Z → string;          (* with the salt drawn at an observation *)
  bcrypt_checkpw : list Z → string → option bool; (* [None]: the stored hash is malformed *)
  jwt_encode : AccessClaims → string → string;
  jwt_decode : Z → string → string → option json; (* at a time; [None]: PyJWTError *)
  control_plane_secret_key : string;
  access_token_ttl_minutes : Z;
  refresh_token_ttl_days : Z;
  cookie_secure : bool;
}.

(** ** security.py *)

Definition ACCESS_TOKEN_TYPE : string := "access".
Definition _BCRYPT_MAX_BYTES : nat := 72.

Definition hash_password `{Security} (password : string) : M string :=
  let raw := take _BCRYPT_MAX_BYTES (utf8 password) in
  observe (λ t, bcrypt_hashpw t raw).

Definition verify_password `{Security} (password password_hash : string) : M bool :=
  let raw := take _BCRYPT_MAX_BYTES (utf8 password) in
  match bcrypt_checkpw raw password_hash with
  | Some ok => mret ok
  | None => raise (ValueError "Invalid salt")
  end.

Definition hash_token (raw_token : string) : string := hexdigest (sha256 (utf8 raw_token)).

Definition generate_token `{Security} : M string := observe token_urlsafe.

Definition create_access_token `{Env} `{Security} (user_id : string) (roles : list string) : M string :=
  now_ ← now;
  mret (jwt_encode {| cl_sub := user_id; cl_roles := roles; cl_type := ACCESS_TOKEN_TYPE; cl_iat := now_;
                      cl_exp := now_ + minutes access_token_ttl_minutes |} control_plane_secret_key).

(** [None] stands for any [jwt.PyJWTError]. *)
Definition decode_access_token `{Env} `{Security} (token : string) : M (option (list (string * json))) :=
  now_ ← now;
  match jwt_decode now_ token control_plane_secret_key with
  | Some (JObj payload) =>
      match dict_get payload "type" JNull with
      | JStr type => mret (if decide (type = ACCESS_TOKEN_TYPE) then Some payload else None)
      | _ => mret None
      end
  | _ => mret None
  end.

(** ** cookies.py, and the cookies a response sets *)

Definition ACCESS_COOKIE_NAME : string := "healer_access".
Definition REFRESH_COOKIE_NAME : string := "healer_refresh".
Definition CSRF_COOKIE_NAME : string := "healer_csrf".
Definition CSRF_HEADER_NAME : string := "X-CSRF-Token".

Record SetCookie := {
  ck_name : string;
  ck_value : string;
  ck_max_age : Z;
  ck_httponly : bool;
  ck_secure : bool;
  ck_path : string;
}.

(** ** deps.py *)

(** The names in [frozenset(roles)]: a member that is not a string equals no
    role name, and one that is not hashable raises. *)
Fixpoint role_names_of (l : list json) : M (list string) :=
  match l with
  | [] => mret []
  | JStr s :: l' => rest ← role_names_of l'; mret (s :: rest)
  | (JArr _ | JObj _) :: _ => raise TypeError
  | _ :: l' => role_names_of l'
  end.

(** The user of a request that carries the access cookie [token]. *)
Definition get_current_user `{Env} `{Security} (token : option string) : M CurrentUser :=
  match token with
  | None => raise (HTTPException HTTP_401_UNAUTHORIZED "not authenticated")
  | Some token =>
      if String.eqb token EmptyString then raise (HTTPException HTTP_401_UNAUTHORIZED "not authenticated") else
      payload ← decode_access_token token;
      match payload with
      | None => raise (HTTPException HTTP_401_UNAUTHORIZED "invalid or expired session")
      | Some payload =>
          sub ← match dict_lookup payload "sub" with
                | None => raise KeyError
                | Some (JStr s) => match uuid_of_string s with
                                   | Some id => mret id
                                   | None => raise (ValueError "badly formed hexadecimal UUID string")
                                   end
                | Some _ => raise AttributeError
                end;
          user ← session_get db_users sub;
          match user with
          | None => raise (HTTPException HTTP_401_UNAUTHORIZED "invalid or expired session")
          | Some u =>
              if negb (user_is_active u) then
                raise (HTTPException HTTP_401_UNAUTHORIZED "invalid or expired session")
              else
                members ← py_iter (dict_get payload "roles" (JArr []));
                roles ← role_names_of members;
                mret {| cu_id := sub; cu_email := user_email u; cu_roles := roles |}
          end
      end
  end.

Definition verify_csrf (cookie_value header_value : option string) : M unit :=
  match cookie_value, header_value with
  | Some c, Some h =>
      if (String.eqb c EmptyString || String.eqb h EmptyString || negb (String.eqb c h))%bool then
        raise (HTTPException HTTP_403_FORBIDDEN "CSRF validation failed")
      else mret tt
  | _, _ => raise (HTTPException HTTP_403_FORBIDDEN "CSRF validation failed")
  end.

(** ** What these leave alone *)

Section keeps.
Context `{Env} `{Security} (I : invariant).

Lemma keeps_hash_password p : keeps I (hash_password p).
Proof. apply hoare_observe. Qed.

Lemma keeps_verify_password p h : keeps I (verify_password p h).
Proof. unfold verify_password. keeps_auto. Qed.

Lemma keeps_generate_token : keeps I generate_token.
Proof. apply hoare_observe. Qed.

Lemma keeps_create_access_token u r : keeps I (create_access_token u r).
Proof. unfold create_access_token. keeps_auto. Qed.

Lemma keeps_verify_csrf c h : keeps I (verify_csrf c h).
Proof. unfold verify_csrf. keeps_auto. Qed.

Lemma keeps_role_names_of l : keeps I (role_names_of l).
Proof. induction l as [|[]]; simpl; keeps_auto. Qed.

Lemma keeps_get_current_user t : keeps I (get_current_user t).
Proof. pose proof keeps_role_names_of. unfold get_current_user, decode_access_token, py_iter. keeps_auto. Qed.

End keeps.

#[export] Hint Resolve keeps_hash_password keeps_verify_password keeps_generate_token
  keeps_create_access_token keeps_verify_csrf keeps_get_current_user : keeps.
