(* ===== verification/Protocol.v ===== *)
(** What service code may do to the database.

    [db_step] is the abstract protocol of the control plane: the kinds of
    write that any operation is made of, each with the condition the code
    checks before it. [reach] is any number of them. The files that follow
    show that every operation only makes such steps ([Stable] invariants are
    kept by it), and this one derives from the rules alone what holds in every
    reachable database. *)

From S2P Require Import Prelude Python Enums StateMachines Schema Session Hoare Widths Repositories.
Local Open Scope Z_scope.

(** ** Groups of tables *)

(** The tables that the WebSocket routes and the command service write. *)
Definition hide_agents (d : DB) : DB :=
  d <| db_agents := ∅ |> <| db_agent_connections := ∅ |> <| db_agent_commands := ∅ |>
    <| db_agent_command_events := [] |> <| db_metrics_snapshots := [] |>.

(** The tables that only record what happened. *)
Definition hide_records (d : DB) : DB :=
  d <| db_deployment_steps := ∅ |> <| db_deployment_logs := [] |> <| db_audit_logs := [] |>
    <| db_notifications := ∅ |> <| db_health_check_results := [] |>.

(** The rows that describe how an application is configured. *)
Definition hide_settings (d : DB) : DB :=
  d <| db_sources := ∅ |> <| db_health_checks := ∅ |> <| db_domains := ∅ |>.

(** Roles and who has them. *)
Definition hide_roles (d : DB) : DB := d <| db_roles := ∅ |> <| db_user_roles := [] |>.

Definition agent_frame (d d' : DB) : Prop := hide_agents d = hide_agents d'.

Definition record_frame (d d' : DB) : Prop :=
  hide_records d = hide_records d' ∧ db_audit_logs d `prefix_of` db_audit_logs d'.

Definition setting_frame (d d' : DB) : Prop := hide_settings d = hide_settings d'.

Definition role_frame (d d' : DB) : Prop := hide_roles d = hide_roles d'.

(** ** Rows that differ in bookkeeping only *)

Definition same_instance (i j : Instance) : Prop :=
  inst_application_id i = inst_application_id j ∧ inst_release_id i = inst_release_id j ∧
  inst_server_id i = inst_server_id j ∧ inst_port i = inst_port j ∧ inst_status i = inst_status j ∧
  inst_service_name i = inst_service_name j ∧ inst_created_at i = inst_created_at j.

Definition same_deployment (p q : Deployment) : Prop := q = p <| dep_failure_reason := dep_failure_reason q |>.

Definition same_release (r s : Release) : Prop :=
  rel_application_id r = rel_application_id s ∧ rel_ref r = rel_ref s ∧ rel_created_at r = rel_created_at s.

Definition same_application (a b : Application) : Prop :=
  app_slug a = app_slug b ∧ app_created_at a = app_created_at b ∧
  (app_name a ≠ app_name b → fits "applications" "name" (app_name b)).

(** A session or an enrolment token keeps its identity and its lifetime, and is
    never valid again once it was revoked or used. *)
Definition same_session (r s : RefreshSession) : Prop :=
  s = r <| rs_revoked_at := rs_revoked_at s |> ∧ (is_Some (rs_revoked_at r) → is_Some (rs_revoked_at s)).

Definition same_token (t u : EnrollmentToken) : Prop :=
  u = t <| et_used_at := et_used_at u |> <| et_revoked_at := et_revoked_at u |> ∧
  (is_Some (et_used_at t) → is_Some (et_used_at u)) ∧ (is_Some (et_revoked_at t) → is_Some (et_revoked_at u)).

(** A secret is replaced under its name. *)
Definition same_secret (s t : SecretRecord) : Prop := t = s <| sec_encrypted_value := sec_encrypted_value t |>.

Definition same_user (u v : User) : Prop := user_email u = user_email v ∧ user_created_at u = user_created_at v.

(** The audit entry of a deployment transition. *)
Definition describes_transition (id : uuid) (previous target : deployment_status) (e : AuditLog) : Prop :=
  au_action e = "deployment.transition" ∧ au_target_type e = "deployment" ∧
  au_target_id e = str_uuid id ∧
  au_detail e = Some (JObj [ ("from", JStr (deployment_status_value previous));
                             ("to", JStr (deployment_status_value target)) ]).

(** ** The rules *)

Inductive db_step : DB → DB → Prop :=
| step_agents d d' : agent_frame d d' → db_step d d'
| step_records d d' : record_frame d d' → db_step d d'
| step_settings d d' : setting_frame d d' → (settings_fit d → settings_fit d') → db_step d d'
| step_roles d d' : role_frame d d' → db_step d d'
| step_instance_new d id i :
    db_instances d !! id = None → inst_status i = InstanceStatus.PENDING → inst_healing_attempts i = 0 →
    index_accepts d None i → foreign_keys_ok d i → instance_fits i →
    db_step d (d <| db_instances := <[id := i]> (db_instances d) |>)
| step_instance_move d id i target :
    db_instances d !! id = Some i → legal INSTANCE_TRANSITIONS (inst_status i) target →
    index_accepts d (Some id) (i <| inst_status := target |>) →
    db_step d (d <| db_instances := <[id := i <| inst_status := target |>]> (db_instances d) |>)
| step_instance_note d id i j :
    db_instances d !! id = Some i → same_instance i j →
    db_step d (d <| db_instances := <[id := j]> (db_instances d) |>)
| step_deployment_new d id p :
    db_deployments d !! id = None → dep_status p = DeploymentStatus.PENDING →
    db_step d (d <| db_deployments := <[id := p]> (db_deployments d) |>)
| step_deployment_move d id p target e :
    db_deployments d !! id = Some p → legal DEPLOYMENT_TRANSITIONS (dep_status p) target →
    describes_transition id (dep_status p) target e →
    db_step d (d <| db_deployments := <[id := p <| dep_status := target |>]> (db_deployments d) |>
                 <| db_audit_logs := db_audit_logs d ++ [e] |>)
| step_deployment_note d id p q :
    db_deployments d !! id = Some p → same_deployment p q →
    db_step d (d <| db_deployments := <[id := q]> (db_deployments d) |>)
| step_release_new d id r :
    db_releases d !! id = None →
    db_step d (d <| db_releases := <[id := r]> (db_releases d) |>)
| step_release_change d id r s :
    db_releases d !! id = Some r → same_release r s →
    db_step d (d <| db_releases := <[id := s]> (db_releases d) |>)
| step_release_gone d id : db_step d (delete_release id d)
| step_application_new d id a :
    db_applications d !! id = None → (∀ k b, db_applications d !! k = Some b → app_slug b ≠ app_slug a) →
    application_fits a →
    db_step d (d <| db_applications := <[id := a]> (db_applications d) |>)
| step_application_change d id a b :
    db_applications d !! id = Some a → same_application a b →
    db_step d (d <| db_applications := <[id := b]> (db_applications d) |>)
| step_user_new d id u :
    db_users d !! id = None → (∀ k v, db_users d !! k = Some v → user_email v ≠ user_email u) →
    user_fits u →
    db_step d (d <| db_users := <[id := u]> (db_users d) |>)
| step_user_change d id u v :
    db_users d !! id = Some u → same_user u v →
    db_step d (d <| db_users := <[id := v]> (db_users d) |>)
| step_session_new d id r :
    db_refresh_sessions d !! id = None →
    (∀ k s, db_refresh_sessions d !! k = Some s → rs_token_hash s ≠ rs_token_hash r) →
    db_step d (d <| db_refresh_sessions := <[id := r]> (db_refresh_sessions d) |>)
| step_session_change d id r s :
    db_refresh_sessions d !! id = Some r → same_session r s →
    db_step d (d <| db_refresh_sessions := <[id := s]> (db_refresh_sessions d) |>)
| step_server_new d id s :
    db_servers d !! id = None → (∀ k t, db_servers d !! k = Some t → srv_hostname t ≠ srv_hostname s) →
    server_fits s →
    db_step d (d <| db_servers := <[id := s]> (db_servers d) |>)
| step_token_new d id t :
    db_enrollment_tokens d !! id = None →
    (∀ k u, db_enrollment_tokens d !! k = Some u → et_token_hash u ≠ et_token_hash t) →
    db_step d (d <| db_enrollment_tokens := <[id := t]> (db_enrollment_tokens d) |>)
| step_token_change d id t u :
    db_enrollment_tokens d !! id = Some t → same_token t u →
    db_step d (d <| db_enrollment_tokens := <[id := u]> (db_enrollment_tokens d) |>)
| step_secret_new d id s :
    db_secret_records d !! id = None →
    (∀ k t, db_secret_records d !! k = Some t → sec_application_id t = sec_application_id s →
       sec_key t ≠ sec_key s) →
    secret_fits s →
    db_step d (d <| db_secret_records := <[id := s]> (db_secret_records d) |>)
| step_secret_change d id s t :
    db_secret_records d !! id = Some s → same_secret s t →
    db_step d (d <| db_secret_records := <[id := t]> (db_secret_records d) |>)
| step_secret_gone d id :
    db_step d (d <| db_secret_records := delete id (db_secret_records d) |>).

Abbreviation reach := (rtc db_step).

(** ** Predicates that steps keep *)

Class AgentStable (I : invariant) := agent_stable d d' : agent_frame d d' → I d → I d'.
Class RecordStable (I : invariant) := record_stable d d' : record_frame d d' → I d → I d'.
Class Stable (I : invariant) := {
  stable d d' : db_step d d' → I d → I d';
  stable_pending r : pending I r;
}.

#[export] Instance stable_agent I : Stable I → AgentStable I.
Proof. intros H d d' Hf. by apply stable, step_agents. Qed.
#[export] Instance stable_record I : Stable I → RecordStable I.
Proof. intros H d d' Hf. by apply stable, step_records. Qed.

(** The databases reachable from [d0]. *)
Program Definition reachable_from (d0 : DB) : invariant :=
  {| holds := reach d0; pending := λ _, True |}.
Next Obligation. intros d0 r d _ Hr. eapply rtc_r; [exact Hr|apply step_release_gone]. Qed.

#[export] Instance reachable_from_stable d0 : Stable (reachable_from d0).
Proof. split; [|done]. intros d d' Hs Hr. by eapply rtc_r. Qed.

(** What an operation that keeps every stable invariant does: the databases it
    leaves, as its session sees it and as committed, are reachable. *)
Lemma keeps_reach {A} (m : M A) w :
  (∀ I, Stable I → keeps I m) → w_committed w = w_db w →
  reach (w_db w) (w_db (m w).2) ∧ reach (w_db w) (w_committed (m w).2).
Proof.
  intros Hm Hc. destruct (Hm (reachable_from (w_db w)) _ w) as [(? & ? & _) _]; [|done].
  split; [apply rtc_refl|]. rewrite Hc. split; [apply rtc_refl|done].
Qed.

(** A predicate that every rule keeps holds wherever it is reachable from. *)
Class Kept (P : DB → Prop) := kept d d' : db_step d d' → P d → P d'.

Lemma kept_reach P `{!Kept P} d d' : reach d d' → P d → P d'.
Proof. induction 1 as [|x y z Hxy _ IH]; [done|]. intros Hx. apply IH. by eapply kept. Qed.

(** ** Frames read table by table *)

Lemma agent_frame_eq {A} (f : DB → A) d d' :
  agent_frame d d' → (∀ x, f (hide_agents x) = f x) → f d = f d'.
Proof. intros H Hf. rewrite <-(Hf d). rewrite H. apply Hf. Qed.
Lemma record_frame_eq {A} (f : DB → A) d d' :
  record_frame d d' → (∀ x, f (hide_records x) = f x) → f d = f d'.
Proof. intros [H _] Hf. rewrite <-(Hf d). rewrite H. apply Hf. Qed.
Lemma setting_frame_eq {A} (f : DB → A) d d' :
  setting_frame d d' → (∀ x, f (hide_settings x) = f x) → f d = f d'.
Proof. intros H Hf. rewrite <-(Hf d). rewrite H. apply Hf. Qed.

Lemma role_frame_eq {A} (f : DB → A) d d' :
  role_frame d d' → (∀ x, f (hide_roles x) = f x) → f d = f d'.
Proof. intros H Hf. rewrite <-(Hf d). rewrite H. apply Hf. Qed.

(** ** The writes of the services *)

Section writes.
Context (I : invariant).

Lemma keeps_db_modify_agents `{!AgentStable I} f : (∀ d, agent_frame d (f d)) → keeps I (db_modify f).
Proof. intros Hf. apply hoare_db_modify. intros d. apply agent_stable, Hf. Qed.

Lemma keeps_db_modify_records `{!RecordStable I} f : (∀ d, record_frame d (f d)) → keeps I (db_modify f).
Proof. intros Hf. apply hoare_db_modify. intros d. apply record_stable, Hf. Qed.

Lemma keeps_assign_agents `{!AgentStable I} {R} (tbl : DB → gmap uuid R) `{!Upd tbl} id f :
  (∀ d t, agent_frame d (d <| tbl := t |>)) → keeps I (assign tbl id f).
Proof. intros Hf. apply hoare_assign. intros d r Hd _. eapply agent_stable; [apply Hf|exact Hd]. Qed.

Lemma hoare_insert_agents `{!AgentStable I} {R} (tbl : DB → gmap uuid R) `{!Upd tbl} r :
  (∀ d t, agent_frame d (d <| tbl := t |>)) → keeps I (insert_row tbl r).
Proof. intros Hf. eapply hoare_keeps, hoare_insert_row. intros d id Hd _. eapply agent_stable; [apply Hf|exact Hd]. Qed.

Lemma hoare_insert_records `{!RecordStable I} {R} (tbl : DB → gmap uuid R) `{!Upd tbl} r :
  (∀ d t, record_frame d (d <| tbl := t |>)) → keeps I (insert_row tbl r).
Proof. intros Hf. eapply hoare_keeps, hoare_insert_row. intros d id Hd _. eapply record_stable; [apply Hf|exact Hd]. Qed.

Lemma keeps_assign_records `{!RecordStable I} {R} (tbl : DB → gmap uuid R) `{!Upd tbl} id f :
  (∀ d t, record_frame d (d <| tbl := t |>)) → keeps I (assign tbl id f).
Proof. intros Hf. apply hoare_assign. intros d r Hd _. eapply record_stable; [apply Hf|exact Hd]. Qed.

(** A transition of an instance, for any predicate that survives it. *)
Lemma hoare_instance_transition id target :
  (∀ d i, I d → db_instances d !! id = Some i → legal INSTANCE_TRANSITIONS (inst_status i) target →
     index_accepts d (Some id) (i <| inst_status := target |>) →
     I (d <| db_instances := <[id := i <| inst_status := target |>]> (db_instances d) |>)) →
  keeps I (InstanceRepository_transition id target).
Proof.
  intros H w Hw.
  unfold InstanceRepository_transition, assign, row, session_get, query, db_modify, require_active.
  unfold mbind, st_bind. simpl.
  destruct (w_active w) eqn:Ha; simpl; [|done].
  destruct (db_instances (w_db w) !! id) as [i|] eqn:Ei; simpl; [|done].
  rewrite require_transition_run.
  destruct (can_transition _ _ _) eqn:Hl; simpl; [|done]. rewrite Ha. simpl.
  case_bool_decide as Hx; simpl; [|by apply hoare_flush_error].
  rewrite Ha. simpl. rewrite Ei. simpl. rewrite Ha. simpl.
  apply keeps_flush. destruct Hw as (?&?&?). split; [by apply H|done].
Qed.

Lemma keeps_instance_transition `{!Stable I} id target : keeps I (InstanceRepository_transition id target).
Proof. apply hoare_instance_transition. intros d i HI Hi Hl Hx. eapply stable; [by apply step_instance_move|done]. Qed.

Lemma keeps_note_instance `{!Stable I} id f :
  (∀ i, same_instance i (f i)) → keeps I (assign db_instances id f).
Proof. intros Hf. apply hoare_assign. intros d i HI Hi. eapply stable; [by eapply step_instance_note|done]. Qed.

Lemma keeps_note_deployment `{!Stable I} id f :
  (∀ p, same_deployment p (f p)) → keeps I (assign db_deployments id f).
Proof. intros Hf. apply hoare_assign. intros d p HI Hp. eapply stable; [by eapply step_deployment_note|done]. Qed.

Lemma keeps_change_release `{!Stable I} id f :
  (∀ r, same_release r (f r)) → keeps I (assign db_releases id f).
Proof. intros Hf. apply hoare_assign. intros d r HI Hr. eapply stable; [by eapply step_release_change|done]. Qed.

Lemma keeps_change_application `{!Stable I} id f :
  (∀ a, same_application a (f a)) → keeps I (assign db_applications id f).
Proof. intros Hf. apply hoare_assign. intros d a HI Ha. eapply stable; [by eapply step_application_change|done]. Qed.

Lemma keeps_delete_release `{!Stable I} r : keeps I (session_delete_release r).
Proof. apply hoare_session_delete_release, stable_pending. Qed.

End writes.

(** A transition that is committed at once takes the session and the committed
    database from one predicate to another. *)
Lemma wp_transition_commit (P P' : DB → Prop) id target (Q : result exn unit → World → Prop) w :
  inv (strict P) w →
  (∀ d i, P d → db_instances d !! id = Some i → legal INSTANCE_TRANSITIONS (inst_status i) target →
     P' (d <| db_instances := <[id := i <| inst_status := target |>]> (db_instances d) |>)) →
  (∀ w', inv (strict P') w' → Q (Ok tt) w') →
  (∀ e w', inv (strict P) w' → Q (Raise e) w') →
  wp (InstanceRepository_transition id target ;; commit) Q w.
Proof.
  intros Hw HP HQ He. pose proof Hw as (Hdb & Hc & Hd)%inv_strict. unfold wp.
  unfold InstanceRepository_transition, assign, row, session_get, query, db_modify, commit, flush, require_active.
  unfold mbind, st_bind. simpl.
  destruct (w_active w) eqn:Ha; simpl; [|by apply He].
  destruct (db_instances (w_db w) !! id) as [i|] eqn:Ei; simpl; [|by apply He].
  rewrite require_transition_run. destruct (can_transition _ _ _) eqn:Hl; simpl; [|by apply He].
  rewrite Ha. simpl. case_bool_decide as Hx; simpl; [|apply He; by apply inv_strict].
  rewrite Ha. simpl. rewrite Ei. simpl. rewrite Ha. simpl. unfold require_active, mbind, st_bind. simpl. rewrite Ha. simpl. rewrite Ha. simpl. rewrite Hd. simpl.
  apply HQ, inv_strict. simpl. split; [by apply HP|]. split; [by apply HP|done].
Qed.

(** The same in the middle of a sequence. *)
Lemma wp_transition_commit_bind {A} (P P' : DB → Prop) id target (k : M A) (Q : result exn A → World → Prop) w :
  inv (strict P) w →
  (∀ d i, P d → db_instances d !! id = Some i → legal INSTANCE_TRANSITIONS (inst_status i) target →
     P' (d <| db_instances := <[id := i <| inst_status := target |>]> (db_instances d) |>)) →
  (∀ w', inv (strict P') w' → wp k Q w') →
  (∀ e w', inv (strict P) w' → Q (Raise e) w') →
  wp (InstanceRepository_transition id target ≫= λ _, commit ≫= λ _, k) Q w.
Proof.
  intros Hw HP Hk He.
  assert (wp ((InstanceRepository_transition id target ;; commit) ;; k) Q w) as Hrun.
  { apply wp_bind. eapply wp_transition_commit; [exact Hw|exact HP|done|done]. }
  revert Hrun. unfold wp, mbind, st_bind. by destruct (InstanceRepository_transition id target w) as [[[]|e] w'].
Qed.

#[export] Hint Extern 1 (hoare _ (db_modify _) _) =>
  apply keeps_db_modify_agents; first [apply _|intros; exact eq_refl] : keeps.
#[export] Hint Extern 1 (hoare _ (assign _ _ _) _) =>
  apply keeps_assign_agents; first [apply _|intros; exact eq_refl] : keeps.
#[export] Hint Extern 1 (hoare _ (insert_row _ _) _) =>
  apply hoare_insert_agents; first [apply _|intros; exact eq_refl] : keeps.
#[export] Hint Resolve keeps_instance_transition keeps_delete_release : keeps.
#[export] Hint Extern 2 (hoare _ (assign db_instances _ _) _) =>
  apply keeps_note_instance; first [apply _|intros; done] : keeps.
#[export] Hint Extern 2 (hoare _ (assign db_deployments _ _) _) =>
  apply keeps_note_deployment; first [apply _|intros; done] : keeps.
#[export] Hint Extern 2 (hoare _ (assign db_releases _ _) _) =>
  apply keeps_change_release; first [apply _|intros; done] : keeps.
#[export] Hint Extern 2 (hoare _ (assign db_applications _ _) _) =>
  apply keeps_change_application; first [apply _|intros; done] : keeps.

Ltac solve_record_frame :=
  intros; split; [exact eq_refl | first [reflexivity | simpl; apply prefix_app_r; reflexivity]].

#[export] Hint Extern 2 (hoare _ (db_modify _) _) =>
  apply keeps_db_modify_records; first [apply _|solve_record_frame] : keeps.
#[export] Hint Extern 2 (hoare _ (insert_row _ _) _) =>
  apply hoare_insert_records; first [apply _|solve_record_frame] : keeps.
#[export] Hint Extern 2 (hoare _ (assign _ _ _) _) =>
  apply keeps_assign_records; first [apply _|solve_record_frame] : keeps.
#[export] Hint Extern 0 (AgentStable _) => apply _ : keeps.
#[export] Hint Extern 0 (RecordStable _) => apply _ : keeps.
#[export] Hint Extern 0 (Stable _) => apply _ : keeps.

(** Rows that describe an application's configuration. *)
Section settings.
Context (I : invariant) `{!Stable I} {R : Type} (tbl : DB → gmap uuid R) `{!Upd tbl}.
Context (row_fits : R → Prop) (Hfits : ∀ d id r, settings_fit d → row_fits r → settings_fit (d <| tbl := <[id := r]> (tbl d) |>)).
Context (Hframe : ∀ d t, setting_frame d (d <| tbl := t |>)).

Lemma keeps_assign_settings id f : (∀ r, row_fits (f r)) → keeps I (assign tbl id f).
Proof.
  intros Hf. apply hoare_assign. intros d r Hd _. eapply stable; [|exact Hd]. apply step_settings; [apply Hframe|].
  intros Hs. by apply Hfits.
Qed.

Lemma keeps_insert_settings r : row_fits r → keeps I (insert_row tbl r).
Proof.
  intros Hr. eapply hoare_keeps, hoare_insert_row. intros d id Hd _.
  eapply stable; [|exact Hd]. apply step_settings; [apply Hframe|]. intros Hs. by apply Hfits.
Qed.
End settings.

Lemma settings_fit_source d id r :
  settings_fit d → source_fits r → settings_fit (d <| db_sources := <[id := r]> (db_sources d) |>).
Proof. intros (Hs & Hh & Hx) Hr. split; [by apply map_Forall_insert_2|done]. Qed.

Lemma settings_fit_health_check d id r :
  settings_fit d → health_check_fits r → settings_fit (d <| db_health_checks := <[id := r]> (db_health_checks d) |>).
Proof. intros (Hs & Hh & Hx) Hr. split; [done|]. split; [by apply map_Forall_insert_2|done]. Qed.

Lemma settings_fit_domain d id r :
  settings_fit d → domain_fits r → settings_fit (d <| db_domains := <[id := r]> (db_domains d) |>).
Proof. intros (Hs & Hh & Hx) Hr. split; [done|]. split; [done|]. by apply map_Forall_insert_2. Qed.

(** Solves a write to one of the tables of the configuration, up to the widths. *)
Ltac keeps_settings :=
  first [ apply (keeps_assign_settings _ db_sources _ settings_fit_source (λ _ _, eq_refl))
        | apply (keeps_assign_settings _ db_health_checks _ settings_fit_health_check (λ _ _, eq_refl))
        | apply (keeps_assign_settings _ db_domains _ settings_fit_domain (λ _ _, eq_refl))
        | apply (keeps_insert_settings _ db_sources _ settings_fit_source (λ _ _, eq_refl))
        | apply (keeps_insert_settings _ db_health_checks _ settings_fit_health_check (λ _ _, eq_refl))
        | apply (keeps_insert_settings _ db_domains _ settings_fit_domain (λ _ _, eq_refl)) ].

(** Accounts and the registration of servers. *)
Section accounts.
Context (I : invariant) `{!Stable I}.

Lemma keeps_db_modify_roles f : (∀ d, role_frame d (f d)) → keeps I (db_modify f).
Proof. intros Hf. apply hoare_db_modify. intros d Hd. eapply stable; [apply step_roles, Hf|exact Hd]. Qed.

Lemma keeps_insert_roles {R} (tbl : DB → gmap uuid R) `{!Upd tbl} r :
  (∀ d t, role_frame d (d <| tbl := t |>)) → keeps I (insert_row tbl r).
Proof.
  intros Hf. eapply hoare_keeps, hoare_insert_row. intros d id Hd _.
  eapply stable; [apply step_roles, Hf|exact Hd].
Qed.

Lemma keeps_change_user id f : (∀ u, same_user u (f u)) → keeps I (assign db_users id f).
Proof. intros Hf. apply hoare_assign. intros d u Hd Hu. eapply stable; [by eapply step_user_change|done]. Qed.

Lemma keeps_change_session id f : (∀ r, same_session r (f r)) → keeps I (assign db_refresh_sessions id f).
Proof. intros Hf. apply hoare_assign. intros d r Hd Hr. eapply stable; [by eapply step_session_change|done]. Qed.

Lemma keeps_change_token id f : (∀ t, same_token t (f t)) → keeps I (assign db_enrollment_tokens id f).
Proof. intros Hf. apply hoare_assign. intros d t Hd Ht. eapply stable; [by eapply step_token_change|done]. Qed.

Lemma keeps_new_user u :
  user_fits u → keeps I (insert_unique db_users (λ v, bool_decide (user_email v = user_email u)) u).
Proof.
  intros Hu. apply keeps_insert_unique. intros d id Hd Hid Hno. eapply stable; [|done]. apply step_user_new; [done| |done].
  intros k v Hv. by apply Hno, bool_decide_eq_false in Hv.
Qed.

Lemma keeps_new_session r :
  keeps I (insert_unique db_refresh_sessions (λ s, bool_decide (rs_token_hash s = rs_token_hash r)) r).
Proof.
  apply keeps_insert_unique. intros d id Hd Hid Hno. eapply stable; [|done]. apply step_session_new; [done|].
  intros k s Hs. by apply Hno, bool_decide_eq_false in Hs.
Qed.

Lemma keeps_new_server s :
  server_fits s → keeps I (insert_unique db_servers (λ t, bool_decide (srv_hostname t = srv_hostname s)) s).
Proof.
  intros Hs. apply keeps_insert_unique. intros d id Hd Hid Hno. eapply stable; [|done]. apply step_server_new; [done| |done].
  intros k t Ht. by apply Hno, bool_decide_eq_false in Ht.
Qed.

Lemma keeps_new_secret s :
  secret_fits s →
  keeps I (insert_unique db_secret_records (λ t, (bool_decide (sec_application_id t = sec_application_id s)
                                                  && bool_decide (sec_key t = sec_key s))%bool) s).
Proof.
  intros Hs. apply keeps_insert_unique. intros d id Hd Hid Hno. eapply stable; [|done]. apply step_secret_new; [done| |done].
  intros k t Ht Ha Hk. specialize (Hno k t Ht). by rewrite Ha, Hk, !bool_decide_true in Hno.
Qed.

Lemma keeps_change_secret id f : (∀ s, same_secret s (f s)) → keeps I (assign db_secret_records id f).
Proof. intros Hf. apply hoare_assign. intros d s Hd Hs. eapply stable; [by eapply step_secret_change|done]. Qed.

Lemma keeps_remove_secret id :
  keeps I (db_modify (λ d, d <| db_secret_records := delete id (db_secret_records d) |>)).
Proof. apply hoare_db_modify. intros d Hd. eapply stable; [apply step_secret_gone|done]. Qed.

Lemma keeps_new_token t :
  keeps I (insert_unique db_enrollment_tokens (λ u, bool_decide (et_token_hash u = et_token_hash t)) t).
Proof.
  apply keeps_insert_unique. intros d id Hd Hid Hno. eapply stable; [|done]. apply step_token_new; [done|].
  intros k u Hu. by apply Hno, bool_decide_eq_false in Hu.
Qed.

End accounts.

#[export] Hint Extern 2 (hoare _ (db_modify _) _) =>
  apply keeps_db_modify_roles; first [apply _|intros; exact eq_refl] : keeps.
#[export] Hint Extern 2 (hoare _ (insert_row _ _) _) =>
  apply keeps_insert_roles; first [apply _|intros; exact eq_refl] : keeps.
#[export] Hint Extern 2 (hoare _ (assign db_users _ _) _) =>
  apply keeps_change_user; first [apply _|intros; done] : keeps.
#[export] Hint Extern 2 (hoare _ (assign db_refresh_sessions _ _) _) =>
  apply keeps_change_session; first [apply _|intros; by split] : keeps.
#[export] Hint Extern 2 (hoare _ (assign db_enrollment_tokens _ _) _) =>
  apply keeps_change_token; first [apply _|intros; by split] : keeps.
#[export] Hint Extern 2 (hoare _ (assign db_secret_records _ _) _) =>
  apply keeps_change_secret; first [apply _|intros; done] : keeps.
#[export] Hint Resolve keeps_new_user keeps_new_session keeps_new_server keeps_new_token : keeps.
#[export] Hint Resolve keeps_new_secret keeps_remove_secret : keeps.

(** ** Everything but the agents' tables as it was *)

Definition snapshot (d0 : DB) : invariant := strict (agent_frame d0).

#[export] Instance snapshot_agent_stable d0 : AgentStable (snapshot d0).
Proof. intros d d' Hf Hd. exact (eq_trans Hd Hf). Qed.

Lemma snapshot_inv w : ready w → w_committed w = w_db w → inv (snapshot (w_db w)) w.
Proof. intros [_ Hd] Hc. apply inv_strict. by rewrite Hc. Qed.
