(* ===== verification/Invariants.v ===== *)
(** Invariants of every reachable database, by induction on the rules of
    [Protocol.db_step]. *)

From S2P Require Import Prelude Python Enums StateMachines Schema Session Hoare Widths Repositories.
From S2P Require Import Protocol.
Local Open Scope Z_scope.

(** ** A table that a step does not touch *)

Ltac frame_rewrite tbl :=
  match goal with
  | H : agent_frame ?d ?d' |- _ => rewrite <-(agent_frame_eq tbl d d' H (λ _, eq_refl))
  | H : record_frame ?d ?d' |- _ => rewrite <-(record_frame_eq tbl d d' H (λ _, eq_refl))
  | H : setting_frame ?d ?d' |- _ => rewrite <-(setting_frame_eq tbl d d' H (λ _, eq_refl))
  | H : role_frame ?d ?d' |- _ => rewrite <-(role_frame_eq tbl d d' H (λ _, eq_refl))
  end.

Lemma delete_release_instance r d id :
  db_instances (delete_release r d) !! id =
  (λ i, i <| inst_release_id := if decide (inst_release_id i = Some r) then None else inst_release_id i |>
          <| inst_deployment_id :=
               match inst_deployment_id i with
               | Some dep_id =>
                   if match db_deployments d !! dep_id with
                      | Some dep => bool_decide (dep_release_id dep = r)
                      | None => false
                      end then None else Some dep_id
               | None => None
               end |>) <$> db_instances d !! id.
Proof. unfold delete_release. simpl. by rewrite lookup_fmap. Qed.

Lemma delete_release_instance_Some r d id j :
  db_instances (delete_release r d) !! id = Some j →
  ∃ i, db_instances d !! id = Some i ∧ inst_status j = inst_status i ∧ inst_server_id j = inst_server_id i ∧
       inst_port j = inst_port i ∧ inst_application_id j = inst_application_id i ∧
       inst_service_name j = inst_service_name i ∧ inst_created_at j = inst_created_at i.
Proof. rewrite delete_release_instance, fmap_Some. intros (i & Hi & ->). by exists i. Qed.

Lemma delete_release_application r d id b :
  db_applications (delete_release r d) !! id = Some b →
  ∃ a, db_applications d !! id = Some a ∧ same_application a b.
Proof.
  unfold delete_release. simpl. rewrite lookup_fmap, fmap_Some. intros (a & Ha & ->). exists a.
  split; [done|]. by case_decide.
Qed.

(** ** A live instance has its port to itself *)

Definition live_ports_unique (d : DB) : Prop :=
  ∀ k1 k2 i1 i2,
    db_instances d !! k1 = Some i1 → db_instances d !! k2 = Some i2 →
    live_status (inst_status i1) = true → live_status (inst_status i2) = true →
    inst_server_id i1 = inst_server_id i2 → inst_port i1 = inst_port i2 → k1 = k2.

(** Writing a row that the index accepts keeps ports unique. *)
Lemma live_ports_unique_insert d id i :
  live_ports_unique d → index_accepts d (Some id) i ∨ (db_instances d !! id = None ∧ index_accepts d None i) →
  live_ports_unique (d <| db_instances := <[id := i]> (db_instances d) |>).
Proof.
  intros HU Hx.
  assert (∀ k j, k ≠ id → db_instances d !! k = Some j → live_status (inst_status i) = true → ¬ holds_port i j)
    as Hfree.
  { intros k j Hk Hj Hl. destruct Hx as [Hx|[_ Hx]].
    - apply (Hx Hl k j Hj). congruence.
    - by apply (Hx Hl k j Hj). }
  intros k1 k2 i1 i2 H1 H2 L1 L2 Hs Hp. simpl in *.
  apply lookup_insert_Some in H1 as [[<- <-]|[N1 H1]], H2 as [[<- <-]|[N2 H2]]; [done|..|by eapply HU].
  - destruct (Hfree k2 i2); [done..|]. done.
  - destruct (Hfree k1 i1); [done..|]. done.
Qed.

#[export] Instance live_ports_unique_kept : Kept live_ports_unique.
Proof.
  intros d d' Hs HU. destruct Hs; try exact HU.
  1,2,3,4: unfold live_ports_unique; frame_rewrite db_instances; exact HU.
  - apply live_ports_unique_insert; [done|]. by right.
  - apply live_ports_unique_insert; [done|]. by left.
  - rename H0 into Hsame. destruct Hsame as (_ & _ & Hsrv & Hport & Hst & _).
    intros k1 k2 i1 i2 H1 H2 L1 L2 Es Ep. simpl in *.
    apply lookup_insert_Some in H1 as [[<- <-]|[N1 H1]], H2 as [[<- <-]|[N2 H2]]; [done|..|by eapply HU].
    + eapply HU; [done..|congruence|done|congruence|congruence].
    + eapply HU; [done..|congruence|congruence|congruence].
  - intros k1 k2 i1 i2 H1 H2 L1 L2 Es Ep.
    apply delete_release_instance_Some in H1 as (j1 & J1 & ? & ? & ? & _), H2 as (j2 & J2 & ? & ? & ? & _).
    eapply HU; [done..|congruence|congruence|congruence|congruence].
Qed.

(** ** The history of an instance *)

(** [j] is what [i] may have become: it moved along the state machine, and kept
    its application, server, port, service name and creation time. *)
Definition evolves (i j : Instance) : Prop :=
  instance_path (inst_status i) (inst_status j) ∧ inst_application_id i = inst_application_id j ∧
  inst_server_id i = inst_server_id j ∧ inst_port i = inst_port j ∧
  inst_service_name i = inst_service_name j ∧ inst_created_at i = inst_created_at j.

#[export] Instance evolves_preorder : PreOrder evolves.
Proof.
  split.
  - intros i. repeat split. apply rtc_refl.
  - intros i j k (?&?&?&?&?&?) (?&?&?&?&?&?).
    split; [by etrans|]. repeat split; congruence.
Qed.

Definition instances_evolve (d0 d : DB) : Prop :=
  ∀ id i, db_instances d0 !! id = Some i → ∃ j, db_instances d !! id = Some j ∧ evolves i j.

Lemma instances_evolve_insert d0 d id i j :
  instances_evolve d0 d → db_instances d !! id = Some i → evolves i j →
  instances_evolve d0 (d <| db_instances := <[id := j]> (db_instances d) |>).
Proof.
  intros HE Hi Hij k i0 Hk. simpl. destruct (HE k i0 Hk) as (i1 & Hi1 & ?).
  destruct (decide (k = id)) as [->|].
  - exists j. split; [apply lookup_insert_eq|]. rewrite Hi in Hi1. injection Hi1 as <-. by etrans.
  - exists i1. split; [by rewrite lookup_insert_ne|done].
Qed.

#[export] Instance instances_evolve_kept d0 : Kept (instances_evolve d0).
Proof.
  intros d d' Hs HE. destruct Hs; try exact HE.
  1,2,3,4: unfold instances_evolve; frame_rewrite db_instances; exact HE.
  - intros k i0 Hk. destruct (HE k i0 Hk) as (i1 & Hi1 & ?). exists i1. simpl.
    split; [|done]. rewrite lookup_insert_ne; [done|]. congruence.
  - eapply instances_evolve_insert; [done..|]. repeat split. by apply rtc_once.
  - eapply instances_evolve_insert; [done..|].
    destruct H0 as (?&?&?&?&Hst&?&?). rewrite <-?Hst. split; [rewrite Hst; apply rtc_refl|done].
  - intros k i0 Hk. destruct (HE k i0 Hk) as (i1 & Hi1 & ?).
    destruct (db_instances (delete_release id d) !! k) as [j|] eqn:Ej.
    + exists j. split; [done|].
      apply delete_release_instance_Some in Ej as (i2 & Hi2 & ? & ? & ? & ? & ? & ?).
      rewrite Hi1 in Hi2. injection Hi2 as <-.
      etrans; [done|]. split; [|repeat split; congruence]. by replace (inst_status j) with (inst_status i1).
    + rewrite delete_release_instance, Hi1 in Ej. done.
Qed.

(** ** Every deployment transition is in the audit log *)

Definition transitions_audited (d : DB) : Prop :=
  ∀ id p, db_deployments d !! id = Some p → dep_status p ≠ DeploymentStatus.PENDING →
    ∃ e previous, e ∈ db_audit_logs d ∧ describes_transition id previous (dep_status p) e ∧
                  legal DEPLOYMENT_TRANSITIONS previous (dep_status p).

#[export] Instance transitions_audited_kept : Kept transitions_audited.
Proof.
  intros d d' Hs HT.
  assert (∀ d', db_deployments d = db_deployments d' → db_audit_logs d `prefix_of` db_audit_logs d' →
            transitions_audited d') as Hmono.
  { intros d1 E [l El] id p Hp Hn. rewrite <-E in Hp. destruct (HT id p Hp Hn) as (e & prev & He & ?).
    exists e, prev. split; [|done]. rewrite El. apply elem_of_app. by left. }
  destruct Hs; try exact HT.
  - apply Hmono.
    + by frame_rewrite db_deployments.
    + by frame_rewrite db_audit_logs.
  - apply Hmono; [by frame_rewrite db_deployments|]. by destruct H.
  - apply Hmono.
    + by frame_rewrite db_deployments.
    + by frame_rewrite db_audit_logs.
  - apply Hmono.
    + by frame_rewrite db_deployments.
    + by frame_rewrite db_audit_logs.
  - intros k q Hq Hn. simpl in *. apply lookup_insert_Some in Hq as [[<- <-]|[? Hq]]; [done|by apply HT].
  - intros k q Hq Hn. simpl in *. apply lookup_insert_Some in Hq as [[<- <-]|[? Hq]].
    + exists e, (dep_status p). split; [|done]. apply elem_of_app. right. by apply list_elem_of_singleton.
    + destruct (HT k q Hq Hn) as (e' & prev & He & ?). exists e', prev. split; [|done].
      apply elem_of_app. by left.
  - intros k q' Hq Hn. simpl in *. apply lookup_insert_Some in Hq as [[<- <-]|[? Hq]]; [|by apply HT].
    rewrite H0 in Hn |- *. simpl in *. by apply HT.
  - intros k q Hq Hn. simpl in *. apply map_lookup_filter_Some in Hq as [Hq _]. by apply HT.
Qed.

(** ** The audit log only grows *)

Definition audit_extends (d0 d : DB) : Prop := db_audit_logs d0 `prefix_of` db_audit_logs d.

#[export] Instance audit_extends_kept d0 : Kept (audit_extends d0).
Proof.
  intros d d' Hs HA. unfold audit_extends in *. destruct Hs; simpl; try exact HA.
  - by frame_rewrite db_audit_logs.
  - etrans; [exact HA|]. by destruct H.
  - by frame_rewrite db_audit_logs.
  - by frame_rewrite db_audit_logs.
  - by apply prefix_app_r.
Qed.

(** ** Tables of rows with unique values *)

(** A table whose rows have a unique value stays so when a row with a new value
    is added, and when a row is replaced by one with the same value. *)
Section unique_values.
Context {R V : Type} (value : R → V) (m : gmap uuid R).

Definition values_unique (m : gmap uuid R) : Prop :=
  ∀ k1 k2 r1 r2, m !! k1 = Some r1 → m !! k2 = Some r2 → value r1 = value r2 → k1 = k2.

Lemma values_unique_new id r :
  values_unique m → (∀ k s, m !! k = Some s → value s ≠ value r) → values_unique (<[id := r]> m).
Proof.
  intros HU Hnew k1 k2 r1 r2 H1 H2 E.
  apply lookup_insert_Some in H1 as [[<- <-]|[N1 H1]], H2 as [[<- <-]|[N2 H2]]; [done|..|by eapply HU].
  - by destruct (Hnew k2 r2 H2).
  - by destruct (Hnew k1 r1 H1).
Qed.

Lemma values_unique_change id r s :
  values_unique m → m !! id = Some r → value s = value r → values_unique (<[id := s]> m).
Proof.
  intros HU Hr Hs k1 k2 r1 r2 H1 H2 E.
  apply lookup_insert_Some in H1 as [[<- <-]|[N1 H1]], H2 as [[<- <-]|[N2 H2]]; [done|..|by eapply HU].
  - eapply HU; [exact Hr|exact H2|congruence].
  - eapply HU; [exact H1|exact Hr|congruence].
Qed.

(** Rows that only change along a preorder. *)
Context (before : R → R → Prop) `{!PreOrder before}.

Definition rows_evolve (m0 m : gmap uuid R) : Prop :=
  ∀ id r, m0 !! id = Some r → ∃ s, m !! id = Some s ∧ before r s.

Lemma rows_evolve_new m0 id r : rows_evolve m0 m → m !! id = None → rows_evolve m0 (<[id := r]> m).
Proof.
  intros HE Hid k x Hx. destruct (HE k x Hx) as (s & Hs & ?). exists s. split; [|done].
  rewrite lookup_insert_ne; [done|congruence].
Qed.

Lemma rows_evolve_change m0 id r s :
  rows_evolve m0 m → m !! id = Some r → before r s → rows_evolve m0 (<[id := s]> m).
Proof.
  intros HE Hr Hs k x Hx. destruct (HE k x Hx) as (y & Hy & ?). destruct (decide (k = id)) as [->|].
  - exists s. rewrite lookup_insert_eq. split; [done|]. simplify_eq. by etrans.
  - exists y. by rewrite lookup_insert_ne.
Qed.

End unique_values.

(** ** Slugs are unique and stable *)

Definition slugs_unique (d : DB) : Prop :=
  ∀ k1 k2 a1 a2, db_applications d !! k1 = Some a1 → db_applications d !! k2 = Some a2 →
    app_slug a1 = app_slug a2 → k1 = k2.

#[export] Instance slugs_unique_kept : Kept slugs_unique.
Proof.
  intros d d' Hs HU. destruct Hs; try exact HU.
  1,2,3,4: unfold slugs_unique; frame_rewrite db_applications; exact HU.
  - intros k1 k2 a1 a2 H1 H2 E.
    apply delete_release_application in H1 as (b1 & B1 & [? ?]), H2 as (b2 & B2 & [? ?]).
    eapply HU; [done..|congruence].
  - by apply (values_unique_new app_slug).
  - eapply (values_unique_change app_slug); [done..|]. by destruct H0 as [-> _].
Qed.

Definition slugs_stay (d0 d : DB) : Prop :=
  ∀ id a, db_applications d0 !! id = Some a → ∃ b, db_applications d !! id = Some b ∧ app_slug b = app_slug a.

#[export] Instance slugs_stay_kept d0 : Kept (slugs_stay d0).
Proof.
  intros d d' Hs HS. destruct Hs; try exact HS.
  1,2,3,4: unfold slugs_stay; frame_rewrite db_applications; exact HS.
  - intros k a Hk. destruct (HS k a Hk) as (b & Hb & Eb). unfold delete_release. simpl.
    rewrite lookup_fmap, Hb. eexists. split; [done|]. by case_decide.
  - intros k b Hk. destruct (HS k b Hk) as (c & Hc & Ec). exists c. simpl. split; [|done].
    rewrite lookup_insert_ne; [done|congruence].
  - intros k c Hk. destruct (HS k c Hk) as (c' & Hc & Ec). simpl.
    destruct (decide (k = id)) as [->|].
    + exists b. rewrite lookup_insert_eq. split; [done|]. destruct H0 as [? _]. congruence.
    + exists c'. by rewrite lookup_insert_ne.
Qed.

(** ** Accounts and enrolment *)

(** A revoked session stays revoked, under the token it was issued for. *)
Definition session_hashes_unique (d : DB) : Prop :=
  ∀ k1 k2 r1 r2, db_refresh_sessions d !! k1 = Some r1 → db_refresh_sessions d !! k2 = Some r2 →
    rs_token_hash r1 = rs_token_hash r2 → k1 = k2.

Definition sessions_evolve (d0 d : DB) : Prop :=
  ∀ id r, db_refresh_sessions d0 !! id = Some r →
    ∃ s, db_refresh_sessions d !! id = Some s ∧ same_session r s.

Definition token_hashes_unique (d : DB) : Prop :=
  ∀ k1 k2 t1 t2, db_enrollment_tokens d !! k1 = Some t1 → db_enrollment_tokens d !! k2 = Some t2 →
    et_token_hash t1 = et_token_hash t2 → k1 = k2.

Definition tokens_evolve (d0 d : DB) : Prop :=
  ∀ id t, db_enrollment_tokens d0 !! id = Some t →
    ∃ u, db_enrollment_tokens d !! id = Some u ∧ same_token t u.

Definition emails_unique (d : DB) : Prop :=
  ∀ k1 k2 u1 u2, db_users d !! k1 = Some u1 → db_users d !! k2 = Some u2 →
    user_email u1 = user_email u2 → k1 = k2.

#[export] Instance same_session_preorder : PreOrder same_session.
Proof.
  split.
  - intros r. by destruct r.
  - intros r s t [Es Hs] [Et Ht]. split; [|by auto]. rewrite Et, Es. done.
Qed.

#[export] Instance same_token_preorder : PreOrder same_token.
Proof.
  split.
  - intros t. by destruct t.
  - intros t u v (Eu & ? & ?) (Ev & ? & ?). split; [|by auto]. rewrite Ev, Eu. done.
Qed.

#[export] Instance session_hashes_unique_kept : Kept session_hashes_unique.
Proof.
  intros d d' Hs HU. destruct Hs; try exact HU.
  1,2,3,4: unfold session_hashes_unique; frame_rewrite db_refresh_sessions; exact HU.
  - by apply (values_unique_new rs_token_hash).
  - eapply (values_unique_change rs_token_hash); [done..|]. by destruct H0 as [-> _].
Qed.

#[export] Instance sessions_evolve_kept d0 : Kept (sessions_evolve d0).
Proof.
  intros d d' Hs HE. destruct Hs; try exact HE.
  1,2,3,4: unfold sessions_evolve; frame_rewrite db_refresh_sessions; exact HE.
  - by apply (rows_evolve_new _ same_session).
  - by eapply (rows_evolve_change _ same_session).
Qed.

#[export] Instance token_hashes_unique_kept : Kept token_hashes_unique.
Proof.
  intros d d' Hs HU. destruct Hs; try exact HU.
  1,2,3,4: unfold token_hashes_unique; frame_rewrite db_enrollment_tokens; exact HU.
  - by apply (values_unique_new et_token_hash).
  - eapply (values_unique_change et_token_hash); [done..|]. by destruct H0 as [-> _].
Qed.

#[export] Instance tokens_evolve_kept d0 : Kept (tokens_evolve d0).
Proof.
  intros d d' Hs HE. destruct Hs; try exact HE.
  1,2,3,4: unfold tokens_evolve; frame_rewrite db_enrollment_tokens; exact HE.
  - by apply (rows_evolve_new _ same_token).
  - by eapply (rows_evolve_change _ same_token).
Qed.

#[export] Instance emails_unique_kept : Kept emails_unique.
Proof.
  intros d d' Hs HU. destruct Hs; try exact HU.
  1,2,3,4: unfold emails_unique; frame_rewrite db_users; exact HU.
  - by apply (values_unique_new user_email).
  - eapply (values_unique_change user_email); [done..|]. by destruct H0 as [-> _].
Qed.

(** ** The secrets of an application have different names *)

Definition secret_keys_unique (d : DB) : Prop :=
  ∀ k1 k2 s1 s2, db_secret_records d !! k1 = Some s1 → db_secret_records d !! k2 = Some s2 →
    is_Some (sec_application_id s1) → sec_application_id s1 = sec_application_id s2 → sec_key s1 = sec_key s2 →
    k1 = k2.

#[export] Instance secret_keys_unique_kept : Kept secret_keys_unique.
Proof.
  intros d d' Hs HU. destruct Hs; try exact HU.
  1,2,3,4: unfold secret_keys_unique; frame_rewrite db_secret_records; exact HU.
  - intros k1 k2 s1 s2 L1 L2 Ha E Ek. simpl in *.
    apply lookup_insert_Some in L1 as [[<- <-]|[N1 L1]], L2 as [[<- <-]|[N2 L2]]; [done|..|by eapply HU].
    + by destruct (H0 k2 s2 L2).
    + by destruct (H0 k1 s1 L1).
  - intros k1 k2 s1 s2 H1 H2 Ha E Ek. simpl in *. rewrite H0 in *.
    apply lookup_insert_Some in H1 as [[<- <-]|[N1 H1]], H2 as [[<- <-]|[N2 H2]]; [done|..|by eapply HU].
    + by apply (HU _ _ s s2).
    + by apply (HU _ _ s1 s).
  - intros k1 k2 s1 s2 H1 H2. simpl in *. apply lookup_delete_Some in H1 as [_ H1], H2 as [_ H2]. by apply HU.
Qed.

(** ** Text fits its column *)

(** A row replaced by one that fits, as the row before it did. *)
Lemma rows_fit_change {R} (P : R → Prop) (m : gmap uuid R) id r s :
  map_Forall (λ _, P) m → m !! id = Some r → (P r → P s) → map_Forall (λ _, P) (<[id := s]> m).
Proof. intros Hm Hr Hs. apply map_Forall_insert_2; [|done]. by apply Hs, (Hm id). Qed.

Lemma same_application_fits a b : same_application a b → application_fits a → application_fits b.
Proof.
  intros (Es & _ & Hn) [Ha1 Ha2]. unfold application_fits. rewrite <-Es. split; [|done].
  destruct (decide (app_name a = app_name b)) as [<-|]; [done|by apply Hn].
Qed.

#[export] Instance texts_fit_kept : Kept texts_fit.
Proof.
  intros d d' Hs (Hu & Hv & Ha & Hi & Hc & Hx). unfold texts_fit. destruct Hs; simpl; try done.
  1,2,4: unfold settings_fit; frame_rewrite db_users; frame_rewrite db_servers; frame_rewrite db_applications;
    frame_rewrite db_instances; frame_rewrite db_secret_records; frame_rewrite db_sources;
    frame_rewrite db_health_checks; frame_rewrite db_domains; done.
  - frame_rewrite db_users; frame_rewrite db_servers; frame_rewrite db_applications;
    frame_rewrite db_instances; frame_rewrite db_secret_records. split_and!; auto.
  - split_and!; try done. by apply map_Forall_insert_2.
  - split_and!; try done. by eapply rows_fit_change.
  - split_and!; try done. eapply rows_fit_change; [done..|]. unfold instance_fits.
    destruct H0 as (_ & _ & _ & _ & _ & -> & _). done.
  - split_and!; try done.
    + intros k b Hb. apply delete_release_application in Hb as (a & Hk & Hs). by eapply same_application_fits, Ha.
    + intros k j Hj. apply delete_release_instance_Some in Hj as (i & Hk & _ & _ & _ & _ & Es & _).
      unfold instance_fits. rewrite Es. by apply (Hi k).
  - split_and!; try done. by apply map_Forall_insert_2.
  - split_and!; try done. eapply rows_fit_change; [done..|]. by apply same_application_fits.
  - split_and!; try done. by apply map_Forall_insert_2.
  - split_and!; try done. eapply rows_fit_change; [done..|]. unfold user_fits. by destruct H0 as [-> _].
  - split_and!; try done. by apply map_Forall_insert_2.
  - split_and!; try done. by apply map_Forall_insert_2.
  - split_and!; try done. eapply rows_fit_change; [done..|]. unfold secret_fits. by rewrite H0.
  - split_and!; try done. by apply map_Forall_delete.
Qed.
