(* ===== verification/LockService.v ===== *)
(** The per-application operation lock: services/control-plane/app/services/lock_service.py. *)

From S2P Require Import Prelude Python Schema Session Hoare Protocol.
Local Open Scope Z_scope.

Definition STALE_LOCK_AFTER : Z := minutes 20.

(** [operation_lock IS NULL OR operation_lock_acquired_at < cutoff]: a NULL
    timestamp does not satisfy the comparison. *)
Definition lock_available (cutoff : Z) (a : Application) : bool :=
  (bool_decide (app_operation_lock a = None)
   || match app_operation_lock_acquired_at a with
      | Some t => t <? cutoff
      | None => false
      end)%bool.

(** [UPDATE applications SET ... WHERE id = ... AND cond]: returns the row count. *)
Definition update_application_where (application_id : uuid) (cond : Application → bool)
    (f : Application → Application) : M nat :=
  a ← session_get db_applications application_id;
  match a with
  | Some a =>
      if cond a then
        db_modify (λ d, d <| db_applications := <[application_id := f a]> (db_applications d) |>) ;;
        mret 1%nat
      else mret 0%nat
  | None => mret 0%nat
  end.

Definition set_lock (lock : option string) (acquired_at : option Z) (a : Application) : Application :=
  a <| app_operation_lock := lock |> <| app_operation_lock_acquired_at := acquired_at |>.

Definition acquire `{Env} (application_id : uuid) (operation : string) : M Z :=
  now_ ← now;
  let stale_cutoff := now_ - STALE_LOCK_AFTER in
  rowcount ← update_application_where application_id (lock_available stale_cutoff)
               (set_lock (Some operation) (Some now_));
  commit ;;
  if decide (rowcount = 0%nat) then
    current ← session_get db_applications application_id;
    let held_as := match current with
                   | Some a => match app_operation_lock a with
                               | Some op => repr_str op
                               | None => "None"
                               end
                   | None => repr_str "unknown"
                   end in
    raise (OperationLockHeldError
             ("a " +:+ held_as +:+ " operation is already in progress for this application"))
  else mret now_.

Definition release (application_id : uuid) (acquired_at : Z) : M unit :=
  update_application_where application_id
    (λ a, bool_decide (app_operation_lock_acquired_at a = Some acquired_at)) (set_lock None None) ;;
  commit.

Definition force_release (application_id : uuid) : M unit :=
  update_application_where application_id (λ _, true) (set_lock None None) ;;
  commit.

(** ** What the lock service leaves alone *)

Lemma hoare_update_application_where (I : invariant) id cond f :
  (∀ d a, I d → db_applications d !! id = Some a → cond a = true →
     I (d <| db_applications := <[id := f a]> (db_applications d) |>)) →
  keeps I (update_application_where id cond f).
Proof.
  intros Hf w Hw. unfold update_application_where, session_get, query, db_modify, require_active, mbind, st_bind.
  simpl. destruct (w_active w) eqn:Ha; simpl; [|done].
  destruct (db_applications (w_db w) !! id) as [a|] eqn:E; [|done].
  destruct (cond a) eqn:Ec; simpl; [|done]. rewrite Ha. simpl. split; [|done].
  destruct Hw as (?&?&?). split; [by apply Hf|done].
Qed.

Lemma keeps_update_application_where (I : invariant) `{!Stable I} id cond f :
  (∀ a, same_application a (f a)) → keeps I (update_application_where id cond f).
Proof.
  intros Hf. apply hoare_update_application_where. intros d a Hd Ha _.
  eapply stable; [by eapply step_application_change|done].
Qed.

#[export] Hint Extern 1 (hoare _ (update_application_where _ _ _) _) =>
  apply keeps_update_application_where; first [apply _|intros; done] : keeps.

Lemma keeps_acquire `{Env} I `{!Stable I} id op : keeps I (acquire id op).
Proof. unfold acquire. keeps_auto. Qed.

Lemma keeps_release I `{!Stable I} id t : keeps I (release id t).
Proof. unfold release. keeps_auto. Qed.

Lemma keeps_force_release I `{!Stable I} id : keeps I (force_release id).
Proof. unfold force_release. keeps_auto. Qed.

#[export] Hint Resolve keeps_acquire keeps_release keeps_force_release : keeps.

(** ** Runs of the lock operations *)

(** The lock of an application row: who holds it and since when. *)
Definition lock_of (application_id : uuid) (w : World) : option (option string * option Z) :=
  (λ a, (app_operation_lock a, app_operation_lock_acquired_at a)) <$> db_applications (w_db w) !! application_id.

Lemma update_application_where_run id cond f w :
  ready w →
  update_application_where id cond f w =
  match db_applications (w_db w) !! id with
  | Some a => if cond a
              then (Ok 1%nat, w <| w_db := (w_db w) <| db_applications := <[id := f a]> (db_applications (w_db w)) |> |>)
              else (Ok 0%nat, w)
  | None => (Ok 0%nat, w)
  end.
Proof.
  intros [Ha Hd]. unfold update_application_where, session_get, query, db_modify, require_active, mbind, st_bind.
  simpl. rewrite Ha. simpl. destruct (db_applications (w_db w) !! id) as [a|]; [|done].
  destruct (cond a); [|done]. simpl. by rewrite Ha.
Qed.

(** Giving the lock back fails on an unusable session only. *)
Lemma release_raises id t w e : (release id t w).1 = Raise e → e = PendingRollbackError.
Proof.
  unfold release, update_application_where, session_get, query, db_modify, commit, flush, require_active, mbind, st_bind.
  simpl. destruct (w_active w) eqn:Ha; simpl; [|by intros [= <-]].
  destruct (db_applications (w_db w) !! id) as [a|]; simpl; [|rewrite Ha; simpl; done].
  case_bool_decide; simpl; rewrite Ha; simpl; rewrite ?Ha; simpl; done.
Qed.

(** [release] clears the lock when it still carries the caller's token, and
    does nothing otherwise. *)
Lemma release_run id t w :
  ready w →
  ∃ w', release id t w = (Ok tt, w') ∧ ready w' ∧ w_tick w' = w_tick w ∧ w_committed w' = w_db w' ∧
    lock_of id w' =
      match lock_of id w with
      | Some (op, Some t') => if decide (t' = t) then Some (None, None) else Some (op, Some t')
      | l => l
      end.
Proof.
  intros Hr. unfold release, mbind, st_bind. rewrite (update_application_where_run _ _ _ _ Hr).
  unfold lock_of. destruct (db_applications (w_db w) !! id) as [a|] eqn:E; simpl.
  - destruct (app_operation_lock_acquired_at a) as [t'|] eqn:Et; simpl.
    + case_bool_decide as Hb; simpl.
      * injection Hb as ->. rewrite commit_run by exact Hr. eexists. split; [done|].
        destruct Hr. simpl. rewrite lookup_insert_eq. simpl. rewrite decide_True by done. done.
      * rewrite commit_run by exact Hr. eexists. split; [done|]. destruct Hr. simpl. rewrite E. simpl. rewrite Et.
        rewrite decide_False by congruence. done.
    + rewrite commit_run by exact Hr. eexists. split; [done|].
      destruct Hr. simpl. rewrite E. simpl. by rewrite Et.
  - rewrite commit_run by exact Hr. eexists. split; [done|]. destruct Hr. simpl. by rewrite E.
Qed.

(** [acquire] takes a free or abandoned lock, and refuses otherwise. *)
Lemma acquire_run `{Env} id op w :
  ready w →
  let now_ := env_now (w_tick w) in
  ∃ w', ready w' ∧ w_tick w' = S (w_tick w) ∧ w_committed w' = w_db w' ∧
    match db_applications (w_db w) !! id with
    | Some a =>
        if lock_available (now_ - STALE_LOCK_AFTER) a
        then acquire id op w = (Ok now_, w') ∧ lock_of id w' = Some (Some op, Some now_)
        else (∃ msg, acquire id op w = (Raise (OperationLockHeldError msg), w')) ∧ lock_of id w' = lock_of id w
    | None => (∃ msg, acquire id op w = (Raise (OperationLockHeldError msg), w')) ∧ lock_of id w' = None
    end.
Proof.
  intros Hr now_. subst now_. destruct (acquire id op w) as [r w'] eqn:Eacq. exists w'.
  unfold acquire, now, observe in Eacq. unfold mbind at 1, st_bind at 1 in Eacq. simpl in Eacq.
  set (w1 := w <| w_tick := S (w_tick w) |>) in Eacq. assert (ready w1) as Hr1 by exact Hr.
  unfold mbind, st_bind in Eacq. rewrite (update_application_where_run _ _ _ _ Hr1) in Eacq. simpl in Eacq.
  assert (∀ x e, x = (Raise e, w1 <| w_committed := w_db w1 |>) → x = (r, w') →
            ready w' ∧ w_tick w' = S (w_tick w) ∧ w_committed w' = w_db w' ∧ r = Raise e ∧ lock_of id w' = lock_of id w)
    as Hsame by (intros x e -> [= <- <-]; by destruct Hr).
  destruct (db_applications (w_db w) !! id) as [a|] eqn:E; simpl in Eacq.
  - destruct (lock_available (env_now (w_tick w) - STALE_LOCK_AFTER) a) eqn:El; simpl in Eacq.
    + rewrite commit_run in Eacq by exact Hr1. injection Eacq as <- <-. destruct Hr as [Ha Hd].
      split; [done|]. split; [done|]. split; [done|]. split; [done|].
      unfold lock_of. simpl. by rewrite lookup_insert_eq.
    + rewrite commit_run in Eacq by exact Hr1. unfold session_get, query, require_active, mbind, st_bind in Eacq.
      simpl in Eacq. rewrite (proj1 Hr) in Eacq. eapply Hsame in Eacq as (? & ? & ? & -> & ?); [|done].
      split; [done|]. split; [done|]. split; [done|]. split; [by eexists|done].
  - rewrite commit_run in Eacq by exact Hr1. unfold session_get, query, require_active, mbind, st_bind in Eacq.
    simpl in Eacq. rewrite (proj1 Hr) in Eacq. eapply Hsame in Eacq as (? & ? & ? & -> & Hl); [|done].
    split; [done|]. split; [done|]. split; [done|]. split; [by eexists|].
    rewrite Hl. unfold lock_of. by rewrite E.
Qed.

(** ** Traces of lock operations by any number of clients *)

Inductive LockOp : Type :=
| TryAcquire (operation : string)
| DoRelease (token : Z).

(** Runs a trace; [held] collects the tokens that were handed out and not
    given back yet, newest first. *)
Fixpoint lock_trace `{Env} (application_id : uuid) (ops : list LockOp) (held : list Z) (w : World) : list Z * World :=
  match ops with
  | [] => (held, w)
  | TryAcquire operation :: ops' =>
      match acquire application_id operation w with
      | (Ok token, w') => lock_trace application_id ops' (token :: held) w'
      | (Raise _, w') => lock_trace application_id ops' held w'
      end
  | DoRelease token :: ops' =>
      lock_trace application_id ops' (List.filter (λ t, negb (t =? token)) held) (release application_id token w).2
  end.

(** Tokens were handed out in the past, and each is the lock's, or was stale
    when another took over. *)
Definition lease_inv `{Env} (id : uuid) (held : list Z) (w : World) : Prop :=
  ready w ∧ ∃ now_, (∀ t, (w_tick w ≤ t)%nat → now_ < env_now t) ∧ NoDup held ∧
    ∀ t, t ∈ held → t ≤ now_ ∧
      ((∃ op, lock_of id w = Some (Some op, Some t)) ∨ t + STALE_LOCK_AFTER < now_).

Lemma lease_inv_release `{Env} id token held w :
  lease_inv id held w → lease_inv id (List.filter (λ t, negb (t =? token)) held) (release id token w).2.
Proof.
  intros (Hr & now_ & Hclock & Hnd & Hheld).
  destruct (release_run id token w Hr) as (w' & -> & Hr' & Htick & _ & Hlock). simpl.
  split; [done|]. exists now_. rewrite Htick. split; [done|]. split; [by apply NoDup_ListNoDup, List.NoDup_filter, NoDup_ListNoDup|].
  intros t Ht. apply list_elem_of_In, filter_In in Ht as [Ht Hne]. apply list_elem_of_In in Ht.
  destruct (Hheld t Ht) as [? [[op Hop]|?]]; [|by split; [|right]]. split; [done|left]. exists op.
  rewrite Hlock, Hop. rewrite decide_False; [done|]. apply negb_true_iff, Z.eqb_neq in Hne. done.
Qed.

Lemma lease_inv_acquire `{Env} id op held w :
  (∀ t t', (t < t')%nat → env_now t < env_now t') → lease_inv id held w →
  match acquire id op w with
  | (Ok token, w') => lease_inv id (token :: held) w'
  | (Raise _, w') => lease_inv id held w'
  end.
Proof.
  intros Hmono (Hr & now_ & Hclock & Hnd & Hheld).
  destruct (acquire_run id op w Hr) as (w' & Hr' & Htick & _ & Hcase).
  set (t0 := env_now (w_tick w)) in *. assert (now_ < t0) as Hlt by (apply Hclock; lia).
  assert (∀ t, (w_tick w' ≤ t)%nat → t0 < env_now t) as Hclock' by (intros t Ht; apply Hmono; lia).
  destruct (db_applications (w_db w) !! id) as [a|] eqn:Ea.
  - destruct (lock_available (t0 - STALE_LOCK_AFTER) a) eqn:El.
    + destruct Hcase as [-> Hlock]. split; [done|]. exists t0. split; [done|]. split.
      { apply NoDup_cons. split; [|done]. intros Hin. destruct (Hheld t0 Hin). lia. }
      intros t [->|Ht]%elem_of_cons; [split; [lia|left; by exists op]|].
      destruct (Hheld t Ht) as [? [[op' Hop]|?]]; (split; [lia|right]); [|lia].
      unfold lock_of in Hop. rewrite Ea in Hop. injection Hop as E1 E2.
      unfold lock_available in El. rewrite E1, E2 in El. simpl in El. lia.
    + destruct Hcase as [[msg ->] Hlock]. split; [done|]. exists t0. split; [done|]. split; [done|].
      intros t Ht. destruct (Hheld t Ht) as [? [[op' Hop]|?]]; (split; [lia|]); [left; exists op'; congruence|right; lia].
  - destruct Hcase as [[msg ->] Hlock]. split; [done|]. exists t0. split; [done|]. split; [done|].
    intros t Ht. destruct (Hheld t Ht) as [? [[op' Hop]|?]]; (split; [lia|right]); [|lia].
    unfold lock_of in Hop. by rewrite Ea in Hop.
Qed.

Lemma lease_inv_trace `{Env} id ops held w :
  (∀ t t', (t < t')%nat → env_now t < env_now t') → lease_inv id held w →
  lease_inv id (lock_trace id ops held w).1 (lock_trace id ops held w).2.
Proof.
  intros Hmono. revert held w. induction ops as [|[op|token] ops IH]; intros held w Hinv; simpl; [done|..].
  - pose proof (lease_inv_acquire id op held w Hmono Hinv) as Hstep.
    destruct (acquire id op w) as [[t|e] w']; by apply IH.
  - by apply IH, lease_inv_release.
Qed.

(** C11. Mutual exclusion. Over any interleaving of acquisitions and releases by
    any clients, with a clock that moves forward, the tokens that have been
    handed out and not given back are all different, and at most one of them is
    within its lease: a second holder exists only when the first has held the
    lock for more than [STALE_LOCK_AFTER]. In particular a holder whose lock
    was taken over cannot free the lock of its successor. *)
Theorem at_most_one_lock_holder `{Env} application_id ops w held w' :
  (∀ t t', (t < t')%nat → env_now t < env_now t') → ready w →
  lock_trace application_id ops [] w = (held, w') →
  NoDup held ∧
  ∀ t1 t2, t1 ∈ held → t2 ∈ held →
    env_now (w_tick w') - STALE_LOCK_AFTER ≤ t1 → env_now (w_tick w') - STALE_LOCK_AFTER ≤ t2 → t1 = t2.
Proof.
  intros Hmono Hr Htrace.
  assert (lease_inv application_id [] w) as Hinit.
  { split; [done|]. exists (env_now (w_tick w) - 1). split.
    - intros t Ht. destruct (decide (t = w_tick w)) as [->|]; [lia|].
      assert (env_now (w_tick w) < env_now t) by (apply Hmono; lia). lia.
    - split; [apply NoDup_nil_2|]. intros t Ht. by apply elem_of_nil in Ht. }
  apply (lease_inv_trace application_id ops) in Hinit; [|done]. rewrite Htrace in Hinit. simpl in Hinit.
  destruct Hinit as (_ & now_ & Hclock & Hnd & Hheld). split; [done|].
  intros t1 t2 H1 H2 L1 L2. specialize (Hclock (w_tick w') (le_n _)).
  destruct (Hheld t1 H1) as [_ [[op1 E1]|?]]; [|lia]. destruct (Hheld t2 H2) as [_ [[op2 E2]|?]]; [|lia].
  rewrite E1 in E2. by injection E2.
Qed.
