(* ===== verification/CommandService.v ===== *)
(** Agent commands: services/control-plane/app/services/command_service.py,
    app/ws/connection_manager.py, app/ws/protocol.py, app/api/routes/ws.py and
    the message handlers of app/services/agent_service.py.

    While [submit_command] and [submit_command_and_wait] await, the messages
    that [Env] delivers are handled by the WebSocket routes of the agents they
    come from, each on a session of its own. *)

From S2P Require Import Prelude Python Enums StateMachines Schema Session Hoare Repositories.
From S2P Require Import Protocol.
Local Open Scope Z_scope.

Definition DEFAULT_COMMAND_TTL_SECONDS : Z := 120.

Definition TERMINAL_STATUSES : list agent_command_status :=
  [AgentCommandStatus.SUCCEEDED; AgentCommandStatus.FAILED; AgentCommandStatus.TIMED_OUT].

(** ** ConnectionManager *)

Definition connection_register (agent_id : uuid) (websocket : N) : M unit :=
  modify (λ w, w <| w_connections := <[agent_id := websocket]> (w_connections w) |>).

Definition connection_unregister (agent_id : uuid) : M unit :=
  modify (λ w, w <| w_connections := delete agent_id (w_connections w) |>).

Definition connection_get (agent_id : uuid) : M (option N) := gets (λ w, w_connections w !! agent_id).

(** ** Waiters *)

Definition _register_waiter (command_id : uuid) : M unit :=
  modify (λ w, w <| w_waiters := <[command_id := false]> (w_waiters w) |>).

Definition _signal_waiter (command_id : uuid) : M unit :=
  modify (λ w, w <| w_waiters := alter (λ _, true) command_id (w_waiters w) |>).

Definition pop_waiter (command_id : uuid) : M unit :=
  modify (λ w, w <| w_waiters := delete command_id (w_waiters w) |>).

(** ** Envelopes *)

Definition PROTOCOL_VERSION : string := "1.0".

Definition opt_json {A} (f : A → json) (o : option A) : json :=
  match o with
  | Some a => f a
  | None => JNull
  end.

Definition make_envelope `{Env} (message_type : string) (payload : json) : M json :=
  message_id ← uuid4;
  timestamp ← now;
  mret (JObj [ ("protocol_version", JStr PROTOCOL_VERSION);
               ("message_id", JStr (str_uuid message_id));
               ("type", JStr message_type);
               ("timestamp", JStr (isoformat timestamp));
               ("payload", payload) ]).

Definition _command_envelope_payload (command_id : uuid) (command : AgentCommand) : json :=
  JObj [ ("command_id", JStr (str_uuid command_id));
         ("idempotency_key", JStr (cmd_idempotency_key command));
         ("type", JStr (agent_command_type_value (cmd_command_type command)));
         ("payload", cmd_payload command);
         ("created_at", JStr (isoformat (cmd_created_at command)));
         ("expires_at", opt_json (JStr ∘ isoformat) (cmd_expires_at command));
         ("correlation_id", opt_json (JStr ∘ str_uuid) (cmd_correlation_id command)) ].

(** [websocket.send_json(...)]; sending to a peer that is gone raises. *)
Definition send_json `{Env} (websocket : N) (message : json) : M unit :=
  ok ← observe env_send_ok;
  if ok : bool then modify (λ w, w <| w_wire := w_wire w ++ [(websocket, message)] |>)
  else raise WebSocketDisconnect.

(** ** Events reported by agents *)

Definition add_command_event (e : AgentCommandEvent) : M unit :=
  db_modify (λ d, d <| db_agent_command_events := db_agent_command_events d ++ [e] |>).

Definition record_event (command : uuid) (status : agent_command_status) (result error : json)
    (occurred_at : Z) : M unit :=
  c ← row db_agent_commands command;
  AgentCommandRepository_transition command (cmd_status c) status ;;
  when (match result with JNull => false | _ => true end)
    (assign db_agent_commands command (λ c, c <| cmd_result := Some result |>)) ;;
  when (match error with JNull => false | _ => true end)
    (e ← opt_text_value error; assign db_agent_commands command (λ c, c <| cmd_error := e |>)) ;;
  add_command_event
    {| ev_command_id := command; ev_status := status;
       ev_detail := match result with
                    | JNull => if truthy error then Some (JObj [("error", error)]) else None
                    | _ => Some (JObj [("result", result)])
                    end;
       ev_occurred_at := occurred_at |} ;;
  flush ;;
  when (bool_decide (status ∈ TERMINAL_STATUSES)) (_signal_waiter command).

(** [AgentCommandStatus(status_value) if status_value else None], [ValueError]
    included; [status_value] other than a string matches no member. *)
Definition parse_command_status (v : json) : option agent_command_status :=
  match v with
  | JStr s => if truthy v then agent_command_status_of_value s else None
  | _ => None
  end.

Definition _handle_command_event `{Env} (agent : uuid) (payload : json) : M unit :=
  p ← as_dict payload;
  let command_id_raw := dict_get p "command_id" JNull in
  if negb (truthy command_id_raw) then mret tt else
  match command_id_raw with
  | JStr s =>
      match uuid_of_string s with
      | None => mret tt
      | Some command_id =>
          command ← session_get db_agent_commands command_id;
          match command with
          | None => mret tt
          | Some c =>
              if negb (bool_decide (cmd_agent_id c = agent)) then mret tt else
              match parse_command_status (dict_get p "status" JNull) with
              | None => mret tt
              | Some new_status =>
                  let occurred_at_raw := dict_get p "occurred_at" JNull in
                  occurred_at ←
                    (if truthy occurred_at_raw then
                       match occurred_at_raw with
                       | JStr o => match env_fromisoformat o with
                                   | Some t => mret t
                                   | None => raise (ValueError "Invalid isoformat string")
                                   end
                       | _ => raise TypeError
                       end
                     else now);
                  record_event command_id new_status (dict_get p "result" JNull)
                    (dict_get p "error" JNull) occurred_at
              end
          end
      end
  | _ => raise AttributeError
  end.

(** ** agent_service: hello and heartbeat *)

Definition apply_hello `{Env} (agent : uuid) (payload : json) : M unit :=
  match env_validate_hello payload with
  | None => raise ValidationError
  | Some hello =>
      assign db_agents agent (λ a,
        a <| ag_agent_version := hello_agent_version hello |>
          <| ag_capabilities := Some (JObj [ ("os", JStr (hello_os hello)); ("arch", JStr (hello_arch hello));
                                             ("adapters", JArr (map JStr (hello_adapters hello))) ]) |>) ;;
      flush
  end.

Definition apply_heartbeat `{Env} (agent : uuid) (payload : json) : M unit :=
  match env_validate_heartbeat payload with
  | None => raise ValidationError
  | Some (cpu, memory, disk) =>
      now_ ← now;
      assign db_agents agent (λ a, a <| ag_last_seen_at := Some now_ |>) ;;
      a ← row db_agents agent;
      db_modify (λ d, d <| db_metrics_snapshots := db_metrics_snapshots d ++
        [ {| ms_server_id := ag_server_id a; ms_cpu_percent := cpu; ms_memory_percent := memory;
             ms_disk_percent := disk; ms_recorded_at := now_ |} ] |>) ;;
      flush
  end.

(** ** The agent's WebSocket route (ws.py) *)

Definition _handle_message `{Env} (agent : uuid) (message : json) : M unit :=
  m ← as_dict message;
  let payload := dict_get m "payload" (JObj []) in
  match dict_get m "type" JNull with
  | JStr message_type =>
      if decide (message_type = "agent.hello") then apply_hello agent payload
      else if decide (message_type = "agent.heartbeat") then apply_heartbeat agent payload
      else if decide (message_type = "agent.command_event") then _handle_command_event agent payload
      else mret tt
  | _ => mret tt
  end.

Definition deliver_pending_commands `{Env} (agent : uuid) : M unit :=
  websocket ← connection_get agent;
  match websocket with
  | None => mret tt
  | Some websocket =>
      commands ← list_pending_for_agent agent;
      for_each commands (λ '(id, c),
        envelope ← make_envelope "control.command" (_command_envelope_payload id c);
        send_json websocket envelope ;;
        AgentCommandRepository_transition id (cmd_status c) AgentCommandStatus.SENT)
  end.

(** The part of [agent_socket] before its loop, for an agent that presented
    its credential. *)
Definition agent_socket_open `{Env} (agent : uuid) (websocket : N) (remote_addr : option string) : M unit :=
  connection_register agent websocket ;;
  now_ ← now;
  assign db_agents agent (λ a, a <| ag_status := AgentStatus.CONNECTED |> <| ag_last_seen_at := Some now_ |>) ;;
  insert_row db_agent_connections
    {| ac_agent_id := agent; ac_connected_at := now_; ac_disconnected_at := None;
       ac_remote_addr := remote_addr |} ;;
  commit ;;
  deliver_pending_commands agent ;;
  commit.

(** The [finally] of [agent_socket]. *)
Definition agent_socket_close `{Env} (agent : uuid) : M unit :=
  connection_unregister agent ;;
  agent_row ← session_get db_agents agent;
  when (bool_decide (is_Some agent_row))
    (assign db_agents agent (λ a, a <| ag_status := AgentStatus.DISCONNECTED |>)) ;;
  open_connection ← query (λ d, first (order_by_desc (λ kv, ac_connected_at kv.2)
    (select db_agent_connections (λ c, (bool_decide (ac_agent_id c = agent)
                                        && bool_decide (ac_disconnected_at c = None))%bool) d)));
  match open_connection with
  | Some (id, _) =>
      now_ ← now;
      assign db_agent_connections id (λ c, c <| ac_disconnected_at := Some now_ |>)
  | None => mret tt
  end ;;
  commit.

(** One turn of the loop of [agent_socket]; an exception of the handler ends
    the loop through the [finally]. *)
Definition agent_socket_message `{Env} (agent : uuid) (message : json) : M unit :=
  try_except (_handle_message agent message ;; commit)
    (λ e, agent_socket_close agent ;; raise e).

(** ** The sweep of overdue commands *)

Definition overdue_statuses : list agent_command_status :=
  [AgentCommandStatus.PENDING; AgentCommandStatus.SENT; AgentCommandStatus.ACKNOWLEDGED;
   AgentCommandStatus.RUNNING].

Definition overdue (now_ : Z) (c : AgentCommand) : bool :=
  (bool_decide (cmd_status c ∈ overdue_statuses)
   && match cmd_expires_at c with
      | Some t => t <? now_
      | None => false
      end)%bool.

Definition expire_overdue_commands (now_ : Z) : M nat :=
  commands ← query (select db_agent_commands (overdue now_));
  for_each commands (λ '(id, c),
    let target := if decide (cmd_status c = AgentCommandStatus.PENDING) then AgentCommandStatus.EXPIRED
                  else AgentCommandStatus.TIMED_OUT in
    AgentCommandRepository_transition id (cmd_status c) target ;;
    add_command_event {| ev_command_id := id; ev_status := target; ev_detail := None;
                         ev_occurred_at := now_ |}) ;;
  flush ;;
  mret (length commands).

(** ** Interleaving *)

Definition handle_incoming `{Env} (i : Incoming) : M unit :=
  match i with
  | AgentConnects agent websocket remote_addr =>
      other_session (agent_socket_open agent websocket remote_addr)
  | AgentSends agent message =>
      other_session (agent_socket_message agent message)
  | AgentDisconnects agent => other_session (agent_socket_close agent)
  | CommandSweep => other_session (now_ ← now; expire_overdue_commands now_ ;; mret tt)
  end.

(** An [await] that lets other tasks run. *)
Definition yield_to_tasks `{Env} : M unit :=
  incoming ← observe env_incoming; for_each incoming handle_incoming.

(** [asyncio.wait_for(event.wait(), ...)]: other tasks run until one sets the
    event, or until the timeout. *)
Fixpoint wait_for_event `{Env} (command : uuid) (incoming : list Incoming) : M unit :=
  signalled ← gets (λ w, default false (w_waiters w !! command));
  if signalled : bool then mret tt else
  match incoming with
  | [] => mret tt
  | i :: incoming' => handle_incoming i ;; wait_for_event command incoming'
  end.

(** ** Submitting *)

Definition submit_command `{Env} (agent : uuid) (command_type : agent_command_type) (payload : json)
    (idempotency_key : string) (correlation_id : option uuid) (ttl_seconds : Z)
    (_before_send : uuid → M unit) : M uuid :=
  existing ← get_by_idempotency_key idempotency_key;
  match existing with
  | Some (id, _) => mret id
  | None =>
      now_ ← now;
      row db_agents agent ;;
      created_at ← now;
      command ← insert_row db_agent_commands
        {| cmd_agent_id := agent; cmd_command_type := command_type; cmd_payload := payload;
           cmd_idempotency_key := idempotency_key; cmd_status := AgentCommandStatus.PENDING;
           cmd_correlation_id := correlation_id; cmd_expires_at := Some (now_ + seconds ttl_seconds);
           cmd_result := None; cmd_error := None; cmd_created_at := created_at |};
      commit ;;
      _before_send command ;;
      websocket ← connection_get agent;
      match websocket with
      | Some websocket =>
          c ← row db_agent_commands command;
          envelope ← make_envelope "control.command" (_command_envelope_payload command c);
          send_json websocket envelope ;;
          yield_to_tasks ;;
          AgentCommandRepository_transition command (cmd_status c) AgentCommandStatus.SENT ;;
          commit
      | None => mret tt
      end ;;
      mret command
  end.

(** [registered] holds an event exactly when no command had the key before.
    How long the wait lasts is [env_incoming]'s choice. *)
Definition submit_command_and_wait `{Env} (agent : uuid) (command_type : agent_command_type) (payload : json)
    (idempotency_key : string) (correlation_id : option uuid) (ttl_seconds : Z) : M uuid :=
  hit ← get_by_idempotency_key idempotency_key;
  command ← submit_command agent command_type payload idempotency_key correlation_id ttl_seconds
              _register_waiter;
  c ← row db_agent_commands command;
  if decide (cmd_status c ∈ TERMINAL_STATUSES) then
    pop_waiter command ;; mret command
  else
    when (bool_decide (is_Some hit)) (_register_waiter command) ;;
    incoming ← observe env_incoming;
    try_finally (wait_for_event command incoming) (pop_waiter command) ;;
    mret command.

(** ** What the command service leaves alone

    Everything in this file writes only the agents' tables, so it keeps every
    predicate that does not read them. *)

Section keeps.
Context `{Env} (I : invariant) `{!AgentStable I}.

Lemma keeps_command_transition id s t : keeps I (AgentCommandRepository_transition id s t).
Proof. unfold AgentCommandRepository_transition, require_transition. keeps_auto. Qed.

Lemma keeps_record_event c s r e t : keeps I (record_event c s r e t).
Proof. unfold record_event, _signal_waiter, add_command_event. pose proof keeps_command_transition. keeps_auto. Qed.

Lemma keeps_handle_message agent m : keeps I (_handle_message agent m).
Proof.
  pose proof keeps_record_event.
  unfold _handle_message, _handle_command_event, apply_hello, apply_heartbeat, as_dict. keeps_auto.
Qed.

Lemma keeps_make_envelope t p : keeps I (make_envelope t p).
Proof. unfold make_envelope. keeps_auto. Qed.

Lemma keeps_send_json ws m : keeps I (send_json ws m).
Proof. unfold send_json. keeps_auto. Qed.

Lemma keeps_agent_socket_open a ws r : keeps I (agent_socket_open a ws r).
Proof.
  pose proof keeps_command_transition. pose proof keeps_make_envelope. pose proof keeps_send_json.
  unfold agent_socket_open, deliver_pending_commands, connection_register, connection_get,
    list_pending_for_agent. keeps_auto.
Qed.

Lemma keeps_agent_socket_close a : keeps I (agent_socket_close a).
Proof. unfold agent_socket_close, connection_unregister. keeps_auto. Qed.

Lemma keeps_expire_overdue_commands t : keeps I (expire_overdue_commands t).
Proof. unfold expire_overdue_commands, add_command_event. pose proof keeps_command_transition. keeps_auto. Qed.

Lemma keeps_handle_incoming i : keeps I (handle_incoming i).
Proof.
  pose proof keeps_agent_socket_open. pose proof keeps_agent_socket_close.
  pose proof keeps_handle_message. pose proof keeps_expire_overdue_commands.
  destruct i; simpl; apply keeps_other_session; unfold agent_socket_message; keeps_auto.
Qed.

Lemma keeps_yield_to_tasks : keeps I yield_to_tasks.
Proof. unfold yield_to_tasks. pose proof keeps_handle_incoming. keeps_auto. Qed.

Lemma keeps_wait_for_event c l : keeps I (wait_for_event c l).
Proof. pose proof keeps_handle_incoming. induction l; simpl; keeps_auto. Qed.

Lemma keeps_submit_command a ty p k c t : keeps I (submit_command a ty p k c t _register_waiter).
Proof.
  pose proof keeps_command_transition. pose proof keeps_make_envelope. pose proof keeps_send_json.
  pose proof keeps_yield_to_tasks.
  unfold submit_command, get_by_idempotency_key, _register_waiter, connection_get. keeps_auto.
Qed.

Lemma keeps_submit_command_and_wait a ty p k c t : keeps I (submit_command_and_wait a ty p k c t).
Proof.
  pose proof keeps_submit_command. pose proof keeps_wait_for_event.
  unfold submit_command_and_wait, get_by_idempotency_key, pop_waiter. keeps_auto.
  unfold _register_waiter. keeps_auto.
Qed.

End keeps.

#[export] Hint Resolve keeps_record_event keeps_handle_message keeps_expire_overdue_commands
  keeps_yield_to_tasks keeps_submit_command_and_wait : keeps.
