(* ===== verification/NginxManager.v ===== *)
(** The Gateway Manager: services/gateway-manager/app/services/nginx_manager.py,
    app/api/routes/gateway.py and core/auth.py.

    The state is the managed directory, a map from file names to contents, and
    the history of nginx invocations. [NginxEnv] is what the service cannot
    determine: what nginx answers for a given directory, and where the file
    name of an application resolves to ([Path.resolve] follows links).
    [apply] holds [_apply_lock], so it is one sequence of steps. Errors of the
    file system itself are not modelled. *)

From Stdlib Require Import Ascii.
From S2P Require Import Prelude Python Regex HealerYaml.
Local Open Scope Z_scope.

(** ** State *)

Abbreviation Directory := (gmap string string).

Record NginxRun := {
  run_args : list string;
  run_directory : Directory;          (* the managed directory at that moment *)
  run_ok : bool;
}.

Record GatewayState := {
  gm_files : Directory;
  gm_runs : list NginxRun;            (* newest last *)
}.

#[export] Instance eta_GatewayState : Eta GatewayState := λ r, Build_GatewayState (gm_files r) (gm_runs r).
#[export] Instance upd_gm_files : Upd gm_files := ltac:(solve_upd).
#[export] Instance upd_gm_runs : Upd gm_runs := ltac:(solve_upd).

(** [subprocess.run]: an exit status and the output, or the text of an
    [OSError] or [TimeoutExpired]. *)
Inductive ProcessOutcome : Type :=
| Exited (returncode : Z) (output : string)
| NotRun (text : string).

Class NginxEnv := {
  nginx_outcome : nat → list string → Directory → ProcessOutcome;
  resolves_to : string → option string;   (* the name inside the managed directory, if it stays there *)
  nginx_shared_secret : string;
}.

Inductive gateway_exn : Type :=
| InvalidAppSlug (message : string)
| GatewayHTTPException (status_code : Z) (detail : string).

Abbreviation G := (ST GatewayState gateway_exn).

(** ** Slugs and paths *)

(** [^[a-z0-9][a-z0-9-]{0,62}$] *)
Definition is_slug_head (c : ascii) : bool := (is_lower c || is_digit c)%bool.
Definition is_slug_tail (c : ascii) : bool := (is_slug_head c || Ascii.eqb c "-")%bool.
Definition _SLUG_RE : regex := Seq (Cls is_slug_head) (upto 62 (Cls is_slug_tail)).

Definition _managed_path `{NginxEnv} (app_slug : string) : G string :=
  if negb (match_dollar _SLUG_RE app_slug) then raise (InvalidAppSlug ("invalid app_slug " +:+ repr_str app_slug)) else
  match resolves_to (app_slug +:+ ".conf") with
  | Some path => mret path
  | None => raise (InvalidAppSlug "resolved path escapes the managed directory")
  end.

(** ** Requests (gateway.py) *)

Record DomainSpec := {
  ds_hostname : string;
  ds_cert_path : string;
  ds_key_path : string;
}.

Record UpstreamTarget := {
  ut_host : string;
  ut_port : Z;
}.

Record ReloadRequest := {
  rr_app_slug : string;
  rr_domains : list DomainSpec;
  rr_upstreams : list UpstreamTarget;
}.

(** [^[A-Za-z0-9][A-Za-z0-9.-]*$] *)
Definition is_host_char (c : ascii) : bool := (is_alnum c || is_one_of ".-" c)%bool.
Definition _HOST_RE : regex := Seq (Cls is_alnum) (Star (Cls is_host_char)).

Definition valid_domain_spec (d : DomainSpec) : bool :=
  (length_between 1 255 (ds_hostname d) && fullmatch _HOSTNAME_RE (ds_hostname d)
   && length_between 1 1000 (ds_cert_path d) && fullmatch _UNIX_PATH_RE (ds_cert_path d)
   && length_between 1 1000 (ds_key_path d) && fullmatch _UNIX_PATH_RE (ds_key_path d)
   && negb (has_traversal (ds_cert_path d)) && negb (has_traversal (ds_key_path d)))%bool.

Definition valid_upstream_target (u : UpstreamTarget) : bool :=
  (length_between 1 255 (ut_host u) && fullmatch _HOST_RE (ut_host u) && int_between 1 65535 (ut_port u))%bool.

Definition valid_reload_request (r : ReloadRequest) : bool :=
  (length_between 1 63 (rr_app_slug r) && forallb valid_domain_spec (rr_domains r)
   && forallb valid_upstream_target (rr_upstreams r))%bool.

(** ** Rendering (templates/app.conf.j2) *)

Definition nl : string := String newline EmptyString.
Definition quote : string := String (Ascii.ascii_of_nat 34) EmptyString.

Definition lines (l : list string) : string := foldr (λ s acc, s +:+ nl +:+ acc) EmptyString l.

Definition concat_map {A} (f : A → string) (l : list A) : string := foldr (λ x acc, f x +:+ acc) EmptyString l.

Definition upstream_line (u : UpstreamTarget) : string :=
  "    server " +:+ ut_host u +:+ ":" +:+ str_int (ut_port u) +:+ ";" +:+ nl.

Definition server_blocks (upstream_name : string) (d : DomainSpec) : string :=
  lines [ "server {";
          "    listen 80;";
          "    server_name " +:+ ds_hostname d +:+ ";";
          "    return 301 https://$host$request_uri;";
          "}";
          EmptyString;
          "server {";
          "    listen 443 ssl;";
          "    server_name " +:+ ds_hostname d +:+ ";";
          EmptyString;
          "    ssl_certificate     " +:+ ds_cert_path d +:+ ";";
          "    ssl_certificate_key " +:+ ds_key_path d +:+ ";";
          EmptyString;
          "    location / {";
          "        proxy_pass http://" +:+ upstream_name +:+ ";";
          "        proxy_http_version 1.1;";
          "        proxy_set_header Connection " +:+ quote +:+ quote +:+ ";";
          "        proxy_set_header Host $host;";
          "        proxy_set_header X-Real-IP $remote_addr;";
          "        proxy_set_header X-Forwarded-For $proxy_add_x_forwarded_for;";
          "        proxy_set_header X-Forwarded-Proto $scheme;";
          "    }";
          "}" ].

Definition template_render (upstream_name : string) (domains : list DomainSpec)
    (upstreams : list UpstreamTarget) : string :=
  lines ["upstream " +:+ upstream_name +:+ " {"; "    least_conn;"]
  +:+ concat_map upstream_line upstreams
  +:+ lines ["    keepalive 32;"; "}"; EmptyString]
  +:+ concat_map (server_blocks upstream_name) domains.

Definition underscore (c : ascii) : ascii := if Ascii.eqb c "-" then "_"%char else c.

Definition render (app_slug : string) (domains : list DomainSpec) (upstreams : list UpstreamTarget) : option string :=
  match domains, upstreams with
  | [], _ | _, [] => None
  | _, _ => Some (template_render ("healer_" +:+ str_map underscore app_slug) domains upstreams)
  end.

(** ** Files and processes *)

Definition _write_or_remove (path : string) (content : option string) : G unit :=
  match content with
  | None => modify (λ s, s <| gm_files := delete path (gm_files s) |>)
  | Some content =>
      let tmp_path := path +:+ ".tmp" in
      modify (λ s, s <| gm_files := <[tmp_path := content]> (gm_files s) |>) ;;
      modify (λ s, s <| gm_files := <[path := content]> (delete tmp_path (gm_files s)) |>)
  end.

Definition _run_nginx `{NginxEnv} (args : list string) : G (bool * string) :=
  files ← gets gm_files;
  t ← gets (length ∘ gm_runs);
  let '(ok, text) := match nginx_outcome t args files with
                     | Exited returncode output => (returncode =? 0, strip output)
                     | NotRun text => (false, text)
                     end in
  modify (λ s, s <| gm_runs := gm_runs s ++ [ {| run_args := args; run_directory := files; run_ok := ok |} ] |>) ;;
  mret (ok, text).

Definition validate `{NginxEnv} : G (bool * string) := _run_nginx ["-t"].
Definition reload_nginx `{NginxEnv} : G (bool * string) := _run_nginx ["-s"; "reload"].

Record ReloadOutcome := {
  ro_ok : bool;
  ro_message : string;
}.

Definition apply `{NginxEnv} (app_slug : string) (domains : list DomainSpec)
    (upstreams : list UpstreamTarget) : G ReloadOutcome :=
  path ← _managed_path app_slug;
  previous_content ← gets (λ s, gm_files s !! path);
  let new_content := render app_slug domains upstreams in
  _write_or_remove path new_content ;;
  '(ok, detail) ← validate;
  if negb ok then
    _write_or_remove path previous_content ;;
    mret {| ro_ok := false;
            ro_message := "nginx -t rejected the new configuration, restored the previous one: " +:+ detail |}
  else
    '(reload_ok, reload_detail) ← reload_nginx;
    if negb reload_ok then
      _write_or_remove path previous_content ;;
      validate ;;
      mret {| ro_ok := false;
              ro_message := "nginx -s reload failed, restored the previous configuration: " +:+ reload_detail |}
    else
      match new_content with
      | None => mret {| ro_ok := true; ro_message := "no active domain/healthy upstream — routing removed" |}
      | Some _ => mret {| ro_ok := true; ro_message := "activated and reloaded" |}
      end.

(** ** The route *)

(** [hmac.compare_digest] of ASCII text; that it refuses any other text with a
    TypeError (a 500 instead of this 401) is left out. *)
Definition require_shared_secret `{NginxEnv} (x_gateway_secret : string) : G unit :=
  if bool_decide (x_gateway_secret = nginx_shared_secret) then mret tt
  else raise (GatewayHTTPException 401 "invalid or missing gateway secret").

(** [POST /reload] with a body that passed validation. *)
Definition reload_gateway `{NginxEnv} (x_gateway_secret : string) (payload : ReloadRequest) : G ReloadOutcome :=
  require_shared_secret x_gateway_secret ;;
  try_except (apply (rr_app_slug payload) (rr_domains payload) (rr_upstreams payload))
    (λ e, match e with
          | InvalidAppSlug message => raise (GatewayHTTPException 400 message)
          | _ => raise e
          end).

(** ** Activation is all or nothing *)

Definition t_run (files : Directory) (ok : bool) : NginxRun :=
  {| run_args := ["-t"]; run_directory := files; run_ok := ok |}.
Definition reload_run (files : Directory) (ok : bool) : NginxRun :=
  {| run_args := ["-s"; "reload"]; run_directory := files; run_ok := ok |}.

(** The directory with the application's file written or removed. *)
Definition with_file (path : string) (content : option string) (files : Directory) : Directory :=
  partial_alter (λ _, content) path files.

Lemma write_or_remove_run path content s :
  gm_files s !! (path +:+ ".tmp") = None →
  _write_or_remove path content s = (Ok tt, s <| gm_files := with_file path content (gm_files s) |>).
Proof.
  intros Htmp. destruct content as [c|]; [|done]. unfold _write_or_remove, mbind, st_bind. simpl.
  unfold modify. simpl. by rewrite delete_insert_id.
Qed.

Lemma with_file_back path content files : with_file path (files !! path) (with_file path content files) = files.
Proof.
  apply map_eq. intros k. unfold with_file. destruct (decide (k = path)) as [->|].
  - by rewrite lookup_partial_alter_eq.
  - by rewrite !lookup_partial_alter_ne.
Qed.

Lemma with_file_tmp path content files :
  files !! (path +:+ ".tmp") = None → with_file path content files !! (path +:+ ".tmp") = None.
Proof.
  intros Htmp. unfold with_file. rewrite lookup_partial_alter_ne; [done|].
  intros E. by apply (string_app_neq path ".tmp").
Qed.

Lemma run_nginx_run `{NginxEnv} args s :
  ∃ ok text, _run_nginx args s =
    (Ok (ok, text), s <| gm_runs := gm_runs s ++ [ {| run_args := args; run_directory := gm_files s; run_ok := ok |} ] |>).
Proof.
  unfold _run_nginx, mbind, st_bind. simpl.
  destruct (nginx_outcome (length (gm_runs s)) args (gm_files s)); by eexists _, _.
Qed.

(** What an activation can do. *)
Lemma apply_run `{NginxEnv} app_slug domains upstreams s :
  (∀ path, resolves_to (app_slug +:+ ".conf") = Some path → gm_files s !! (path +:+ ".tmp") = None) →
  match apply app_slug domains upstreams s with
  | (Raise e, s') => (∃ message, e = InvalidAppSlug message) ∧ s' = s ∧
      (match_dollar _SLUG_RE app_slug = false ∨ resolves_to (app_slug +:+ ".conf") = None)
  | (Ok outcome, s') =>
      ∃ path, resolves_to (app_slug +:+ ".conf") = Some path ∧ match_dollar _SLUG_RE app_slug = true ∧
        let new := with_file path (render app_slug domains upstreams) (gm_files s) in
        if ro_ok outcome then
          gm_files s' = new ∧ gm_runs s' = gm_runs s ++ [t_run new true; reload_run new true]
        else
          gm_files s' = gm_files s ∧
          (gm_runs s' = gm_runs s ++ [t_run new false] ∨
           ∃ ok, gm_runs s' = gm_runs s ++ [t_run new true; reload_run new false; t_run (gm_files s) ok])
  end.
Proof.
  intros Htmp. unfold apply, _managed_path. unfold mbind at 1, st_bind at 1.
  destruct (match_dollar _SLUG_RE app_slug) eqn:Hslug; simpl; [|split; [by eexists|split; [done|by left]]].
  destruct (resolves_to (app_slug +:+ ".conf")) as [path|] eqn:Hpath; simpl;
    [|split; [by eexists|split; [done|by right]]].
  specialize (Htmp path eq_refl). unfold mbind at 1, st_bind at 1. simpl.
  unfold mbind at 1, st_bind at 1. rewrite write_or_remove_run by done.
  set (new := with_file path (render app_slug domains upstreams) (gm_files s)).
  set (s1 := s <| gm_files := new |>).
  assert (∀ runs, _write_or_remove path (gm_files s !! path) (s1 <| gm_runs := runs |>) =
                  (Ok tt, s <| gm_runs := runs |>)) as Hback.
  { intros runs. rewrite write_or_remove_run by by apply with_file_tmp. simpl. unfold new. by rewrite with_file_back. }
  destruct (run_nginx_run ["-t"] s1) as (ok & text & Ht). unfold mbind at 1, st_bind at 1. unfold validate at 1.
  rewrite Ht. destruct ok; simpl.
  2: { unfold mbind, st_bind. rewrite Hback. simpl. exists path. split; [done|]. split; [done|]. split; [done|by left]. }
  match goal with |- context [(reload_nginx ≫= _) ?s2] => destruct (run_nginx_run ["-s"; "reload"] s2)
    as (ok2 & text2 & Hr) end.
  unfold mbind at 1, st_bind at 1. unfold reload_nginx. rewrite Hr. destruct ok2; simpl.
  - destruct (render app_slug domains upstreams); simpl; exists path; by rewrite <-app_assoc.
  - unfold mbind at 1, st_bind at 1.
    match goal with |- context [_write_or_remove path _ ?s3] =>
      replace s3 with (s1 <| gm_runs := gm_runs s3 |>) by done end. rewrite Hback.
    match goal with |- context [(validate ≫= _) ?s4] => destruct (run_nginx_run ["-t"] s4) as (ok3 & text3 & Hv) end.
    unfold mbind, st_bind, validate. rewrite Hv. simpl. exists path. split; [done|]. split; [done|].
    split; [done|right]. exists ok3. by rewrite <-!app_assoc.
Qed.

(** C16. Applying a configuration is all or nothing. A slug that does not match
    or whose file would leave the managed directory changes nothing. Success means that exactly the application's own file was written
    (or removed), that [nginx -t] accepted the resulting directory, and that
    nginx then reloaded that same directory. Failure, of the validation or of
    the reload, means that the directory is byte for byte what it was. *)
Theorem apply_all_or_nothing `{NginxEnv} app_slug domains upstreams s :
  (∀ path, resolves_to (app_slug +:+ ".conf") = Some path → gm_files s !! (path +:+ ".tmp") = None) →
  match apply app_slug domains upstreams s with
  | (Raise e, s') => (∃ message, e = InvalidAppSlug message) ∧ s' = s ∧
      (match_dollar _SLUG_RE app_slug = false ∨ resolves_to (app_slug +:+ ".conf") = None)
  | (Ok outcome, s') =>
      ∃ path, resolves_to (app_slug +:+ ".conf") = Some path ∧ match_dollar _SLUG_RE app_slug = true ∧
        let new := with_file path (render app_slug domains upstreams) (gm_files s) in
        if ro_ok outcome then
          gm_files s' = new ∧ gm_runs s' = gm_runs s ++ [t_run new true; reload_run new true]
        else
          gm_files s' = gm_files s ∧
          (gm_runs s' = gm_runs s ++ [t_run new false] ∨
           ∃ ok, gm_runs s' = gm_runs s ++ [t_run new true; reload_run new false; t_run (gm_files s) ok])
  end.
Proof. apply apply_run. Qed.

(** ** Values cannot add directives *)

Definition count_char (c : ascii) (s : string) : nat :=
  length (List.filter (Ascii.eqb c) (String.list_ascii_of_string s)).

Lemma count_app c a b : count_char c (a +:+ b) = (count_char c a + count_char c b)%nat.
Proof. unfold count_char. by rewrite chars_app, List.filter_app, length_app. Qed.

Lemma count_none c s : (∀ x, x ∈ String.list_ascii_of_string s → x ≠ c) → count_char c s = 0%nat.
Proof.
  unfold count_char. induction (String.list_ascii_of_string s) as [|x l IH]; simpl; intros Hs; [done|].
  destruct (Ascii.eqb_spec c x) as [->|]; [by destruct (Hs x); [left|]|]. apply IH. intros y Hy. apply Hs. by right.
Qed.

Lemma count_concat_map {A} c (f : A → string) n l :
  (∀ x, x ∈ l → count_char c (f x) = n) → count_char c (concat_map f l) = (length l * n)%nat.
Proof.
  induction l as [|x l IH]; intros Hf; [done|]. simpl. rewrite count_app, IH, (Hf x); [lia|left|].
  intros y Hy. apply Hf. by right.
Qed.

(** The characters that structure an nginx configuration. *)
Definition structural (c : ascii) : bool := is_one_of ";{}#" c.

Lemma structural_not_path c : is_path_char c = true → structural c = false.
Proof. destruct c as [[] [] [] [] [] [] [] []]; vm_compute; done. Qed.
Lemma structural_not_host c : is_host_char c = true → structural c = false.
Proof. destruct c as [[] [] [] [] [] [] [] []]; vm_compute; done. Qed.
Lemma structural_not_slug c : (is_slug_tail c || Ascii.eqb c newline)%bool = true → structural (underscore c) = false.
Proof. destruct c as [[] [] [] [] [] [] [] []]; vm_compute; done. Qed.
Lemma structural_not_digit c : dec_digit c = true ∨ c = "-"%char → structural c = false.
Proof. intros [Hd| ->]; [|done]. revert Hd. destruct c as [[] [] [] [] [] [] [] []]; vm_compute; done. Qed.

(** A value whose characters are all of a harmless kind. *)
Lemma count_harmless (ok : ascii → bool) c s :
  structural c = true → (∀ x, ok x = true → structural x = false) →
  Forall (λ x, ok x = true) (String.list_ascii_of_string s) → count_char c s = 0%nat.
Proof.
  intros Hc Hok Hs. apply count_none. intros x Hx ->. rewrite Forall_forall in Hs.
  specialize (Hok c (Hs c Hx)). congruence.
Qed.

Lemma hostname_alphabet c : alphabet _HOSTNAME_RE c = true → is_host_char c = true.
Proof. destruct c as [[] [] [] [] [] [] [] []]; vm_compute; done. Qed.
Lemma host_alphabet c : alphabet _HOST_RE c = true → is_host_char c = true.
Proof. destruct c as [[] [] [] [] [] [] [] []]; vm_compute; done. Qed.
Lemma path_alphabet c : alphabet _UNIX_PATH_RE c = true → is_path_char c = true.
Proof. destruct c as [[] [] [] [] [] [] [] []]; vm_compute; done. Qed.
Lemma slug_alphabet c : alphabet _SLUG_RE c = true → (is_slug_tail c || Ascii.eqb c newline)%bool = true.
Proof. destruct c as [[] [] [] [] [] [] [] []]; vm_compute; done. Qed.

Lemma slug_chars s :
  match_dollar _SLUG_RE s = true →
  Forall (λ c, (is_slug_tail c || Ascii.eqb c newline)%bool = true) (String.list_ascii_of_string s).
Proof.
  unfold match_dollar. rewrite orb_true_iff. intros [Hm|Hm].
  - by eapply fullmatch_alphabet; [apply slug_alphabet|].
  - rewrite <-(rev_involutive (String.list_ascii_of_string s)).
    destruct (rev (String.list_ascii_of_string s)) as [|x l]; [done|]. simpl.
    apply andb_true_iff in Hm as [Hx Hm]. apply Forall_app. split.
    + apply match_list_lang, lang_alphabet in Hm. eapply Forall_impl; [exact Hm|]. apply slug_alphabet.
    + apply Forall_singleton. by rewrite Hx, orb_true_r.
Qed.

Lemma count_upstream_name c slug :
  structural c = true → match_dollar _SLUG_RE slug = true →
  count_char c ("healer_" +:+ str_map underscore slug) = count_char c "healer_".
Proof.
  intros Hc Hm. rewrite count_app. replace (count_char c (str_map underscore slug)) with 0%nat; [lia|].
  symmetry. apply count_none. apply slug_chars in Hm. revert Hm.
  induction slug as [|x s IH]; simpl; intros Hs y Hy; [by apply elem_of_nil in Hy|].
  apply Forall_cons in Hs as [Hx Hs]. apply elem_of_cons in Hy as [-> |Hy]; [|by apply IH].
  intros E. apply structural_not_slug in Hx. congruence.
Qed.

Definition blank_domain : DomainSpec := {| ds_hostname := EmptyString; ds_cert_path := EmptyString; ds_key_path := EmptyString |}.
Definition blank_upstream : UpstreamTarget := {| ut_host := EmptyString; ut_port := 0 |}.

Lemma count_server_blocks c name d :
  structural c = true → valid_domain_spec d = true → count_char c name = count_char c "healer_" →
  count_char c (server_blocks name d) = count_char c (server_blocks "healer_" blank_domain).
Proof.
  intros Hc Hd Hn. unfold valid_domain_spec in Hd. rewrite !andb_true_iff in Hd.
  destruct Hd as [[[[[[[_ Hh] _] Hp1] _] Hp2] _] _].
  assert (count_char c (ds_hostname d) = 0%nat) as E1.
  { eapply count_harmless; [done|apply structural_not_host|]. by eapply fullmatch_alphabet; [apply hostname_alphabet|]. }
  assert (count_char c (ds_cert_path d) = 0%nat) as E2.
  { eapply count_harmless; [done|apply structural_not_path|]. by eapply fullmatch_alphabet; [apply path_alphabet|]. }
  assert (count_char c (ds_key_path d) = 0%nat) as E3.
  { eapply count_harmless; [done|apply structural_not_path|]. by eapply fullmatch_alphabet; [apply path_alphabet|]. }
  unfold server_blocks, lines. cbn [foldr]. rewrite !count_app, E1, E2, E3, Hn. reflexivity.
Qed.

Lemma count_upstream_line c u :
  structural c = true → valid_upstream_target u = true →
  count_char c (upstream_line u) = count_char c (upstream_line blank_upstream).
Proof.
  intros Hc Hu. unfold valid_upstream_target in Hu. rewrite !andb_true_iff in Hu. destruct Hu as [[_ Hh] _].
  assert (count_char c (ut_host u) = 0%nat) as E1.
  { eapply count_harmless; [done|apply structural_not_host|]. by eapply fullmatch_alphabet; [apply host_alphabet|]. }
  assert (∀ z, count_char c (str_int z) = 0%nat) as E2.
  { intros z. apply count_none. intros x Hx ->. apply str_int_chars, structural_not_digit in Hx. congruence. }
  unfold upstream_line. rewrite !count_app, E1, !E2. reflexivity.
Qed.

(** C17. A request that passes validation cannot inject configuration: for each of
    the characters that end a directive, open or close a block or start a
    comment, the number of occurrences in the rendered text is what the
    template itself contributes for that many upstreams and domains - no
    hostname, path, address or slug can add one. *)
Theorem rendered_structure_is_fixed r text c :
  valid_reload_request r = true → match_dollar _SLUG_RE (rr_app_slug r) = true → structural c = true →
  render (rr_app_slug r) (rr_domains r) (rr_upstreams r) = Some text →
  count_char c text =
  (count_char c (template_render "healer_" [] [])
   + length (rr_upstreams r) * count_char c (upstream_line blank_upstream)
   + length (rr_domains r) * count_char c (server_blocks "healer_" blank_domain))%nat.
Proof.
  intros Hv Hslug Hc Hr. unfold valid_reload_request in Hv. rewrite !andb_true_iff, !forallb_forall in Hv.
  destruct Hv as [[_ Hd] Hu]. pose proof (count_upstream_name c _ Hc Hslug) as Hname.
  set (name := "healer_" +:+ str_map underscore (rr_app_slug r)) in *.
  assert (text = template_render name (rr_domains r) (rr_upstreams r)) as ->.
  { unfold render in Hr. destruct (rr_domains r); [done|]. destruct (rr_upstreams r); [done|]. by injection Hr. }
  unfold template_render. rewrite !count_app.
  rewrite (count_concat_map c upstream_line (count_char c (upstream_line blank_upstream)))
    by (intros u Hin; apply count_upstream_line; [done|]; by apply Hu, list_elem_of_In).
  rewrite (count_concat_map c (server_blocks name) (count_char c (server_blocks "healer_" blank_domain)))
    by (intros d Hin; apply count_server_blocks; [done| |done]; by apply Hd, list_elem_of_In).
  unfold lines, concat_map. cbn [foldr]. rewrite !count_app, Hname.
  assert (count_char c EmptyString = 0%nat) as -> by done. lia.
Qed.

(** ** Witnesses *)

Definition demo_request : ReloadRequest :=
  {| rr_app_slug := "demo-app";
     rr_domains := [ {| ds_hostname := "demo.example.org"; ds_cert_path := "/etc/demo.pem"; ds_key_path := "/etc/demo.key" |} ];
     rr_upstreams := [ {| ut_host := "alpha.local"; ut_port := 9000 |}; {| ut_host := "10.0.0.7"; ut_port := 9001 |} ] |}.

(** [nginx -t] succeeds, the reload does not. *)
Definition demo_nginx : NginxEnv :=
  {| nginx_outcome := λ t args _, if decide (args = ["-t"]) then Exited 0 "syntax is ok" else NotRun "timed out";
     resolves_to := λ name, Some name; nginx_shared_secret := "secret" |}.

Lemma apply_all_or_nothing_witness :
  let E := demo_nginx in
  let s := {| gm_files := {[ "demo-app.conf" := "# old" ]}; gm_runs := [] |} in
  ∃ outcome s', apply "demo-app" (rr_domains demo_request) (rr_upstreams demo_request) s = (Ok outcome, s') ∧
    ro_ok outcome = false ∧ gm_files s' = gm_files s.
Proof.
  intros E s.
  pose proof (apply_all_or_nothing "demo-app" (rr_domains demo_request) (rr_upstreams demo_request) s) as Hrun.
  assert ((λ r : result gateway_exn ReloadOutcome, match r with Ok o => ro_ok o | Raise _ => true end)
    (apply "demo-app" (rr_domains demo_request) (rr_upstreams demo_request) s).1 = false) as Hok by (vm_compute; reflexivity).
  destruct (apply "demo-app" (rr_domains demo_request) (rr_upstreams demo_request) s) as [[outcome|e] s']; [|discriminate].
  simpl in Hok. destruct Hrun as (path & _ & _ & Hcase).
  { intros path [= <-]. vm_compute. reflexivity. }
  exists outcome, s'. split; [reflexivity|]. split; [exact Hok|]. rewrite Hok in Hcase. apply Hcase.
Defined.

Lemma rendered_structure_is_fixed_witness :
  ∃ text, render (rr_app_slug demo_request) (rr_domains demo_request) (rr_upstreams demo_request) = Some text ∧
    count_char ";" text = (2 + 2 * 1 + 14)%nat.
Proof.
  eexists. split; [reflexivity|].
  etransitivity; [apply (rendered_structure_is_fixed demo_request _ ";"); vm_compute; reflexivity|vm_compute; reflexivity].
Defined.
