(* ===== verification/Certificates.v ===== *)
(** Certificate checks of the Gateway Manager:
    services/gateway-manager/app/api/routes/certificates.py.

    [CertEnv] is what the route reads and what it calls: the file system and the
    third-party package [cryptography]. *)

From S2P Require Import Prelude Python Permissions.
Local Open Scope Z_scope.

(** A private key, or the exception that loading it raised. *)
Inductive KeyLoad (K : Type) : Type :=
| KeyLoaded (key : K)
| KeyTypeError
| KeyValueError.
Arguments KeyLoaded {K} key.
Arguments KeyTypeError {K}.
Arguments KeyValueError {K}.

(** Loading a certificate raises [ValueError] or nothing ([None]). Taking the
    bytes of a public key may raise anything ([None]). *)
Class CertEnv := {
  Certificate : Type;
  PrivateKey : Type;
  isfile : string → bool;
  access_read : string → bool;
  read_file : string → string + string;      (* the text of an [OSError], or the contents *)
  load_pem_x509_certificate : string → option Certificate;
  load_der_x509_certificate : string → option Certificate;
  load_pem_private_key : string → KeyLoad PrivateKey;
  load_der_private_key : string → KeyLoad PrivateKey;
  cert_public_key_bytes : Certificate → option string;
  key_public_key_bytes : PrivateKey → option string;
  not_valid_before_utc : Certificate → Z;
  not_valid_after_utc : Certificate → Z;
  fingerprint_hex : Certificate → string;
  subject_rfc4514 : Certificate → string;
  issuer_rfc4514 : Certificate → string;
}.

Definition EXPIRY_WARNING_WINDOW : Z := days 30.

Record CheckResult := {
  cr_name : string;
  cr_severity : string;
  cr_passed : bool;
  cr_message : string;
}.

Record CertificateValidateResponse := {
  cv_ok : bool;
  cv_checks : list CheckResult;
  cv_subject : option string;
  cv_issuer : option string;
  cv_not_valid_before : option string;
  cv_not_valid_after : option string;
}.

Definition check (name severity : string) (passed : bool) (message : string) : CheckResult :=
  {| cr_name := name; cr_severity := severity; cr_passed := passed; cr_message := message |}.

(** [CertificateValidateResponse(ok=..., checks=...)] *)
Definition response (ok : bool) (checks : list CheckResult) : CertificateValidateResponse :=
  {| cv_ok := ok; cv_checks := checks; cv_subject := None; cv_issuer := None; cv_not_valid_before := None;
     cv_not_valid_after := None |}.

Section certificates.
Context `{CertEnv}.

Definition _readable_file_check (name path : string) : CheckResult :=
  if negb (isfile path) then check name "error" false (path +:+ " does not exist")
  else if negb (access_read path) then check name "error" false (path +:+ " is not readable")
  else check name "info" true (path +:+ " exists and is readable").

Definition _load_certificate (path : string) : option Certificate * CheckResult :=
  match read_file path with
  | inl text => (None, check "cert_path" "error" false text)
  | inr data =>
      match load_pem_x509_certificate data with
      | Some cert => (Some cert, check "cert_parse" "info" true "certificate parsed")
      | None =>
          match load_der_x509_certificate data with
          | Some cert => (Some cert, check "cert_parse" "info" true "certificate parsed")
          | None => (None, check "cert_path" "error" false "could not parse as a PEM or DER X.509 certificate")
          end
      end
  end.

(** [inl]: the [OSError] of [open], which the function does not catch. *)
Definition _load_private_key (path : string) : string + (PrivateKey + CheckResult) :=
  match read_file path with
  | inl text => inl text
  | inr data =>
      inr (match load_pem_private_key data with
           | KeyLoaded key => inl key
           | KeyTypeError =>
               inr (check "key_path" "error" false
                 "the key file is password-protected — Healer only supports unencrypted key files")
           | KeyValueError =>
               match load_der_private_key data with
               | KeyLoaded key => inl key
               | _ => inr (check "key_path" "error" false "could not parse as a PEM or DER private key")
               end
           end)
  end.

(** [_public_key_bytes(cert.public_key()) == _public_key_bytes(private_key.public_key())] *)
Definition key_matches (cert : Certificate) (key : PrivateKey) : bool :=
  match cert_public_key_bytes cert, key_public_key_bytes key with
  | Some a, Some b => String.eqb a b
  | _, _ => false
  end.

(** The checks of the validity period. *)
Definition period_checks (now_ : Z) (cert : Certificate) : list CheckResult :=
  let not_before := not_valid_before_utc cert in
  let not_after := not_valid_after_utc cert in
  (if now_ <? not_before then
     [check "not_yet_valid" "warning" false ("certificate is not valid until " +:+ isoformat not_before)] else []) ++
  (if not_after <? now_ then
     [check "expired" "error" false ("certificate expired on " +:+ isoformat not_after)]
   else if not_after - now_ <? EXPIRY_WARNING_WINDOW then
     [check "expiring_soon" "warning" false ("certificate expires soon, on " +:+ isoformat not_after)] else []).

(** [c.passed or c.severity != "error"] *)
Definition acceptable (c : CheckResult) : bool := cr_passed c || negb (String.eqb (cr_severity c) "error").

(** [inl]: an exception that ends the request with 500. *)
Definition validate_certificate (now_ : Z) (cert_path key_path : string) : string + CertificateValidateResponse :=
  let cert_readable := _readable_file_check "cert_path" cert_path in
  let key_readable := _readable_file_check "key_path" key_path in
  let checks := [cert_readable; key_readable] in
  if negb (cr_passed cert_readable) || negb (cr_passed key_readable) then inr (response false checks) else
  let '(cert, cert_check) := _load_certificate cert_path in
  let checks := checks ++ [cert_check] in
  match cert with
  | None => inr (response false checks)
  | Some cert =>
      match _load_private_key key_path with
      | inl text => inl text
      | inr (inr key_error) => inr (response false (checks ++ [key_error]))
      | inr (inl private_key) =>
          let matches := key_matches cert private_key in
          let checks :=
            checks ++ [check "key_parse" "info" true "key parsed";
                       check "key_matches_cert" "error" matches
                         (if matches then "the key matches the certificate's public key"
                          else "this key does NOT match the certificate — they are not a pair")] ++
            period_checks now_ cert ++
            [check "fingerprint" "info" true ("sha256:" +:+ fingerprint_hex cert)] in
          inr {| cv_ok := forallb acceptable checks; cv_checks := checks;
                 cv_subject := Some (subject_rfc4514 cert); cv_issuer := Some (issuer_rfc4514 cert);
                 cv_not_valid_before := Some (isoformat (not_valid_before_utc cert));
                 cv_not_valid_after := Some (isoformat (not_valid_after_utc cert)) |}
      end
  end%bool.

(** ** When a pair is accepted *)

(** The certificate of a file, in either encoding. *)
Definition certificate_in (path : string) (cert : Certificate) : Prop :=
  ∃ data, read_file path = inr data ∧
    (load_pem_x509_certificate data = Some cert ∨
     (load_pem_x509_certificate data = None ∧ load_der_x509_certificate data = Some cert)).

(** The unencrypted private key of a file. *)
Definition private_key_in (path : string) (key : PrivateKey) : Prop :=
  ∃ data, read_file path = inr data ∧
    (load_pem_private_key data = KeyLoaded key ∨
     (load_pem_private_key data = KeyValueError ∧ load_der_private_key data = KeyLoaded key)).

(** What makes a pair usable: both files can be read, they hold a certificate
    and its private key, and the certificate has not expired. *)
Definition usable_pair (now_ : Z) (cert_path key_path : string) : Prop :=
  isfile cert_path = true ∧ access_read cert_path = true ∧ isfile key_path = true ∧ access_read key_path = true ∧
  ∃ cert key bytes, certificate_in cert_path cert ∧ private_key_in key_path key ∧
    cert_public_key_bytes cert = Some bytes ∧ key_public_key_bytes key = Some bytes ∧
    now_ ≤ not_valid_after_utc cert.

Lemma readable_file_check_passed name path :
  cr_passed (_readable_file_check name path) = true ↔ isfile path = true ∧ access_read path = true.
Proof. unfold _readable_file_check. destruct (isfile path), (access_read path); naive_solver. Qed.

Lemma key_matches_spec cert key :
  key_matches cert key = true ↔ ∃ bytes, cert_public_key_bytes cert = Some bytes ∧ key_public_key_bytes key = Some bytes.
Proof.
  unfold key_matches. destruct (cert_public_key_bytes cert), (key_public_key_bytes key); try naive_solver.
  rewrite String.eqb_eq. naive_solver.
Qed.

Lemma period_checks_acceptable now_ cert :
  forallb acceptable (period_checks now_ cert) = (now_ <=? not_valid_after_utc cert).
Proof.
  unfold period_checks. rewrite forallb_app.
  destruct (now_ <? not_valid_before_utc cert); simpl;
    (destruct (Z.ltb_spec (not_valid_after_utc cert) now_), (Z.leb_spec now_ (not_valid_after_utc cert));
     try lia; [done|]; by destruct (_ <? EXPIRY_WARNING_WINDOW)).
Qed.

(** The certificate and the key that the functions return are those of the files. *)
Lemma load_certificate_spec path cert : (_load_certificate path).1 = Some cert ↔ certificate_in path cert.
Proof.
  unfold _load_certificate, certificate_in. destruct (read_file path) as [text|data]; [naive_solver|].
  destruct (load_pem_x509_certificate data) eqn:E1; [naive_solver|].
  destruct (load_der_x509_certificate data) eqn:E2; naive_solver.
Qed.

Lemma load_private_key_spec path key : _load_private_key path = inr (inl key) ↔ private_key_in path key.
Proof.
  unfold _load_private_key, private_key_in. destruct (read_file path) as [text|data]; [naive_solver|].
  split.
  - intros [= E]. exists data. split; [done|]. destruct (load_pem_private_key data); simplify_eq; [by left|right].
    split; [done|]. destruct (load_der_private_key data); by simplify_eq.
  - intros (? & [= <-] & [-> | [-> ->]]); done.
Qed.

Lemma certificate_in_unique path c1 c2 : certificate_in path c1 → certificate_in path c2 → c1 = c2.
Proof. intros H1%load_certificate_spec H2%load_certificate_spec. congruence. Qed.

Lemma private_key_in_unique path k1 k2 : private_key_in path k1 → private_key_in path k2 → k1 = k2.
Proof. intros H1%load_private_key_spec H2%load_private_key_spec. congruence. Qed.

(** What [_load_certificate] says when it has no certificate, and when it has one. *)
Lemma load_certificate_check path :
  acceptable (_load_certificate path).2 = bool_decide (is_Some (_load_certificate path).1).
Proof.
  unfold _load_certificate. destruct (read_file path) as [text|data]; [done|].
  destruct (load_pem_x509_certificate data); [done|]. by destruct (load_der_x509_certificate data).
Qed.

Lemma load_private_key_error path c : _load_private_key path = inr (inr c) → acceptable c = false.
Proof.
  unfold _load_private_key. destruct (read_file path) as [text|data]; [done|].
  destruct (load_pem_private_key data); intros [= E]; simplify_eq; [done|].
  destruct (load_der_private_key data); by simplify_eq.
Qed.

Lemma readable_file_check_acceptable name path :
  acceptable (_readable_file_check name path) = cr_passed (_readable_file_check name path).
Proof. unfold _readable_file_check. by destruct (isfile path), (access_read path). Qed.

(** The checks behind a certificate and a key that could be loaded. *)
Lemma final_checks_acceptable now_ cert key m1 m2 :
  forallb acceptable ([check "key_parse" "info" true m1; check "key_matches_cert" "error" (key_matches cert key) m2] ++
    period_checks now_ cert ++ [check "fingerprint" "info" true ("sha256:" +:+ fingerprint_hex cert)]) = true ↔
  key_matches cert key = true ∧ now_ ≤ not_valid_after_utc cert.
Proof.
  rewrite !forallb_app, period_checks_acceptable. simpl. rewrite !andb_true_iff, Z.leb_le.
  unfold acceptable. simpl. rewrite orb_false_r. naive_solver.
Qed.

End certificates.

(** The Gateway Manager accepts a certificate pair exactly when both files can
    be read, hold a certificate and its unencrypted private key, and the
    certificate has not expired; a refusal always comes with a failed check of
    severity error, an acceptance with none. The one request that is not answered
    is for a key file that passed the permission check and cannot be opened. *)
Lemma validate_certificate_verdict `{CertEnv} now_ cert_path key_path :
  match validate_certificate now_ cert_path key_path with
  | inr r => (cv_ok r = true ↔ usable_pair now_ cert_path key_path) ∧ cv_ok r = forallb acceptable (cv_checks r)
  | inl text => read_file key_path = inl text ∧ access_read key_path = true
  end.
Proof.
  unfold validate_certificate, usable_pair.
  pose proof (readable_file_check_passed "cert_path" cert_path) as Hc.
  pose proof (readable_file_check_passed "key_path" key_path) as Hk.
  pose proof (readable_file_check_acceptable "cert_path" cert_path) as Ac.
  pose proof (readable_file_check_acceptable "key_path" key_path) as Ak.
  destruct (cr_passed (_readable_file_check "cert_path" cert_path)),
    (cr_passed (_readable_file_check "key_path" key_path)); simpl;
    [|rewrite Ac, Ak; split; [naive_solver|done]..].
  pose proof (load_certificate_check cert_path) as Al. pose proof (load_certificate_spec cert_path) as Hl.
  destruct (_load_certificate cert_path) as [[cert|] c]; simpl in *.
  2: { rewrite Ac, Ak, Al. split; [|done]. split; [done|].
       intros (_ & _ & _ & _ & cert & key & bytes & Hcert & _). by apply Hl in Hcert. }
  assert (certificate_in cert_path cert) as Hcert by by apply Hl.
  pose proof (load_private_key_spec key_path) as Hp. pose proof (load_private_key_error key_path) as Ap.
  destruct (_load_private_key key_path) as [text|[key|e]] eqn:E.
  - split; [|naive_solver]. unfold _load_private_key in E. destruct (read_file key_path); by simplify_eq.
  - assert (private_key_in key_path key) as Hkey by by apply Hp.
    simpl. split; [|done]. rewrite Ac, Ak, Al. simpl.
    pose proof (final_checks_acceptable now_ cert key "key parsed"
      (if key_matches cert key then "the key matches the certificate's public key"
       else "this key does NOT match the certificate — they are not a pair")) as Hfin.
    simpl in Hfin. rewrite Hfin. rewrite key_matches_spec. split; [naive_solver|].
    intros (_ & _ & _ & _ & cert' & key' & bytes & Hcert' & Hkey' & ? & ? & ?).
    rewrite (certificate_in_unique cert_path cert cert'), (private_key_in_unique key_path key key') by done. eauto.
  - simpl. rewrite Ac, Ak, Al, (Ap e eq_refl). split; [|done]. split; [done|].
    intros (_ & _ & _ & _ & cert' & key' & bytes & _ & Hkey' & _). by apply Hp in Hkey'.
Qed.
