(* ===== verification/Scenario.v ===== *)
(** A concrete control plane for the witnesses: one server with a connected
    agent, one application with an active release and a running instance, and
    an outside world in which agents, probes and the gateway answer. *)

From S2P Require Import Prelude Python Sha256 Enums HealerYaml Schema Session Security CommandService.
Local Open Scope Z_scope.

(** Primary keys. *)
Definition server1 : uuid := 1%N.
Definition agent1 : uuid := 2%N.
Definition app1 : uuid := 3%N.
Definition source1 : uuid := 4%N.
Definition old_release : uuid := 10%N.
Definition new_release : uuid := 11%N.
Definition instance1 : uuid := 20%N.
Definition switch1 : uuid := 30%N.
Definition check1 : uuid := 40%N.
Definition domain1 : uuid := 50%N.

Definition t0 : Z := 1753272489000000.

(** ** The outside world *)

Definition command_event (id : uuid) (status : string) (result : json) : json :=
  JObj [ ("type", JStr "agent.command_event");
         ("payload", JObj [ ("command_id", JStr (str_uuid id)); ("status", JStr status); ("result", result) ]) ].

(** The agent works through a command that exists; messages about unknown
    commands are ignored. *)
Definition finish_with (result : json) (id : uuid) : list Incoming :=
  [ AgentSends agent1 (command_event id "acknowledged" JNull);
    AgentSends agent1 (command_event id "running" JNull);
    AgentSends agent1 (command_event id "succeeded" result) ].

Definition finish (ok : bool) (id : uuid) : list Incoming :=
  finish_with (JObj [ ("ok", JBool ok); ("release_dir", JStr "C:\healer\apps\demo\releases\2");
                      ("venv_python", JStr "python.exe"); ("steps", JArr []) ]) id.

Definition finish_all (ok : bool) : list Incoming :=
  concat (map (finish ok ∘ N.of_nat) (rev (seq 100 60))).

Definition outside_with (incoming : nat → list Incoming) (probe gateway certificates : HttpReply) : Env :=
  {| env_now := λ t, t0 + seconds (Z.of_nat t);
     env_incoming := incoming;
     env_send_ok := λ _, true;
     env_http_get := λ _ _ _, probe;
     env_gateway_post := λ _ _, gateway;
     env_certificates_post := λ _ _, certificates;
     env_elapsed := λ _, 1000%N;
     env_encrypt := λ _ v, "token:" +:+ v;
     env_decrypt := λ token, if startswith "token:" token then Some (String.substring 6 (String.length token - 6) token)
                             else None;
     env_float_repr := λ _ _, "";
     env_exn_text := λ _, "";
     env_fromisoformat := λ _, None;
     env_validate_hello := λ _, None;
     env_validate_heartbeat := λ _, None |}.

(** [answers t] says what the agent answers during the await of observation [t]. *)
Definition outside (answers : nat → option bool) (probe gateway : HttpReply) : Env :=
  outside_with (λ t, match answers t with Some ok => finish_all ok | None => [] end) probe gateway
    (HttpError "connection refused").

(** The agent answers [true] at the given observations. *)
Definition answers_at (ticks : list nat) (t : nat) : option bool :=
  if decide (t ∈ ticks) then Some true else None.

Definition probe_ok : HttpReply := HttpResponse 200 None 5.
Definition probe_bad : HttpReply := HttpResponse 503 None 5.
Definition gateway_ok : HttpReply := HttpResponse 200 (Some (JObj [("ok", JBool true)])) 5.
Definition gateway_down : HttpReply := HttpError "connection refused".

(** A stand-in for bcrypt and PyJWT: a password is stored as its digest, and a
    token names its user and makes the bearer an administrator. *)
Definition demo_security : Security :=
  {| token_urlsafe := λ t, "token-" +:+ str_int (Z.of_nat t);
     bcrypt_hashpw := λ _ raw, hexdigest (sha256 raw);
     bcrypt_checkpw := λ raw stored, Some (String.eqb (hexdigest (sha256 raw)) stored);
     jwt_encode := λ claims _, cl_sub claims;
     jwt_decode := λ _ token _, Some (JObj [ ("sub", JStr token); ("roles", JArr [JStr "Administrator"]);
                                             ("type", JStr "access"); ("iat", JInt (t0 / 1000000));
                                             ("exp", JInt ((t0 + minutes 15) / 1000000)) ]);
     control_plane_secret_key := "key"; access_token_ttl_minutes := 15; refresh_token_ttl_days := 14;
     cookie_secure := true |}.

(** ** The database *)

Definition demo_config : HealerYamlV1 :=
  {| hy_version := 1; hy_name := "Demo"; hy_adapter := "windows-waitress-service"; hy_server_id := Some server1;
     hy_source := {| sc_type := "folder"; sc_location := "C:\src"; sc_ref := None |};
     hy_windows := Some {| wc_python_executable := "python.exe"; wc_requirements_file := "requirements.txt";
                           wc_manage_py := "manage.py"; wc_wsgi_module := "demo.wsgi";
                           wc_settings_module := "demo.settings"; wc_static_dir := "static";
                           wc_media_dir := "media"; wc_log_dir := "logs"; wc_exclude := [] |};
     hy_linux := None;
     hy_health := {| hlc_path := "/health"; hlc_interval_seconds := 10; hlc_timeout_seconds := 5;
                     hlc_healthy_threshold := 1; hlc_unhealthy_threshold := 1 |};
     hy_ports := {| pr_start := 9000; pr_end := 9003 |};
     hy_replicas := {| rc_min := 1; rc_max := 3 |};
     hy_domain := Some {| dc_hostname := "demo.example.org"; dc_cert_path := Some "/etc/demo.pem";
                          dc_key_path := Some "/etc/demo.key" |};
     hy_secrets := [] |}.

Definition demo_app : Application :=
  {| app_name := "Demo"; app_slug := "demo"; app_adapter_type := AdapterType.WINDOWS_WAITRESS_SERVICE;
     app_server_id := Some server1; app_config := Some demo_config;
     app_port_range_start := Some 9000; app_port_range_end := Some 9003;
     app_min_replicas := 1; app_max_replicas := 3; app_desired_replicas := 1;
     app_operation_lock := None; app_operation_lock_acquired_at := None;
     app_active_release_id := Some old_release; app_release_retention_count := 5; app_created_at := 0 |}.

Definition demo_release (ref : string) (created_at : Z) : Release :=
  {| rel_application_id := app1; rel_source_id := Some source1; rel_ref := ref;
     rel_status := ReleaseStatus.READY; rel_release_dir := Some "C:\healer\apps\demo\releases\1";
     rel_venv_python := Some "python.exe"; rel_image_ref := None; rel_created_at := created_at |}.

Definition demo_instance (status : instance_status) (port : Z) : Instance :=
  {| inst_application_id := app1; inst_release_id := Some old_release; inst_server_id := server1;
     inst_port := port; inst_status := status; inst_service_name := Some "Healer-demo-9000";
     inst_deployment_id := None; inst_healing_attempts := 0; inst_last_healing_attempt_at := None;
     inst_failure_reason := None; inst_created_at := 0 |}.

Definition demo_deployment (kind : string) (count : Z) : Deployment :=
  {| dep_application_id := app1; dep_release_id := new_release; dep_status := DeploymentStatus.IN_PROGRESS;
     dep_instance_count := count; dep_zero_downtime := true; dep_kind := kind; dep_failure_reason := None;
     dep_created_by := None; dep_created_at := 0 |}.

Definition demo_check : HealthCheck :=
  {| hc_application_id := app1; hc_check_type := HealthCheckType.HTTP; hc_path := Some "/health";
     hc_interval_seconds := 10; hc_timeout_seconds := 5; hc_healthy_threshold := 1;
     hc_unhealthy_threshold := 1; hc_expected_status := None; hc_max_restart_attempts := 3;
     hc_restart_cooldown_seconds := 30 |}.

Definition demo_audit (deployment : uuid) : AuditLog :=
  {| au_actor_id := None; au_action := "deployment.transition"; au_target_type := "deployment";
     au_target_id := str_uuid deployment;
     au_detail := Some (JObj [("from", JStr "pending"); ("to", JStr "in_progress")]); au_occurred_at := 0 |}.

Definition demo_db (kind : string) (count : Z) : DB :=
  empty_db
    <| db_servers := {[ server1 := {| srv_name := "alpha"; srv_hostname := "alpha.local"; srv_os := ServerOS.WINDOWS;
                                      srv_status := ServerStatus.ACTIVE; srv_created_at := 0 |} ]} |>
    <| db_agents := {[ agent1 := {| ag_server_id := server1; ag_agent_version := "1"; ag_status := AgentStatus.CONNECTED;
                                    ag_last_seen_at := None; ag_credential_hash := None; ag_capabilities := None;
                                    ag_created_at := 0 |} ]} |>
    <| db_applications := {[ app1 := demo_app ]} |>
    <| db_sources := {[ source1 := {| src_application_id := app1; src_source_type := SourceType.FOLDER;
                                      src_location := "C:\src"; src_ref := None |} ]} |>
    <| db_releases := {[ old_release := demo_release "1" 1; new_release := demo_release "2" 2 ]} |>
    <| db_instances := {[ instance1 := demo_instance InstanceStatus.RUNNING 9000 ]} |>
    <| db_deployments := {[ switch1 := demo_deployment kind count ]} |>
    <| db_audit_logs := [demo_audit switch1] |>
    <| db_health_checks := {[ check1 := demo_check ]} |>
    <| db_domains := {[ domain1 := {| dom_application_id := app1; dom_hostname := "demo.example.org";
                                      dom_cert_path := Some "/etc/demo.pem"; dom_key_path := Some "/etc/demo.key" |} ]} |>.

(** Accounts: an administrator with a session that was revoked and one that was
    not, and two enrolment tokens of the server, one of them used. *)
Definition admin1 : uuid := 70%N.
Definition admin_role : uuid := 80%N.
Definition viewer_role : uuid := 81%N.
Definition session1 : uuid := 90%N.
Definition session2 : uuid := 91%N.
Definition token1 : uuid := 95%N.
Definition token2 : uuid := 96%N.

Definition demo_admin : User :=
  {| user_email := "admin@healer.local"; user_password_hash := hexdigest (sha256 (utf8 "correct horse"));
     user_is_active := true; user_created_at := 0 |}.

Definition demo_session (raw_token : string) (revoked_at : option Z) : RefreshSession :=
  {| rs_user_id := admin1; rs_token_hash := hash_token raw_token; rs_expires_at := t0 + days 14;
     rs_revoked_at := revoked_at |}.

Definition demo_token (raw_token : string) (used_at : option Z) : EnrollmentToken :=
  {| et_server_id := server1; et_token_hash := hash_token raw_token; et_expires_at := t0 + minutes 60;
     et_used_at := used_at; et_revoked_at := None; et_created_at := t0 |}.

Definition demo_accounts : DB :=
  (demo_db "deploy" 1)
    <| db_users := {[ admin1 := demo_admin ]} |>
    <| db_roles := {[ admin_role := {| role_name := "Administrator" |}; viewer_role := {| role_name := "Viewer" |} ]} |>
    <| db_user_roles := [ {| ur_user_id := admin1; ur_role_id := admin_role |} ] |>
    <| db_refresh_sessions := {[ session1 := demo_session "old" (Some 0); session2 := demo_session "live" None ]} |>
    <| db_enrollment_tokens := {[ token1 := demo_token "spent" (Some 0); token2 := demo_token "fresh" None ]} |>.

(** The process, with the agent's socket open. *)
Definition demo_world (d : DB) : World :=
  (boot d) <| w_uuid := 100%N |> <| w_connections := {[ agent1 := 7%N ]} |>.
