(* ===== verification/DbAdminProperties.v ===== *)
(** Properties of the database administration page: what its answers can depend
    on, what its search finds, and what an edit can change. *)

From Stdlib Require Import Ascii.
From S2P Require Import Prelude Python Regex Redaction Enums HealerYaml Ddl Metadata Schema Session Permissions DbAdmin.
From S2P Require Import Scenario.
Local Open Scope Z_scope.

(** ** The search is literal *)

Definition lower_text (s : text) : text := map lower_char s.

Lemma fold_case_eq c d : fold_case c d = true ↔ lower_char c = lower_char d.
Proof. unfold fold_case. apply Ascii.eqb_eq. Qed.

(** An escaped character stands for itself. *)
Definition escaped (c : ascii) : text :=
  if Ascii.eqb c bslash || Ascii.eqb c "%" || Ascii.eqb c "_" then [bslash; c] else [c].

Lemma escape_like_map term : _escape_like term = concat (map escaped term).
Proof.
  unfold _escape_like, escape_char. induction term as [|c term IH]; [done|]. cbn [map concat].
  repeat (rewrite map_app || rewrite concat_app). rewrite IH. f_equal. unfold escaped.
  destruct (Ascii.eqb_spec c bslash) as [->|?]; [done|]. cbn [map concat app].
  destruct (Ascii.eqb_spec c "%") as [->|?]; [done|]. cbn [map concat app].
  by destruct (Ascii.eqb_spec c "_") as [->|?].
Qed.

Lemma like_tokens_escaped c rest : like_tokens (escaped c ++ rest) = LChar c :: like_tokens rest.
Proof.
  unfold escaped. destruct (Ascii.eqb_spec c bslash) as [->|H1]; [done|].
  destruct (Ascii.eqb_spec c "%") as [->|H2]; [done|]. destruct (Ascii.eqb_spec c "_") as [->|H3]; [done|].
  cbn [orb app like_tokens]. apply Ascii.eqb_neq in H1, H2, H3. by rewrite H1, H2, H3.
Qed.

Lemma like_tokens_escape term rest :
  like_tokens (_escape_like term ++ rest) = map LChar term ++ like_tokens rest.
Proof.
  rewrite escape_like_map. induction term as [|c term IH]; [done|]. cbn [map concat].
  by rewrite <-app_assoc, like_tokens_escaped, IH.
Qed.

Lemma like_match_any s : like_match [LAny] s = true.
Proof. induction s as [|c s IH]; [done|]. simpl. simpl in IH. by rewrite IH. Qed.

Lemma like_match_prefix term s :
  like_match (map LChar term ++ [LAny]) s = true ↔ ∃ a b, s = a ++ b ∧ lower_text a = lower_text term.
Proof.
  revert s. induction term as [|c term IH]; intros s; cbn [map app].
  - rewrite like_match_any. split; [|done]. intros _. by exists [], s.
  - cbn [like_match]. destruct s as [|d s].
    + split; [done|]. intros (a & b & Hs & Ha). symmetry in Hs. apply app_eq_nil in Hs as [-> ->]. done.
    + rewrite andb_true_iff, fold_case_eq, IH. split.
      * intros (Hc & a & b & -> & Ha). exists (d :: a), b. split; [done|]. unfold lower_text in *. cbn [map]. by rewrite Hc, Ha.
      * intros (a & b & Hs & Ha). destruct a as [|d' a]; [done|]. unfold lower_text in Ha. cbn [map] in Ha. simplify_eq/=.
        split; [congruence|]. by exists a, b.
Qed.

Lemma like_match_skip tokens s :
  like_match (LAny :: tokens) s = true ↔ ∃ a b, s = a ++ b ∧ like_match tokens b = true.
Proof.
  induction s as [|c s IH].
  - simpl. rewrite orb_false_r. split; [by exists [], []|]. intros (a & b & Hs & Hb).
    symmetry in Hs. by apply app_eq_nil in Hs as [-> ->].
  - change (like_match (LAny :: tokens) (c :: s)) with (like_match tokens (c :: s) || like_match (LAny :: tokens) s).
    rewrite orb_true_iff, IH. split.
    + intros [Hb|(a & b & -> & Hb)]; [by exists [], (c :: s)|]. by exists (c :: a), b.
    + intros ([|c' a] & b & Hs & Hb); simplify_eq/=; [by left|]. right. by exists a, b.
Qed.

(** Wildcards in the search term match only themselves. *)
Lemma ilike_literal term s :
  ilike s (["%"%char] ++ _escape_like term ++ ["%"%char]) = true ↔ occurs (lower_text term) (lower_text s).
Proof.
  unfold ilike, occurs.
  assert (like_tokens (["%"%char] ++ _escape_like term ++ ["%"%char]) = LAny :: map LChar term ++ [LAny]) as ->.
  { transitivity (LAny :: like_tokens (_escape_like term ++ ["%"%char])); [done|]. by rewrite like_tokens_escape. }
  rewrite like_match_skip.
  setoid_rewrite like_match_prefix. split.
  - intros (a & b & -> & c & d & -> & Hc). exists (lower_text a), (lower_text d).
    unfold lower_text in *. by rewrite !map_app, Hc.
  - intros (a & b & Hs). unfold lower_text in Hs. apply map_eq_app in Hs as (a' & r & -> & <- & Hr).
    apply map_eq_app in Hr as (c & d & -> & Hc & <-). exists a', (c ++ d). split; [done|]. by exists c, d.
Qed.

(** ** What the answers depend on *)

(** The columns whose values are not shown as they are. *)
Definition hidden (table_name key : string) : bool := is_sensitive key || is_json_redacted table_name key.

(** What of a table may be seen. *)
Definition shown (table_name : string) (s : Store) : list Row := map (_redact_row table_name) (st_tables s !!! table_name).

Definition alike (table_name : string) (r1 r2 : Row) : Prop := _redact_row table_name r1 = _redact_row table_name r2.

Lemma redact_cell_visible t k c : hidden t k = false → redact_cell t k c = c.
Proof. unfold hidden. intros [H1 H2]%orb_false_iff. unfold redact_cell. rewrite H1, H2. by destruct c. Qed.

Lemma cell_of_redact t row k : cell_of (_redact_row t row) k = redact_cell t k (cell_of row k).
Proof.
  unfold cell_of, dict_get. induction row as [|[k' c] row IH]; [done|]. simpl.
  case_decide; [by subst|exact IH].
Qed.

Lemma cell_of_alike t r1 r2 k : hidden t k = false → alike t r1 r2 → cell_of r1 k = cell_of r2 k.
Proof.
  intros Hk Hr. apply (f_equal (λ r, cell_of r k)) in Hr. by rewrite !cell_of_redact, !redact_cell_visible in Hr.
Qed.

(** Enum values are looked up before the redaction, which changes nothing. *)
Lemma redact_enum_value t k ty c1 c2 :
  redact_cell t k c1 = redact_cell t k c2 → redact_cell t k (enum_value ty c1) = redact_cell t k (enum_value ty c2).
Proof.
  unfold redact_cell. destruct (is_sensitive k), (is_json_redacted t k), c1, c2, ty; simpl; congruence.
Qed.

Lemma shown_alike t table r1 r2 :
  alike t r1 r2 → _redact_row t (_row_to_dict table r1) = _redact_row t (_row_to_dict table r2).
Proof.
  unfold alike. revert r2. induction r1 as [|[k1 c1] r1 IH]; intros [|[k2 c2] r2]; try done. simpl.
  intros [= -> Hc Hr]. f_equal; [|by apply IH]. f_equal. by apply redact_enum_value.
Qed.

Lemma map_eq_Forall2 {A B} (f : A → B) l k : map f l = map f k ↔ Forall2 (λ x y, f x = f y) l k.
Proof.
  revert k. induction l as [|x l IH]; intros [|y k]; simpl; split; intros Hf; try done; try by inversion Hf.
  - simplify_eq. constructor; [done|by apply IH].
  - inversion Hf; subst. f_equal; [done|by apply IH].
Qed.

Section Forall2.
Context {A : Type} (R : A → A → Prop).

Lemma Forall2_find (p : A → bool) l k :
  (∀ x y, R x y → p x = p y) → Forall2 R l k →
  match List.find p l, List.find p k with
  | Some x, Some y => R x y
  | None, None => True
  | _, _ => False
  end.
Proof.
  intros Hp. induction 1 as [|x y l k Hxy Hlk IH]; simpl; [done|]. rewrite (Hp x y Hxy). by destruct (p y).
Qed.

Lemma Forall2_filter_bool (p : A → bool) l k :
  (∀ x y, R x y → p x = p y) → Forall2 R l k → Forall2 R (List.filter p l) (List.filter p k).
Proof.
  intros Hp. induction 1 as [|x y l k Hxy Hlk IH]; simpl; [done|]. rewrite (Hp x y Hxy).
  destruct (p y); [by constructor|done].
Qed.

Lemma Forall2_sort_by (before : A → A → bool) l k :
  (∀ x y x' y', R x y → R x' y' → before x x' = before y y') → Forall2 R l k →
  Forall2 R (sort_by before l) (sort_by before k).
Proof.
  intros Hb. unfold sort_by. induction 1 as [|x y l k Hxy Hlk IH]; simpl; [done|]. revert IH.
  generalize (foldr (insert_by before) [] l) (foldr (insert_by before) [] k). intros l' k'.
  induction 1 as [|x' y' l' k' Hxy' Hlk' IH]; simpl; [by repeat constructor|].
  rewrite (Hb x y x' y') by done. destruct (before y y'); repeat (constructor; try done).
Qed.
End Forall2.

(** ** The tables of the models *)

Definition visible_keys (m : Model) : bool :=
  match _single_column_pk m with Some pk => negb (hidden (md_tablename m) pk) | None => true end
  && match default_order m with Some (c, _) => negb (hidden (md_tablename m) c) | None => true end.

Lemma keys_are_visible m : In m models → visible_keys m = true.
Proof.
  assert (forallb visible_keys models = true) as Hv by (vm_compute; reflexivity).
  rewrite forallb_forall in Hv. apply Hv.
Qed.

Lemma find_model_spec t m : find_model t = Some m → In m models ∧ md_tablename m = t.
Proof. intros [Hin Heq%String.eqb_eq]%find_some. done. Qed.

Lemma get_table_run t :
  ∃ r, (∀ s, get_table t s = (r, s)) ∧
    match r with Ok m => find_model t = Some m | Raise e => ∃ msg, e = DBAdminError msg end.
Proof.
  unfold get_table. destruct (existsb _ _); [eexists; split; [intros s; reflexivity|by eexists]|].
  destruct (find_model t) as [m|] eqn:E; eexists; (split; [intros s; reflexivity|]); [done|by eexists].
Qed.

Section admin.
Context `{AdminEnv} `{Env}.

Lemma has_key_alike t pk id r1 r2 : hidden t pk = false → alike t r1 r2 → has_key pk id r1 = has_key pk id r2.
Proof. intros Hpk Hr. unfold has_key. by rewrite (cell_of_alike t r1 r2 pk Hpk Hr). Qed.

Lemma order_rows_alike t column desc l k :
  hidden t column = false → Forall2 (alike t) l k → Forall2 (alike t) (order_rows column desc l) (order_rows column desc k).
Proof.
  intros Hc. apply Forall2_sort_by. intros x y x' y' H1 H2.
  by rewrite (cell_of_alike t x y column Hc H1), (cell_of_alike t x' y' column Hc H2).
Qed.

(** A search looks at no sensitive column. *)
Lemma search_alike t search r1 r2 :
  json_redacted t = [] → alike t r1 r2 → _search_condition search r1 = _search_condition search r2.
Proof.
  intros Hj. unfold alike, _search_condition. revert r2.
  induction r1 as [|[k1 c1] r1 IH]; intros [|[k2 c2] r2]; try done. cbn [_redact_row map]. intros Hr.
  simplify_eq/=. rewrite (IH r2) by done. f_equal. destruct (is_sensitive k2) eqn:Es; [done|].
  assert (hidden t k2 = false) as Hk by (unfold hidden, is_json_redacted; by rewrite Es, Hj).
  rewrite !redact_cell_visible in * by done. by subst.
Qed.

Lemma found_rows_alike t search order l k :
  (strip (default "" search) = "" ∨ json_redacted t = []) →
  (∀ c desc, order = Some (c, desc) → hidden t c = false) →
  Forall2 (alike t) l k → Forall2 (alike t) (found_rows search order l) (found_rows search order k).
Proof.
  intros Hs Ho Hlk. unfold found_rows.
  assert (Forall2 (alike t)
    (if String.eqb (strip (default "" search)) "" then l else List.filter (_search_condition (strip (default "" search))) l)
    (if String.eqb (strip (default "" search)) "" then k else List.filter (_search_condition (strip (default "" search))) k))
    as Hhits.
  { destruct (String.eqb_spec (strip (default "" search)) "") as [|Hne]; [done|].
    destruct Hs as [|Hj]; [done|]. apply Forall2_filter_bool; [|done]. intros x y. by apply search_alike. }
  destruct order as [[c desc]|]; [|done]. apply order_rows_alike; [by eapply Ho|done].
Qed.

Lemma get_row_alike t row_id s1 s2 :
  shown t s1 = shown t s2 → (get_row t row_id s1).1 = (get_row t row_id s2).1.
Proof.
  intros Hs%map_eq_Forall2. unfold get_row.
  destruct (get_table_run t) as (r & E & Hr).
  unfold mbind, st_bind. rewrite !E. destruct r as [m|e]; [|done]. apply find_model_spec in Hr as [Hin Hname].
  apply keys_are_visible, andb_true_iff in Hin as [Hpk _]. unfold _pk_column, bind_id.
  destruct (_single_column_pk m) as [pk|]; simpl; [|done]. rewrite Hname in Hpk. apply negb_true_iff in Hpk.
  destruct (pg_bind _ _) as [id|]; simpl; [|done].
  pose proof (Forall2_find (alike t) (has_key pk id) _ _ (λ x y, has_key_alike t pk id x y Hpk) Hs) as Hf.
  destruct (List.find _ _) as [x|], (List.find _ _) as [y|]; try done. simpl. f_equal. by apply shown_alike.
Qed.

Lemma list_rows_alike t limit offset search sort_by_ sort_dir s1 s2 :
  shown t s1 = shown t s2 →
  (∀ c, sort_by_ = Some c → hidden t c = false) →
  (strip (default "" search) = "" ∨ json_redacted t = []) →
  (list_rows t limit offset search sort_by_ sort_dir s1).1 = (list_rows t limit offset search sort_by_ sort_dir s2).1.
Proof.
  intros Hs%map_eq_Forall2 Hsort Hsearch. unfold list_rows.
  destruct (get_table_run t) as (r & E & Hr).
  unfold mbind, st_bind. rewrite !E. destruct r as [m|e]; [|done]. apply find_model_spec in Hr as [Hin Hname].
  apply keys_are_visible, andb_true_iff in Hin as [_ Hdef]. rewrite Hname in Hdef. cbn [rows_of gets].
  assert (∀ c desc, row_order m sort_by_ sort_dir = Some (c, desc) → hidden t c = false) as Ho.
  { intros c desc. unfold row_order. destruct sort_by_ as [name|]; [destruct (_ && _)|]; intros Hc.
    - simplify_eq. by apply Hsort.
    - rewrite Hc in Hdef. by apply negb_true_iff.
    - rewrite Hc in Hdef. by apply negb_true_iff. }
  pose proof (found_rows_alike t search _ _ _ Hsearch Ho Hs) as Hf. simpl. f_equal. f_equal.
  - set (l := take _ _). set (k := take _ _).
    assert (Forall2 (alike t) l k) as Hlk by (by apply Forall2_take, Forall2_drop).
    clearbody l k. induction Hlk; simpl; [done|]. f_equal; [by apply shown_alike|done].
  - by apply Forall2_length in Hf.
Qed.


(** ** What an edit changes *)

(** The validation reads no row. *)
Definition leaves {A} (m : AM A) : Prop := ∀ s, (m s).2 = s.

Lemma leaves_bind {A B} (m : AM A) (f : A → AM B) : leaves m → (∀ a, leaves (f a)) → leaves (m ≫= f).
Proof.
  intros Hm Hf s. unfold mbind, st_bind. specialize (Hm s). destruct (m s) as [[a|e] s1]; simpl in *; subst; [apply Hf|done].
Qed.

Lemma leaves_try {A} (m : AM A) h : leaves m → (∀ e, leaves (h e)) → leaves (try_except m h).
Proof.
  intros Hm Hh s. unfold try_except. specialize (Hm s). destruct (m s) as [[a|e] s1]; simpl in *; subst; [done|apply Hh].
Qed.

Ltac leaves_auto :=
  repeat first
    [ done
    | apply leaves_bind; [|intros ?]
    | apply leaves_try; [|intros ?]
    | match goal with
      | |- leaves (if ?b then _ else _) => destruct b
      | |- leaves (match ?x with _ => _ end) => destruct x
      | |- leaves (let _ := _ in _) => cbv zeta
      end
    | intros ? ].

Lemma leaves_run_validator v value : leaves (run_validator v value).
Proof. unfold run_validator, _validate_hostname, _validate_optional_unix_path. leaves_auto. Qed.

Lemma leaves_coerce col spec raw : leaves (_coerce_value col spec raw).
Proof. unfold _coerce_value, or_value_error. leaves_auto. Qed.

Lemma leaves_validate_change table spec key raw : leaves (validate_change table spec key raw).
Proof.
  pose proof leaves_run_validator. pose proof leaves_coerce. unfold validate_change, for_column. cbv zeta.
  apply leaves_bind; [leaves_auto|]. intros _. apply leaves_bind; [leaves_auto|]. intros _. leaves_auto.
Qed.

Lemma leaves_validate_changes table allowed changes : leaves (validate_changes table allowed changes).
Proof.
  pose proof leaves_validate_change. induction changes as [|[key raw] changes IH]; simpl; [done|]. leaves_auto.
Qed.

(** The strings a validator lets through. *)
Definition lets_through (v : Validator) (x : string) : bool :=
  match v with
  | VHostname => match_dollar _HOSTNAME_RE x
  | VUnixPath => String.eqb x "" || (match_dollar _UNIX_PATH_RE x && negb (has_traversal x))
  end.

Lemma run_validator_Ok v value s s' :
  run_validator v value s = (Ok tt, s') → ∃ x, value = JStr x ∧ lets_through v x = true.
Proof.
  destruct value; try done. intros Hv. eexists. split; [done|]. revert Hv. unfold run_validator, lets_through.
  destruct v; unfold _validate_hostname, _validate_optional_unix_path.
  - by destruct (match_dollar _ _).
  - destruct (String.eqb _ ""); [done|]. destruct (match_dollar _ _); simpl; [|done]. by destruct (has_traversal _).
Qed.

(** The guarded columns are text columns, edited as text. *)
Definition text_type (ty : ModelType) : bool :=
  match ty with Plain_ (String_ _) | Plain_ Text => true | _ => false end.

Definition guarded_spec (m : Model) (t k : string) (v : Validator) : bool :=
  match List.find (λ spec, String.eqb (ec_name spec) k) (_editable_columns m t) with
  | Some spec =>
      bool_decide (ec_choices spec = None) && (String.eqb (ec_kind spec) "text" || String.eqb (ec_kind spec) "optional_text")
      && match ec_validator spec, v with Some VHostname, VHostname | Some VUnixPath, VUnixPath => true | _, _ => false end
  | None => false
  end
  && match List.find (λ col, String.eqb (mc_name col) k) (md_columns m) with
     | Some col => text_type (mc_type col)
     | None => false
     end.

Lemma validator_for_spec t k v m : validator_for t k = Some v → find_model t = Some m → guarded_spec m t k v = true.
Proof.
  unfold validator_for, COLUMN_VALIDATORS. cbn [dict_lookup]. intros Hv Hm.
  repeat case_decide; simplify_eq; vm_compute in Hm; injection Hm as <-; vm_compute; reflexivity.
Qed.

Lemma for_column_Ok {A} key (m : AM A) s a s' : for_column key m s = (Ok a, s') → m s = (Ok a, s').
Proof. unfold for_column, try_except. destruct (m s) as [[b|[]] s1]; done. Qed.

Lemma bind_Ok_AM {A B} (m : AM A) (f : A → AM B) s b s' :
  (m ≫= f) s = (Ok b, s') → ∃ a s1, m s = (Ok a, s1) ∧ f a s1 = (Ok b, s').
Proof. unfold mbind, st_bind. destruct (m s) as [[a|e] s1]; [by exists a, s1|done]. Qed.

(** A validated value of a guarded column is null or an accepted string. *)
Lemma validate_change_guarded m t k v spec raw s r s' :
  guarded_spec m t k v = true → List.find (λ spec, String.eqb (ec_name spec) k) (_editable_columns m t) = Some spec →
  validate_change m spec k raw s = (Ok r, s') → r = PNone ∨ ∃ x, r = PRaw (JStr x) ∧ lets_through v x = true.
Proof.
  intros Hg Hspec. unfold guarded_spec in Hg. rewrite Hspec in Hg. rewrite !andb_true_iff in Hg.
  destruct Hg as [[[_ Hkind] Hval] Hcol]. unfold validate_change. cbv zeta.
  destruct (List.find _ (md_columns m)) as [col|]; [|done].
  set (value := match raw with JStr _ => _ | _ => raw end). clearbody value.
  assert (String.eqb (ec_kind spec) "boolean" = false ∧ String.eqb (ec_kind spec) "json" = false) as [Hb Hj].
  { apply orb_true_iff in Hkind as [->%String.eqb_eq | ->%String.eqb_eq]; done. }
  rewrite Hb, Hj. intros (u & s1 & Hv & Hr)%bind_Ok_AM. destruct u.
  apply bind_Ok_AM in Hr as (u & s2 & _ & Hr). apply for_column_Ok in Hr.
  destruct (ec_validator spec) as [v'|]; [|done].
  assert (v' = v) as -> by (by destruct v', v).
  destruct value as [| | | |x| |]; [by injection Hr as <- _; left|..]; cbn -[run_validator] in Hv; apply for_column_Ok in Hv;
    apply run_validator_Ok in Hv as (y & [= ->] & Ha).
  right. exists y. split; [|done]. unfold _coerce_value in Hr. rewrite Hb, Hj in Hr.
  destruct (mc_type col) as [[]|]; try discriminate Hcol; by injection Hr as <- _.
Qed.

Lemma validate_changes_spec m t changes s l s' :
  validate_changes m (_editable_columns m t) changes s = (Ok l, s') →
  map fst l = map fst changes ∧
  ∀ k r v, (k, r) ∈ l → guarded_spec m t k v = true → r = PNone ∨ ∃ x, r = PRaw (JStr x) ∧ lets_through v x = true.
Proof.
  revert s l s'. induction changes as [|[key raw] changes IH]; intros s l s'; cbn [validate_changes].
  - intros [= <- _]. split; [done|]. intros k r v Hin. by apply elem_of_nil in Hin.
  - destruct (List.find _ _) as [spec|] eqn:Espec; [|done].
    intros (value & s1 & Hv & Hr)%bind_Ok_AM. apply bind_Ok_AM in Hr as (rest & s2 & Hrest & [= <- _]).
    apply IH in Hrest as [Hk Hg]. split; [simpl; by rewrite Hk|].
    intros k r v [[= -> ->]|Hin]%elem_of_cons Hgs; [|by eapply Hg].
    by eapply validate_change_guarded.
Qed.

Lemma bind_values_spec m validated cells :
  bind_values m validated = Some cells →
  map fst cells = map fst validated ∧ ∀ k c, (k, c) ∈ cells → ∃ v, (k, v) ∈ validated ∧ bind_value m k v = Some c.
Proof.
  revert cells. induction validated as [|[key v] validated IH]; intros cells; simpl.
  - intros [= <-]. split; [done|]. intros k c Hin. by apply elem_of_nil in Hin.
  - intros (c & Hc & (cells' & Hcells & [= <-])%bind_Some)%bind_Some. apply IH in Hcells as [Hk Hb].
    split; [simpl; by rewrite Hk|]. intros k c' [[= -> ->]|Hin]%elem_of_cons.
    + exists v. split; [left|done].
    + destruct (Hb k c' Hin) as (v' & Hv' & Hbv). exists v'. split; [by right|done].
Qed.

Lemma dict_lookup_In {V} (d : list (string * V)) k v : dict_lookup d k = Some v → (k, v) ∈ d.
Proof. induction d as [|[k' v'] d IH]; simpl; [done|]. case_decide; intros Hv; simplify_eq; [left|right; auto]. Qed.

Lemma cell_of_assign cells row k :
  cell_of (assign_cells cells row) k ≠ cell_of row k → ∃ c, dict_lookup cells k = Some c ∧ cell_of (assign_cells cells row) k = c.
Proof.
  unfold cell_of, dict_get, assign_cells. induction row as [|[k' c'] row IH]; simpl; [done|]. case_decide as Hk; [|exact IH].
  subst. unfold dict_get. destruct (dict_lookup cells k') as [c|]; [by exists c|done].
Qed.

Lemma leaves_get_row t row_id : leaves (get_row t row_id).
Proof. unfold get_row, get_table, _pk_column, bind_id, rows_of. leaves_auto. Qed.

(** The rows are those they were. *)
Definition same_rows (s s' : Store) : Prop := ∀ t, st_tables s' !!! t = st_tables s !!! t.

Definition edit (m : Model) (pk : string) (id : cell) (cells row : Row) : Row :=
  if has_key pk id row then assign_cells (set_onupdate m cells) row else row.

Lemma update_where_spec m t pk id cells s r s' :
  update_where m t pk id cells s = (r, s') →
  st_audit s' = st_audit s ∧
  match r with
  | Ok (Some _) => (∀ t', t' ≠ t → st_tables s' !!! t' = st_tables s !!! t') ∧
                   st_tables s' !!! t = map (edit m pk id cells) (st_tables s !!! t)
  | _ => same_rows s s'
  end.
Proof.
  unfold update_where, rows_of, mbind, st_bind. cbn [gets]. destruct (pg_refuses _); [by intros [= <- <-]|].
  cbn. intros [= <- <-]. split; [done|]. destruct (List.find _ _) as [row|] eqn:Ef; simpl.
  - split; [intros t' Ht; by rewrite lookup_total_insert_ne|by rewrite lookup_total_insert_eq].
  - intros t'. simpl. destruct (decide (t' = t)) as [->|Ht]; [|by rewrite lookup_total_insert_ne].
    rewrite lookup_total_insert_eq. pose proof (find_none _ _ Ef) as Hnone.
    transitivity (map (λ row : Row, row) (st_tables s !!! t)); [|apply map_id]. apply map_ext_in. intros row Hin. by rewrite Hnone.
Qed.

(** A column that may be edited is neither the key nor a redacted one. *)
Lemma allowed_columns m t spec :
  In spec (_editable_columns m t) → Some (ec_name spec) ≠ _single_column_pk m ∧ hidden t (ec_name spec) = false.
Proof.
  unfold _editable_columns. intros (col & <- & [_ He]%filter_In)%in_map_iff. unfold editable_column in He.
  rewrite !andb_true_iff, !negb_true_iff in He. destruct He as [[Hpk Hs] Hj].
  assert (ec_name (_to_editable_column col t) = mc_name col) as ->.
  { unfold _to_editable_column. destruct (mc_type col) as [ty|e]; [|done]. destruct (_is_json_column col); [done|].
    by destruct (python_type_of _). }
  apply bool_decide_eq_false in Hpk. split; [done|]. unfold hidden. by rewrite Hs, Hj.
Qed.

Lemma no_unknown m t (changes : list (string * json)) k :
  List.filter (λ k, negb (existsb (λ spec, String.eqb (ec_name spec) k) (_editable_columns m t))) (map fst changes) = [] →
  k ∈ map fst changes → Some k ≠ _single_column_pk m ∧ hidden t k = false.
Proof.
  intros Hu Hk%list_elem_of_In. destruct (existsb (λ spec, String.eqb (ec_name spec) k) (_editable_columns m t)) eqn:E.
  - apply existsb_exists in E as (spec & Hin & <-%String.eqb_eq). by apply allowed_columns.
  - assert (In k (List.filter (λ k, negb (existsb (λ spec, String.eqb (ec_name spec) k) (_editable_columns m t))) (map fst changes)))
      as Hin by (apply filter_In; split; [done|by rewrite E]).
    rewrite Hu in Hin. done.
Qed.

(** The columns with an [onupdate] are the times of the last change. *)
Lemma onupdate_columns t m col :
  find_model t = Some m → In col (md_columns m) → mc_onupdate col = Some "now()" → mc_name col = "updated_at".
Proof.
  assert (forallb (λ m, forallb (λ col, implb (bool_decide (mc_onupdate col = Some "now()"))
                                             (String.eqb (mc_name col) "updated_at")) (md_columns m)) models = true)
    as Hall by (vm_compute; reflexivity).
  intros [Hm _]%find_some Hcol Hup. rewrite forallb_forall in Hall. specialize (Hall m Hm).
  rewrite forallb_forall in Hall. specialize (Hall col Hcol). rewrite bool_decide_eq_true_2 in Hall by done.
  by apply String.eqb_eq in Hall.
Qed.

Lemma dict_lookup_app {V} (d1 d2 : list (string * V)) k :
  dict_lookup (d1 ++ d2) k = match dict_lookup d1 k with Some v => Some v | None => dict_lookup d2 k end.
Proof. induction d1 as [|[k' v'] d1 IH]; simpl; [done|]. by case_decide. Qed.

(** A cell the statement sets is one of its values, or the time of the change. *)
Lemma set_onupdate_lookup t m cells k c :
  find_model t = Some m → dict_lookup (set_onupdate m cells) k = Some c →
  (k, c) ∈ cells ∨ k = "updated_at" ∧ (k ∉ map fst cells) ∧ c = CTime pg_now.
Proof.
  intros Hm. unfold set_onupdate. rewrite dict_lookup_app. destruct (dict_lookup cells k) as [c'|] eqn:E.
  - intros [= ->]. left. by apply dict_lookup_In.
  - intros (col & [= -> ->] & [Hcol [Hup Hno]%andb_true_iff]%list_elem_of_In%filter_In)%dict_lookup_In%list_elem_of_fmap.
    apply bool_decide_eq_true in Hup. right. split_and!; [by eapply onupdate_columns| |done].
    intros Hin. apply negb_true_iff in Hno. apply not_true_iff_false in Hno. apply Hno, existsb_exists.
    exists (mc_name col). split; [by apply list_elem_of_In|apply String.eqb_refl].
Qed.

(** SQLAlchemy and PostgreSQL store text as it is. *)
Definition text_binding : Prop :=
  ∀ ty v c, text_type (Plain_ ty) = true → pg_bind ty v = Some c →
    match v with
    | PRaw (JStr x) => c = CStr x
    | PNone => c = CNull
    | _ => True
    end.

(** What may be in a guarded column. *)
Definition guarded (t k : string) (c : cell) : Prop :=
  ∀ v, validator_for t k = Some v → c = CNull ∨ ∃ x, c = CStr x ∧ lets_through v x = true.

(** An edit gave the row [row] of table [t] the cell [c] in column [k]. *)
Definition legal_edit (t row_id : string) (changes : list (string * json)) (row : Row) (k : string) (c : cell) : Prop :=
  ∃ m pk id, find_model t = Some m ∧ _single_column_pk m = Some pk ∧
    pg_bind (sql_type_of (column_type m pk)) (PRaw (JStr row_id)) = Some id ∧ has_key pk id row = true ∧
    k ∈ map fst changes ∧ k ≠ pk ∧ hidden t k = false ∧ guarded t k c.

(** The edit set the time of the last change of the row it addresses. *)
Definition stamped (t row_id : string) (changes : list (string * json)) (row : Row) (k : string) (c : cell) : Prop :=
  ∃ m pk id, find_model t = Some m ∧ _single_column_pk m = Some pk ∧
    pg_bind (sql_type_of (column_type m pk)) (PRaw (JStr row_id)) = Some id ∧ has_key pk id row = true ∧
    k = "updated_at" ∧ (k ∉ map fst changes) ∧ c = CTime pg_now.

Lemma bound_cells_guarded m t validated cells k c :
  text_binding → find_model t = Some m → bind_values m validated = Some cells →
  (∀ k r v, (k, r) ∈ validated → guarded_spec m t k v = true → r = PNone ∨ ∃ x, r = PRaw (JStr x) ∧ lets_through v x = true) →
  (k, c) ∈ cells → guarded t k c.
Proof.
  intros Htext Hm Hb Hv Hin v Hval. apply bind_values_spec in Hb as [_ Hb]. destruct (Hb k c Hin) as (r & Hr & Hc).
  pose proof (validator_for_spec t k v m Hval Hm) as Hg.
  destruct (Hv k r v Hr Hg) as [->|(x & -> & Ha)]; revert Hc;
    unfold guarded_spec in Hg; apply andb_true_iff in Hg as [_ Hty]; unfold bind_value, column_type;
    destruct (List.find _ (md_columns m)) as [col|]; try done;
    destruct (mc_type col) as [ty|e]; try done; intros Hc; apply (Htext ty) in Hc; try done; simpl in Hc.
  - by left.
  - right. by exists x.
Qed.

End admin.


(** C38. An edit is exact: it changes cells of the addressed row only, only in
    columns the request names and, to the time of the transaction, in
    [updated_at]; never the primary key, a credential or redacted JSON, and a host
    name or certificate path only to a value its validator lets through; a
    request that fails changes no row. *)
Theorem admin_edit_is_exact `{AdminEnv} `{Env} t row_id changes s :
  text_binding →
  let '(r, s') := update_row t row_id changes s in
  st_audit s' = st_audit s ∧
  match r with
  | Raise _ => same_rows s s'
  | Ok _ => (∀ t', t' ≠ t → st_tables s' !!! t' = st_tables s !!! t') ∧
      ∃ f, st_tables s' !!! t = map f (st_tables s !!! t) ∧
        ∀ row k, cell_of (f row) k ≠ cell_of row k →
          legal_edit t row_id changes row k (cell_of (f row) k) ∨ stamped t row_id changes row k (cell_of (f row) k)
  end.
Proof.
  intros Htext. unfold update_row, mbind, st_bind. destruct (get_table_run t) as (rt & -> & Ht).
  destruct rt as [m|e]; [|done]. unfold _pk_column. destruct (_single_column_pk m) as [pk|] eqn:Epk; [|done].
  cbn [mret st_ret]. destruct (List.filter _ (map fst changes)) eqn:Eu; [|done].
  pose proof (leaves_validate_changes m (_editable_columns m t) changes s) as Hleave.
  destruct (validate_changes m (_editable_columns m t) changes s) as [[validated|e] s1] eqn:Ev; simpl in Hleave; subst s1;
    [|done].
  apply validate_changes_spec in Ev as [Hkeys Hguard]. destruct validated as [|kv validated].
  { destruct (get_row t row_id s) as [r s1] eqn:Eg. pose proof (leaves_get_row t row_id s) as Hl. rewrite Eg in Hl.
    simpl in Hl. subst s1. split; [done|]. destruct r; [|done]. split; [done|]. exists (λ row, row).
    split; [by rewrite map_id|done]. }
  unfold bind_id. destruct (pg_bind _ _) as [id|] eqn:Eid; [|done]. cbn [mret st_ret].
  destruct (bind_values m (kv :: validated)) as [cells|] eqn:Eb; [|done].
  destruct (update_where m t pk id cells s) as [r s2] eqn:Ew. apply update_where_spec in Ew as [Ha Hw].
  destruct r as [[row|]|e]; [|by split..]. cbn [mret st_ret]. destruct Hw as [Ho Hw]. split; [done|]. split; [done|].
  exists (edit m pk id cells). split; [done|]. intros row' k Hne. unfold edit in *.
  destruct (has_key pk id row') eqn:Ek; [|done].
  assert (map fst cells = map fst changes) as Hnames by (rewrite <-Hkeys; exact (proj1 (bind_values_spec _ _ _ Eb))).
  apply cell_of_assign in Hne as (c & Hc & ->).
  destruct (set_onupdate_lookup t m cells k c Ht Hc) as [Hin|(Hk & Hno & ->)].
  2: { right. exists m, pk, id. rewrite Hnames in Hno. done. }
  left. assert (k ∈ map fst changes) as Hk by (rewrite <-Hnames; apply list_elem_of_fmap; by exists (k, c)).
  destruct (no_unknown m t changes k Eu Hk) as [Hpk Hh]. rewrite Epk in Hpk.
  exists m, pk, id. split_and!; try done; [congruence|]. by eapply bound_cells_guarded.
Qed.

(** ** A concrete database *)

(** Text is stored as it is, a key is read as an identifier, and cells are
    compared by their text. *)
#[export] Instance demo_admin_env : AdminEnv :=
  {| pg_bind := λ ty v, match ty, v with
                        | UUID, PRaw (JStr s) => CUuid <$> uuid_of_string s
                        | _, PNone => Some CNull
                        | _, PBool b => Some (CBool b)
                        | _, PInt n => Some (CInt n)
                        | _, PUuid u => Some (CUuid u)
                        | _, PTime t => Some (CTime t)
                        | _, PRaw (JStr s) => Some (CStr s)
                        | _, PRaw v => Some (CJson v)
                        end;
     pg_text := λ c, match c with
                     | CStr s | CNumeric s | CEnum s => s
                     | CInt n | CTime n => str_int n
                     | CUuid u => str_uuid u
                     | CBool b => if b then "true" else "false"
                     | CJson v => py_repr (λ _ _, "") v
                     | CNull => ""
                     end;
     pg_le := λ c d, match c, d with
                     | CStr s, CStr t => String.leb s t
                     | CTime s, CTime t => s <=? t
                     | _, _ => true
                     end;
     pg_refuses := λ _, false;
     pg_on_delete := λ _ _ tables, tables;
     pg_now := 60;
     json_loads := λ _, inl "" |}.

Definition admin_outside : Env := outside (answers_at []) probe_ok gateway_ok.

Definition user_row (id : uuid) (email password_hash : string) : Row :=
  [ ("email", CStr email); ("password_hash", CStr password_hash); ("is_active", CBool true); ("id", CUuid id);
    ("created_at", CTime 0); ("updated_at", CTime 0) ].

Definition command_row (id : uuid) (secret : string) : Row :=
  [ ("payload", CJson (JObj [("linux", JObj [("env", JObj [("KEY", JStr secret)])])])); ("id", CUuid id);
    ("created_at", CTime 0) ].

Definition domain_row (id : uuid) (hostname : string) (updated_at : Z) : Row :=
  [ ("application_id", CUuid 3%N); ("hostname", CStr hostname); ("cert_path", CNull); ("key_path", CNull);
    ("id", CUuid id); ("created_at", CTime 0); ("updated_at", CTime updated_at) ].

Definition admin_store (hash1 hash2 secret : string) : Store :=
  {| st_tables := {[ "users" := [user_row 1%N "a@healer.local" hash1; user_row 2%N "b@healer.local" hash2];
                     "agent_commands" := [command_row 5%N secret]; "domains" := [domain_row 7%N "a.example.org" 0] ]};
     st_audit := [] |}.


Lemma demo_text_binding : text_binding.
Proof. intros [] v c Hty Hb; try discriminate Hty; destruct v as [| | | | |[]]; simpl in Hb; simplify_eq; done. Qed.

Definition edited : result exn Row * Store :=
  update_row (H0:=admin_outside) "domains" (str_uuid 7) [("hostname", JStr "b.example.org"); ("cert_path", JStr "")] (admin_store "x" "y" "k").

Lemma admin_edit_is_exact_witness :
  (∃ row, edited.1 = Ok row ∧ cell_of row "hostname" = CStr "b.example.org" ∧ cell_of row "updated_at" = CTime 60) ∧
  (∀ t', t' ≠ "domains" → st_tables edited.2 !!! t' = st_tables (admin_store "x" "y" "k") !!! t').
Proof.
  assert (edited.1 = Ok (domain_row 7%N "b.example.org" 60)) as E by (vm_compute; reflexivity).
  split; [exists (domain_row 7%N "b.example.org" 60); split; [exact E|split; reflexivity]|].
  pose proof (admin_edit_is_exact (H0:=admin_outside) "domains" (str_uuid 7)
    [("hostname", JStr "b.example.org"); ("cert_path", JStr "")] (admin_store "x" "y" "k") demo_text_binding) as Hx.
  fold edited in Hx. destruct edited as [[row|e] s']; [|discriminate E]. exact (proj1 (proj2 Hx)).
Defined.
