(* ===== verification/ApplicationService.v ===== *)
(** Applications: services/control-plane/app/services/application_service.py. *)

From S2P Require Import Prelude Python Regex Enums HealerYaml Schema Session Hoare Widths Repositories.
From S2P Require Import Protocol.
From Stdlib Require Import Ascii.
Local Open Scope Z_scope.

(** ** Slugs *)

Definition is_slug_char (c : ascii) : bool := (is_lower c || is_digit c)%bool.

(** [re.sub(r"[^a-z0-9]+", "-", s)]; [in_run] says that the previous character
    was replaced. *)
Fixpoint sub_runs (in_run : bool) (s : string) : string :=
  match s with
  | EmptyString => EmptyString
  | String c s' =>
      if is_slug_char c then String c (sub_runs false s')
      else if in_run then sub_runs true s' else String "-" (sub_runs true s')
  end.

Definition _slugify (name : string) : string :=
  let slug := strip_by (Ascii.eqb "-") (sub_runs false (lower name)) in
  if decide (slug = "") then "app" else slug.

Definition slug_taken (slug : string) (d : DB) : bool :=
  bool_decide (is_Some (first (select db_applications (λ a, bool_decide (app_slug a = slug)) d))).

(** The loop of [_unique_slug]; [fuel] bounds the suffixes tried. *)
Fixpoint unique_slug_loop (fuel : nat) (base slug : string) (suffix : Z) (d : DB) : string :=
  match fuel with
  | O => slug
  | S fuel' =>
      if slug_taken slug d then unique_slug_loop fuel' base (base +:+ "-" +:+ str_int suffix) (suffix + 1) d
      else slug
  end.

Definition free_slug (base : string) (d : DB) : string :=
  unique_slug_loop (S (size (db_applications d))) base base 2 d.
Arguments free_slug : simpl never.

Definition _unique_slug (base : string) : M string := query (free_slug base).

(** ** Rows *)

Definition enum_of {A} (of_value : string → option A) (s : string) : M A :=
  match of_value s with
  | Some a => mret a
  | None => raise (ValueError (repr_str s +:+ " is not a valid value"))
  end.

(** The server foreign key of an application. *)
Definition server_exists (server_id : option uuid) : M bool :=
  query (λ d, match server_id with
              | Some s => bool_decide (is_Some (db_servers d !! s))
              | None => true
              end).

Definition _sync_related_rows (application : uuid) (config : HealerYamlV1) : M unit :=
  source ← query (λ d, first (select db_sources (λ s, bool_decide (src_application_id s = application)) d));
  source_type ← enum_of source_type_of_value (sc_type (hy_source config));
  let location := sc_location (hy_source config) in
  let ref := sc_ref (hy_source config) in
  match source with
  | None =>
      insert_row db_sources {| src_application_id := application; src_source_type := source_type;
                               src_location := location; src_ref := ref |} ;; mret tt
  | Some (id, _) =>
      assign db_sources id (λ s, s <| src_source_type := source_type |> <| src_location := location |>
                                   <| src_ref := ref |>)
  end ;;
  health_check ← query (λ d, first (select db_health_checks (λ h, bool_decide (hc_application_id h = application)) d));
  let h := hy_health config in
  (if (255 <? String.length (hlc_path h))%nat then flush_error StatementError else
   match health_check with
   | None =>
       insert_row db_health_checks
         {| hc_application_id := application; hc_check_type := HealthCheckType.HTTP;
            hc_path := Some (hlc_path h); hc_interval_seconds := hlc_interval_seconds h;
            hc_timeout_seconds := hlc_timeout_seconds h; hc_healthy_threshold := hlc_healthy_threshold h;
            hc_unhealthy_threshold := hlc_unhealthy_threshold h; hc_expected_status := None;
            hc_max_restart_attempts := 3; hc_restart_cooldown_seconds := 30 |} ;; mret tt
   | Some (id, _) =>
       assign db_health_checks id (λ c,
         c <| hc_path := Some (hlc_path h) |> <| hc_interval_seconds := hlc_interval_seconds h |>
           <| hc_timeout_seconds := hlc_timeout_seconds h |>
           <| hc_healthy_threshold := hlc_healthy_threshold h |>
           <| hc_unhealthy_threshold := hlc_unhealthy_threshold h |>)
   end) ;;
  match hy_domain config with
  | None => mret tt
  | Some dc =>
      domain ← query (λ d, first (select db_domains (λ x, bool_decide (dom_application_id x = application)) d));
      taken ← query (λ d, bool_decide (Exists (λ kv, Some kv.1 ≠ (fst <$> domain))
                            (select db_domains (λ x, bool_decide (dom_hostname x = dc_hostname dc)) d)));
      if taken : bool then flush_error IntegrityError else
      match domain with
      | None =>
          insert_row db_domains {| dom_application_id := application; dom_hostname := dc_hostname dc;
                                   dom_cert_path := dc_cert_path dc; dom_key_path := dc_key_path dc |} ;;
          mret tt
      | Some (id, _) =>
          assign db_domains id (λ x, x <| dom_hostname := dc_hostname dc |>
                                       <| dom_cert_path := dc_cert_path dc |>
                                       <| dom_key_path := dc_key_path dc |>)
      end
  end ;;
  flush.

Definition create_application `{Env} (config : HealerYamlV1) : M uuid :=
  slug ← _unique_slug (_slugify (hy_name config));
  adapter_type ← enum_of adapter_type_of_value (hy_adapter config);
  created_at ← now;
  fk ← server_exists (hy_server_id config);
  if negb fk then flush_error IntegrityError else
  if (255 <? String.length slug)%nat then flush_error StatementError else
  application ← insert_row db_applications
    {| app_name := hy_name config; app_slug := slug; app_adapter_type := adapter_type;
       app_server_id := hy_server_id config; app_config := Some config;
       app_port_range_start := Some (pr_start (hy_ports config));
       app_port_range_end := Some (pr_end (hy_ports config));
       app_min_replicas := rc_min (hy_replicas config); app_max_replicas := rc_max (hy_replicas config);
       app_desired_replicas := rc_min (hy_replicas config);
       app_operation_lock := None; app_operation_lock_acquired_at := None;
       app_active_release_id := None; app_release_retention_count := 5; app_created_at := created_at |};
  _sync_related_rows application config ;;
  mret application.

Definition update_application (application : uuid) (config : HealerYamlV1) : M unit :=
  adapter_type ← enum_of adapter_type_of_value (hy_adapter config);
  fk ← server_exists (hy_server_id config);
  if negb fk then flush_error IntegrityError else
  assign db_applications application (λ a,
    a <| app_name := hy_name config |> <| app_adapter_type := adapter_type |>
      <| app_server_id := hy_server_id config |> <| app_config := Some config |>
      <| app_port_range_start := Some (pr_start (hy_ports config)) |>
      <| app_port_range_end := Some (pr_end (hy_ports config)) |>
      <| app_min_replicas := rc_min (hy_replicas config) |>
      <| app_max_replicas := rc_max (hy_replicas config) |>
      <| app_desired_replicas :=
           Z.min (Z.max (app_desired_replicas a) (rc_min (hy_replicas config))) (rc_max (hy_replicas config)) |>) ;;
  flush ;;
  _sync_related_rows application config.

Definition config_from_application (application : uuid) : M HealerYamlV1 :=
  a ← row db_applications application;
  match app_config a with
  | Some config => model_validate config
  | None => raise ValidationError
  end.

(** ** Slugs: what they look like, and that the search for a free one ends *)

Lemma sub_runs_alphabet s b c :
  c ∈ String.list_ascii_of_string (sub_runs b s) → is_slug_char c = true ∨ c = "-"%char.
Proof.
  revert b. induction s as [|a s IH]; intros b; simpl.
  - intros Hc. by apply elem_of_nil in Hc.
  - destruct (is_slug_char a) eqn:Ea; simpl.
    + intros [->|Hc]%elem_of_cons; [by left|by eapply IH].
    + destruct b; simpl; [by apply IH|]. intros [->|Hc]%elem_of_cons; [by right|by eapply IH].
Qed.

Lemma lstrip_by_sub p s c :
  c ∈ String.list_ascii_of_string (lstrip_by p s) → c ∈ String.list_ascii_of_string s.
Proof.
  induction s as [|a s IH]; simpl; [done|]. destruct (p a); [|done].
  intros Hc. right. by apply IH.
Qed.

Lemma str_rev_elems s c :
  c ∈ String.list_ascii_of_string (str_rev s) ↔ c ∈ String.list_ascii_of_string s.
Proof.
  unfold str_rev. rewrite String.list_ascii_of_string_of_list_ascii.
  rewrite !list_elem_of_In. symmetry. apply in_rev.
Qed.

Lemma strip_by_sub p s c :
  c ∈ String.list_ascii_of_string (strip_by p s) → c ∈ String.list_ascii_of_string s.
Proof.
  unfold strip_by. rewrite str_rev_elems. intros Hc%lstrip_by_sub. rewrite str_rev_elems in Hc.
  by apply lstrip_by_sub in Hc.
Qed.

Lemma slugify_alphabet name c :
  c ∈ String.list_ascii_of_string (_slugify name) → is_slug_char c = true ∨ c = "-"%char.
Proof.
  unfold _slugify. case_decide as E.
  - simpl. rewrite !elem_of_cons, elem_of_nil. intros [->|[->|[->|[]]]]; by left.
  - intros Hc%strip_by_sub. by eapply sub_runs_alphabet.
Qed.

Lemma slug_taken_spec slug d :
  slug_taken slug d = true ↔ ∃ k a, db_applications d !! k = Some a ∧ app_slug a = slug.
Proof.
  unfold slug_taken. rewrite bool_decide_eq_true.
  pose proof (first_select db_applications (λ a, bool_decide (app_slug a = slug)) d) as Hf.
  destruct (first _) as [[k a]|].
  - rewrite bool_decide_eq_true in Hf. split; [intros _; by exists k, a|by eexists].
  - split; [by intros [? [=]]|]. intros (k & a & Ha & Hs). specialize (Hf k a Ha).
    by rewrite bool_decide_eq_false in Hf.
Qed.

(** The candidates of [_unique_slug], in order. *)
Definition slug_candidates (base : string) (suffix : Z) (n : nat) : list string :=
  map (λ k, base +:+ "-" +:+ str_int k) (seqZ suffix (Z.of_nat n)).

Lemma slug_candidates_nodup base suffix n : NoDup (base :: slug_candidates base suffix n).
Proof.
  apply NoDup_cons. split.
  - unfold slug_candidates. rewrite list_elem_of_fmap. intros (k & E & _).
    by apply (string_app_neq base ("-" +:+ str_int k)).
  - unfold slug_candidates. apply NoDup_fmap_2; [|apply NoDup_seqZ].
    intros x y E. apply string_app_inj in E. injection E as E. by apply (inj (pretty : Z → string)).
Qed.

Lemma taken_bound d l : NoDup l → (∀ s, s ∈ l → slug_taken s d = true) → (length l ≤ size (db_applications d))%nat.
Proof.
  intros Hn Ht.
  assert (l ⊆+ map (λ kv, app_slug kv.2) (map_to_list (db_applications d))) as Hsub.
  { apply NoDup_submseteq; [done|]. intros s Hs.
    apply Ht, slug_taken_spec in Hs as (k & a & Hk & <-).
    apply list_elem_of_fmap. exists (k, a). split; [done|]. by apply elem_of_map_to_list. }
  apply submseteq_length in Hsub. rewrite length_fmap, length_map_to_list in Hsub. lia.
Qed.

(** The search returns a free slug, or every candidate it looked at is taken. *)
Lemma unique_slug_loop_spec n base slug suffix d :
  slug_taken (unique_slug_loop n base slug suffix d) d = false ∨
  ∀ s, s ∈ take n (slug :: slug_candidates base suffix n) → slug_taken s d = true.
Proof.
  revert slug suffix. induction n as [|n IH]; intros slug suffix; simpl.
  - right. intros s Hs. by apply elem_of_nil in Hs.
  - destruct (slug_taken slug d) eqn:Et; [|by left].
    destruct (IH (base +:+ "-" +:+ str_int suffix) (suffix + 1)) as [?|Hall]; [by left|right].
    intros s [->|Hs]%elem_of_cons; [done|]. apply Hall.
    unfold slug_candidates in Hs. replace (Z.of_nat (S n)) with (Z.succ (Z.of_nat n)) in Hs by lia.
    rewrite seqZ_cons in Hs by lia. rewrite Z.pred_succ in Hs. exact Hs.
Qed.

Lemma unique_slug_free base d :
  slug_taken (free_slug base d) d = false.
Proof.
  unfold free_slug. set (n := size (db_applications d)).
  destruct (unique_slug_loop_spec (S n) base base 2 d) as [?|Hall]; [done|exfalso].
  assert (length (take (S n) (base :: slug_candidates base 2 (S n))) ≤ n)%nat as Hlen.
  { apply taken_bound; [|exact Hall].
    eapply sublist_NoDup; [apply slug_candidates_nodup|apply sublist_take]. }
  rewrite length_take in Hlen. simpl in Hlen. unfold slug_candidates in Hlen.
  rewrite length_fmap, length_seqZ in Hlen. lia.
Qed.

(** ** What these leave alone *)

Section keeps.
Context `{Env} (I : invariant) `{!Stable I}.

Lemma keeps_sync_related_rows a c : valid_healer_yaml c = true → keeps I (_sync_related_rows a c).
Proof.
  intros (_ & Href & Hhost)%valid_text_lengths. unfold _sync_related_rows, enum_of.
  assert (opt_fits "sources" "ref" (sc_ref (hy_source c))) as Hr.
  { destruct (sc_ref (hy_source c)) as [ref|] eqn:E; [|done]. solve_fits 255%nat. by apply Href. }
  assert (∀ x, hy_domain c = Some x → fits "domains" "hostname" (dc_hostname x)) as Hd.
  { intros x E. solve_fits 255%nat. by apply Hhost. }
  destruct (255 <? String.length (hlc_path (hy_health c)))%nat eqn:Ep.
  - destruct (hy_domain c) as [x|]; [specialize (Hd x eq_refl)|]; keeps_auto; keeps_settings; done.
  - apply Nat.ltb_ge in Ep. assert (fits "health_checks" "path" (hlc_path (hy_health c))) as Hp by (by solve_fits 255%nat).
    destruct (hy_domain c) as [x|]; [specialize (Hd x eq_refl)|]; keeps_auto; keeps_settings; done.
Qed.

Lemma keeps_create_application c : valid_healer_yaml c = true → keeps I (create_application c).
Proof.
  intros Hv w Hw.
  unfold create_application, _unique_slug, server_exists, query, now, observe, enum_of.
  unfold require_active, mbind, st_bind. simpl.
  destruct (w_active w) eqn:Ha; simpl; [|done].
  destruct (adapter_type_of_value (hy_adapter c)) as [ad|]; simpl; [|done].
  rewrite Ha. simpl.
  pose proof (unique_slug_free (_slugify (hy_name c)) (w_db w)) as Hfree.
  set (slug := free_slug _ _) in *.
  destruct (negb _); [by apply hoare_flush_error|].
  destruct (255 <? String.length slug)%nat eqn:Eslug; [by apply hoare_flush_error|]. apply Nat.ltb_ge in Eslug.
  match goal with |- context [insert_row db_applications ?r ?w'] =>
    destruct (insert_row_run db_applications r w' Ha) as (id & Hid & _ & ->)
  end.
  assert (keeps I (_sync_related_rows id c ;; mret id)) as Hk
    by (pose proof (λ a, keeps_sync_related_rows a c Hv); keeps_auto).
  apply Hk. destruct Hw as (Hdb & Hc & Hdel). split; [|done]. simpl.
  eapply stable; [apply step_application_new|exact Hdb]; [done| |split; solve_fits 255%nat; [|done]; by apply valid_text_lengths].
  intros k b Hb Hslug. apply not_true_iff_false in Hfree. apply Hfree, slug_taken_spec. by exists k, b.
Qed.

Lemma keeps_update_application a c : valid_healer_yaml c = true → keeps I (update_application a c).
Proof.
  intros Hv. pose proof (λ a, keeps_sync_related_rows a c Hv). unfold update_application, enum_of, server_exists. keeps_auto.
  apply keeps_change_application; [done|]. intros b. split; [done|]. split; [done|]. intros _. solve_fits 255%nat.
  by apply valid_text_lengths.
Qed.

End keeps.

#[export] Hint Resolve keeps_create_application keeps_update_application : keeps.
