(* ===== verification/AppValidation.v ===== *)
(** Preflight checks of an application:
    services/control-plane/app/domain/app_validation.py and
    [validate_application_endpoint] of app/api/routes/applications.py.

    The members of an issue may come from a JSON answer that nothing checks, so
    they are JSON values. *)

From S2P Require Import Prelude Python Enums HealerYaml Schema Session Hoare Permissions Repositories.
From S2P Require Import Protocol CommandService Scenario ApplicationService.
Local Open Scope Z_scope.

Record ValidationIssue := {
  vi_field : json;
  vi_severity : json;
  vi_message : json;
}.

Definition _issue (field severity : string) (message : string) : ValidationIssue :=
  {| vi_field := JStr field; vi_severity := JStr severity; vi_message := JStr message |}.

(** ** Against the database *)

Definition _validate_domain_uniqueness (application : uuid) (config : HealerYamlV1) : M (list ValidationIssue) :=
  match hy_domain config with
  | None => mret []
  | Some domain =>
      existing ← query (λ d, first (select db_domains (λ x, bool_decide (dom_hostname x = dc_hostname domain)) d));
      match existing with
      | Some (_, x) =>
          if negb (bool_decide (dom_application_id x = application)) then
            mret [ _issue "domain.hostname" "error"
                     ("hostname " +:+ repr_str (dc_hostname domain) +:+ " is already used by another application") ]
          else mret []
      | None => mret []
      end
  end.

(** The secret is set for the application, or for all of them. *)
Definition has_secret (application : uuid) (name : string) (s : SecretRecord) : bool :=
  bool_decide (sec_key s = name)
  && (bool_decide (sec_application_id s = Some application) || bool_decide (sec_application_id s = None)).

Fixpoint validate_secret_names (application : uuid) (names : list string) : M (list ValidationIssue) :=
  match names with
  | [] => mret []
  | name :: names' =>
      found ← query (λ d, first (select db_secret_records (has_secret application name) d));
      rest ← validate_secret_names application names';
      mret (match found with
            | None => _issue ("secrets." +:+ name) "error" ("secret " +:+ repr_str name +:+ " has not been set") :: rest
            | Some _ => rest
            end)
  end.

Definition _validate_secrets (application : uuid) (config : HealerYamlV1) : M (list ValidationIssue) :=
  validate_secret_names application (hy_secrets config).

Definition _validate_port_range_bookkeeping (application : uuid) (config : HealerYamlV1) : M (list ValidationIssue) :=
  match hy_server_id config with
  | None => mret []
  | Some server =>
      conflicting ← query (select db_instances (λ i,
        bool_decide (inst_server_id i = server) && negb (bool_decide (inst_application_id i = application))
        && (pr_start (hy_ports config) <=? inst_port i) && (inst_port i <=? pr_end (hy_ports config)))%bool);
      match conflicting with
      | [] => mret []
      | _ =>
          let ports := sort_by Z.leb (remove_dups (map (λ kv, inst_port kv.2) conflicting)) in
          mret [ _issue "ports" "warning"
                   ("port(s) [" +:+ join ", " (map str_int ports) +:+
                    "] in this range are already assigned to another application on this server (per Healer's own records)") ]
      end
  end.

(** ** The certificate pair, by the Gateway Manager *)

(** [check["passed"]] and the other members: a value that is not a dictionary
    cannot be indexed by a string. *)
Definition subscript (v : json) (key : string) : M json :=
  match v with
  | JObj kvs => match dict_lookup kvs key with
                | Some x => mret x
                | None => raise KeyError
                end
  | _ => raise TypeError
  end.

Fixpoint certificate_issues `{Env} (checks : list json) : M (list ValidationIssue) :=
  match checks with
  | [] => mret []
  | c :: checks' =>
      passed ← subscript c "passed";
      if truthy passed then certificate_issues checks' else
      name ← subscript c "name";
      severity ← subscript c "severity";
      message ← subscript c "message";
      rest ← certificate_issues checks';
      mret ({| vi_field := JStr ("domain." +:+ py_str env_float_repr name); vi_severity := severity;
               vi_message := message |} :: rest)
  end.

Definition _validate_certificate_pair `{Env} (config : HealerYamlV1) : M (list ValidationIssue) :=
  match hy_domain config with
  | None => mret []
  | Some domain =>
      if negb (str_truthy (dc_cert_path domain)) || negb (str_truthy (dc_key_path domain)) then mret [] else
      reply ← observe (λ t, env_certificates_post t
                (JObj [ ("cert_path", json_opt JStr (dc_cert_path domain));
                        ("key_path", json_opt JStr (dc_key_path domain)) ]));
      match reply with
      | HttpError text =>
          mret [ _issue "domain.cert_path" "warning"
                   ("could not reach the Gateway Manager to verify the certificate pair: " +:+ text) ]
      | HttpInvalidURL text => raise (InvalidURL text)
      | HttpResponse status_code body _ =>
          match body with
          | None => raise (ValueError "the body is not JSON")
          | Some body =>
              b ← as_dict body;
              if negb (status_code =? 200) then
                mret [ {| vi_field := JStr "domain.cert_path"; vi_severity := JStr "error";
                          vi_message := dict_get b "detail" (JStr "certificate validation failed") |} ]
              else
                checks ← py_iter (dict_get b "checks" (JArr []));
                certificate_issues checks
          end
      end
  end%bool.

(** ** The managed server, by its agent *)

Definition _build_validate_app_payload (config : HealerYamlV1) : json :=
  let payload :=
    [ ("adapter", JStr (hy_adapter config));
      ("source", JObj [ ("type", JStr (sc_type (hy_source config)));
                        ("location", JStr (sc_location (hy_source config))) ]);
      ("health_path", JStr (hlc_path (hy_health config)));
      ("port_range_start", JInt (pr_start (hy_ports config)));
      ("port_range_end", JInt (pr_end (hy_ports config))) ] in
  JObj (payload ++
        match hy_windows config with Some c => [("windows", windows_model_dump c)] | None => [] end ++
        match hy_linux config with Some c => [("linux", linux_model_dump c)] | None => [] end).

(** [x in v] *)
Definition py_in (x : string) (v : json) : M bool :=
  match v with
  | JArr l => mret (existsb (λ y, match y with JStr s => String.eqb s x | _ => false end) l)
  | JObj kvs => mret (existsb (λ kv, String.eqb kv.1 x) kvs)
  | JStr s => mret (bool_decide (is_Some (String.index 0 x s)))
  | _ => raise TypeError
  end.

(** The agent's checks that did not pass. *)
Fixpoint agent_issues (checks : list json) : M (list ValidationIssue) :=
  match checks with
  | [] => mret []
  | c :: checks' =>
      kvs ← as_dict c;
      rest ← agent_issues checks';
      mret (if truthy (dict_get kvs "passed" (JBool false)) then rest
            else {| vi_field := dict_get kvs "name" (JStr "agent");
                    vi_severity := dict_get kvs "severity" (JStr "error");
                    vi_message := dict_get kvs "message" (JStr "") |} :: rest)
  end.

(** What the finished command says. *)
Definition command_issues (c : AgentCommand) : M (list ValidationIssue) :=
  if negb (bool_decide (cmd_status c = AgentCommandStatus.SUCCEEDED)
           || bool_decide (cmd_status c = AgentCommandStatus.FAILED)) then
    mret [ _issue "server_id" "warning"
             ("the Agent did not return a validation result in time (command status: "
              +:+ agent_command_status_value (cmd_status c) +:+ ") — try again") ]
  else if str_truthy (cmd_error c) then
    mret [ _issue "server_id" "error" ("Agent validation failed: " +:+ default "" (cmd_error c)) ]
  else
    result ← as_dict (or_empty_dict (cmd_result c));
    checks ← py_iter (dict_get result "checks" (JArr []));
    agent_issues checks.

Definition _validate_on_agent `{Env} (application : uuid) (config : HealerYamlV1) : M (list ValidationIssue) :=
  match hy_server_id config with
  | None => mret [_issue "server_id" "error" "no target server selected"]
  | Some server =>
      agent ← AgentRepository_get_by_server_id server;
      match agent with
      | None => mret [_issue "server_id" "error" "the target server has no enrolled Agent yet"]
      | Some (agent, a) =>
          capabilities ← as_dict (or_empty_dict (ag_capabilities a));
          let adapters := match dict_lookup capabilities "adapters" with
                          | Some v => if truthy v then v else JArr []
                          | None => JArr []
                          end in
          supported ← (if truthy adapters then py_in (hy_adapter config) adapters else mret true);
          if negb supported then
            mret [ _issue "adapter" "error"
                     ("the target server's Agent does not support adapter " +:+ repr_str (hy_adapter config)
                      +:+ " (it reports: " +:+ py_str env_float_repr adapters +:+ ")") ]
          else if negb (bool_decide (ag_status a = AgentStatus.CONNECTED)) then
            mret [ _issue "server_id" "error"
                     "the target server's Agent is not currently connected — cannot run filesystem/interpreter/Docker/port checks on it right now" ]
          else
            nonce ← uuid4;
            command ← submit_command_and_wait agent AgentCommandType.VALIDATE_APP (_build_validate_app_payload config)
              ("validate-app:" +:+ str_uuid application +:+ ":" +:+ str_uuid nonce) None 30;
            c ← row db_agent_commands command;
            command_issues c
      end
  end.

Definition validate_application `{Env} (application : uuid) (config : HealerYamlV1) : M (list ValidationIssue) :=
  issues1 ← _validate_domain_uniqueness application config;
  issues2 ← _validate_secrets application config;
  issues3 ← _validate_port_range_bookkeeping application config;
  issues4 ← _validate_certificate_pair config;
  issues5 ← _validate_on_agent application config;
  mret (issues1 ++ issues2 ++ issues3 ++ issues4 ++ issues5).

(** [i.severity == "error"] *)
Definition is_error (i : ValidationIssue) : bool :=
  match vi_severity i with
  | JStr s => String.eqb s "error"
  | _ => false
  end.

(** ** Validation writes only the agents' tables *)

Section keeps.
Context `{Env} (I : invariant) `{!AgentStable I}.

Lemma keeps_validate_secret_names a l : keeps I (validate_secret_names a l).
Proof. induction l; simpl; keeps_auto. Qed.

Lemma keeps_certificate_issues l : keeps I (certificate_issues l).
Proof. induction l; simpl; unfold subscript; keeps_auto. Qed.

Lemma keeps_agent_issues l : keeps I (agent_issues l).
Proof. induction l; simpl; unfold as_dict; keeps_auto. Qed.

Lemma keeps_validate_application a c : keeps I (validate_application a c).
Proof.
  pose proof keeps_validate_secret_names. pose proof keeps_certificate_issues. pose proof keeps_agent_issues.
  unfold validate_application, _validate_domain_uniqueness, _validate_secrets, _validate_port_range_bookkeeping,
    _validate_certificate_pair, _validate_on_agent, command_issues, py_in, AgentRepository_get_by_server_id,
    as_dict, py_iter. keeps_auto.
Qed.

End keeps.

#[export] Hint Resolve keeps_validate_application : keeps.

(** ** What the absence of errors means *)

Lemma bind_Ok {A B} (m : M A) (f : A → M B) w b w' :
  (m ≫= f) w = (Ok b, w') → ∃ a w1, m w = (Ok a, w1) ∧ f a w1 = (Ok b, w').
Proof. unfold mbind, st_bind. destruct (m w) as [[a|e] w1]; [|done]. eauto. Qed.

Definition no_error (issues : list ValidationIssue) : Prop := ∀ i, i ∈ issues → is_error i = false.

Lemma no_error_app l k : no_error (l ++ k) ↔ no_error l ∧ no_error k.
Proof. unfold no_error. setoid_rewrite elem_of_app. naive_solver. Qed.

Lemma no_error_cons i l : no_error (i :: l) ↔ is_error i = false ∧ no_error l.
Proof. unfold no_error. setoid_rewrite elem_of_cons. naive_solver. Qed.

(** The agent of the target server is connected, and if it reports which adapters
    it has, the application's is among them: one that reports none is trusted. *)
Definition able_agent (d : DB) (config : HealerYamlV1) : Prop :=
  ∃ server agent a, hy_server_id config = Some server ∧ db_agents d !! agent = Some a ∧ ag_server_id a = server ∧
    ag_status a = AgentStatus.CONNECTED ∧
    ∀ kvs adapters, ag_capabilities a = Some (JObj kvs) → dict_lookup kvs "adapters" = Some (JArr adapters) →
      adapters ≠ [] → JStr (hy_adapter config) ∈ adapters.

Definition secrets_set (d : DB) (application : uuid) (config : HealerYamlV1) : Prop :=
  ∀ name, name ∈ hy_secrets config →
    ∃ id s, db_secret_records d !! id = Some s ∧ has_secret application name s = true.

Definition hostname_free (d : DB) (application : uuid) (config : HealerYamlV1) : Prop :=
  ∀ domain id x, hy_domain config = Some domain → db_domains d !! id = Some x →
    dom_hostname x = dc_hostname domain → dom_application_id x = application.

Section sound.
Context `{Env} (application : uuid) (config : HealerYamlV1).

Lemma domain_uniqueness_sound w issues w' :
  ready w → (∀ k1 k2 x1 x2, db_domains (w_db w) !! k1 = Some x1 → db_domains (w_db w) !! k2 = Some x2 →
    dom_hostname x1 = dom_hostname x2 → k1 = k2) →
  _validate_domain_uniqueness application config w = (Ok issues, w') →
  w' = w ∧ (no_error issues → hostname_free (w_db w) application config).
Proof.
  intros [Ha _] Hu. unfold _validate_domain_uniqueness, hostname_free. destruct (hy_domain config) as [domain|].
  2: { intros [= <- <-]. naive_solver. }
  rewrite (bind_run _ _ _ _ _ (query_run _ w Ha)).
  pose proof (first_select db_domains (λ x, bool_decide (dom_hostname x = dc_hostname domain)) (w_db w)) as Hf.
  destruct (first _) as [[k x]|]; [|intros [= <- <-]; split; [done|]; intros _ ? id y [= <-] Hy Hh;
    by specialize (Hf id y Hy); rewrite bool_decide_true in Hf].
  destruct Hf as [Hx Hh%bool_decide_eq_true]. case_bool_decide as Hx'; simpl; intros [= <- <-]; (split; [done|]).
  - intros _ ? id y [= <-] Hy Hh'. assert (id = k) as -> by (eapply Hu; [done|done|congruence]). congruence.
  - intros Hno. by specialize (Hno _ ltac:(left)).
Qed.

Lemma secrets_sound names w issues w' :
  ready w → validate_secret_names application names w = (Ok issues, w') →
  w' = w ∧ (no_error issues → ∀ name, name ∈ names →
    ∃ id s, db_secret_records (w_db w) !! id = Some s ∧ has_secret application name s = true).
Proof.
  intros [Ha _]. revert issues w'. induction names as [|n names IH]; intros issues w'; simpl.
  { intros [= <- <-]. split; [done|]. intros _ name Hin. by apply elem_of_nil in Hin. }
  rewrite (bind_run _ _ _ _ _ (query_run _ w Ha)).
  pose proof (first_select db_secret_records (has_secret application n) (w_db w)) as Hf.
  intros (rest & w1 & E & Er)%bind_Ok. apply IH in E as [-> Hrest].
  injection Er as <- <-. split; [done|].
  destruct (first _) as [[k s]|].
  - intros Hno name [->|Hin]%elem_of_cons; [by exists k, s|by apply Hrest].
  - intros [He _]%no_error_cons. done.
Qed.

(** The checks that only read leave the session as it was, but for the clock. *)
Lemma port_range_run w issues w' :
  ready w → _validate_port_range_bookkeeping application config w = (Ok issues, w') → w' = w.
Proof.
  intros [Ha _]. unfold _validate_port_range_bookkeeping. destruct (hy_server_id config); [|by intros [= <- <-]].
  rewrite (bind_run _ _ _ _ _ (query_run _ w Ha)). by destruct (select _ _ _); intros [= <- <-].
Qed.

Lemma subscript_run v key w x w' : subscript v key w = (Ok x, w') → w' = w.
Proof. unfold subscript. destruct v; try done. destruct (dict_lookup _ _); [by intros [= _ <-]|done]. Qed.

Lemma certificate_issues_run l w issues w' : certificate_issues l w = (Ok issues, w') → w' = w.
Proof.
  revert issues w'. induction l as [|c l IH]; intros issues w'; simpl; [by intros [= _ <-]|].
  intros (p & w1 & ->%subscript_run & E)%bind_Ok. destruct (truthy p); [by eapply IH|].
  apply bind_Ok in E as (? & ? & ->%subscript_run & E). apply bind_Ok in E as (? & ? & ->%subscript_run & E).
  apply bind_Ok in E as (? & ? & ->%subscript_run & E). apply bind_Ok in E as (? & ? & ->%IH & E).
  by injection E as _ <-.
Qed.

Lemma certificate_pair_run w issues w' :
  _validate_certificate_pair config w = (Ok issues, w') → w_db w' = w_db w ∧ w_active w' = w_active w.
Proof.
  unfold _validate_certificate_pair. destruct (hy_domain config) as [domain|]; [|by intros [= _ <-]].
  destruct (_ || _)%bool; [by intros [= _ <-]|]. intros (reply & w1 & E & Hr)%bind_Ok.
  injection E as <- <-. destruct (env_certificates_post _ _) as [code [body|] ms|text|text]; [|done|by injection Hr as _ <-|done].
  apply bind_Ok in Hr as (b & w2 & Eb & Hr). assert (w2 = w <| w_tick := S (w_tick w) |>) as ->.
  { destruct body; try done. by injection Eb as _ <-. }
  destruct (negb _); [by injection Hr as _ <-|]. apply bind_Ok in Hr as (l & w3 & El & Hr).
  assert (w3 = w <| w_tick := S (w_tick w) |>) as ->; [|by apply certificate_issues_run in Hr as ->].
  destruct (dict_get b "checks" (JArr [])); try done; by injection El as _ <-.
Qed.

(** A list of adapters that does not name the application's is an error. *)
Lemma on_agent_sound w issues w' :
  w_active w = true → _validate_on_agent application config w = (Ok issues, w') → no_error issues →
  able_agent (w_db w) config.
Proof.
  intros Ha Hrun Hno. unfold _validate_on_agent in Hrun. destruct (hy_server_id config) as [server|] eqn:Es.
  2: { injection Hrun as <- _. by specialize (Hno _ ltac:(left)). }
  unfold AgentRepository_get_by_server_id in Hrun. rewrite (bind_run _ _ _ _ _ (query_run _ w Ha)) in Hrun.
  pose proof (first_select db_agents (λ a, bool_decide (ag_server_id a = server)) (w_db w)) as Hf.
  destruct (first _) as [[agent a]|].
  2: { injection Hrun as <- _. by specialize (Hno _ ltac:(left)). }
  destruct Hf as [Hag Hsrv%bool_decide_eq_true]. exists server, agent, a. do 3 (split; [done|]).
  apply bind_Ok in Hrun as (caps & w1 & Ecaps & Hrun). apply bind_Ok in Hrun as (supported & w2 & Esup & Hrun).
  destruct supported; simpl in Hrun.
  2: { injection Hrun as <- _. by specialize (Hno _ ltac:(left)). }
  case_bool_decide as Hcon; simpl in Hrun.
  2: { injection Hrun as <- _. by specialize (Hno _ ltac:(left)). }
  split; [done|]. intros kvs adapters Ecap Elook Hne. rewrite Ecap in Ecaps. unfold or_empty_dict in Ecaps.
  destruct kvs as [|kv kvs]; [done|]. simpl in Ecaps. injection Ecaps as <- <-. rewrite Elook in Esup.
  destruct adapters as [|x adapters]; [done|]. cbn [truthy] in Esup. injection Esup as Hex _. simpl in Hex.
  change ((existsb (λ y, match y with JStr s => String.eqb s (hy_adapter config) | _ => false end) (x :: adapters)) = true)
    in Hex.
  apply existsb_exists in Hex as ([] & Hin & Heq); try done. apply String.eqb_eq in Heq as ->. by apply list_elem_of_In.
Qed.

End sound.

(** C40. A clean bill of health means something: when validation reports no error,
    every secret the descriptor names is set, the hostname is not another
    application's, and the target server has a connected agent which, if it
    reports any adapters, reports the application's (an agent that has not said
    hello yet, or reports none, passes). Whatever it reports, validation changes no
    table but the agents'. *)
Theorem validation_is_sound `{Env} application config w :
  ready w → w_committed w = w_db w →
  (∀ k1 k2 x1 x2, db_domains (w_db w) !! k1 = Some x1 → db_domains (w_db w) !! k2 = Some x2 →
    dom_hostname x1 = dom_hostname x2 → k1 = k2) →
  let '(r, w') := validate_application application config w in
  agent_frame (w_db w) (w_committed w') ∧
  ∀ issues, r = Ok issues → no_error issues →
    secrets_set (w_db w) application config ∧ hostname_free (w_db w) application config ∧ able_agent (w_db w) config.
Proof.
  intros Hw Hc Hu. destruct (validate_application application config w) as [r w'] eqn:E. split.
  - destruct (keeps_validate_application (snapshot (w_db w)) application config w (snapshot_inv w Hw Hc)) as [Hi _].
    rewrite E in Hi. apply Hi.
  - intros issues -> Hno. unfold validate_application in E.
    apply bind_Ok in E as (i1 & w1 & E1 & E). apply domain_uniqueness_sound in E1 as [-> H1]; [|done..].
    apply bind_Ok in E as (i2 & w2 & E2 & E). apply secrets_sound in E2 as [-> H2]; [|done].
    apply bind_Ok in E as (i3 & w3 & E3 & E). apply port_range_run in E3 as ->; [|done].
    apply bind_Ok in E as (i4 & w4 & E4 & E). apply certificate_pair_run in E4 as [Edb4 Ea4].
    apply bind_Ok in E as (i5 & w5 & E5 & E). injection E as <- _. rewrite !no_error_app in Hno.
    destruct Hno as (N1 & N2 & _ & _ & N5). split; [intros name Hn; by apply H2|]. split; [by apply H1|].
    rewrite <-Edb4. eapply on_agent_sound; [|exact E5|done]. rewrite Ea4. apply Hw.
Qed.

(** ** A concrete run *)

Definition certificate_answer : HttpReply :=
  HttpResponse 200 (Some (JObj [("checks", JArr [JObj [("name", JStr "cert_path"); ("passed", JBool true)]])])) 5.

Definition agent_answer : json :=
  JObj [("checks", JArr [ JObj [("name", JStr "port"); ("passed", JBool true)];
                          JObj [("name", JStr "disk"); ("severity", JStr "warning"); ("message", JStr "nearly full")] ])].

Definition validation_outside : Env :=
  outside_with (λ t, if decide (t = 6%nat) then concat (map (finish_with agent_answer) [100%N; 101%N; 102%N]) else [])
    probe_ok gateway_ok certificate_answer.

Definition validation_world : World := demo_world (demo_db "deploy" 1).

Definition validation_issues : list ValidationIssue :=
  [{| vi_field := JStr "disk"; vi_severity := JStr "warning"; vi_message := JStr "nearly full" |}].

Lemma validation_is_sound_witness :
  (validate_application (H:=validation_outside) app1 demo_config validation_world).1 = Ok validation_issues ∧
  secrets_set (w_db validation_world) app1 demo_config ∧ hostname_free (w_db validation_world) app1 demo_config ∧
  able_agent (w_db validation_world) demo_config.
Proof.
  assert ((validate_application (H:=validation_outside) app1 demo_config validation_world).1 = Ok validation_issues) as E
    by (vm_compute; reflexivity).
  split; [exact E|]. assert (ready validation_world) as Hready by (split; exact eq_refl).
  pose proof (validation_is_sound (H:=validation_outside) app1 demo_config validation_world Hready eq_refl) as Hsound.
  destruct (validate_application _ _ _) as [r w']. simpl in E. refine (proj2 (Hsound _) validation_issues E _).
  - intros k1 k2 x1 x2. unfold validation_world. simpl. intros [<- _]%lookup_singleton_Some [<- _]%lookup_singleton_Some. done.
  - intros i Hi. apply list_elem_of_singleton in Hi as ->. reflexivity.
Defined.
