(* ===== verification/CertificateProperties.v ===== *)
(** The two services together: what the preflight check of the control plane
    ([AppValidation]) makes of the Gateway Manager's verdict on a certificate
    pair ([Certificates]). *)

From S2P Require Import Prelude Python Enums HealerYaml Schema Session Hoare Certificates AppValidation Scenario.
Local Open Scope Z_scope.

(** ** The answer on the wire *)

Definition check_json (c : CheckResult) : json :=
  JObj [ ("name", JStr (cr_name c)); ("severity", JStr (cr_severity c)); ("passed", JBool (cr_passed c));
         ("message", JStr (cr_message c)) ].

Definition response_json (r : CertificateValidateResponse) : json :=
  JObj [ ("ok", JBool (cv_ok r)); ("checks", JArr (map check_json (cv_checks r)));
         ("subject", json_opt JStr (cv_subject r)); ("issuer", json_opt JStr (cv_issuer r));
         ("not_valid_before", json_opt JStr (cv_not_valid_before r));
         ("not_valid_after", json_opt JStr (cv_not_valid_after r)) ].

Definition request_json (cert_path key_path : string) : json :=
  JObj [("cert_path", JStr cert_path); ("key_path", JStr key_path)].

(** The outside world posts to a Gateway Manager whose clock shows [now_]. *)
Definition gateway_answers `{CertEnv} `{Env} (now_ : Z) (t : nat) (cert_path key_path : string) : Prop :=
  match validate_certificate now_ cert_path key_path with
  | inr r => ∃ ms, env_certificates_post t (request_json cert_path key_path) = HttpResponse 200 (Some (response_json r)) ms
  | inl _ => False
  end.

(** A failed check as the control plane reports it. *)
Definition check_issue (c : CheckResult) : ValidationIssue :=
  {| vi_field := JStr ("domain." +:+ cr_name c); vi_severity := JStr (cr_severity c); vi_message := JStr (cr_message c) |}.

Lemma certificate_issues_of_checks `{Env} checks w :
  certificate_issues (map check_json checks) w =
  (Ok (map check_issue (List.filter (λ c, negb (cr_passed c)) checks)), w).
Proof.
  assert (∀ c, subscript (check_json c) "passed" w = (Ok (JBool (cr_passed c)), w)) as Hp by done.
  assert (∀ c, subscript (check_json c) "name" w = (Ok (JStr (cr_name c)), w)) as Hn by done.
  assert (∀ c, subscript (check_json c) "severity" w = (Ok (JStr (cr_severity c)), w)) as Hs by done.
  assert (∀ c, subscript (check_json c) "message" w = (Ok (JStr (cr_message c)), w)) as Hm by done.
  induction checks as [|c checks IH]; [done|]. cbn [map certificate_issues].
  rewrite (bind_run _ _ _ _ _ (Hp c)). cbn [truthy List.filter]. destruct (cr_passed c); [exact IH|].
  rewrite (bind_run _ _ _ _ _ (Hn c)), (bind_run _ _ _ _ _ (Hs c)), (bind_run _ _ _ _ _ (Hm c)).
  by rewrite (bind_run _ _ _ _ _ IH).
Qed.

Lemma issues_acceptable checks :
  existsb is_error (map check_issue (List.filter (λ c, negb (cr_passed c)) checks)) = negb (forallb acceptable checks).
Proof.
  induction checks as [|c checks IH]; [done|]. simpl. unfold acceptable at 1.
  destruct (cr_passed c); simpl; [exact IH|]. rewrite IH. unfold is_error at 1. simpl.
  by destruct (String.eqb (cr_severity c) "error").
Qed.

(** C39. The two services agree on certificates: when the Gateway Manager answers
    the preflight check, the control plane reports exactly the checks that
    failed, and it reports an error exactly when the pair is unusable (a file
    that cannot be read, no certificate with its unencrypted private key, or a
    certificate that has expired). *)
Theorem certificate_verdicts_agree `{CertEnv} `{Env} config domain cert_path key_path now_ w :
  hy_domain config = Some domain → dc_cert_path domain = Some cert_path → dc_key_path domain = Some key_path →
  cert_path ≠ "" → key_path ≠ "" → gateway_answers now_ (w_tick w) cert_path key_path →
  ∃ r issues w', validate_certificate now_ cert_path key_path = inr r ∧
    _validate_certificate_pair config w = (Ok issues, w') ∧ w_db w' = w_db w ∧
    issues = map check_issue (List.filter (λ c, negb (cr_passed c)) (cv_checks r)) ∧
    (existsb is_error issues = false ↔ usable_pair now_ cert_path key_path).
Proof.
  intros Hd Hc Hk Hnc Hnk Hans. pose proof (validate_certificate_verdict now_ cert_path key_path) as Hv.
  unfold gateway_answers in Hans. destruct (validate_certificate now_ cert_path key_path) as [|r]; [done|].
  destruct Hans as [ms Hpost]. destruct Hv as [Hok Hall].
  eexists r, _, (w <| w_tick := S (w_tick w) |>). split; [done|]. split; [|split; [done|split; [reflexivity|]]].
  - unfold _validate_certificate_pair. rewrite Hd, Hc, Hk. unfold str_truthy. rewrite !bool_decide_eq_false_2 by done.
    cbn [negb orb]. unfold mbind at 1, st_bind at 1. cbn [observe].
    unfold request_json in Hpost. unfold observe, mbind, st_bind. cbn [gets modify mret st_ret json_opt]. rewrite Hpost.
    cbn. apply certificate_issues_of_checks.
  - rewrite issues_acceptable, <-Hall, negb_false_iff. exact Hok.
Qed.

(** ** A concrete pair *)

(** A certificate that expires in ten days, with its key. *)
#[export] Instance demo_certificates : CertEnv :=
  {| Certificate := unit; PrivateKey := unit; isfile := λ _, true; access_read := λ _, true; read_file := inr;
     load_pem_x509_certificate := λ _, Some tt; load_der_x509_certificate := λ _, None;
     load_pem_private_key := λ _, KeyLoaded tt; load_der_private_key := λ _, KeyValueError;
     cert_public_key_bytes := λ _, Some "key"; key_public_key_bytes := λ _, Some "key";
     not_valid_before_utc := λ _, 0; not_valid_after_utc := λ _, t0 + days 10; fingerprint_hex := λ _, "00";
     subject_rfc4514 := λ _, "CN=demo"; issuer_rfc4514 := λ _, "CN=ca" |}.

Definition demo_verdict : CertificateValidateResponse :=
  match validate_certificate t0 "/etc/demo.pem" "/etc/demo.key" with
  | inr r => r
  | inl _ => response false []
  end.

Definition certificate_outside : Env :=
  outside_with (λ _, []) probe_ok gateway_ok (HttpResponse 200 (Some (response_json demo_verdict)) 5).

Lemma certificate_verdicts_agree_witness :
  ∃ r issues w', validate_certificate t0 "/etc/demo.pem" "/etc/demo.key" = inr r ∧
    _validate_certificate_pair (H:=certificate_outside) demo_config validation_world = (Ok issues, w') ∧
    length issues = 1%nat ∧ existsb is_error issues = false.
Proof.
  destruct (certificate_verdicts_agree (H0:=certificate_outside) demo_config
    {| dc_hostname := "demo.example.org"; dc_cert_path := Some "/etc/demo.pem"; dc_key_path := Some "/etc/demo.key" |}
    "/etc/demo.pem" "/etc/demo.key" t0 validation_world) as (r & issues & w' & Hr & Hrun & _ & Hissues & _);
    [reflexivity..|discriminate|discriminate| |].
  - exists 5. reflexivity.
  - exists r, issues, w'. split; [exact Hr|]. split; [exact Hrun|]. subst issues.
    assert (r = demo_verdict) as -> by (unfold demo_verdict; by rewrite Hr). split; vm_compute; reflexivity.
Defined.
