(* ===== verification/AuditService.v ===== *)
(** Audit trail, secrets and notifications: services/control-plane/app/services/
    audit_service.py, secret_service.py and the administrator notification of
    self_healing_service.py. *)

From S2P Require Import Prelude Python Enums Schema Session Hoare Widths Permissions Protocol.
Local Open Scope Z_scope.

(** ** audit_service *)

Definition add_audit (e : AuditLog) : M unit :=
  db_modify (λ d, d <| db_audit_logs := db_audit_logs d ++ [e] |>).

Definition record `{Env} (actor_id : option uuid) (action target_type target_id : string)
    (detail : option json) : M unit :=
  occurred_at ← now;
  add_audit {| au_actor_id := actor_id; au_action := action; au_target_type := target_type;
               au_target_id := target_id; au_detail := detail; au_occurred_at := occurred_at |} ;;
  flush.

(** ** secret_service *)

Definition decrypt_secret `{Env} (token : string) : M string :=
  match env_decrypt token with
  | Some v => mret v
  | None => raise SecretDecryptionError
  end.

Definition secrets_of (application_id : uuid) (d : DB) : list (uuid * SecretRecord) :=
  select db_secret_records (λ s, bool_decide (sec_application_id s = Some application_id)) d.

Fixpoint decrypt_all `{Env} (l : list (uuid * SecretRecord)) : M (list (string * string)) :=
  match l with
  | [] => mret []
  | (_, s) :: l' =>
      if decide (sec_encrypted_value s = "") then decrypt_all l' else
      v ← decrypt_secret (sec_encrypted_value s);
      rest ← decrypt_all l';
      mret ((sec_key s, v) :: rest)
  end.

Definition get_secret_dict `{Env} (application_id : uuid) : M (list (string * string)) :=
  records ← query (secrets_of application_id);
  kvs ← decrypt_all records;
  mret (dict_update [] kvs).

Definition get_secret_values `{Env} (application_id : uuid) : M (list string) :=
  records ← query (secrets_of application_id);
  kvs ← decrypt_all records;
  mret (map snd kvs).

Definition encrypt_secret `{Env} (value : string) : M string := observe (λ t, env_encrypt t value).

Definition secret_named (application_id : uuid) (key : string) (s : SecretRecord) : bool :=
  bool_decide (sec_application_id s = Some application_id) && bool_decide (sec_key s = key).

(** [session.add(SecretRecord(...))]: the key is a [String(255)], and unique for
    its application. *)
Definition insert_secret (s : SecretRecord) : M uuid :=
  key ← text_value (Some 255%nat) (JStr (sec_key s));
  insert_unique db_secret_records (λ t, (bool_decide (sec_application_id t = sec_application_id s)
                                         && bool_decide (sec_key t = sec_key s))%bool) s.

Definition set_secret `{Env} (application_id : uuid) (key value : string) : M uuid :=
  encrypted ← encrypt_secret value;
  record_ ← query (λ d, first (select db_secret_records (secret_named application_id key) d));
  id ← match record_ with
       | None => insert_secret {| sec_application_id := Some application_id; sec_key := key;
                                  sec_encrypted_value := encrypted |}
       | Some (id, _) => assign db_secret_records id (λ s, s <| sec_encrypted_value := encrypted |>) ;; mret id
       end;
  flush ;;
  mret id.

Definition list_secret_keys (application_id : uuid) : M (list (uuid * SecretRecord)) :=
  query (λ d, sort_by (λ x y, String.leb (sec_key x.2) (sec_key y.2)) (secrets_of application_id d)).

Definition delete_secret (application_id : uuid) (key : string) : M bool :=
  record_ ← query (λ d, first (select db_secret_records (secret_named application_id key) d));
  match record_ with
  | None => mret false
  | Some (id, _) =>
      db_modify (λ d, d <| db_secret_records := delete id (db_secret_records d) |>) ;;
      flush ;;
      mret true
  end.

(** ** Reading the audit log *)

Record AuditEntryView := {
  av_actor_id : option uuid;
  av_actor_email : option string;
  av_action : string;
  av_target_type : string;
  av_target_id : string;
  av_detail : option json;
  av_occurred_at : Z;
}.

Definition audit_DEFAULT_LIMIT : Z := 100.
Definition audit_MAX_LIMIT : Z := 500.

(** [action] and [target_type] filter when they are given and not empty. *)
Definition audit_matches (action target_type : option string) (e : AuditLog) : bool :=
  (negb (str_truthy action) || bool_decide (Some (au_action e) = action))
  && (negb (str_truthy target_type) || bool_decide (Some (au_target_type e) = target_type)).

Definition audit_view (d : DB) (e : AuditLog) : AuditEntryView :=
  {| av_actor_id := au_actor_id e;
     av_actor_email := user ← au_actor_id e; user_email <$> db_users d !! user;
     av_action := au_action e; av_target_type := au_target_type e; av_target_id := au_target_id e;
     av_detail := au_detail e; av_occurred_at := au_occurred_at e |}.

Definition list_entries (action target_type : option string) (limit : option Z) : M (list AuditEntryView) :=
  let limit := match limit with
               | Some n => if (n =? 0) || (n <=? 0) || (audit_MAX_LIMIT <? n) then audit_DEFAULT_LIMIT else n
               | None => audit_DEFAULT_LIMIT
               end%bool in
  query (λ d, map (audit_view d)
    (take (Z.to_nat limit)
       (order_by_desc au_occurred_at (List.filter (audit_matches action target_type) (db_audit_logs d))))).

(** The route. *)
Definition list_audit_log (action target_type : option string) (limit : Z) : M (list AuditEntryView) :=
  list_entries action target_type (Some limit).

(** ** Notifications *)

(** routes/notifications.py: those addressed to the user or to everyone. *)
Definition addressed_to (user : uuid) (n : Notification) : bool :=
  bool_decide (n_user_id n = Some user) || bool_decide (n_user_id n = None).

Definition list_notifications (user : uuid) : M (list (uuid * Notification)) :=
  query (λ d, take 100 (order_by_desc (λ kn, n_created_at kn.2) (select db_notifications (addressed_to user) d))).

Definition mark_notification_read `{Env} (notification_id user : uuid) : M unit :=
  notification ← session_get db_notifications notification_id;
  match notification with
  | None => raise (HTTPException HTTP_404_NOT_FOUND "notification not found")
  | Some n =>
      if addressed_to user n then
        now_ ← now;
        assign db_notifications notification_id (λ n, n <| n_read_at := Some now_ |>)
      else raise (HTTPException HTTP_404_NOT_FOUND "notification not found")
  end.

Definition add_notification `{Env} (user_id : option uuid) (notification_type message : string) : M unit :=
  created_at ← now;
  insert_row db_notifications
    {| n_user_id := user_id; n_notification_type := notification_type; n_message := message;
       n_read_at := None; n_created_at := created_at |} ;;
  mret tt.

(** ** What these leave alone *)

Section keeps.
Context `{Env} (I : invariant).

Lemma keeps_add_audit `{!RecordStable I} e : keeps I (add_audit e).
Proof. unfold add_audit. keeps_auto. Qed.

Lemma keeps_record `{!RecordStable I} a1 a2 a3 a4 a5 : keeps I (record a1 a2 a3 a4 a5).
Proof. unfold record. pose proof keeps_add_audit. keeps_auto. Qed.

Lemma keeps_decrypt_all l : keeps I (decrypt_all l).
Proof. induction l as [|[? ?]]; simpl; unfold decrypt_secret; keeps_auto. Qed.

Lemma keeps_get_secret_dict a : keeps I (get_secret_dict a).
Proof. pose proof keeps_decrypt_all. unfold get_secret_dict. keeps_auto. Qed.

Lemma keeps_get_secret_values a : keeps I (get_secret_values a).
Proof. pose proof keeps_decrypt_all. unfold get_secret_values. keeps_auto. Qed.

Lemma keeps_set_secret `{!Stable I} a k v : keeps I (set_secret a k v).
Proof.
  assert (∀ s, keeps I (insert_secret s)) as Hins.
  { intros s. unfold insert_secret. eapply hoare_bind; [apply hoare_text_value|]. intros text Hlen. simpl in Hlen.
    apply keeps_new_secret; [done|]. by solve_fits 255%nat. }
  unfold set_secret, encrypt_secret. keeps_auto.
Qed.

Lemma keeps_delete_secret `{!Stable I} a k : keeps I (delete_secret a k).
Proof. unfold delete_secret. keeps_auto. Qed.

Lemma keeps_mark_notification_read `{!RecordStable I} n u : keeps I (mark_notification_read n u).
Proof. unfold mark_notification_read. keeps_auto. Qed.

Lemma keeps_add_notification `{!RecordStable I} u t m : keeps I (add_notification u t m).
Proof. unfold add_notification. keeps_auto. Qed.

End keeps.

#[export] Hint Resolve keeps_add_audit keeps_record keeps_get_secret_dict keeps_add_notification : keeps.
#[export] Hint Resolve keeps_get_secret_values keeps_set_secret keeps_delete_secret keeps_mark_notification_read : keeps.
