(* ===== verification/AuthService.v ===== *)
(** Accounts and sessions: services/control-plane/app/services/auth_service.py
    and user_service.py, app/api/routes/auth.py and users.py, db/seed.py and
    cli/bootstrap_admin.py.

    A handler that answers returns the cookies it set; an [HTTPException]
    answers with a response of its own, so the cookies a handler set before it
    raises are lost. *)

From S2P Require Import Prelude Python Sha256 Enums Schema Session Hoare Permissions Repositories.
From S2P Require Import Widths Security Protocol AuditService.
Local Open Scope Z_scope.

(** ** Constraints of user.py *)

Definition insert_refresh_session (r : RefreshSession) : M uuid :=
  insert_unique db_refresh_sessions (λ s, bool_decide (rs_token_hash s = rs_token_hash r)) r.

(** The e-mail address is a [String(320)], and unique. *)
Definition insert_user (u : User) : M uuid :=
  text_value (Some 320%nat) (JStr (user_email u)) ;;
  insert_unique db_users (λ v, bool_decide (user_email v = user_email u)) u.

(** [session.add(UserRole(...))], whose primary key is the pair. *)
Definition insert_user_role (user role : uuid) : M unit :=
  taken ← query (λ d, existsb (λ x, (bool_decide (ur_user_id x = user) && bool_decide (ur_role_id x = role))%bool)
                        (db_user_roles d));
  if taken : bool then flush_error IntegrityError
  else db_modify (λ d, d <| db_user_roles := db_user_roles d ++ [ {| ur_user_id := user; ur_role_id := role |} ] |>).

(** ** auth_service *)

Definition authenticate `{Security} (email password : string) : M uuid :=
  user ← get_by_email (lower (strip email));
  match user with
  | None => raise (AuthError "invalid_credentials")
  | Some (id, u) =>
      if negb (user_is_active u) then raise (AuthError "invalid_credentials") else
      ok ← verify_password password (user_password_hash u);
      if negb ok then raise (AuthError "invalid_credentials") else mret id
  end.

(** [sorted] of a set of strings. *)
Definition sorted_set (l : list string) : list string := sort_by String.leb (remove_dups l).

Definition role_names (user : uuid) (d : DB) : list string :=
  omap (λ x, if decide (ur_user_id x = user) then role_name <$> db_roles d !! ur_role_id x else None)
    (db_user_roles d).

Definition get_role_names (user : uuid) : M (list string) := query (λ d, sorted_set (role_names user d)).

Definition _revoke_all_for_user `{Env} (user_id : uuid) : M unit :=
  now_ ← now;
  rows ← query (select db_refresh_sessions (λ r, (bool_decide (rs_user_id r = user_id)
                                                  && bool_decide (rs_revoked_at r = None))%bool));
  for_each rows (λ '(id, _), assign db_refresh_sessions id (λ r, r <| rs_revoked_at := Some now_ |>)) ;;
  flush.

Definition change_password `{Env} `{Security} (user : uuid) (current_password new_password : string) : M unit :=
  u ← row db_users user;
  ok ← verify_password current_password (user_password_hash u);
  if negb ok then raise (AuthError "invalid_credentials") else
  password_hash ← hash_password new_password;
  assign db_users user (λ u, u <| user_password_hash := password_hash |>) ;;
  _revoke_all_for_user user ;;
  commit.

Definition create_refresh_session `{Env} `{Security} (user : uuid) : M (string * uuid) :=
  raw_token ← generate_token;
  now_ ← now;
  id ← insert_refresh_session
         {| rs_user_id := user; rs_token_hash := hash_token raw_token;
            rs_expires_at := now_ + days refresh_token_ttl_days; rs_revoked_at := None |};
  flush ;;
  mret (raw_token, id).

Definition session_of_token (raw_token : string) : M (option (uuid * RefreshSession)) :=
  query (λ d, first (select db_refresh_sessions (λ r, bool_decide (rs_token_hash r = hash_token raw_token)) d)).

Definition rotate_refresh_session `{Env} `{Security} (raw_token : string) : M (string * uuid * uuid) :=
  row_ ← session_of_token raw_token;
  match row_ with
  | None => raise (AuthError "invalid_refresh_token")
  | Some (id, r) =>
      now_ ← now;
      if bool_decide (is_Some (rs_revoked_at r)) then
        _revoke_all_for_user (rs_user_id r) ;;
        raise (AuthError "refresh_token_reused")
      else if rs_expires_at r <? now_ then raise (AuthError "refresh_token_expired") else
      user ← session_get db_users (rs_user_id r);
      match user with
      | None => raise (AuthError "invalid_user")
      | Some u =>
          if negb (user_is_active u) then raise (AuthError "invalid_user") else
          assign db_refresh_sessions id (λ r, r <| rs_revoked_at := Some now_ |>) ;;
          '(new_raw_token, new_row) ← create_refresh_session (rs_user_id r);
          flush ;;
          mret (new_raw_token, new_row, rs_user_id r)
      end
  end.

Definition revoke_refresh_session `{Env} (raw_token : string) : M (option uuid) :=
  row_ ← session_of_token raw_token;
  match row_ with
  | None => mret None
  | Some (id, r) =>
      when (bool_decide (rs_revoked_at r = None))
        (now_ ← now;
         assign db_refresh_sessions id (λ r, r <| rs_revoked_at := Some now_ |>) ;;
         flush) ;;
      mret (Some (rs_user_id r))
  end.

(** ** user_service *)

Definition VALID_ROLE_NAMES : list string := map fst ROLE_PERMISSIONS.

Definition list_role_names : list string := sorted_set VALID_ROLE_NAMES.

Definition list_users : M (list (uuid * User)) :=
  query (λ d, sort_by (λ x y, String.leb (user_email x.2) (user_email y.2)) (map_to_list (db_users d))).

Definition _validate_role_names (names : list string) : M unit :=
  match names with
  | [] => raise (UserServiceError "a user must have at least one role")
  | _ =>
      match sorted_set (List.filter (λ n, negb (bool_decide (n ∈ VALID_ROLE_NAMES))) names) with
      | [] => mret tt
      | unknown => raise (UserServiceError ("unknown role(s): " +:+ join ", " unknown))
      end
  end.

Definition _set_roles (user : uuid) (names : list string) : M unit :=
  db_modify (λ d, d <| db_user_roles := List.filter (λ x, negb (bool_decide (ur_user_id x = user))) (db_user_roles d) |>) ;;
  flush ;;
  for_each names (λ name, role ← get_or_create name; insert_user_role user role) ;;
  flush.

Definition create_user `{Env} `{Security} (email password : string) (names : list string) : M uuid :=
  let email := lower (strip email) in
  _validate_role_names names ;;
  existing ← get_by_email email;
  match existing with
  | Some _ => raise (UserServiceError "a user with this email already exists")
  | None =>
      password_hash ← hash_password password;
      created_at ← now;
      user ← insert_user {| user_email := email; user_password_hash := password_hash; user_is_active := true;
                            user_created_at := created_at |};
      flush ;;
      _set_roles user names ;;
      commit ;;
      mret user
  end.

Definition set_user_roles (user : uuid) (names : list string) : M unit :=
  _validate_role_names names ;;
  _set_roles user names ;;
  commit.

Definition set_user_active (user : uuid) (active : bool) : M unit :=
  assign db_users user (λ u, u <| user_is_active := active |>) ;;
  commit.

Definition get_user (user_id : uuid) : M (option User) := session_get db_users user_id.

(** ** seed.py and bootstrap_admin.py *)

Definition DEFAULT_ROLES : list string := ["Administrator"; "Operator"; "Viewer"].

Definition seed_roles : M unit := for_each DEFAULT_ROLES (λ name, get_or_create name ;; mret tt).

(** migrations/versions/0003_seed_default_roles.py: [INSERT .. ON CONFLICT (name)
    DO NOTHING], and a [DELETE] that takes the assignments of the roles along. *)
Definition upgrade_0003_roles : M unit :=
  for_each DEFAULT_ROLES (λ name,
    existing ← get_by_name name;
    match existing with
    | Some _ => mret tt
    | None => insert_row db_roles {| role_name := name |} ;; mret tt
    end).

Definition default_role_id (d : DB) (id : uuid) : bool :=
  match db_roles d !! id with
  | Some r => bool_decide (role_name r ∈ DEFAULT_ROLES)
  | None => false
  end.

Definition downgrade_0003_roles : M unit :=
  db_modify (λ d, d <| db_user_roles := List.filter (λ ur, negb (default_role_id d (ur_role_id ur))) (db_user_roles d) |>
                    <| db_roles := filter (λ kv, role_name kv.2 ∉ DEFAULT_ROLES) (db_roles d) |>).

(** The migration and the function seed the same roles. *)
Lemma upgrade_0003_roles_seeds w : upgrade_0003_roles w = seed_roles w.
Proof.
  unfold upgrade_0003_roles, seed_roles. generalize DEFAULT_ROLES. intros l. revert w.
  induction l as [|name l IH]; intros w; simpl; [done|]. unfold mbind, st_bind, get_or_create, mbind, st_bind.
  destruct (get_by_name name w) as [[[[id r]|]|e] w1]; simpl; [by rewrite IH| |done].
  destruct (insert_row _ _ w1) as [[id|e] w2]; simpl; [by rewrite IH|done].
Qed.

(** The process has a session of its own, which is closed in the end. *)
Definition bootstrap `{Env} `{Security} (email password : string) : M unit :=
  let email := lower (strip email) in
  try_finally
    (existing ← get_by_email email;
     match existing with
     | Some _ => mret tt
     | None =>
         admin_role ← get_by_name "Administrator";
         match admin_role with
         | None => raise (SystemExit "Administrator role not found — run `alembic upgrade head` first")
         | Some (role, _) =>
             password_hash ← hash_password password;
             created_at ← now;
             user ← insert_user {| user_email := email; user_password_hash := password_hash;
                                   user_is_active := true; user_created_at := created_at |};
             flush ;;
             insert_user_role user role ;;
             commit
         end
     end)
    rollback.

(** [main] of the script: an option that is not given falls back on the
    environment; [parser.error] ends the process. *)
Definition bootstrap_main `{Env} `{Security} (email password env_email env_password : option string) : M unit :=
  let given option_ environment := match option_ with Some _ => option_ | None => environment end in
  match given email env_email, given password env_password with
  | Some email, Some password =>
      if (bool_decide (email = "") || bool_decide (password = ""))%bool
      then raise (SystemExit "--email/--password (or HEALER_BOOTSTRAP_ADMIN_EMAIL/HEALER_BOOTSTRAP_ADMIN_PASSWORD) are required")
      else bootstrap email password
  | _, _ => raise (SystemExit "--email/--password (or HEALER_BOOTSTRAP_ADMIN_EMAIL/HEALER_BOOTSTRAP_ADMIN_PASSWORD) are required")
  end.

(** ** Routes: auth.py *)

Record UserOut := {
  uo_id : uuid;
  uo_email : string;
  uo_roles : list string;
}.

Definition set_cookie `{Security} (name value : string) (max_age : Z) (httponly : bool) (path : string) : SetCookie :=
  {| ck_name := name; ck_value := value; ck_max_age := max_age; ck_httponly := httponly;
     ck_secure := cookie_secure; ck_path := path |}.

Definition delete_cookie (name path : string) : SetCookie :=
  {| ck_name := name; ck_value := EmptyString; ck_max_age := 0; ck_httponly := false; ck_secure := false;
     ck_path := path |}.

Definition _set_session_cookies `{Security} (access_token refresh_token : string) : M (list SetCookie) :=
  csrf ← generate_token;
  mret [ set_cookie ACCESS_COOKIE_NAME access_token (access_token_ttl_minutes * 60) true "/";
         set_cookie REFRESH_COOKIE_NAME refresh_token (refresh_token_ttl_days * 24 * 3600) true "/auth";
         set_cookie CSRF_COOKIE_NAME csrf (refresh_token_ttl_days * 24 * 3600) false "/" ].

Definition _clear_session_cookies : list SetCookie :=
  [ delete_cookie ACCESS_COOKIE_NAME "/"; delete_cookie REFRESH_COOKIE_NAME "/auth";
    delete_cookie CSRF_COOKIE_NAME "/" ].

Definition login `{Env} `{Security} (email password : string) : M (UserOut * list SetCookie) :=
  let normalized_email := lower (strip email) in
  user ← try_except (authenticate email password)
    (λ e, match e with
          | AuthError _ =>
              record None "auth.login_failed" "user" normalized_email
                (Some (JObj [("reason", JStr "invalid_credentials")])) ;;
              raise (HTTPException HTTP_401_UNAUTHORIZED "invalid email or password")
          | _ => raise e
          end);
  roles ← get_role_names user;
  access_token ← create_access_token (str_uuid user) roles;
  '(refresh_token, _) ← create_refresh_session user;
  cookies ← _set_session_cookies access_token refresh_token;
  record (Some user) "auth.login_succeeded" "user" (str_uuid user) None ;;
  u ← row db_users user;
  mret ({| uo_id := user; uo_email := user_email u; uo_roles := roles |}, cookies).

(** [raw_token] is the refresh cookie of the request. *)
Definition refresh `{Env} `{Security} (raw_token : option string) : M (UserOut * list SetCookie) :=
  match raw_token with
  | None => raise (HTTPException HTTP_401_UNAUTHORIZED "no refresh session")
  | Some raw_token =>
      if String.eqb raw_token EmptyString then raise (HTTPException HTTP_401_UNAUTHORIZED "no refresh session") else
      '(new_raw_token, _, user) ← try_except (rotate_refresh_session raw_token)
        (λ e, match e with
              | AuthError _ => raise (HTTPException HTTP_401_UNAUTHORIZED "invalid or expired refresh session")
              | _ => raise e
              end);
      roles ← get_role_names user;
      access_token ← create_access_token (str_uuid user) roles;
      cookies ← _set_session_cookies access_token new_raw_token;
      u ← row db_users user;
      mret ({| uo_id := user; uo_email := user_email u; uo_roles := roles |}, cookies)
  end.

Definition logout `{Env} (raw_token : option string) : M (list SetCookie) :=
  actor_id ← match raw_token with
             | Some t => if String.eqb t EmptyString then mret None else revoke_refresh_session t
             | None => mret None
             end;
  record actor_id "auth.logout" "user"
    (match actor_id with Some id => str_uuid id | None => "unknown" end) None ;;
  mret _clear_session_cookies.

Definition me (current_user : CurrentUser) : UserOut :=
  {| uo_id := cu_id current_user; uo_email := cu_email current_user; uo_roles := sorted_set (cu_roles current_user) |}.

Definition change_password_route `{Env} `{Security} (current_user : CurrentUser)
    (current_password new_password : string) : M (list SetCookie) :=
  user ← session_get db_users (cu_id current_user);
  match user with
  | None => raise (HTTPException HTTP_401_UNAUTHORIZED "invalid or expired session")
  | Some _ =>
      try_except (change_password (cu_id current_user) current_password new_password)
        (λ e, match e with
              | AuthError _ => raise (HTTPException HTTP_401_UNAUTHORIZED "current password is incorrect")
              | _ => raise e
              end) ;;
      record (Some (cu_id current_user)) "user.password_changed" "user" (str_uuid (cu_id current_user)) None ;;
      mret _clear_session_cookies
  end.

(** ** Routes: users.py *)

(** [except UserServiceError: 409] *)
Definition or_409 {A} (m : M A) : M A :=
  try_except m (λ e, match e with
                     | UserServiceError msg => raise (HTTPException HTTP_409_CONFLICT msg)
                     | _ => raise e
                     end).

Definition post_user `{Env} `{Security} (email password : string) (roles : list string)
    (current_user : CurrentUser) : M uuid :=
  user ← or_409 (create_user email password roles);
  u ← row db_users user;
  record (Some (cu_id current_user)) "user.create" "user" (str_uuid user)
    (Some (JObj [("email", JStr (user_email u)); ("roles", JArr (map JStr roles))])) ;;
  mret user.

Definition patch_user_roles `{Env} (user_id : uuid) (roles : list string) (current_user : CurrentUser) : M unit :=
  user ← get_user user_id;
  match user with
  | None => raise (HTTPException HTTP_404_NOT_FOUND "user not found")
  | Some _ =>
      if (bool_decide (user_id = cu_id current_user) && negb (bool_decide ("Administrator" ∈ roles)))%bool then
        raise (HTTPException HTTP_409_CONFLICT "you cannot remove your own Administrator role")
      else
        or_409 (set_user_roles user_id roles) ;;
        record (Some (cu_id current_user)) "user.roles_changed" "user" (str_uuid user_id)
          (Some (JObj [("roles", JArr (map JStr roles))]))
  end.

Definition deactivate_user `{Env} (user_id : uuid) (current_user : CurrentUser) : M unit :=
  if bool_decide (user_id = cu_id current_user) then
    raise (HTTPException HTTP_409_CONFLICT "you cannot deactivate your own account")
  else
    user ← get_user user_id;
    match user with
    | None => raise (HTTPException HTTP_404_NOT_FOUND "user not found")
    | Some _ =>
        set_user_active user_id false ;;
        record (Some (cu_id current_user)) "user.deactivated" "user" (str_uuid user_id) None
    end.

Definition activate_user `{Env} (user_id : uuid) (current_user : CurrentUser) : M unit :=
  user ← get_user user_id;
  match user with
  | None => raise (HTTPException HTTP_404_NOT_FOUND "user not found")
  | Some _ =>
      set_user_active user_id true ;;
      record (Some (cu_id current_user)) "user.activated" "user" (str_uuid user_id) None
  end.

(** ** Every operation follows the protocol *)

Section keeps.
Context `{Env} `{Security} (I : invariant) `{!Stable I}.

Lemma keeps_get_or_create name : keeps I (get_or_create name).
Proof. unfold get_or_create, get_by_name. keeps_auto. Qed.

Lemma keeps_insert_user_role user role : keeps I (insert_user_role user role).
Proof. unfold insert_user_role. keeps_auto. Qed.

Lemma keeps_insert_user u : keeps I (insert_user u).
Proof.
  unfold insert_user. eapply hoare_bind; [apply hoare_text_value|]. intros text Hlen. simpl in Hlen. apply keeps_new_user; [done|].
  by solve_fits 320%nat.
Qed.

Lemma keeps_revoke_all_for_user u : keeps I (_revoke_all_for_user u).
Proof. unfold _revoke_all_for_user. keeps_auto. Qed.

Lemma keeps_create_refresh_session u : keeps I (create_refresh_session u).
Proof. unfold create_refresh_session, insert_refresh_session. keeps_auto. Qed.

Lemma keeps_set_session_cookies a r : keeps I (_set_session_cookies a r).
Proof. unfold _set_session_cookies. keeps_auto. Qed.

Lemma keeps_get_role_names u : keeps I (get_role_names u).
Proof. unfold get_role_names. keeps_auto. Qed.

Lemma keeps_login e p : keeps I (login e p).
Proof.
  pose proof keeps_create_refresh_session. pose proof keeps_set_session_cookies. pose proof keeps_get_role_names.
  unfold login, authenticate, get_by_email. keeps_auto.
Qed.

Lemma keeps_refresh t : keeps I (refresh t).
Proof.
  pose proof keeps_create_refresh_session. pose proof keeps_set_session_cookies. pose proof keeps_get_role_names.
  pose proof keeps_revoke_all_for_user.
  unfold refresh, rotate_refresh_session, session_of_token. keeps_auto.
Qed.

Lemma keeps_logout t : keeps I (logout t).
Proof. unfold logout, revoke_refresh_session, session_of_token. keeps_auto. Qed.

Lemma keeps_change_password_route u c n : keeps I (change_password_route u c n).
Proof. pose proof keeps_revoke_all_for_user. unfold change_password_route, change_password. keeps_auto. Qed.

Lemma keeps_set_roles u names : keeps I (_set_roles u names).
Proof.
  pose proof keeps_get_or_create. pose proof keeps_insert_user_role. unfold _set_roles. keeps_auto.
Qed.

Lemma keeps_post_user e p r u : keeps I (post_user e p r u).
Proof.
  pose proof keeps_set_roles. pose proof keeps_insert_user.
  unfold post_user, or_409, create_user, _validate_role_names, get_by_email. keeps_auto.
Qed.

Lemma keeps_patch_user_roles i r u : keeps I (patch_user_roles i r u).
Proof.
  pose proof keeps_set_roles.
  unfold patch_user_roles, or_409, set_user_roles, _validate_role_names, get_user. keeps_auto.
Qed.

Lemma keeps_deactivate_user i u : keeps I (deactivate_user i u).
Proof. unfold deactivate_user, get_user, set_user_active. keeps_auto. Qed.

Lemma keeps_activate_user i u : keeps I (activate_user i u).
Proof. unfold activate_user, get_user, set_user_active. keeps_auto. Qed.

Lemma keeps_bootstrap e p : keeps I (bootstrap e p).
Proof.
  pose proof keeps_insert_user. pose proof keeps_insert_user_role.
  unfold bootstrap, get_by_email, get_by_name. keeps_auto.
Qed.

Lemma keeps_bootstrap_main e p e' p' : keeps I (bootstrap_main e p e' p').
Proof. pose proof keeps_bootstrap. unfold bootstrap_main. keeps_auto. Qed.

End keeps.

#[export] Hint Resolve keeps_login keeps_refresh keeps_logout keeps_change_password_route keeps_post_user
  keeps_patch_user_roles keeps_deactivate_user keeps_activate_user keeps_bootstrap_main : keeps.
