(* ===== verification/ServerService.v ===== *)
(** Servers and the enrolment of their agents: services/control-plane/app/
    services/server_service.py, the enrolment part of agent_service.py,
    domain/agent_status.py, app/api/routes/servers.py, [enroll] of
    routes/agents.py and the authentication of the agent socket (routes/ws.py). *)

From S2P Require Import Prelude Python Sha256 Enums StateMachines Schema Session Hoare Permissions.
From S2P Require Import Widths Repositories Security Protocol CommandService AuditService.
Local Open Scope Z_scope.

(** ** Constraints of server.py and agent.py *)

Definition insert_server (s : Server) : M uuid :=
  insert_unique db_servers (λ t, bool_decide (srv_hostname t = srv_hostname s)) s.

Definition insert_enrollment_token (t : EnrollmentToken) : M uuid :=
  insert_unique db_enrollment_tokens (λ u, bool_decide (et_token_hash u = et_token_hash t)) t.

(** [credential_hash] is unique among the agents other than [self]. *)
Definition credential_free (self : option uuid) (credential_hash : string) (d : DB) : bool :=
  forallb (λ kv, (bool_decide (self = Some kv.1)
                  || negb (bool_decide (ag_credential_hash kv.2 = Some credential_hash)))%bool)
    (map_to_list (db_agents d)).

(** ** domain/agent_status.py *)

Definition OFFLINE_AFTER_SECONDS : Z := 45.

Definition is_online (agent : Agent) (now_ : Z) : bool :=
  if negb (bool_decide (ag_status agent = AgentStatus.CONNECTED)) then false
  else match ag_last_seen_at agent with
       | None => false
       | Some t => now_ - t <? seconds OFFLINE_AFTER_SECONDS
       end.

(** ** server_service *)

Definition DEFAULT_ENROLLMENT_TOKEN_TTL_MINUTES : Z := 60.

Definition create_server `{Env} (name hostname : string) (os : server_os) : M uuid :=
  created_at ← now;
  server ← insert_server {| srv_name := name; srv_hostname := hostname; srv_os := os;
                            srv_status := ServerStatus.PENDING; srv_created_at := created_at |};
  flush ;;
  mret server.

Definition issue_enrollment_token `{Env} `{Security} (server : uuid) (ttl_minutes : Z) : M (string * uuid) :=
  raw_token ← generate_token;
  now_ ← now;
  created_at ← now;
  token ← insert_enrollment_token
    {| et_server_id := server; et_token_hash := hash_token raw_token; et_expires_at := now_ + minutes ttl_minutes;
       et_used_at := None; et_revoked_at := None; et_created_at := created_at |};
  flush ;;
  mret (raw_token, token).

Definition revoke_enrollment_token `{Env} (token : uuid) : M unit :=
  t ← row db_enrollment_tokens token;
  when (bool_decide (et_used_at t = None) && bool_decide (et_revoked_at t = None))%bool
    (now_ ← now;
     assign db_enrollment_tokens token (λ t, t <| et_revoked_at := Some now_ |>) ;;
     flush).

(** Other tasks may run while the socket closes. *)
Definition revoke_agent `{Env} (agent : uuid) : M unit :=
  assign db_agents agent (λ a, a <| ag_credential_hash := None |> <| ag_status := AgentStatus.DISCONNECTED |>) ;;
  commit ;;
  websocket ← connection_get agent;
  match websocket with
  | None => mret tt
  | Some _ =>
      yield_to_tasks ;;
      connection_unregister agent
  end.

(** ** agent_service: enrolment *)

(** The agent row of a server, [self] if it has one, with a new credential. *)
Definition store_credential `{Env} (self : option uuid) (server : uuid) (credential_hash : string) : M uuid :=
  free ← query (credential_free self credential_hash);
  if negb free then flush_error IntegrityError else
  match self with
  | None =>
      created_at ← now;
      insert_row db_agents
        {| ag_server_id := server; ag_agent_version := "unknown"; ag_status := AgentStatus.DISCONNECTED;
           ag_last_seen_at := None; ag_credential_hash := Some credential_hash; ag_capabilities := None;
           ag_created_at := created_at |}
  | Some id =>
      assign db_agents id (λ a, a <| ag_credential_hash := Some credential_hash |>) ;;
      mret id
  end.

Definition enroll_agent `{Env} `{Security} (raw_token : string) : M (uuid * string) :=
  token ← get_by_token_hash (hash_token raw_token);
  match token with
  | None => raise (EnrollmentError "invalid_token")
  | Some (id, t) =>
      now_ ← now;
      if bool_decide (is_Some (et_revoked_at t)) then raise (EnrollmentError "token_revoked")
      else if bool_decide (is_Some (et_used_at t)) then raise (EnrollmentError "token_already_used")
      else if et_expires_at t <? now_ then raise (EnrollmentError "token_expired")
      else
        assign db_enrollment_tokens id (λ t, t <| et_used_at := Some now_ |>) ;;
        agent ← AgentRepository_get_by_server_id (et_server_id t);
        raw_credential ← generate_token;
        agent ← store_credential (fst <$> agent) (et_server_id t) (hash_token raw_credential);
        flush ;;
        mret (agent, raw_credential)
  end.

Definition authenticate_agent_credential (raw_credential : string) : M (option (uuid * Agent)) :=
  AgentRepository_get_by_credential_hash (hash_token raw_credential).

(** ** The upgrade request of the agent socket *)

(** [auth_header[len("bearer "):].strip()] of an authorization header. *)
Definition bearer_credential (auth_header : string) : option string :=
  if negb (startswith "bearer " (lower auth_header)) then None
  else Some (strip (String.substring 7 (String.length auth_header - 7) auth_header)).

(** [agent_socket] up to its loop; [None]: the socket is closed at once. *)
Definition agent_socket_connect `{Env} (auth_header : string) (websocket : N) (remote_addr : option string) :
    M (option uuid) :=
  match bearer_credential auth_header with
  | None => mret None
  | Some raw_credential =>
      agent ← authenticate_agent_credential raw_credential;
      match agent with
      | None => mret None
      | Some (agent, _) =>
          agent_socket_open agent websocket remote_addr ;;
          mret (Some agent)
      end
  end.

(** ** Routes *)

Definition enroll `{Env} `{Security} (raw_token : string) : M (uuid * string) :=
  '(agent, raw_credential) ← try_except (enroll_agent raw_token)
    (λ e, match e with
          | EnrollmentError code =>
              record None "agent.enroll_failed" "enrollment_token" "unknown" (Some (JObj [("reason", JStr code)])) ;;
              raise (HTTPException HTTP_401_UNAUTHORIZED
                       "invalid, expired, already-used, or revoked enrollment token")
          | _ => raise e
          end);
  a ← row db_agents agent;
  record None "agent.enrolled" "agent" (str_uuid agent)
    (Some (JObj [("server_id", JStr (str_uuid (ag_server_id a)))])) ;;
  mret (agent, raw_credential).

Definition post_server `{Env} (name hostname : string) (os : server_os) (current_user : CurrentUser) : M uuid :=
  existing ← get_by_hostname hostname;
  match existing with
  | Some _ => raise (HTTPException HTTP_409_CONFLICT "hostname already registered")
  | None =>
      server ← create_server name hostname os;
      record (Some (cu_id current_user)) "server.create" "server" (str_uuid server)
        (Some (JObj [("hostname", JStr hostname); ("os", JStr (server_os_value os))])) ;;
      mret server
  end.

Definition create_enrollment_token `{Env} `{Security} (server_id : uuid) (current_user : CurrentUser) :
    M (uuid * string) :=
  server ← session_get db_servers server_id;
  match server with
  | None => raise (HTTPException HTTP_404_NOT_FOUND "server not found")
  | Some _ =>
      '(raw_token, token) ← issue_enrollment_token server_id DEFAULT_ENROLLMENT_TOKEN_TTL_MINUTES;
      record (Some (cu_id current_user)) "server.enrollment_token_issued" "server" (str_uuid server_id)
        (Some (JObj [("enrollment_token_id", JStr (str_uuid token))])) ;;
      mret (token, raw_token)
  end.

Definition delete_enrollment_token `{Env} (server_id token_id : uuid) (current_user : CurrentUser) : M unit :=
  token ← session_get db_enrollment_tokens token_id;
  match token with
  | None => raise (HTTPException HTTP_404_NOT_FOUND "enrollment token not found")
  | Some t =>
      if negb (bool_decide (et_server_id t = server_id)) then
        raise (HTTPException HTTP_404_NOT_FOUND "enrollment token not found")
      else
        revoke_enrollment_token token_id ;;
        record (Some (cu_id current_user)) "server.enrollment_token_revoked" "enrollment_token"
          (str_uuid token_id) None
  end.

Definition revoke_agent_route `{Env} (server_id : uuid) (current_user : CurrentUser) : M unit :=
  agent ← AgentRepository_get_by_server_id server_id;
  match agent with
  | None => raise (HTTPException HTTP_404_NOT_FOUND "no agent enrolled for this server")
  | Some (agent, _) =>
      revoke_agent agent ;;
      record (Some (cu_id current_user)) "server.agent_revoked" "server" (str_uuid server_id) None
  end.

(** ** Every operation follows the protocol *)

Section keeps.
Context `{Env} `{Security} (I : invariant) `{!Stable I}.

Lemma keeps_post_server n h o u :
  (String.length n ≤ 255)%nat → (String.length h ≤ 255)%nat → keeps I (post_server n h o u).
Proof.
  intros Hn Hh. unfold post_server, create_server, insert_server, get_by_hostname. keeps_auto.
  apply keeps_new_server; [done|]. by split; solve_fits 255%nat.
Qed.

Lemma keeps_create_enrollment_token s u : keeps I (create_enrollment_token s u).
Proof. unfold create_enrollment_token, issue_enrollment_token, insert_enrollment_token. keeps_auto. Qed.

Lemma keeps_delete_enrollment_token s t u : keeps I (delete_enrollment_token s t u).
Proof. unfold delete_enrollment_token, revoke_enrollment_token. keeps_auto. Qed.

Lemma keeps_revoke_agent_route s u : keeps I (revoke_agent_route s u).
Proof.
  unfold revoke_agent_route, revoke_agent, AgentRepository_get_by_server_id, connection_get, connection_unregister.
  keeps_auto.
Qed.

Lemma keeps_enroll t : keeps I (enroll t).
Proof.
  unfold enroll, enroll_agent, get_by_token_hash, store_credential, AgentRepository_get_by_server_id. keeps_auto.
Qed.

Lemma keeps_agent_socket_connect h n r : keeps I (agent_socket_connect h n r).
Proof.
  pose proof keeps_agent_socket_open.
  unfold agent_socket_connect, authenticate_agent_credential, AgentRepository_get_by_credential_hash. keeps_auto.
Qed.

End keeps.

#[export] Hint Resolve keeps_post_server keeps_create_enrollment_token keeps_delete_enrollment_token
  keeps_revoke_agent_route keeps_enroll keeps_agent_socket_connect : keeps.
