(* ===== verification/GatewayService.v ===== *)
(** Routing: services/control-plane/app/services/gateway_service.py. *)

From S2P Require Import Prelude Python Enums HealerYaml Schema Session Hoare Protocol AuditService.
Local Open Scope Z_scope.

Record GatewaySyncResult := {
  gs_ok : bool;
  gs_message : json;
}.

(** The instances that belong in the upstream of an application. *)
Definition routable (application_id : uuid) (active_release_id : option uuid) (i : Instance) : bool :=
  (bool_decide (inst_application_id i = application_id)
   && bool_decide (inst_status i = InstanceStatus.RUNNING)
   && match active_release_id with
      | Some r => bool_decide (inst_release_id i = Some r)
      | None => true
      end)%bool.

Definition upstream_of (d : DB) (i : Instance) : option json :=
  match db_servers d !! inst_server_id i with
  | Some server => Some (JObj [("host", JStr (srv_hostname server)); ("port", JInt (inst_port i))])
  | None => None
  end.

Definition domain_json (d : Domain) : json :=
  JObj [ ("hostname", JStr (dom_hostname d)); ("cert_path", json_opt JStr (dom_cert_path d));
         ("key_path", json_opt JStr (dom_key_path d)) ].

Definition _build_reload_payload (application : uuid) : M json :=
  a ← row db_applications application;
  domains ← query (select db_domains (λ d, bool_decide (dom_application_id d = application)));
  instances ← query (select db_instances (routable application (app_active_release_id a)));
  upstreams ← query (λ d, omap (λ kv, upstream_of d kv.2) instances);
  mret (JObj [ ("app_slug", JStr (app_slug a));
               ("domains", JArr (map (λ kv, domain_json kv.2)
                  (List.filter (λ kv, (str_truthy (dom_cert_path kv.2) && str_truthy (dom_key_path kv.2))%bool) domains)));
               ("upstreams", JArr upstreams) ]).

(** What a reply of the Gateway Manager means. A body that is not a JSON object
    has no [get]. *)
Definition gateway_result (reply : HttpReply) : M GatewaySyncResult :=
  match reply with
  | HttpError text =>
      mret {| gs_ok := false; gs_message := JStr ("could not reach the Gateway Manager: " +:+ text) |}
  | HttpInvalidURL text => raise (InvalidURL text)
  | HttpResponse status_code body _ =>
      kvs ← as_dict (default (JObj []) body);
      if status_code =? 200 then
        mret {| gs_ok := truthy (dict_get kvs "ok" JNull); gs_message := dict_get kvs "message" (JStr "") |}
      else
        let detail := dict_get kvs "detail" JNull in
        mret {| gs_ok := false;
                gs_message := if truthy detail then detail
                              else JStr ("gateway manager returned " +:+ str_int status_code) |}
  end.

Definition sync_gateway `{Env} (application : uuid) (actor_id : option uuid) : M GatewaySyncResult :=
  payload ← _build_reload_payload application;
  modify (λ w, w <| w_gateway_log := w_gateway_log w ++ [payload] |>) ;;
  reply ← observe (λ t, env_gateway_post t payload);
  result ← gateway_result reply;
  a ← row db_applications application;
  record actor_id "gateway.sync" "application" (str_uuid application)
    (Some (JObj [ ("app_slug", JStr (app_slug a)); ("ok", JBool (gs_ok result));
                  ("message", gs_message result) ])) ;;
  commit ;;
  mret result.

Section keeps.
Context `{Env} (I : invariant).

Lemma keeps_build_reload_payload a : keeps I (_build_reload_payload a).
Proof. unfold _build_reload_payload. keeps_auto. Qed.

Lemma keeps_sync_gateway `{!RecordStable I} a actor : keeps I (sync_gateway a actor).
Proof.
  pose proof keeps_build_reload_payload. unfold sync_gateway, gateway_result, as_dict. keeps_auto.
Qed.

End keeps.

#[export] Hint Resolve keeps_build_reload_payload keeps_sync_gateway : keeps.

(** ** What is routed *)

(** An instance belongs in the upstream: it runs, for this application, and
    for its active release when it has one. *)
Definition serves (application : uuid) (active_release_id : option uuid) (i : Instance) : Prop :=
  inst_application_id i = application ∧ inst_status i = InstanceStatus.RUNNING ∧
  ∀ r, active_release_id = Some r → inst_release_id i = Some r.

Lemma routable_serves application active i : routable application active i = true ↔ serves application active i.
Proof.
  unfold routable, serves. rewrite !andb_true_iff, !bool_decide_eq_true. destruct active as [r|].
  - rewrite bool_decide_eq_true. naive_solver.
  - naive_solver.
Qed.

Definition upstream_json (server : Server) (i : Instance) : json :=
  JObj [("host", JStr (srv_hostname server)); ("port", JInt (inst_port i))].

(** The payload always has this shape. *)
Lemma reload_payload_run application a w :
  w_active w = true → db_applications (w_db w) !! application = Some a →
  ∃ domains upstreams,
    _build_reload_payload application w =
    (Ok (JObj [ ("app_slug", JStr (app_slug a)); ("domains", JArr domains); ("upstreams", JArr upstreams) ]), w).
Proof.
  intros Hw Ha. unfold _build_reload_payload.
  rewrite (bind_run _ _ _ _ _ (row_run _ _ _ _ Hw Ha)), !(bind_run _ _ _ _ _ (query_run _ w Hw)). by eexists _, _.
Qed.

(** The payload sent to the Gateway Manager: the upstreams are exactly the
    addresses of the running instances of the application's active release
    (of all its running instances as long as it has none), and the domains are
    exactly its domains that have both a certificate and a key. *)
Theorem reload_payload_exact application a w :
  w_active w = true → db_applications (w_db w) !! application = Some a →
  ∃ domains upstreams,
    _build_reload_payload application w =
      (Ok (JObj [ ("app_slug", JStr (app_slug a)); ("domains", JArr domains); ("upstreams", JArr upstreams) ]), w) ∧
    (∀ u, u ∈ upstreams ↔
       ∃ id i server, db_instances (w_db w) !! id = Some i ∧ serves application (app_active_release_id a) i ∧
         db_servers (w_db w) !! inst_server_id i = Some server ∧ u = upstream_json server i) ∧
    (∀ j, j ∈ domains ↔
       ∃ id dom, db_domains (w_db w) !! id = Some dom ∧ dom_application_id dom = application ∧
         str_truthy (dom_cert_path dom) = true ∧ str_truthy (dom_key_path dom) = true ∧ j = domain_json dom).
Proof.
  intros Hw Ha. unfold _build_reload_payload.
  rewrite (bind_run _ _ _ _ _ (row_run _ _ _ _ Hw Ha)), !(bind_run _ _ _ _ _ (query_run _ w Hw)).
  eexists _, _. split; [reflexivity|]. split.
  - intros u. rewrite list_elem_of_omap. split.
    + intros ([id i] & Hin & Hu). apply elem_of_select in Hin as [Hi Hr]. apply routable_serves in Hr.
      unfold upstream_of in Hu. simpl in Hu. destruct (db_servers (w_db w) !! inst_server_id i) as [s|] eqn:Es; [|done].
      injection Hu as <-. by exists id, i, s.
    + intros (id & i & s & Hi & Hr & Hs & ->). exists (id, i). split.
      * apply elem_of_select. split; [done|by apply routable_serves].
      * unfold upstream_of. simpl. by rewrite Hs.
  - intros j. rewrite list_elem_of_fmap. split.
    + intros ([id dom] & -> & Hin). apply list_elem_of_In, filter_In in Hin as [Hin Hp].
      apply list_elem_of_In, elem_of_select in Hin as [Hd Happ]. apply andb_true_iff in Hp as [? ?].
      apply bool_decide_eq_true in Happ. by exists id, dom.
    + intros (id & dom & Hd & Happ & Hc & Hk & ->). exists (id, dom). split; [done|].
      apply list_elem_of_In, filter_In. split; [|simpl; by rewrite Hc, Hk].
      apply list_elem_of_In, elem_of_select. split; [done|]. by apply bool_decide_eq_true.
Qed.

(** The Gateway Manager says the new routing is live. *)
Definition accepts (reply : HttpReply) : Prop :=
  ∃ kvs ms, reply = HttpResponse 200 (Some (JObj kvs)) ms ∧ truthy (dict_get kvs "ok" JNull) = true.

(** The body, if there is one, is a JSON object. *)
Definition readable (reply : HttpReply) : Prop :=
  match reply with
  | HttpResponse _ (Some (JObj _)) _ | HttpResponse _ None _ | HttpError _ => True
  | _ => False
  end.

Lemma gateway_result_run reply (w : World) :
  readable reply → ∃ result, gateway_result reply w = (Ok result, w) ∧ (gs_ok result = true ↔ accepts reply).
Proof.
  intros Hr. destruct reply as [code [body|] ms|text|text]; simpl in Hr.
  - destruct body as [| | | | | |kvs]; try done. simpl. unfold mbind, st_bind. simpl.
    destruct (Z.eqb_spec code 200) as [->|Hne]; eexists; (split; [reflexivity|]); simpl.
    + split; [intros Hok; by exists kvs, ms|]. by intros (kvs' & ms' & [= <- <-] & Hok).
    + split; [done|]. by intros (kvs' & ms' & [= ? _ _] & _).
  - simpl. unfold mbind, st_bind. simpl. destruct (code =? 200); eexists; (split; [reflexivity|]); simpl;
      (split; [done|]); by intros (? & ? & [=] & _).
  - eexists. split; [reflexivity|]. split; [done|]. by intros (? & ? & [=] & _).
  - done.
Qed.

Lemma record_run `{Env} actor action target_type target_id detail w :
  ready w →
  record actor action target_type target_id detail w =
  (Ok tt, w <| w_tick := S (w_tick w) |>
            <| w_db := (w_db w) <| db_audit_logs := db_audit_logs (w_db w) ++
                 [ {| au_actor_id := actor; au_action := action; au_target_type := target_type;
                      au_target_id := target_id; au_detail := detail; au_occurred_at := env_now (w_tick w) |} ] |> |>).
Proof.
  intros Hr. unfold record. rewrite (bind_run _ _ _ _ _ (now_run _)).
  match goal with |- (add_audit ?e ≫= _) ?w1 = _ =>
    rewrite (bind_run (add_audit e) _ w1 _ _ (db_modify_run _ w1 (proj1 Hr))) end. by apply flush_run.
Qed.

(** Synchronising the gateway never raises as long as the reply, if there is
    one, carries a JSON object or nothing readable. It reports success exactly
    when the Gateway Manager answered 200 with a true [ok], posts exactly one
    payload, and commits one audit entry that says how it went; no other table
    changes. *)
Theorem sync_gateway_correct `{Env} application actor_id a w :
  ready w → w_committed w = w_db w → db_applications (w_db w) !! application = Some a →
  (∀ payload, (_build_reload_payload application w).1 = Ok payload → readable (env_gateway_post (w_tick w) payload)) →
  ∃ payload result entry w',
    sync_gateway application actor_id w = (Ok result, w') ∧
    _build_reload_payload application w = (Ok payload, w) ∧
    (gs_ok result = true ↔ accepts (env_gateway_post (w_tick w) payload)) ∧
    w_gateway_log w' = w_gateway_log w ++ [payload] ∧
    au_action entry = "gateway.sync" ∧ au_target_id entry = str_uuid application ∧
    au_detail entry = Some (JObj [ ("app_slug", JStr (app_slug a)); ("ok", JBool (gs_ok result));
                                   ("message", gs_message result) ]) ∧
    w_db w' = (w_db w) <| db_audit_logs := db_audit_logs (w_db w) ++ [entry] |> ∧ w_committed w' = w_db w'.
Proof.
  intros Hr Hc Ha Hreply.
  destruct (reload_payload_run application a w (proj1 Hr) Ha) as (ds & us & Hpay).
  set (payload := JObj _) in Hpay.
  set (w1 := w <| w_gateway_log := w_gateway_log w ++ [payload] |>).
  set (w2 := w1 <| w_tick := S (w_tick w1) |>).
  destruct (gateway_result_run (env_gateway_post (w_tick w1) payload) w2) as (result & Hres & Hok); [apply Hreply; by rewrite Hpay|].
  unfold sync_gateway. rewrite (bind_run _ _ _ _ _ Hpay).
  match goal with |- context [(modify ?f ≫= _) w] => rewrite (bind_run (modify f) _ w tt w1 eq_refl) end.
  match goal with |- context [(observe ?f ≫= _) w1] =>
    rewrite (bind_run (observe f) _ w1 (env_gateway_post (w_tick w1) payload) w2 eq_refl) end.
  rewrite (bind_run _ _ _ _ _ Hres).
  rewrite (bind_run _ _ _ _ _ (row_run db_applications application a w2 (proj1 Hr) Ha)).
  match goal with |- context [(record ?x1 ?x2 ?x3 ?x4 ?x5 ≫= _) w2] =>
    rewrite (bind_run _ _ _ _ _ (record_run x1 x2 x3 x4 x5 w2 Hr)) end.
  match goal with |- context [(commit ≫= _) ?w3] => rewrite (bind_run _ _ _ _ _ (commit_run w3 Hr)) end.
  eexists payload, result, _, _. split; [reflexivity|]. by repeat split; try apply Hok.
Qed.
