(* ===== verification/GatewayEndToEnd.v ===== *)
(** Routing across the two services: what the control plane's [sync_gateway] posts
    is what the Gateway Manager reads, and what it answers is what happened to
    the configuration of nginx. *)

From Stdlib Require Import Ascii.
From S2P Require Import Prelude Python Regex Enums HealerYaml Schema Session Hoare Protocol.
From S2P Require Import NginxManager AuditService GatewayService Scenario.
Local Open Scope Z_scope.

(** ** The interface between the services *)

Definition domain_spec_json (d : DomainSpec) : json :=
  JObj [ ("hostname", JStr (ds_hostname d)); ("cert_path", JStr (ds_cert_path d)); ("key_path", JStr (ds_key_path d)) ].

Definition upstream_target_json (u : UpstreamTarget) : json :=
  JObj [ ("host", JStr (ut_host u)); ("port", JInt (ut_port u)) ].

(** The body that is read as the request: its members have the types the
    model of the request declares. *)
Definition reload_request_json (r : ReloadRequest) : json :=
  JObj [ ("app_slug", JStr (rr_app_slug r)); ("domains", JArr (map domain_spec_json (rr_domains r)));
         ("upstreams", JArr (map upstream_target_json (rr_upstreams r))) ].

(** [POST /reload] as the control plane sees it: the status code and the body. *)
Definition serve_reload `{NginxEnv} (x_gateway_secret : string) (r : ReloadRequest) (s : GatewayState) :
    (Z * json) * GatewayState :=
  if negb (valid_reload_request r) then ((422, JObj [("detail", JArr [])]), s) else
  match reload_gateway x_gateway_secret r s with
  | (Ok outcome, s') => ((200, JObj [("ok", JBool (ro_ok outcome)); ("message", JStr (ro_message outcome))]), s')
  | (Raise (GatewayHTTPException code detail), s') => ((code, JObj [("detail", JStr detail)]), s')
  | (Raise (InvalidAppSlug _), s') => ((500, JObj []), s')
  end.

(** ** What the control plane asks for *)

(** The domains with a certificate and a key. *)
Definition domain_spec (d : Domain) : option DomainSpec :=
  match dom_cert_path d, dom_key_path d with
  | Some cert, Some key =>
      if (str_truthy (Some cert) && str_truthy (Some key))%bool
      then Some {| ds_hostname := dom_hostname d; ds_cert_path := cert; ds_key_path := key |} else None
  | _, _ => None
  end.

Definition upstream_target (d : DB) (i : Instance) : option UpstreamTarget :=
  server ← db_servers d !! inst_server_id i;
  Some {| ut_host := srv_hostname server; ut_port := inst_port i |}.

Definition wanted_routing (application : uuid) (a : Application) (d : DB) : ReloadRequest :=
  {| rr_app_slug := app_slug a;
     rr_domains := omap (λ kv, domain_spec kv.2)
       (select db_domains (λ x, bool_decide (dom_application_id x = application)) d);
     rr_upstreams := omap (λ kv, upstream_target d kv.2)
       (select db_instances (routable application (app_active_release_id a)) d) |}.

Lemma map_domain_specs l :
  map (λ kv : uuid * Domain, domain_json kv.2)
    (List.filter (λ kv, (str_truthy (dom_cert_path kv.2) && str_truthy (dom_key_path kv.2))%bool) l) =
  map domain_spec_json (omap (λ kv, domain_spec kv.2) l).
Proof.
  induction l as [|[k x] l IH]; [done|]. simpl. unfold domain_spec at 1. destruct x as [app h [c|] [y|]]; simpl in *;
    rewrite ?andb_false_r; try done.
  destruct (_ && _)%bool; simpl; [|done]. by rewrite IH.
Qed.

Lemma map_upstream_targets d l :
  omap (λ kv : uuid * Instance, upstream_of d kv.2) l = map upstream_target_json (omap (λ kv, upstream_target d kv.2) l).
Proof.
  induction l as [|[k i] l IH]; [done|]. simpl. unfold upstream_of at 1, upstream_target at 1.
  destruct (db_servers d !! inst_server_id i) as [server|]; simpl; [f_equal|]; exact IH.
Qed.

(** The payload is the wanted routing, as the Gateway Manager reads it. *)
Lemma payload_is_wanted application a w :
  w_active w = true → db_applications (w_db w) !! application = Some a →
  _build_reload_payload application w = (Ok (reload_request_json (wanted_routing application a (w_db w))), w).
Proof.
  intros Hw Ha. unfold _build_reload_payload.
  rewrite (bind_run _ _ _ _ _ (row_run _ _ _ _ Hw Ha)), !(bind_run _ _ _ _ _ (query_run _ w Hw)).
  rewrite map_domain_specs, map_upstream_targets. done.
Qed.

(** The addresses that receive traffic are those of the running instances of
    the active release. *)
Lemma wanted_upstreams application a d u :
  u ∈ rr_upstreams (wanted_routing application a d) ↔
  ∃ id i server, db_instances d !! id = Some i ∧ serves application (app_active_release_id a) i ∧
    db_servers d !! inst_server_id i = Some server ∧ u = {| ut_host := srv_hostname server; ut_port := inst_port i |}.
Proof.
  simpl. rewrite list_elem_of_omap. unfold upstream_target. split.
  - intros ([id i] & [Hi Hr%routable_serves]%elem_of_select & Hu). simpl in Hu.
    apply bind_Some in Hu as (server & Hs & [= <-]). by exists id, i, server.
  - intros (id & i & server & Hi & Hr & Hs & ->). exists (id, i).
    split; [apply elem_of_select; split; [done|by apply routable_serves]|]. simpl. by rewrite Hs.
Qed.

(** ** The two services together *)

(** nginx refused a step of the activation. *)
Definition nginx_refused (s s' : GatewayState) : Prop :=
  ∃ runs, gm_runs s' = gm_runs s ++ runs ∧ Exists (λ run, run_ok run = false) runs.

Lemma serve_reload_run `{NginxEnv} r path s :
  resolves_to (rr_app_slug r +:+ ".conf") = Some path → gm_files s !! (path +:+ ".tmp") = None →
  let '((code, body), s') := serve_reload nginx_shared_secret r s in
  let new := with_file path (render (rr_app_slug r) (rr_domains r) (rr_upstreams r)) (gm_files s) in
  (∃ kvs, body = JObj kvs ∧
     (code = 200 ∧ truthy (dict_get kvs "ok" JNull) = true ∧ gm_files s' = new ∧
        gm_runs s' = gm_runs s ++ [t_run new true; reload_run new true] ∨
      (code = 200 → truthy (dict_get kvs "ok" JNull) = false) ∧ gm_files s' = gm_files s ∧
        (valid_reload_request r = false ∨ match_dollar _SLUG_RE (rr_app_slug r) = false ∨ nginx_refused s s'))).
Proof.
  intros Hpath Htmp. unfold serve_reload. destruct (valid_reload_request r) eqn:Hv; simpl.
  2:{ eexists. split; [reflexivity|]. right. split; [done|]. split; [done|by left]. }
  pose proof (apply_run (rr_app_slug r) (rr_domains r) (rr_upstreams r) s) as Hrun.
  unfold reload_gateway, require_shared_secret. rewrite bool_decide_eq_true_2 by done.
  unfold mbind at 1, st_bind at 1. simpl. unfold try_except.
  assert (∀ q, resolves_to (rr_app_slug r +:+ ".conf") = Some q → gm_files s !! (q +:+ ".tmp") = None) as Hq by congruence.
  specialize (Hrun Hq). destruct (apply _ _ _ s) as [[o|e] s'].
  - destruct Hrun as (q & Eq & Hslug & Hrun). assert (q = path) as -> by congruence.
    eexists. split; [reflexivity|]. simpl. destruct (ro_ok o).
    + destruct Hrun as [? ?]. by left.
    + destruct Hrun as [Hf Hruns]. right. split; [done|]. split; [done|]. right. right.
      destruct Hruns as [E|[ok E]]; eexists; (split; [exact E|]); [by left|right; by left].
  - destruct Hrun as ([msg ->] & -> & Hwhy). simpl. eexists. split; [reflexivity|]. right. split; [done|]. split; [done|].
    destruct Hwhy as [Hslug|Hno]; [right; by left|congruence].
Qed.

(** C22. Routing is what both services agreed on. The control plane asks for one
    upstream for each running instance of the application's active release, with
    the domains that have a certificate and a key. When it reports success, the
    application's file is exactly the configuration rendered from that, nginx has
    validated it and reloaded it; when it reports a failure, no file of the
    Gateway Manager has changed, and the request was invalid, the slug was
    refused, or nginx refused a step. *)
Theorem routing_end_to_end `{Env} `{NginxEnv} application actor_id a path ms w s :
  ready w → w_committed w = w_db w → db_applications (w_db w) !! application = Some a →
  resolves_to (app_slug a +:+ ".conf") = Some path → gm_files s !! (path +:+ ".tmp") = None →
  let r := wanted_routing application a (w_db w) in
  let '((code, body), s') := serve_reload nginx_shared_secret r s in
  env_gateway_post (w_tick w) (reload_request_json r) = HttpResponse code (Some body) ms →
  (∀ u, u ∈ rr_upstreams r ↔ ∃ id i server, db_instances (w_db w) !! id = Some i ∧
     serves application (app_active_release_id a) i ∧ db_servers (w_db w) !! inst_server_id i = Some server ∧
     u = {| ut_host := srv_hostname server; ut_port := inst_port i |}) ∧
  ∃ result w', sync_gateway application actor_id w = (Ok result, w') ∧ w_committed w' = w_db w' ∧
    let new := with_file path (render (app_slug a) (rr_domains r) (rr_upstreams r)) (gm_files s) in
    if gs_ok result then gm_files s' = new ∧ gm_runs s' = gm_runs s ++ [t_run new true; reload_run new true]
    else gm_files s' = gm_files s ∧
      (valid_reload_request r = false ∨ match_dollar _SLUG_RE (app_slug a) = false ∨ nginx_refused s s').
Proof.
  intros Hr Hc Ha Hpath Htmp r. pose proof (serve_reload_run r path s Hpath Htmp) as Hserve.
  destruct (serve_reload nginx_shared_secret r s) as [[code body] s']. destruct Hserve as (kvs & -> & Hserve).
  intros Hpost. split; [intros u; apply wanted_upstreams|].
  pose proof (payload_is_wanted application a w (proj1 Hr) Ha) as Hpay. fold r in Hpay.
  destruct (sync_gateway_correct application actor_id a w Hr Hc Ha) as
    (payload & result & entry & w' & Hrun & Hpay' & Hok & _ & _ & _ & _ & _ & Hc').
  { intros payload. rewrite Hpay. intros [= <-]. by rewrite Hpost. }
  exists result, w'. split; [done|]. split; [done|]. rewrite Hpay in Hpay'. injection Hpay' as <-. rewrite Hpost in Hok.
  destruct (gs_ok result).
  - destruct (proj1 Hok eq_refl) as (kvs' & ms' & [= -> <- _] & Ht).
    destruct Hserve as [(_ & _ & ? & ?)|(Hno & _)]; [done|]. rewrite Hno in Ht by done. done.
  - destruct Hserve as [(-> & Ht & _)|(_ & ? & ?)]; [|done].
    assert (false = true) by (apply Hok; by exists kvs, ms). done.
Qed.

(** ** A concrete run *)

(** nginx accepts what it is given. *)
Definition nginx_up : NginxEnv :=
  {| nginx_outcome := λ _ _ _, Exited 0 "ok"; resolves_to := λ name, Some name; nginx_shared_secret := "secret" |}.

Definition empty_gateway : GatewayState := {| gm_files := ∅; gm_runs := [] |}.

Lemma routing_end_to_end_witness :
  let d := demo_db "deploy" 1 in
  let served := serve_reload (H:=nginx_up) "secret" (wanted_routing app1 demo_app d) empty_gateway in
  let E := outside (answers_at []) probe_ok (HttpResponse served.1.1 (Some served.1.2) 5) in
  ∃ result w', sync_gateway app1 None (demo_world d) = (Ok result, w') ∧ gs_ok result = true ∧
    gm_files served.2 = {[ "demo.conf" := template_render "healer_demo"
      [ {| ds_hostname := "demo.example.org"; ds_cert_path := "/etc/demo.pem"; ds_key_path := "/etc/demo.key" |} ]
      [ {| ut_host := "alpha.local"; ut_port := 9000 |} ] ]}.
Proof.
  intros d served E.
  pose proof (routing_end_to_end (H:=E) (H0:=nginx_up) app1 None demo_app "demo.conf" 5 (demo_world d) empty_gateway
    (conj eq_refl eq_refl) eq_refl eq_refl eq_refl eq_refl) as Hw. cbv zeta in Hw.
  assert (served = ((200, JObj [("ok", JBool true); ("message", JStr "activated and reloaded")]), served.2)) as Es
    by (vm_compute; reflexivity).
  change (serve_reload nginx_shared_secret (wanted_routing app1 demo_app (w_db (demo_world d))) empty_gateway) with served in Hw.
  rewrite Es in Hw. destruct Hw as [_ (result & w' & Hrun & _ & Hcase)].
  { unfold E. rewrite Es. reflexivity. }
  exists result, w'. split; [exact Hrun|]. split; [|vm_compute; reflexivity].
  assert ((sync_gateway (H:=E) app1 None (demo_world d)).1 = Ok {| gs_ok := true; gs_message := JStr "activated and reloaded" |})
    as Hok by (vm_compute; reflexivity).
  rewrite Hrun in Hok. by injection Hok as ->.
Defined.
