(* ===== verification/HealthCheckService.v ===== *)
(** Health probes: services/control-plane/app/services/health_check_service.py. *)

From S2P Require Import Prelude Python Enums Schema Session Hoare Protocol.
Local Open Scope Z_scope.

(** What one reply says: healthy, detail, response time. A URL that httpx cannot
    read is not a reply: the exception is not an [httpx.HTTPError]. *)
Definition judge_reply (expected_status : option Z) (reply : HttpReply) : result exn (bool * string * option Z) :=
  match reply with
  | HttpInvalidURL text => Raise (InvalidURL text)
  | HttpError text => Ok (false, text, None)
  | HttpResponse status_code _ elapsed_ms =>
      let healthy := match expected_status with
                     | Some s => status_code =? s
                     | None => status_code <? 500
                     end in
      Ok (healthy, "HTTP " +:+ str_int status_code, Some elapsed_ms)
  end.

Definition check_instance_once `{Env} (host : string) (port : Z) (path : string) (timeout_seconds : Z)
    (expected_status : option Z) : M (bool * string * option Z) :=
  let url := "http://" +:+ host +:+ ":" +:+ str_int port +:+ path in
  reply ← observe (λ t, env_http_get t url timeout_seconds);
  match judge_reply expected_status reply with
  | Ok verdict => mret verdict
  | Raise e => raise e
  end.

(** [health_check.path or "/"] *)
Definition probe_path (hc : HealthCheck) : string :=
  match hc_path hc with
  | Some p => if decide (p = "") then "/" else p
  | None => "/"
  end.

Definition add_health_result (r : HealthCheckResult) : M unit :=
  db_modify (λ d, d <| db_health_check_results := db_health_check_results d ++ [r] |>).

(** The loop of [wait_until_healthy] with [fuel] attempts left. *)
Fixpoint wait_loop `{Env} (fuel : nat) (health_check instance_id : uuid) (host : string) (port : Z)
    (consecutive_successes consecutive_failures : Z) : M bool :=
  match fuel with
  | O => mret false
  | S fuel' =>
      hc ← row db_health_checks health_check;
      '(healthy, detail, response_time_ms) ←
        check_instance_once host port (probe_path hc) (hc_timeout_seconds hc) (hc_expected_status hc);
      let successes := if healthy : bool then consecutive_successes + 1 else 0 in
      let failures := if healthy : bool then 0 else consecutive_failures + 1 in
      checked_at ← now;
      add_health_result
        {| hr_health_check_id := health_check; hr_instance_id := instance_id; hr_healthy := healthy;
           hr_detail := Some detail; hr_consecutive_failures := failures;
           hr_response_time_ms := response_time_ms; hr_checked_at := checked_at |} ;;
      commit ;;
      hc ← row db_health_checks health_check;
      if hc_healthy_threshold hc <=? successes then mret true
      else if hc_unhealthy_threshold hc <=? failures then mret false
      else wait_loop fuel' health_check instance_id host port successes failures
  end.

Definition wait_until_healthy `{Env} (health_check instance_id : uuid) (host : string) (port : Z) : M bool :=
  hc ← row db_health_checks health_check;
  let max_attempts := hc_healthy_threshold hc + hc_unhealthy_threshold hc in
  wait_loop (Z.to_nat max_attempts) health_check instance_id host port 0 0.

Section keeps.
Context `{Env} (I : invariant) `{!RecordStable I}.

Lemma keeps_add_health_result r : keeps I (add_health_result r).
Proof. unfold add_health_result. keeps_auto. Qed.

Lemma keeps_check_instance_once h p pa t e : keeps I (check_instance_once h p pa t e).
Proof. unfold check_instance_once. keeps_auto. Qed.

Lemma keeps_wait_loop n hc i h p s f : keeps I (wait_loop n hc i h p s f).
Proof.
  pose proof keeps_add_health_result. pose proof keeps_check_instance_once.
  revert s f. induction n; intros; simpl; keeps_auto.
Qed.

Lemma keeps_wait_until_healthy hc i h p : keeps I (wait_until_healthy hc i h p).
Proof. pose proof keeps_wait_loop. unfold wait_until_healthy. keeps_auto. Qed.

End keeps.

#[export] Hint Resolve keeps_add_health_result keeps_check_instance_once keeps_wait_until_healthy : keeps.

(** ** What the gate promises *)

Definition probe_url (host : string) (port : Z) (path : string) : string :=
  "http://" +:+ host +:+ ":" +:+ str_int port +:+ path.

(** A stored result of one probe of this instance: verdict, detail and response
    time are those the reply of some GET of the instance's URL deserves. *)
Definition probe_result `{Env} (hc : HealthCheck) (health_check instance : uuid) (host : string) (port : Z)
    (r : HealthCheckResult) : Prop :=
  hr_health_check_id r = health_check ∧ hr_instance_id r = instance ∧
  ∃ t detail, hr_detail r = Some detail ∧
    judge_reply (hc_expected_status hc) (env_http_get t (probe_url host port (probe_path hc)) (hc_timeout_seconds hc)) =
    Ok (hr_healthy r, detail, hr_response_time_ms r).

(** httpx refuses the URL of the instance. *)
Definition url_refused `{Env} (hc : HealthCheck) (host : string) (port : Z) (e : exn) : Prop :=
  ∃ t text, env_http_get t (probe_url host port (probe_path hc)) (hc_timeout_seconds hc) = HttpInvalidURL text ∧
    e = InvalidURL text.

Lemma check_instance_once_run `{Env} host port path timeout expected w :
  check_instance_once host port path timeout expected w =
  (judge_reply expected (env_http_get (w_tick w) (probe_url host port path) timeout), w <| w_tick := S (w_tick w) |>).
Proof.
  unfold check_instance_once. unfold mbind, st_bind. simpl. fold (probe_url host port path). by destruct (judge_reply _ _).
Qed.

(** The last [n] results all say [b]. *)
Definition ends_with (b : bool) (n : Z) (rs : list HealthCheckResult) : Prop :=
  ∃ pre l, rs = pre ++ l ∧ Z.of_nat (length l) = n ∧ Forall (λ r, hr_healthy r = b) l.

Lemma ends_with_nil b : ends_with b 0 [].
Proof. by exists [], []. Qed.

Lemma ends_with_zero b rs : ends_with b 0 rs.
Proof. exists rs, []. by rewrite app_nil_r. Qed.

Lemma ends_with_snoc b n rs r : ends_with b n rs → hr_healthy r = b → ends_with b (n + 1) (rs ++ [r]).
Proof.
  intros (pre & l & -> & Hn & Hl) Hr. exists pre, (l ++ [r]). rewrite <-app_assoc, length_app. simpl.
  split; [done|]. split; [lia|]. apply Forall_app. by split; [|apply Forall_singleton].
Qed.

Section gate.
Context `{Env} (health_check instance : uuid) (hc : HealthCheck) (host : string) (port : Z).

Lemma wait_loop_run n base acc s f w :
  ready w → db_health_checks (w_db w) !! health_check = Some hc →
  db_health_check_results (w_db w) = base ++ acc →
  0 ≤ s → 0 ≤ f → ends_with true s acc → ends_with false f acc →
  s < hc_healthy_threshold hc → f < hc_unhealthy_threshold hc →
  ∃ r rs w', wait_loop n health_check instance host port s f w = (r, w') ∧
    db_health_check_results (w_db w') = base ++ acc ++ rs ∧ (length rs ≤ n)%nat ∧
    Forall (probe_result hc health_check instance host port) rs ∧
    match r with
    | Ok true => ends_with true (hc_healthy_threshold hc) (acc ++ rs)
    | Ok false => ends_with false (hc_unhealthy_threshold hc) (acc ++ rs) ∨ length rs = n
    | Raise e => url_refused hc host port e ∧ (length rs < n)%nat
    end.
Proof.
  revert acc s f w. induction n as [|n IH]; intros acc s f w Hr Hhc Hres Hs Hf Es Ef Ls Lf.
  { exists (Ok false), [], w. rewrite !app_nil_r. split; [done|]. split; [done|]. split; [simpl; lia|].
    split; [apply Forall_nil_2|]. by right. }
  simpl. rewrite (bind_run _ _ _ _ _ (row_run _ _ _ _ (proj1 Hr) Hhc)).
  unfold mbind at 1, st_bind at 1. rewrite check_instance_once_run.
  set (t := w_tick w). set (reply := env_http_get t (probe_url host port (probe_path hc)) (hc_timeout_seconds hc)).
  destruct (judge_reply (hc_expected_status hc) reply) as [[[healthy detail] ms]|e] eqn:Ej.
  2: { exists (Raise e), []. eexists. rewrite !app_nil_r. split; [reflexivity|]. split; [done|]. split; [simpl; lia|].
       split; [apply Forall_nil_2|]. split; [|simpl; lia]. unfold judge_reply in Ej.
       destruct reply as [| |text] eqn:Er; simplify_eq. by exists t, text. }
  set (s' := if healthy then s + 1 else 0). set (f' := if healthy then 0 else f + 1).
  rewrite (bind_run _ _ _ _ _ (now_run _)). unfold add_health_result. unfold mbind at 1, st_bind at 1.
  rewrite db_modify_run by apply Hr. simpl. set (r := Build_HealthCheckResult _ _ _ _ _ _ _).
  unfold mbind at 1, st_bind at 1. rewrite commit_run by exact Hr. set (w1 := _ <| w_committed := _ |>).
  rewrite (bind_run _ _ _ _ _ (row_run db_health_checks health_check hc w1 (proj1 Hr) Hhc)).
  assert (db_health_check_results (w_db w1) = base ++ (acc ++ [r])) as Hres1 by (simpl; by rewrite Hres, app_assoc).
  assert (probe_result hc health_check instance host port r) as Hpr.
  { split; [done|]. split; [done|]. by exists t, detail. }
  assert (ends_with true s' (acc ++ [r]) ∧ ends_with false f' (acc ++ [r]) ∧ 0 ≤ s' ∧ 0 ≤ f') as (Es' & Ef' & Hs' & Hf').
  { subst s' f'. destruct healthy; (split; [|split; [|lia]]);
      solve [by apply ends_with_zero | by apply ends_with_snoc]. }
  destruct (hc_healthy_threshold hc <=? s') eqn:Ch; [|destruct (hc_unhealthy_threshold hc <=? f') eqn:Cu].
  - exists (Ok true), [r], w1. split; [done|]. split; [by rewrite Hres1, app_assoc|]. split; [simpl; lia|].
    split; [by apply Forall_singleton|].
    replace (hc_healthy_threshold hc) with s'; [done|]. subst s'. destruct healthy; lia.
  - exists (Ok false), [r], w1. split; [done|]. split; [by rewrite Hres1, app_assoc|]. split; [simpl; lia|].
    split; [by apply Forall_singleton|]. left.
    replace (hc_unhealthy_threshold hc) with f'; [done|]. subst f'. destruct healthy; lia.
  - destruct (IH (acc ++ [r]) s' f' w1 Hr Hhc Hres1) as (b & rs & w' & Hrun & Hres' & Hlen & Hall & Hb); [done..|lia|lia|].
    exists b, (r :: rs), w'. split; [done|]. split; [rewrite Hres', <-!app_assoc; done|]. split; [simpl; lia|].
    split; [by apply Forall_cons|]. rewrite <-app_assoc in Hb. simpl in Hb.
    destruct b as [[]|e]; [done|destruct Hb as [?|?]; [by left|right]; simpl; lia|].
    split; [apply Hb|]. simpl. lia.
Qed.

End gate.

(** C14. The health gate: [wait_until_healthy] ends after at most
    [healthy_threshold + unhealthy_threshold] probes and stores every reply it
    got, with the verdict, detail and time of that reply. It answers [True] only
    when the last [healthy_threshold] were all healthy; when it answers [False]
    the last [unhealthy_threshold] were all unhealthy, or every probe was used
    up. It raises only when httpx refuses the text of the instance's URL,
    which nothing catches. *)
Theorem wait_until_healthy_correct `{Env} health_check instance hc host port w :
  ready w → db_health_checks (w_db w) !! health_check = Some hc →
  1 ≤ hc_healthy_threshold hc → 1 ≤ hc_unhealthy_threshold hc →
  ∃ r rs w', wait_until_healthy health_check instance host port w = (r, w') ∧
    db_health_check_results (w_db w') = db_health_check_results (w_db w) ++ rs ∧
    Z.of_nat (length rs) ≤ hc_healthy_threshold hc + hc_unhealthy_threshold hc ∧
    Forall (probe_result hc health_check instance host port) rs ∧
    match r with
    | Ok true => ends_with true (hc_healthy_threshold hc) rs
    | Ok false => ends_with false (hc_unhealthy_threshold hc) rs ∨
                  Z.of_nat (length rs) = hc_healthy_threshold hc + hc_unhealthy_threshold hc
    | Raise e => url_refused hc host port e
    end.
Proof.
  intros Hr Hhc Hh Hu. unfold wait_until_healthy.
  rewrite (bind_run _ _ _ _ _ (row_run _ _ _ _ (proj1 Hr) Hhc)). simpl.
  destruct (wait_loop_run health_check instance hc host port
    (Z.to_nat (hc_healthy_threshold hc + hc_unhealthy_threshold hc)) (db_health_check_results (w_db w)) [] 0 0 w)
    as (r & rs & w' & Hrun & Hres & Hlen & Hall & Hb);
    [done|done|by rewrite app_nil_r|lia|lia|apply ends_with_nil|apply ends_with_nil|lia|lia|].
  exists r, rs, w'. split; [done|]. split; [done|]. split; [lia|]. split; [done|].
  destruct r as [[]|e]; [done|destruct Hb as [?|?]; [by left|right; lia]|apply Hb].
Qed.
