(* ===== verification/DeploymentService.v ===== *)
(** First deployment of an application: services/control-plane/app/services/deployment_service.py. *)

From S2P Require Import Prelude Python Enums StateMachines HealerYaml Schema Session Hoare.
From S2P Require Import Widths Repositories Protocol LockService CommandService ApplicationService.
From S2P Require Import AuditService GatewayService.
Local Open Scope Z_scope.

(** ** Deployment status *)

Definition transition_deployment `{Env} (deployment : uuid) (target : deployment_status)
    (actor_id : option uuid) : M unit :=
  p ← row db_deployments deployment;
  let previous := dep_status p in
  DeploymentRepository_transition deployment target ;;
  occurred_at ← now;
  add_audit {| au_actor_id := actor_id; au_action := "deployment.transition"; au_target_type := "deployment";
               au_target_id := str_uuid deployment;
               au_detail := Some (JObj [ ("from", JStr (deployment_status_value previous));
                                         ("to", JStr (deployment_status_value target)) ]);
               au_occurred_at := occurred_at |} ;;
  flush.

Definition _service_name (slug : string) (port : Z) : string :=
  "Healer-" +:+ slug +:+ "-" +:+ str_int port.

(** ** Port allocation *)

(** [range(start, stop)]. *)
Definition py_range (start stop : Z) : list Z := seqZ start (stop - start).

(** [service_name] is a [String(255)]. *)
Definition service_name_fits (i : Instance) : bool := (String.length (default "" (inst_service_name i)) <=? 255)%nat.

(** One attempt, in a savepoint of its own: the row is inserted, or a constraint
    refuses it and the savepoint is rolled back. A name that is too long is
    another error, which nothing catches. *)
Definition try_insert_instance (i : Instance) : M (option uuid) :=
  if negb (service_name_fits i) then flush_error StatementError else
  ok ← query (λ d, bool_decide (index_accepts d None i ∧ foreign_keys_ok d i));
  if ok : bool then id ← insert_row db_instances i; mret (Some id) else mret None.

Fixpoint allocate_loop `{Env} (application release server_id : uuid) (ports : list Z) : M (option uuid) :=
  match ports with
  | [] => mret None
  | port :: ports' =>
      a ← row db_applications application;
      created_at ← now;
      attempt ← try_insert_instance
        {| inst_application_id := application; inst_release_id := Some release; inst_server_id := server_id;
           inst_port := port; inst_status := InstanceStatus.PENDING;
           inst_service_name := Some (_service_name (app_slug a) port); inst_deployment_id := None;
           inst_healing_attempts := 0; inst_last_healing_attempt_at := None; inst_failure_reason := None;
           inst_created_at := created_at |};
      match attempt with
      | Some id => mret (Some id)
      | None => allocate_loop application release server_id ports'
      end
  end.

Definition no_free_port (port_start port_end : Z) : string :=
  "no free port available in range " +:+ str_int port_start +:+ "-" +:+ str_int port_end +:+ " on this server".

Definition _allocate_instance `{Env} (application release server_id : uuid) (port_start port_end : Z) : M uuid :=
  found ← allocate_loop application release server_id (py_range port_start (port_end + 1));
  match found with
  | Some id => mret id
  | None => raise (DeploymentSetupError (no_free_port port_start port_end))
  end.

(** ** Starting *)

Definition first_source (application : uuid) : M (option (uuid * Source)) :=
  query (λ d, first (select db_sources (λ s, bool_decide (src_application_id s = application)) d)).

Definition insert_deployment `{Env} (application release : uuid) (instance_count : Z) (kind : string)
    (actor_id : option uuid) : M uuid :=
  created_at ← now;
  insert_row db_deployments
    {| dep_application_id := application; dep_release_id := release; dep_status := DeploymentStatus.PENDING;
       dep_instance_count := instance_count; dep_zero_downtime := true; dep_kind := kind;
       dep_failure_reason := None; dep_created_by := actor_id; dep_created_at := created_at |}.

Definition insert_release `{Env} (application source : uuid) : M uuid :=
  version ← now;
  created_at ← now;
  insert_row db_releases
    {| rel_application_id := application; rel_source_id := Some source; rel_ref := strftime_compact version;
       rel_status := ReleaseStatus.PENDING; rel_release_dir := None; rel_venv_python := None;
       rel_image_ref := None; rel_created_at := created_at |}.

(** [agent is None or agent.status != AgentStatus.CONNECTED] *)
Definition not_connected (agent : option (uuid * Agent)) : bool :=
  match agent with
  | Some (_, a) => negb (bool_decide (ag_status a = AgentStatus.CONNECTED))
  | None => true
  end.

Definition start_deployment `{Env} (application : uuid) (config : HealerYamlV1) (actor_id : option uuid) : M uuid :=
  a ← row db_applications application;
  if bool_decide (is_Some (app_active_release_id a)) then
    raise (DeploymentSetupError "application is already deployed — use POST /applications/{id}/releases for a blue-green update, or /rollback to restore a previous release") else
  if (bool_decide (hy_adapter config = "windows-waitress-service") && bool_decide (hy_windows config = None))%bool then
    raise (DeploymentSetupError "adapter windows-waitress-service requires a windows: section") else
  if (bool_decide (hy_adapter config = "linux-docker") && bool_decide (hy_linux config = None))%bool then
    raise (DeploymentSetupError "adapter linux-docker requires a linux: section") else
  if negb (bool_decide (hy_adapter config ∈ ["windows-waitress-service"; "linux-docker"])) then
    raise (DeploymentSetupError ("adapter " +:+ repr_str (hy_adapter config) +:+ " is not implemented")) else
  match hy_server_id config with
  | None => raise (DeploymentSetupError "no target server selected")
  | Some server_id =>
      agent ← AgentRepository_get_by_server_id server_id;
      if not_connected agent then
        raise (DeploymentSetupError "the target server's Agent is not currently connected") else
      source ← first_source application;
      match source with
      | None => raise (DeploymentSetupError "application has no source configured")
      | Some (source_id, _) =>
          release ← insert_release application source_id;
          instance ← _allocate_instance application release server_id
                       (pr_start (hy_ports config)) (pr_end (hy_ports config));
          deployment ← insert_deployment application release 1 "deploy" actor_id;
          assign db_instances instance (λ i, i <| inst_deployment_id := Some deployment |>) ;;
          transition_deployment deployment DeploymentStatus.IN_PROGRESS actor_id ;;
          commit ;;
          mret deployment
      end
  end.

(** ** Outcomes of agent commands *)

Definition _STEP_STATUS_MAP : list (string * deployment_step_status) :=
  [ ("succeeded", DeploymentStepStatus.SUCCEEDED); ("failed", DeploymentStepStatus.FAILED);
    ("skipped", DeploymentStepStatus.SKIPPED) ].

(** [_STEP_STATUS_MAP.get(v, FAILED)]: a list or a dict cannot be a key. *)
Definition step_status_of (v : json) : M deployment_step_status :=
  match v with
  | JStr s => mret (dict_get _STEP_STATUS_MAP s DeploymentStepStatus.FAILED)
  | JArr _ | JObj _ => raise TypeError
  | _ => mret DeploymentStepStatus.FAILED
  end.

Definition add_log `{Env} (deployment : uuid) (step_id : option uuid) (level message : string) : M unit :=
  row db_deployments deployment ;;
  created_at ← now;
  db_modify (λ d, d <| db_deployment_logs := db_deployment_logs d ++
    [ {| log_deployment_id := deployment; log_step_id := step_id; log_level := level;
         log_message := message; log_created_at := created_at |} ] |>).

Definition add_step `{Env} (deployment : uuid) (name : json) (status : deployment_step_status) (at_ : Z) : M uuid :=
  row db_deployments deployment ;;
  name ← text_value (Some 100%nat) name;
  created_at ← now;
  insert_row db_deployment_steps
    {| step_deployment_id := deployment; step_name := name; step_status := status;
       step_started_at := Some at_; step_finished_at := Some at_; step_created_at := created_at |}.

(** The rows written for one element of [result["steps"]]; [name_of] is the
    step's name as the caller stores it. *)
Definition persist_step `{Env} (deployment : uuid) (now_ : Z) (name_of : json → json) (step : json) : M unit :=
  s ← as_dict step;
  status ← step_status_of (dict_get s "status" JNull);
  step_id ← add_step deployment (name_of (dict_get s "name" (JStr "unknown"))) status now_;
  message ← text_value None (dict_get s "message" (JStr ""));
  add_log deployment (Some step_id)
    (if decide (status = DeploymentStepStatus.FAILED) then "error" else "info") message.

(** [command.status.value not in ("succeeded", "failed")] *)
Definition no_answer (s : agent_command_status) : bool :=
  negb (bool_decide (agent_command_status_value s ∈ ["succeeded"; "failed"])).

Definition _persist_agent_outcome `{Env} (deployment command : uuid) : M bool :=
  c ← row db_agent_commands command;
  if no_answer (cmd_status c) then
    add_log deployment None "error"
      ("the Agent did not respond in time (command status: "
       +:+ agent_command_status_value (cmd_status c) +:+ ")") ;;
    flush ;; mret false
  else if str_truthy (cmd_error c) then
    add_log deployment None "error" (default "" (cmd_error c)) ;;
    flush ;; mret false
  else
    result ← as_dict (or_empty_dict (cmd_result c));
    now_ ← now;
    steps ← py_iter (dict_get result "steps" (JArr []));
    for_each steps (persist_step deployment now_ (λ name, name)) ;;
    flush ;;
    mret (truthy (dict_get result "ok" (JBool false))).

(** ** Payloads *)

(** [if config.adapter == "windows-waitress-service" and config.windows is not
    None: ... elif config.adapter == "linux-docker" and config.linux is not None: ...] *)
Inductive AdapterSection : Type :=
| WindowsSection (windows : WindowsAdapterConfig)
| LinuxSection (linux : LinuxAdapterConfig)
| NoSection.

Definition adapter_section (config : HealerYamlV1) : AdapterSection :=
  match hy_windows config, hy_linux config with
  | Some windows, linux =>
      if decide (hy_adapter config = "windows-waitress-service") then WindowsSection windows
      else match linux with
           | Some linux => if decide (hy_adapter config = "linux-docker") then LinuxSection linux else NoSection
           | None => NoSection
           end
  | None, Some linux => if decide (hy_adapter config = "linux-docker") then LinuxSection linux else NoSection
  | None, None => NoSection
  end.

Definition _build_deploy_release_payload (application release : uuid) (config : HealerYamlV1) : M json :=
  a ← row db_applications application;
  r ← row db_releases release;
  let payload :=
    [ ("adapter", JStr (hy_adapter config)); ("app_slug", JStr (app_slug a));
      ("release_version", JStr (rel_ref r));
      ("source", JObj [ ("type", JStr (sc_type (hy_source config)));
                        ("location", JStr (sc_location (hy_source config)));
                        ("ref", json_opt JStr (sc_ref (hy_source config))) ]) ] in
  mret (JObj (match adapter_section config with
              | WindowsSection windows => dict_set payload "windows" (windows_model_dump windows)
              | LinuxSection linux => dict_set payload "linux" (linux_model_dump linux)
              | NoSection => payload
              end)).

Definition _shared_log_dir (release_dir : string) : string :=
  let app_dir := windows_parent (windows_parent (windows_path release_dir)) in
  str_windows_path (windows_join (windows_join app_dir "shared") "logs").

Definition _build_start_instance_payload `{Env} (release instance : uuid) (config : HealerYamlV1) : M json :=
  i ← row db_instances instance;
  let payload := [ ("adapter", JStr (hy_adapter config)); ("service_name", json_opt JStr (inst_service_name i));
                   ("port", JInt (inst_port i)) ] in
  match adapter_section config with
  | WindowsSection windows =>
      r ← row db_releases release;
      mret (JObj (dict_update payload
        [ ("release_dir", json_opt JStr (rel_release_dir r));
          ("venv_python", json_opt JStr (rel_venv_python r));
          ("wsgi_module", JStr (wc_wsgi_module windows));
          ("host", JStr "127.0.0.1");
          ("log_dir", JStr (_shared_log_dir (default "" (rel_release_dir r)))) ]))
  | LinuxSection linux =>
      secrets ← get_secret_dict (inst_application_id i);
      let env := dict_update (dict_update [] (lc_env linux)) secrets in
      r ← row db_releases release;
      mret (JObj (dict_set payload "linux" (JObj
        [ ("image_ref", json_opt JStr (rel_image_ref r));
          ("internal_port", JInt (lc_internal_port linux));
          ("env", JObj (map (λ kv, (kv.1, JStr kv.2)) env));
          ("cpu_limit", json_opt (λ f : Z * Z, JFloat f.1 f.2) (lc_cpu_limit linux));
          ("memory_limit_mb", json_opt JInt (lc_memory_limit_mb linux)) ])))
  | NoSection => mret (JObj payload)
  end.

Definition _build_stop_instance_payload (instance : uuid) (config : HealerYamlV1) : M json :=
  i ← row db_instances instance;
  mret (JObj [ ("adapter", JStr (hy_adapter config)); ("service_name", json_opt JStr (inst_service_name i)) ]).

(** ** Running *)

(** [result.get(...)] of a finished deploy_release, stored on the release. *)
Definition store_build (release command : uuid) : M unit :=
  c ← row db_agent_commands command;
  result ← as_dict (or_empty_dict (cmd_result c));
  release_dir ← opt_text_value (dict_get result "release_dir" JNull);
  venv_python ← opt_text_value (dict_get result "venv_python" JNull);
  image_ref ← opt_text_value (dict_get result "image_ref" JNull);
  assign db_releases release (λ r,
    r <| rel_release_dir := release_dir |> <| rel_venv_python := venv_python |>
      <| rel_image_ref := image_ref |> <| rel_status := ReleaseStatus.READY |>).

Definition set_release_status (release : uuid) (status : release_status) : M unit :=
  assign db_releases release (λ r, r <| rel_status := status |>).

(** [result.message or default], stored in a log line. *)
Definition message_or (message : json) (dflt : string) : M string :=
  if truthy message then text_value None message else mret dflt.

Definition _sync_gateway_step `{Env} (deployment application : uuid) : M unit :=
  p ← row db_deployments deployment;
  result ← sync_gateway application (dep_created_by p);
  now_ ← now;
  step ← add_step deployment (JStr "gateway_sync")
           (if gs_ok result then DeploymentStepStatus.SUCCEEDED else DeploymentStepStatus.FAILED) now_;
  message ← message_or (gs_message result)
              (if gs_ok result then "gateway routing updated" else "gateway sync failed");
  add_log deployment (Some step) (if gs_ok result then "info" else "error") message ;;
  commit.

(** The body of [run_deployment]'s [try]. *)
Definition run_deployment_body `{Env} (deployment : uuid) : M unit :=
  p ← row db_deployments deployment;
  release_row ← session_get db_releases (dep_release_id p);
  application_row ← session_get db_applications (dep_application_id p);
  let release := dep_release_id p in
  let application := dep_application_id p in
  if negb (bool_decide (is_Some release_row) && bool_decide (is_Some application_row)) then mret tt else
  instance ← query (λ d, first (select db_instances (λ i, bool_decide (inst_release_id i = Some release)) d));
  match instance with
  | None => mret tt
  | Some (instance, i) =>
      config ← config_from_application application;
      agent ← AgentRepository_get_by_server_id (inst_server_id i);
      match agent with
      | None =>
          add_log deployment None "error" "the target server's Agent disappeared before deployment could run" ;;
          transition_deployment deployment DeploymentStatus.FAILED None ;;
          commit
      | Some (agent, _) =>
          set_release_status release ReleaseStatus.BUILDING ;;
          commit ;;
          deploy_payload ← _build_deploy_release_payload application release config;
          deploy_command ← submit_command_and_wait agent AgentCommandType.DEPLOY_RELEASE deploy_payload
                             ("deploy-release:" +:+ str_uuid deployment) None 600;
          deploy_ok ← _persist_agent_outcome deployment deploy_command;
          (if deploy_ok : bool then store_build release deploy_command
           else set_release_status release ReleaseStatus.FAILED) ;;
          commit ;;
          if negb deploy_ok then
            InstanceRepository_transition instance InstanceStatus.FAILED ;;
            transition_deployment deployment DeploymentStatus.FAILED None ;;
            commit
          else
            InstanceRepository_transition instance InstanceStatus.STARTING ;;
            commit ;;
            start_payload ← _build_start_instance_payload release instance config;
            start_command ← submit_command_and_wait agent AgentCommandType.START_INSTANCE start_payload
                              ("start-instance:" +:+ str_uuid instance) None 200;
            start_ok ← _persist_agent_outcome deployment start_command;
            if start_ok : bool then
              InstanceRepository_transition instance InstanceStatus.RUNNING ;;
              transition_deployment deployment DeploymentStatus.SUCCEEDED None ;;
              assign db_applications application (λ a, a <| app_active_release_id := Some release |>) ;;
              commit ;;
              when (bool_decide (is_Some (hy_domain config))) (_sync_gateway_step deployment application)
            else
              InstanceRepository_transition instance InstanceStatus.FAILED ;;
              transition_deployment deployment DeploymentStatus.FAILED None ;;
              commit
      end
  end.

(** [lock_service.release(session, deployment.application_id, lock_token)] *)
Definition release_lock_of (deployment : uuid) (lock_token : Z) : M unit :=
  p ← row db_deployments deployment; release (dep_application_id p) lock_token.

Definition run_deployment `{Env} (deployment_id : uuid) (lock_token : Z) : M unit :=
  deployment ← session_get db_deployments deployment_id;
  match deployment with
  | None => mret tt
  | Some _ => try_finally (run_deployment_body deployment_id) (release_lock_of deployment_id lock_token)
  end.

(** ** What these leave alone *)

Section keeps.
Context `{Env} (I : invariant).

Lemma keeps_as_dict (v : json) : keeps I (as_dict v).
Proof. destruct v; simpl; keeps_auto. Qed.

Lemma keeps_py_iter (v : json) : keeps I (py_iter v).
Proof. destruct v; simpl; keeps_auto. Qed.

Lemma keeps_step_status_of v : keeps I (step_status_of v).
Proof. unfold step_status_of. keeps_auto. Qed.

Lemma keeps_config_from_application a : keeps I (config_from_application a).
Proof. unfold config_from_application, model_validate. keeps_auto. Qed.

Lemma keeps_build_deploy_release_payload a r c : keeps I (_build_deploy_release_payload a r c).
Proof. unfold _build_deploy_release_payload. keeps_auto. Qed.

Lemma keeps_build_start_instance_payload r i c : keeps I (_build_start_instance_payload r i c).
Proof. unfold _build_start_instance_payload. keeps_auto. Qed.

Lemma keeps_build_stop_instance_payload i c : keeps I (_build_stop_instance_payload i c).
Proof. unfold _build_stop_instance_payload. keeps_auto. Qed.

Lemma keeps_message_or m s : keeps I (message_or m s).
Proof. unfold message_or. keeps_auto. Qed.

Lemma keeps_get_by_server_id s : keeps I (AgentRepository_get_by_server_id s).
Proof. unfold AgentRepository_get_by_server_id. keeps_auto. Qed.

Lemma keeps_first_source a : keeps I (first_source a).
Proof. unfold first_source. keeps_auto. Qed.

Lemma keeps_add_log `{!RecordStable I} d s l m : keeps I (add_log d s l m).
Proof. unfold add_log. keeps_auto. Qed.

Lemma keeps_add_step `{!RecordStable I} d n s t : keeps I (add_step d n s t).
Proof. unfold add_step. keeps_auto. Qed.

Lemma keeps_persist_step `{!RecordStable I} d t f s : keeps I (persist_step d t f s).
Proof.
  pose proof keeps_as_dict. pose proof keeps_step_status_of. pose proof keeps_add_step.
  pose proof keeps_add_log. unfold persist_step. keeps_auto.
Qed.

Lemma keeps_persist_agent_outcome `{!RecordStable I} d c : keeps I (_persist_agent_outcome d c).
Proof.
  pose proof keeps_as_dict. pose proof keeps_py_iter. pose proof keeps_persist_step.
  pose proof keeps_add_log. unfold _persist_agent_outcome. keeps_auto.
Qed.

Lemma keeps_sync_gateway_step `{!RecordStable I} d a : keeps I (_sync_gateway_step d a).
Proof.
  pose proof keeps_add_step. pose proof keeps_add_log. pose proof keeps_message_or.
  unfold _sync_gateway_step. keeps_auto.
Qed.

(** Pending deletes do not touch the audit log. *)
Lemma deletes_audit dels d l :
  (foldr delete_release d dels) <| db_audit_logs := l |> = foldr delete_release (d <| db_audit_logs := l |>) dels.
Proof. induction dels as [|r dels IH]; simpl; [done|]. by rewrite <-IH. Qed.

Lemma deletes_audit_logs dels d : db_audit_logs (foldr delete_release d dels) = db_audit_logs d.
Proof. by induction dels. Qed.

(** A deployment transition with its audit entry, for any predicate that
    survives it. *)
Lemma hoare_transition_deployment id target actor :
  (∀ d p e, I d → db_deployments d !! id = Some p → legal DEPLOYMENT_TRANSITIONS (dep_status p) target →
     describes_transition id (dep_status p) target e →
     I (d <| db_deployments := <[id := p <| dep_status := target |>]> (db_deployments d) |>
          <| db_audit_logs := db_audit_logs d ++ [e] |>)) →
  keeps I (transition_deployment id target actor).
Proof.
  intros HI w Hw.
  unfold transition_deployment, DeploymentRepository_transition, assign, row, session_get, query, now,
    observe, add_audit, db_modify, require_active, mbind, st_bind. simpl.
  destruct (w_active w) eqn:Ha; simpl; [|done].
  destruct (db_deployments (w_db w) !! id) as [p|] eqn:Ep; simpl; [|done].
  rewrite Ha. simpl. rewrite Ep. simpl. rewrite require_transition_run.
  destruct (can_transition _ _ _) eqn:Hl; simpl; [|done].
  rewrite Ha. simpl. rewrite Ep. simpl. rewrite Ha. simpl.
  unfold flush, require_active, mbind, st_bind. simpl. rewrite Ha. simpl. rewrite Ha. simpl. rewrite Ha. simpl.
  split; [|done]. destruct Hw as (Hdb & Hc & Hdel). split; [|split; [done|]].
  - simpl. rewrite deletes_audit, deletes_audit_logs. simpl.
    match goal with |- context [db_audit_logs (w_db w) ++ [?e]] => set (entry := e) end.
    assert (I ((w_db w) <| db_deployments := <[id:=p <| dep_status := target |>]> (db_deployments (w_db w)) |>
                <| db_audit_logs := db_audit_logs (w_db w) ++ [entry] |>)) as Hnew by by apply HI.
    by apply flush_deletes.
  - simpl. intros r Hr. by apply elem_of_nil in Hr.
Qed.

Lemma keeps_transition_deployment `{!Stable I} id target actor : keeps I (transition_deployment id target actor).
Proof.
  apply hoare_transition_deployment. intros d p e Hd Hp Hl He.
  eapply stable; [by eapply step_deployment_move|done].
Qed.

(** ** Inserts *)

Lemma service_name_fits_spec i : service_name_fits i = true → instance_fits i.
Proof.
  unfold service_name_fits, instance_fits. destruct (inst_service_name i) as [s|]; [|done]. simpl.
  intros Hs%Nat.leb_le. by solve_fits 255%nat.
Qed.

Lemma hoare_try_insert_instance i :
  (∀ d id, I d → db_instances d !! id = None → index_accepts d None i → foreign_keys_ok d i → instance_fits i →
     I (d <| db_instances := <[id := i]> (db_instances d) |>)) →
  hoare I (try_insert_instance i) (λ r, ∀ id, r = Some id → ∃ d, I d ∧ db_instances d !! id = None).
Proof.
  intros HI w Hw. unfold try_insert_instance. destruct (service_name_fits i) eqn:Hfits; [simpl|by apply hoare_flush_error].
  assert (instance_fits i) as Hi by (by apply service_name_fits_spec).
  unfold insert_row, query, db_modify, require_active, mbind, st_bind. simpl. destruct (w_active w) eqn:Ha; simpl; [|done].
  case_bool_decide as Hok; simpl; [|split; [done|]; by intros ? [= <-]].
  rewrite Ha. simpl. rewrite Ha. simpl.
  match goal with |- context [N.max ?a ?b] => set (id := N.max a b) end.
  assert (db_instances (w_db w) !! id = None) as Hid.
  { destruct (db_instances (w_db w) !! id) as [r'|] eqn:E; [|done].
    apply next_key_spec in E. subst id. lia. }
  destruct Hw as (Hdb&?&?). destruct Hok. split.
  - split; [by apply HI|done].
  - intros a [= <-]. intros ? [= <-]. by exists (w_db w).
Qed.

(** What an allocated row looks like. *)
Definition allocated_row (application release server_id : uuid) (port : Z) (i : Instance) : Prop :=
  inst_application_id i = application ∧ inst_release_id i = Some release ∧ inst_server_id i = server_id ∧
  inst_port i = port ∧ inst_status i = InstanceStatus.PENDING ∧ inst_healing_attempts i = 0.

Lemma hoare_allocate_instance application release server_id port_start port_end :
  (∀ d id i port, I d → db_instances d !! id = None → allocated_row application release server_id port i →
     index_accepts d None i → foreign_keys_ok d i → instance_fits i →
     I (d <| db_instances := <[id := i]> (db_instances d) |>)) →
  hoare I (_allocate_instance application release server_id port_start port_end)
    (λ id, ∃ d, I d ∧ db_instances d !! id = None).
Proof.
  intros HI. unfold _allocate_instance.
  apply (hoare_bind I _ _ (λ r, ∀ id, r = Some id → ∃ d, I d ∧ db_instances d !! id = None)).
  - induction (py_range _ _) as [|port ports IH]; simpl; [by apply hoare_ret|].
    apply keeps_bind; [keeps_auto|]. intros a. apply keeps_bind; [keeps_auto|]. intros t.
    eapply hoare_bind; [apply hoare_try_insert_instance; intros; by eapply HI|].
    intros [id|] Hid; [by apply hoare_ret|done].
  - intros [id|] Hid; [|apply hoare_raise]. apply hoare_ret. by apply Hid.
Qed.

Lemma keeps_allocate_instance `{!Stable I} a r s p q : keeps I (_allocate_instance a r s p q).
Proof.
  eapply hoare_keeps, hoare_allocate_instance.
  intros d id i port Hd Hid (?&?&?&?&?&?) ? ? ?. eapply stable; [by eapply step_instance_new|done].
Qed.

Lemma keeps_insert_deployment `{!Stable I} a r n k actor : keeps I (insert_deployment a r n k actor).
Proof.
  unfold insert_deployment. apply keeps_bind; [keeps_auto|]. intros t.
  eapply hoare_keeps, hoare_insert_row. intros d id Hd Hid.
  eapply stable; [by eapply step_deployment_new|done].
Qed.

Lemma keeps_insert_release `{!Stable I} a s : keeps I (insert_release a s).
Proof.
  unfold insert_release. apply keeps_bind; [keeps_auto|]. intros t.
  apply keeps_bind; [keeps_auto|]. intros t'.
  eapply hoare_keeps, hoare_insert_row. intros d id Hd Hid.
  eapply stable; [by eapply step_release_new|done].
Qed.

Lemma keeps_set_release_status `{!Stable I} r s : keeps I (set_release_status r s).
Proof. unfold set_release_status. keeps_auto. Qed.

Lemma keeps_store_build `{!Stable I} r c : keeps I (store_build r c).
Proof. pose proof keeps_as_dict. unfold store_build. keeps_auto. Qed.

Lemma keeps_release_lock_of `{!Stable I} d t : keeps I (release_lock_of d t).
Proof. unfold release_lock_of. keeps_auto. Qed.

End keeps.

#[export] Hint Resolve keeps_as_dict keeps_py_iter keeps_config_from_application
  keeps_build_deploy_release_payload keeps_build_start_instance_payload keeps_build_stop_instance_payload
  keeps_message_or keeps_get_by_server_id keeps_first_source keeps_add_log keeps_add_step
  keeps_persist_step keeps_persist_agent_outcome keeps_sync_gateway_step keeps_transition_deployment
  keeps_allocate_instance keeps_insert_deployment keeps_insert_release keeps_set_release_status
  keeps_store_build keeps_release_lock_of : keeps.

Section operations.
Context `{Env} (I : invariant) `{!Stable I}.

Lemma keeps_start_deployment a c actor : keeps I (start_deployment a c actor).
Proof. unfold start_deployment. keeps_auto. Qed.

Lemma keeps_run_deployment id t : keeps I (run_deployment id t).
Proof. unfold run_deployment, run_deployment_body. keeps_auto. Qed.

End operations.

#[export] Hint Resolve keeps_start_deployment keeps_run_deployment : keeps.

(** ** A deployment transition, exactly *)

Lemma transition_deployment_run `{Env} id target actor p w :
  ready w → db_deployments (w_db w) !! id = Some p → legal DEPLOYMENT_TRANSITIONS (dep_status p) target →
  ∃ w', transition_deployment id target actor w = (Ok tt, w') ∧ ready w' ∧
    db_deployments (w_db w') = <[id := p <| dep_status := target |>]> (db_deployments (w_db w)) ∧
    db_instances (w_db w') = db_instances (w_db w) ∧ db_applications (w_db w') = db_applications (w_db w) ∧
    db_releases (w_db w') = db_releases (w_db w).
Proof.
  intros Hr Hp Hl. pose proof Hr as [Ha _]. unfold transition_deployment, DeploymentRepository_transition.
  rewrite (bind_run _ _ _ _ _ (row_run _ _ _ _ Ha Hp)). unfold mbind at 1, st_bind at 1.
  rewrite (bind_run _ _ _ _ _ (row_run _ _ _ _ Ha Hp)). unfold mbind at 1, st_bind at 1.
  rewrite require_transition_run. unfold legal in Hl. rewrite Hl.
  rewrite (bind_run _ _ _ _ _ (assign_run _ _ _ _ _ Ha Hp)), flush_run by exact Hr.
  rewrite (bind_run _ _ _ _ _ (now_run _)). unfold add_audit, mbind, st_bind.
  rewrite db_modify_run by exact Ha. rewrite flush_run by exact Hr. by eexists.
Qed.

(** A transition of a deployment that is committed at once takes the session and
    the committed database from one predicate to another. *)
Lemma wp_transition_deployment_commit `{Env} (P P' : DB → Prop) id target p (Q : result exn unit → World → Prop) w :
  inv (strict P) w →
  (∀ d, P d → db_deployments d !! id = Some p) → legal DEPLOYMENT_TRANSITIONS (dep_status p) target →
  (∀ d d', P d → db_deployments d' = <[id := p <| dep_status := target |>]> (db_deployments d) →
     db_instances d' = db_instances d → db_applications d' = db_applications d → db_releases d' = db_releases d → P' d') →
  (∀ w', inv (strict P') w' → Q (Ok tt) w') →
  (∀ e w', inv (strict P) w' → Q (Raise e) w') →
  wp (transition_deployment id target None ;; commit) Q w.
Proof.
  intros Hw Hp Hl HP HQ He. pose proof Hw as (Hdb & _ & Hd)%inv_strict. unfold wp. destruct (w_active w) eqn:Ha.
  - destruct (transition_deployment_run id target None p w) as (w' & Hrun & Hr' & E1 & E2 & E3 & E4); [done|by apply Hp|done|].
    rewrite (bind_run _ _ _ _ _ Hrun), (commit_run w' Hr'). apply HQ, inv_strict.
    assert (P' (w_db w')) by (by eapply HP). split; [done|]. split; [done|]. apply Hr'.
  - unfold transition_deployment, row, session_get, query, require_active, mbind, st_bind. simpl. rewrite Ha. by apply He.
Qed.

(** ** Port allocation, exactly *)

(** No live instance of the server uses the port. *)
Definition port_free (d : DB) (server_id : uuid) (port : Z) : Prop :=
  map_Forall (λ _ j, ¬ (live_status (inst_status j) = true ∧ inst_server_id j = server_id ∧ inst_port j = port))
    (db_instances d).

Lemma index_accepts_pending d i :
  inst_status i = InstanceStatus.PENDING → index_accepts d None i ↔ port_free d (inst_server_id i) (inst_port i).
Proof.
  intros Hs. unfold index_accepts, port_free, holds_port. rewrite Hs. split.
  - intros Hx k j Hj. by apply (Hx eq_refl k j Hj).
  - intros Hx _ k j Hj _. exact (Hx k j Hj).
Qed.

Lemma allocate_loop_run `{Env} application release server_id ports a w :
  w_active w = true → db_applications (w_db w) !! application = Some a →
  is_Some (db_servers (w_db w) !! server_id) → is_Some (db_releases (w_db w) !! release) →
  match allocate_loop application release server_id ports w with
  | (Ok (Some id), w') =>
      ∃ pre port post i, ports = pre ++ port :: post ∧ Forall (λ q, ¬ port_free (w_db w) server_id q) pre ∧
        port_free (w_db w) server_id port ∧ db_instances (w_db w) !! id = None ∧
        allocated_row application release server_id port i ∧
        inst_service_name i = Some (_service_name (app_slug a) port) ∧
        w_db w' = (w_db w) <| db_instances := <[id := i]> (db_instances (w_db w)) |>
  | (Ok None, w') => Forall (λ q, ¬ port_free (w_db w) server_id q) ports ∧ w_db w' = w_db w
  | (Raise e, w') => e = StatementError ∧ w_db w' = w_committed w ∧
      ∃ port, port ∈ ports ∧ (255 < String.length (_service_name (app_slug a) port))%nat
  end.
Proof.
  revert w. induction ports as [|port ports IH]; intros w Hw Ha Hs Hrel; [by split|]. simpl.
  rewrite (bind_run _ _ _ _ _ (row_run _ _ _ _ Hw Ha)), (bind_run _ _ _ _ _ (now_run _)).
  set (i := Build_Instance _ _ _ _ _ _ _ _ _ _ _). set (w1 := w <| w_tick := _ |>).
  unfold try_insert_instance. destruct (service_name_fits i) eqn:Hfits; simpl.
  2:{ split; [done|]. split; [done|]. exists port. split; [left|]. by apply Nat.leb_gt in Hfits. }
  unfold mbind at 1, st_bind at 1. rewrite (bind_run _ _ _ _ _ (query_run _ w1 Hw)). simpl.
  assert (foreign_keys_ok (w_db w) i) as Hfk by (split; [by exists a|done]).
  case_bool_decide as Hok.
  - destruct (insert_row_run db_instances i w1 Hw) as (id & Hid & _ & Hins).
    rewrite (bind_run _ _ _ _ _ Hins). simpl. exists [], port, ports, i. split; [done|]. split; [apply Forall_nil_2|].
    split; [exact (proj1 (index_accepts_pending (w_db w) i eq_refl) (proj1 Hok))|].
    split; [done|]. by split; [repeat split|].
  - assert (¬ port_free (w_db w) server_id port) as Hnot.
    { intros Hf. apply Hok. split; [|done]. exact (proj2 (index_accepts_pending (w_db w) i eq_refl) Hf). }
    simpl. specialize (IH w1 Hw Ha Hs Hrel).
    destruct (allocate_loop application release server_id ports w1) as [[[id|]|e] w'].
    + destruct IH as (pre & q & post & j & -> & Hpre & Hrest). exists (port :: pre), q, post, j.
      split; [done|]. split; [by apply Forall_cons|done].
    + destruct IH as [Hall Hdb]. split; [by apply Forall_cons|done].
    + destruct IH as (-> & Hdb & q & Hq & Hlen). split; [done|]. split; [done|]. exists q. split; [by right|done].
Qed.

(** What an allocation can do to the session, whatever it finds. *)
Lemma allocate_loop_cases `{Env} application release server_id ports w :
  let '(r, w') := allocate_loop application release server_id ports w in
  w_committed w' = w_committed w ∧ (w_deleted w' = w_deleted w ∨ w_deleted w' = []) ∧
  match r with
  | Raise e => w_db w' = w_db w ∨ e = StatementError ∧ w_db w' = w_committed w
  | Ok (Some id) => ∃ port i, db_instances (w_db w) !! id = None ∧ allocated_row application release server_id port i ∧
      w_db w' = (w_db w) <| db_instances := <[id := i]> (db_instances (w_db w)) |>
  | Ok None => w_db w' = w_db w
  end.
Proof.
  revert w. induction ports as [|port ports IH]; intros w; [simpl; split_and!; auto|]. simpl. destruct (w_active w) eqn:Hw.
  2:{ unfold row, session_get, query, require_active, mbind, st_bind. simpl. rewrite Hw. split_and!; auto. }
  destruct (db_applications (w_db w) !! application) as [a|] eqn:Ha.
  2:{ unfold row, session_get, query, require_active, mbind, st_bind. simpl. rewrite Hw. simpl. rewrite Ha. split_and!; auto. }
  rewrite (bind_run _ _ _ _ _ (row_run _ _ _ _ Hw Ha)), (bind_run _ _ _ _ _ (now_run _)).
  set (i := Build_Instance _ _ _ _ _ _ _ _ _ _ _). set (w1 := w <| w_tick := _ |>).
  unfold try_insert_instance. destruct (service_name_fits i); simpl; [|split_and!; auto].
  unfold mbind at 1, st_bind at 1. rewrite (bind_run _ _ _ _ _ (query_run _ w1 Hw)). simpl. case_bool_decide as Hok.
  - destruct (insert_row_run db_instances i w1 Hw) as (id & Hid & _ & Hins).
    rewrite (bind_run _ _ _ _ _ Hins). simpl. split; [done|]. split; [by left|]. by exists port, i.
  - exact (IH w1).
Qed.

(** Splitting a range of integers at one of its members. *)
Lemma seqZ_split start len pre x post :
  seqZ start len = pre ++ x :: post → start ≤ x < start + len ∧ ∀ q, start ≤ q < x → q ∈ pre.
Proof.
  intros E.
  assert (x ∈ seqZ start len) as Hx by (rewrite E; apply elem_of_app; right; left).
  assert (seqZ start len !! length pre = Some x) as Hl by (rewrite E; by apply list_lookup_middle).
  apply lookup_seqZ in Hl as [Hl1 Hl2]. split; [lia|].
  intros q Hq. assert (seqZ start len !! Z.to_nat (q - start) = Some q) as Hlq by (apply lookup_seqZ; lia).
  rewrite E, lookup_app_l in Hlq by lia. by eapply list_elem_of_lookup_2.
Qed.

(** C15. Port allocation is exact: [_allocate_instance] inserts one PENDING row
    on the lowest port of the range that no live instance of the server uses,
    named after the application and the port; it raises [DeploymentSetupError]
    exactly when every port of the range is in use, and then it changes no
    row. The one other way it can end is that the name of some port of the range
    does not fit the 255 characters of its column. *)
Theorem allocate_instance_lowest_free_port `{Env} application release server_id lo hi a w :
  w_active w = true → db_applications (w_db w) !! application = Some a →
  is_Some (db_servers (w_db w) !! server_id) → is_Some (db_releases (w_db w) !! release) →
  match _allocate_instance application release server_id lo hi w with
  | (Ok id, w') =>
      ∃ port i, lo ≤ port ≤ hi ∧ port_free (w_db w) server_id port ∧
        (∀ q, lo ≤ q < port → ¬ port_free (w_db w) server_id q) ∧
        db_instances (w_db w) !! id = None ∧ allocated_row application release server_id port i ∧
        inst_service_name i = Some (_service_name (app_slug a) port) ∧
        w_db w' = (w_db w) <| db_instances := <[id := i]> (db_instances (w_db w)) |>
  | (Raise e, w') =>
      e = DeploymentSetupError (no_free_port lo hi) ∧
      (∀ q, lo ≤ q ≤ hi → ¬ port_free (w_db w) server_id q) ∧ w_db w' = w_db w ∨
      e = StatementError ∧ w_db w' = w_committed w ∧
      ∃ q, lo ≤ q ≤ hi ∧ (255 < String.length (_service_name (app_slug a) q))%nat
  end.
Proof.
  intros Hw Ha Hs Hrel. unfold _allocate_instance, py_range, mbind, st_bind.
  pose proof (allocate_loop_run application release server_id (seqZ lo (hi + 1 - lo)) a w Hw Ha Hs Hrel) as Hrun.
  destruct (allocate_loop _ _ _ _ w) as [[[id|]|e] w']; simpl.
  - destruct Hrun as (pre & port & post & i & E & Hpre & Hfree & Hrest).
    apply seqZ_split in E as [Hport Hbelow]. exists port, i. split; [lia|]. split; [done|]. split; [|done].
    intros q Hq. rewrite Forall_forall in Hpre. by apply Hpre, Hbelow.
  - destruct Hrun as [Hall Hdb]. left. split; [done|]. split; [|done].
    intros q Hq. rewrite Forall_forall in Hall. apply Hall, elem_of_seqZ. lia.
  - destruct Hrun as (-> & Hdb & q & Hq%elem_of_seqZ & Hlen). right. split; [done|]. split; [done|]. exists q. split; [lia|done].
Qed.
