(* ===== verification/LogService.v ===== *)
(** Logs of instances: services/control-plane/app/services/log_service.py and
    app/api/routes/logs.py.

    [stream_instance_log] is a generator that the route turns into a response;
    it is modelled by the list of the events it yields and the exception that
    ended it, if one did. What an event loop does with other tasks between two
    polls happens at [asyncio.sleep]. *)

From Stdlib Require Import Ascii.
From S2P Require Import Prelude Python Enums HealerYaml Schema Session Hoare Permissions Repositories Redaction.
From S2P Require Import Protocol CommandService AuditService DeploymentService.
Local Open Scope Z_scope.

Definition DEFAULT_MAX_BYTES : Z := 64 * 1024.
Definition HARD_MAX_BYTES : Z := 1024 * 1024.
Definition DEFAULT_MAX_LINES : Z := 500.
Definition HARD_MAX_LINES : Z := 5000.

Definition STREAM_POLL_SECONDS : Z := 2.
Definition STREAM_MAX_SECONDS : Z := 600.
Definition STREAM_INITIAL_MAX_BYTES : Z := 32 * 1024.
Definition STREAM_INITIAL_MAX_LINES : Z := 100.
Definition STREAM_POLL_MAX_BYTES : Z := 64 * 1024.
Definition STREAM_POLL_MAX_LINES : Z := 500.

(** ** Sources *)

Record LogSourceOut := {
  ls_id : string;
  ls_type : string;
  ls_label : string;
  ls_instance_id : option uuid;
}.

Definition instance_sources (id : uuid) (i : Instance) : list LogSourceOut :=
  let label := default "None" (inst_service_name i) +:+ " (port " +:+ str_int (inst_port i) +:+ ")" in
  [ {| ls_id := str_uuid id +:+ ":stdout"; ls_type := "stdout"; ls_label := label +:+ " — stdout";
       ls_instance_id := Some id |};
    {| ls_id := str_uuid id +:+ ":stderr"; ls_type := "stderr"; ls_label := label +:+ " — stderr";
       ls_instance_id := Some id |} ].

Definition list_log_sources (application_id : uuid) : M (list LogSourceOut) :=
  instances ← query (λ d, order_by_desc (λ kv, inst_created_at kv.2)
    (select db_instances (λ i, (bool_decide (inst_application_id i = application_id)
                                && bool_decide (is_Some (inst_service_name i)))%bool) d));
  mret (concat (map (λ '(id, i), instance_sources id i) instances) ++
        [ {| ls_id := "deployment"; ls_type := "deployment"; ls_label := "Deployment logs (all releases)";
             ls_instance_id := None |} ]).

(** ** Collecting *)

Definition _clamp (value : option Z) (default_ hard_cap : Z) : Z :=
  match value with
  | None => default_
  | Some v => if (v <=? 0) || (hard_cap <? v) then default_ else v
  end%bool.

(** What the agent's answer says; nothing checks its members. *)
Record Chunk := {
  ch_lines : json;
  ch_size : json;
  ch_end_offset : json;
  ch_truncated : json;
  ch_not_found : json;
}.

(** The members of a [collect_logs] command that do not depend on the adapter. *)
Definition collect_payload (service_name stream : string) (max_bytes max_lines : Z) (offset : json) :
    list (string * json) :=
  [ ("service_name", JStr service_name); ("stream", JStr stream); ("max_bytes", JInt max_bytes);
    ("max_lines", JInt max_lines); ("offset", offset) ].

(** The idempotency key is a [String(255)] column; it contains an [uuid4], so no
    command has it yet. *)
Definition _collect `{Env} (instance : uuid) (stream : string) (max_bytes max_lines : Z) (offset : json) : M Chunk :=
  i ← row db_instances instance;
  match inst_release_id i with
  | None => raise (LogUnavailableError "this instance has no known release yet")
  | Some release_id =>
      release ← session_get db_releases release_id;
      application ← session_get db_applications (inst_application_id i);
      match application, release with
      | Some a, Some r =>
          if negb (str_truthy (inst_service_name i)) then
            raise (LogUnavailableError "this instance has no service name") else
          agent ← AgentRepository_get_by_server_id (inst_server_id i);
          match agent with
          | None => raise (LogUnavailableError "the instance's Agent is not currently connected")
          | Some (agent, ag) =>
              if negb (bool_decide (ag_status ag = AgentStatus.CONNECTED)) then
                raise (LogUnavailableError "the instance's Agent is not currently connected") else
              let payload := collect_payload (default "" (inst_service_name i)) stream max_bytes max_lines offset in
              payload ← (if bool_decide (app_adapter_type a = AdapterType.LINUX_DOCKER) then
                           mret (payload ++ [("adapter", JStr "linux-docker")])
                         else if negb (str_truthy (rel_release_dir r)) then
                           raise (LogUnavailableError "this instance's release directory is not known yet")
                         else mret (payload ++ [("log_dir", JStr (_shared_log_dir (default "" (rel_release_dir r))))]));
              nonce ← uuid4;
              key ← text_value (Some 255%nat)
                (JStr ("collect-logs:" +:+ str_uuid instance +:+ ":" +:+ stream +:+ ":"
                       +:+ py_str env_float_repr offset +:+ ":" +:+ str_uuid nonce));
              command ← submit_command_and_wait agent AgentCommandType.COLLECT_LOGS (JObj payload) key None 60;
              c ← row db_agent_commands command;
              if negb (bool_decide (cmd_status c = AgentCommandStatus.SUCCEEDED)) then
                raise (LogUnavailableError
                  (if str_truthy (cmd_error c) then default "" (cmd_error c)
                   else "the agent did not return a log result in time"))
              else
                result ← as_dict (or_empty_dict (cmd_result c));
                mret {| ch_lines := dict_get result "lines" (JArr []);
                        ch_size := dict_get result "size" (JInt 0);
                        ch_end_offset := dict_get result "end_offset" (JInt 0);
                        ch_truncated := dict_get result "truncated" (JBool false);
                        ch_not_found := dict_get result "not_found" (JBool false) |}
          end
      | _, _ => raise (LogUnavailableError "this instance's release is not known yet")
      end
  end.

(** [log_redaction.redact_lines] of what the agent sent: a member that is not a
    string fails in [replace], or in [sub] when there is nothing to replace. *)
Fixpoint redact_members (values : list string) (lines : list json) : M (list string) :=
  match lines with
  | [] => mret []
  | JStr line :: lines' =>
      rest ← redact_members values lines';
      mret (redact_line line values :: rest)
  | _ :: _ => raise (if existsb (λ v, negb (String.eqb v "")) values then AttributeError else TypeError)
  end.

Definition redact_json_lines (lines : json) (values : list string) : M (list string) :=
  members ← py_iter lines;
  redact_members values members.

Definition fetch_instance_log `{Env} (instance : uuid) (stream : string) (max_bytes max_lines : option Z)
    (offset : option Z) : M (Chunk * list string) :=
  chunk ← _collect instance stream (_clamp max_bytes DEFAULT_MAX_BYTES HARD_MAX_BYTES)
            (_clamp max_lines DEFAULT_MAX_LINES HARD_MAX_LINES) (opt_json JInt offset);
  i ← row db_instances instance;
  secrets ← get_secret_values (inst_application_id i);
  lines ← redact_json_lines (ch_lines chunk) secrets;
  mret (chunk, lines).

(** ** Streaming *)

Inductive LogEvent : Type :=
| EvLines (lines : list string)
| EvError (message : string)
| EvClosed (message : string).

(** [time.monotonic()], which was [clock] when it was last read. *)
Definition monotonic `{Env} (clock : Z) : M Z := dt ← observe env_elapsed; mret (clock + Z.of_N dt).

(** [asyncio.sleep(s)] lasts at least that long; the clock after it. *)
Definition asyncio_sleep `{Env} (s clock : Z) : M Z := yield_to_tasks ;; monotonic (clock + seconds s).

(** How one poll ends: the generator returns, polls again, or has a chunk and
    the secrets to redact in it. *)
Inductive Poll : Type :=
| PollStop (event : LogEvent)
| PollRetry (event : LogEvent) (clock : Z)
| PollChunk (chunk : Chunk) (secrets : list string).

(** One turn of the loop up to the [finally], on a session of its own. *)
Definition stream_poll `{Env} (application_id instance_id : uuid) (stream : string) (clock : Z) (first_ : bool)
    (offset : json) : M Poll :=
  try_finally
    (instance ← session_get db_instances instance_id;
     match instance with
     | None => mret (PollStop (EvError "instance not found"))
     | Some i =>
         if negb (bool_decide (inst_application_id i = application_id)) then
           mret (PollStop (EvError "instance not found")) else
         chunk ← try_except
           (c ← _collect instance_id stream
                  (if first_ then STREAM_INITIAL_MAX_BYTES else STREAM_POLL_MAX_BYTES)
                  (if first_ then STREAM_INITIAL_MAX_LINES else STREAM_POLL_MAX_LINES)
                  (if first_ then JNull else offset);
            mret (inr c))
           (λ e, match e with
                 | LogUnavailableError msg => clock ← asyncio_sleep STREAM_POLL_SECONDS clock; mret (inl (msg, clock))
                 | _ => raise e
                 end);
         match chunk with
         | inl (msg, clock) => mret (PollRetry (EvError msg) clock)
         | inr chunk =>
             i ← row db_instances instance_id;
             secrets ← get_secret_values (inst_application_id i);
             mret (PollChunk chunk secrets)
         end
     end)
    rollback.

(** The lines of a chunk, when it has any. *)
Definition chunk_events (chunk : Chunk) (secrets : list string) : M (list LogEvent) :=
  if truthy (ch_lines chunk) then
    lines ← redact_json_lines (ch_lines chunk) secrets; mret [EvLines lines]
  else mret [].

(** The events, how the generator ended ([None] when it returned), and its clock
    then. *)
Fixpoint stream_loop `{Env} (fuel : nat) (application_id instance_id : uuid) (stream : string) (started clock : Z)
    (first_ : bool) (offset : json) : M (list LogEvent * option exn * Z) :=
  match fuel with
  | O => mret ([], None, clock)
  | S fuel =>
      clock ← monotonic clock;
      if negb (clock - started <? seconds STREAM_MAX_SECONDS) then
        mret ([EvClosed "stream duration limit reached; reconnect to keep tailing"], None, clock)
      else
        poll ← try_except (p ← stream_poll application_id instance_id stream clock first_ offset; mret (inr p))
                          (λ e, mret (inl e));
        match poll with
        | inl e => mret ([], Some e, clock)
        | inr (PollStop event) => mret ([event], None, clock)
        | inr (PollRetry event clock) =>
            '(events, e, clock) ← stream_loop fuel application_id instance_id stream started clock first_ offset;
            mret (event :: events, e, clock)
        | inr (PollChunk chunk secrets) =>
            new ← try_except (l ← chunk_events chunk secrets; mret (inr l)) (λ e, mret (inl e));
            match new with
            | inl e => mret ([], Some e, clock)
            | inr new =>
                clock ← asyncio_sleep STREAM_POLL_SECONDS clock;
                '(events, e, clock) ← stream_loop fuel application_id instance_id stream started clock false
                                        (ch_end_offset chunk);
                mret (new ++ events, e, clock)
            end
        end
  end.

(** A poll takes at least [STREAM_POLL_SECONDS], so the loop is left before it
    has made this many. *)
Definition stream_fuel : nat := Z.to_nat (STREAM_MAX_SECONDS / STREAM_POLL_SECONDS) + 1.

Definition stream_instance_log `{Env} (application_id instance_id : uuid) (stream : string) :
    M (list LogEvent * option exn) :=
  started ← monotonic 0;
  '(events, e, _) ← stream_loop stream_fuel application_id instance_id stream started started true JNull;
  mret (events, e).

(** ** Routes *)

Definition _get_instance (application_id instance_id : uuid) : M unit :=
  instance ← session_get db_instances instance_id;
  match instance with
  | Some i => if bool_decide (inst_application_id i = application_id) then mret tt
              else raise (HTTPException HTTP_404_NOT_FOUND "instance not found")
  | None => raise (HTTPException HTTP_404_NOT_FOUND "instance not found")
  end.

Definition list_log_sources_route (application_id : uuid) : M (list LogSourceOut) :=
  application ← session_get db_applications application_id;
  match application with
  | None => raise (HTTPException HTTP_404_NOT_FOUND "application not found")
  | Some _ => list_log_sources application_id
  end.

Definition get_instance_log `{Env} (application_id instance_id : uuid) (stream : string)
    (max_bytes max_lines offset : option Z) : M (Chunk * list string) :=
  _get_instance application_id instance_id ;;
  try_except (fetch_instance_log instance_id stream max_bytes max_lines offset)
    (λ e, match e with
          | LogUnavailableError msg => raise (HTTPException HTTP_409_CONFLICT msg)
          | _ => raise e
          end).

(** The check of the streaming route; the events follow in the response. *)
Definition stream_instance_log_route `{Env} (application_id instance_id : uuid) (stream : string) :
    M (list LogEvent * option exn) :=
  get_db (_get_instance application_id instance_id) ;;
  stream_instance_log application_id instance_id stream.

(** ** Reading logs writes only the agents' tables *)

Section keeps.
Context `{Env} (I : invariant) `{!AgentStable I}.

Lemma keeps_collect i s b l o : keeps I (_collect i s b l o).
Proof. unfold _collect, AgentRepository_get_by_server_id, as_dict. keeps_auto. Qed.

Lemma keeps_redact_members vs l : keeps I (redact_members vs l).
Proof. induction l as [|[]]; simpl; keeps_auto. Qed.

Lemma keeps_redact_json_lines l vs : keeps I (redact_json_lines l vs).
Proof. pose proof keeps_redact_members. unfold redact_json_lines, py_iter. keeps_auto. Qed.

Lemma keeps_asyncio_sleep s c : keeps I (asyncio_sleep s c).
Proof. unfold asyncio_sleep, monotonic. keeps_auto. Qed.

Lemma keeps_stream_poll a i s c f o : keeps I (stream_poll a i s c f o).
Proof. pose proof keeps_collect. pose proof keeps_asyncio_sleep. unfold stream_poll. keeps_auto. Qed.

Lemma keeps_get_instance_log a i s b l o : keeps I (get_instance_log a i s b l o).
Proof.
  pose proof keeps_collect. pose proof keeps_redact_json_lines.
  unfold get_instance_log, _get_instance, fetch_instance_log. keeps_auto.
Qed.

Lemma keeps_stream_loop n a i s t c f o : keeps I (stream_loop n a i s t c f o).
Proof.
  pose proof keeps_stream_poll. pose proof keeps_asyncio_sleep. pose proof keeps_redact_json_lines.
  revert c f o. induction n; intros c f o; simpl; unfold monotonic, chunk_events; keeps_auto.
Qed.

Lemma keeps_stream_instance_log_route a i s : keeps I (stream_instance_log_route a i s).
Proof.
  pose proof keeps_stream_loop.
  unfold stream_instance_log_route, _get_instance, stream_instance_log, monotonic. keeps_auto.
  apply keeps_get_db. keeps_auto.
Qed.

End keeps.

#[export] Hint Resolve keeps_collect keeps_redact_json_lines keeps_asyncio_sleep keeps_stream_poll
  keeps_get_instance_log keeps_stream_instance_log_route : keeps.
