(* ===== verification/MetricsService.v ===== *)
(** Metrics of servers: services/control-plane/app/services/metrics_service.py
    and metrics_retention.py, and app/api/routes/metrics.py. The rows are
    written by [CommandService.apply_heartbeat]. *)

From S2P Require Import Prelude Python Enums Schema Session Hoare Permissions Protocol Scenario.
Local Open Scope Z_scope.

(** ** metrics_service *)

Definition DEFAULT_HOURS : Z := 6.
Definition MAX_HOURS : Z := 24 * 7.
Definition DEFAULT_LIMIT : Z := 200.
Definition MAX_LIMIT : Z := 2000.

(** [value or default], and [default] again when out of range. *)
Definition bounded (value : option Z) (default_ max : Z) : Z :=
  let v := match value with
           | Some v => if v =? 0 then default_ else v
           | None => default_
           end in
  if (v <=? 0) || (max <? v) then default_ else v.

Definition of_server (server_id : uuid) (m : MetricsSnapshot) : bool := bool_decide (ms_server_id m = server_id).

Definition get_recent_metrics `{Env} (server_id : uuid) (hours_ limit : option Z) : M (list MetricsSnapshot) :=
  now_ ← now;
  let since := now_ - hours (bounded hours_ DEFAULT_HOURS MAX_HOURS) in
  let limit := bounded limit DEFAULT_LIMIT MAX_LIMIT in
  rows ← query (λ d, take (Z.to_nat limit) (order_by_desc ms_recorded_at
           (List.filter (λ m, of_server server_id m && (since <=? ms_recorded_at m))%bool (db_metrics_snapshots d))));
  mret (rev rows).

Definition get_latest_metrics (server_id : uuid) : M (option MetricsSnapshot) :=
  query (λ d, first (order_by_desc ms_recorded_at (List.filter (of_server server_id) (db_metrics_snapshots d)))).

(** ** metrics_retention *)

Definition cleanup_old_metrics `{Env} (retention_days : Z) : M nat :=
  now_ ← now;
  let cutoff := now_ - days retention_days in
  deleted ← query (λ d, length (List.filter (λ m, ms_recorded_at m <? cutoff) (db_metrics_snapshots d)));
  db_modify (λ d, d <| db_metrics_snapshots :=
                         List.filter (λ m, negb (ms_recorded_at m <? cutoff)) (db_metrics_snapshots d) |>) ;;
  commit ;;
  mret deleted.

(** The session is closed in the end. *)
Definition cleanup_once `{Env} (retention_days : Z) : M nat := try_finally (cleanup_old_metrics retention_days) rollback.

(** ** Route *)

Definition list_metrics `{Env} (server_id : uuid) (hours_ limit : Z) : M (list MetricsSnapshot) :=
  server ← session_get db_servers server_id;
  match server with
  | None => raise (HTTPException HTTP_404_NOT_FOUND "server not found")
  | Some _ => get_recent_metrics server_id (Some hours_) (Some limit)
  end.

(** ** What these leave alone *)

Section keeps.
Context `{Env} (I : invariant).

Lemma keeps_list_metrics s h l : keeps I (list_metrics s h l).
Proof. unfold list_metrics, get_recent_metrics. keeps_auto. Qed.

Lemma keeps_cleanup_once `{!AgentStable I} n : keeps I (cleanup_once n).
Proof. unfold cleanup_once, cleanup_old_metrics. keeps_auto. Qed.

End keeps.

#[export] Hint Resolve keeps_list_metrics keeps_cleanup_once : keeps.

(** ** What they compute *)

Lemma bounded_range value default_ max : 0 < default_ ≤ max → 1 ≤ bounded value default_ max ≤ max.
Proof.
  intros ?. unfold bounded. destruct value as [v|]; [destruct (v =? 0)|];
    match goal with |- context [(?x <=? 0) || (max <? ?x)] =>
      destruct (Z.leb_spec x 0), (Z.ltb_spec max x); simpl; lia end.
Qed.

(** The newest [n] of a sorted list: nothing left out is newer than what is kept. *)
Lemma order_by_desc_take {A} (key : A → Z) l n x y :
  x ∈ take n (order_by_desc key l) → y ∈ drop n (order_by_desc key l) → key y ≤ key x.
Proof.
  pose proof (order_by_desc_sorted key l) as Hs. rewrite <-(take_drop n (order_by_desc key l)) in Hs.
  intros Hx Hy. exact (StronglySorted_app_1_elem_of (λ a b, key b ≤ key a) _ _ x y Hs Hx Hy).
Qed.

Lemma StronglySorted_rev {A} (R : A → A → Prop) l : StronglySorted R l → StronglySorted (flip R) (rev l).
Proof.
  induction 1 as [|x l Hl IH Hx]; simpl; [constructor|]. apply StronglySorted_app_2.
  - intros a b Ha ->%list_elem_of_singleton. rewrite Forall_forall in Hx. apply Hx.
    by apply list_elem_of_In, in_rev, list_elem_of_In.
  - done.
  - by repeat constructor.
Qed.

Lemma elem_of_rev {A} (l : list A) x : x ∈ rev l ↔ x ∈ l.
Proof. rewrite !list_elem_of_In. symmetry. apply in_rev. Qed.

Lemma elem_of_list_filter_bool {A} (p : A → bool) l x : x ∈ List.filter p l ↔ x ∈ l ∧ p x = true.
Proof. by rewrite !list_elem_of_In, filter_In. Qed.

Lemma filter_negb_length {A} (p : A → bool) l :
  length l = (length (List.filter p l) + length (List.filter (λ x, negb (p x)) l))%nat.
Proof. induction l as [|x l IH]; simpl; [done|]. destruct (p x); simpl; lia. Qed.

Section metrics.
Context `{Env}.

Lemma recent_metrics_run server hours_ limit w :
  ready w →
  ∃ rows since, (get_recent_metrics server hours_ limit w).1 = Ok rows ∧
     since = env_now (w_tick w) - hours (bounded hours_ DEFAULT_HOURS MAX_HOURS) ∧
     Z.of_nat (length rows) ≤ bounded limit DEFAULT_LIMIT MAX_LIMIT ≤ MAX_LIMIT ∧
     StronglySorted (λ a b, ms_recorded_at a ≤ ms_recorded_at b) rows ∧
     (∀ m, m ∈ rows → m ∈ db_metrics_snapshots (w_db w) ∧ ms_server_id m = server ∧ since ≤ ms_recorded_at m) ∧
     (∀ m, m ∈ db_metrics_snapshots (w_db w) → ms_server_id m = server → since ≤ ms_recorded_at m →
        m ∈ rows ∨ ∀ n, n ∈ rows → ms_recorded_at m ≤ ms_recorded_at n).
Proof.
  intros [Ha _]. unfold get_recent_metrics. rewrite (bind_run _ _ _ _ _ (now_run w)).
  set (since := _ - hours _). set (n := Z.to_nat _). set (w1 := w <| w_tick := _ |>).
  rewrite (bind_run _ _ _ _ _ (query_run _ w1 Ha)). change (w_db w1) with (w_db w).
  set (hits := List.filter _ _). exists (rev (take n (order_by_desc ms_recorded_at hits))), since.
  assert (∀ m, m ∈ hits ↔ m ∈ db_metrics_snapshots (w_db w) ∧ ms_server_id m = server ∧ since ≤ ms_recorded_at m) as Hhits.
  { intros m. unfold hits. rewrite elem_of_list_filter_bool, andb_true_iff, Z.leb_le.
    unfold of_server. by rewrite bool_decide_eq_true. }
  assert (∀ m, m ∈ order_by_desc ms_recorded_at hits ↔ m ∈ hits) as Hord.
  { intros m. unfold order_by_desc. by rewrite sort_by_permutation. }
  pose proof (bounded_range limit DEFAULT_LIMIT MAX_LIMIT) as Hb. unfold DEFAULT_LIMIT, MAX_LIMIT in Hb.
  specialize (Hb ltac:(lia)). fold DEFAULT_LIMIT MAX_LIMIT in Hb.
  split_and!; try done.
  - rewrite length_rev, length_take. lia.
  - apply Hb.
  - apply (StronglySorted_rev (λ a b, ms_recorded_at b ≤ ms_recorded_at a)).
    pose proof (order_by_desc_sorted ms_recorded_at hits) as Hs.
    rewrite <-(take_drop n (order_by_desc ms_recorded_at hits)) in Hs. by apply StronglySorted_app_1_l in Hs.
  - intros m Hm. rewrite elem_of_rev in Hm. apply Hhits, Hord. apply elem_of_take in Hm as (i & Hi & _).
    by eapply list_elem_of_lookup_2.
  - intros m Hm Hsrv Hsince. assert (m ∈ order_by_desc ms_recorded_at hits) as Hin by by apply Hord, Hhits.
    rewrite <-(take_drop n (order_by_desc ms_recorded_at hits)) in Hin.
    apply elem_of_app in Hin as [Hin|Hin]; [left; by apply elem_of_rev|right].
    intros k Hk. rewrite elem_of_rev in Hk. by eapply order_by_desc_take.
Qed.

Lemma cleanup_run retention_days w :
  ready w →
  ∃ deleted w', cleanup_old_metrics retention_days w = (Ok deleted, w') ∧ w_committed w' = w_db w' ∧
     agent_frame (w_db w) (w_db w') ∧
     (∀ m, m ∈ db_metrics_snapshots (w_db w') ↔
        m ∈ db_metrics_snapshots (w_db w) ∧ env_now (w_tick w) - days retention_days ≤ ms_recorded_at m) ∧
     (length (db_metrics_snapshots (w_db w)) = deleted + length (db_metrics_snapshots (w_db w')))%nat.
Proof.
  intros [Ha Hd]. unfold cleanup_old_metrics. rewrite (bind_run _ _ _ _ _ (now_run w)).
  set (cutoff := _ - days _). set (w1 := w <| w_tick := _ |>).
  rewrite (bind_run _ _ _ _ _ (query_run _ w1 Ha)), (bind_run _ _ _ _ _ (db_modify_run _ w1 Ha)).
  match goal with |- context [(commit ≫= _) ?w2] =>
    rewrite (bind_run _ _ _ _ _ (commit_run w2 (conj Ha Hd))) end.
  eexists _, _. split; [reflexivity|]. simpl. split_and!; [done|done| |].
  - intros m. by rewrite elem_of_list_filter_bool, negb_true_iff, Z.ltb_ge.
  - apply filter_negb_length.
Qed.

End metrics.

(** Metrics: a chart gets at most the allowed number of snapshots, oldest
    first, all of the asked server and of the asked period, and none that is left
    out is newer; the cleanup removes exactly the snapshots older than the
    retention period, commits, and says how many. *)
Theorem metrics_are_exact `{Env} server hours_ limit retention_days w :
  ready w →
  (∃ rows since, (get_recent_metrics server hours_ limit w).1 = Ok rows ∧
     since = env_now (w_tick w) - hours (bounded hours_ DEFAULT_HOURS MAX_HOURS) ∧
     Z.of_nat (length rows) ≤ bounded limit DEFAULT_LIMIT MAX_LIMIT ≤ MAX_LIMIT ∧
     StronglySorted (λ a b, ms_recorded_at a ≤ ms_recorded_at b) rows ∧
     (∀ m, m ∈ rows → m ∈ db_metrics_snapshots (w_db w) ∧ ms_server_id m = server ∧ since ≤ ms_recorded_at m) ∧
     (∀ m, m ∈ db_metrics_snapshots (w_db w) → ms_server_id m = server → since ≤ ms_recorded_at m →
        m ∈ rows ∨ ∀ n, n ∈ rows → ms_recorded_at m ≤ ms_recorded_at n)) ∧
  (∃ deleted w', cleanup_old_metrics retention_days w = (Ok deleted, w') ∧ w_committed w' = w_db w' ∧
     agent_frame (w_db w) (w_db w') ∧
     (∀ m, m ∈ db_metrics_snapshots (w_db w') ↔
        m ∈ db_metrics_snapshots (w_db w) ∧ env_now (w_tick w) - days retention_days ≤ ms_recorded_at m) ∧
     (length (db_metrics_snapshots (w_db w)) = deleted + length (db_metrics_snapshots (w_db w')))%nat).
Proof.
  intros Hw. split; [by apply recent_metrics_run|by apply cleanup_run].
Qed.

Definition metrics_world : World :=
  demo_world ((demo_db "deploy" 1) <| db_metrics_snapshots :=
    [ {| ms_server_id := server1; ms_cpu_percent := JInt 5; ms_memory_percent := JInt 40; ms_disk_percent := JInt 70;
         ms_recorded_at := t0 - hours 2 |};
      {| ms_server_id := server1; ms_cpu_percent := JInt 9; ms_memory_percent := JInt 41; ms_disk_percent := JInt 70;
         ms_recorded_at := t0 - days 9 |} ] |>).

Lemma metrics_are_exact_witness :
  ∃ deleted w', cleanup_old_metrics (H:=outside (answers_at []) probe_ok gateway_ok) 7 metrics_world = (Ok deleted, w') ∧
    length (db_metrics_snapshots (w_db w')) = 1%nat.
Proof.
  destruct (metrics_are_exact (H:=outside (answers_at []) probe_ok gateway_ok) server1 None None 7 metrics_world)
    as [_ (deleted & w' & E & _ & _ & _ & Hlen)]; [by split|].
  exists deleted, w'. split; [exact E|].
  apply (f_equal fst) in E. vm_compute in E. injection E as <-. simpl in Hlen. lia.
Defined.
