(* ===== verification/ScaleService.v ===== *)
(** Replica scaling: services/control-plane/app/services/scale_service.py. *)

From S2P Require Import Prelude Python Enums StateMachines HealerYaml Schema Session Hoare.
From S2P Require Import Widths Repositories Protocol LockService CommandService ApplicationService.
From S2P Require Import AuditService GatewayService HealthCheckService DeploymentService.
Local Open Scope Z_scope.

Definition DEFAULT_DRAIN_TIMEOUT_SECONDS : Z := 15.

(** [asyncio.sleep(...)]. *)
Definition sleep `{Env} : M unit := yield_to_tasks.

Definition _LIVE_STATUSES : list instance_status :=
  [InstanceStatus.PENDING; InstanceStatus.STARTING; InstanceStatus.RUNNING; InstanceStatus.UNHEALTHY].

Definition is_live_of (application_id : uuid) (i : Instance) : bool :=
  (bool_decide (inst_application_id i = application_id) && bool_decide (inst_status i ∈ _LIVE_STATUSES))%bool.

Definition _live_instances (application_id : uuid) : M (list (uuid * Instance)) :=
  query (select db_instances (is_live_of application_id)).

(** The READY releases of an application, newest first. *)
Definition ready_releases (application : uuid) : M (list (uuid * Release)) :=
  query (λ d, order_by_desc (λ kv, rel_created_at kv.2)
    (select db_releases (λ r, (bool_decide (rel_application_id r = application)
                               && bool_decide (rel_status r = ReleaseStatus.READY))%bool) d)).

Definition start_scale `{Env} (application : uuid) (target : Z) (actor_id : option uuid) : M uuid :=
  a ← row db_applications application;
  if ((target <? app_min_replicas a) || (app_max_replicas a <? target))%bool then
    raise (ScaleSetupError
      ("desired replica count " +:+ str_int target +:+ " is outside the allowed range ["
       +:+ str_int (app_min_replicas a) +:+ ", " +:+ str_int (app_max_replicas a) +:+ "]")) else
  match app_server_id a with
  | None => raise (ScaleSetupError "no target server selected")
  | Some server_id =>
      agent ← AgentRepository_get_by_server_id server_id;
      if not_connected agent then
        raise (ScaleSetupError "the target server's Agent is not currently connected") else
      releases ← ready_releases application;
      match first releases with
      | None => raise (ScaleSetupError "application has no successfully deployed release to scale")
      | Some (release, _) =>
          deployment ← insert_deployment application release target "deploy" actor_id;
          transition_deployment deployment DeploymentStatus.IN_PROGRESS actor_id ;;
          assign db_applications application (λ a, a <| app_desired_replicas := target |>) ;;
          commit ;;
          mret deployment
      end
  end.

Definition _log `{Env} (deployment : uuid) (level message : string) : M unit :=
  add_log deployment None level message ;; commit.

(** [f"port_{port}_{name}"] *)
Definition port_step_name `{Env} (port : Z) (name : json) : json :=
  JStr ("port_" +:+ str_int port +:+ "_" +:+ py_str env_float_repr name).

Definition _persist_instance_command_outcome `{Env} (deployment command : uuid) (port : Z) : M bool :=
  c ← row db_agent_commands command;
  if no_answer (cmd_status c) then
    _log deployment "error"
      ("port " +:+ str_int port +:+ ": the Agent did not respond in time (command status: "
       +:+ agent_command_status_value (cmd_status c) +:+ ")") ;;
    mret false
  else if str_truthy (cmd_error c) then
    _log deployment "error" ("port " +:+ str_int port +:+ ": " +:+ default "" (cmd_error c)) ;;
    mret false
  else
    result ← as_dict (or_empty_dict (cmd_result c));
    now_ ← now;
    steps ← py_iter (dict_get result "steps" (JArr []));
    for_each steps (persist_step deployment now_ (port_step_name port)) ;;
    commit ;;
    mret (truthy (dict_get result "ok" (JBool false))).

Definition first_health_check (application : uuid) : M (option (uuid * HealthCheck)) :=
  query (λ d, first (select db_health_checks (λ h, bool_decide (hc_application_id h = application)) d)).

(** The health gate of a started instance; [true] when there is nothing to
    check with. *)
Definition gate_healthy `{Env} (health_check : option (uuid * HealthCheck)) (server : option Server)
    (instance : uuid) : M bool :=
  match health_check, server with
  | Some (health_check, _), Some server =>
      i ← row db_instances instance;
      wait_until_healthy health_check instance (srv_hostname server) (inst_port i)
  | _, _ => mret true
  end.

(** [except DeploymentSetupError] around an allocation: the instance, or the
    text of the error. *)
Definition try_allocate `{Env} (application release server_id : uuid) (port_start port_end : Z) : M (uuid + string) :=
  try_except (id ← _allocate_instance application release server_id port_start port_end; mret (inl id))
    (λ e, match e with
          | DeploymentSetupError msg => mret (inr msg)
          | _ => raise e
          end).

(** Starts an allocated instance: the row becomes STARTING, the agent is told,
    the answer is stored. *)
Definition start_allocated `{Env} (deployment release instance agent : uuid) (config : HealerYamlV1) : M bool :=
  assign db_instances instance (λ i, i <| inst_deployment_id := Some deployment |>) ;;
  InstanceRepository_transition instance InstanceStatus.STARTING ;;
  commit ;;
  start_payload ← _build_start_instance_payload release instance config;
  start_command ← submit_command_and_wait agent AgentCommandType.START_INSTANCE start_payload
                    ("start-instance:" +:+ str_uuid instance) None 200;
  i ← row db_instances instance;
  _persist_instance_command_outcome deployment start_command (inst_port i).

Definition never_healthy (port : Z) : string :=
  "instance on port " +:+ str_int port +:+ " did not become healthy in time".

Fixpoint scale_up_loop `{Env} (count : nat) (deployment application release : uuid) (config : HealerYamlV1)
    (agent server_id : uuid) (port_start port_end : Z) (health_check : option (uuid * HealthCheck))
    (server : option Server) (overall_ok : bool) : M bool :=
  match count with
  | O => mret overall_ok
  | S count' =>
      let continue := scale_up_loop count' deployment application release config agent server_id
                        port_start port_end health_check server in
      allocated ← try_allocate application release server_id port_start port_end;
      match allocated with
      | inr msg => _log deployment "error" msg ;; mret false
      | inl instance =>
          start_ok ← start_allocated deployment release instance agent config;
          if negb start_ok then
            InstanceRepository_transition instance InstanceStatus.FAILED ;;
            commit ;;
            continue false
          else
            healthy ← gate_healthy health_check server instance;
            if healthy : bool then
              InstanceRepository_transition instance InstanceStatus.RUNNING ;;
              commit ;;
              continue overall_ok
            else
              i ← row db_instances instance;
              _log deployment "error" (never_healthy (inst_port i)) ;;
              InstanceRepository_transition instance InstanceStatus.UNHEALTHY ;;
              commit ;;
              continue false
      end
  end.

Definition _scale_up `{Env} (deployment application release : uuid) (config : HealerYamlV1) (agent : uuid)
    (count : Z) (server_id : uuid) (port_start port_end : Z) : M bool :=
  health_check ← first_health_check application;
  server ← session_get db_servers server_id;
  scale_up_loop (Z.to_nat count) deployment application release config agent server_id port_start port_end
    health_check server true.

(** Stops instances one after the other: DRAINING to STOPPED, or FAILED when
    the agent did not confirm. *)
Fixpoint stop_drained `{Env} (deployment agent : uuid) (config : HealerYamlV1) (instances : list uuid)
    (overall_ok : bool) : M bool :=
  match instances with
  | [] => mret overall_ok
  | instance :: rest =>
      payload ← _build_stop_instance_payload instance config;
      stop_command ← submit_command_and_wait agent AgentCommandType.STOP_INSTANCE payload
                       ("stop-instance:" +:+ str_uuid instance) None 60;
      i ← row db_instances instance;
      stop_ok ← _persist_instance_command_outcome deployment stop_command (inst_port i);
      InstanceRepository_transition instance
        (if stop_ok : bool then InstanceStatus.STOPPED else InstanceStatus.FAILED) ;;
      commit ;;
      stop_drained deployment agent config rest (overall_ok && stop_ok)%bool
  end.

(** [sorted(live, key=created_at, reverse=True)[:count]] *)
Definition to_drain (live_instances : list (uuid * Instance)) (count : Z) : list (uuid * Instance) :=
  take (Z.to_nat count) (order_by_desc (λ kv, inst_created_at kv.2) live_instances).

Definition _scale_down `{Env} (deployment application : uuid) (config : HealerYamlV1)
    (live_instances : list (uuid * Instance)) (count : Z) (agent : uuid) : M bool :=
  let drained := map fst (to_drain live_instances count) in
  for_each drained (λ instance,
    assign db_instances instance (λ i, i <| inst_deployment_id := Some deployment |>) ;;
    InstanceRepository_transition instance InstanceStatus.DRAINING) ;;
  commit ;;
  when (bool_decide (is_Some (hy_domain config)))
    (p ← row db_deployments deployment; sync_gateway application (dep_created_by p) ;; mret tt) ;;
  sleep ;;
  stop_drained deployment agent config drained true.

(** The body of [run_scale]'s [try]. *)
Definition run_scale_body `{Env} (deployment : uuid) : M unit :=
  p ← row db_deployments deployment;
  let release := dep_release_id p in
  let application := dep_application_id p in
  application_row ← session_get db_applications application;
  release_row ← session_get db_releases release;
  match application_row, release_row with
  | Some a, Some _ =>
      match app_server_id a, app_port_range_start a, app_port_range_end a with
      | Some server_id, Some port_range_start, Some port_range_end =>
          config ← config_from_application application;
          agent ← AgentRepository_get_by_server_id server_id;
          match agent with
          | None =>
              _log deployment "error" "the target server's Agent disappeared before scaling could run" ;;
              transition_deployment deployment DeploymentStatus.FAILED None ;;
              commit
          | Some (agent, _) =>
              let target := dep_instance_count p in
              live ← _live_instances application;
              let current := Z.of_nat (length live) in
              ok ← (if current <? target then
                      _scale_up deployment application release config agent (target - current) server_id
                        port_range_start port_range_end
                    else if target <? current then
                      _scale_down deployment application config live (current - target) agent
                    else mret true);
              when (ok && bool_decide (is_Some (hy_domain config)))%bool
                (p ← row db_deployments deployment;
                 result ← sync_gateway application (dep_created_by p);
                 when (negb (gs_ok result))
                   (_log deployment "error" ("gateway sync: " +:+ py_str env_float_repr (gs_message result)))) ;;
              transition_deployment deployment
                (if ok : bool then DeploymentStatus.SUCCEEDED else DeploymentStatus.FAILED) None ;;
              commit
          end
      | _, _, _ =>
          _log deployment "error" "application is missing its server or port range" ;;
          transition_deployment deployment DeploymentStatus.FAILED None ;;
          commit
      end
  | _, _ => mret tt
  end.

Definition run_scale `{Env} (deployment_id : uuid) (lock_token : Z) : M unit :=
  deployment ← session_get db_deployments deployment_id;
  match deployment with
  | None => mret tt
  | Some _ => try_finally (run_scale_body deployment_id) (release_lock_of deployment_id lock_token)
  end.

(** ** The fleet view *)

Record InstanceView := {
  iv_id : uuid;
  iv_port : Z;
  iv_server_id : uuid;
  iv_server_name : string;
  iv_status : string;
  iv_release_version : string;
  iv_service_name : option string;
  iv_healthy : option bool;
  iv_response_time_ms : option Z;
  iv_last_checked_at : option Z;
  iv_failure_reason : option string;
  iv_healing_attempts : Z;
  iv_created_at : Z;
}.

(** The newest health result of an instance. *)
Definition latest_result (instance : uuid) (d : DB) : option HealthCheckResult :=
  first (order_by_desc hr_checked_at
    (List.filter (λ r, bool_decide (hr_instance_id r = instance)) (db_health_check_results d))).

Definition instance_view (d : DB) (id : uuid) (i : Instance) : InstanceView :=
  let latest := latest_result id d in
  {| iv_id := id; iv_port := inst_port i; iv_server_id := inst_server_id i;
     iv_server_name := match db_servers d !! inst_server_id i with
                       | Some server => srv_name server
                       | None => "unknown"
                       end;
     iv_status := instance_status_value (inst_status i);
     iv_release_version := match inst_release_id i with
                           | Some r => match db_releases d !! r with
                                       | Some release => rel_ref release
                                       | None => ""
                                       end
                           | None => ""
                           end;
     iv_service_name := inst_service_name i;
     iv_healthy := hr_healthy <$> latest;
     iv_response_time_ms := latest ≫= hr_response_time_ms;
     iv_last_checked_at := hr_checked_at <$> latest;
     iv_failure_reason := inst_failure_reason i; iv_healing_attempts := inst_healing_attempts i;
     iv_created_at := inst_created_at i |}.

Definition list_instances (application_id : uuid) : M (list InstanceView) :=
  query (λ d, map (λ kv, instance_view d kv.1 kv.2)
    (order_by_asc (λ kv, inst_port kv.2)
      (select db_instances (λ i, bool_decide (inst_application_id i = application_id)) d))).

(** What an attempt to allocate can do to the session. *)
Lemma try_allocate_cases `{Env} application release server_id port_start port_end w :
  let '(r, w') := try_allocate application release server_id port_start port_end w in
  w_committed w' = w_committed w ∧ (w_deleted w' = w_deleted w ∨ w_deleted w' = []) ∧
  match r with
  | Raise _ => w_db w' = w_db w ∨ w_db w' = w_committed w
  | Ok (inl id) => ∃ port i, db_instances (w_db w) !! id = None ∧ allocated_row application release server_id port i ∧
      w_db w' = (w_db w) <| db_instances := <[id := i]> (db_instances (w_db w)) |>
  | Ok (inr _) => w_db w' = w_db w
  end.
Proof.
  pose proof (allocate_loop_cases application release server_id (py_range port_start (port_end + 1)) w) as Hrun.
  unfold try_allocate, try_except, _allocate_instance, mbind, st_bind.
  destruct (allocate_loop _ _ _ _ w) as [[[id|]|e] w']; [done..|].
  destruct Hrun as (Hc & Hd & Hcase). destruct e; naive_solver.
Qed.

(** ** What these leave alone *)

Section keeps.
Context `{Env} (I : invariant).

Lemma keeps_log `{!RecordStable I} d l m : keeps I (_log d l m).
Proof. unfold _log. keeps_auto. Qed.

Lemma keeps_persist_instance_command_outcome `{!RecordStable I} d c p :
  keeps I (_persist_instance_command_outcome d c p).
Proof. pose proof keeps_log. unfold _persist_instance_command_outcome. keeps_auto. Qed.

Lemma keeps_first_health_check a : keeps I (first_health_check a).
Proof. unfold first_health_check. keeps_auto. Qed.

Lemma keeps_gate_healthy `{!RecordStable I} hc s i : keeps I (gate_healthy hc s i).
Proof. unfold gate_healthy. keeps_auto. Qed.

Lemma keeps_ready_releases a : keeps I (ready_releases a).
Proof. unfold ready_releases. keeps_auto. Qed.

Lemma keeps_live_instances a : keeps I (_live_instances a).
Proof. unfold _live_instances. keeps_auto. Qed.

Lemma hoare_try_allocate application release server_id port_start port_end :
  (∀ d id i port, I d → db_instances d !! id = None → allocated_row application release server_id port i →
     index_accepts d None i → foreign_keys_ok d i → instance_fits i →
     I (d <| db_instances := <[id := i]> (db_instances d) |>)) →
  hoare I (try_allocate application release server_id port_start port_end)
    (λ r, ∀ id, r = inl id → ∃ d, I d ∧ db_instances d !! id = None).
Proof.
  intros HI. unfold try_allocate. apply hoare_try_except.
  - eapply hoare_bind; [by apply hoare_allocate_instance|]. intros id Hid. apply hoare_ret. by intros ? [= <-].
  - intros e. destruct e; try apply hoare_raise. by apply hoare_ret.
Qed.

Lemma keeps_try_allocate `{!Stable I} a r s p q : keeps I (try_allocate a r s p q).
Proof. unfold try_allocate. keeps_auto. Qed.

End keeps.

#[export] Hint Resolve keeps_log keeps_persist_instance_command_outcome keeps_first_health_check
  keeps_gate_healthy keeps_ready_releases keeps_live_instances keeps_try_allocate : keeps.

Section operations.
Context `{Env} (I : invariant) `{!Stable I}.

Lemma keeps_start_scale a t actor : keeps I (start_scale a t actor).
Proof. unfold start_scale. keeps_auto. Qed.

Lemma keeps_start_allocated d r i a c : keeps I (start_allocated d r i a c).
Proof. unfold start_allocated. keeps_auto. Qed.

Lemma keeps_scale_up_loop n d a r c ag s p q hc sv ok : keeps I (scale_up_loop n d a r c ag s p q hc sv ok).
Proof. pose proof keeps_start_allocated. revert ok. induction n; intros; simpl; keeps_auto. Qed.

Lemma keeps_stop_drained d a c l ok : keeps I (stop_drained d a c l ok).
Proof. revert ok. induction l; intros; simpl; keeps_auto. Qed.

Lemma keeps_scale_down d a c l n ag : keeps I (_scale_down d a c l n ag).
Proof. pose proof keeps_stop_drained. unfold _scale_down, sleep. keeps_auto. Qed.

Lemma keeps_run_scale id t : keeps I (run_scale id t).
Proof.
  pose proof keeps_scale_up_loop. pose proof keeps_scale_down.
  unfold run_scale, run_scale_body, _scale_up. keeps_auto.
Qed.

End operations.

#[export] Hint Resolve keeps_start_scale keeps_start_allocated keeps_stop_drained keeps_run_scale : keeps.
