(* ===== verification/ReleaseService.v ===== *)
(** Blue-green releases and rollback: services/control-plane/app/services/release_service.py. *)

From S2P Require Import Prelude Python Enums StateMachines HealerYaml Schema Session Hoare.
From S2P Require Import Repositories Protocol LockService CommandService ApplicationService.
From S2P Require Import AuditService GatewayService HealthCheckService DeploymentService.
From S2P Require Import ScaleService.
Local Open Scope Z_scope.

(** ** Starting *)

Definition _require_agent (application : uuid) : M uuid :=
  a ← row db_applications application;
  if bool_decide (app_active_release_id a = None) then
    raise (ReleaseSetupError "application has no active release yet — deploy it first with POST /applications/{id}/deploy") else
  match app_server_id a, app_port_range_start a, app_port_range_end a with
  | Some server_id, Some _, Some _ =>
      agent ← AgentRepository_get_by_server_id server_id;
      match agent with
      | Some (id, _) =>
          if not_connected agent then
            raise (ReleaseSetupError "the target server's Agent is not currently connected")
          else mret id
      | None => raise (ReleaseSetupError "the target server's Agent is not currently connected")
      end
  | _, _, _ => raise (ReleaseSetupError "application has no target server or port range configured")
  end.

(** The deployment row of a switch, moved to IN_PROGRESS. *)
Definition open_switch `{Env} (application release : uuid) (kind : string) (actor_id : option uuid) : M uuid :=
  a ← row db_applications application;
  deployment ← insert_deployment application release (app_desired_replicas a) kind actor_id;
  transition_deployment deployment DeploymentStatus.IN_PROGRESS actor_id ;;
  commit ;;
  mret deployment.

Definition start_new_release `{Env} (application : uuid) (actor_id : option uuid) : M uuid :=
  _require_agent application ;;
  source ← first_source application;
  match source with
  | None => raise (ReleaseSetupError "application has no source configured")
  | Some (source_id, _) =>
      release ← insert_release application source_id;
      open_switch application release "blue_green" actor_id
  end.

Definition start_rollback `{Env} (application target_release_id : uuid) (actor_id : option uuid) : M uuid :=
  _require_agent application ;;
  target ← session_get db_releases target_release_id;
  match target with
  | None => raise (ReleaseSetupError "release not found for this application")
  | Some t =>
      if negb (bool_decide (rel_application_id t = application)) then
        raise (ReleaseSetupError "release not found for this application") else
      a ← row db_applications application;
      if bool_decide (Some target_release_id = app_active_release_id a) then
        raise (ReleaseSetupError "that release is already active") else
      config ← config_from_application application;
      let built := if decide (hy_adapter config = "windows-waitress-service")
                   then (str_truthy (rel_release_dir t) && str_truthy (rel_venv_python t))%bool
                   else str_truthy (rel_image_ref t) in
      if (negb (bool_decide (rel_status t = ReleaseStatus.READY)) || negb built)%bool then
        raise (ReleaseSetupError "release is not available to roll back to (never finished building, or has since been pruned)")
      else open_switch application target_release_id "rollback" actor_id
  end.

(** ** Building *)

Definition _build_release `{Env} (deployment application release : uuid) (config : HealerYamlV1) (agent : uuid) : M bool :=
  set_release_status release ReleaseStatus.BUILDING ;;
  commit ;;
  payload ← _build_deploy_release_payload application release config;
  command ← submit_command_and_wait agent AgentCommandType.DEPLOY_RELEASE payload
              ("deploy-release:" +:+ str_uuid deployment) None 600;
  ok ← _persist_agent_outcome deployment command;
  (if ok : bool then store_build release command else set_release_status release ReleaseStatus.FAILED) ;;
  commit ;;
  mret ok.

(** ** Stopping, starting, draining *)

Definition _stop_instances `{Env} (deployment agent : uuid) (instances : list uuid) (config : HealerYamlV1) : M unit :=
  for_each instances (λ instance,
    payload ← _build_stop_instance_payload instance config;
    stop_command ← submit_command_and_wait agent AgentCommandType.STOP_INSTANCE payload
                     ("abort-stop-instance:" +:+ str_uuid instance) None 60;
    i ← row db_instances instance;
    stop_ok ← _persist_instance_command_outcome deployment stop_command (inst_port i);
    InstanceRepository_transition instance
      (if stop_ok : bool then InstanceStatus.STOPPED else InstanceStatus.FAILED) ;;
    commit).

(** The loop of [_start_and_health_gate]; [started] holds the instances that
    passed the gate so far. *)
Fixpoint start_gate_loop `{Env} (count : nat) (deployment application release : uuid) (config : HealerYamlV1)
    (agent server_id : uuid) (port_start port_end : Z) (health_check : option (uuid * HealthCheck))
    (server : option Server) (started : list uuid) : M (option (list uuid)) :=
  match count with
  | O => mret (Some started)
  | S count' =>
      allocated ← try_allocate application release server_id port_start port_end;
      match allocated with
      | inr msg =>
          _log deployment "error" msg ;;
          _stop_instances deployment agent started config ;;
          mret None
      | inl instance =>
          start_ok ← start_allocated deployment release instance agent config;
          if negb start_ok then
            InstanceRepository_transition instance InstanceStatus.FAILED ;;
            commit ;;
            _stop_instances deployment agent started config ;;
            mret None
          else
            healthy ← gate_healthy health_check server instance;
            if negb healthy then
              i ← row db_instances instance;
              _log deployment "error" (never_healthy (inst_port i)) ;;
              InstanceRepository_transition instance InstanceStatus.FAILED ;;
              commit ;;
              _stop_instances deployment agent started config ;;
              mret None
            else
              InstanceRepository_transition instance InstanceStatus.RUNNING ;;
              commit ;;
              start_gate_loop count' deployment application release config agent server_id port_start port_end
                health_check server (started ++ [instance])
      end
  end.

Definition _start_and_health_gate `{Env} (deployment application release : uuid) (config : HealerYamlV1)
    (agent server_id : uuid) (port_start port_end : Z) : M (option (list uuid)) :=
  health_check ← first_health_check application;
  server ← session_get db_servers server_id;
  p ← row db_deployments deployment;
  start_gate_loop (Z.to_nat (dep_instance_count p)) deployment application release config agent server_id
    port_start port_end health_check server [].

Definition serving_release (release_id : uuid) (i : Instance) : bool :=
  (bool_decide (inst_release_id i = Some release_id)
   && bool_decide (inst_status i = InstanceStatus.RUNNING))%bool.

Definition _drain_old_release `{Env} (deployment agent old_release_id : uuid) (config : HealerYamlV1) : M unit :=
  old ← query (select db_instances (serving_release old_release_id));
  let old_instances := map fst old in
  if decide (old_instances = []) then mret tt else
  for_each old_instances (λ instance, InstanceRepository_transition instance InstanceStatus.DRAINING) ;;
  commit ;;
  sleep ;;
  stop_drained deployment agent config old_instances true ;;
  mret tt.

(** ** Pruning *)

(** Whether the image of a pruned release may go: [true] when its row can be
    deleted. *)
Definition prune_image `{Env} (application deployment agent release : uuid) (r : Release)
    (built_tag : string) : M bool :=
  shared ← query (λ d, first (List.filter (λ kv, negb (bool_decide (kv.1 = release))
                                                  && bool_decide (rel_image_ref kv.2 = Some built_tag))%bool
                                          (map_to_list (db_releases d))));
  match shared with
  | Some _ =>
      _log deployment "warning" ("kept image " +:+ built_tag +:+ ": another release uses it") ;;
      mret false
  | None =>
      try_except
        (a ← row db_applications application;
         nonce ← uuid4;
         command ← submit_command_and_wait agent AgentCommandType.DEPLOY_RELEASE
                     (JObj [ ("operation", JStr "cleanup_image"); ("adapter", JStr "linux-docker");
                             ("app_slug", JStr (app_slug a)); ("release_version", JStr (rel_ref r)) ])
                     ("cleanup-image:" +:+ str_uuid release +:+ ":" +:+ str_uuid nonce) None 120;
         c ← row db_agent_commands command;
         failed ← (if decide (agent_command_status_value (cmd_status c) = "succeeded") then
                     result ← as_dict (or_empty_dict (cmd_result c));
                     mret (negb (truthy (dict_get result "ok" JNull)))
                   else mret true);
         if failed : bool then
           _log deployment "warning" ("kept image " +:+ built_tag +:+ ": cleanup failed") ;;
           mret false
         else mret true)
        (λ e, _log deployment "warning" ("kept image " +:+ built_tag +:+ ": cleanup unavailable: " +:+ env_exn_text e) ;;
              mret false)
  end.

Definition _prune_old_releases `{Env} (application deployment agent : uuid) (config : HealerYamlV1) : M unit :=
  a ← row db_applications application;
  let keep := Z.max (app_release_retention_count a) 1 in
  releases ← ready_releases application;
  for_each (drop (Z.to_nat keep) releases) (λ '(release, _),
    a ← row db_applications application;
    if bool_decide (Some release = app_active_release_id a) then mret tt else
    r ← row db_releases release;
    let built_tag := "healer-" +:+ app_slug a +:+ ":" +:+ rel_ref r in
    deletable ← (if (bool_decide (hy_adapter config = "linux-docker")
                     && bool_decide (rel_image_ref r = Some built_tag))%bool
                 then prune_image application deployment agent release r built_tag
                 else mret true);
    when deletable (session_delete_release release)) ;;
  commit.

(** ** Failing *)

Definition _fail `{Env} (deployment : uuid) (reason : string) (agent : option uuid)
    (cleanup_release : option uuid) (cleanup_instances : list uuid) (config : option HealerYamlV1) : M unit :=
  match agent, config, cleanup_instances with
  | Some agent, Some config, _ :: _ => _stop_instances deployment agent cleanup_instances config
  | _, _, _ => mret tt
  end ;;
  match cleanup_release with
  | Some release =>
      r ← row db_releases release;
      when (negb (bool_decide (rel_status r = ReleaseStatus.READY)))
        (set_release_status release ReleaseStatus.FAILED)
  | None => mret tt
  end ;;
  assign db_deployments deployment (λ p, p <| dep_failure_reason := Some reason |>) ;;
  _log deployment "error" reason ;;
  transition_deployment deployment DeploymentStatus.FAILED None ;;
  commit.

(** ** The switch *)

(** From the routing change on: [new_instances] are all healthy. *)
Definition activate_release `{Env} (deployment application release agent : uuid) (config : HealerYamlV1)
    (new_instances : list uuid) : M unit :=
  a ← row db_applications application;
  let old_release_id := app_active_release_id a in
  assign db_applications application (λ a, a <| app_active_release_id := Some release |>) ;;
  commit ;;
  routed ← (if bool_decide (is_Some (hy_domain config)) then
              p ← row db_deployments deployment;
              result ← sync_gateway application (dep_created_by p);
              if gs_ok result then mret true
              else
                assign db_applications application (λ a, a <| app_active_release_id := old_release_id |>) ;;
                commit ;;
                _fail deployment
                  ("gateway rejected the new release, traffic was not switched: "
                   +:+ py_str env_float_repr (gs_message result))
                  (Some agent) (Some release) new_instances (Some config) ;;
                mret false
            else mret true);
  if negb routed then mret tt else
  match old_release_id with
  | Some old_release_id => _drain_old_release deployment agent old_release_id config
  | None => mret tt
  end ;;
  _prune_old_releases application deployment agent config ;;
  transition_deployment deployment DeploymentStatus.SUCCEEDED None ;;
  commit.

(** The body of [run_release_switch]'s [try]. *)
Definition run_release_switch_body `{Env} (deployment : uuid) : M unit :=
  p ← row db_deployments deployment;
  let application := dep_application_id p in
  let release := dep_release_id p in
  application_row ← session_get db_applications application;
  release_row ← session_get db_releases release;
  match application_row, release_row with
  | Some a, Some _ =>
      match app_server_id a, app_port_range_start a, app_port_range_end a with
      | Some server_id, Some port_range_start, Some port_range_end =>
          config ← config_from_application application;
          agent ← AgentRepository_get_by_server_id server_id;
          match agent with
          | None =>
              _fail deployment "the target server's Agent disappeared before the switch could run"
                None None [] None
          | Some (agent, _) =>
              built ← (if decide (dep_kind p = "blue_green")
                       then _build_release deployment application release config agent else mret true);
              if negb built then
                _fail deployment "release build failed" None (Some release) [] None
              else
                new_instances ← _start_and_health_gate deployment application release config agent server_id
                                  port_range_start port_range_end;
                match new_instances with
                | None =>
                    _fail deployment "one or more new instances failed to start or become healthy"
                      None (Some release) [] None
                | Some new_instances =>
                    activate_release deployment application release agent config new_instances
                end
          end
      | _, _, _ => _fail deployment "application is missing its server or port range" None None [] None
      end
  | _, _ => mret tt
  end.

Definition run_release_switch `{Env} (deployment_id : uuid) (lock_token : Z) : M unit :=
  deployment ← session_get db_deployments deployment_id;
  match deployment with
  | None => mret tt
  | Some _ => try_finally (run_release_switch_body deployment_id) (release_lock_of deployment_id lock_token)
  end.

(** ** What these leave alone *)

Section keeps.
Context `{Env} (I : invariant) `{!Stable I}.

Lemma keeps_require_agent a : keeps I (_require_agent a).
Proof. unfold _require_agent. keeps_auto. Qed.

Lemma keeps_open_switch a r k actor : keeps I (open_switch a r k actor).
Proof. unfold open_switch. keeps_auto. Qed.

Lemma keeps_start_new_release a actor : keeps I (start_new_release a actor).
Proof.
  pose proof keeps_require_agent. pose proof keeps_open_switch. unfold start_new_release. keeps_auto.
Qed.

Lemma keeps_start_rollback a r actor : keeps I (start_rollback a r actor).
Proof.
  pose proof keeps_require_agent. pose proof keeps_open_switch. unfold start_rollback. keeps_auto.
Qed.

Lemma keeps_build_release d a r c ag : keeps I (_build_release d a r c ag).
Proof. unfold _build_release. keeps_auto. Qed.

Lemma keeps_stop_instances d ag l c : keeps I (_stop_instances d ag l c).
Proof. unfold _stop_instances. keeps_auto. Qed.

Lemma keeps_start_gate_loop n d a r c ag s p q hc sv l : keeps I (start_gate_loop n d a r c ag s p q hc sv l).
Proof. pose proof keeps_stop_instances. revert l. induction n; intros; simpl; keeps_auto. Qed.

Lemma keeps_drain_old_release d ag r c : keeps I (_drain_old_release d ag r c).
Proof. unfold _drain_old_release, sleep. keeps_auto. Qed.

Lemma keeps_prune_image a d ag r row tag : keeps I (prune_image a d ag r row tag).
Proof. unfold prune_image. keeps_auto. Qed.

Lemma keeps_prune_old_releases a d ag c : keeps I (_prune_old_releases a d ag c).
Proof. pose proof keeps_prune_image. unfold _prune_old_releases. keeps_auto. Qed.

Lemma keeps_fail d reason ag r l c : keeps I (_fail d reason ag r l c).
Proof. pose proof keeps_stop_instances. unfold _fail. keeps_auto. Qed.

Lemma keeps_activate_release d a r ag c l : keeps I (activate_release d a r ag c l).
Proof.
  pose proof keeps_fail. pose proof keeps_drain_old_release. pose proof keeps_prune_old_releases.
  unfold activate_release. keeps_auto.
Qed.

Lemma keeps_run_release_switch id t : keeps I (run_release_switch id t).
Proof.
  pose proof keeps_fail. pose proof keeps_build_release. pose proof keeps_start_gate_loop.
  pose proof keeps_activate_release.
  unfold run_release_switch, run_release_switch_body, _start_and_health_gate. keeps_auto.
Qed.

End keeps.

#[export] Hint Resolve keeps_start_new_release keeps_start_rollback keeps_run_release_switch : keeps.
