(* ===== verification/SelfHealingService.v ===== *)
(** Bounded self-healing: services/control-plane/app/services/self_healing_service.py
    and the loop that triggers it, health_monitor.py. *)

From S2P Require Import Prelude Python Enums StateMachines HealerYaml Schema Session Hoare.
From S2P Require Import Repositories Protocol LockService CommandService ApplicationService.
From S2P Require Import AuditService GatewayService HealthCheckService DeploymentService.
From S2P Require Import ScaleService.
Local Open Scope Z_scope.

(** ** self_healing_service *)

Definition _log_audit `{Env} (action : string) (instance : uuid) (detail : list (string * json)) : M unit :=
  i ← row db_instances instance;
  record None action "instance" (str_uuid instance)
    (Some (JObj (dict_update [ ("port", JInt (inst_port i));
                               ("application_id", JStr (str_uuid (inst_application_id i))) ] detail))) ;;
  commit.

Definition _notify_administrators `{Env} (application instance : uuid) (reason : string) : M unit :=
  a ← row db_applications application;
  i ← row db_instances instance;
  add_notification None "self_healing_gave_up"
    (app_name a +:+ ": instance on port " +:+ str_int (inst_port i) +:+ " could not be recovered after "
     +:+ str_int (inst_healing_attempts i) +:+ " attempt(s) — " +:+ reason) ;;
  commit.

Definition _give_up `{Env} (application instance : uuid) (reason : string) : M unit :=
  assign db_instances instance (λ i, i <| inst_failure_reason := Some reason |>) ;;
  i ← row db_instances instance;
  when (negb (bool_decide (inst_status i = InstanceStatus.FAILED)))
    (InstanceRepository_transition instance InstanceStatus.FAILED) ;;
  commit ;;
  _log_audit "instance.recovery_failed" instance [("reason", JStr reason)] ;;
  _notify_administrators application instance reason.

(** [command.status.value in ("succeeded", "failed") and not command.error and
    bool((command.result or {}).get("ok", False))] *)
Definition command_ok (command : uuid) : M bool :=
  c ← row db_agent_commands command;
  if no_answer (cmd_status c) then mret false
  else if str_truthy (cmd_error c) then mret false
  else
    result ← as_dict (or_empty_dict (cmd_result c));
    mret (truthy (dict_get result "ok" (JBool false))).

Definition _restart `{Env} (agent release instance : uuid) (config : HealerYamlV1) : M bool :=
  payload ← _build_start_instance_payload release instance config;
  i ← row db_instances instance;
  command ← submit_command_and_wait agent AgentCommandType.START_INSTANCE payload
              ("restart-instance:" +:+ str_uuid instance +:+ ":" +:+ str_int (inst_healing_attempts i)) None 200;
  command_ok command.

Definition sync_if_routed `{Env} (application : uuid) (config : HealerYamlV1) : M unit :=
  when (bool_decide (is_Some (hy_domain config))) (sync_gateway application None ;; mret tt).

Definition _replace `{Env} (application release failed_instance health_check : uuid) (config : HealerYamlV1)
    (agent : uuid) (server : option Server) : M unit :=
  a ← row db_applications application;
  match app_port_range_start a, app_port_range_end a with
  | Some port_start, Some port_end =>
      f ← row db_instances failed_instance;
      allocated ← try_allocate application release (inst_server_id f) port_start port_end;
      match allocated with
      | inr msg =>
          _give_up application failed_instance ("could not allocate a replacement port: " +:+ msg)
      | inl replacement =>
          f ← row db_instances failed_instance;
          assign db_instances replacement (λ i,
            i <| inst_healing_attempts := inst_healing_attempts f |>
              <| inst_deployment_id := inst_deployment_id f |>) ;;
          InstanceRepository_transition replacement InstanceStatus.STARTING ;;
          commit ;;
          r ← row db_instances replacement;
          _log_audit "instance.replaced" failed_instance
            [ ("replacement_instance_id", JStr (str_uuid replacement));
              ("replacement_port", JInt (inst_port r)) ] ;;
          start_payload ← _build_start_instance_payload release replacement config;
          command ← submit_command_and_wait agent AgentCommandType.START_INSTANCE start_payload
                      ("start-instance:" +:+ str_uuid replacement) None 200;
          start_ok ← command_ok command;
          if negb start_ok then
            InstanceRepository_transition replacement InstanceStatus.FAILED ;;
            commit ;;
            _give_up application replacement "replacement instance failed to start"
          else
            healthy ← match server with
                      | Some server =>
                          r ← row db_instances replacement;
                          wait_until_healthy health_check replacement (srv_hostname server) (inst_port r)
                      | None => mret true
                      end;
            if negb healthy then
              InstanceRepository_transition replacement InstanceStatus.UNHEALTHY ;;
              commit ;;
              _give_up application replacement "replacement instance never became healthy"
            else
              InstanceRepository_transition replacement InstanceStatus.RUNNING ;;
              commit ;;
              _log_audit "instance.recovered" replacement [("via", JStr "replacement")] ;;
              sync_if_routed application config
      end
  | _, _ => _give_up application failed_instance "application has no port range configured"
  end.

(** [handle_unhealthy_instance] from the restart attempt on. *)
Definition attempt_recovery `{Env} (application instance health_check agent : uuid) (config : HealerYamlV1)
    (server : option Server) : M unit :=
  i ← row db_instances instance;
  release_row ← match inst_release_id i with
                | Some r => session_get db_releases r
                | None => mret None
                end;
  match inst_release_id i, release_row with
  | Some release, Some _ =>
      InstanceRepository_transition instance InstanceStatus.RESTARTING ;;
      commit ;;
      i ← row db_instances instance;
      _log_audit "instance.restart_attempted" instance [("attempt", JInt (inst_healing_attempts i))] ;;
      restarted ← _restart agent release instance config;
      healthy ← match restarted, server with
                | true, Some server =>
                    i ← row db_instances instance;
                    wait_until_healthy health_check instance (srv_hostname server) (inst_port i)
                | _, _ => mret false
                end;
      if healthy : bool then
        InstanceRepository_transition instance InstanceStatus.RUNNING ;;
        assign db_instances instance (λ i, i <| inst_failure_reason := None |>) ;;
        commit ;;
        i ← row db_instances instance;
        _log_audit "instance.recovered" instance [("attempt", JInt (inst_healing_attempts i))] ;;
        sync_if_routed application config
      else
        assign db_instances instance (λ i,
          i <| inst_failure_reason := Some "restart did not restore a healthy instance" |>) ;;
        InstanceRepository_transition instance InstanceStatus.FAILED ;;
        commit ;;
        i ← row db_instances instance;
        _log_audit "instance.restart_failed" instance [("attempt", JInt (inst_healing_attempts i))] ;;
        _replace application release instance health_check config agent server
  | _, _ => _give_up application instance "instance has no associated release to restart"
  end.

(** [(now - last).total_seconds() < cooldown] *)
Definition in_cooldown (now_ last cooldown_seconds : Z) : bool := now_ - last <? seconds cooldown_seconds.

Definition handle_unhealthy_instance `{Env} (application instance health_check : uuid) : M unit :=
  config ← config_from_application application;
  i ← row db_instances instance;
  server ← session_get db_servers (inst_server_id i);
  agent ← AgentRepository_get_by_server_id (inst_server_id i);
  when (bool_decide (inst_status i = InstanceStatus.RUNNING))
    (InstanceRepository_transition instance InstanceStatus.UNHEALTHY ;; commit) ;;
  _log_audit "instance.removed_unhealthy" instance [] ;;
  sync_if_routed application config ;;
  match agent with
  | Some (agent, a) =>
      if negb (bool_decide (ag_status a = AgentStatus.CONNECTED)) then
        _give_up application instance "the target server's Agent is not connected" else
      i ← row db_instances instance;
      hc ← row db_health_checks health_check;
      waiting ← match inst_last_healing_attempt_at i with
                | Some last => now_ ← now; mret (in_cooldown now_ last (hc_restart_cooldown_seconds hc))
                | None => mret false
                end;
      if waiting : bool then mret tt
      else if hc_max_restart_attempts hc <=? inst_healing_attempts i then
        _give_up application instance "maximum restart attempts reached"
      else
        now_ ← now;
        assign db_instances instance (λ i,
          i <| inst_healing_attempts := inst_healing_attempts i + 1 |>
            <| inst_last_healing_attempt_at := Some now_ |>) ;;
        commit ;;
        attempt_recovery application instance health_check agent config server
  | None => _give_up application instance "the target server's Agent is not connected"
  end.

(** ** health_monitor *)

Definition _heal `{Env} (application instance health_check : uuid) : M unit :=
  lock_token ← try_except (t ← acquire application "heal"; mret (Some t))
                 (λ e, match e with
                       | OperationLockHeldError _ => mret None
                       | _ => raise e
                       end);
  match lock_token with
  | None => mret tt
  | Some lock_token =>
      try_finally (handle_unhealthy_instance application instance health_check)
        (release application lock_token)
  end.

(** The failure count a probe leads to. *)
Definition next_failures (last_result : option HealthCheckResult) (healthy : bool) : Z :=
  if healthy then 0
  else match last_result with
       | Some r => if hr_healthy r then 1 else hr_consecutive_failures r + 1
       | None => 1
       end.

Definition _poll_and_maybe_heal `{Env} (application instance health_check : uuid) (server : Server) : M unit :=
  last_result ← query (latest_result instance);
  now_ ← now;
  hc ← row db_health_checks health_check;
  let due := match last_result with
             | Some r => negb (now_ <? hr_checked_at r + seconds (hc_interval_seconds hc))
             | None => true
             end in
  if negb due then mret tt else
  i ← row db_instances instance;
  '(healthy, detail, response_time_ms) ←
    check_instance_once (srv_hostname server) (inst_port i) (probe_path hc) (hc_timeout_seconds hc)
      (hc_expected_status hc);
  let consecutive_failures := next_failures last_result healthy in
  add_health_result
    {| hr_health_check_id := health_check; hr_instance_id := instance; hr_healthy := healthy;
       hr_detail := Some detail; hr_consecutive_failures := consecutive_failures;
       hr_response_time_ms := response_time_ms; hr_checked_at := now_ |} ;;
  commit ;;
  hc ← row db_health_checks health_check;
  when (negb healthy && (hc_unhealthy_threshold hc <=? consecutive_failures))%bool
    (_heal application instance health_check).

(** [{hc.application_id: hc for hc in ...}]: the last check of an application wins. *)
Definition checks_by_application (d : DB) : list (uuid * uuid) :=
  dict_update [] (map (λ kv, (hc_application_id kv.2, kv.1)) (map_to_list (db_health_checks d))).

Definition instances_with (application : uuid) (status : instance_status) (d : DB) : list uuid :=
  map fst (select db_instances (λ i, (bool_decide (inst_application_id i = application)
                                      && bool_decide (inst_status i = status))%bool) d).

Definition tick `{Env} : M unit :=
  health_checks ← query checks_by_application;
  for_each health_checks (λ '(application_id, health_check),
    application ← session_get db_applications application_id;
    match application ≫= app_server_id with
    | None => mret tt
    | Some server_id =>
        server ← session_get db_servers server_id;
        match server with
        | None => mret tt
        | Some server =>
            running ← query (instances_with application_id InstanceStatus.RUNNING);
            for_each running (λ instance, _poll_and_maybe_heal application_id instance health_check server) ;;
            unhealthy ← query (instances_with application_id InstanceStatus.UNHEALTHY);
            for_each unhealthy (λ instance, _heal application_id instance health_check)
        end
    end).

(** ** What these leave alone *)

Section keeps.
Context `{Env} (I : invariant).

Lemma keeps_log_audit `{!RecordStable I} a i l : keeps I (_log_audit a i l).
Proof. unfold _log_audit. keeps_auto. Qed.

Lemma keeps_notify_administrators `{!RecordStable I} a i r : keeps I (_notify_administrators a i r).
Proof. unfold _notify_administrators. keeps_auto. Qed.

Lemma keeps_command_ok c : keeps I (command_ok c).
Proof. unfold command_ok. keeps_auto. Qed.

Lemma keeps_restart `{!AgentStable I} ag r i c : keeps I (_restart ag r i c).
Proof. pose proof keeps_command_ok. unfold _restart. keeps_auto. Qed.

Lemma keeps_sync_if_routed `{!RecordStable I} a c : keeps I (sync_if_routed a c).
Proof. unfold sync_if_routed. keeps_auto. Qed.

End keeps.

#[export] Hint Resolve keeps_log_audit keeps_notify_administrators keeps_command_ok keeps_restart
  keeps_sync_if_routed : keeps.

Section operations.
Context `{Env} (I : invariant) `{!Stable I}.

Lemma keeps_give_up a i r : keeps I (_give_up a i r).
Proof. unfold _give_up. keeps_auto. Qed.

Lemma keeps_replace a r i hc c ag s : keeps I (_replace a r i hc c ag s).
Proof. pose proof keeps_give_up. unfold _replace. keeps_auto. Qed.

Lemma keeps_handle_unhealthy_instance a i hc : keeps I (handle_unhealthy_instance a i hc).
Proof.
  pose proof keeps_give_up. pose proof keeps_replace.
  unfold handle_unhealthy_instance, attempt_recovery. keeps_auto.
Qed.

Lemma keeps_heal a i hc : keeps I (_heal a i hc).
Proof. pose proof keeps_handle_unhealthy_instance. unfold _heal. keeps_auto. Qed.

Lemma keeps_tick : keeps I tick.
Proof. pose proof keeps_heal. unfold tick, _poll_and_maybe_heal. keeps_auto. Qed.

End operations.

#[export] Hint Resolve keeps_give_up keeps_tick : keeps.
