(* ===== verification/InstanceService.v ===== *)
(** Manual actions on one instance, and recovery after a restart of the
    control plane: services/control-plane/app/services/instance_service.py and
    reconcile_service.py. *)

From S2P Require Import Prelude Python Enums StateMachines HealerYaml Schema Session Hoare.
From S2P Require Import Repositories Protocol LockService CommandService ApplicationService.
From S2P Require Import AuditService GatewayService DeploymentService SelfHealingService.
Local Open Scope Z_scope.

(** ** instance_service *)

Definition _ACTIONABLE_STATUSES : list instance_status := [InstanceStatus.RUNNING; InstanceStatus.UNHEALTHY].

(** [acquire] with [OperationLockHeldError] turned into [InstanceActionError]. *)
Definition acquire_for_action `{Env} (application : uuid) (operation : string) : M Z :=
  try_except (acquire application operation)
    (λ e, match e with
          | OperationLockHeldError msg => raise (InstanceActionError msg)
          | _ => raise e
          end).

(** [instance.failure_reason = command.error or default], and the value. *)
Definition set_failure (instance command : uuid) (dflt : string) : M string :=
  c ← row db_agent_commands command;
  let reason := if str_truthy (cmd_error c) then default "" (cmd_error c) else dflt in
  assign db_instances instance (λ i, i <| inst_failure_reason := Some reason |>) ;;
  mret reason.

(** The [try] of [restart_instance]. *)
Definition restart_locked `{Env} (application instance release agent : uuid) : M unit :=
  config ← config_from_application application;
  InstanceRepository_transition instance InstanceStatus.RESTARTING ;;
  commit ;;
  sync_if_routed application config ;;
  payload ← _build_start_instance_payload release instance config;
  nonce ← uuid4;
  command ← submit_command_and_wait agent AgentCommandType.START_INSTANCE payload
              ("manual-restart:" +:+ str_uuid instance +:+ ":" +:+ str_uuid nonce) None 200;
  c ← row db_agent_commands command;
  ok ← (if (bool_decide (agent_command_status_value (cmd_status c) = "succeeded")
            && negb (str_truthy (cmd_error c)))%bool then
          result ← as_dict (or_empty_dict (cmd_result c));
          mret (truthy (dict_get result "ok" (JBool false)))
        else mret false);
  if ok : bool then
    assign db_instances instance (λ i, i <| inst_failure_reason := None |>) ;;
    InstanceRepository_transition instance InstanceStatus.RUNNING ;;
    commit ;;
    sync_if_routed application config
  else
    reason ← set_failure instance command "manual restart failed";
    InstanceRepository_transition instance InstanceStatus.FAILED ;;
    commit ;;
    raise (InstanceActionError reason).

Definition restart_instance `{Env} (application instance : uuid) : M unit :=
  i ← row db_instances instance;
  if negb (bool_decide (inst_status i ∈ _ACTIONABLE_STATUSES)) then
    raise (InstanceActionError ("instance is " +:+ instance_status_value (inst_status i)
                                +:+ ", not in a state that can be restarted")) else
  agent ← AgentRepository_get_by_server_id (inst_server_id i);
  release_row ← match inst_release_id i with
                | Some r => session_get db_releases r
                | None => mret None
                end;
  match agent with
  | None => raise (InstanceActionError "the instance's Agent is not currently connected")
  | Some (agent_id, _) =>
      if not_connected agent then
        raise (InstanceActionError "the instance's Agent is not currently connected") else
      match inst_release_id i, release_row with
      | Some release, Some _ =>
          lock_token ← acquire_for_action application "restart";
          try_finally (restart_locked application instance release agent_id)
            (LockService.release application lock_token)
      | _, _ => raise (InstanceActionError "this instance has no known release to restart")
      end
  end.

(** The [try] of [stop_instance]. *)
Definition stop_locked `{Env} (application instance agent : uuid) : M unit :=
  config ← config_from_application application;
  InstanceRepository_transition instance InstanceStatus.DRAINING ;;
  commit ;;
  sync_if_routed application config ;;
  payload ← _build_stop_instance_payload instance config;
  nonce ← uuid4;
  command ← submit_command_and_wait agent AgentCommandType.STOP_INSTANCE payload
              ("manual-stop:" +:+ str_uuid instance +:+ ":" +:+ str_uuid nonce) None 60;
  c ← row db_agent_commands command;
  let ok := (bool_decide (agent_command_status_value (cmd_status c) = "succeeded")
             && negb (str_truthy (cmd_error c)))%bool in
  InstanceRepository_transition instance (if ok then InstanceStatus.STOPPED else InstanceStatus.FAILED) ;;
  if ok then commit
  else
    reason ← set_failure instance command "manual stop failed";
    commit ;;
    raise (InstanceActionError reason).

Definition stop_instance `{Env} (application instance : uuid) : M unit :=
  i ← row db_instances instance;
  if negb (bool_decide (inst_status i ∈ _ACTIONABLE_STATUSES)) then
    raise (InstanceActionError ("instance is " +:+ instance_status_value (inst_status i)
                                +:+ ", not in a state that can be stopped")) else
  agent ← AgentRepository_get_by_server_id (inst_server_id i);
  match agent with
  | None => raise (InstanceActionError "the instance's Agent is not currently connected")
  | Some (agent_id, _) =>
      if not_connected agent then
        raise (InstanceActionError "the instance's Agent is not currently connected") else
      lock_token ← acquire_for_action application "stop";
      try_finally (stop_locked application instance agent_id)
        (LockService.release application lock_token)
  end.

(** ** reconcile_service *)

Definition STUCK_DEPLOYMENT_REASON : string := "control plane restarted while this operation was in progress".
Definition STUCK_INSTANCE_REASON : string := "control plane restarted while this instance was mid-transition".

Definition _TRANSIENT_INSTANCE_STATUSES : list instance_status :=
  [InstanceStatus.STARTING; InstanceStatus.RESTARTING; InstanceStatus.DRAINING].

Definition reconcile_deployment `{Env} (deployment : uuid) : M unit :=
  assign db_deployments deployment (λ p, p <| dep_failure_reason := Some STUCK_DEPLOYMENT_REASON |>) ;;
  add_log deployment None "error" STUCK_DEPLOYMENT_REASON ;;
  transition_deployment deployment DeploymentStatus.FAILED None ;;
  p ← row db_deployments deployment;
  force_release (dep_application_id p).

Definition reconcile_stuck_deployments `{Env} : M nat :=
  stuck ← query (select db_deployments (λ p, bool_decide (dep_status p = DeploymentStatus.IN_PROGRESS)));
  for_each (map fst stuck) reconcile_deployment ;;
  commit ;;
  mret (length stuck).

Definition reconcile_instance (instance : uuid) : M unit :=
  assign db_instances instance (λ i, i <| inst_failure_reason := Some STUCK_INSTANCE_REASON |>) ;;
  InstanceRepository_transition instance InstanceStatus.FAILED.

Definition reconcile_stuck_instances : M nat :=
  stuck ← query (select db_instances (λ i, bool_decide (inst_status i ∈ _TRANSIENT_INSTANCE_STATUSES)));
  for_each (map fst stuck) reconcile_instance ;;
  commit ;;
  mret (length stuck).

Definition reconcile_on_startup `{Env} : M nat :=
  deployments ← reconcile_stuck_deployments;
  instances ← reconcile_stuck_instances;
  mret (deployments + instances)%nat.

(** ** What these leave alone *)

Section keeps.
Context `{Env} (I : invariant) `{!Stable I}.

Lemma keeps_set_failure i c s : keeps I (set_failure i c s).
Proof. unfold set_failure. keeps_auto. Qed.

Lemma keeps_acquire_for_action a op : keeps I (acquire_for_action a op).
Proof. unfold acquire_for_action. keeps_auto. Qed.

Lemma keeps_restart_instance a i : keeps I (restart_instance a i).
Proof.
  pose proof keeps_set_failure. pose proof keeps_acquire_for_action.
  unfold restart_instance, restart_locked. keeps_auto.
Qed.

Lemma keeps_stop_instance a i : keeps I (stop_instance a i).
Proof.
  pose proof keeps_set_failure. pose proof keeps_acquire_for_action.
  unfold stop_instance, stop_locked. keeps_auto.
Qed.

Lemma keeps_reconcile_on_startup : keeps I reconcile_on_startup.
Proof.
  unfold reconcile_on_startup, reconcile_stuck_deployments, reconcile_stuck_instances,
    reconcile_deployment, reconcile_instance. keeps_auto.
Qed.

End keeps.

#[export] Hint Resolve keeps_restart_instance keeps_stop_instance keeps_reconcile_on_startup : keeps.
