(* ===== verification/Requests.v ===== *)
(** The requests: what FastAPI checks of a body or of query parameters before it
    calls a handler. services/control-plane/app/schemas, and the [Query] bounds of
    app/api/routes (those of the administration page are in [DbAdmin]). A field whose type is an enumeration or a UUID has that type;
    lengths are counted in characters. *)

From S2P Require Import Prelude Python HealerYaml Schema Session Hoare Permissions.
Local Open Scope Z_scope.

(** A request that does not fit its model is refused. *)
Definition validated (ok : bool) : M unit :=
  if ok then mret tt else raise (HTTPException HTTP_422_UNPROCESSABLE_ENTITY "").

Definition at_least (n : Z) (o : option Z) : bool := opt_check (λ z, n <=? z) o.

(** ** schemas/auth.py, schemas/users.py *)

Definition LoginRequest (email password : string) : bool :=
  (length_between 1 320 email && length_between 1 200 password)%bool.

Definition ChangePasswordRequest (current_password new_password : string) : bool :=
  (length_between 1 200 current_password && length_between 8 200 new_password)%bool.

Definition SetUserRolesRequest (roles : list string) : bool := (1 <=? length roles)%nat.

Definition CreateUserRequest (email password : string) (roles : list string) : bool :=
  (length_between 1 320 email && length_between 8 200 password && (1 <=? length roles)%nat)%bool.

(** ** schemas/servers.py, schemas/agents.py, schemas/commands.py, schemas/scale.py *)

Definition ServerCreateRequest (name hostname : string) : bool :=
  (length_between 1 255 name && length_between 1 255 hostname)%bool.

Definition AgentEnrollRequest (token : string) : bool := (1 <=? String.length token)%nat.

Definition CommandSubmitRequest (idempotency_key : string) (ttl_seconds : Z) : bool :=
  (length_between 0 255 idempotency_key && int_between 5 3600 ttl_seconds)%bool.

Definition ScaleTriggerRequest (desired_replicas : Z) : bool := 1 <=? desired_replicas.

(** ** Query parameters *)

Definition metrics_query (hours limit : Z) : bool := ((1 <=? hours) && (1 <=? limit))%bool.

(** [^(stdout|stderr)$] *)
Definition stream_query (stream : string) : bool := (String.eqb stream "stdout" || String.eqb stream "stderr")%bool.

Definition log_query (max_bytes max_lines offset : option Z) : bool :=
  (at_least 1 max_bytes && at_least 1 max_lines && at_least 0 offset)%bool.

Definition audit_query (max_limit limit : Z) : bool := int_between 1 max_limit limit.

(** ** What a handler may rely on *)

Lemma ServerCreateRequest_lengths name hostname :
  ServerCreateRequest name hostname = true → (String.length name ≤ 255)%nat ∧ (String.length hostname ≤ 255)%nat.
Proof. unfold ServerCreateRequest. rewrite andb_true_iff. intros [Hn%length_between_spec Hh%length_between_spec]. lia. Qed.

(** The rest of a request runs only when the check passed. *)
Lemma hoare_validated (I : invariant) ok : hoare I (validated ok) (λ _, ok = true).
Proof. unfold validated. destruct ok; [by apply hoare_ret|apply hoare_raise]. Qed.

Lemma keeps_validated_bind {A} (I : invariant) ok (m : M A) : (ok = true → keeps I m) → keeps I (validated ok ;; m).
Proof. intros Hm. eapply hoare_bind; [apply hoare_validated|]. intros u Hok. by apply Hm. Qed.

Lemma keeps_validated_check (I : invariant) ok : keeps I (validated ok).
Proof. eapply hoare_keeps, hoare_validated. Qed.

#[export] Hint Resolve keeps_validated_check : keeps.
