(* ===== verification/Pages.v ===== *)
(** The pages that only read: the listings of services/control-plane/app/api/
    routes/deployments.py, applications.py, servers.py and users.py, with the
    answers of app/schemas/.

    A page is what its handler builds from the rows; the [updated_at] members of
    the answers are left out with the columns. *)

From S2P Require Import Prelude Python Enums HealerYaml Schema Session Hoare.
From S2P Require Import Permissions Repositories Security Protocol AuditService AuthService ServerService.
Local Open Scope Z_scope.

(** [repository.list(limit)]. *)
Definition BaseRepository_list {R} (tbl : DB → gmap uuid R) (limit : nat) : M (list (uuid * R)) :=
  query (λ d, take limit (select tbl (λ _, true) d)).

(** ** Deployments *)

Record DeploymentSummaryOut := {
  dso_id : uuid;
  dso_application_id : uuid;
  dso_application_name : string;
  dso_release_version : option string;
  dso_status : string;
  dso_kind : string;
  dso_created_at : Z;
}.

(** The rows of the join: a deployment whose application is gone is not among
    them, one whose release is gone has no version. *)
Definition deployment_summary (d : DB) (kp : uuid * Deployment) : option DeploymentSummaryOut :=
  let '(id, p) := kp in
  a ← db_applications d !! dep_application_id p;
  Some {| dso_id := id; dso_application_id := dep_application_id p; dso_application_name := app_name a;
          dso_release_version := rel_ref <$> db_releases d !! dep_release_id p;
          dso_status := deployment_status_value (dep_status p); dso_kind := dep_kind p;
          dso_created_at := dep_created_at p |}.

Definition list_deployments : M (list DeploymentSummaryOut) :=
  query (λ d, take 200 (order_by_desc dso_created_at (omap (deployment_summary d) (select db_deployments (λ _, true) d)))).

Record DeploymentStepOut := {
  dsto_name : string;
  dsto_status : string;
  dsto_started_at : option Z;
  dsto_finished_at : option Z;
}.

Record DeploymentLogOut := {
  dlo_step_id : option uuid;
  dlo_level : string;
  dlo_message : string;
  dlo_created_at : Z;
}.

Record DeploymentInstanceOut := {
  dio_id : uuid;
  dio_server_id : uuid;
  dio_port : Z;
  dio_service_name : option string;
  dio_status : string;
}.

Record DeploymentDetailOut := {
  ddo_id : uuid;
  ddo_application_id : uuid;
  ddo_release_id : uuid;
  ddo_release_version : string;
  ddo_status : string;
  ddo_kind : string;
  ddo_failure_reason : option string;
  ddo_instances : list DeploymentInstanceOut;
  ddo_steps : list DeploymentStepOut;
  ddo_logs : list DeploymentLogOut;
  ddo_created_at : Z;
}.

Definition get_deployment (deployment_id : uuid) : M DeploymentDetailOut :=
  deployment ← session_get db_deployments deployment_id;
  match deployment with
  | None => raise (HTTPException HTTP_404_NOT_FOUND "deployment not found")
  | Some p =>
      release ← session_get db_releases (dep_release_id p);
      instances ← query (λ d, order_by_asc (λ kv, inst_port kv.2)
        (select db_instances (λ i, bool_decide (inst_deployment_id i = Some deployment_id)) d));
      steps ← query (λ d, order_by_asc (λ kv, step_created_at kv.2)
        (select db_deployment_steps (λ s, bool_decide (step_deployment_id s = deployment_id)) d));
      logs ← query (λ d, order_by_asc log_created_at
        (List.filter (λ l, bool_decide (log_deployment_id l = deployment_id)) (db_deployment_logs d)));
      mret {| ddo_id := deployment_id; ddo_application_id := dep_application_id p;
              ddo_release_id := dep_release_id p;
              ddo_release_version := match release with Some r => rel_ref r | None => "" end;
              ddo_status := deployment_status_value (dep_status p); ddo_kind := dep_kind p;
              ddo_failure_reason := dep_failure_reason p;
              ddo_instances := map (λ '(id, i),
                {| dio_id := id; dio_server_id := inst_server_id i; dio_port := inst_port i;
                   dio_service_name := inst_service_name i;
                   dio_status := instance_status_value (inst_status i) |}) instances;
              ddo_steps := map (λ '(_, s),
                {| dsto_name := step_name s; dsto_status := deployment_step_status_value (step_status s);
                   dsto_started_at := step_started_at s; dsto_finished_at := step_finished_at s |}) steps;
              ddo_logs := map (λ l,
                {| dlo_step_id := log_step_id l; dlo_level := log_level l; dlo_message := log_message l;
                   dlo_created_at := log_created_at l |}) logs;
              ddo_created_at := dep_created_at p |}
  end.

(** ** Applications *)

Record ApplicationOut := {
  ao_id : uuid;
  ao_name : string;
  ao_slug : string;
  ao_adapter_type : string;
  ao_server_id : option uuid;
  ao_config : option HealerYamlV1;
  ao_port_range_start : option Z;
  ao_port_range_end : option Z;
  ao_min_replicas : Z;
  ao_max_replicas : Z;
  ao_desired_replicas : Z;
  ao_active_release_id : option uuid;
  ao_release_retention_count : Z;
  ao_created_at : Z;
}.

(** [ApplicationOut.from_model]; no configuration is shown as an empty one. *)
Definition application_out (id : uuid) (a : Application) : ApplicationOut :=
  {| ao_id := id; ao_name := app_name a; ao_slug := app_slug a;
     ao_adapter_type := adapter_type_value (app_adapter_type a); ao_server_id := app_server_id a;
     ao_config := app_config a; ao_port_range_start := app_port_range_start a;
     ao_port_range_end := app_port_range_end a; ao_min_replicas := app_min_replicas a;
     ao_max_replicas := app_max_replicas a; ao_desired_replicas := app_desired_replicas a;
     ao_active_release_id := app_active_release_id a;
     ao_release_retention_count := app_release_retention_count a; ao_created_at := app_created_at a |}.

Definition list_applications : M (list ApplicationOut) :=
  applications ← BaseRepository_list db_applications 500;
  mret (map (λ '(id, a), application_out id a) applications).

Definition get_application (application_id : uuid) : M ApplicationOut :=
  application ← session_get db_applications application_id;
  match application with
  | None => raise (HTTPException HTTP_404_NOT_FOUND "application not found")
  | Some a => mret (application_out application_id a)
  end.

(** ** Servers *)

Record ServerOut := {
  so_id : uuid;
  so_name : string;
  so_hostname : string;
  so_os : server_os;
  so_status : server_status;
  so_online : bool;
  so_agent_version : option string;
  so_last_seen_at : option Z;
  so_created_at : Z;
}.

Definition _server_out `{Env} (server : uuid * Server) : M ServerOut :=
  let '(id, s) := server in
  agent ← AgentRepository_get_by_server_id id;
  now_ ← now;
  let agent := snd <$> agent in
  mret {| so_id := id; so_name := srv_name s; so_hostname := srv_hostname s; so_os := srv_os s;
          so_status := srv_status s;
          so_online := match agent with Some agent => is_online agent now_ | None => false end;
          so_agent_version := ag_agent_version <$> agent; so_last_seen_at := agent ≫= ag_last_seen_at;
          so_created_at := srv_created_at s |}.

Fixpoint server_outs `{Env} (servers : list (uuid * Server)) : M (list ServerOut) :=
  match servers with
  | [] => mret []
  | server :: servers' =>
      out ← _server_out server;
      outs ← server_outs servers';
      mret (out :: outs)
  end.

Definition list_servers `{Env} : M (list ServerOut) :=
  servers ← BaseRepository_list db_servers 500;
  server_outs servers.

Definition get_server `{Env} (server_id : uuid) : M ServerOut :=
  server ← session_get db_servers server_id;
  match server with
  | None => raise (HTTPException HTTP_404_NOT_FOUND "server not found")
  | Some s => _server_out (server_id, s)
  end.

Record EnrollmentTokenOut := {
  eto_id : uuid;
  eto_expires_at : Z;
  eto_used_at : option Z;
  eto_revoked_at : option Z;
  eto_created_at : Z;
}.

Definition list_enrollment_tokens (server_id : uuid) : M (list EnrollmentTokenOut) :=
  tokens ← list_tokens_by_server server_id;
  mret (map (λ '(id, t),
    {| eto_id := id; eto_expires_at := et_expires_at t; eto_used_at := et_used_at t;
       eto_revoked_at := et_revoked_at t; eto_created_at := et_created_at t |}) tokens).

(** ** Users *)

Record UserSummaryOut := {
  uso_id : uuid;
  uso_email : string;
  uso_roles : list string;
  uso_is_active : bool;
  uso_created_at : Z;
}.

Definition _summary (user : uuid * User) : M UserSummaryOut :=
  let '(id, u) := user in
  roles ← get_role_names id;
  mret {| uso_id := id; uso_email := user_email u; uso_roles := roles; uso_is_active := user_is_active u;
          uso_created_at := user_created_at u |}.

Fixpoint user_summaries (users : list (uuid * User)) : M (list UserSummaryOut) :=
  match users with
  | [] => mret []
  | user :: users' =>
      out ← _summary user;
      outs ← user_summaries users';
      mret (out :: outs)
  end.

Definition list_users_route : M (list UserSummaryOut) :=
  users ← list_users;
  user_summaries users.

(** ** What the pages leave alone *)

(** A computation that changes nothing but the count of observations. *)
Definition reads {A} (m : M A) : Prop := ∀ w, ∃ t, (m w).2 = w <| w_tick := t |>.

Lemma same_tick w : w = w <| w_tick := w_tick w |>.
Proof. by destruct w. Qed.

Lemma reads_ret {A} (a : A) : reads (mret a).
Proof. intros w. exists (w_tick w). apply same_tick. Qed.

Lemma reads_raise {A} e : reads (raise (A:=A) e).
Proof. intros w. exists (w_tick w). apply same_tick. Qed.

Lemma reads_query {A} (f : DB → A) : reads (query f).
Proof.
  intros w. exists (w_tick w). unfold query, require_active, mbind, st_bind. simpl.
  destruct (w_active w); apply same_tick.
Qed.

Lemma reads_now `{Env} : reads now.
Proof. intros w. by eexists. Qed.

Lemma reads_bind {A B} (m : M A) (f : A → M B) : reads m → (∀ a, reads (f a)) → reads (m ≫= f).
Proof.
  intros Hm Hf w. unfold mbind, st_bind. destruct (Hm w) as [t Ht]. destruct (m w) as [[a|e] w1]; simpl in *; [|by exists t].
  destruct (Hf a w1) as [t' Ht']. exists t'. rewrite Ht', Ht. by destruct w.
Qed.

Create HintDb reads.
#[export] Hint Resolve reads_ret reads_raise reads_query reads_now : reads.
#[export] Hint Extern 2 (reads (_ ≫= _)) => apply reads_bind; [|intros] : reads.
#[export] Hint Extern 3 (reads (match ?x with _ => _ end)) => destruct x : reads.

Lemma reads_server_out `{Env} s : reads (_server_out s).
Proof. unfold _server_out, AgentRepository_get_by_server_id. auto 10 with reads. Qed.

Lemma reads_server_outs `{Env} l : reads (server_outs l).
Proof. pose proof reads_server_out. induction l; simpl; auto 10 with reads. Qed.

Lemma reads_user_summaries l : reads (user_summaries l).
Proof.
  induction l as [|[id u] l IH]; simpl; [auto with reads|]. unfold get_role_names. auto 10 with reads.
Qed.

(** A page shows rows and changes none. *)
Lemma pages_read `{Env} :
  reads list_deployments ∧ (∀ id, reads (get_deployment id)) ∧ reads list_applications ∧
  (∀ id, reads (get_application id)) ∧ reads list_servers ∧ (∀ id, reads (get_server id)) ∧
  (∀ id, reads (list_enrollment_tokens id)) ∧ reads list_users_route.
Proof.
  pose proof reads_server_out. pose proof reads_server_outs. pose proof reads_user_summaries.
  unfold list_deployments, get_deployment, list_applications, get_application, list_servers, get_server,
    list_enrollment_tokens, list_users_route, list_users, list_tokens_by_server, BaseRepository_list, session_get.
  repeat split; auto 15 with reads.
Qed.

Lemma keeps_reads {A} (I : invariant) (m : M A) : reads m → keeps I m.
Proof.
  intros Hm w Hw. split; [|done]. destruct (Hm w) as [t ->]. exact Hw.
Qed.
