(* ===== verification/Routes.v ===== *)
(** Request handlers: services/control-plane/app/api/routes/applications.py,
    deployments.py, agents.py and audit.py, and with those of [AuthService],
    [ServerService], [AuditService], [LogService] and [MetricsService] the whole
    control plane as a sequence of requests, background work and agent traffic.
    The database administration page is not part of it.

    A handler is its body, for a user who is authenticated and passed the CSRF
    check; [perform] makes the permission check of its route first. A request
    runs in [get_db]: the handler, then the background task it scheduled, on
    one session. *)

From S2P Require Import Prelude Python Redaction Enums StateMachines HealerYaml Schema Session Hoare.
From S2P Require Import Permissions Repositories Security Protocol Invariants LockService CommandService.
From S2P Require Import ApplicationService AuditService AuthService ServerService GatewayService HealthCheckService.
From S2P Require Import AppValidation DeploymentService LogService MetricsService ScaleService ReleaseService SelfHealingService.
From S2P Require Import InstanceService Requests Pages.
Local Open Scope Z_scope.

Definition HTTP_500_INTERNAL_SERVER_ERROR : Z := 500.

(** ** Shared steps of the handlers *)

Definition get_application_or_404 (application_id : uuid) : M unit :=
  application ← session_get db_applications application_id;
  match application with
  | Some _ => mret tt
  | None => raise (HTTPException HTTP_404_NOT_FOUND "application not found")
  end.

Definition config_or_500 `{Env} (application : uuid) : M HealerYamlV1 :=
  try_except (config_from_application application)
    (λ e, match e with
          | ValidationError =>
              raise (HTTPException HTTP_500_INTERNAL_SERVER_ERROR
                ("stored config no longer matches the current schema: " +:+ env_exn_text ValidationError))
          | _ => raise e
          end).

Definition acquire_or_409 `{Env} (application : uuid) (operation : string) : M Z :=
  try_except (acquire application operation)
    (λ e, match e with
          | OperationLockHeldError msg => raise (HTTPException HTTP_409_CONFLICT msg)
          | _ => raise e
          end).

(** [try: start(...) except <SetupError>: release the lock; 409] *)
Definition start_or_release (application : uuid) (lock_token : Z) (setup_error : exn → option string)
    (start : M uuid) : M uuid :=
  try_except start
    (λ e, match setup_error e with
          | Some msg => release application lock_token ;; raise (HTTPException HTTP_409_CONFLICT msg)
          | None => raise e
          end).

(** ** Handlers *)

Definition post_application `{Env} (config : HealerYamlV1) (user : uuid) : M uuid :=
  application ← try_except (create_application config)
    (λ e, match e with
          | IntegrityError =>
              rollback ;;
              raise (HTTPException HTTP_409_CONFLICT "a domain hostname in this config is already in use")
          | _ => raise e
          end);
  a ← row db_applications application;
  record (Some user) "application.create" "application" (str_uuid application)
    (Some (JObj [("name", JStr (app_name a)); ("adapter", JStr (hy_adapter config))])) ;;
  mret application.

Definition patch_application `{Env} (application_id : uuid) (config : HealerYamlV1) (user : uuid) : M unit :=
  get_application_or_404 application_id ;;
  try_except (update_application application_id config)
    (λ e, match e with
          | IntegrityError =>
              rollback ;;
              raise (HTTPException HTTP_409_CONFLICT "a domain hostname in this config is already in use")
          | _ => raise e
          end) ;;
  record (Some user) "application.update" "application" (str_uuid application_id) None.

(** A triggering route answers at once; its background task gets the lock token. *)
Record DeployTriggerResponse := {
  dt_deployment_id : uuid;
  dt_release_id : uuid;
  dt_instance_id : uuid;
  dt_port : Z;
  dt_service_name : string;
}.

Record ScaleTriggerResponse := {
  st_deployment_id : uuid;
  st_desired_replicas : Z;
}.

Record ReleaseTriggerResponse := {
  rt_deployment_id : uuid;
  rt_warnings : list string;
}.

Definition MIGRATION_WARNING : string :=
  "This deploy runs migrations against the shared database while the previous release may still be briefly serving traffic. Follow expand/migrate/contract: this release should only ADD nullable columns, new tables, or backward-compatible changes — never remove or rename anything the previous release's code still reads. Remove old schema only in a LATER release, once no running instance depends on it. See docs/blue-green-deployment.md.".

Definition deploy_application `{Env} (application_id user : uuid) : M (DeployTriggerResponse * Z) :=
  get_application_or_404 application_id ;;
  config ← config_or_500 application_id;
  lock_token ← acquire_or_409 application_id "deploy";
  deployment ← start_or_release application_id lock_token
                 (λ e, match e with DeploymentSetupError msg => Some msg | _ => None end)
                 (start_deployment application_id config (Some user));
  p ← row db_deployments deployment;
  instances ← query (select db_instances (λ i, bool_decide (inst_release_id i = Some (dep_release_id p))));
  match instances with
  | [(instance, i)] =>
      record (Some user) "application.deploy_triggered" "application" (str_uuid application_id)
        (Some (JObj [("deployment_id", JStr (str_uuid deployment)); ("port", JInt (inst_port i))])) ;;
      match inst_service_name i with
      | Some service_name =>
          mret ({| dt_deployment_id := deployment; dt_release_id := dep_release_id p; dt_instance_id := instance;
                   dt_port := inst_port i; dt_service_name := service_name |}, lock_token)
      | None => raise ValidationError
      end
  | _ => raise (ValueError "one() found another number of rows")
  end.

Definition sync_gateway_endpoint `{Env} (application_id user : uuid) : M GatewaySyncResult :=
  get_application_or_404 application_id ;;
  sync_gateway application_id (Some user).

Definition scale_application `{Env} (application_id : uuid) (desired_replicas : Z) (user : uuid) :
    M (ScaleTriggerResponse * Z) :=
  get_application_or_404 application_id ;;
  lock_token ← acquire_or_409 application_id "scale";
  deployment ← start_or_release application_id lock_token
                 (λ e, match e with ScaleSetupError msg => Some msg | _ => None end)
                 (start_scale application_id desired_replicas (Some user));
  record (Some user) "application.scale_triggered" "application" (str_uuid application_id)
    (Some (JObj [("deployment_id", JStr (str_uuid deployment)); ("desired_replicas", JInt desired_replicas)])) ;;
  mret ({| st_deployment_id := deployment; st_desired_replicas := desired_replicas |}, lock_token).

Definition deploy_new_release `{Env} (application_id user : uuid) : M (ReleaseTriggerResponse * Z) :=
  get_application_or_404 application_id ;;
  config_or_500 application_id ;;
  lock_token ← acquire_or_409 application_id "deploy";
  deployment ← start_or_release application_id lock_token
                 (λ e, match e with ReleaseSetupError msg => Some msg | _ => None end)
                 (start_new_release application_id (Some user));
  p ← row db_deployments deployment;
  record (Some user) "application.release_triggered" "application" (str_uuid application_id)
    (Some (JObj [("deployment_id", JStr (str_uuid deployment));
                 ("release_id", JStr (str_uuid (dep_release_id p)))])) ;;
  mret ({| rt_deployment_id := deployment; rt_warnings := [MIGRATION_WARNING] |}, lock_token).

Definition rollback_application `{Env} (application_id release_id user : uuid) : M (ReleaseTriggerResponse * Z) :=
  get_application_or_404 application_id ;;
  lock_token ← acquire_or_409 application_id "deploy";
  deployment ← start_or_release application_id lock_token
                 (λ e, match e with ReleaseSetupError msg => Some msg | _ => None end)
                 (start_rollback application_id release_id (Some user));
  record (Some user) "application.rollback_triggered" "application" (str_uuid application_id)
    (Some (JObj [("deployment_id", JStr (str_uuid deployment)); ("release_id", JStr (str_uuid release_id))])) ;;
  mret ({| rt_deployment_id := deployment; rt_warnings := [] |}, lock_token).

Definition _get_instance_or_404 (application_id instance_id : uuid) : M unit :=
  instance ← session_get db_instances instance_id;
  match instance with
  | Some i => if bool_decide (inst_application_id i = application_id) then mret tt
              else raise (HTTPException HTTP_404_NOT_FOUND "instance not found")
  | None => raise (HTTPException HTTP_404_NOT_FOUND "instance not found")
  end.

(** [restart_instance] and [stop_instance] of the route, around the service's
    action; the instance table it answers with only reads. *)
Definition instance_action `{Env} (application_id instance_id user : uuid) (action : M unit)
    (audit_action : string) : M unit :=
  get_application_or_404 application_id ;;
  _get_instance_or_404 application_id instance_id ;;
  try_except action
    (λ e, match e with
          | InstanceActionError msg => raise (HTTPException HTTP_409_CONFLICT msg)
          | _ => raise e
          end) ;;
  i ← row db_instances instance_id;
  record (Some user) audit_action "instance" (str_uuid instance_id)
    (Some (JObj [("port", JInt (inst_port i))])).

Definition restart_instance_endpoint `{Env} (application_id instance_id user : uuid) : M unit :=
  instance_action application_id instance_id user (restart_instance application_id instance_id)
    "instance.restart".

Definition stop_instance_endpoint `{Env} (application_id instance_id user : uuid) : M unit :=
  instance_action application_id instance_id user (stop_instance application_id instance_id)
    "instance.stop".

Definition validate_application_endpoint `{Env} (application_id : uuid) : M (bool * list ValidationIssue) :=
  get_application_or_404 application_id ;;
  config ← config_or_500 application_id;
  issues ← validate_application application_id config;
  mret (negb (existsb is_error issues), issues).

Definition set_secret_endpoint `{Env} (application_id : uuid) (key value : string) (user : uuid) : M unit :=
  get_application_or_404 application_id ;;
  set_secret application_id key value ;;
  (* The value is not recorded. *)
  record (Some user) "application.secret_set" "application" (str_uuid application_id)
    (Some (JObj [("key", JStr key)])).

(** The rows have no time stamps here; the answer is their keys. *)
Definition list_secrets (application_id : uuid) : M (list string) :=
  records ← list_secret_keys application_id;
  mret (map (λ kv, sec_key kv.2) records).

Definition delete_secret_endpoint `{Env} (application_id : uuid) (key : string) (user : uuid) : M unit :=
  found ← delete_secret application_id key;
  if negb found then raise (HTTPException HTTP_404_NOT_FOUND "secret not found") else
  record (Some user) "application.secret_deleted" "application" (str_uuid application_id)
    (Some (JObj [("key", JStr key)])).

Record ReleaseOut := {
  ro_id : uuid;
  ro_ref : string;
  ro_status : string;
  ro_is_active : bool;
  ro_created_at : Z;
}.

Definition list_releases (application_id : uuid) : M (list ReleaseOut) :=
  get_application_or_404 application_id ;;
  a ← row db_applications application_id;
  releases ← query (λ d, order_by_desc (λ kv, rel_created_at kv.2)
    (select db_releases (λ r, bool_decide (rel_application_id r = application_id)) d));
  mret (map (λ '(id, r), {| ro_id := id; ro_ref := rel_ref r; ro_status := release_status_value (rel_status r);
                            ro_is_active := bool_decide (Some id = app_active_release_id a);
                            ro_created_at := rel_created_at r |}) releases).

Definition list_instances_endpoint (application_id : uuid) : M (list InstanceView) :=
  get_application_or_404 application_id ;;
  list_instances application_id.

(** deployments.py: [POST /deployments/{id}/actions/deploy]. *)
Definition start_deployment_endpoint `{Env} (deployment_id user : uuid) : M unit :=
  deployment ← session_get db_deployments deployment_id;
  match deployment with
  | None => raise (HTTPException HTTP_404_NOT_FOUND "deployment not found")
  | Some _ => transition_deployment deployment_id DeploymentStatus.IN_PROGRESS (Some user)
  end.

(** schemas/commands.py: what users see of a command. *)
Record CommandOut := {
  co_id : uuid;
  co_agent_id : uuid;
  co_type : agent_command_type;
  co_status : string;
  co_payload : json;
  co_result : option json;
  co_error : option string;
  co_correlation_id : option uuid;
  co_created_at : Z;
  co_expires_at : option Z;
}.

Definition command_out (id : uuid) (c : AgentCommand) : CommandOut :=
  {| co_id := id; co_agent_id := cmd_agent_id c; co_type := cmd_command_type c;
     co_status := agent_command_status_value (cmd_status c); co_payload := _redact (cmd_payload c);
     co_result := _redact <$> cmd_result c; co_error := cmd_error c; co_correlation_id := cmd_correlation_id c;
     co_created_at := cmd_created_at c; co_expires_at := cmd_expires_at c |}.

(** It does not depend on the environment values of payload and result. *)
Lemma command_out_hides_env f id agent type payload key status correlation expires result error created :
  let command payload result :=
    {| cmd_agent_id := agent; cmd_command_type := type; cmd_payload := payload; cmd_idempotency_key := key;
       cmd_status := status; cmd_correlation_id := correlation; cmd_expires_at := expires; cmd_result := result;
       cmd_error := error; cmd_created_at := created |} in
  command_out id (command (with_env f payload) (with_env f <$> result)) = command_out id (command payload result).
Proof. unfold command_out. simpl. rewrite redact_with_env. by destruct result; simpl; rewrite ?redact_with_env. Qed.

(** agents.py: the command endpoints. *)
Definition create_command `{Env} (agent_id : uuid) (current_user : CurrentUser) (command_type : agent_command_type)
    (payload : json) (idempotency_key : string) (correlation_id : option uuid) (ttl_seconds : Z) : M CommandOut :=
  required_permission ← permission_for command_type;
  if negb (has_permission (cu_roles current_user) required_permission) then
    raise (HTTPException HTTP_403_FORBIDDEN "insufficient permissions") else
  agent ← session_get db_agents agent_id;
  match agent with
  | None => raise (HTTPException HTTP_404_NOT_FOUND "agent not found")
  | Some _ =>
      command ← submit_command agent_id command_type payload idempotency_key correlation_id ttl_seconds
                  (λ _, mret tt);
      record (Some (cu_id current_user)) "agent.command_submitted" "agent_command" (str_uuid command)
        (Some (JObj [("type", JStr (agent_command_type_value command_type));
                     ("agent_id", JStr (str_uuid agent_id))])) ;;
      c ← row db_agent_commands command;
      mret (command_out command c)
  end.

Definition list_commands `{Env} (agent_id : uuid) : M (list CommandOut) :=
  now_ ← now;
  expire_overdue_commands now_ ;;
  commands ← list_by_agent agent_id 100;
  mret (map (λ '(id, c), command_out id c) commands).

Definition get_command `{Env} (agent_id command_id : uuid) : M CommandOut :=
  now_ ← now;
  expire_overdue_commands now_ ;;
  command ← session_get db_agent_commands command_id;
  match command with
  | Some c => if bool_decide (cmd_agent_id c = agent_id) then mret (command_out command_id c)
              else raise (HTTPException HTTP_404_NOT_FOUND "command not found")
  | None => raise (HTTPException HTTP_404_NOT_FOUND "command not found")
  end.

(** ** The control plane

    Every request, message and background run that writes, but for two: PATCH and
    DELETE of the administration page (api/routes/admin_db.py), which may rewrite or
    remove any row and follow no protocol. They are modelled in [DbAdmin]. What is
    proved of sequences of operations holds from any database on, so it holds
    between two such edits. *)

Inductive Operation : Type :=
| PostApplication (config : HealerYamlV1) (user : CurrentUser)
| PatchApplication (application : uuid) (config : HealerYamlV1) (user : CurrentUser)
| Deploy (application : uuid) (user : CurrentUser)
| Scale (application : uuid) (desired_replicas : Z) (user : CurrentUser)
| NewRelease (application : uuid) (user : CurrentUser)
| Rollback (application release : uuid) (user : CurrentUser)
| GatewaySync (application : uuid) (user : CurrentUser)
| RestartInstance (application instance : uuid) (user : CurrentUser)
| StopInstance (application instance : uuid) (user : CurrentUser)
| StartDeployment (deployment : uuid) (user : CurrentUser)
| CreateCommand (agent : uuid) (user : CurrentUser) (command_type : agent_command_type) (payload : json)
    (idempotency_key : string) (correlation_id : option uuid) (ttl_seconds : Z)
| ListCommands (agent : uuid) (user : CurrentUser)
| GetCommand (agent command : uuid) (user : CurrentUser)
| ValidateApplication (application : uuid) (user : CurrentUser)
| SetSecret (application : uuid) (key value : string) (user : CurrentUser)
| ListSecrets (application : uuid) (user : CurrentUser)
| DeleteSecret (application : uuid) (key : string) (user : CurrentUser)
| ListReleases (application : uuid) (user : CurrentUser)
| ListInstances (application : uuid) (user : CurrentUser)
| ListLogSources (application : uuid) (user : CurrentUser)
| GetInstanceLog (application instance : uuid) (stream : string) (max_bytes max_lines offset : option Z)
    (user : CurrentUser)
| StreamInstanceLog (application instance : uuid) (stream : string) (user : CurrentUser)
| ListMetrics (server : uuid) (hours limit : Z) (user : CurrentUser)
| ListAuditLog (action target_type : option string) (limit : Z) (user : CurrentUser)
| ListNotifications (user : CurrentUser)
| MarkNotificationRead (notification : uuid) (user : CurrentUser)
| ListDeployments (user : CurrentUser)
| GetDeployment (deployment : uuid) (user : CurrentUser)
| ListApplications (user : CurrentUser)
| GetApplication (application : uuid) (user : CurrentUser)
| ListServers (user : CurrentUser)
| GetServer (server : uuid) (user : CurrentUser)
| ListEnrollmentTokens (server : uuid) (user : CurrentUser)
| ListUsers (user : CurrentUser)
| PostUser (email password : string) (roles : list string) (user : CurrentUser)
| PatchUserRoles (target : uuid) (roles : list string) (user : CurrentUser)
| DeactivateUser (target : uuid) (user : CurrentUser)
| ActivateUser (target : uuid) (user : CurrentUser)
| PostServer (name hostname : string) (os : server_os) (user : CurrentUser)
| PostEnrollmentToken (server : uuid) (user : CurrentUser)
| DeleteEnrollmentToken (server token : uuid) (user : CurrentUser)
| RevokeAgent (server : uuid) (user : CurrentUser)
| Login (email password : string)
| Refresh (csrf_cookie csrf_header raw_token : option string)
| Logout (csrf_cookie csrf_header raw_token : option string)
| ChangePassword (user : CurrentUser) (current_password new_password : string)
| Bootstrap (email password env_email env_password : option string)
| Enroll (raw_token : string)
| AgentConnect (auth_header : string) (websocket : N) (remote_addr : option string)
| AgentTraffic (incoming : Incoming)
| HealthMonitorTick
| MetricsCleanup (retention_days : Z)
| ControlPlaneRestart.

(** A request with the permission its route requires. *)
Definition request (permission : string) (user : CurrentUser) (handler : M unit) : M unit :=
  get_db (require_permission permission user ;; handler).

(** A request, with the background task it schedules. *)
Definition perform `{Env} `{Security} (op : Operation) : M unit :=
  match op with
  | PostApplication config user => request "deploy" user (validated (valid_healer_yaml config) ;; post_application config (cu_id user) ;; mret tt)
  | PatchApplication application config user =>
      request "deploy" user (validated (valid_healer_yaml config) ;; patch_application application config (cu_id user))
  | Deploy application user =>
      request "deploy" user
        ('(response, lock_token) ← deploy_application application (cu_id user);
         run_deployment (dt_deployment_id response) lock_token)
  | Scale application desired_replicas user =>
      request "scale" user
        (validated (ScaleTriggerRequest desired_replicas) ;;
         '(response, lock_token) ← scale_application application desired_replicas (cu_id user);
         run_scale (st_deployment_id response) lock_token)
  | NewRelease application user =>
      request "deploy" user
        ('(response, lock_token) ← deploy_new_release application (cu_id user);
         run_release_switch (rt_deployment_id response) lock_token)
  | Rollback application release user =>
      request "rollback" user
        ('(response, lock_token) ← rollback_application application release (cu_id user);
         run_release_switch (rt_deployment_id response) lock_token)
  | GatewaySync application user =>
      request "deploy" user (sync_gateway_endpoint application (cu_id user) ;; mret tt)
  | RestartInstance application instance user =>
      request "restart" user (restart_instance_endpoint application instance (cu_id user))
  | StopInstance application instance user =>
      request "stop" user (stop_instance_endpoint application instance (cu_id user))
  | StartDeployment deployment user =>
      request "deploy" user (start_deployment_endpoint deployment (cu_id user))
  | CreateCommand agent user command_type payload key correlation_id ttl =>
      get_db (validated (CommandSubmitRequest key ttl) ;;
              create_command agent user command_type payload key correlation_id ttl ;; mret tt)
  | ListCommands agent user => request "view" user (list_commands agent ;; mret tt)
  | GetCommand agent command user => request "view" user (get_command agent command ;; mret tt)
  | ValidateApplication application user => request "view" user (validate_application_endpoint application ;; mret tt)
  | SetSecret application key value user =>
      request "deploy" user (set_secret_endpoint application key value (cu_id user))
  | ListSecrets application user => request "view" user (list_secrets application ;; mret tt)
  | DeleteSecret application key user => request "deploy" user (delete_secret_endpoint application key (cu_id user))
  | ListReleases application user => request "view" user (list_releases application ;; mret tt)
  | ListInstances application user => request "view" user (list_instances_endpoint application ;; mret tt)
  | ListLogSources application user => request "view" user (list_log_sources_route application ;; mret tt)
  | GetInstanceLog application instance stream max_bytes max_lines offset user =>
      request "view" user
        (validated (stream_query stream && log_query max_bytes max_lines offset) ;;
         get_instance_log application instance stream max_bytes max_lines offset ;; mret tt)
  | StreamInstanceLog application instance stream user =>
      request "view" user (validated (stream_query stream) ;; stream_instance_log_route application instance stream ;; mret tt)
  | ListMetrics server hours limit user =>
      request "view" user (validated (metrics_query hours limit) ;; list_metrics server hours limit ;; mret tt)
  | ListAuditLog action target_type limit user =>
      request "view_audit" user (validated (audit_query audit_MAX_LIMIT limit) ;; list_audit_log action target_type limit ;; mret tt)
  | ListNotifications user => get_db (list_notifications (cu_id user) ;; mret tt)
  | MarkNotificationRead notification user => get_db (mark_notification_read notification (cu_id user))
  | ListDeployments user => request "view" user (list_deployments ;; mret tt)
  | GetDeployment deployment user => request "view" user (get_deployment deployment ;; mret tt)
  | ListApplications user => request "view" user (list_applications ;; mret tt)
  | GetApplication application user => request "view" user (get_application application ;; mret tt)
  | ListServers user => request "view" user (list_servers ;; mret tt)
  | GetServer server user => request "view" user (get_server server ;; mret tt)
  | ListEnrollmentTokens server user => request "manage_servers" user (list_enrollment_tokens server ;; mret tt)
  | ListUsers user => request "manage_users" user (list_users_route ;; mret tt)
  | PostUser email password roles user =>
      request "manage_users" user (validated (CreateUserRequest email password roles) ;; post_user email password roles user ;; mret tt)
  | PatchUserRoles target roles user =>
      request "manage_users" user (validated (SetUserRolesRequest roles) ;; patch_user_roles target roles user)
  | DeactivateUser target user => request "manage_users" user (deactivate_user target user)
  | ActivateUser target user => request "manage_users" user (activate_user target user)
  | PostServer name hostname os user =>
      request "manage_servers" user (validated (ServerCreateRequest name hostname) ;; post_server name hostname os user ;; mret tt)
  | PostEnrollmentToken server user =>
      request "manage_servers" user (create_enrollment_token server user ;; mret tt)
  | DeleteEnrollmentToken server token user =>
      request "manage_servers" user (delete_enrollment_token server token user)
  | RevokeAgent server user => request "manage_servers" user (revoke_agent_route server user)
  | Login email password => get_db (validated (LoginRequest email password) ;; login email password ;; mret tt)
  | Refresh csrf_cookie csrf_header raw_token =>
      get_db (verify_csrf csrf_cookie csrf_header ;; refresh raw_token ;; mret tt)
  | Logout csrf_cookie csrf_header raw_token =>
      get_db (verify_csrf csrf_cookie csrf_header ;; logout raw_token ;; mret tt)
  | ChangePassword user current_password new_password =>
      get_db (validated (ChangePasswordRequest current_password new_password) ;;
              change_password_route user current_password new_password ;; mret tt)
  | Bootstrap email password env_email env_password => bootstrap_main email password env_email env_password
  | Enroll raw_token => get_db (validated (AgentEnrollRequest raw_token) ;; enroll raw_token ;; mret tt)
  | AgentConnect auth_header websocket remote_addr =>
      get_db (agent_socket_connect auth_header websocket remote_addr ;; mret tt)
  | AgentTraffic incoming => handle_incoming incoming
  | HealthMonitorTick => tick
  | MetricsCleanup retention_days => cleanup_once retention_days ;; mret tt
  | ControlPlaneRestart => reconcile_on_startup ;; mret tt
  end.

(** Each operation runs on a session of its own; what it raises ends it only.
    Closing a session drops what it did not commit. *)
Fixpoint run_all `{Env} `{Security} (ops : list Operation) : M unit :=
  match ops with
  | [] => mret tt
  | op :: ops' => try_except (perform op) (λ _, mret tt) ;; rollback ;; run_all ops'
  end.

(** ** Every operation follows the protocol *)

(** Goes past the checks of a request and keeps what they tell. *)
Ltac keeps_validated :=
  first [ apply keeps_validated_bind; intros Hok
        | apply keeps_bind; [solve [unfold require_permission; keeps_auto]|intros _; apply keeps_validated_bind; intros Hok] ].

Section keeps.
Context `{Env} `{Security} (I : invariant) `{!Stable I}.

Lemma keeps_get_application_or_404 a : keeps I (get_application_or_404 a).
Proof. unfold get_application_or_404. keeps_auto. Qed.

Lemma keeps_config_or_500 a : keeps I (config_or_500 a).
Proof. unfold config_or_500. keeps_auto. Qed.

Lemma keeps_acquire_or_409 a op : keeps I (acquire_or_409 a op).
Proof. unfold acquire_or_409. keeps_auto. Qed.

Lemma keeps_start_or_release a t f m : keeps I m → keeps I (start_or_release a t f m).
Proof. intros Hm. unfold start_or_release. apply hoare_try_except; [done|]. intros e. keeps_auto. Qed.

Lemma keeps_submit_command' a ty p k c t : keeps I (submit_command a ty p k c t (λ _, mret tt)).
Proof.
  pose proof keeps_command_transition. pose proof keeps_make_envelope. pose proof keeps_send_json.
  unfold submit_command, get_by_idempotency_key, connection_get. keeps_auto.
Qed.

Lemma keeps_perform op : keeps I (perform op).
Proof.
  pose proof keeps_get_application_or_404. pose proof keeps_config_or_500. pose proof keeps_acquire_or_409.
  pose proof keeps_submit_command'. pose proof keeps_handle_incoming. destruct pages_read as (?&?&?&?&?&?&?&?).
  destruct op; cbn [perform]; unfold request; try apply keeps_get_db; try keeps_validated;
    try match goal with Hok : ServerCreateRequest _ _ = true |- _ => apply ServerCreateRequest_lengths in Hok as [? ?] end;
    unfold require_permission, post_application, patch_application, deploy_application, scale_application, deploy_new_release,
      rollback_application, sync_gateway_endpoint, restart_instance_endpoint, stop_instance_endpoint,
      instance_action, _get_instance_or_404, start_deployment_endpoint, create_command, permission_for, list_commands,
      get_command, validate_application_endpoint, set_secret_endpoint, list_secrets, list_secret_keys,
      delete_secret_endpoint, list_releases, list_instances_endpoint, list_instances, list_log_sources_route,
      list_log_sources, list_audit_log, list_entries, list_notifications, list_by_agent; keeps_auto; try (apply keeps_start_or_release; keeps_auto); by apply keeps_reads.
Qed.

Lemma keeps_run_all ops : keeps I (run_all ops).
Proof. pose proof keeps_perform. induction ops; simpl; keeps_auto. Qed.

End keeps.
