(* ===== verification/SystemProperties.v ===== *)
(** Properties of the whole control plane: any sequence of requests, background
    runs, agent traffic, monitor ticks and restarts, over any outside world.

    [Operation] has every request that writes except the edits and deletions of
    the administration page, which can set any editable column of any table and
    are outside these theorems. They start from any database, so they hold from
    one such edit to the next. *)

From S2P Require Import Prelude Python Enums StateMachines HealerYaml Schema Session Hoare.
From S2P Require Import Widths Permissions Repositories Security Protocol Invariants CommandService Requests Scenario Routes.
Local Open Scope Z_scope.

(** The committed database after a sequence of operations. *)
Definition committed_after `{Env} `{Security} (ops : list Operation) (d : DB) : DB := w_committed (run_all ops (boot d)).2.

Lemma committed_reach `{Env} `{Security} ops d : reach d (committed_after ops d).
Proof.
  unfold committed_after. eapply (keeps_reach (run_all ops) (boot d)); [|done].
  intros I HI. by apply keeps_run_all.
Qed.

Definition operator1 : CurrentUser := {| cu_id := 9%N; cu_email := "operator@healer.local"; cu_roles := ["Operator"] |}.

(** A small history: two deployments of the same application, a scale
    operation, a sweep, a monitor tick and a restart. *)
Definition demo_history : list Operation :=
  [ NewRelease app1 operator1; Deploy app1 operator1; Scale app1 2 operator1; ListCommands agent1 operator1;
    HealthMonitorTick; StopInstance app1 instance1 operator1; ControlPlaneRestart ].

Definition demo_outside : Env := outside (answers_at []) probe_bad gateway_down.

(** C4. Refinement: whatever requests (edits on the administration page apart) and
    agent traffic arrive, the committed database only ever changes by steps of
    the abstract protocol [Protocol.db_step], so every write was preceded by the
    check its rule names. *)
Theorem control_plane_follows_protocol `{Env} `{Security} ops d : reach d (committed_after ops d).
Proof. apply committed_reach. Qed.

(** C5. Port exclusivity: if no two live instances share a server and a port,
    no sequence of deployments, scale operations, switches, healing attempts
    and restarts ever commits a database in which two do. *)
Theorem live_ports_stay_unique `{Env} `{Security} ops d :
  live_ports_unique d → live_ports_unique (committed_after ops d).
Proof. apply (kept_reach live_ports_unique), committed_reach. Qed.

Lemma demo_ports_unique : live_ports_unique (demo_db "deploy" 1).
Proof.
  intros k1 k2 i1 i2 H1 H2 _ _ _ _. cbn in H1, H2.
  apply lookup_singleton_Some in H1 as [<- _], H2 as [<- _]. done.
Qed.

Lemma live_ports_stay_unique_witness :
  live_ports_unique (committed_after (H:=demo_outside) (H0:=demo_security) demo_history (demo_db "deploy" 1)).
Proof. apply (live_ports_stay_unique (H:=demo_outside) (H0:=demo_security)). exact demo_ports_unique. Defined.

(** C6. Instance histories: as long as nobody edits or deletes it on the
    administration page, an instance row is never lost, keeps its application,
    server, port, service name and creation time, and its status only ever moves
    along [INSTANCE_TRANSITIONS]. *)
Theorem instance_histories_are_legal `{Env} `{Security} ops d id i :
  db_instances d !! id = Some i →
  ∃ j, db_instances (committed_after ops d) !! id = Some j ∧ evolves i j.
Proof.
  apply (kept_reach (instances_evolve d) d); [apply committed_reach|].
  intros k j Hj. exists j. split; [done|reflexivity].
Qed.

Lemma instance_histories_are_legal_witness :
  ∃ j, db_instances (committed_after (H:=demo_outside) (H0:=demo_security) demo_history (demo_db "deploy" 1)) !! instance1 = Some j ∧
       evolves (demo_instance InstanceStatus.RUNNING 9000) j.
Proof. apply (instance_histories_are_legal (H:=demo_outside) (H0:=demo_security)). vm_compute. reflexivity. Defined.

(** C7. Audit trail: if every deployment that left PENDING is explained by an
    entry of the audit log, it stays so: no operation changes a deployment's
    status without committing the matching, legal audit entry with it. (An edit of
    the status column on the administration page is no operation: it leaves an
    entry of its own kind only.) *)
Theorem deployment_transitions_stay_audited `{Env} `{Security} ops d :
  transitions_audited d → transitions_audited (committed_after ops d).
Proof. apply (kept_reach transitions_audited), committed_reach. Qed.

Lemma deployment_transitions_stay_audited_witness :
  transitions_audited (committed_after (H:=demo_outside) (H0:=demo_security) demo_history (demo_db "deploy" 1)).
Proof.
  apply (deployment_transitions_stay_audited (H:=demo_outside) (H0:=demo_security)).
  intros id p Hp _. cbn in Hp. apply lookup_singleton_Some in Hp as [<- <-].
  exists (demo_audit switch1), DeploymentStatus.PENDING.
  split; [left|]. split; [repeat split|]. vm_compute. reflexivity.
Defined.

(** C8. The services only append to the audit log: what was recorded once is a
    prefix of what is recorded later, under every operation, pruning included.
    The one way to change or remove an entry is to edit the table on the
    administration page, which the registry allows on purpose. *)
Theorem audit_log_is_append_only `{Env} `{Security} ops d :
  db_audit_logs d `prefix_of` db_audit_logs (committed_after ops d).
Proof. by apply (kept_reach (audit_extends d) d); [apply committed_reach|exists []; rewrite app_nil_r]. Qed.

(** C9. Slugs: unique slugs stay unique, and an application keeps its slug
    through every operation, renames and configuration changes included, as long
    as its row is not edited or deleted on the administration page. *)
Theorem slugs_unique_and_stable `{Env} `{Security} ops d :
  slugs_unique d →
  slugs_unique (committed_after ops d) ∧
  ∀ id a, db_applications d !! id = Some a →
    ∃ b, db_applications (committed_after ops d) !! id = Some b ∧ app_slug b = app_slug a.
Proof.
  intros Hd. split; [by apply (kept_reach slugs_unique d); [apply committed_reach|]|].
  apply (kept_reach (slugs_stay d) d); [apply committed_reach|]. intros id a Ha. by exists a.
Qed.

Lemma slugs_unique_and_stable_witness :
  slugs_unique (committed_after (H:=demo_outside) (H0:=demo_security)
    (PostApplication demo_config operator1 :: demo_history) (demo_db "deploy" 1)) ∧
  ∃ b, db_applications (committed_after (H:=demo_outside) (H0:=demo_security)
         (PostApplication demo_config operator1 :: demo_history) (demo_db "deploy" 1)) !! app1 = Some b ∧
       app_slug b = "demo".
Proof.
  destruct (slugs_unique_and_stable (H:=demo_outside) (H0:=demo_security)
    (PostApplication demo_config operator1 :: demo_history) (demo_db "deploy" 1)) as [Hu Hs].
  - intros k1 k2 a1 a2 H1 H2 _. cbn in H1, H2.
    apply lookup_singleton_Some in H1 as [<- _], H2 as [<- _]. done.
  - split; [exact Hu|]. apply (Hs app1 demo_app). vm_compute. reflexivity.
Defined.

(** C10. Text columns: if every user, server, application, instance, secret,
    source, health check and domain holds texts no longer than the columns that
    the models declare for them, every committed database does: the requests'
    own bounds, the healer.yaml bounds and the checks of the handlers are narrow
    enough for the schema. *)
Theorem texts_stay_within_columns `{Env} `{Security} ops d : texts_fit d → texts_fit (committed_after ops d).
Proof. apply (kept_reach texts_fit), committed_reach. Qed.

(** A name of the greatest length that a server may have, and one that is longer. *)
Definition long_name (n : nat) : string := String.concat EmptyString (replicate n "n").

Definition administrator1 : CurrentUser := {| cu_id := 8%N; cu_email := "admin@healer.local"; cu_roles := ["Administrator"] |}.

Definition naming_history : list Operation :=
  PostServer (long_name 255) "beta.local" ServerOS.LINUX administrator1
    :: PostServer (long_name 256) "gamma.local" ServerOS.LINUX administrator1
    :: PostApplication demo_config operator1 :: demo_history.

Lemma texts_stay_within_columns_witness :
  texts_fit (committed_after (H:=demo_outside) (H0:=demo_security) naming_history (demo_db "deploy" 1)).
Proof.
  apply (texts_stay_within_columns (H:=demo_outside) (H0:=demo_security)).
  unfold texts_fit, settings_fit. repeat match goal with |- _ ∧ _ => split end; intros k row Hrow; cbn in Hrow;
    first [by rewrite lookup_empty in Hrow|apply lookup_singleton_Some in Hrow as [<- <-]];
    vm_compute; repeat split; discriminate.
Defined.

(** ** Permissions *)

(** The user of an operation and the permission it needs. The others need none:
    they present a password, a cookie, an enrolment token or a credential, read
    the user's own notifications, or have no user at all. *)
Definition required (op : Operation) : option (CurrentUser * string) :=
  match op with
  | PostApplication _ u | PatchApplication _ _ u | Deploy _ u | NewRelease _ u | GatewaySync _ u
  | StartDeployment _ u => Some (u, "deploy")
  | Scale _ _ u => Some (u, "scale")
  | Rollback _ _ u => Some (u, "rollback")
  | RestartInstance _ _ u => Some (u, "restart")
  | StopInstance _ _ u => Some (u, "stop")
  | CreateCommand _ u ty _ _ _ _ => Some (u, dict_get COMMAND_TYPE_PERMISSIONS ty EmptyString)
  | ListCommands _ u | GetCommand _ _ u | ValidateApplication _ u | ListSecrets _ u | ListReleases _ u
  | ListInstances _ u | ListLogSources _ u | GetInstanceLog _ _ _ _ _ _ u | StreamInstanceLog _ _ _ u
  | ListMetrics _ _ _ u | ListDeployments u | GetDeployment _ u | ListApplications u | GetApplication _ u
  | ListServers u | GetServer _ u => Some (u, "view")
  | SetSecret _ _ _ u | DeleteSecret _ _ u => Some (u, "deploy")
  | ListAuditLog _ _ _ u => Some (u, "view_audit")
  | PostUser _ _ _ u | PatchUserRoles _ _ u | DeactivateUser _ u | ActivateUser _ u
  | ListUsers u => Some (u, "manage_users")
  | PostServer _ _ _ u | PostEnrollmentToken _ u | DeleteEnrollmentToken _ _ u | RevokeAgent _ u
  | ListEnrollmentTokens _ u =>
      Some (u, "manage_servers")
  | Login _ _ | Refresh _ _ _ | Logout _ _ _ | ChangePassword _ _ _ | Bootstrap _ _ _ _ | Enroll _
  | AgentConnect _ _ _ | AgentTraffic _ | HealthMonitorTick | MetricsCleanup _ | ControlPlaneRestart
  | ListNotifications _ | MarkNotificationRead _ _ => None
  end.

(** Every command type has a permission. *)
Lemma permission_for_run command_type w :
  permission_for command_type w = (Ok (dict_get COMMAND_TYPE_PERMISSIONS command_type EmptyString), w).
Proof. by destruct command_type. Qed.

(** The permission of a command depends on its type, so its body is read first. *)
Definition malformed_command (op : Operation) : bool :=
  match op with
  | CreateCommand _ _ _ _ key _ ttl => negb (CommandSubmitRequest key ttl)
  | _ => false
  end.

(** C24. Authorisation: a request by a user none of whose roles grants the
    permission of the operation, by name or by full access, ends with 403 (a
    malformed command with 422) and commits nothing; nothing is sent to an agent
    or to the gateway either. *)
Theorem forbidden_requests_change_nothing `{Env} `{Security} op user permission w :
  required op = Some (user, permission) →
  (∀ role, role ∈ cu_roles user →
     ¬ ("*" ∈ dict_get ROLE_PERMISSIONS role []) ∧ ¬ (permission ∈ dict_get ROLE_PERMISSIONS role [])) →
  (perform op w).1 = Raise (if malformed_command op then HTTPException HTTP_422_UNPROCESSABLE_ENTITY ""
                            else HTTPException HTTP_403_FORBIDDEN "insufficient permissions") ∧
  w_committed (perform op w).2 = w_committed w ∧ w_wire (perform op w).2 = w_wire w ∧
  w_gateway_log (perform op w).2 = w_gateway_log w.
Proof.
  intros Hreq Hno.
  assert (has_permission (cu_roles user) permission = false) as Hp.
  { apply not_true_is_false. intros (role & Hin & Hg)%has_permission_spec. destruct (Hno role Hin). naive_solver. }
  assert (∀ handler : M unit, request permission user handler w =
            (Raise (HTTPException HTTP_403_FORBIDDEN "insufficient permissions"), (rollback w).2)) as Hreject.
  { intros handler. unfold request, require_permission. by rewrite Hp. }
  destruct op; simplify_eq/=; try (rewrite Hreject; done).
  assert (create_command agent user command_type payload idempotency_key correlation_id ttl_seconds w =
            (Raise (HTTPException HTTP_403_FORBIDDEN "insufficient permissions"), w)) as Hc.
  { unfold create_command. rewrite (bind_run _ _ _ _ _ (permission_for_run command_type w)). by rewrite Hp. }
  unfold get_db, try_except, validated, mbind, st_bind.
  destruct (CommandSubmitRequest idempotency_key ttl_seconds); simpl; [by rewrite Hc|done].
Qed.

Lemma forbidden_requests_change_nothing_witness :
  let viewer := {| cu_id := 9%N; cu_email := "operator@healer.local"; cu_roles := ["Viewer"] |} in
  (perform (H:=demo_outside) (H0:=demo_security) (Scale app1 2 viewer) (demo_world (demo_db "deploy" 1))).1 =
  Raise (HTTPException HTTP_403_FORBIDDEN "insufficient permissions").
Proof.
  intros viewer. apply (forbidden_requests_change_nothing (H:=demo_outside) (H0:=demo_security) (Scale app1 2 viewer) viewer "scale");
    [reflexivity|].
  intros role Hin. apply list_elem_of_singleton in Hin as ->. split; apply (bool_decide_unpack _); vm_compute; exact I.
Defined.
