(* ===== verification/AccountProperties.v ===== *)
(** Properties of accounts, sessions and enrolment: single use of refresh and
    enrolment tokens over every history, what a refresh, an enrolment and a
    password change do, who can log in, and that an administrator cannot lock
    the administrators out. *)

From S2P Require Import Prelude Python Sha256 Uuid Enums StateMachines Schema Session Hoare Permissions.
From S2P Require Import Repositories Security Protocol Invariants CommandService AuditService AuthService.
From S2P Require Import ServerService GatewayService Scenario Requests Routes SystemProperties.
Local Open Scope Z_scope.

(** ** Handlers that leave the commit to [get_db] *)

Definition quiet {A} (m : M A) : Prop := ∀ w, w_committed (m w).2 = w_committed w.

Create HintDb quiet.

Lemma quiet_ret {A} (a : A) : quiet (mret a).
Proof. done. Qed.
Lemma quiet_raise {A} e : quiet (raise (A:=A) e).
Proof. done. Qed.
Lemma quiet_gets {A} (f : World → A) : quiet (gets f).
Proof. done. Qed.
Lemma quiet_observe {A} (f : nat → A) : quiet (observe f).
Proof. done. Qed.
Lemma quiet_now `{Env} : quiet now.
Proof. done. Qed.
Lemma quiet_flush_error {A} e : quiet (flush_error (A:=A) e).
Proof. done. Qed.

Lemma quiet_bind {A B} (m : M A) (f : A → M B) : quiet m → (∀ a, quiet (f a)) → quiet (m ≫= f).
Proof.
  intros Hm Hf w. specialize (Hm w). unfold mbind, st_bind. destruct (m w) as [[a|e] w']; simpl in *; [|done].
  by rewrite Hf.
Qed.

Lemma quiet_try_except {A} (m : M A) h : quiet m → (∀ e, quiet (h e)) → quiet (try_except m h).
Proof.
  intros Hm Hh w. specialize (Hm w). unfold try_except. destruct (m w) as [[a|e] w']; simpl in *; [done|].
  by rewrite Hh.
Qed.

Lemma quiet_for_each {A} (l : list A) body : (∀ x, quiet (body x)) → quiet (for_each l body).
Proof. intros Hb. induction l; simpl; [done|]. by apply quiet_bind. Qed.

Lemma quiet_require_active : quiet require_active.
Proof. intros w. unfold require_active, mbind, st_bind. simpl. by destruct (w_active w). Qed.

Lemma quiet_query {A} (f : DB → A) : quiet (query f).
Proof. apply quiet_bind; [apply quiet_require_active|done]. Qed.

Lemma quiet_db_modify f : quiet (db_modify f).
Proof. apply quiet_bind; [apply quiet_require_active|done]. Qed.

Lemma quiet_flush : quiet flush.
Proof. apply quiet_bind; [apply quiet_require_active|done]. Qed.

#[export] Hint Resolve quiet_ret quiet_raise quiet_gets quiet_observe quiet_now quiet_flush_error quiet_query
  quiet_db_modify quiet_flush : quiet.

Ltac quiet_auto :=
  repeat (intros; match goal with
    | |- quiet (mbind _ _) => apply quiet_bind
    | |- quiet (try_except _ _) => apply quiet_try_except
    | |- quiet (for_each _ _) => apply quiet_for_each
    | |- quiet (when ?b _) => destruct b; simpl
    | |- quiet (if ?b then _ else _) => destruct b
    | |- quiet (let '(_, _) := ?x in _) => destruct x
    | |- quiet (match ?x with _ => _ end) => destruct x
    | |- quiet _ => solve [eauto 2 with quiet]
    | |- quiet (modify _) => intros ?; reflexivity
    end).

Lemma quiet_row {R} (tbl : DB → gmap uuid R) id : quiet (row tbl id).
Proof. unfold row, session_get. quiet_auto. Qed.
#[export] Hint Resolve quiet_row : quiet.

Lemma quiet_assign {R} (tbl : DB → gmap uuid R) `{!Upd tbl} id f : quiet (assign tbl id f).
Proof. unfold assign. quiet_auto. Qed.

Lemma quiet_insert_row {R} (tbl : DB → gmap uuid R) `{!Upd tbl} r : quiet (insert_row tbl r).
Proof. unfold insert_row. quiet_auto. Qed.
#[export] Hint Resolve quiet_assign quiet_insert_row : quiet.

Lemma quiet_insert_unique {R} (tbl : DB → gmap uuid R) `{!Upd tbl} c r : quiet (insert_unique tbl c r).
Proof. unfold insert_unique. quiet_auto. Qed.
#[export] Hint Resolve quiet_insert_unique : quiet.

Lemma quiet_record `{Env} a1 a2 a3 a4 a5 : quiet (record a1 a2 a3 a4 a5).
Proof. unfold record, add_audit. quiet_auto. Qed.
#[export] Hint Resolve quiet_record : quiet.

(** A request whose handler leaves the commit to [get_db] commits all of its
    work when it answers, and nothing when it raises. *)
Lemma get_db_quiet {A} (m : M A) w :
  quiet m →
  match get_db m w with
  | (Ok a, w') => ∃ w1, m w = (Ok a, w1) ∧ w_active w1 = true ∧
                        w_committed w' = foldr delete_release (w_db w1) (w_deleted w1)
  | (Raise _, w') => w_committed w' = w_committed w
  end.
Proof.
  intros Hm. specialize (Hm w). unfold get_db, try_except, commit, flush, require_active, mbind, st_bind. simpl.
  destruct (m w) as [[a|e] w1]; simpl in *; [|done].
  destruct (w_active w1) eqn:Ha; simpl; [|done]. by exists w1.
Qed.

Lemma get_db_raise {A} (m : M A) e w :
  quiet m → (m w).1 = Raise e → ∃ w', get_db m w = (Raise e, w') ∧ w_committed w' = w_committed w.
Proof.
  intros Hm He. specialize (Hm w). unfold get_db, try_except, mbind, st_bind.
  destruct (m w) as [[a|e'] w1]; simpl in *; [done|]. injection He as ->. by eexists.
Qed.

Section accounts.
Context `{Env} `{Security}.

Lemma quiet_refresh t : quiet (refresh t).
Proof.
  unfold refresh, rotate_refresh_session, session_of_token, _revoke_all_for_user, create_refresh_session,
    insert_refresh_session, get_role_names, create_access_token, _set_session_cookies, generate_token, session_get.
  quiet_auto.
Qed.

Lemma quiet_set_roles user names : quiet (_set_roles user names).
Proof. unfold _set_roles, get_or_create, get_by_name, insert_user_role. quiet_auto. Qed.

Lemma quiet_login e p : quiet (login e p).
Proof.
  unfold login, authenticate, get_by_email, verify_password, create_refresh_session,
    insert_refresh_session, get_role_names, create_access_token, _set_session_cookies, generate_token.
  quiet_auto.
Qed.

Lemma quiet_enroll t : quiet (enroll t).
Proof.
  unfold enroll, enroll_agent, get_by_token_hash, AgentRepository_get_by_server_id, store_credential, generate_token.
  quiet_auto.
Qed.

(** ** Refresh tokens *)

(** The session of a token, when no two sessions share a hash. *)
Lemma session_of_token_run raw_token id r w :
  w_active w = true → session_hashes_unique (w_db w) →
  db_refresh_sessions (w_db w) !! id = Some r → rs_token_hash r = hash_token raw_token →
  session_of_token raw_token w = (Ok (Some (id, r)), w).
Proof.
  intros Ha HU Hr Hh. unfold session_of_token. rewrite query_run by done. do 2 f_equal.
  pose proof (first_select db_refresh_sessions (λ r, bool_decide (rs_token_hash r = hash_token raw_token)) (w_db w))
    as Hf.
  destruct (first _) as [[id' r']|].
  - destruct Hf as [Hr' Hh'%bool_decide_eq_true].
    assert (id' = id) as -> by (eapply HU; [done..|congruence]). congruence.
  - apply Hf, bool_decide_eq_false in Hr. done.
Qed.

(** What revoking a user's sessions does to a row. *)
Definition revoked_for (user : uuid) (t : Z) (r : RefreshSession) : RefreshSession :=
  if (bool_decide (rs_user_id r = user) && bool_decide (rs_revoked_at r = None))%bool
  then r <| rs_revoked_at := Some t |> else r.

(** The loop over sessions that are different. *)
Lemma revoke_loop_run t l w :
  w_active w = true → NoDup l.*1 → Forall (λ kr, db_refresh_sessions (w_db w) !! kr.1 = Some kr.2) l →
  ∃ m, for_each l (λ '(id, _), assign db_refresh_sessions id (λ r, r <| rs_revoked_at := Some t |>)) w =
       (Ok tt, w <| w_db := (w_db w) <| db_refresh_sessions := m |> |>) ∧
       ∀ k, m !! k = (λ r, if decide (k ∈ l.*1) then r <| rs_revoked_at := Some t |> else r)
                       <$> db_refresh_sessions (w_db w) !! k.
Proof.
  revert w. induction l as [|[id r] l IH]; intros w Ha Hnd Hl.
  - exists (db_refresh_sessions (w_db w)). split; [by destruct w as [[] ? ? ? ? ? ? ? ? ?]|].
    intros k. simpl. by destruct (db_refresh_sessions (w_db w) !! k).
  - apply NoDup_cons in Hnd as [Hid Hnd]. apply Forall_cons in Hl as [Hr Hl]. simpl in Hr. cbn [for_each].
    rewrite (bind_run _ _ _ _ _ (assign_run db_refresh_sessions id _ r w Ha Hr)).
    match goal with |- context [for_each l _ ?w1] => destruct (IH w1 Ha Hnd) as (m & Hrun & Hm) end.
    { apply Forall_forall. intros [k s] Hk. simpl. rewrite lookup_insert_ne.
      - by apply (Forall_forall (λ kr, db_refresh_sessions (w_db w) !! kr.1 = Some kr.2) l) with (x := (k, s)).
      - intros ->. apply Hid. apply list_elem_of_fmap. by exists (k, s). }
    exists m. rewrite Hrun. split; [done|]. intros k. rewrite Hm. simpl. destruct (decide (k = id)) as [->|Hne].
    + rewrite lookup_insert_eq, Hr. simpl. rewrite decide_False by done. by rewrite decide_True by left.
    + rewrite lookup_insert_ne by done. destruct (db_refresh_sessions (w_db w) !! k); simpl; [|done].
      destruct (decide (k ∈ l.*1)).
      * by rewrite decide_True by by right.
      * rewrite decide_False; [done|]. by intros [?|?]%elem_of_cons.
Qed.

Lemma revoke_all_run user w :
  ready w →
  _revoke_all_for_user user w =
  (Ok tt, w <| w_tick := S (w_tick w) |>
            <| w_db := (w_db w) <| db_refresh_sessions :=
                 revoked_for user (env_now (w_tick w)) <$> db_refresh_sessions (w_db w) |> |>).
Proof.
  intros Hr. unfold _revoke_all_for_user. rewrite (bind_run _ _ _ _ _ (now_run _)).
  match goal with |- (query ?f ≫= _) ?w1 = _ => rewrite (bind_run _ _ _ _ _ (query_run f w1 (proj1 Hr))) end.
  match goal with |- (for_each ?l _ ≫= _) ?w1 = _ =>
    destruct (revoke_loop_run (env_now (w_tick w)) l w1 (proj1 Hr)) as (m & Hrun & Hm) end.
  { apply select_keys_nodup. }
  { apply Forall_forall. intros [k r] Hk. by apply elem_of_select in Hk as [? _]. }
  rewrite (bind_run _ _ _ _ _ Hrun). rewrite flush_run by apply Hr. do 2 f_equal. simpl.
  assert (m = revoked_for user (env_now (w_tick w)) <$> db_refresh_sessions (w_db w)) as ->; [|done].
  apply map_eq. intros k. rewrite Hm, lookup_fmap. simpl.
  destruct (db_refresh_sessions (w_db w) !! k) as [r|] eqn:Ek; [|done]. simpl. f_equal. unfold revoked_for.
  case_decide as Hk; rewrite (select_keys db_refresh_sessions) in Hk; simpl in Hk.
  - destruct Hk as (r' & Hr' & Hp). simplify_eq. by rewrite Hp.
  - destruct (_ && _)%bool eqn:Hp; [|done]. destruct Hk. by exists r.
Qed.

(** A revoked token is refused. *)
Lemma refresh_revoked raw_token id r w :
  ready w → session_hashes_unique (w_db w) →
  db_refresh_sessions (w_db w) !! id = Some r → rs_token_hash r = hash_token raw_token → is_Some (rs_revoked_at r) →
  ∃ message, (refresh (Some raw_token) w).1 = Raise (HTTPException HTTP_401_UNAUTHORIZED message).
Proof.
  intros Hw HU Hr Hh Hrev. unfold refresh. destruct (String.eqb raw_token EmptyString); [by eexists|].
  eexists. unfold mbind at 1, st_bind at 1. unfold try_except, rotate_refresh_session.
  rewrite (bind_run _ _ _ _ _ (session_of_token_run raw_token id r w (proj1 Hw) HU Hr Hh)).
  rewrite (bind_run _ _ _ _ _ (now_run _)). rewrite bool_decide_true by done.
  match goal with |- context [(_revoke_all_for_user ?u ≫= _) ?w1] =>
    rewrite (bind_run _ _ _ _ _ (revoke_all_run u w1 Hw)) end. done.
Qed.

(** The row of a new session. *)
Definition new_session (user : uuid) (raw_token : string) (now_ : Z) : RefreshSession :=
  {| rs_user_id := user; rs_token_hash := hash_token raw_token; rs_expires_at := now_ + days refresh_token_ttl_days;
     rs_revoked_at := None |}.

Lemma create_refresh_session_run user w raw_token id w' :
  ready w → create_refresh_session user w = (Ok (raw_token, id), w') →
  ready w' ∧ db_refresh_sessions (w_db w) !! id = None ∧
  (∀ k s, db_refresh_sessions (w_db w) !! k = Some s → rs_token_hash s ≠ hash_token raw_token) ∧
  ∃ now_, w_db w' = (w_db w) <| db_refresh_sessions :=
            <[id := new_session user raw_token now_]> (db_refresh_sessions (w_db w)) |>.
Proof.
  intros Hr. unfold create_refresh_session, generate_token.
  match goal with |- context [(observe ?f ≫= _) w] =>
    rewrite (bind_run (observe f) _ w (f (w_tick w)) (w <| w_tick := S (w_tick w) |>) eq_refl) end.
  rewrite (bind_run _ _ _ _ _ (now_run _)).
  set (w1 := _ <| w_tick := S (w_tick _) |>). set (r := Build_RefreshSession _ _ _ _).
  unfold insert_refresh_session, mbind at 1, st_bind at 1. rewrite insert_unique_run by apply Hr.
  destruct (select _ _ _) as [|? ?] eqn:E; [|done].
  match goal with |- context [insert_row _ _ ?w2] =>
    destruct (insert_row_run db_refresh_sessions r w2 (proj1 Hr)) as (k & Hk & _ & ->) end.
  match goal with |- context [(flush ≫= _) ?w2] => rewrite (bind_run _ _ _ _ _ (flush_run w2 Hr)) end.
  intros [= <- <- <-]. split; [done|]. split; [done|]. split.
  - intros k' s Hs. by apply (proj1 (select_nil _ _ _) E), bool_decide_eq_false in Hs.
  - by eexists.
Qed.

(** A rotation that succeeds. *)
Lemma rotate_refresh_session_run raw_token w new_token new user w' :
  ready w → rotate_refresh_session raw_token w = (Ok (new_token, new, user), w') →
  ready w' ∧ ∃ id r u t',
    db_refresh_sessions (w_db w) !! id = Some r ∧ rs_token_hash r = hash_token raw_token ∧ rs_revoked_at r = None ∧
    env_now (w_tick w) ≤ rs_expires_at r ∧ user = rs_user_id r ∧ db_users (w_db w) !! user = Some u ∧
    user_is_active u = true ∧ db_refresh_sessions (w_db w) !! new = None ∧
    w_db w' = (w_db w) <| db_refresh_sessions :=
      <[new := new_session user new_token t']>
        (<[id := r <| rs_revoked_at := Some (env_now (w_tick w)) |>]> (db_refresh_sessions (w_db w))) |>.
Proof.
  intros Hw. unfold rotate_refresh_session, session_of_token.
  rewrite (bind_run _ _ _ _ _ (query_run _ w (proj1 Hw))).
  pose proof (first_select db_refresh_sessions (λ r, bool_decide (rs_token_hash r = hash_token raw_token)) (w_db w))
    as Hf.
  destruct (first _) as [[id r]|]; [|done]. destruct Hf as [Hr Hh%bool_decide_eq_true].
  rewrite (bind_run _ _ _ _ _ (now_run _)). case_bool_decide as Hrev.
  { match goal with |- context [(_revoke_all_for_user ?u ≫= _) ?w2] =>
      rewrite (bind_run _ _ _ _ _ (revoke_all_run u w2 Hw)) end. done. }
  destruct (Z.ltb_spec (rs_expires_at r) (env_now (w_tick w))) as [|Hexp]; [done|].
  set (w2 := w <| w_tick := S (w_tick w) |>).
  rewrite (bind_run _ _ _ _ _ (session_get_run db_users (rs_user_id r) w2 (proj1 Hw))). simpl.
  destruct (db_users (w_db w) !! rs_user_id r) as [u|] eqn:Hu; [|done].
  destruct (user_is_active u) eqn:Hactive; [|done]. simpl.
  rewrite (bind_run _ _ _ _ _ (assign_run db_refresh_sessions id _ r w2 (proj1 Hw) Hr)).
  set (w3 := w2 <| w_db := _ |>). unfold mbind at 1, st_bind at 1.
  destruct (create_refresh_session (rs_user_id r) w3) as [[[tok k]|e] w4] eqn:Hcreate; [|done].
  apply create_refresh_session_run in Hcreate as (Hw4 & Hnew & _ & t' & Hdb4); [|exact Hw].
  rewrite (bind_run _ _ _ _ _ (flush_run w4 Hw4)). intros [= <- <- <- <-]. split; [done|].
  exists id, r, u, t'. apply eq_None_not_Some in Hrev. simpl in Hnew.
  apply lookup_insert_None in Hnew as [Hnew _]. by rewrite Hdb4.
Qed.

(** ** Enrolment *)

Lemma token_of_hash_run raw_token id t w :
  w_active w = true → token_hashes_unique (w_db w) →
  db_enrollment_tokens (w_db w) !! id = Some t → et_token_hash t = hash_token raw_token →
  get_by_token_hash (hash_token raw_token) w = (Ok (Some (id, t)), w).
Proof.
  intros Ha HU Ht Hh. unfold get_by_token_hash. rewrite query_run by done. do 2 f_equal.
  pose proof (first_select db_enrollment_tokens (λ t, bool_decide (et_token_hash t = hash_token raw_token)) (w_db w))
    as Hf.
  destruct (first _) as [[id' t']|].
  - destruct Hf as [Ht' Hh'%bool_decide_eq_true].
    assert (id' = id) as -> by (eapply HU; [done..|congruence]). congruence.
  - apply Hf, bool_decide_eq_false in Ht. done.
Qed.

(** A token that was used or revoked is refused. *)
Lemma enroll_dead raw_token id t w :
  ready w → token_hashes_unique (w_db w) →
  db_enrollment_tokens (w_db w) !! id = Some t → et_token_hash t = hash_token raw_token →
  is_Some (et_used_at t) ∨ is_Some (et_revoked_at t) →
  (enroll raw_token w).1 =
    Raise (HTTPException HTTP_401_UNAUTHORIZED "invalid, expired, already-used, or revoked enrollment token").
Proof.
  intros Hw HU Ht Hh Hdead. unfold enroll. unfold mbind at 1, st_bind at 1.
  assert (∃ code, enroll_agent raw_token w = (Raise (EnrollmentError code), w <| w_tick := S (w_tick w) |>))
    as (code & Hrun).
  { unfold enroll_agent. rewrite (bind_run _ _ _ _ _ (token_of_hash_run raw_token id t w (proj1 Hw) HU Ht Hh)).
    rewrite (bind_run _ _ _ _ _ (now_run _)). case_bool_decide; [by eexists|].
    destruct Hdead as [Hu|?]; [|done]. rewrite bool_decide_true by done. by eexists. }
  unfold try_except. rewrite Hrun. unfold mbind at 1, st_bind at 1. by rewrite record_run.
Qed.

Lemma credential_free_spec self h d :
  credential_free self h d = true →
  ∀ k a, db_agents d !! k = Some a → self ≠ Some k → ag_credential_hash a ≠ Some h.
Proof.
  unfold credential_free. rewrite forallb_forall. intros Hall k a Hk Hself Ha.
  specialize (Hall (k, a)). rewrite <-list_elem_of_In, elem_of_map_to_list in Hall. specialize (Hall Hk).
  simpl in Hall. rewrite bool_decide_false in Hall by done. by rewrite bool_decide_true in Hall.
Qed.

(** A server has at most one agent. *)
Definition agents_unique (d : DB) : Prop := values_unique ag_server_id (db_agents d).

(** The agent of a server gets a credential that no agent has. *)
Lemma store_credential_run server h agent w w' :
  ready w → agents_unique (w_db w) →
  store_credential (fst <$> first (select db_agents (λ a, bool_decide (ag_server_id a = server)) (w_db w))) server h w =
    (Ok agent, w') →
  ready w' ∧ ∃ a,
    w_db w' = (w_db w) <| db_agents := <[agent := a]> (db_agents (w_db w)) |> ∧
    ag_server_id a = server ∧ ag_credential_hash a = Some h ∧
    (∀ k b, db_agents (w_db w) !! k = Some b → ag_server_id b = server → k = agent) ∧
    (∀ k b, db_agents (w_db w) !! k = Some b → k ≠ agent → ag_credential_hash b ≠ Some h).
Proof.
  intros Hw HU.
  pose proof (first_select db_agents (λ a, bool_decide (ag_server_id a = server)) (w_db w)) as Hf.
  unfold store_credential. rewrite (bind_run _ _ _ _ _ (query_run _ w (proj1 Hw))).
  destruct (credential_free _ h (w_db w)) eqn:Hfree; [|done]. simpl.
  pose proof (credential_free_spec _ _ _ Hfree) as Hno.
  destruct (first _) as [[k a]|] eqn:E; simpl in *.
  - destruct Hf as [Hk Hs%bool_decide_eq_true].
    rewrite (bind_run _ _ _ _ _ (assign_run db_agents k _ a w (proj1 Hw) Hk)). intros [= <- <-]. split; [done|].
    eexists. split; [reflexivity|]. split; [done|]. split; [done|]. split.
    + intros k' b Hb Hs'. eapply HU; [done..|congruence].
    + intros k' b Hb Hne. eapply Hno; [done|congruence].
  - rewrite (bind_run _ _ _ _ _ (now_run _)).
    match goal with |- context [insert_row _ ?a ?w1] =>
      destruct (insert_row_run db_agents a w1 (proj1 Hw)) as (k & Hk & _ & ->) end.
    intros [= <- <-]. split; [done|]. eexists. split; [reflexivity|]. split; [done|]. split; [done|]. split.
    + intros k' b Hb Hs. apply Hf, bool_decide_eq_false in Hb. done.
    + intros k' b Hb _. by eapply Hno.
Qed.

(** An enrolment that succeeds. *)
Lemma enroll_agent_run raw_token w agent raw_credential w' :
  ready w → agents_unique (w_db w) → enroll_agent raw_token w = (Ok (agent, raw_credential), w') →
  ready w' ∧ ∃ id t a,
    db_enrollment_tokens (w_db w) !! id = Some t ∧ et_token_hash t = hash_token raw_token ∧
    et_revoked_at t = None ∧ et_used_at t = None ∧ env_now (w_tick w) ≤ et_expires_at t ∧
    w_db w' = (w_db w)
      <| db_enrollment_tokens :=
           <[id := t <| et_used_at := Some (env_now (w_tick w)) |>]> (db_enrollment_tokens (w_db w)) |>
      <| db_agents := <[agent := a]> (db_agents (w_db w)) |> ∧
    ag_server_id a = et_server_id t ∧ ag_credential_hash a = Some (hash_token raw_credential) ∧
    (∀ k b, db_agents (w_db w) !! k = Some b → ag_server_id b = et_server_id t → k = agent) ∧
    (∀ k b, db_agents (w_db w) !! k = Some b → k ≠ agent → ag_credential_hash b ≠ Some (hash_token raw_credential)).
Proof.
  intros Hw HU. unfold enroll_agent, get_by_token_hash. rewrite (bind_run _ _ _ _ _ (query_run _ w (proj1 Hw))).
  pose proof (first_select db_enrollment_tokens (λ t, bool_decide (et_token_hash t = hash_token raw_token)) (w_db w))
    as Hf.
  destruct (first _) as [[id t]|]; [|done]. destruct Hf as [Ht Hh%bool_decide_eq_true].
  rewrite (bind_run _ _ _ _ _ (now_run _)). case_bool_decide as Hrev; [done|]. case_bool_decide as Hused; [done|].
  destruct (Z.ltb_spec (et_expires_at t) (env_now (w_tick w))) as [|Hexp]; [done|].
  match goal with |- context [(assign _ _ _ ≫= _) ?w1] =>
    rewrite (bind_run _ _ _ _ _ (assign_run db_enrollment_tokens id _ t w1 (proj1 Hw) Ht)) end.
  unfold AgentRepository_get_by_server_id.
  match goal with |- context [(query _ ≫= _) ?w2] =>
    rewrite (bind_run _ _ _ _ _ (query_run _ w2 (proj1 Hw))) end.
  unfold generate_token. unfold mbind at 1, st_bind at 1. simpl. unfold mbind at 1, st_bind at 1.
  match goal with |- context [store_credential ?s ?srv ?h ?w3] =>
    destruct (store_credential s srv h w3) as [[k|e] w4] eqn:Hst; [|done];
    apply (store_credential_run srv h k w3 w4 Hw HU) in Hst as (Hw4 & a & Hdb & ? & ? & ? & ?) end.
  rewrite (bind_run _ _ _ _ _ (flush_run w4 Hw4)). intros [= <- <- <-]. split; [done|].
  apply eq_None_not_Some in Hrev, Hused. exists id, t, a. by rewrite Hdb.
Qed.

(** ** Passwords and roles *)

(** A password as bcrypt sees it. *)
Definition password_bytes (password : string) : list Z := take _BCRYPT_MAX_BYTES (utf8 password).

Lemma verify_password_run password stored w :
  verify_password password stored w =
  match bcrypt_checkpw (password_bytes password) stored with
  | Some ok => (Ok ok, w)
  | None => (Raise (ValueError "Invalid salt"), w)
  end.
Proof. unfold verify_password, password_bytes. by destruct (bcrypt_checkpw _ _). Qed.

Lemma authenticate_run email password user w w' :
  ready w → authenticate email password w = (Ok user, w') →
  w' = w ∧ ∃ u, db_users (w_db w) !! user = Some u ∧ user_email u = lower (strip email) ∧ user_is_active u = true ∧
    bcrypt_checkpw (password_bytes password) (user_password_hash u) = Some true.
Proof.
  intros Hw. unfold authenticate, get_by_email. rewrite (bind_run _ _ _ _ _ (query_run _ w (proj1 Hw))).
  pose proof (first_select db_users (λ u, bool_decide (user_email u = lower (strip email))) (w_db w)) as Hf.
  destruct (first _) as [[id u]|]; [|done]. destruct Hf as [Hu Hmail%bool_decide_eq_true].
  destruct (user_is_active u) eqn:Ha; [|done]. simpl. unfold mbind at 1, st_bind at 1. rewrite verify_password_run.
  destruct (bcrypt_checkpw _ _) as [[]|] eqn:Hcheck; simpl; [|done..]. intros [= <- <-]. split; [done|]. by exists u.
Qed.

Lemma change_password_run user u current_password new_password w :
  ready w → db_users (w_db w) !! user = Some u →
  match change_password user current_password new_password w with
  | (Ok _, w') =>
      bcrypt_checkpw (password_bytes current_password) (user_password_hash u) = Some true ∧ ready w' ∧
      w_db w' = (w_db w)
        <| db_users := <[user := u <| user_password_hash := bcrypt_hashpw (w_tick w) (password_bytes new_password) |>]>
             (db_users (w_db w)) |>
        <| db_refresh_sessions := revoked_for user (env_now (S (w_tick w))) <$> db_refresh_sessions (w_db w) |>
  | (Raise _, w') => w' = w
  end.
Proof.
  intros Hw Hu. unfold change_password. rewrite (bind_run _ _ _ _ _ (row_run db_users user u w (proj1 Hw) Hu)).
  unfold mbind at 1, st_bind at 1. rewrite verify_password_run.
  destruct (bcrypt_checkpw _ _) as [[]|] eqn:Hcheck; simpl; [|done..].
  unfold hash_password. unfold mbind at 1, st_bind at 1. simpl.
  match goal with |- context [(assign _ _ _ ≫= _) ?w1] =>
    rewrite (bind_run _ _ _ _ _ (assign_run db_users user _ u w1 (proj1 Hw) Hu)) end.
  match goal with |- context [(_revoke_all_for_user ?x ≫= _) ?w2] =>
    rewrite (bind_run _ _ _ _ _ (revoke_all_run x w2 Hw)) end.
  by rewrite commit_run.
Qed.

(** Every role assignment names a role. *)
Definition roles_exist (d : DB) : Prop := ∀ x, x ∈ db_user_roles d → is_Some (db_roles d !! ur_role_id x).

(** The name of a role. *)
Definition names_role (roles : gmap uuid Role) (id : uuid) (name : string) : Prop :=
  role_name <$> roles !! id = Some name.

Lemma get_or_create_run name w :
  ready w →
  ∃ id roles w', get_or_create name w = (Ok id, w') ∧ ready w' ∧ w_committed w' = w_committed w ∧
    w_db w' = (w_db w) <| db_roles := roles |> ∧ db_roles (w_db w) ⊆ roles ∧ names_role roles id name.
Proof.
  intros Hw. unfold get_or_create, get_by_name. rewrite (bind_run _ _ _ _ _ (query_run _ w (proj1 Hw))).
  pose proof (first_select db_roles (λ r, bool_decide (role_name r = name)) (w_db w)) as Hf.
  destruct (first _) as [[id r]|].
  - destruct Hf as [Hr Hn%bool_decide_eq_true]. exists id, (db_roles (w_db w)), w. split; [done|]. split; [done|].
    split; [done|]. split; [by destruct (w_db w)|]. split; [done|]. unfold names_role. by rewrite Hr, <-Hn.
  - destruct (insert_row_run db_roles {| role_name := name |} w (proj1 Hw)) as (id & Hid & _ & Hrun).
    eexists id, _, _. split; [exact Hrun|]. split; [done|]. split; [done|]. split; [done|]. simpl.
    split; [by apply insert_subseteq|]. unfold names_role. by rewrite lookup_insert_eq.
Qed.

(** The loop of [_set_roles], when it ends well. *)
Lemma assign_roles_run user names w w' :
  ready w → for_each names (λ name, role ← get_or_create name; insert_user_role user role) w = (Ok tt, w') →
  ready w' ∧ w_committed w' = w_committed w ∧ ∃ roles ids,
    w_db w' = (w_db w) <| db_roles := roles |>
      <| db_user_roles := db_user_roles (w_db w) ++ map (Build_UserRole user) ids |> ∧
    db_roles (w_db w) ⊆ roles ∧ Forall2 (names_role roles) ids names.
Proof.
  revert w. induction names as [|name names IH]; intros w Hw; cbn [for_each].
  - intros [= <-]. split; [done|]. split; [done|]. exists (db_roles (w_db w)), []. simpl. rewrite app_nil_r.
    split; [by destruct (w_db w)|done].
  - destruct (get_or_create_run name w Hw) as (id & roles & w1 & Hrun & Hw1 & Hc1 & Hdb1 & Hsub & Hname).
    unfold mbind at 1, st_bind at 1. rewrite (bind_run _ _ _ _ _ Hrun). unfold insert_user_role.
    rewrite (bind_run _ _ _ _ _ (query_run _ w1 (proj1 Hw1))). destruct (existsb _ _); [done|].
    rewrite db_modify_run by apply Hw1. intros Hloop.
    apply IH in Hloop as (Hw' & Hc' & roles' & ids & Hdb' & Hsub' & Hnames); [|exact Hw1].
    split; [done|]. split; [by rewrite Hc'|]. exists roles', (id :: ids). simpl in Hdb', Hsub'. rewrite Hdb1 in Hdb', Hsub'.
    simpl in Hdb', Hsub'. split; [by rewrite Hdb', <-app_assoc|]. split; [by etrans|]. constructor; [|done].
    unfold names_role in *. destruct (roles !! id) as [r|] eqn:Er; [|done].
    by rewrite (lookup_weaken _ _ _ _ Er Hsub').
Qed.

Lemma role_names_app user d roles l1 l2 :
  role_names user (d <| db_roles := roles |> <| db_user_roles := l1 ++ l2 |>) =
  role_names user (d <| db_roles := roles |> <| db_user_roles := l1 |>) ++
  role_names user (d <| db_roles := roles |> <| db_user_roles := l2 |>).
Proof. unfold role_names. simpl. by rewrite omap_app. Qed.

Lemma role_names_own user d roles ids names :
  Forall2 (names_role roles) ids names →
  role_names user (d <| db_roles := roles |> <| db_user_roles := map (Build_UserRole user) ids |>) = names.
Proof.
  unfold role_names. simpl. induction 1 as [|id name ids names Hn _ IH]; [done|]. simpl.
  rewrite decide_True by done. unfold names_role in Hn. rewrite Hn. f_equal. exact IH.
Qed.

Lemma role_names_foreign user other d roles ids :
  other ≠ user →
  role_names other (d <| db_roles := roles |> <| db_user_roles := map (Build_UserRole user) ids |>) = [].
Proof.
  intros Hne. unfold role_names. simpl. induction ids as [|id ids IH]; [done|]. simpl. by rewrite decide_False.
Qed.

(** The rows that [_set_roles] leaves, read with the roles it leaves. *)
Lemma role_names_kept user other d roles :
  roles_exist d → db_roles d ⊆ roles →
  role_names other (d <| db_roles := roles |>
    <| db_user_roles := List.filter (λ x, negb (bool_decide (ur_user_id x = user))) (db_user_roles d) |>) =
  if decide (other = user) then [] else role_names other d.
Proof.
  intros Hex Hsub. unfold role_names, omap. simpl. unfold roles_exist in Hex.
  induction (db_user_roles d) as [|x l IH]; simpl; [by case_decide|].
  assert (∀ y, y ∈ l → is_Some (db_roles d !! ur_role_id y)) as Hl by (intros y Hy; apply Hex; by right).
  specialize (IH Hl). destruct (Hex x) as [r Hr]; [by left|].
  case_bool_decide as Hx; simpl; rewrite IH; clear IH.
  - case_decide as E; [done|]. rewrite decide_False by congruence. done.
  - rewrite (lookup_weaken _ _ _ _ Hr Hsub), Hr. case_decide as E; case_decide as E'; simplify_eq/=; done.
Qed.

(** [_set_roles], when it ends well. *)
Lemma set_roles_run user names w w' :
  ready w → roles_exist (w_db w) → _set_roles user names w = (Ok tt, w') →
  ready w' ∧ w_committed w' = w_committed w ∧ db_users (w_db w') = db_users (w_db w) ∧
  ∀ other, role_names other (w_db w') = if decide (other = user) then names else role_names other (w_db w).
Proof.
  intros Hw Hex. unfold _set_roles. rewrite (bind_run _ _ _ _ _ (db_modify_run _ w (proj1 Hw))).
  match goal with |- context [(flush ≫= _) ?w1] => rewrite (bind_run _ _ _ _ _ (flush_run w1 Hw)) end.
  unfold mbind at 1, st_bind at 1.
  match goal with |- context [for_each names ?body ?w1] => destruct (for_each names body w1) as [[[]|e] w2] eqn:E end;
    [|done].
  apply assign_roles_run in E as (Hw2 & Hc2 & roles & ids & Hdb2 & Hsub & Hnames); [|exact Hw].
  rewrite flush_run by done. intros [= <-]. split; [done|]. split; [done|]. rewrite Hdb2. split; [done|].
  intros other. simpl in Hdb2, Hsub |- *.
  change (role_names other ((w_db w) <| db_roles := roles |> <| db_user_roles :=
    List.filter (λ x, negb (bool_decide (ur_user_id x = user))) (db_user_roles (w_db w)) ++
    map (Build_UserRole user) ids |>) = if decide (other = user) then names else role_names other (w_db w)).
  rewrite role_names_app, role_names_kept by done. case_decide as Ho.
  - subst other. simpl. by apply role_names_own.
  - rewrite role_names_foreign by done. by rewrite app_nil_r.
Qed.

Lemma validate_role_names_run names w :
  match _validate_role_names names w with
  | (Ok _, w') => w' = w ∧ names ≠ [] ∧ ∀ n, n ∈ names → n ∈ VALID_ROLE_NAMES
  | (Raise _, w') => w' = w
  end.
Proof.
  unfold _validate_role_names. destruct names as [|n names]; [done|]. set (l := n :: names).
  destruct (sorted_set _) as [|x unknown] eqn:E; [|done]. split; [done|]. split; [done|].
  intros m Hm. destruct (decide (m ∈ VALID_ROLE_NAMES)) as [|Hno]; [done|]. exfalso.
  assert (m ∈ sorted_set (List.filter (λ n, negb (bool_decide (n ∈ VALID_ROLE_NAMES))) l)) as Hin.
  { unfold sorted_set. rewrite sort_by_permutation. apply elem_of_remove_dups, list_elem_of_In, filter_In.
    split; [by apply list_elem_of_In|]. by rewrite bool_decide_false. }
  rewrite E in Hin. by apply elem_of_nil in Hin.
Qed.

(** Changing roles over HTTP: all or nothing, and exact. *)
Lemma patch_user_roles_run target roles user w :
  ready w → w_committed w = w_db w → roles_exist (w_db w) →
  match get_db (patch_user_roles target roles user) w with
  | (Ok _, w') =>
      roles ≠ [] ∧ (∀ n, n ∈ roles → n ∈ VALID_ROLE_NAMES) ∧ (target = cu_id user → "Administrator" ∈ roles) ∧
      db_users (w_committed w') = db_users (w_db w) ∧
      ∀ other, role_names other (w_committed w') = if decide (other = target) then roles else role_names other (w_db w)
  | (Raise _, w') => w_committed w' = w_committed w
  end.
Proof.
  intros Hw Hc Hex. unfold get_db at 1, try_except at 1, patch_user_roles, get_user.
  unfold mbind at 1, st_bind at 1. rewrite (bind_run _ _ _ _ _ (session_get_run db_users target w (proj1 Hw))).
  destruct (db_users (w_db w) !! target) as [u|]; [|done].
  destruct (_ && _)%bool eqn:Hself; [done|].
  assert (target = cu_id user → "Administrator" ∈ roles) as Hadm.
  { intros ->. rewrite bool_decide_true in Hself by done. simpl in Hself.
    by apply negb_false_iff, bool_decide_eq_true in Hself. }
  pose proof (validate_role_names_run roles w) as Hval.
  unfold or_409, set_user_roles. unfold mbind at 1, st_bind at 1. unfold try_except. unfold mbind at 1, st_bind at 1.
  destruct (_validate_role_names roles w) as [[[]|e] w1]; [|by subst; destruct e].
  destruct Hval as (-> & Hne & Hvalid). unfold mbind at 1, st_bind at 1.
  destruct (_set_roles target roles w) as [[[]|e] w2] eqn:Hset.
  2: { assert (w_committed w2 = w_committed w) as Hq.
       { change w2 with (Raise (A:=unit) e, w2).2. rewrite <-Hset. apply quiet_set_roles. }
       destruct e; exact Hq. }
  apply set_roles_run in Hset as (Hw2 & Hc2 & Hu2 & Hnames); [|done..].
  rewrite commit_run by done.
  match goal with |- context [record ?a ?b ?c ?d ?e ?w3] => rewrite (record_run a b c d e w3 Hw2) end.
  unfold mbind at 1, st_bind at 1. match goal with |- context [commit ?w4] => rewrite (commit_run w4 Hw2) end. done.
Qed.

(** ** Administrators *)

Definition active_admin (user : uuid) (d : DB) : Prop :=
  (∃ u, db_users d !! user = Some u ∧ user_is_active u = true) ∧ "Administrator" ∈ role_names user d.

Section admin.
Context (admin : uuid).
Let I := strict (active_admin admin).

Lemma admin_assign_user id f :
  (id = admin → ∀ u, user_is_active u = true → user_is_active (f u) = true) → keeps I (assign db_users id f).
Proof.
  intros Hf. apply hoare_assign. intros d u ((v & Hv & Hact) & Hadm) Hu. split; [|exact Hadm]. simpl.
  destruct (decide (id = admin)) as [->|Hne].
  - exists (f u). rewrite lookup_insert_eq. simplify_eq. split; [done|by apply Hf].
  - exists v. by rewrite lookup_insert_ne.
Qed.

Lemma admin_db_modify_others f :
  (∀ d, db_users (f d) = db_users d ∧ db_roles (f d) = db_roles d ∧ db_user_roles (f d) = db_user_roles d) →
  keeps I (db_modify f).
Proof.
  intros Hf. apply hoare_db_modify. intros d [Hu Hr]. destruct (Hf d) as (E1 & E2 & E3). split; [by rewrite E1|].
  unfold role_names in *. by rewrite E2, E3.
Qed.

Lemma admin_assign_sessions id f : keeps I (assign db_refresh_sessions id f).
Proof. apply hoare_assign. intros d r Hd _. exact Hd. Qed.

Lemma admin_record a1 a2 a3 a4 a5 : keeps I (record a1 a2 a3 a4 a5).
Proof.
  unfold record, add_audit. apply keeps_bind; [apply keeps_now|]. intros t.
  apply keeps_bind; [by apply admin_db_modify_others|]. intros _. apply keeps_flush.
Qed.

Lemma admin_role_names d d' :
  (∀ x, x ∈ db_user_roles d → ur_user_id x = admin → x ∈ db_user_roles d') → db_roles d ⊆ db_roles d' →
  "Administrator" ∈ role_names admin d → "Administrator" ∈ role_names admin d'.
Proof.
  intros Hrows Hsub. unfold role_names. rewrite !list_elem_of_omap. intros (x & Hx & Hn).
  destruct (decide (ur_user_id x = admin)) as [E|]; [|done]. exists x. split; [by apply Hrows|].
  rewrite decide_True by done. destruct (db_roles d !! ur_role_id x) as [r|] eqn:Er; [|done].
  by rewrite (lookup_weaken _ _ _ _ Er Hsub).
Qed.

Lemma admin_set_roles user names : user ≠ admin → keeps I (_set_roles user names).
Proof.
  intros Hne. unfold _set_roles, get_or_create, get_by_name, insert_user_role.
  apply keeps_bind.
  { apply hoare_db_modify. intros d [Hu Hr]. split; [exact Hu|]. revert Hr. apply admin_role_names; [|done]. simpl.
    intros x Hx Ho. apply list_elem_of_In, filter_In. split; [by apply list_elem_of_In|].
    by rewrite bool_decide_false by congruence. }
  intros _. apply keeps_bind; [apply keeps_flush|]. intros _. apply keeps_bind; [|intros _; apply keeps_flush].
  apply keeps_for_each. intros name _. apply keeps_bind.
  - apply keeps_bind; [keeps_step|]. intros [[id r]|]; [by apply hoare_ret|].
    eapply hoare_keeps, hoare_insert_row. intros d id [Hu Hr] Hid. split; [exact Hu|]. revert Hr.
    apply admin_role_names; [done|]. by apply insert_subseteq.
  - intros role. apply keeps_bind; [keeps_step|]. intros []; [apply hoare_flush_error|].
    apply hoare_db_modify. intros d [Hu Hr]. split; [exact Hu|]. revert Hr. apply admin_role_names; [|done].
    simpl. intros x Hx _. apply elem_of_app. by left.
Qed.

Lemma admin_post_user email password roles user : keeps I (post_user email password roles user).
Proof.
  pose proof admin_record. unfold post_user, or_409, create_user, get_by_email. apply keeps_bind.
  2: { intros id. keeps_auto. }
  apply hoare_try_except; [|intros e; keeps_auto]. apply keeps_bind; [unfold _validate_role_names; keeps_auto|].
  intros _. apply keeps_bind; [keeps_step|]. intros [?|]; [apply hoare_raise|].
  apply keeps_bind; [keeps_step|]. intros h. apply keeps_bind; [keeps_step|]. intros t. unfold insert_user, insert_unique.
  apply (hoare_bind I _ _ (λ id, id ≠ admin)).
  - apply keeps_bind; [unfold text_value; keeps_auto|]. intros _.
    apply keeps_bind; [keeps_step|]. intros [|? ?]; [|apply hoare_flush_error].
    eapply hoare_weaken; [apply hoare_insert_row|].
    + intros d id ((v & Hv & Hact) & Hr) Hid. split; [|exact Hr]. exists v. simpl.
      rewrite lookup_insert_ne; [done|congruence].
    + intros id (d & ((v & Hv & _) & _) & Hid) ->. congruence.
  - intros id Hne. pose proof (admin_set_roles id roles Hne). keeps_auto.
Qed.

Lemma admin_change_password user c n : keeps I (change_password_route user c n).
Proof.
  pose proof admin_record. pose proof admin_assign_sessions.
  unfold change_password_route, change_password, _revoke_all_for_user. keeps_auto.
  by apply admin_assign_user.
Qed.

End admin.

End accounts.

(** C27. A refresh token dies with its session: once it was rotated, revoked by a
    logout or by a password change, no later request with it succeeds, whatever
    operations happened in between; the request ends with 401 and commits nothing.
    (Clearing revoked_at on the administration page is no operation, and revives
    the session.) *)
Theorem revoked_refresh_tokens_stay_dead `{Env} `{Security} ops d id r raw_token w :
  session_hashes_unique d → db_refresh_sessions d !! id = Some r → rs_token_hash r = hash_token raw_token →
  is_Some (rs_revoked_at r) →
  ready w → w_db w = committed_after ops d →
  ∃ message w', get_db (refresh (Some raw_token)) w = (Raise (HTTPException HTTP_401_UNAUTHORIZED message), w') ∧
    w_committed w' = w_committed w.
Proof.
  intros HU Hr Hh Hrev Hw Hdb. pose proof (committed_reach ops d) as Hreach.
  assert (sessions_evolve d (w_db w)) as Hev.
  { rewrite Hdb. apply (kept_reach (sessions_evolve d) d); [done|]. intros k s Hs. by exists s. }
  destruct (Hev id r Hr) as (s & Hs & Es & Hrev').
  destruct (refresh_revoked raw_token id s w) as (message & Hrun).
  - done.
  - rewrite Hdb. by apply (kept_reach session_hashes_unique d).
  - done.
  - by rewrite Es.
  - by apply Hrev'.
  - exists message. by apply get_db_raise; [apply quiet_refresh|].
Qed.

(** C28. A refresh rotates the session: it succeeds only with the token of a
    session that is neither revoked nor expired, of a user who is active; it
    then revokes exactly that session, adds exactly one for the same user, and
    hands out the new token. A refresh that fails commits nothing. *)
Theorem refresh_rotates `{Env} `{Security} raw_token w :
  ready w →
  match get_db (refresh (Some raw_token)) w with
  | (Ok (out, cookies), w') =>
      ∃ id r u new new_token t',
        db_refresh_sessions (w_db w) !! id = Some r ∧ rs_token_hash r = hash_token raw_token ∧
        rs_revoked_at r = None ∧ env_now (w_tick w) ≤ rs_expires_at r ∧
        uo_id out = rs_user_id r ∧ db_users (w_db w) !! rs_user_id r = Some u ∧ user_is_active u = true ∧
        db_refresh_sessions (w_db w) !! new = None ∧
        set_cookie REFRESH_COOKIE_NAME new_token (refresh_token_ttl_days * 24 * 3600) true "/auth" ∈ cookies ∧
        w_committed w' = (w_db w) <| db_refresh_sessions :=
          <[new := new_session (rs_user_id r) new_token t']>
            (<[id := r <| rs_revoked_at := Some (env_now (w_tick w)) |>]> (db_refresh_sessions (w_db w))) |>
  | (Raise _, w') => w_committed w' = w_committed w
  end.
Proof.
  intros Hw. pose proof (get_db_quiet (refresh (Some raw_token)) w (quiet_refresh _)) as Hq.
  destruct (get_db (refresh (Some raw_token)) w) as [[[out cookies]|e] w']; [|done].
  destruct Hq as (w1 & Hrun & Hact & ->). revert Hrun. unfold refresh.
  destruct (String.eqb raw_token EmptyString); [done|]. unfold mbind at 1, st_bind at 1. unfold try_except.
  destruct (rotate_refresh_session raw_token w) as [[[[new_token new] user]|e] w2] eqn:Hrot; [|by destruct e].
  apply rotate_refresh_session_run in Hrot as (Hw2 & id & r & u & t' & ? & ? & ? & ? & -> & Hu & ? & ? & Hdb);
    [|done].
  unfold get_role_names. rewrite (bind_run _ _ _ _ _ (query_run _ w2 (proj1 Hw2))).
  unfold create_access_token, _set_session_cookies, generate_token. unfold mbind at 1, st_bind at 1. simpl.
  unfold mbind at 1, st_bind at 1. simpl.
  match goal with |- context [(row _ _ ≫= _) ?w3] => rewrite (bind_run _ _ _ _ _ (row_run db_users _ u w3 (proj1 Hw2)
    ltac:(simpl; by rewrite Hdb))) end.
  intros [= <- <- <-]. simpl. rewrite (proj2 Hw2). simpl. exists id, r, u, new, new_token, t'.
  repeat (split; [done|]). split; [|done]. apply elem_of_cons. right. apply elem_of_cons. by left.
Qed.

(** C29. An enrolment token works once: after it was used or revoked, no later
    enrolment with it succeeds, whatever operations happened in between; the
    request ends with 401 and commits nothing. (Clearing used_at or revoked_at on
    the administration page is no operation, and revives the token.) *)
Theorem spent_enrollment_tokens_stay_dead `{Env} `{Security} ops d id t raw_token w :
  token_hashes_unique d → db_enrollment_tokens d !! id = Some t → et_token_hash t = hash_token raw_token →
  is_Some (et_used_at t) ∨ is_Some (et_revoked_at t) →
  ready w → w_db w = committed_after ops d →
  ∃ w', get_db (enroll raw_token) w =
      (Raise (HTTPException HTTP_401_UNAUTHORIZED "invalid, expired, already-used, or revoked enrollment token"), w') ∧
    w_committed w' = w_committed w.
Proof.
  intros HU Ht Hh Hdead Hw Hdb. pose proof (committed_reach ops d) as Hreach.
  assert (tokens_evolve d (w_db w)) as Hev.
  { rewrite Hdb. apply (kept_reach (tokens_evolve d) d); [done|]. intros k u Hu. by exists u. }
  destruct (Hev id t Ht) as (u & Hu & Eu & Hused & Hrev).
  apply get_db_raise; [apply quiet_enroll|]. apply (enroll_dead raw_token id u).
  - done.
  - rewrite Hdb. by apply (kept_reach token_hashes_unique d).
  - done.
  - by rewrite Eu.
  - naive_solver.
Qed.

(** Enrolment: it succeeds only with a token that is neither revoked, used nor
    expired. It then marks the token as used and gives the token's server an
    agent with the new credential: the agent the server already had, whose old
    credential stops working, or a new one. No other agent changes, no other
    agent has that credential, and the server still has one agent. An enrolment
    that fails commits nothing. *)
Theorem enroll_correct `{Env} `{Security} raw_token w :
  ready w → agents_unique (w_db w) →
  match get_db (enroll raw_token) w with
  | (Ok (agent, raw_credential), w') =>
      ∃ id t a,
        db_enrollment_tokens (w_db w) !! id = Some t ∧ et_token_hash t = hash_token raw_token ∧
        et_revoked_at t = None ∧ et_used_at t = None ∧ env_now (w_tick w) ≤ et_expires_at t ∧
        db_enrollment_tokens (w_committed w') =
          <[id := t <| et_used_at := Some (env_now (w_tick w)) |>]> (db_enrollment_tokens (w_db w)) ∧
        db_agents (w_committed w') = <[agent := a]> (db_agents (w_db w)) ∧
        ag_server_id a = et_server_id t ∧ ag_credential_hash a = Some (hash_token raw_credential) ∧
        (∀ k b, db_agents (w_committed w') !! k = Some b →
           ag_server_id b = et_server_id t ∨ ag_credential_hash b = Some (hash_token raw_credential) → k = agent)
  | (Raise _, w') => w_committed w' = w_committed w
  end.
Proof.
  intros Hw HU. pose proof (get_db_quiet (enroll raw_token) w (quiet_enroll _)) as Hq.
  destruct (get_db (enroll raw_token) w) as [[[agent cred]|e] w']; [|done].
  destruct Hq as (w1 & Hrun & Hact & ->). revert Hrun. unfold enroll, mbind at 1, st_bind at 1, try_except.
  destruct (enroll_agent raw_token w) as [[[agent' cred']|e] w2] eqn:Henr.
  2: { destruct e; try done. unfold mbind at 1, st_bind at 1. by destruct (record _ _ _ _ _ w2) as [[]]. }
  apply enroll_agent_run in Henr as (Hw2 & id & t & a & ? & ? & ? & ? & ? & Hdb & ? & Hcred & Hsrv & Hno); [|done..].
  rewrite (bind_run _ _ _ _ _ (row_run db_agents agent' a w2 (proj1 Hw2)
    ltac:(rewrite Hdb; simpl; apply lookup_insert_eq))).
  rewrite (bind_run _ _ _ _ _ (record_run _ _ _ _ _ w2 Hw2)). intros [= <- <- <-]. simpl.
  rewrite (proj2 Hw2). simpl. rewrite Hdb. simpl. exists id, t, a. repeat (split; [done|]).
  intros k b [[<- <-]|[Hne Hk]]%lookup_insert_Some Hor; [done|].
  destruct Hor as [Hs|Hc]; [by eapply Hsrv|]. by destruct (Hno k b Hk (not_eq_sym Hne)).
Qed.

(** Changing a password needs the current one. It stores the new hash,
    revokes every session of that user and no other, and changes no other user;
    with a wrong password nothing is committed. *)
Theorem change_password_revokes_sessions `{Env} `{Security} user current_password new_password w :
  ready w → w_committed w = w_db w →
  match get_db (change_password_route user current_password new_password) w with
  | (Ok _, w') =>
      ∃ u, db_users (w_db w) !! cu_id user = Some u ∧
        bcrypt_checkpw (password_bytes current_password) (user_password_hash u) = Some true ∧
        db_users (w_committed w') =
          <[cu_id user := u <| user_password_hash := bcrypt_hashpw (w_tick w) (password_bytes new_password) |>]>
            (db_users (w_db w)) ∧
        ∀ id r, db_refresh_sessions (w_committed w') !! id = Some r →
          if decide (rs_user_id r = cu_id user) then is_Some (rs_revoked_at r)
          else db_refresh_sessions (w_db w) !! id = Some r
  | (Raise _, w') => w_committed w' = w_committed w
  end.
Proof.
  intros Hw Hc. unfold get_db at 1, try_except at 1, change_password_route.
  unfold mbind at 1, st_bind at 1.
  rewrite (bind_run _ _ _ _ _ (session_get_run db_users (cu_id user) w (proj1 Hw))).
  destruct (db_users (w_db w) !! cu_id user) as [u|] eqn:Hu; [|done].
  pose proof (change_password_run (cu_id user) u current_password new_password w Hw Hu) as Hrun.
  unfold mbind at 1, st_bind at 1. unfold try_except.
  destruct (change_password (cu_id user) current_password new_password w) as [[a|e] w1]; [|by subst; destruct e].
  destruct Hrun as (Hcheck & Hw1 & Hdb1).
  rewrite (bind_run _ _ _ _ _ (record_run _ _ _ _ _ w1 Hw1)).
  unfold mbind at 1, st_bind at 1. simpl.
  match goal with |- context [commit ?w2] => rewrite (commit_run w2 Hw1) end. simpl.
  rewrite Hdb1. simpl. exists u. split; [done|]. split; [done|]. split; [done|].
  intros id r Hr. apply lookup_fmap_Some in Hr as (s & <- & Hs). unfold revoked_for.
  destruct (decide (rs_user_id s = cu_id user)) as [Hown|Hother].
  - rewrite bool_decide_true by done. simpl. destruct (rs_revoked_at s) as [x|] eqn:Ex; simpl; [|by rewrite decide_True].
    rewrite decide_True by done. by rewrite Ex.
  - rewrite bool_decide_false by done. simpl. by rewrite decide_False.
Qed.

(** Role assignment is exact: afterwards the user has exactly the roles that
    were asked for, each a known one, and every other user has the roles it had
    before; nobody takes the Administrator role from themselves. A request that
    is refused commits nothing. *)
Theorem assigned_roles_are_exact `{Env} `{Security} target roles user w :
  ready w → w_committed w = w_db w → roles_exist (w_db w) →
  match get_db (patch_user_roles target roles user) w with
  | (Ok _, w') =>
      roles ≠ [] ∧ (∀ n, n ∈ roles → n ∈ VALID_ROLE_NAMES) ∧ (target = cu_id user → "Administrator" ∈ roles) ∧
      ∀ other, role_names other (w_committed w') = if decide (other = target) then roles else role_names other (w_db w)
  | (Raise _, w') => w_committed w' = w_committed w
  end.
Proof.
  intros Hw Hc Hex. pose proof (patch_user_roles_run target roles user w Hw Hc Hex) as Hrun.
  destruct (get_db _ w) as [[]]; naive_solver.
Qed.

(** The requests that change accounts, by the given user. *)
Definition account_request (user : CurrentUser) (op : Operation) : Prop :=
  match op with
  | PostUser _ _ _ u | PatchUserRoles _ _ u | DeactivateUser _ u | ActivateUser _ u | ChangePassword u _ _ => u = user
  | _ => False
  end.

(** C31. An administrator cannot lock the administrators out: whatever an active
    administrator does to accounts - their own or others', by creating users,
    changing roles, activating, deactivating or changing the password - the
    account they act with is an active administrator afterwards. *)
Theorem administrators_stay `{Env} `{Security} op user w :
  account_request user op → ready w → w_committed w = w_db w → roles_exist (w_db w) →
  active_admin (cu_id user) (w_db w) →
  active_admin (cu_id user) (w_committed (perform op w).2).
Proof.
  intros Hop Hw Hc Hex Hadm.
  assert (inv (strict (active_admin (cu_id user))) w) as Hinv by (apply inv_strict; rewrite Hc; by destruct Hw).
  assert (∀ handler : M unit, keeps (strict (active_admin (cu_id user))) handler →
            active_admin (cu_id user) (w_committed (get_db handler w).2)) as Hkeep.
  { intros handler Hh. destruct (keeps_get_db _ handler Hh w Hinv) as [Hi _]. by apply inv_strict in Hi as (_ & ? & _). }
  pose proof (admin_record (cu_id user)).
  destruct op; simpl in Hop; try done; subst; cbn [perform]; unfold request, require_permission.
  - apply Hkeep. pose proof (admin_post_user (cu_id user)). keeps_auto.
  - destruct (has_permission _ _); [|by apply Hkeep, hoare_raise].
    unfold validated. destruct (SetUserRolesRequest roles); [|by apply Hkeep, hoare_raise].
    pose proof (patch_user_roles_run target roles user w Hw Hc Hex) as Hrun.
    change (get_db (mret tt ;; mret tt ;; patch_user_roles target roles user) w)
      with (get_db (patch_user_roles target roles user) w).
    destruct (get_db (patch_user_roles target roles user) w) as [[[]|e] w']; simpl; [|by rewrite Hrun, Hc].
    destruct Hrun as (_ & _ & Hself & Hu & Hnames). split; [by rewrite Hu; apply Hadm|]. rewrite Hnames.
    case_decide; [by apply Hself|apply Hadm].
  - apply Hkeep. unfold deactivate_user, get_user, set_user_active. case_bool_decide; keeps_auto.
    by apply admin_assign_user.
  - apply Hkeep. unfold activate_user, get_user, set_user_active. keeps_auto. by apply admin_assign_user.
  - apply Hkeep. pose proof (admin_change_password (cu_id user)). keeps_auto.
Qed.

(** Logging in needs the password of an active user, under the normalised
    email: it then reports that user with the user's roles, adds exactly one
    session for the user, and sets its token as a cookie. A login that fails
    commits nothing. *)
Theorem login_correct `{Env} `{Security} email password w :
  ready w →
  match get_db (login email password) w with
  | (Ok (out, cookies), w') =>
      ∃ u new new_token t',
        db_users (w_db w) !! uo_id out = Some u ∧ user_email u = lower (strip email) ∧ user_is_active u = true ∧
        bcrypt_checkpw (password_bytes password) (user_password_hash u) = Some true ∧
        uo_roles out = sorted_set (role_names (uo_id out) (w_db w)) ∧ db_refresh_sessions (w_db w) !! new = None ∧
        set_cookie REFRESH_COOKIE_NAME new_token (refresh_token_ttl_days * 24 * 3600) true "/auth" ∈ cookies ∧
        db_users (w_committed w') = db_users (w_db w) ∧
        db_refresh_sessions (w_committed w') =
          <[new := new_session (uo_id out) new_token t']> (db_refresh_sessions (w_db w))
  | (Raise _, w') => w_committed w' = w_committed w
  end.
Proof.
  intros Hw. pose proof (get_db_quiet (login email password) w (quiet_login _ _)) as Hq.
  destruct (get_db (login email password) w) as [[[out cookies]|e] w']; [|done].
  destruct Hq as (w1 & Hrun & Hact & ->). revert Hrun. unfold login, mbind at 1, st_bind at 1, try_except.
  destruct (authenticate email password w) as [[user|e] w2] eqn:Hauth.
  2: { destruct e; try done. unfold mbind at 1, st_bind at 1. by destruct (record _ _ _ _ _ w2) as [[]]. }
  apply authenticate_run in Hauth as (-> & u & Hu & Hmail & Hactive & Hcheck); [|done].
  unfold get_role_names. rewrite (bind_run _ _ _ _ _ (query_run _ w (proj1 Hw))).
  unfold create_access_token. unfold mbind at 1, st_bind at 1. simpl. unfold mbind at 1, st_bind at 1.
  match goal with |- context [create_refresh_session user ?w3] =>
    destruct (create_refresh_session user w3) as [[[tok new]|e] w4] eqn:Hcreate; [|done];
    apply create_refresh_session_run in Hcreate as (Hw4 & Hnew & _ & t' & Hdb4); [|exact Hw] end.
  unfold _set_session_cookies, generate_token. unfold mbind at 1, st_bind at 1. simpl.
  match goal with |- context [(record ?a ?b ?c ?d ?e ≫= _) ?w5] =>
    rewrite (bind_run _ _ _ _ _ (record_run a b c d e w5 Hw4)) end.
  match goal with |- context [(row _ _ ≫= _) ?w6] => rewrite (bind_run _ _ _ _ _ (row_run db_users _ u w6 (proj1 Hw4)
    ltac:(simpl; by rewrite Hdb4))) end.
  intros [= <- <- <-]. simpl. rewrite (proj2 Hw4). simpl. rewrite Hdb4. exists u, new, tok, t'.
  repeat (split; [done|]). split; [|done]. apply elem_of_cons. right. apply elem_of_cons. by left.
Qed.

(** ** Access tokens *)

(** The payload of a token: times as whole seconds. *)
Definition claims_json (c : AccessClaims) : json :=
  JObj [ ("sub", JStr (cl_sub c)); ("roles", JArr (map JStr (cl_roles c))); ("type", JStr (cl_type c));
         ("iat", JInt (cl_iat c / 1000000)); ("exp", JInt (cl_exp c / 1000000)) ].

Lemma role_names_of_strings l w : role_names_of (map JStr l) w = (Ok l, w).
Proof. induction l as [|s l IH]; [done|]. simpl. by rewrite (bind_run _ _ _ _ _ IH). Qed.

(** PyJWT, at time [t], reads back the claims it signed. *)
Definition jwt_valid `{Security} (c : AccessClaims) (t : Z) : Prop :=
  jwt_decode t (jwt_encode c control_plane_secret_key) control_plane_secret_key = Some (claims_json c).

(** Access tokens: as long as PyJWT reads back what it signed, the token made
    for a user identifies that user, with the roles of the moment it was made,
    and only while the account exists and is active - a deactivation takes
    effect at once, whatever tokens are in circulation. *)
Theorem access_tokens_identify_their_user `{Env} `{Security} (id : uuid) roles w0 token w :
  (id < 2 ^ 128)%N → (create_access_token (str_uuid id) roles w0).1 = Ok token → token ≠ EmptyString →
  jwt_valid {| cl_sub := str_uuid id; cl_roles := roles; cl_type := ACCESS_TOKEN_TYPE; cl_iat := env_now (w_tick w0);
               cl_exp := env_now (w_tick w0) + minutes access_token_ttl_minutes |} (env_now (w_tick w)) →
  w_active w = true →
  (get_current_user (Some token) w).1 =
  match db_users (w_db w) !! id with
  | Some u => if user_is_active u then Ok {| cu_id := id; cu_email := user_email u; cu_roles := roles |}
              else Raise (HTTPException HTTP_401_UNAUTHORIZED "invalid or expired session")
  | None => Raise (HTTPException HTTP_401_UNAUTHORIZED "invalid or expired session")
  end.
Proof.
  intros Hid Htok Hne Hjwt Ha. pose proof (uuid_of_str_uuid id Hid) as Hsub.
  set (sub := str_uuid id) in *. clearbody sub. unfold jwt_valid in Hjwt. injection Htok as Htok. rewrite Htok in Hjwt.
  unfold get_current_user.
  destruct (String.eqb_spec token EmptyString) as [|_]; [done|].
  unfold decode_access_token. unfold mbind at 1, st_bind at 1. rewrite (bind_run _ _ _ _ _ (now_run _)).
  rewrite Hjwt. unfold claims_json. cbn [cl_sub cl_roles cl_type]. simpl.
  unfold mbind at 1, st_bind at 1. rewrite Hsub. simpl.
  match goal with |- context [(session_get _ _ ≫= _) ?w1] =>
    rewrite (bind_run _ _ _ _ _ (session_get_run db_users id w1 Ha)) end. simpl.
  destruct (db_users (w_db w) !! id) as [u|]; [|done]. destruct (user_is_active u); [|done]. simpl.
  unfold mbind at 1, st_bind at 1. simpl.
  match goal with |- context [(role_names_of _ ≫= _) ?w2] =>
    rewrite (bind_run _ _ _ _ _ (role_names_of_strings roles w2)) end. done.
Qed.

(** ** Concrete runs *)

Definition account_world : World := demo_world demo_accounts.
Definition admin_user : CurrentUser :=
  {| cu_id := admin1; cu_email := "admin@healer.local"; cu_roles := ["Administrator"] |}.

Lemma demo_sessions_unique : session_hashes_unique demo_accounts.
Proof.
  intros k1 k2 r1 r2 H1 H2 E.
  change (({[ session1 := demo_session "old" (Some 0); session2 := demo_session "live" None ]}
    : gmap uuid RefreshSession) !! k1 = Some r1) in H1.
  change (({[ session1 := demo_session "old" (Some 0); session2 := demo_session "live" None ]}
    : gmap uuid RefreshSession) !! k2 = Some r2) in H2.
  apply lookup_insert_Some in H1 as [[<- <-]|[_ [<- <-]%lookup_singleton_Some]],
    H2 as [[<- <-]|[_ [<- <-]%lookup_singleton_Some]]; try reflexivity; exfalso; revert E; vm_compute; discriminate.
Qed.

Lemma demo_tokens_unique : token_hashes_unique demo_accounts.
Proof.
  intros k1 k2 r1 r2 H1 H2 E.
  change (({[ token1 := demo_token "spent" (Some 0); token2 := demo_token "fresh" None ]}
    : gmap uuid EnrollmentToken) !! k1 = Some r1) in H1.
  change (({[ token1 := demo_token "spent" (Some 0); token2 := demo_token "fresh" None ]}
    : gmap uuid EnrollmentToken) !! k2 = Some r2) in H2.
  apply lookup_insert_Some in H1 as [[<- <-]|[_ [<- <-]%lookup_singleton_Some]],
    H2 as [[<- <-]|[_ [<- <-]%lookup_singleton_Some]]; try reflexivity; exfalso; revert E; vm_compute; discriminate.
Qed.

Lemma demo_roles_exist : roles_exist demo_accounts.
Proof. intros x Hx. apply list_elem_of_singleton in Hx as ->. vm_compute. by eexists. Qed.

(** The process restarted on whatever the history committed. *)
Definition later_world : World :=
  boot (committed_after (H:=demo_outside) (H0:=demo_security) demo_history demo_accounts).

Lemma revoked_refresh_tokens_stay_dead_witness :
  ∃ message w', get_db (refresh (H:=demo_outside) (H0:=demo_security) (Some "old")) later_world =
      (Raise (HTTPException HTTP_401_UNAUTHORIZED message), w') ∧
    w_committed w' = w_committed later_world.
Proof.
  assert (db_refresh_sessions demo_accounts !! session1 = Some (demo_session "old" (Some 0))) as Hrow by exact eq_refl.
  assert (ready later_world) as Hready by (split; exact eq_refl).
  exact (revoked_refresh_tokens_stay_dead (H:=demo_outside) (H0:=demo_security) demo_history demo_accounts session1
           (demo_session "old" (Some 0)) "old" later_world demo_sessions_unique Hrow eq_refl (mk_is_Some _ _ eq_refl)
           Hready eq_refl).
Defined.

Lemma refresh_rotates_witness :
  ∃ id r, db_refresh_sessions (w_db account_world) !! id = Some r ∧ rs_revoked_at r = None.
Proof.
  pose proof (refresh_rotates (H:=demo_outside) (H0:=demo_security) "live" account_world) as Hrun.
  destruct (get_db _ account_world) as [[[out cookies]|e] w'] eqn:E.
  - destruct Hrun as (id & r & u & new & tok & t' & Hr & _ & Hrev & _); [split; exact eq_refl|].
    exists id, r. exact (conj Hr Hrev).
  - exfalso. revert E. vm_compute. discriminate.
Defined.

Lemma spent_enrollment_tokens_stay_dead_witness :
  ∃ w', get_db (enroll (H:=demo_outside) (H0:=demo_security) "spent") later_world =
      (Raise (HTTPException HTTP_401_UNAUTHORIZED "invalid, expired, already-used, or revoked enrollment token"), w') ∧
    w_committed w' = w_committed later_world.
Proof.
  assert (db_enrollment_tokens demo_accounts !! token1 = Some (demo_token "spent" (Some 0))) as Hrow by exact eq_refl.
  assert (ready later_world) as Hready by (split; exact eq_refl).
  exact (spent_enrollment_tokens_stay_dead (H:=demo_outside) (H0:=demo_security) demo_history demo_accounts token1
           (demo_token "spent" (Some 0)) "spent" later_world demo_tokens_unique Hrow eq_refl
           (or_introl (mk_is_Some _ _ eq_refl)) Hready eq_refl).
Defined.

Lemma enroll_correct_witness :
  ∃ agent a w', db_agents (w_committed w') = <[agent := a]> (db_agents (w_db account_world)) ∧ ag_server_id a = server1.
Proof.
  pose proof (enroll_correct (H:=demo_outside) (H0:=demo_security) "fresh" account_world) as Hrun.
  destruct (get_db _ account_world) as [[[agent cred]|e] w'] eqn:E.
  - destruct Hrun as (id & t & a & Ht & Hh & _ & _ & _ & _ & Hag & Hsrv & _).
    + split; exact eq_refl.
    + intros k1 k2 r1 r2 H1 H2 _. cbn in H1, H2. apply lookup_singleton_Some in H1 as [<- _], H2 as [<- _]. done.
    + exists agent, a, w'. split; [exact Hag|]. rewrite Hsrv.
      change (({[ token1 := demo_token "spent" (Some 0); token2 := demo_token "fresh" None ]}
        : gmap uuid EnrollmentToken) !! id = Some t) in Ht.
      by apply lookup_insert_Some in Ht as [[<- <-]|[_ [<- <-]%lookup_singleton_Some]].
  - exfalso. revert E. vm_compute. discriminate.
Defined.

Lemma change_password_revokes_sessions_witness :
  ∃ w', ∀ id r, db_refresh_sessions (w_committed w') !! id = Some r → rs_user_id r = admin1 → is_Some (rs_revoked_at r).
Proof.
  pose proof (change_password_revokes_sessions (H:=demo_outside) (H0:=demo_security) admin_user "correct horse"
    "battery staple" account_world) as Hrun.
  destruct (get_db _ account_world) as [[cookies|e] w'] eqn:E.
  - destruct Hrun as (u & _ & _ & _ & Hs); [split; exact eq_refl|reflexivity|]. exists w'. intros id r Hr Hu.
    specialize (Hs id r Hr). by rewrite decide_True in Hs.
  - exfalso. revert E. vm_compute. discriminate.
Defined.

Lemma assigned_roles_are_exact_witness :
  ∃ w', role_names admin1 (w_committed w') = ["Administrator"; "Viewer"].
Proof.
  pose proof (assigned_roles_are_exact (H:=demo_outside) (H0:=demo_security) admin1 ["Administrator"; "Viewer"]
    admin_user account_world) as Hrun.
  destruct (get_db _ account_world) as [[[]|e] w'] eqn:E.
  - destruct Hrun as (_ & _ & _ & Hn); [split; exact eq_refl|reflexivity|exact demo_roles_exist|]. exists w'.
    rewrite Hn. by rewrite decide_True.
  - exfalso. revert E. vm_compute. discriminate.
Defined.

Lemma administrators_stay_witness :
  active_admin admin1 (w_committed (perform (H:=demo_outside) (H0:=demo_security)
    (PatchUserRoles admin1 ["Viewer"; "Administrator"] admin_user) account_world).2).
Proof.
  apply (administrators_stay (H:=demo_outside) (H0:=demo_security)
           (PatchUserRoles admin1 ["Viewer"; "Administrator"] admin_user) admin_user);
    [reflexivity|split; exact eq_refl|reflexivity|exact demo_roles_exist|].
  split; [by exists demo_admin|]. by left.
Defined.

Lemma login_correct_witness :
  ∃ id u, db_users (w_db account_world) !! id = Some u ∧ user_email u = "admin@healer.local".
Proof.
  pose proof (login_correct (H:=demo_outside) (H0:=demo_security) " Admin@Healer.local" "correct horse" account_world)
    as Hrun.
  destruct (get_db _ account_world) as [[[out cookies]|e] w'] eqn:E.
  - destruct Hrun as (u & new & tok & t' & Hu & Hm & _); [split; exact eq_refl|]. exists (uo_id out), u. split; [exact Hu|].
    rewrite Hm. reflexivity.
  - exfalso. revert E. vm_compute. discriminate.
Defined.

Lemma access_tokens_identify_their_user_witness :
  (get_current_user (H:=demo_outside) (H0:=demo_security) (Some (str_uuid admin1)) account_world).1 = Ok admin_user.
Proof.
  rewrite (access_tokens_identify_their_user (H:=demo_outside) (H0:=demo_security) admin1 ["Administrator"]
             account_world (str_uuid admin1) account_world);
    [reflexivity|reflexivity|reflexivity|discriminate|reflexivity|reflexivity].
Defined.
