(* ===== verification/Enrolment.v ===== *)
(** Enrolment from end to end: the administrator's request for a token, the
    [enroll] command of services/control-plane/scripts/fake_agent.py on the
    server's machine, the control plane's answer, and the upgrade request of the
    socket with the credential that was issued. *)

From S2P Require Import Prelude Python Uuid Enums Schema Session Hoare Permissions Repositories Security.
From S2P Require Import Invariants GatewayService CommandService Requests ServerService AccountProperties Scenario.
Local Open Scope Z_scope.

(** ** POST /agents/enroll, as the network shows it *)

Definition HTTP_200_OK : Z := 200.

Definition AgentEnrollResponse (agent_id server_id : uuid) (credential control_plane_ws_url : string) : json :=
  JObj [ ("agent_id", JStr (str_uuid agent_id)); ("server_id", JStr (str_uuid server_id));
         ("credential", JStr credential); ("control_plane_ws_url", JStr control_plane_ws_url) ].

(** A status and a body. *)
Definition http_response : Type := Z * json.

(** An [HTTPException] is a response; FastAPI answers any other exception with 500. *)
Definition response_of (r : result exn json) : http_response :=
  match r with
  | Ok body => (HTTP_200_OK, body)
  | Raise (HTTPException status detail) => (status, JObj [("detail", JStr detail)])
  | Raise _ => (500, JStr "Internal Server Error")
  end.

(** [payload: AgentEnrollRequest] of a body. *)
Definition parse_enroll_request (body : json) : M string :=
  match body with
  | JObj kvs =>
      match dict_lookup kvs "token" with
      | Some (JStr token) => validated (AgentEnrollRequest token) ;; mret token
      | _ => raise (HTTPException HTTP_422_UNPROCESSABLE_ENTITY "")
      end
  | _ => raise (HTTPException HTTP_422_UNPROCESSABLE_ENTITY "")
  end.

Definition post_enroll `{Env} `{Security} (agent_ws_public_url : string) (body : json) (w : World) : http_response * World :=
  let '(r, w') := get_db (token ← parse_enroll_request body;
                          '(agent, raw_credential) ← enroll token;
                          a ← row db_agents agent;
                          mret (AgentEnrollResponse agent (ag_server_id a) raw_credential agent_ws_public_url)) w in
  (response_of r, w').

(** ** The script *)

Definition is_success (status : Z) : bool := ((200 <=? status) && (status <? 300))%bool.

(** [cmd_enroll]: it prints the body and its credential, or says why it failed
    and exits with 1. The result is what it prints of the credential. *)
Definition cmd_enroll (urlopen : json → World → http_response * World) (token : string) : M json := λ w,
  let '((status, body), w') := urlopen (JObj [("token", JStr token)]) w in
  if negb (is_success status) then (Raise (SystemExit "1"), w') else
  match body with
  | JObj kvs =>
      match dict_lookup kvs "credential" with
      | Some credential => (Ok credential, w')
      | None => (Raise KeyError, w')
      end
  | _ => (Raise TypeError, w')
  end.

(** The header [_run] connects with. *)
Definition authorization (credential : string) : string := "Bearer " +:+ credential.

(** ** Runs of the parts *)

(** Two agents never have the same credential. *)
Definition credentials_unique (d : DB) : Prop :=
  ∀ k1 k2 a1 a2 h, db_agents d !! k1 = Some a1 → db_agents d !! k2 = Some a2 →
    ag_credential_hash a1 = Some h → ag_credential_hash a2 = Some h → k1 = k2.

(** What [secrets.token_urlsafe(32)] draws from observation [n] on: text of the
    URL-safe alphabet, whose hash is none of those that are stored. *)
Definition draws_fresh `{Security} (n : nat) (d : DB) : Prop :=
  ∀ m, (n ≤ m)%nat →
    token_urlsafe m ≠ "" ∧ has_no is_space (token_urlsafe m) ∧
    (∀ id t, db_enrollment_tokens d !! id = Some t → et_token_hash t ≠ hash_token (token_urlsafe m)) ∧
    (∀ id a, db_agents d !! id = Some a → ag_credential_hash a ≠ Some (hash_token (token_urlsafe m))).

Lemma get_db_run {A} (m : M A) w a w' :
  m w = (Ok a, w') → ready w' → get_db m w = (Ok a, w' <| w_committed := w_db w' |>).
Proof.
  intros Hm Hr. unfold get_db, try_except, mbind at 1, st_bind at 1. rewrite Hm.
  by rewrite (bind_run _ _ _ _ _ (commit_run w' Hr)).
Qed.

Lemma bearer_credential_authorization credential :
  has_no is_space credential → bearer_credential (authorization credential) = Some credential.
Proof.
  intros Hs. unfold bearer_credential, authorization.
  assert (startswith "bearer " (lower ("Bearer " +:+ credential)) = true) as -> by (by destruct credential).
  change (Some (strip (String.substring 0 (String.length credential - 0) credential)) = Some credential).
  rewrite substring_all by lia. unfold strip. by rewrite strip_by_none.
Qed.

Section runs.
Context `{Env} `{Security}.

(** The row of a token that was just issued. *)
Definition issued (server : uuid) (raw_token : string) (n : nat) : EnrollmentToken :=
  {| et_server_id := server; et_token_hash := hash_token raw_token;
     et_expires_at := env_now n + minutes DEFAULT_ENROLLMENT_TOKEN_TTL_MINUTES; et_used_at := None;
     et_revoked_at := None; et_created_at := env_now (S n) |}.

Lemma issue_enrollment_token_run server w :
  ready w → draws_fresh (w_tick w) (w_db w) →
  ∃ token w', let raw_token := token_urlsafe (w_tick w) in
    issue_enrollment_token server DEFAULT_ENROLLMENT_TOKEN_TTL_MINUTES w = (Ok (raw_token, token), w') ∧ ready w' ∧
    db_enrollment_tokens (w_db w) !! token = None ∧
    w_db w' = (w_db w) <| db_enrollment_tokens :=
      <[token := issued server raw_token (S (w_tick w))]> (db_enrollment_tokens (w_db w)) |>.
Proof.
  intros Hr Hfresh. destruct (Hfresh (w_tick w) (le_n _)) as (_ & _ & Htok & _).
  unfold issue_enrollment_token, generate_token.
  rewrite (bind_run (observe token_urlsafe) _ w (token_urlsafe (w_tick w)) (w <| w_tick := S (w_tick w) |>) eq_refl).
  do 2 rewrite (bind_run _ _ _ _ _ (now_run _)).
  unfold insert_enrollment_token, mbind at 1, st_bind at 1. rewrite insert_unique_run by apply Hr.
  assert (∀ t, et_token_hash t = hash_token (token_urlsafe (w_tick w)) →
    select db_enrollment_tokens (λ u, bool_decide (et_token_hash u = et_token_hash t)) (w_db w) = []) as Hno.
  { intros t ->. apply select_nil. intros k u Hu. apply bool_decide_eq_false. by apply (Htok k). }
  rewrite Hno by done.
  match goal with |- context [insert_row _ ?r ?w2] =>
    destruct (insert_row_run db_enrollment_tokens r w2 (proj1 Hr)) as (k & Hk & _ & ->) end.
  match goal with |- context [(flush ≫= _) ?w2] => rewrite (bind_run _ _ _ _ _ (flush_run w2 Hr)) end.
  by do 2 eexists.
Qed.

Lemma create_enrollment_token_run server s user w :
  ready w → db_servers (w_db w) !! server = Some s → draws_fresh (w_tick w) (w_db w) →
  ∃ token w', let raw_token := token_urlsafe (w_tick w) in
    create_enrollment_token server user w = (Ok (token, raw_token), w') ∧ ready w' ∧
    db_enrollment_tokens (w_db w) !! token = None ∧ db_agents (w_db w') = db_agents (w_db w) ∧
    db_enrollment_tokens (w_db w') =
      <[token := issued server raw_token (S (w_tick w))]> (db_enrollment_tokens (w_db w)).
Proof.
  intros Hr Hs Hfresh. unfold create_enrollment_token.
  rewrite (bind_run _ _ _ _ _ (session_get_run db_servers server w (proj1 Hr))), Hs.
  destruct (issue_enrollment_token_run server w Hr Hfresh) as (token & w1 & Hissue & Hr1 & Hnew & Hdb).
  rewrite (bind_run _ _ _ _ _ Hissue). rewrite (bind_run _ _ _ _ _ (record_run _ _ _ _ _ w1 Hr1)).
  do 2 eexists. split; [reflexivity|]. split; [done|]. split; [done|]. simpl. by rewrite Hdb.
Qed.

Lemma credential_free_fresh self h d :
  (∀ k a, db_agents d !! k = Some a → ag_credential_hash a ≠ Some h) → credential_free self h d = true.
Proof.
  intros Hno. apply forallb_forall. intros [k a] Hin%list_elem_of_In%elem_of_map_to_list. simpl.
  rewrite (bool_decide_eq_false_2 (ag_credential_hash a = Some h)) by (by eapply Hno). apply orb_true_r.
Qed.

Lemma store_credential_succeeds server h w :
  ready w → (∀ k a, db_agents (w_db w) !! k = Some a → ag_credential_hash a ≠ Some h) →
  ∃ agent w', store_credential (fst <$> first (select db_agents (λ a, bool_decide (ag_server_id a = server)) (w_db w)))
                server h w = (Ok agent, w').
Proof.
  intros Hr Hno. unfold store_credential. rewrite (bind_run _ _ _ _ _ (query_run _ w (proj1 Hr))).
  rewrite credential_free_fresh by done.
  pose proof (first_select db_agents (λ a, bool_decide (ag_server_id a = server)) (w_db w)) as Hf.
  destruct (first _) as [[k a]|]; simpl.
  - destruct Hf as [Hk _]. rewrite (bind_run _ _ _ _ _ (assign_run db_agents k _ a w (proj1 Hr) Hk)). by do 2 eexists.
  - rewrite (bind_run _ _ _ _ _ (now_run _)).
    match goal with |- context [insert_row _ ?a ?w1] =>
      destruct (insert_row_run db_agents a w1 (proj1 Hr)) as (k & _ & _ & ->) end. by do 2 eexists.
Qed.

Lemma enroll_agent_succeeds raw_token id t w :
  ready w → token_hashes_unique (w_db w) → agents_unique (w_db w) →
  db_enrollment_tokens (w_db w) !! id = Some t → et_token_hash t = hash_token raw_token →
  et_used_at t = None → et_revoked_at t = None → env_now (w_tick w) ≤ et_expires_at t →
  (∀ k a, db_agents (w_db w) !! k = Some a → ag_credential_hash a ≠ Some (hash_token (token_urlsafe (S (w_tick w))))) →
  ∃ agent w', enroll_agent raw_token w = (Ok (agent, token_urlsafe (S (w_tick w))), w').
Proof.
  intros Hr HT HA Ht Hh Hu Hv He Hno. unfold enroll_agent.
  rewrite (bind_run _ _ _ _ _ (token_of_hash_run raw_token id t w (proj1 Hr) HT Ht Hh)).
  rewrite (bind_run _ _ _ _ _ (now_run _)), Hv, Hu, !bool_decide_eq_false_2 by apply is_Some_None.
  replace (et_expires_at t <? env_now (w_tick w)) with false by (symmetry; apply Z.ltb_ge; lia).
  set (w1 := w <| w_tick := S (w_tick w) |>).
  rewrite (bind_run _ _ _ _ _ (assign_run db_enrollment_tokens id _ t w1 (proj1 Hr) Ht)).
  set (w2 := w1 <| w_db := _ |>). unfold AgentRepository_get_by_server_id.
  rewrite (bind_run _ _ _ _ _ (query_run _ w2 (proj1 Hr))).
  rewrite (bind_run generate_token _ w2 (token_urlsafe (S (w_tick w))) (w2 <| w_tick := S (w_tick w2) |>) eq_refl).
  set (w3 := w2 <| w_tick := _ |>).
  destruct (store_credential_succeeds (et_server_id t) (hash_token (token_urlsafe (S (w_tick w)))) w3 Hr Hno)
    as (agent & w4 & Hst).
  change (w_db w2) with (w_db w3). rewrite (bind_run _ _ _ _ _ Hst).
  destruct (store_credential_run (et_server_id t) _ agent w3 w4 Hr HA Hst) as (Hr4 & _).
  rewrite (bind_run _ _ _ _ _ (flush_run w4 Hr4)). by do 2 eexists.
Qed.

(** The database after an enrolment: the token is used, and the agent of its
    server has the credential. *)
Definition enrolled (id agent : uuid) (t : EnrollmentToken) (a : Agent) (now_ : Z) (d d' : DB) : Prop :=
  db_enrollment_tokens d' = <[id := t <| et_used_at := Some now_ |>]> (db_enrollment_tokens d) ∧
  db_agents d' = <[agent := a]> (db_agents d).

(** A token that [enroll] accepts, and a credential that no agent has. *)
Definition acceptable (raw_token : string) (id : uuid) (t : EnrollmentToken) (w : World) : Prop :=
  db_enrollment_tokens (w_db w) !! id = Some t ∧ et_token_hash t = hash_token raw_token ∧
  et_used_at t = None ∧ et_revoked_at t = None ∧ env_now (w_tick w) ≤ et_expires_at t ∧
  ∀ k a, db_agents (w_db w) !! k = Some a → ag_credential_hash a ≠ Some (hash_token (token_urlsafe (S (w_tick w)))).

Lemma enroll_succeeds raw_token id t w :
  ready w → token_hashes_unique (w_db w) → agents_unique (w_db w) → acceptable raw_token id t w →
  ∃ agent a w', let credential := token_urlsafe (S (w_tick w)) in
    enroll raw_token w = (Ok (agent, credential), w') ∧ ready w' ∧
    enrolled id agent t a (env_now (w_tick w)) (w_db w) (w_db w') ∧
    ag_server_id a = et_server_id t ∧ ag_credential_hash a = Some (hash_token credential).
Proof.
  intros Hr HT HA (Ht & Hh & Hu & Hv & He & Hno).
  destruct (enroll_agent_succeeds raw_token id t w Hr HT HA Ht Hh Hu Hv He Hno) as (agent & w1 & Henr).
  destruct (enroll_agent_run raw_token w agent _ w1 Hr HA Henr)
    as (Hr1 & id' & t' & a & Ht' & Hh' & _ & _ & _ & Hdb & Hsrv & Hcred & _).
  assert (id' = id) as -> by (eapply HT; [done..|congruence]). assert (t' = t) as -> by congruence.
  assert (db_agents (w_db w1) !! agent = Some a) as Hrow by (rewrite Hdb; apply lookup_insert_eq).
  unfold enroll, try_except, mbind at 1, st_bind at 1. rewrite Henr.
  rewrite (bind_run _ _ _ _ _ (row_run db_agents agent a w1 (proj1 Hr1) Hrow)).
  rewrite (bind_run _ _ _ _ _ (record_run _ _ _ _ _ w1 Hr1)).
  exists agent, a. eexists. split; [reflexivity|]. split; [done|]. split; [|done]. split; simpl; by rewrite Hdb.
Qed.

Lemma cmd_enroll_succeeds url raw_token id t w :
  ready w → token_hashes_unique (w_db w) → agents_unique (w_db w) → raw_token ≠ "" → acceptable raw_token id t w →
  ∃ agent a w', let credential := token_urlsafe (S (w_tick w)) in
    cmd_enroll (post_enroll url) raw_token w = (Ok (JStr credential), w') ∧
    enrolled id agent t a (env_now (w_tick w)) (w_db w) (w_committed w') ∧
    ag_server_id a = et_server_id t ∧ ag_credential_hash a = Some (hash_token credential).
Proof.
  intros Hr HT HA Hne Hacc.
  destruct (enroll_succeeds raw_token id t w Hr HT HA Hacc) as (agent & a & w1 & Henr & Hr1 & Hd & Hsrv & Hcred).
  assert (db_agents (w_db w1) !! agent = Some a) as Hrow by (rewrite (proj2 Hd); apply lookup_insert_eq).
  unfold cmd_enroll, post_enroll. erewrite get_db_run; [|..|exact Hr1].
  2: { rewrite (bind_run (parse_enroll_request _) _ w raw_token w) by (by destruct raw_token).
       rewrite (bind_run _ _ _ _ _ Henr). rewrite (bind_run _ _ _ _ _ (row_run db_agents agent a w1 (proj1 Hr1) Hrow)).
       reflexivity. }
  by exists agent, a, (w1 <| w_committed := w_db w1 |>).
Qed.

Lemma quiet_post_enroll url body :
  quiet (token ← parse_enroll_request body;
         '(agent, raw_credential) ← enroll token;
         a ← row db_agents agent;
         mret (AgentEnrollResponse agent (ag_server_id a) raw_credential url)).
Proof. pose proof quiet_enroll. unfold parse_enroll_request, validated. quiet_auto. Qed.

(** A token that was used: the script says so and exits. *)
Lemma cmd_enroll_dead url raw_token id t w :
  ready w → token_hashes_unique (w_db w) → db_enrollment_tokens (w_db w) !! id = Some t →
  et_token_hash t = hash_token raw_token → raw_token ≠ "" → is_Some (et_used_at t) →
  ∃ w', cmd_enroll (post_enroll url) raw_token w = (Raise (SystemExit "1"), w') ∧ w_committed w' = w_committed w.
Proof.
  intros Hr HT Ht Hh Hne Hu.
  pose proof (enroll_dead raw_token id t w Hr HT Ht Hh (or_introl Hu)) as Hdead.
  unfold cmd_enroll, post_enroll.
  destruct (get_db_raise _ (HTTPException HTTP_401_UNAUTHORIZED "invalid, expired, already-used, or revoked enrollment token")
    w (quiet_post_enroll url (JObj [("token", JStr raw_token)]))) as (w' & -> & Hc).
  { rewrite (bind_run (parse_enroll_request _) _ w raw_token w) by (by destruct raw_token).
    unfold mbind at 1, st_bind at 1. destruct (enroll raw_token w) as [[|]]; simpl in *; congruence. }
  by exists w'.
Qed.

(** The upgrade request of a socket, with a credential that an agent has and with
    one that none has. *)
Lemma connect_known agent a credential websocket remote_addr w :
  ready w → has_no is_space credential → db_agents (w_db w) !! agent = Some a →
  ag_credential_hash a = Some (hash_token credential) →
  (∀ k b, db_agents (w_db w) !! k = Some b → ag_credential_hash b = Some (hash_token credential) → k = agent) →
  agent_socket_connect (authorization credential) websocket remote_addr w =
  (agent_socket_open agent websocket remote_addr ;; mret (Some agent)) w.
Proof.
  intros Hr Hs Ha Hh Huniq. unfold agent_socket_connect. rewrite bearer_credential_authorization by done.
  unfold authenticate_agent_credential, AgentRepository_get_by_credential_hash.
  rewrite (bind_run _ _ _ _ _ (query_run _ w (proj1 Hr))).
  match goal with |- context [select db_agents ?p (w_db w)] => pose proof (first_select db_agents p (w_db w)) as Hf end.
  destruct (first _) as [[k b]|].
  - destruct Hf as [Hk Hb%bool_decide_eq_true]. by rewrite (Huniq k b Hk Hb).
  - apply Hf, bool_decide_eq_false in Ha. done.
Qed.

Lemma connect_unknown credential websocket remote_addr w :
  ready w → has_no is_space credential →
  (∀ k b, db_agents (w_db w) !! k = Some b → ag_credential_hash b ≠ Some (hash_token credential)) →
  agent_socket_connect (authorization credential) websocket remote_addr w = (Ok None, w).
Proof.
  intros Hr Hs Hno. unfold agent_socket_connect. rewrite bearer_credential_authorization by done.
  unfold authenticate_agent_credential, AgentRepository_get_by_credential_hash.
  rewrite (bind_run _ _ _ _ _ (query_run _ w (proj1 Hr))).
  match goal with |- context [select db_agents ?p (w_db w)] => pose proof (first_select db_agents p (w_db w)) as Hf end.
  destruct (first _) as [[k b]|]; [|done]. destruct Hf as [Hk Hb%bool_decide_eq_true]. by destruct (Hno k b Hk).
Qed.

End runs.

(** C30. Enrolment from end to end: an administrator asks for a token for a server,
    and the script's [enroll] is run with it before the hour is over. Then
    - it prints a credential, and the upgrade request with that credential opens
      the socket of the server's own agent;
    - the credential the agent had before, if it had one, is refused;
    - the script run with the same token again exits with 1 and nothing is
      committed.
    (As far as [secrets.token_urlsafe] draws text of its alphabet that is not in
    use.) *)
Theorem enrolment_round_trip `{Env} `{Security} url server s user w :
  ready w → db_servers (w_db w) !! server = Some s →
  token_hashes_unique (w_db w) → agents_unique (w_db w) → credentials_unique (w_db w) → draws_fresh (w_tick w) (w_db w) →
  ∃ token raw_token w1,
    get_db (create_enrollment_token server user) w = (Ok (token, raw_token), w1) ∧
    ∀ w2, ready w2 → w_db w2 = w_committed w1 → (w_tick w ≤ w_tick w2)%nat →
      env_now (w_tick w2) ≤ env_now (S (w_tick w)) + minutes 60 →
      ∃ agent a credential w3,
        cmd_enroll (post_enroll url) raw_token w2 = (Ok (JStr credential), w3) ∧
        db_agents (w_committed w3) = <[agent := a]> (db_agents (w_db w)) ∧ ag_server_id a = server ∧
        ∀ websocket remote_addr w4, ready w4 → w_db w4 = w_committed w3 →
          agent_socket_connect (authorization credential) websocket remote_addr w4 =
            (agent_socket_open agent websocket remote_addr ;; mret (Some agent)) w4 ∧
          (∀ b old, db_agents (w_db w) !! agent = Some b → ag_credential_hash b = Some (hash_token old) →
             has_no is_space old → agent_socket_connect (authorization old) websocket remote_addr w4 = (Ok None, w4)) ∧
          (∃ w5, cmd_enroll (post_enroll url) raw_token w4 = (Raise (SystemExit "1"), w5) ∧ w_committed w5 = w_committed w4).
Proof.
  intros Hr Hs HT HA HC Hfresh.
  destruct (create_enrollment_token_run server s user w Hr Hs Hfresh) as (token & w1 & Hrun & Hr1 & Hnew & Hag & Htok).
  destruct (Hfresh (w_tick w) (le_n _)) as (Hne & _ & Hfree & _).
  eexists _, _, _. split; [by apply get_db_run|]. intros w2 Hr2 Hdb2 Hn Hin. simpl in Hdb2.
  destruct (Hfresh (S (w_tick w2)) ltac:(lia)) as (_ & Hspace & _ & Hcred).
  assert (token_hashes_unique (w_db w2)) as HT2.
  { rewrite Hdb2. unfold token_hashes_unique. rewrite Htok. by apply (values_unique_new et_token_hash). }
  assert (agents_unique (w_db w2)) as HA2 by (rewrite Hdb2; unfold agents_unique; by rewrite Hag).
  rewrite <-Hdb2 in Htok, Hag. set (raw := token_urlsafe (w_tick w)) in *.
  destruct (cmd_enroll_succeeds url raw token (issued server raw (S (w_tick w))) w2)
    as (agent & a & w3 & Henr & [Htok3 Hag3] & Hsrv & Hh); [done..| |].
  { unfold acceptable. rewrite Htok, Hag, lookup_insert_eq. done. }
  exists agent, a, (token_urlsafe (S (w_tick w2))), w3. rewrite Hag in Hag3. split; [done|]. split; [done|]. split; [done|].
  intros websocket remote_addr w4 Hr4 Hdb4. rewrite <-Hdb4 in Htok3, Hag3.
  split; [|split].
  - apply (connect_known agent a); rewrite ?Hag3; [done|done|apply lookup_insert_eq|done|].
    intros k b [[<- <-]|[_ Hk]]%lookup_insert_Some Hb; [done|]. by destruct (Hcred k b Hk).
  - intros b old Hb Hold Hs'. apply connect_unknown; [done..|]. rewrite Hag3.
    intros k c [[<- <-]|[Hk' Hk]]%lookup_insert_Some Hc.
    + rewrite Hc in Hh. apply (Hcred agent b Hb). congruence.
    + apply Hk'. eapply HC; [exact Hb|exact Hk|exact Hold|exact Hc].
  - eapply (cmd_enroll_dead url raw token); [done|..|done|].
    + unfold token_hashes_unique. rewrite Htok3.
      eapply (values_unique_change et_token_hash); [exact HT2|rewrite Htok; apply lookup_insert_eq|done].
    + rewrite Htok3. apply lookup_insert_eq.
    + done.
    + done.
Qed.

(** ** A concrete enrolment: the server's agent gets a new credential *)

Definition drawing_security : Security :=
  {| token_urlsafe := λ n, if Nat.even n then "kX3-even" else "kX3_odd"; bcrypt_hashpw := @bcrypt_hashpw demo_security;
     bcrypt_checkpw := @bcrypt_checkpw demo_security; jwt_encode := @jwt_encode demo_security;
     jwt_decode := @jwt_decode demo_security; control_plane_secret_key := "key"; access_token_ttl_minutes := 15;
     refresh_token_ttl_days := 14; cookie_secure := true |}.

Definition enrolling_env : Env := outside (answers_at []) probe_bad gateway_down.

Definition agent_before : Agent :=
  {| ag_server_id := server1; ag_agent_version := "1"; ag_status := AgentStatus.DISCONNECTED; ag_last_seen_at := None;
     ag_credential_hash := Some (hash_token "before"); ag_capabilities := None; ag_created_at := 0 |}.

Definition enrolling_world : World :=
  boot ((demo_db "deploy" 1) <| db_agents := {[ agent1 := agent_before ]} |>).

Definition enrolling_user : CurrentUser :=
  {| cu_id := 8%N; cu_email := "admin@healer.local"; cu_roles := ["Administrator"] |}.

Lemma enrolling_draws_fresh : draws_fresh (H:=drawing_security) 0 (w_db enrolling_world).
Proof.
  intros m _. unfold token_urlsafe, drawing_security. destruct (Nat.even m).
  all: split; [done|]; split; [rewrite !has_no_cons; repeat split; by intros ? []%elem_of_nil|].
  all: split; [intros id t Ht; cbn in Ht; by rewrite lookup_empty in Ht|].
  all: intros id a Ha; cbn in Ha; apply lookup_singleton_Some in Ha as [<- <-]; vm_compute; discriminate.
Qed.

Lemma enrolment_round_trip_witness :
  let E := enrolling_env in let F := drawing_security in
  ∃ raw_token credential w2 w3,
    cmd_enroll (post_enroll "ws://localhost:8000/ws/agent") raw_token w2 = (Ok (JStr credential), w3) ∧
    agent_socket_connect (authorization credential) 7 None w3 =
      (agent_socket_open agent1 7 None ;; mret (Some agent1)) w3 ∧
    agent_socket_connect (authorization "before") 7 None w3 = (Ok None, w3).
Proof.
  intros E F.
  destruct (enrolment_round_trip (H:=E) (H0:=F) "ws://localhost:8000/ws/agent" server1
    {| srv_name := "alpha"; srv_hostname := "alpha.local"; srv_os := ServerOS.WINDOWS; srv_status := ServerStatus.ACTIVE;
       srv_created_at := 0 |} enrolling_user enrolling_world) as (token & raw_token & w1 & Hrun & Hlater).
  - split; exact eq_refl.
  - exact eq_refl.
  - intros k1 k2 t1 t2 H1. cbn in H1. by rewrite lookup_empty in H1.
  - intros k1 k2 a1 a2 H1 H2 _. cbn in H1, H2. apply lookup_singleton_Some in H1 as [<- _], H2 as [<- _]. done.
  - intros k1 k2 a1 a2 h H1 H2 _ _. cbn in H1, H2. apply lookup_singleton_Some in H1 as [<- _], H2 as [<- _]. done.
  - exact enrolling_draws_fresh.
  - set (issue := get_db (create_enrollment_token server1 enrolling_user) enrolling_world).
    assert (raw_token = "kX3-even" ∧ w1 = issue.2) as [-> ->].
    { split; [|unfold issue; by rewrite Hrun]. apply (f_equal fst) in Hrun. vm_compute in Hrun. congruence. }
    clear Hrun. destruct (Hlater issue.2) as (agent & a & credential & w3 & Hen & Hag & Hsrv & Hcon);
      [vm_compute; split; reflexivity|vm_compute; reflexivity|vm_compute; lia|vm_compute; discriminate|].
    assert (w3 = (cmd_enroll (post_enroll "ws://localhost:8000/ws/agent") "kX3-even" issue.2).2) as Hw3 by (by rewrite Hen).
    assert (agent = agent1) as ->.
    { assert (db_agents (w_committed w3) !! agent = Some a) as Ha by (rewrite Hag; apply lookup_insert_eq).
      apply elem_of_map_to_list in Ha. rewrite Hw3 in Ha. vm_compute in Ha. apply list_elem_of_singleton in Ha. by injection Ha. }
    destruct (Hcon 7%N None w3) as (Hnew & Hold & _); [rewrite Hw3; vm_compute; split; reflexivity|rewrite Hw3; vm_compute; reflexivity|].
    exists "kX3-even", credential, issue.2, w3. split; [exact Hen|]. split; [exact Hnew|].
    apply (Hold agent_before "before"); [exact eq_refl|exact eq_refl|].
    rewrite !has_no_cons. repeat split. by intros ? []%elem_of_nil.
Defined.
