(* ===== verification/ReleaseSwitch.v ===== *)
(** The blue-green switch is all or nothing: [ReleaseService.run_release_switch].

    The run is followed through two invariants. Until traffic moves, every
    instance that existed before is untouched and the active release is the
    old one ([before]); from then on the new release is active and backed by
    its full set of health-gated instances ([after]). *)

From S2P Require Import Prelude Python Enums StateMachines HealerYaml Schema Session Hoare.
From S2P Require Import Repositories Protocol Invariants LockService CommandService.
From S2P Require Import ApplicationService AuditService GatewayService HealthCheckService.
From S2P Require Import DeploymentService ScaleService ReleaseService.
Local Open Scope Z_scope.

(** ** Vocabulary *)

(** Every instance row of [d0] is in [d], unchanged. *)
Definition instances_kept (d0 d : DB) : Prop :=
  ∀ id i, db_instances d0 !! id = Some i → db_instances d !! id = Some i.

(** The active release of an application. *)
Definition active_release (application : uuid) (d : DB) : option uuid :=
  db_applications d !! application ≫= app_active_release_id.

(** Different instances of [release], each of them RUNNING. *)
Definition serving_set (release : uuid) (l : list uuid) (d : DB) : Prop :=
  NoDup l ∧ ∀ id, id ∈ l → ∃ i, db_instances d !! id = Some i ∧
    inst_release_id i = Some release ∧ inst_status i = InstanceStatus.RUNNING.

(** The deployment still names the application, the release and the number of
    instances of the switch, and it has not succeeded. *)
Definition switch_target (deployment application release : uuid) (count : Z) (d : DB) : Prop :=
  ∀ p, db_deployments d !! deployment = Some p →
    dep_application_id p = application ∧ dep_release_id p = release ∧ dep_instance_count p = count ∧
    dep_status p ≠ DeploymentStatus.SUCCEEDED.

Definition has_active (application : uuid) (r : option uuid) (d : DB) : Prop :=
  ∃ a, db_applications d !! application = Some a ∧ app_active_release_id a = r.

(** Taking or releasing a lock does not change what is active. *)
Lemma has_active_set_lock application r d id a lock t :
  has_active application r d → db_applications d !! id = Some a →
  has_active application r (d <| db_applications := <[id := set_lock lock t a]> (db_applications d) |>).
Proof.
  intros (b & Hb & Eb) Ha. unfold has_active. simpl. destruct (decide (id = application)) as [->|].
  - exists (set_lock lock t a). rewrite lookup_insert_eq. split; [done|]. simpl. congruence.
  - exists b. by rewrite lookup_insert_ne.
Qed.

Section switch.
Context `{Env} (d0 : DB) (deployment application new : uuid) (count : Z).

(** [active] is the release that traffic goes to; [started] holds instances
    that passed the gate and did not exist before. *)
Definition untouched (active : option uuid) (started : list uuid) (d : DB) : Prop :=
  instances_kept d0 d ∧ has_active application active d ∧ switch_target deployment application new count d ∧
  serving_set new started d ∧ (∀ id, id ∈ started → db_instances d0 !! id = None) ∧
  (∀ id i, db_instances d0 !! id = None → db_instances d !! id = Some i → inst_release_id i = Some new).

Definition before (active : option uuid) (started : list uuid) : invariant := strict (untouched active started).

(** ** Steps that keep [before] *)

Section before.
Context (active : option uuid) (started : list uuid).
Abbreviation I := (before active started).

#[local] Instance before_agents : AgentStable I.
Proof.
  intros d d' Hf. simpl. unfold untouched, instances_kept, has_active, switch_target, serving_set.
  frame_rewrite db_instances. frame_rewrite db_applications. by frame_rewrite db_deployments.
Qed.

#[local] Instance before_records : RecordStable I.
Proof.
  intros d d' Hf. simpl. unfold untouched, instances_kept, has_active, switch_target, serving_set.
  frame_rewrite db_instances. frame_rewrite db_applications. by frame_rewrite db_deployments.
Qed.

(** Writing the row of an instance that did not exist before and is not part
    of the serving set. *)
Lemma before_write_instance d id i :
  I d → db_instances d0 !! id = None → id ∉ started → inst_release_id i = Some new →
  I (d <| db_instances := <[id := i]> (db_instances d) |>).
Proof.
  intros (Hk & Ha & Ht & (Hnd & Hs) & Hn & Hr) Hid Hni Hri.
  split; [|split; [done|split; [done|split; [|split; [done|]]]]].
  - intros k j Hj. simpl. rewrite lookup_insert_ne; [by apply Hk|]. congruence.
  - split; [done|]. intros k Hin. simpl. destruct (Hs k Hin) as (j & Hj & ?). exists j.
    rewrite lookup_insert_ne; [done|]. congruence.
  - intros k j Hk0 Hj. simpl in Hj. apply lookup_insert_Some in Hj as [[<- <-]|[? Hj]]; [done|by eapply Hr].
Qed.

Lemma before_release_id d id i :
  I d → db_instances d0 !! id = None → db_instances d !! id = Some i → inst_release_id i = Some new.
Proof. intros (_&_&_&_&_&Hr). apply Hr. Qed.

Lemma before_transition id target :
  db_instances d0 !! id = None → id ∉ started → keeps I (InstanceRepository_transition id target).
Proof.
  intros Hid Hni. apply hoare_instance_transition. intros d i Hd Hi _ _.
  apply before_write_instance; [done..|]. exact (before_release_id d id i Hd Hid Hi).
Qed.

Lemma before_assign_instance id f :
  db_instances d0 !! id = None → id ∉ started → (∀ i, inst_release_id (f i) = inst_release_id i) →
  keeps I (assign db_instances id f).
Proof.
  intros Hid Hni Hf. apply hoare_assign. intros d i Hd Hi. apply before_write_instance; [done..|].
  rewrite Hf. exact (before_release_id d id i Hd Hid Hi).
Qed.

Lemma before_assign_release id f : keeps I (assign db_releases id f).
Proof. apply hoare_assign. intros d r Hd _. exact Hd. Qed.

Lemma before_assign_deployment id f :
  (∀ p, same_deployment p (f p)) →
  keeps I (assign db_deployments id f).
Proof.
  intros Hf. apply hoare_assign. intros d p (?&?&Ht&?) Hp. split; [done|]. split; [done|]. split; [|done].
  intros q Hq. simpl in Hq. apply lookup_insert_Some in Hq as [[-> <-]|[? Hq]]; [|by apply Ht].
  specialize (Hf p). rewrite Hf. exact (Ht p Hp).
Qed.

Lemma before_transition_deployment id target actor :
  target ≠ DeploymentStatus.SUCCEEDED → keeps I (transition_deployment id target actor).
Proof.
  intros Hts. apply hoare_transition_deployment. intros d p e (?&?&Ht&?) Hp _ _. split; [done|]. split; [done|]. split; [|done].
  intros q Hq. simpl in Hq. apply lookup_insert_Some in Hq as [[-> <-]|[? Hq]]; [|by apply Ht].
  destruct (Ht p Hp) as (?&?&?&_). done.
Qed.

(** An allocated instance is new. *)
Lemma before_try_allocate a s p q :
  hoare I (try_allocate a new s p q) (λ x, ∀ id, x = inl id → db_instances d0 !! id = None ∧ id ∉ started).
Proof.
  assert (∀ d id, I d → db_instances d !! id = None → db_instances d0 !! id = None ∧ id ∉ started) as Hnew.
  { intros d id (Hk & _ & _ & (_ & Hs) & _ & _) Hid. split.
    - destruct (db_instances d0 !! id) as [i|] eqn:E; [|done]. by rewrite (Hk _ _ E) in Hid.
    - intros Hin. destruct (Hs id Hin) as (i & Hi & _). congruence. }
  eapply hoare_weaken.
  - apply hoare_try_allocate. intros d id i port Hd Hid (_ & Hr & _) _ _ _.
    destruct (Hnew d id Hd Hid). by apply before_write_instance.
  - intros x Hx id ->. destruct (Hx id eq_refl) as (d & Hd & Hid). by eapply Hnew.
Qed.

Lemma before_start_allocated d r i a c :
  db_instances d0 !! i = None → i ∉ started → keeps I (start_allocated d r i a c).
Proof.
  intros ? ?. pose proof (before_transition i).
  assert (∀ d, keeps I (assign db_instances i (λ i, i <| inst_deployment_id := d |>)))
    by (intros; by apply before_assign_instance).
  unfold start_allocated. keeps_auto.
Qed.

Lemma before_set_release_status r s : keeps I (set_release_status r s).
Proof. pose proof before_assign_release. unfold set_release_status. keeps_auto. Qed.

Lemma before_store_build r c : keeps I (store_build r c).
Proof. pose proof before_assign_release. unfold store_build. keeps_auto. Qed.

Lemma before_build_release d a r c ag : keeps I (_build_release d a r c ag).
Proof. pose proof before_set_release_status. pose proof before_store_build. unfold _build_release. keeps_auto. Qed.

Lemma before_release_lock_of t : keeps I (release_lock_of deployment t).
Proof.
  unfold release_lock_of, release. keeps_auto. apply hoare_update_application_where.
  intros d x (?&Hact&?) Hx _. split; [done|]. split; [by apply has_active_set_lock|done].
Qed.

End before.

(** Dropping the serving set. *)
Lemma before_weaken active started w : inv (before active started) w → inv (before active []) w.
Proof.
  assert (∀ d, untouched active started d → untouched active [] d) as Hw.
  { intros d (?&?&?&_&_&?). split; [done|]. split; [done|]. split; [done|].
    split; [split; [by apply NoDup_nil|]|split; [|done]]; intros id Hid; by apply elem_of_nil in Hid. }
  unfold before. rewrite !inv_strict. intros (?&?&?). auto.
Qed.

(** Stopping new instances. *)
Lemma before_stop_instances active d ag l c :
  (∀ id, id ∈ l → db_instances d0 !! id = None) → keeps (before active []) (_stop_instances d ag l c).
Proof.
  intros Hl. pose proof (before_agents active []). pose proof (before_records active []).
  unfold _stop_instances. apply keeps_for_each. intros id Hid.
  assert (∀ t, keeps (before active []) (InstanceRepository_transition id t)).
  { intros t. apply before_transition; [by apply Hl|]. apply not_elem_of_nil. }
  keeps_auto.
Qed.

Lemma before_fail active reason ag r l c :
  (∀ id, id ∈ l → db_instances d0 !! id = None) → keeps (before active []) (_fail deployment reason ag r l c).
Proof.
  intros Hl. pose proof (before_agents active []). pose proof (before_records active []).
  pose proof (before_set_release_status active []). 
  assert (∀ actor, keeps (before active []) (transition_deployment deployment DeploymentStatus.FAILED actor))
    by (intros; by apply before_transition_deployment).
  assert (∀ ag c, keeps (before active []) (_stop_instances deployment ag l c)) by (intros; by apply before_stop_instances).
  assert (∀ r, keeps (before active []) (assign db_deployments deployment (λ p, p <| dep_failure_reason := Some r |>)))
    by (intros; by apply before_assign_deployment).
  unfold _fail. destruct ag as [ag|], c as [c|], l as [|i l]; keeps_auto; auto.
Qed.

(** The move to RUNNING adds an instance to the serving set, once committed. *)
Lemma wp_pass_gate {A} active started id (k : M A) (Q : result exn A → World → Prop) w :
  inv (before active started) w → db_instances d0 !! id = None → id ∉ started →
  (∀ w', inv (before active (started ++ [id])) w' → wp k Q w') →
  (∀ e w', inv (before active started) w' → Q (Raise e) w') →
  wp (InstanceRepository_transition id InstanceStatus.RUNNING ≫= λ _, commit ≫= λ _, k) Q w.
Proof.
  intros Hw Hid Hni Hk He. eapply wp_transition_commit_bind; [exact Hw| |exact Hk|exact He].
  intros d i Hd Hi _. set (d' := d <| db_instances := _ |>).
  assert (untouched active started d') as (Hk1 & Ha1 & Ht1 & (Hnd & Hs) & Hn1 & Hr1).
  { apply (before_write_instance active started); [done..|]. simpl. by eapply (before_release_id active started). }
  split; [done|]. split; [done|]. split; [done|]. split; [split|split; [|done]].
  - apply NoDup_app. split; [done|]. split; [|apply NoDup_singleton].
    intros x Hx1 Hx2%list_elem_of_singleton. congruence.
  - intros k' [Hk'|Hk'%list_elem_of_singleton]%elem_of_app; [by apply Hs|subst k'].
    eexists. simpl. split; [apply lookup_insert_eq|]. split; [|done].
    eapply Hr1; [exact Hid|]. simpl. apply lookup_insert_eq.
  - intros k' [Hk'|Hk'%list_elem_of_singleton]%elem_of_app; [by apply Hn1|by subst k'].
Qed.

(** The gate: either every instance asked for is RUNNING, or nothing that was
    there before has changed. *)
Lemma wp_start_gate_loop n c ag srv p q hc sv active started w :
  inv (before active started) w →
  wp (start_gate_loop n deployment application new c ag srv p q hc sv started)
    (λ r w', match r with
             | Ok (Some l) => length l = (n + length started)%nat ∧ inv (before active l) w'
             | _ => inv (before active []) w'
             end) w.
Proof.
  revert started w. induction n as [|n IH]; intros started w Hw; [by apply wp_ret|]. simpl.
  assert (∀ id, id ∈ started → db_instances d0 !! id = None) as Hnew
    by (destruct Hw as ((_&_&_&_&?&_)&_); done).
  assert (∀ c, keeps (before active []) (_stop_instances deployment ag started c)) as Hstop
    by (intros; by apply before_stop_instances).
  pose proof (before_agents active started). pose proof (before_records active started).
  pose proof (before_agents active []). pose proof (before_records active []).
  eapply wp_bind_hoare; [apply before_try_allocate|exact Hw| |intros; by eapply before_weaken].
  intros [id|msg] w1 Hw1 Hx.
  - destruct (Hx id eq_refl) as [Hid Hni]. clear Hx.
    pose proof (before_transition active [] id) as Htrans.
    assert (id ∉ []) as Hnil by apply not_elem_of_nil.
    eapply (wp_bind_hoare (before active started)); [by apply before_start_allocated|exact Hw1| |intros; by eapply before_weaken].
    intros [] w2 Hw2 _; simpl.
    + eapply (wp_bind_hoare (before active started)); [apply keeps_gate_healthy; apply _|exact Hw2| |intros; by eapply before_weaken].
      intros [] w3 Hw3 _; simpl.
      * apply (wp_pass_gate active started id); [done..| |intros; by eapply before_weaken].
        intros w4 Hw4. eapply wp_mono; [by apply IH|].
        intros [[l|]|e] w5; [|done..]. rewrite length_app. simpl. intros [??]. split; [lia|done].
      * apply before_weaken in Hw3.
        eapply (wp_hoare (before active []) _ (λ r, r = None)); [|exact Hw3|].
        -- keeps_auto.
        -- intros [[l|]|e] w' Hi Hr; [|done..]. by specialize (Hr _ eq_refl).
    + apply before_weaken in Hw2.
      eapply (wp_hoare (before active []) _ (λ r, r = None)); [|exact Hw2|].
      * keeps_auto.
      * intros [[l|]|e] w' Hi Hr; [|done..]. by specialize (Hr _ eq_refl).
  - apply before_weaken in Hw1.
    eapply (wp_hoare (before active []) _ (λ r, r = None)); [|exact Hw1|].
    + keeps_auto.
    + intros [[l|]|e] w' Hi Hr; [|done..]. by specialize (Hr _ eq_refl).
Qed.

Lemma wp_start_and_health_gate c ag srv p q active w :
  inv (before active []) w →
  wp (_start_and_health_gate deployment application new c ag srv p q)
    (λ r w', match r with
             | Ok (Some l) => length l = Z.to_nat count ∧ inv (before active l) w'
             | _ => inv (before active []) w'
             end) w.
Proof.
  intros Hw. unfold _start_and_health_gate.
  eapply (wp_bind_keeps (before active [])); [keeps_auto|exact Hw| |done]. intros hc w1 Hw1.
  eapply (wp_bind_keeps (before active [])); [keeps_auto|exact Hw1| |done]. intros sv w2 Hw2.
  eapply (wp_bind_hoare (before active [])); [apply hoare_row|exact Hw2| |done].
  intros x w3 Hw3 (d & (_&_&Ht&_) & Hx). destruct (Ht x Hx) as (_ & _ & -> & _).
  eapply wp_mono; [by apply wp_start_gate_loop|].
  intros [[l|]|e] w'; [|done..]. simpl. by rewrite Nat.add_0_r.
Qed.

(** ** After the switch *)

Definition switched (l : list uuid) (d : DB) : Prop :=
  has_active application (Some new) d ∧ serving_set new l d.

Lemma switched_survives l r d : r ≠ new → switched l d → switched l (delete_release r d).
Proof.
  intros Hr ((a & Ha & Eact) & Hnd & Hs). split; [|split; [done|]].
  - exists a. unfold delete_release. simpl. rewrite lookup_fmap, Ha. simpl. split; [|done].
    rewrite decide_False; [done|]. congruence.
  - intros id Hid. destruct (Hs id Hid) as (i & Hi & Er & Es). rewrite delete_release_instance, Hi. simpl.
    eexists. split; [done|]. simpl. split; [|done]. rewrite decide_False; [done|]. congruence.
Qed.

Definition after (l : list uuid) : invariant :=
  {| holds := switched l; pending := λ r, r ≠ new; survives := switched_survives l |}.

Lemma after_before l w : inv (before (Some new) l) w → inv (after l) w.
Proof.
  assert (∀ d, untouched (Some new) l d → switched l d) as Hu by (by intros d (_&?&_&?&_)).
  intros Hw. apply inv_strict in Hw as (?&?&Hd). split; [by apply Hu|]. split; [by apply Hu|].
  intros r Hr. rewrite Hd in Hr. by apply elem_of_nil in Hr.
Qed.

Section after.
Context (l : list uuid).
Abbreviation J := (after l).

#[local] Instance after_agents : AgentStable J.
Proof.
  intros d d' Hf. simpl. unfold switched, has_active, serving_set.
  frame_rewrite db_instances. by frame_rewrite db_applications.
Qed.

#[local] Instance after_records : RecordStable J.
Proof.
  intros d d' Hf. simpl. unfold switched, has_active, serving_set.
  frame_rewrite db_instances. by frame_rewrite db_applications.
Qed.

Lemma after_transition id target : id ∉ l → keeps J (InstanceRepository_transition id target).
Proof.
  intros Hid. apply hoare_instance_transition. intros d i (Ha & Hnd & Hs) Hi _ _. split; [done|]. split; [done|].
  intros k Hk. destruct (Hs k Hk) as (j & Hj & ?). exists j. simpl. split; [|done].
  rewrite lookup_insert_ne; [done|]. congruence.
Qed.

Lemma after_stop_drained d ag c ids ok :
  (∀ id, id ∈ ids → id ∉ l) → keeps J (stop_drained d ag c ids ok).
Proof.
  revert ok. induction ids as [|id ids IH]; intros ok Hids; simpl; [keeps_auto|].
  assert (∀ t, keeps J (InstanceRepository_transition id t)) by (intros; apply after_transition, Hids; left).
  assert (∀ ok, keeps J (stop_drained d ag c ids ok)) by (intros; apply IH; intros; apply Hids; by right).
  keeps_auto.
Qed.

(** The instances that are drained serve another release. *)
Lemma after_drain d ag old c : old ≠ new → keeps J (_drain_old_release d ag old c).
Proof.
  intros Hold. unfold _drain_old_release. eapply hoare_bind; [apply hoare_query|].
  intros found (d1 & (_ & _ & Hs) & ->).
  assert (∀ id, id ∈ map fst (select db_instances (serving_release old) d1) → id ∉ l) as Hids.
  { intros id Hid Hin. destruct (Hs id Hin) as (i & Hi & Er & _).
    apply select_keys in Hid as (j & Hj & Hp).
    unfold serving_release in Hp. simpl in *. apply andb_true_iff in Hp as [Hp _].
    apply bool_decide_eq_true in Hp. congruence. }
  assert (∀ ok c, keeps J (stop_drained d ag c (map fst (select db_instances (serving_release old) d1)) ok))
    by (intros; by apply after_stop_drained).
  assert (∀ id t, id ∈ map fst (select db_instances (serving_release old) d1) →
            keeps J (InstanceRepository_transition id t)) by (intros; apply after_transition; by apply Hids).
  unfold sleep. keeps_auto.
Qed.

Lemma after_prune d ag c : keeps J (_prune_old_releases application d ag c).
Proof.
  unfold _prune_old_releases. apply keeps_bind; [keeps_auto|]. intros a0.
  apply keeps_bind; [keeps_auto|]. intros rels. apply keeps_bind; [|intros; keeps_auto].
  apply keeps_for_each. intros [r r_row] _.
  eapply hoare_bind; [apply hoare_row|]. intros a (d1 & ((b & Hb & Eb) & _) & Ha).
  case_bool_decide as Hr; [keeps_auto|].
  assert (keeps J (session_delete_release r)).
  { apply hoare_session_delete_release. simpl. congruence. }
  unfold prune_image. keeps_auto.
Qed.

Lemma after_transition_deployment id target actor : keeps J (transition_deployment id target actor).
Proof. apply hoare_transition_deployment. intros d p e Hd _ _ _. exact Hd. Qed.

Lemma after_release_lock_of t : keeps J (release_lock_of deployment t).
Proof.
  unfold release_lock_of, release. keeps_auto. apply hoare_update_application_where.
  intros d x (Hact&?) Hx _. split; [by apply has_active_set_lock|done].
Qed.

End after.

(** ** The whole run *)

(** How a switch ends: nothing that was there before has changed, or the new
    release is active with all its instances. *)
Definition outcome (old : option uuid) (w : World) : Prop :=
  inv (before old []) w ∨ ∃ l, length l = Z.to_nat count ∧ inv (after l) w.

Lemma outcome_before old started w : inv (before old started) w → outcome old w.
Proof. intros Hw. left. by eapply before_weaken. Qed.

Lemma set_active d r x a f :
  (∀ b, app_active_release_id (f b) = r) → has_active application x d → db_applications d !! application = Some a →
  has_active application r (d <| db_applications := <[application := f a]> (db_applications d) |>).
Proof. intros Hf _ Ha. exists (f a). simpl. split; [apply lookup_insert_eq|apply Hf]. Qed.

Lemma untouched_set_active d x r started a f :
  (∀ b, app_active_release_id (f b) = r) → untouched x started d → db_applications d !! application = Some a →
  untouched r started (d <| db_applications := <[application := f a]> (db_applications d) |>).
Proof.
  intros Hf (?&Hact&?&?&?&?) Ha. split; [done|]. split; [by eapply set_active|]. done.
Qed.

Lemma wp_activate_release ag c old l w :
  old ≠ Some new → length l = Z.to_nat count → inv (before old l) w →
  wp (activate_release deployment application new ag c l) (λ _ w', outcome old w') w.
Proof.
  intros Hold Hlen Hw. unfold activate_release.
  eapply wp_bind_hoare; [apply hoare_row|exact Hw| |intros; by eapply outcome_before].
  intros a w1 Hw1 (d1 & (_&(b & Hb & Eb)&_) & Ha). rewrite Hb in Ha. injection Ha as <-. rewrite Eb.
  eapply (wp_assign_commit db_applications application _ _ (untouched (Some new) l));
    [exact Hw1| | |intros; by eapply outcome_before].
  { intros d r Hd Hr. by eapply untouched_set_active. }
  intros w2 Hw2 _.
  assert (∀ w, inv (before (Some new) l) w → outcome old w) as Hout.
  { intros w' Hw'. right. exists l. split; [done|]. by apply after_before. }
  assert (∀ id, id ∈ l → db_instances d0 !! id = None) as Hnew
    by (destruct Hw as ((_&_&_&_&?&_)&_); done).
  apply wp_bind.
  apply (wp_mono _ (λ r w', match r with
                            | Ok true => inv (before (Some new) l) w'
                            | _ => outcome old w'
                            end)).
  - case_bool_decide as Hdom; [|by apply wp_ret].
    pose proof (before_records (Some new) l).
    eapply wp_bind_hoare; [apply hoare_row|exact Hw2| |intros; by apply Hout].
    intros p w3 Hw3 _.
    eapply (wp_bind_hoare (before (Some new) l)); [apply keeps_sync_gateway; apply _|exact Hw3| |intros; by apply Hout].
    intros res w4 Hw4 _. destruct (gs_ok res); [by apply wp_ret|].
    eapply (wp_assign_commit db_applications application _ _ (untouched old l)); [exact Hw4| | |intros; by apply Hout].
    { intros d r Hd Hr. by eapply untouched_set_active. }
    intros w5 Hw5 _. apply before_weaken in Hw5.
    eapply (wp_bind_hoare (before old [])); [by apply before_fail|exact Hw5| |intros; by left].
    intros _ w6 Hw6 _. apply wp_ret. by left.
  - intros [[]|e] w3 Hw3; [|by apply wp_ret|done].
    apply after_before in Hw3. simpl.
    pose proof (after_drain l) as Hdrain. pose proof (after_prune l) as Hprune.
    pose proof (after_transition_deployment l) as Htd.
    eapply (wp_keeps (after l)); [|exact Hw3|].
    + destruct old as [o|]; [assert (keeps (after l) (_drain_old_release deployment ag o c)) by (apply Hdrain; congruence)|];
        keeps_auto.
    + intros r w' Hw'. right. by exists l.
Qed.

Lemma wp_run_release_switch_body old w :
  old ≠ Some new → inv (before old []) w →
  wp (run_release_switch_body deployment) (λ _ w', outcome old w') w.
Proof.
  intros Hold Hw. unfold run_release_switch_body.
  pose proof (before_agents old []). pose proof (before_records old []).
  assert (∀ reason ag r c, keeps (before old []) (_fail deployment reason ag r [] c)) as Hfail.
  { intros. apply before_fail. intros id Hid. by apply elem_of_nil in Hid. }
  assert (∀ reason ag r c w', inv (before old []) w' →
            wp (_fail deployment reason ag r [] c) (λ _ w', outcome old w') w') as Hwpfail.
  { intros reason ag r c w' Hw'. eapply wp_keeps; [apply Hfail|exact Hw'|]. intros. by left. }
  eapply wp_bind_hoare; [apply hoare_row|exact Hw| |intros; by left].
  intros p w1 Hw1 (d1 & (_&_&Ht&_) & Hp). destruct (Ht p Hp) as (-> & -> & Hcount & _).
  eapply (wp_bind_keeps (before old [])); [keeps_auto|exact Hw1| |intros; by left]. intros arow w2 Hw2.
  eapply (wp_bind_keeps (before old [])); [keeps_auto|exact Hw2| |intros; by left]. intros rrow w3 Hw3.
  destruct arow as [a|]; [|by apply wp_ret; left]. destruct rrow as [r|]; [|by apply wp_ret; left].
  destruct (app_server_id a) as [srv|], (app_port_range_start a) as [ps|], (app_port_range_end a) as [pe|];
    try (by apply Hwpfail).
  eapply (wp_bind_keeps (before old [])); [keeps_auto|exact Hw3| |intros; by left]. intros c w4 Hw4.
  eapply (wp_bind_keeps (before old [])); [keeps_auto|exact Hw4| |intros; by left]. intros [[ag agrow]|] w5 Hw5;
    [|by apply Hwpfail].
  pose proof (before_build_release old []) as Hbuild.
  eapply (wp_bind_keeps (before old [])); [keeps_auto|exact Hw5| |intros; by left]. intros [] w6 Hw6; [|by apply Hwpfail].
  simpl. apply wp_bind. eapply wp_mono; [by apply wp_start_and_health_gate|].
  intros [[l|]|e] w7; [|by intros; apply Hwpfail|by intros; left].
  intros [Hlen Hw7]. by apply wp_activate_release.
Qed.

End switch.

Lemma has_active_eq application r d : has_active application r d → active_release application d = r.
Proof. intros (a & Ha & <-). unfold active_release. by rewrite Ha. Qed.

(** C1. A blue-green switch or rollback is all or nothing. Whatever agents,
    probes and the gateway answer, and whatever is raised on the way, when
    [run_release_switch] returns either every instance that existed before is
    exactly as it was, the active release is the old one and the deployment is
    not marked as succeeded; or the new release is active and as many
    different instances of it as the deployment asked for are RUNNING. *)
Theorem release_switch_all_or_nothing `{Env} w deployment token p a :
  w_committed w = w_db w → w_deleted w = [] →
  db_deployments (w_db w) !! deployment = Some p → dep_status p ≠ DeploymentStatus.SUCCEEDED →
  db_applications (w_db w) !! dep_application_id p = Some a →
  app_active_release_id a ≠ Some (dep_release_id p) →
  let d' := w_committed (run_release_switch deployment token w).2 in
  (instances_kept (w_db w) d' ∧ active_release (dep_application_id p) d' = app_active_release_id a ∧
   ∀ q, db_deployments d' !! deployment = Some q → dep_status q ≠ DeploymentStatus.SUCCEEDED) ∨
  (active_release (dep_application_id p) d' = Some (dep_release_id p) ∧
   ∃ l, length l = Z.to_nat (dep_instance_count p) ∧ serving_set (dep_release_id p) l d').
Proof.
  intros Hc Hd Hp Hst Ha Hne d'. subst d'.
  set (new := dep_release_id p) in *. set (count := dep_instance_count p).
  set (app := dep_application_id p) in *. set (old := app_active_release_id a) in *.
  assert (inv (before (w_db w) deployment app new count old []) w) as Hw.
  { apply inv_strict. rewrite Hc. assert (untouched (w_db w) deployment app new count old [] (w_db w)); [|done].
    split; [by intros id i|]. split; [by exists a|]. split; [intros q Hq; rewrite Hp in Hq; by injection Hq as <-|].
    split; [split; [by apply NoDup_nil|]; intros id Hid; by apply elem_of_nil in Hid|].
    split; [intros id Hid; by apply elem_of_nil in Hid|]. intros id i Hn Hi. congruence. }
  assert (wp (run_release_switch deployment token)
            (λ _ w', outcome (w_db w) deployment app new count old w') w) as Hrun.
  { unfold run_release_switch.
    eapply wp_bind_keeps; [eapply hoare_keeps, hoare_query|exact Hw| |intros; by left].
    intros [q|] w1 Hw1; [|by apply wp_ret; left]. apply wp_try_finally.
    eapply wp_mono; [by apply wp_run_release_switch_body|].
    intros r w2 [Hw2|(l & Hl & Hw2)].
    - eapply wp_keeps; [apply before_release_lock_of|exact Hw2|]. intros [] ? ?; by left.
    - eapply wp_keeps; [apply after_release_lock_of|exact Hw2|]. intros [] ? ?; right; by exists l. }
  destruct Hrun as [Hb|(l & Hl & (_ & (Hact & Hs) & _))].
  - left. apply inv_strict in Hb as (_ & (Hk & Hact & Ht & _) & _). split; [done|].
    split; [by apply has_active_eq|]. intros q Hq. by apply Ht in Hq as (_&_&_&?).
  - right. split; [by apply has_active_eq|]. by exists l.
Qed.
