(* ===== verification/LockRelease.v ===== *)
(** Background pipelines and the operation lock: [run_deployment], [run_scale]
    and [run_release_switch] release the lock they were handed. *)

From S2P Require Import Prelude Python Enums HealerYaml Schema Session Hoare Repositories Protocol.
From S2P Require Import LockService CommandService Scenario DeploymentService ScaleService.
From S2P Require Import ReleaseService.
Local Open Scope Z_scope.

(** Pending deletes neither bring rows back nor change the lock of an application. *)
Lemma deletes_deployment dels d id q :
  db_deployments (foldr delete_release d dels) !! id = Some q → db_deployments d !! id = Some q.
Proof.
  induction dels as [|r dels IH]; simpl; [done|]. intros Hq%map_lookup_filter_Some. apply IH, Hq.
Qed.

Lemma deletes_lock dels d id b :
  db_applications (foldr delete_release d dels) !! id = Some b →
  ∃ a, db_applications d !! id = Some a ∧ app_operation_lock_acquired_at b = app_operation_lock_acquired_at a.
Proof.
  revert b. induction dels as [|r dels IH]; intros b; simpl; [by exists b|].
  rewrite lookup_fmap, fmap_Some. intros (a & Ha & ->). destruct (IH _ Ha) as (a' & Ha' & E).
  exists a'. split; [done|]. rewrite <-E. by case_decide.
Qed.

(** No committed application row still carries the token of this deployment. *)
Definition token_gone (deployment : uuid) (token : Z) (d : DB) : Prop :=
  ∀ p a, db_deployments d !! deployment = Some p → db_applications d !! dep_application_id p = Some a →
    app_operation_lock_acquired_at a ≠ Some token.

Lemma release_lock_of_run deployment token w :
  match release_lock_of deployment token w with
  | (Ok _, w') => token_gone deployment token (w_committed w')
  | (Raise e, _) => e = PendingRollbackError ∨ e = ObjectDeletedError
  end.
Proof.
  unfold release_lock_of, row, session_get, query, require_active, mbind, st_bind. simpl.
  destruct (w_active w) eqn:Ha; simpl; [|by left].
  destruct (db_deployments (w_db w) !! deployment) as [p|] eqn:Ep; simpl; [|by right].
  unfold release, update_application_where, session_get, query, db_modify, commit, flush, require_active, mbind, st_bind.
  simpl. rewrite Ha. simpl.
  assert (∀ d, db_deployments d = db_deployments (w_db w) →
            (∀ a, db_applications d !! dep_application_id p = Some a → app_operation_lock_acquired_at a ≠ Some token) →
            token_gone deployment token (foldr delete_release d (w_deleted w))) as Hgone.
  { intros d Hd Ht q b Hq Hb. apply deletes_deployment in Hq. rewrite Hd, Ep in Hq. injection Hq as <-.
    apply deletes_lock in Hb as (a & ? & ->). by apply Ht. }
  destruct (db_applications (w_db w) !! dep_application_id p) as [a|] eqn:Ea; simpl.
  - case_bool_decide as Hb; simpl; rewrite Ha; simpl; rewrite ?Ha; simpl; apply Hgone; try done; simpl.
    + intros a'. rewrite lookup_insert_eq. by intros [= <-].
    + intros a' Ha'. rewrite Ea in Ha'. by injection Ha' as <-.
  - rewrite Ha. simpl. apply Hgone; [done|]. intros a'. by rewrite Ea.
Qed.

Lemma finally_releases {A} deployment token (body : M A) w :
  match try_finally body (release_lock_of deployment token) w with
  | (Ok _, w') => token_gone deployment token (w_committed w')
  | (Raise e, w') => token_gone deployment token (w_committed w') ∨ e = PendingRollbackError ∨ e = ObjectDeletedError
  end.
Proof.
  unfold try_finally. destruct (body w) as [r w1]. pose proof (release_lock_of_run deployment token w1) as Hfin.
  destruct (release_lock_of deployment token w1) as [[[]|e] w2]; [|by right]. destruct r; [done|by left].
Qed.

(** C12. Each background pipeline gives the operation lock back: when it ends,
    whether it returns or raises, no committed application row carries its lock
    token any more, unless its session was left unusable by a failed flush or
    its deployment row is gone. *)
Theorem pipelines_release_their_lock `{Env} run deployment token w :
  run = run_deployment ∨ run = run_scale ∨ run = run_release_switch →
  w_active w = true → is_Some (db_deployments (w_db w) !! deployment) →
  match run deployment token w with
  | (Ok _, w') => token_gone deployment token (w_committed w')
  | (Raise e, w') => token_gone deployment token (w_committed w') ∨ e = PendingRollbackError ∨ e = ObjectDeletedError
  end.
Proof.
  intros Hrun Ha [p Hp].
  destruct Hrun as [-> | [-> | ->]]; unfold run_deployment, run_scale, run_release_switch;
    rewrite (bind_run _ _ _ _ _ (session_get_run _ _ _ Ha)), Hp; apply finally_releases.
Qed.

Definition held_token : Z := 77.
Definition locked_db (kind : string) : DB :=
  (demo_db kind 1) <| db_applications := {[ app1 := set_lock (Some "deploy") (Some held_token) demo_app ]} |>.

Lemma pipelines_release_their_lock_witness :
  let E := outside (answers_at [5; 17; 32]%nat) probe_ok gateway_ok in
  let w := demo_world (locked_db "blue_green") in
  lock_of app1 w = Some (Some "deploy", Some held_token) ∧
  token_gone switch1 held_token (w_committed (run_release_switch switch1 held_token w).2).
Proof.
  intros E w. split; [vm_compute; reflexivity|].
  pose proof (pipelines_release_their_lock run_release_switch switch1 held_token w
    (or_intror (or_intror eq_refl)) eq_refl (mk_is_Some _ _ (eq_refl : _ = Some (demo_deployment "blue_green" 1)))) as Hw.
  assert ((run_release_switch switch1 held_token w).1 = Ok tt) as Hok by (vm_compute; reflexivity).
  destruct (run_release_switch switch1 held_token w) as [[]]; [exact Hw|discriminate].
Defined.
