(* ===== verification/DeploymentOutcome.v ===== *)
(** The outcome of a first deployment: [DeploymentService.run_deployment] takes
    the deployment, its instance, its release and the application's active
    release from one stage to the next together, and changes no other row of
    those tables. *)

From S2P Require Import Prelude Python Enums StateMachines HealerYaml Schema Session Hoare.
From S2P Require Import Repositories Protocol Invariants LockService CommandService Scenario.
From S2P Require Import ApplicationService AuditService GatewayService DeploymentService.
Local Open Scope Z_scope.

Section outcome.
Context `{Env} (d0 : DB) (deployment instance : uuid) (p : Deployment) (i : Instance).
Abbreviation application := (dep_application_id p).
Abbreviation release := (dep_release_id p).

(** How far the pipeline is: the status of the deployment and of the instance,
    the active release, and what the status of the release may be. Other
    deployments, instances, applications and releases are those of [d0]. *)
Definition stage (s : deployment_status) (t : instance_status) (active : option uuid) (rs : list release_status)
    (d : DB) : Prop :=
  db_deployments d = <[deployment := p <| dep_status := s |>]> (db_deployments d0) ∧
  db_instances d = <[instance := i <| inst_status := t |>]> (db_instances d0) ∧
  (∃ a, db_applications d !! application = Some a ∧ app_active_release_id a = active) ∧
  (∃ r, db_releases d !! release = Some r ∧ rel_status r ∈ rs) ∧
  (∀ k, k ≠ application → db_applications d !! k = db_applications d0 !! k) ∧
  (∀ k, k ≠ release → db_releases d !! k = db_releases d0 !! k).

Section kept.
Context (s : deployment_status) (t : instance_status) (active : option uuid) (rs : list release_status).
Abbreviation I := (strict (stage s t active rs)).

#[export] Instance stage_agents : AgentStable I.
Proof.
  intros d d' Hf. simpl. unfold stage. frame_rewrite db_deployments. frame_rewrite db_instances.
  frame_rewrite db_applications. by frame_rewrite db_releases.
Qed.

#[export] Instance stage_records : RecordStable I.
Proof.
  intros d d' Hf. simpl. unfold stage. frame_rewrite db_deployments. frame_rewrite db_instances.
  frame_rewrite db_applications. by frame_rewrite db_releases.
Qed.

Lemma stage_release_lock_of k : keeps I (release_lock_of deployment k).
Proof.
  unfold release_lock_of, LockService.release. eapply hoare_bind; [apply hoare_row|].
  intros q (d1 & (Hd & _) & Hq). rewrite Hd, lookup_insert_eq in Hq. injection Hq as <-. cbn [dep_application_id].
  apply keeps_bind; [|intros; keeps_auto]. apply hoare_update_application_where.
  intros d a (? & ? & (b & Hb & Eb) & ? & Hk & ?) Ha _. assert (b = a) as -> by (simpl in *; congruence).
  split; [done|]. split; [done|]. split; [|split; [done|split; [|done]]].
  - eexists. split; [apply lookup_insert_eq|]. done.
  - intros k' Hk'. simpl. rewrite lookup_insert_ne; [by apply Hk|done].
Qed.

End kept.

(** Writing the release. *)
Lemma stage_write_release s t active rs rs' d r r' :
  stage s t active rs d → db_releases d !! release = Some r → rel_status r' ∈ rs' →
  stage s t active rs' (d <| db_releases := <[release := r']> (db_releases d) |>).
Proof.
  intros (?&?&?&_&?&Hk) Hr Hs. split; [done|]. split; [done|]. split; [done|]. split; [|split; [done|]].
  - exists r'. split; [apply lookup_insert_eq|done].
  - intros k Hne. simpl. rewrite lookup_insert_ne; [by apply Hk|done].
Qed.

(** ** One write at a time

    A write of the pipeline changes the session; the change is committed with
    those that follow it, none of which can fail. *)

Lemma instance_transition_cases target j w :
  w_deleted w = [] → db_instances (w_db w) !! instance = Some j →
  (∃ e, InstanceRepository_transition instance target w = (Raise e, w)) ∨
  (∃ e, InstanceRepository_transition instance target w =
        (Raise e, w <| w_db := w_committed w |> <| w_deleted := [] |> <| w_active := false |>)) ∨
  ready w ∧ InstanceRepository_transition instance target w =
    (Ok tt, w <| w_db := (w_db w) <| db_instances := <[instance := j <| inst_status := target |>]> (db_instances (w_db w)) |> |>).
Proof.
  intros Hd Hi. unfold InstanceRepository_transition. destruct (w_active w) eqn:Ha.
  2:{ left. unfold row, session_get, query, require_active, mbind, st_bind. simpl. rewrite Ha. by eexists. }
  assert (ready w) as Hr by done. rewrite (bind_run _ _ _ _ _ (row_run _ _ _ _ Ha Hi)). unfold mbind at 1 4 7, st_bind at 1 4 7.
  rewrite require_transition_run. destruct (can_transition _ _ _); simpl; [|left; by eexists]. right.
  rewrite (bind_run _ _ _ _ _ (query_run _ _ Ha)). case_bool_decide; simpl; [right|left; by eexists].
  rewrite (bind_run _ _ _ _ _ (assign_run _ _ _ _ _ Ha Hi)), flush_run by exact Hr. done.
Qed.

Lemma wp_instance_step {A} s t active rs target (k : M A) (Q : result exn A → World → Prop) w :
  inv (strict (stage s t active rs)) w →
  (∀ w', ready w' → stage s target active rs (w_db w') → wp k Q w') →
  (∀ e w', inv (strict (stage s t active rs)) w' → Q (Raise e) w') →
  wp (InstanceRepository_transition instance target ≫= λ _, k) Q w.
Proof.
  intros Hw Hk He. pose proof Hw as (Hdb & Hc & Hd)%inv_strict. pose proof Hdb as (H1 & H2 & H3 & H4 & H5 & H6).
  assert (db_instances (w_db w) !! instance = Some (i <| inst_status := t |>)) as Hi by (rewrite H2; apply lookup_insert_eq).
  unfold wp, mbind, st_bind.
  destruct (instance_transition_cases target _ w Hd Hi) as [[e ->]|[[e ->]|[Hr ->]]]; simpl.
  - by apply He.
  - apply He. by apply inv_strict.
  - apply Hk; [done|]. split; [done|]. split; [|done]. simpl. by rewrite H2, insert_insert_eq.
Qed.

Lemma wp_deployment_step {A} s t active rs target (k : M A) (Q : result exn A → World → Prop) w :
  ready w → stage s t active rs (w_db w) → legal DEPLOYMENT_TRANSITIONS s target →
  (∀ w', ready w' → stage target t active rs (w_db w') → wp k Q w') →
  wp (transition_deployment deployment target None ≫= λ _, k) Q w.
Proof.
  intros Hr (H1 & H2 & H3 & H4 & H5 & H6) Hl Hk. unfold wp.
  destruct (transition_deployment_run deployment target None (p <| dep_status := s |>) w) as
    (w' & Hrun & Hr' & Hd & Hi & Ha & Hrel); [done|rewrite H1; apply lookup_insert_eq|done|].
  rewrite (bind_run _ _ _ _ _ Hrun). apply Hk; [done|].
  split; [by rewrite Hd, H1, insert_insert_eq|]. split; [by rewrite Hi|]. rewrite Ha, Hrel. done.
Qed.

Lemma wp_deployment_first {A} s t active rs target (k : M A) (Q : result exn A → World → Prop) w :
  inv (strict (stage s t active rs)) w → legal DEPLOYMENT_TRANSITIONS s target →
  (∀ w', ready w' → stage target t active rs (w_db w') → wp k Q w') →
  (∀ e w', inv (strict (stage s t active rs)) w' → Q (Raise e) w') →
  wp (transition_deployment deployment target None ≫= λ _, k) Q w.
Proof.
  intros Hw Hl Hk He. pose proof Hw as (Hdb & _ & Hd)%inv_strict. destruct (w_active w) eqn:Ha.
  - by eapply wp_deployment_step.
  - unfold wp, transition_deployment, row, session_get, query, require_active, mbind, st_bind. simpl. rewrite Ha. simpl.
    by apply He.
Qed.

(** An assignment to the release, to be committed with what follows. *)
Lemma wp_assign_release s t active rs rs' f w :
  inv (strict (stage s t active rs)) w → (∀ r, rel_status (f r) ∈ rs') →
  wp (assign db_releases release f)
    (λ r w', match r with
             | Ok _ => ready w' ∧ stage s t active rs' (w_db w')
             | Raise _ => inv (strict (stage s t active rs)) w'
             end) w.
Proof.
  intros Hw Hf. pose proof Hw as (Hdb & _ & Hd)%inv_strict. pose proof Hdb as (_ & _ & _ & (r & Hr & _) & _).
  unfold wp. destruct (w_active w) eqn:Ha.
  - rewrite (assign_run _ _ _ _ _ Ha Hr). split; [done|]. by eapply stage_write_release.
  - unfold assign, row, session_get, query, require_active, mbind, st_bind. simpl. by rewrite Ha.
Qed.

Lemma wp_activate_step {A} s t active rs (k : M A) (Q : result exn A → World → Prop) w :
  ready w → stage s t active rs (w_db w) →
  (∀ w', ready w' → stage s t (Some release) rs (w_db w') → wp k Q w') →
  wp (assign db_applications application (λ a, a <| app_active_release_id := Some release |>) ≫= λ _, k) Q w.
Proof.
  intros Hr (H1 & H2 & (a & Ha & _) & H4 & H5 & H6) Hk. unfold wp.
  rewrite (bind_run _ _ _ _ _ (assign_run _ _ _ _ _ (proj1 Hr) Ha)). apply Hk; [done|].
  split; [done|]. split; [done|]. split; [|split; [done|split; [|done]]].
  - eexists. split; [apply lookup_insert_eq|done].
  - intros k' Hk'. simpl. rewrite lookup_insert_ne; [by apply H5|done].
Qed.

Lemma wp_commit_step {A} (P : DB → Prop) (k : M A) (Q : result exn A → World → Prop) w :
  ready w → P (w_db w) → (∀ w', inv (strict P) w' → wp k Q w') → wp (commit ≫= λ _, k) Q w.
Proof.
  intros Hr HP Hk. unfold wp. rewrite (bind_run _ _ _ _ _ (commit_run w Hr)). apply Hk, inv_strict.
  split; [done|]. split; [done|]. apply Hr.
Qed.

Lemma wp_commit_last (P : DB → Prop) (Q : result exn unit → World → Prop) w :
  ready w → P (w_db w) → (∀ w', inv (strict P) w' → Q (Ok tt) w') → wp commit Q w.
Proof.
  intros Hr HP HQ. unfold wp. rewrite (commit_run w Hr). apply HQ, inv_strict.
  split; [done|]. split; [done|]. apply Hr.
Qed.

(** ** Outcomes *)

Context (active : option uuid).

Definition no_agent (d : DB) : Prop := ∀ k g, db_agents d !! k = Some g → ag_server_id g ≠ inst_server_id i.

(** [rows] says where the pipeline is; [r] is what the pipeline returned. *)
Definition ended (rows : (DB → Prop) → Prop) (r : result exn unit) : Prop :=
  rows (stage DeploymentStatus.SUCCEEDED InstanceStatus.RUNNING (Some release) [ReleaseStatus.READY]) ∨
  (∃ rs, rows (stage DeploymentStatus.FAILED InstanceStatus.FAILED active rs)) ∨
  (no_agent d0 ∧ ∃ rs, rows (stage DeploymentStatus.FAILED InstanceStatus.PENDING active rs)) ∨
  (∃ e t rs, r = Raise e ∧ t ∈ [InstanceStatus.PENDING; InstanceStatus.STARTING] ∧
     rows (stage DeploymentStatus.IN_PROGRESS t active rs)).

Abbreviation outcome := (λ r w, ended (λ P, inv (strict P) w) r).

Lemma outcome_pending e rs w :
  inv (strict (stage DeploymentStatus.IN_PROGRESS InstanceStatus.PENDING active rs)) w → outcome (Raise e) w.
Proof. intros Hw. right. right. right. exists e, InstanceStatus.PENDING, rs. split; [done|]. split; [left|done]. Qed.

Lemma outcome_starting e rs w :
  inv (strict (stage DeploymentStatus.IN_PROGRESS InstanceStatus.STARTING active rs)) w → outcome (Raise e) w.
Proof. intros Hw. right. right. right. exists e, InstanceStatus.STARTING, rs. split; [done|]. split; [right; left|done]. Qed.

Lemma wp_fail_together t rs w :
  inv (strict (stage DeploymentStatus.IN_PROGRESS t active rs)) w →
  (∀ e w', inv (strict (stage DeploymentStatus.IN_PROGRESS t active rs)) w' → outcome (Raise e) w') →
  wp (InstanceRepository_transition instance InstanceStatus.FAILED ;;
      transition_deployment deployment DeploymentStatus.FAILED None ;; commit) outcome w.
Proof.
  intros Hw He. eapply wp_instance_step; [exact Hw| |exact He].
  intros w1 Hr1 H1. eapply wp_deployment_step; [exact Hr1|exact H1|reflexivity|].
  intros w2 Hr2 H2. eapply wp_commit_last; [exact Hr2|exact H2|]. intros w3 Hw3. right. left. by exists rs.
Qed.

(** ** The pipeline *)

Hypothesis Hfirst :
  first (select db_instances (λ j, bool_decide (inst_release_id j = Some release)) d0) = Some (instance, i).
Hypothesis Hrelease : is_Some (db_releases d0 !! release).
Hypothesis Happlication : is_Some (db_applications d0 !! application).
Hypothesis Hdeployment : db_deployments d0 !! deployment = Some p.
Hypothesis Hbegin : ∃ rs, stage DeploymentStatus.IN_PROGRESS InstanceStatus.PENDING active rs d0.

Abbreviation building := (strict (stage DeploymentStatus.IN_PROGRESS InstanceStatus.PENDING active
  [ReleaseStatus.BUILDING])).
Abbreviation starting := (strict (stage DeploymentStatus.IN_PROGRESS InstanceStatus.STARTING active
  [ReleaseStatus.READY])).

(** The second half: starting the instance of a release that was built. *)
Lemma wp_start config agent w :
  inv (strict (stage DeploymentStatus.IN_PROGRESS InstanceStatus.PENDING active [ReleaseStatus.READY])) w →
  wp (InstanceRepository_transition instance InstanceStatus.STARTING ;;
      commit ;;
      start_payload ← _build_start_instance_payload release instance config;
      start_command ← submit_command_and_wait agent AgentCommandType.START_INSTANCE start_payload
                        ("start-instance:" +:+ str_uuid instance) None 200;
      start_ok ← _persist_agent_outcome deployment start_command;
      if start_ok : bool then
        InstanceRepository_transition instance InstanceStatus.RUNNING ;;
        transition_deployment deployment DeploymentStatus.SUCCEEDED None ;;
        assign db_applications application (λ a, a <| app_active_release_id := Some release |>) ;;
        commit ;;
        when (bool_decide (is_Some (hy_domain config))) (_sync_gateway_step deployment application)
      else
        InstanceRepository_transition instance InstanceStatus.FAILED ;;
        transition_deployment deployment DeploymentStatus.FAILED None ;;
        commit) outcome w.
Proof.
  intros Hw.
  assert (∀ e w', inv starting w' → outcome (Raise e) w') as He by (intros; by eapply outcome_starting).
  eapply wp_instance_step; [exact Hw| |intros; by eapply outcome_pending]. intros w1 Hr1 H1.
  eapply wp_commit_step; [exact Hr1|exact H1|]. clear Hw. intros w2 Hw.
  do 3 (eapply wp_bind_keeps; [keeps_auto|eassumption| |exact He]; clear Hw; intros ? ? Hw).
  match goal with |- wp (if ?b then _ else _) _ _ => destruct b end; [|by eapply wp_fail_together].
  eapply wp_instance_step; [exact Hw| |exact He]. intros w6 Hr6 H6.
  eapply wp_deployment_step; [exact Hr6|exact H6|reflexivity|]. intros w7 Hr7 H7.
  eapply wp_activate_step; [exact Hr7|exact H7|]. intros w8 Hr8 H8.
  eapply wp_commit_step; [exact Hr8|exact H8|]. intros w9 Hw9.
  eapply wp_keeps; [|exact Hw9|by left]. keeps_auto.
Qed.

(** The result of the build. *)
Lemma wp_store_build command w :
  inv building w →
  wp (store_build release command)
    (λ r w', match r with
             | Ok _ => ready w' ∧ stage DeploymentStatus.IN_PROGRESS InstanceStatus.PENDING active [ReleaseStatus.READY] (w_db w')
             | Raise _ => inv building w'
             end) w.
Proof.
  intros Hw. unfold store_build.
  do 5 (eapply wp_bind_keeps; [keeps_auto|eassumption| |done]; clear Hw; intros ? ? Hw).
  eapply wp_assign_release; [exact Hw|]. intros r. left.
Qed.

Lemma wp_run_deployment_body w :
  inv (strict (λ d, d = d0)) w → wp (run_deployment_body deployment) outcome w.
Proof.
  assert (∀ w, inv (strict (λ d, d = d0)) w → ∃ rs,
    inv (strict (stage DeploymentStatus.IN_PROGRESS InstanceStatus.PENDING active rs)) w) as Hstart.
  { intros w' (E1 & E2 & Hd)%inv_strict. destruct Hbegin as [rs Hs]. exists rs. apply inv_strict. by rewrite E1, E2. }
  assert (∀ e w, inv (strict (λ d, d = d0)) w → outcome (Raise e) w) as He.
  { intros e w' [rs Hw']%Hstart. by eapply outcome_pending. }
  assert (∀ e w, inv building w → outcome (Raise e) w) as Heb by (intros; by eapply outcome_pending).
  intros Hw. unfold run_deployment_body.
  eapply wp_bind_hoare; [apply hoare_row|exact Hw| |exact He]. clear Hw. intros q w1 Hw (d1 & -> & Hq).
  assert (q = p) as -> by congruence.
  do 2 (eapply wp_bind_hoare; [apply hoare_query|eassumption| |exact He]; clear Hw; intros ? ? Hw (? & -> & ->)).
  rewrite !bool_decide_eq_true_2 by done. cbn [andb negb].
  eapply wp_bind_hoare; [apply hoare_query|exact Hw| |exact He]. clear Hw. intros found w4 Hw (d4 & -> & ->).
  rewrite Hfirst. eapply wp_bind_keeps; [keeps_auto|exact Hw| |exact He]. clear Hw. intros config w5 Hw.
  eapply wp_bind_hoare; [apply hoare_query|exact Hw| |exact He]. clear Hw. intros ag w6 Hw (d6 & -> & ->).
  pose proof (first_select db_agents (λ a, bool_decide (ag_server_id a = inst_server_id i)) d0) as Hag.
  destruct (first (select db_agents _ _)) as [[agent g]|].
  - destruct (Hstart _ Hw) as [rs Hs]. clear Hw. unfold set_release_status.
    eapply (wp_assign_commit db_releases release _ _ (stage _ _ _ [ReleaseStatus.BUILDING])); [exact Hs| | |].
    { intros d r Hd Hr. eapply stage_write_release; [done..|]. left. }
    2:{ intros. by eapply outcome_pending. }
    clear Hs. intros w7 Hw _.
    do 3 (eapply wp_bind_keeps; [keeps_auto|eassumption| |exact Heb]; clear Hw; intros ? ? Hw).
    match goal with |- wp ((if ?b then _ else _) ≫= _) _ _ => destruct b end; apply wp_bind.
    + eapply wp_mono; [by apply wp_store_build|]. intros [[]|e] w8; [intros [Hr8 H8]|by apply Heb].
      eapply wp_commit_step; [exact Hr8|exact H8|]. intros w9 Hw9. cbn [negb]. by apply wp_start.
    + eapply wp_mono; [by eapply (wp_assign_release _ _ _ _ [ReleaseStatus.FAILED]); [exact Hw|intros; left]|].
      intros [[]|e] w8; [intros [Hr8 H8]|by apply Heb].
      eapply wp_commit_step; [exact Hr8|exact H8|]. intros w9 Hw9. cbn [negb].
      eapply wp_fail_together; [exact Hw9|]. intros. by eapply outcome_pending.
  - destruct (Hstart _ Hw) as [rs Hs]. clear Hw.
    eapply wp_bind_keeps; [keeps_auto|exact Hs| |intros; by eapply outcome_pending]. clear Hs. intros _ w7 Hw.
    eapply wp_deployment_first; [exact Hw|reflexivity| |intros; by eapply outcome_pending]. intros w8 Hr8 H8.
    eapply wp_commit_last; [exact Hr8|exact H8|]. intros w9 Hw9. right. right. left. split; [|by exists rs].
    intros k g Hg. apply Hag in Hg. by apply bool_decide_eq_false in Hg.
Qed.

End outcome.

Lemma ended_mono d0 deployment instance p i active (rows rows' : (DB → Prop) → Prop) r r' :
  (∀ s t x rs, let P := stage d0 deployment instance p i s t x rs in rows P → rows' P) → (∀ e, r = Raise e → ∃ e', r' = Raise e') →
  ended d0 deployment instance p i active rows r → ended d0 deployment instance p i active rows' r'.
Proof.
  intros HP Hr [?|[(rs & ?)|[(? & rs & ?)|(e & t & rs & E & ? & ?)]]].
  - left. by apply HP.
  - right. left. exists rs. by apply HP.
  - right. right. left. split; [done|]. exists rs. by apply HP.
  - right. right. right. destruct (Hr e E) as [e' ->]. exists e', t, rs. split; [done|]. split; [done|by apply HP].
Qed.

(** C2. A first deployment has one of four outcomes, whatever the agent answers:
    it went live (the deployment SUCCEEDED, its instance is RUNNING and its
    release READY and active); it failed (the deployment and its instance FAILED,
    the active release is the one there was); there was no agent to run it (it
    FAILED and its instance is PENDING still); or an exception ended it, and then
    it is IN_PROGRESS with its instance not yet RUNNING and the active release the
    one there was. No other deployment, instance, application or release
    changes. *)
Theorem first_deployment_outcome `{Env} deployment instance token p i a w :
  w_committed w = w_db w → ready w →
  db_deployments (w_db w) !! deployment = Some p → dep_status p = DeploymentStatus.IN_PROGRESS →
  db_applications (w_db w) !! dep_application_id p = Some a → is_Some (db_releases (w_db w) !! dep_release_id p) →
  first (select db_instances (λ j, bool_decide (inst_release_id j = Some (dep_release_id p))) (w_db w)) =
    Some (instance, i) →
  inst_status i = InstanceStatus.PENDING →
  let '(r, w') := run_deployment deployment token w in
  ended (w_db w) deployment instance p i (app_active_release_id a) (λ rows, rows (w_committed w')) r.
Proof.
  intros Hc [Ha Hd] Hp Hps Happ [rel Hrel] Hfirst His.
  pose proof (first_select db_instances (λ j, bool_decide (inst_release_id j = Some (dep_release_id p))) (w_db w)) as Hi.
  rewrite Hfirst in Hi. destruct Hi as [Hi _].
  assert (∃ rs, stage (w_db w) deployment instance p i DeploymentStatus.IN_PROGRESS InstanceStatus.PENDING
                  (app_active_release_id a) rs (w_db w)) as Hbegin.
  { exists [rel_status rel]. rewrite <-Hps, <-His.
    split; [symmetry; apply insert_id; rewrite Hp; by destruct p|].
    split; [symmetry; apply insert_id; rewrite Hi; by destruct i|].
    split; [by exists a|]. split; [|done]. exists rel. split; [done|left]. }
  unfold run_deployment. rewrite (bind_run _ _ _ _ _ (session_get_run _ _ _ Ha)), Hp.
  pose proof (wp_run_deployment_body (w_db w) deployment instance p i (app_active_release_id a) Hfirst
    (mk_is_Some _ _ Hrel) (mk_is_Some _ _ Happ) Hp Hbegin w) as Hbody.
  unfold try_finally. unfold wp in Hbody. destruct (run_deployment_body deployment w) as [r w1].
  destruct (release_lock_of deployment token w1) as [rf w2] eqn:Efin.
  assert (ended (w_db w) deployment instance p i (app_active_release_id a) (λ P, inv (strict P) w1) r) as Hend.
  { apply Hbody, inv_strict. by rewrite Hc. }
  assert (∀ r', (∀ e, r = Raise e → ∃ e', r' = Raise e') →
    ended (w_db w) deployment instance p i (app_active_release_id a) (λ rows, rows (w_committed w2)) r') as Hfin.
  { intros r' Hr'. eapply ended_mono; [|exact Hr'|exact Hend]. intros s t x rs P HP.
    destruct (stage_release_lock_of (w_db w) deployment instance p i s t x rs token w1 HP) as [Hw2 _].
    rewrite Efin in Hw2. by apply inv_strict in Hw2 as (_ & ? & _). }
  destruct rf; apply Hfin; [eauto|]. intros e0 _. by eexists.
Qed.

(** ** A concrete run *)

Definition first_instance : Instance :=
  (demo_instance InstanceStatus.PENDING 9001) <| inst_release_id := Some new_release |>.

Definition first_db : DB :=
  (demo_db "deploy" 1) <| db_instances := <[90%N := first_instance]> (db_instances (demo_db "deploy" 1)) |>.

Lemma first_deployment_outcome_witness :
  let E := outside (answers_at [5; 15]%nat) probe_ok gateway_ok in
  let run := run_deployment switch1 77 (demo_world first_db) in
  (run.1, inst_status <$> db_instances (w_committed run.2) !! 90%N) = (Ok tt, Some InstanceStatus.RUNNING) ∧
  ended first_db switch1 90%N (demo_deployment "deploy" 1) first_instance (Some old_release)
    (λ rows, rows (w_committed run.2)) run.1.
Proof.
  intros E run. split; [vm_compute; reflexivity|].
  assert (first (select db_instances (λ j, bool_decide (inst_release_id j = Some new_release)) first_db) =
            Some (90%N, first_instance)) as Hfirst by (vm_compute; reflexivity).
  assert (is_Some (db_releases first_db !! new_release)) as Hrel by (vm_compute; by eexists).
  pose proof (first_deployment_outcome switch1 90%N 77 (demo_deployment "deploy" 1) first_instance demo_app
    (demo_world first_db) eq_refl (conj eq_refl eq_refl) eq_refl eq_refl eq_refl Hrel Hfirst eq_refl) as Hw.
  unfold run. destruct (run_deployment switch1 77 (demo_world first_db)) as [r w']. exact Hw.
Defined.
