(* ===== verification/ScaleOutcome.v ===== *)
(** The outcome of a scale operation: [ScaleService.run_scale].

    The run is followed through what it does to the instances: a scale-up adds
    instances and leaves those it found alone ([grown]), a scale-down changes the
    instances it chose to drain and no other ([shrunk]). *)

From S2P Require Import Prelude Python Enums StateMachines HealerYaml Schema Session Hoare.
From S2P Require Import Repositories Protocol Invariants LockService CommandService Scenario.
From S2P Require Import ApplicationService AuditService GatewayService HealthCheckService.
From S2P Require Import DeploymentService ScaleService ReleaseSwitch.
Local Open Scope Z_scope.

(** The instances that count as replicas of an application. *)
Definition replicas (application : uuid) (m : gmap uuid Instance) : list (uuid * Instance) :=
  List.filter (λ kv, is_live_of application kv.2) (map_to_list m).

Lemma replicas_keys application m id :
  id ∈ map fst (replicas application m) ↔ ∃ i, m !! id = Some i ∧ is_live_of application i = true.
Proof. exact (select_keys db_instances (is_live_of application) (empty_db <| db_instances := m |>) id). Qed.

Lemma replicas_nodup application m : NoDup (map fst (replicas application m)).
Proof. exact (select_keys_nodup db_instances (is_live_of application) (empty_db <| db_instances := m |>)). Qed.

Section scale.
Context `{Env} (d0 : DB) (deployment : uuid) (p : Deployment).
Abbreviation application := (dep_application_id p).
Abbreviation release := (dep_release_id p).

(** ** Rows *)

(** The deployment has status [s], the instances satisfy [N]; no other
    deployment, no release and no active release has changed. *)
Definition rows (s : deployment_status) (N : gmap uuid Instance → Prop) (d : DB) : Prop :=
  db_deployments d = <[deployment := p <| dep_status := s |>]> (db_deployments d0) ∧
  db_releases d = db_releases d0 ∧
  (∀ k, active_release k d = active_release k d0) ∧ N (db_instances d).

Lemma rows_mono s (N N' : gmap uuid Instance → Prop) w :
  (∀ m, N m → N' m) → inv (strict (rows s N)) w → inv (strict (rows s N')) w.
Proof.
  intros HN. rewrite !inv_strict. unfold rows. intros ((?&?&?&?)&(?&?&?&?)&?). repeat split; auto.
Qed.

#[export] Instance rows_agents s N : AgentStable (strict (rows s N)).
Proof.
  intros d d' Hf. simpl. unfold rows, active_release. frame_rewrite db_deployments. frame_rewrite db_instances.
  frame_rewrite db_applications. by frame_rewrite db_releases.
Qed.

#[export] Instance rows_records s N : RecordStable (strict (rows s N)).
Proof.
  intros d d' Hf. simpl. unfold rows, active_release. frame_rewrite db_deployments. frame_rewrite db_instances.
  frame_rewrite db_applications. by frame_rewrite db_releases.
Qed.

Lemma rows_release_lock_of s N k : keeps (strict (rows s N)) (release_lock_of deployment k).
Proof.
  unfold release_lock_of, LockService.release. eapply hoare_bind; [apply hoare_row|]. intros q _.
  apply keeps_bind; [|intros; keeps_auto]. apply hoare_update_application_where.
  intros d a (?&?&Hact&?) Ha _. split; [done|]. split; [done|]. split; [|done].
  intros k'. rewrite <-Hact. unfold active_release. simpl.
  destruct (decide (k' = dep_application_id q)) as [->|]; [by rewrite lookup_insert_eq, Ha|by rewrite lookup_insert_ne].
Qed.

(** Changes of one instance. *)
Lemma rows_transition s N id target :
  (∀ m i, N m → m !! id = Some i → legal INSTANCE_TRANSITIONS (inst_status i) target →
     N (<[id := i <| inst_status := target |>]> m)) →
  keeps (strict (rows s N)) (InstanceRepository_transition id target).
Proof.
  intros HN. apply hoare_instance_transition. intros d i (?&?&?&?) Hi Hl _.
  split; [done|]. split; [done|]. split; [done|]. by apply HN.
Qed.

Lemma rows_assign s N id f :
  (∀ m i, N m → m !! id = Some i → N (<[id := f i]> m)) → keeps (strict (rows s N)) (assign db_instances id f).
Proof.
  intros HN. apply hoare_assign. intros d i (?&?&?&?) Hi. split; [done|]. split; [done|]. split; [done|]. by apply HN.
Qed.

Lemma wp_rows_transition {A} s (N N' : gmap uuid Instance → Prop) id target (k : M A) Q w :
  inv (strict (rows s N)) w →
  (∀ m i, N m → m !! id = Some i → legal INSTANCE_TRANSITIONS (inst_status i) target →
     N' (<[id := i <| inst_status := target |>]> m)) →
  (∀ w', inv (strict (rows s N')) w' → wp k Q w') →
  (∀ e w', inv (strict (rows s N)) w' → Q (Raise e) w') →
  wp (InstanceRepository_transition id target ≫= λ _, commit ≫= λ _, k) Q w.
Proof.
  intros Hw HN Hk He. eapply wp_transition_commit_bind; [exact Hw| |exact Hk|exact He].
  intros d i (?&?&?&?) Hi Hl. split; [done|]. split; [done|]. split; [done|]. by apply HN.
Qed.

(** ** Scaling up *)

(** Every instance of [d0] is as it was, and every other belongs to the
    application and the release. The instances [started] are new and RUNNING;
    with [only], there is no new instance but those. *)
Definition grown (started : list uuid) (only : option (list uuid)) (m : gmap uuid Instance) : Prop :=
  db_instances d0 ⊆ m ∧
  (∀ id i, db_instances d0 !! id = None → m !! id = Some i →
     inst_application_id i = application ∧ inst_release_id i = Some release ∧
     match only with Some l => id ∈ l | None => True end) ∧
  NoDup started ∧
  ∀ id, id ∈ started → db_instances d0 !! id = None ∧ ∃ i, m !! id = Some i ∧ inst_status i = InstanceStatus.RUNNING.

Lemma grown_any started only m : grown started only m → grown [] None m.
Proof.
  intros (? & Hn & _). split; [done|]. split; [|split; [by apply NoDup_nil|intros id Hid; by apply elem_of_nil in Hid]].
  intros id i H1 H2. by destruct (Hn id i H1 H2) as (?&?&_).
Qed.

(** Writing a new instance that is not among the started ones. *)
Lemma grown_write started only id i m :
  grown started only m → db_instances d0 !! id = None → id ∉ started →
  match only with Some l => id ∈ l | None => True end →
  inst_application_id i = application → inst_release_id i = Some release →
  grown started only (<[id := i]> m).
Proof.
  intros (Hk & Hn & Hnd & Hs) Hid Hni Ho Ha Hr. split; [|split; [|split; [done|]]].
  - by apply insert_subseteq_r.
  - intros k j Hk0 [[<- <-]|[? Hj]]%lookup_insert_Some; [done|by apply Hn].
  - intros k Hin. destruct (Hs k Hin) as (? & j & Hj & ?). split; [done|]. exists j.
    rewrite lookup_insert_ne; [done|]. congruence.
Qed.

Lemma grown_more started only only' m : only ⊆ only' → grown started (Some only) m → grown started (Some only') m.
Proof.
  intros Ho (?&Hn&?). split; [done|]. split; [|done]. intros id i Hid Hi. destruct (Hn id i Hid Hi) as (?&?&?). auto.
Qed.

(** While all has gone well, the new instances are those that were started;
    [id] is the one that is being started. *)
Definition fine (ok : bool) (l : list uuid) : gmap uuid Instance → Prop := if ok then grown l (Some l) else grown [] None.
Definition pending_start (ok : bool) (l : list uuid) (id : uuid) (m : gmap uuid Instance) : Prop :=
  db_instances d0 !! id = None ∧ (if ok then (id ∉ l) ∧ grown l (Some (id :: l)) m else grown [] None m).

Lemma pending_grown ok l id m : pending_start ok l id m → grown [] None m.
Proof. intros [_ Hg]. destruct ok; [destruct Hg as [_ Hg]; by eapply grown_any|done]. Qed.

Lemma pending_new ok l id m i :
  pending_start ok l id m → m !! id = Some i → inst_application_id i = application ∧ inst_release_id i = Some release.
Proof. intros Hp Hi. pose proof (pending_grown _ _ _ _ Hp) as (_ & Hn & _). destruct Hp as [Hid _]. by destruct (Hn id i Hid Hi) as (?&?&_). Qed.

(** The instance may be changed in any way that keeps what it belongs to. *)
Lemma pending_write ok l id m i :
  pending_start ok l id m → inst_application_id i = application → inst_release_id i = Some release →
  pending_start ok l id (<[id := i]> m).
Proof.
  intros [Hid Hg] Ha Hr. split; [done|].
  destruct ok; [destruct Hg as [? Hg]; split; [done|]|]; apply grown_write; try done; [left|apply not_elem_of_nil].
Qed.

Lemma pending_running ok l id m i :
  pending_start ok l id m → m !! id = Some i →
  fine ok (l ++ [id]) (<[id := i <| inst_status := InstanceStatus.RUNNING |>]> m).
Proof.
  intros Hp Hi. destruct (pending_new _ _ _ _ _ Hp Hi) as [Ha Hr].
  assert (pending_start ok l id (<[id := i <| inst_status := InstanceStatus.RUNNING |>]> m)) as Hw
    by (by apply pending_write).
  destruct ok; [|exact (pending_grown false l id _ Hw)]. destruct Hw as (Hid & Hni & Hg).
  apply (grown_more l (id :: l) (l ++ [id])) in Hg as (Hk & Hn & Hnd & Hs); [|intros x; set_solver].
  split; [done|]. split; [done|]. split.
  - apply NoDup_app. split; [done|]. split; [|apply NoDup_singleton]. set_solver.
  - intros k [Hin|E%list_elem_of_singleton]%elem_of_app; [by apply Hs|subst k]. split; [done|].
    eexists. split; [apply lookup_insert_eq|done].
Qed.

(** Allocation of an instance. *)
Lemma wp_allocate {B} s ok l srv ps pe (f : uuid + string → M B) (Q : result exn B → World → Prop) w :
  inv (strict (rows s (fine ok l))) w →
  (∀ id w', inv (strict (rows s (pending_start ok l id))) w' → wp (f (inl id)) Q w') →
  (∀ msg w', inv (strict (rows s (fine ok l))) w' → wp (f (inr msg)) Q w') →
  (∀ e w', inv (strict (rows s (fine ok l))) w' → Q (Raise e) w') →
  wp (try_allocate application release srv ps pe ≫= f) Q w.
Proof.
  intros Hw Hf Hf' He. pose proof Hw as (Hdb & Hc & Hd)%inv_strict.
  pose proof (try_allocate_cases application release srv ps pe w) as Hcase. apply wp_bind. unfold wp at 1.
  destruct (try_allocate _ _ _ _ _ w) as [r w']. destruct Hcase as (Ec & Ed & Hcase). simpl.
  assert (w_deleted w' = []) as Ed' by (destruct Ed; congruence).
  assert (w_db w' = w_db w ∨ w_db w' = w_committed w → inv (strict (rows s (fine ok l))) w') as Hsame.
  { intros E. apply inv_strict. rewrite Ec, Ed'. by destruct E as [->| ->]. }
  destruct r as [[id|msg]|e]; [|by apply Hf', Hsame; left|by apply He, Hsame].
  destruct Hcase as (port & i & Hid & (Ha & Hr & _) & E). apply Hf, inv_strict. rewrite E, Ec, Ed'.
  destruct Hdb as (D1 & D2 & D3 & D4), Hc as (C1 & C2 & C3 & C4).
  assert (∀ m, fine ok l m → grown [] None m) as Hany by (intros m; destruct ok; [apply grown_any|done]).
  assert (db_instances d0 !! id = None) as Hid0.
  { destruct (Hany _ D4) as [Hk _]. by eapply lookup_weaken_None. }
  assert (∀ m, fine ok l m → (∀ m', ok = true → m' = m ∨ m' = <[id := i]> m → (id ∉ l) ∧ grown l (Some (id :: l)) m')) as Hok.
  { intros m Hm m' -> Hm'. assert (id ∉ l) as Hni.
    { intros Hin. destruct D4 as (_ & _ & _ & Hs). destruct (Hs id Hin) as (_ & j & Hj & _). congruence. }
    split; [done|]. apply (grown_more l l (id :: l)) in Hm; [|intros x; by right].
    destruct Hm' as [->| ->]; [done|]. apply grown_write; try done. left. }
  split; [|split; [|done]]; (split; [done|]; split; [done|]; split; [done|]; split; [done|]); simpl.
  - destruct ok; [by apply (Hok _ D4); [|right]|]. apply grown_write; try done. apply not_elem_of_nil.
  - destruct ok; [by apply (Hok _ C4); [|left]|]. done.
Qed.

(** Steps on the instance that is being started. *)
Section starting.
Context (ok : bool) (l : list uuid) (id : uuid).
Abbreviation I := (strict (rows DeploymentStatus.IN_PROGRESS (pending_start ok l id))).

Lemma pending_transition target : keeps I (InstanceRepository_transition id target).
Proof.
  apply rows_transition. intros m i Hm Hi _. destruct (pending_new _ _ _ _ _ Hm Hi). by apply pending_write.
Qed.

Lemma pending_start_allocated d ag c : keeps I (start_allocated d release id ag c).
Proof.
  pose proof pending_transition.
  assert (∀ d, keeps I (assign db_instances id (λ i, i <| inst_deployment_id := d |>))).
  { intros d'. apply rows_assign. intros m i Hm Hi. destruct (pending_new _ _ _ _ _ Hm Hi). by apply pending_write. }
  unfold start_allocated. keeps_auto.
Qed.

Lemma pending_any w : inv I w → inv (strict (rows DeploymentStatus.IN_PROGRESS (grown [] None))) w.
Proof. apply rows_mono. intros m. apply pending_grown. Qed.

(** A start that went wrong. *)
Lemma wp_start_failed {A} target (k : M A) Q w :
  inv I w →
  (∀ w', inv (strict (rows DeploymentStatus.IN_PROGRESS (fine false l))) w' → wp k Q w') →
  (∀ e w', inv (strict (rows DeploymentStatus.IN_PROGRESS (grown [] None))) w' → Q (Raise e) w') →
  wp (InstanceRepository_transition id target ≫= λ _, commit ≫= λ _, k) Q w.
Proof.
  intros Hw Hk He. eapply wp_rows_transition; [exact Hw| |exact Hk|intros e w' Hw'; apply He; by apply pending_any].
  intros m i Hm Hi _. destruct (pending_new _ _ _ _ _ Hm Hi). apply (pending_grown ok l id). by apply pending_write.
Qed.

End starting.

Lemma fine_any ok l w :
  inv (strict (rows DeploymentStatus.IN_PROGRESS (fine ok l))) w →
  inv (strict (rows DeploymentStatus.IN_PROGRESS (grown [] None))) w.
Proof. apply rows_mono. intros m. destruct ok; [apply grown_any|done]. Qed.

(** Either all went well and there are as many new instances as asked for, all
    RUNNING, or the instances that were there are as they were. *)
Definition scaled_up (n : nat) (r : result exn bool) (w : World) : Prop :=
  match r with
  | Ok true => ∃ l, length l = n ∧ inv (strict (rows DeploymentStatus.IN_PROGRESS (grown l (Some l)))) w
  | _ => inv (strict (rows DeploymentStatus.IN_PROGRESS (grown [] None))) w
  end.

Lemma wp_scale_up_loop n c ag srv ps pe hc sv ok l w :
  inv (strict (rows DeploymentStatus.IN_PROGRESS (fine ok l))) w →
  wp (scale_up_loop n deployment application release c ag srv ps pe hc sv ok)
    (λ r w', (r = Ok true → ok = true) ∧ scaled_up (n + length l) r w') w.
Proof.
  revert ok l w. induction n as [|n IH]; intros ok l w Hw.
  { apply wp_ret. destruct ok; split; try done. by exists l. }
  assert (∀ (r : result exn bool) w', (r = Ok true → false = true) →
            inv (strict (rows DeploymentStatus.IN_PROGRESS (grown [] None))) w' →
            (r = Ok true → ok = true) ∧ scaled_up (S n + length l) r w') as Hno.
  { intros [[]|e] w' Hr Hw'; [by specialize (Hr eq_refl)|done..]. }
  assert (∀ k w', inv (strict (rows DeploymentStatus.IN_PROGRESS (fine false k))) w' →
    wp (scale_up_loop n deployment application release c ag srv ps pe hc sv false)
      (λ r w', (r = Ok true → ok = true) ∧ scaled_up (S n + length l) r w') w') as Hfailed.
  { intros k w' Hw'. eapply wp_mono; [by apply (IH false k)|]. intros r w2 [Hr Hs]. apply Hno; [done|].
    destruct r as [[]|e]; [by specialize (Hr eq_refl)|done..]. }
  simpl. eapply wp_allocate; [exact Hw| | |intros e w' ?%fine_any; by apply Hno].
  2:{ intros msg w1 ?%fine_any. eapply (wp_hoare (strict (rows DeploymentStatus.IN_PROGRESS (grown [] None))) _ (λ b, b = false));
        [|done|].
      - apply keeps_bind; [keeps_auto|]. intros _. by apply hoare_ret.
      - intros r w' Hw' Hr. apply Hno; [|done]. destruct r as [[]|e]; [by specialize (Hr _ eq_refl)|done..]. }
  clear w Hw. intros id w Hw.
  pose proof (pending_start_allocated ok l id) as Hstart.
  assert (∀ (e : exn) w', inv (strict (rows DeploymentStatus.IN_PROGRESS (pending_start ok l id))) w' →
            ((Raise e : result exn bool) = Ok true → ok = true) ∧ scaled_up (S n + length l) (Raise e) w') as He.
  { intros e w' Hw'. by apply Hno, (pending_any ok l id). }
  eapply wp_bind_keeps; [apply Hstart|exact Hw| |exact He]. clear Hw. intros [] w1 Hw; simpl.
  2:{ eapply wp_start_failed; [exact Hw|apply Hfailed|intros; by apply Hno]. }
  eapply wp_bind_keeps; [keeps_auto|exact Hw| |exact He]. clear Hw. intros [] w2 Hw.
  - eapply wp_rows_transition; [exact Hw|intros m i Hm Hi _; by apply pending_running| |exact He].
    intros w3 Hw3. eapply wp_mono; [by apply IH|]. intros r w4 [Hr Hs]. split; [done|].
    revert Hs. unfold scaled_up. rewrite length_app. simpl.
    by replace (n + (length l + 1))%nat with (S (n + length l)) by lia.
  - eapply wp_bind_keeps; [keeps_auto|exact Hw| |exact He]. clear Hw. intros i w3 Hw.
    eapply wp_bind_keeps; [keeps_auto|exact Hw| |exact He]. clear Hw. intros _ w4 Hw.
    eapply wp_start_failed; [exact Hw|apply Hfailed|intros; by apply Hno].
Qed.

Lemma wp_scale_up c ag count srv ps pe w :
  inv (strict (rows DeploymentStatus.IN_PROGRESS (grown [] (Some [])))) w →
  wp (_scale_up deployment application release c ag count srv ps pe) (scaled_up (Z.to_nat count)) w.
Proof.
  intros Hw.
  assert (∀ e w', inv (strict (rows DeploymentStatus.IN_PROGRESS (grown [] (Some [])))) w' →
    scaled_up (Z.to_nat count) (Raise e) w') as He by (intros e w'; apply (fine_any true [])).
  unfold _scale_up. do 2 (eapply wp_bind_keeps; [keeps_auto|eassumption| |exact He]; clear Hw; intros ? ? Hw).
  eapply wp_mono; [by apply (wp_scale_up_loop _ _ _ _ _ _ _ _ true [])|]. intros r wf [_ Hs]. by rewrite Nat.add_0_r in Hs.
Qed.

(** ** Scaling down *)

(** The instances [drained] are in the hands of the operation, [stopped] of them
    are STOPPED; there is no new instance, and every other is as it was. *)
Definition shrunk (drained stopped : list uuid) (m : gmap uuid Instance) : Prop :=
  dom m = dom (db_instances d0) ∧
  (∀ id, id ∉ drained → m !! id = db_instances d0 !! id) ∧
  (∀ id, id ∈ stopped → ∃ i, m !! id = Some i ∧ inst_status i = InstanceStatus.STOPPED).

Lemma shrunk_write drained stopped id i j m :
  shrunk drained stopped m → m !! id = Some j → id ∈ drained → (id ∉ stopped ∨ inst_status i = InstanceStatus.STOPPED) →
  shrunk drained stopped (<[id := i]> m).
Proof.
  intros (Hd & Hk & Hs) Hj Hin Hst. split; [|split].
  - rewrite dom_insert_lookup_L; [done|by exists j].
  - intros k Hk'. rewrite lookup_insert_ne; [by apply Hk|]. congruence.
  - intros k Hk'. destruct (decide (id = k)) as [->|].
    + destruct Hst; [done|]. exists i. by rewrite lookup_insert_eq.
    + destruct (Hs k Hk') as (i' & ? & ?). exists i'. by rewrite lookup_insert_ne.
Qed.

Lemma shrunk_stopped drained stopped id i m :
  shrunk drained stopped m → m !! id = Some i → id ∈ drained →
  shrunk drained (id :: stopped) (<[id := i <| inst_status := InstanceStatus.STOPPED |>]> m).
Proof.
  intros Hs Hi Hin.
  assert (shrunk drained stopped (<[id := i <| inst_status := InstanceStatus.STOPPED |>]> m)) as (Hd & Hk & Hst)
    by (eapply shrunk_write; [done..|by right]).
  split; [done|]. split; [done|]. intros k [->|Hk']%elem_of_cons; [|by apply Hst].
  eexists. split; [apply lookup_insert_eq|done].
Qed.

Lemma shrunk_none drained stopped m : shrunk drained stopped m → shrunk drained [] m.
Proof. intros (?&?&_). split; [done|]. split; [done|]. intros id Hid. by apply elem_of_nil in Hid. Qed.

(** Stopping what was drained. *)
Lemma wp_stop_drained drained ag c ids ok done_ w :
  (∀ id, id ∈ ids → id ∈ drained) →
  inv (strict (rows DeploymentStatus.IN_PROGRESS (shrunk drained (if ok : bool then done_ else [])))) w →
  wp (stop_drained deployment ag c ids ok)
    (λ r w', match r with
             | Ok true => ok = true ∧ ∃ l, (∀ id, id ∈ ids ∨ id ∈ done_ → id ∈ l) ∧
                 inv (strict (rows DeploymentStatus.IN_PROGRESS (shrunk drained l))) w'
             | _ => inv (strict (rows DeploymentStatus.IN_PROGRESS (shrunk drained []))) w'
             end) w.
Proof.
  revert ok done_ w. induction ids as [|id ids IH]; intros ok done_ w Hin Hw.
  { apply wp_ret. destruct ok; [|done]. split; [done|]. exists done_. split; [|done].
    intros id [Hid|Hid]; [by apply elem_of_nil in Hid|done]. }
  set (st := if ok then done_ else []) in *.
  assert (∀ w', inv (strict (rows DeploymentStatus.IN_PROGRESS (shrunk drained st))) w' →
            inv (strict (rows DeploymentStatus.IN_PROGRESS (shrunk drained []))) w') as Hnone.
  { intros w'. apply rows_mono. intros m. apply shrunk_none. }
  assert (id ∈ drained) as Hid by (apply Hin; left).
  simpl. do 4 (eapply wp_bind_keeps; [keeps_auto|eassumption| |intros; by apply Hnone]; clear Hw; intros ? ? Hw).
  match goal with |- wp (InstanceRepository_transition id (if ?b then _ else _) ≫= _) _ _ => destruct b end.
  - eapply (wp_rows_transition _ _ (shrunk drained (if (ok && true)%bool then id :: done_ else []))); [exact Hw| | |intros; by apply Hnone].
    { intros m i Hm Hi _. unfold st in Hm. destruct ok; simpl; [by apply shrunk_stopped|].
      eapply shrunk_write; [done..|by right]. }
    intros w1 Hw1. eapply wp_mono; [apply (IH _ (id :: done_)); [intros; apply Hin; by right|exact Hw1]|].
    intros [[]|e] w2; [|done..]. intros (Hok & l & Hl & Hw2). split; [by destruct ok|]. exists l. split; [|done].
    intros k [[->|Hk]%elem_of_cons|Hk]; apply Hl; [right; left|by left|right; by right].
  - eapply (wp_rows_transition _ _ (shrunk drained (if (ok && false)%bool then done_ else []))); [exact Hw| | |intros; by apply Hnone].
    { intros m i Hm Hi _. rewrite andb_false_r. eapply shrunk_write; [by eapply shrunk_none|done..|]. left. apply not_elem_of_nil. }
    intros w1 Hw1. eapply wp_mono; [apply (IH _ done_); [intros; apply Hin; by right|exact Hw1]|].
    intros [[]|e] w2; [|done..]. intros [Hok _]. by destruct ok.
Qed.

Definition scaled_down (drained : list uuid) (r : result exn bool) (w : World) : Prop :=
  match r with
  | Ok true => inv (strict (rows DeploymentStatus.IN_PROGRESS (shrunk drained drained))) w
  | _ => inv (strict (rows DeploymentStatus.IN_PROGRESS (shrunk drained []))) w
  end.

Lemma wp_scale_down found count ag c w :
  let drained := map fst (to_drain found count) in
  inv (strict (rows DeploymentStatus.IN_PROGRESS (shrunk drained []))) w →
  wp (_scale_down deployment application c found count ag) (scaled_down drained) w.
Proof.
  intros drained Hw. set (I := strict (rows DeploymentStatus.IN_PROGRESS (shrunk drained []))) in *.
  assert (∀ e w', inv I w' → scaled_down drained (Raise e) w') as He by done.
  unfold _scale_down. fold drained.
  eapply wp_bind_keeps; [|exact Hw| |exact He].
  { apply keeps_for_each. intros id Hid. apply keeps_bind.
    - apply rows_assign. intros m i Hm Hi. eapply shrunk_write; [done..|left; apply not_elem_of_nil].
    - intros _. apply rows_transition. intros m i Hm Hi _. eapply shrunk_write; [done..|left; apply not_elem_of_nil]. }
  clear Hw. intros _ w1 Hw. unfold sleep.
  do 3 (eapply wp_bind_keeps; [keeps_auto|eassumption| |exact He]; clear Hw; intros ? ? Hw).
  eapply wp_mono; [by apply (wp_stop_drained drained _ _ drained true [])|].
  intros [[]|e] w5; [|done..]. intros (_ & l & Hl & Hw5). revert Hw5. apply rows_mono.
  intros m (?&?&Hs). split; [done|]. split; [done|]. intros id Hid. apply Hs, Hl. by left.
Qed.

(** ** The fleet afterwards *)

Abbreviation target := (dep_instance_count p).
Definition current : Z := Z.of_nat (length (replicas application (db_instances d0))).

(** The newest replicas, as many as there are too many. *)
Definition surplus : list uuid := map fst (to_drain (replicas application (db_instances d0)) (current - target)).

(** Every instance there was is unchanged, but for the surplus; every new one
    belongs to the application and the release. After a success the surplus is
    STOPPED, the new instances are RUNNING, and the application has as many
    replicas as were asked for. *)
Definition fleet (s : deployment_status) (m : gmap uuid Instance) : Prop :=
  (∀ id i, db_instances d0 !! id = Some i → m !! id = Some i ∨
     id ∈ surplus ∧ ∃ j, m !! id = Some j ∧ (s = DeploymentStatus.SUCCEEDED → inst_status j = InstanceStatus.STOPPED)) ∧
  (∀ id i, db_instances d0 !! id = None → m !! id = Some i →
     inst_application_id i = application ∧ inst_release_id i = Some release ∧
     (s = DeploymentStatus.SUCCEEDED → inst_status i = InstanceStatus.RUNNING)) ∧
  (s = DeploymentStatus.SUCCEEDED → Z.of_nat (length (replicas application m)) = target).

Lemma grown_fleet s m : s ≠ DeploymentStatus.SUCCEEDED → grown [] None m → fleet s m.
Proof.
  intros Hs (Hk & Hn & _). split; [|split; [|done]].
  - intros id i Hi. left. by eapply lookup_weaken.
  - intros id i Hid Hi. destruct (Hn id i Hid Hi) as (?&?&_). by repeat split.
Qed.

Lemma shrunk_fleet s m : s ≠ DeploymentStatus.SUCCEEDED → shrunk surplus [] m → fleet s m.
Proof.
  intros Hs (Hd & Hk & _). split; [|split; [|done]].
  - intros id i Hi. destruct (decide (id ∈ surplus)) as [Hin|Hni]; [right|left; by rewrite Hk].
    split; [done|]. assert (id ∈ dom m) as [j Hj]%elem_of_dom by (rewrite Hd; apply elem_of_dom; by exists i). by exists j.
  - intros id i Hid Hi. exfalso. apply not_elem_of_dom in Hid. apply Hid. rewrite <-Hd. apply elem_of_dom. by exists i.
Qed.

Lemma grown_replicas l m :
  grown l (Some l) m → map fst (replicas application m) ≡ₚ map fst (replicas application (db_instances d0)) ++ l.
Proof.
  intros (Hk & Hn & Hnd & Hs). apply NoDup_Permutation; [apply replicas_nodup| |].
  - apply NoDup_app. split; [apply replicas_nodup|]. split; [|done].
    intros id (i & Hi & _)%replicas_keys Hin. destruct (Hs id Hin). congruence.
  - intros id. rewrite elem_of_app, !replicas_keys. split.
    + intros (i & Hi & Hl). destruct (db_instances d0 !! id) as [j|] eqn:Ej.
      * left. exists j. split; [done|]. pose proof (lookup_weaken _ _ _ _ Ej Hk). congruence.
      * right. by destruct (Hn id i Ej Hi) as (_&_&?).
    + intros [(i & Hi & Hl)|Hin]; [exists i; split; [by eapply lookup_weaken|done]|].
      destruct (Hs id Hin) as (Hid & i & Hi & Hst). exists i. split; [done|].
      destruct (Hn id i Hid Hi) as (Ha & _). unfold is_live_of. rewrite Ha, Hst. by rewrite bool_decide_eq_true_2.
Qed.

Lemma grown_succeeded l m :
  grown l (Some l) m → current + Z.of_nat (length l) = target → fleet DeploymentStatus.SUCCEEDED m.
Proof.
  intros Hg Hlen. pose proof (grown_replicas l m Hg) as Hp. destruct Hg as (Hk & Hn & Hnd & Hs). split; [|split].
  - intros id i Hi. left. by eapply lookup_weaken.
  - intros id i Hid Hi. destruct (Hn id i Hid Hi) as (?&?&Hin). destruct (Hs id Hin) as (_ & j & Hj & ?).
    split; [done|]. split; [done|]. intros _. congruence.
  - intros _. apply Permutation_length in Hp. rewrite length_app, !length_map in Hp. unfold current in Hlen. lia.
Qed.

Lemma surplus_split : ∃ kept, surplus ++ kept ≡ₚ map fst (replicas application (db_instances d0)).
Proof.
  unfold surplus, to_drain. set (sorted := order_by_desc _ _).
  exists (map fst (drop (Z.to_nat (current - target)) sorted)). rewrite <-map_app, take_drop.
  apply Permutation_map, sort_by_permutation.
Qed.

Lemma surplus_length : 0 ≤ target ≤ current → Z.of_nat (length surplus) = current - target.
Proof.
  intros Ht. unfold surplus, to_drain. rewrite length_map, length_take. unfold order_by_desc. rewrite sort_by_permutation.
  unfold current in *. lia.
Qed.

Lemma shrunk_replicas m :
  shrunk surplus surplus m → surplus ++ map fst (replicas application m) ≡ₚ map fst (replicas application (db_instances d0)).
Proof.
  intros (Hd & Hk & Hs). destruct surplus_split as [kept Hkept].
  pose proof (replicas_nodup application (db_instances d0)) as Hnd. rewrite <-Hkept in Hnd.
  apply NoDup_app in Hnd as (Hnds & Hdis & _).
  assert (∀ id, id ∈ map fst (replicas application m) → id ∉ surplus) as Hlive.
  { intros id (i & Hi & Hl)%replicas_keys Hin. destruct (Hs id Hin) as (j & Hj & Est).
    assert (j = i) as -> by congruence. unfold is_live_of in Hl. rewrite Est in Hl. by rewrite andb_false_r in Hl. }
  apply NoDup_Permutation; [|apply replicas_nodup|].
  - apply NoDup_app. split; [done|]. split; [|apply replicas_nodup]. intros id Hin Hr. by apply (Hlive id).
  - intros id. rewrite elem_of_app. split.
    + intros [Hin|Hr]; [rewrite <-Hkept; apply elem_of_app; by left|].
      pose proof (Hlive id Hr) as Hni. apply replicas_keys in Hr as (i & Hi & Hl). apply replicas_keys. exists i.
      by rewrite <-Hk.
    + intros Hr. destruct (decide (id ∈ surplus)) as [|Hni]; [by left|right].
      apply replicas_keys in Hr as (i & Hi & Hl). apply replicas_keys. exists i. by rewrite Hk.
Qed.

Lemma shrunk_succeeded m : 0 ≤ target ≤ current → shrunk surplus surplus m → fleet DeploymentStatus.SUCCEEDED m.
Proof.
  intros Ht Hm. pose proof (shrunk_replicas m Hm) as Hp. pose proof (surplus_length Ht) as Hlen.
  destruct Hm as (Hd & Hk & Hs). split; [|split].
  - intros id i Hi. destruct (decide (id ∈ surplus)) as [Hin|Hni]; [right|left; by rewrite Hk].
    split; [done|]. destruct (Hs id Hin) as (j & ? & ?). by exists j.
  - intros id i Hid Hi. exfalso. apply not_elem_of_dom in Hid. apply Hid. rewrite <-Hd. apply elem_of_dom. by exists i.
  - intros _. apply Permutation_length in Hp. rewrite length_app, !length_map in Hp. unfold current in *. lia.
Qed.

Lemma unchanged_grown : grown [] (Some []) (db_instances d0).
Proof.
  split; [done|]. split; [intros; congruence|]. split; [by apply NoDup_nil|]. intros id Hid. by apply elem_of_nil in Hid.
Qed.

Lemma unchanged_shrunk : shrunk surplus [] (db_instances d0).
Proof. split; [done|]. split; [done|]. intros id Hid. by apply elem_of_nil in Hid. Qed.

(** ** The run *)

(** How a run ends: with the deployment concluded, or with an exception. *)
Definition scale_ended (now_holds : (DB → Prop) → Prop) (r : result exn unit) : Prop :=
  now_holds (rows DeploymentStatus.SUCCEEDED (fleet DeploymentStatus.SUCCEEDED)) ∨
  now_holds (rows DeploymentStatus.FAILED (fleet DeploymentStatus.FAILED)) ∨
  (∃ e, r = Raise e) ∧ now_holds (rows DeploymentStatus.IN_PROGRESS (fleet DeploymentStatus.IN_PROGRESS)).

Abbreviation outcome := (λ r w, scale_ended (λ P, inv (strict P) w) r).

Lemma outcome_raised (N : gmap uuid Instance → Prop) e w :
  (∀ m, N m → fleet DeploymentStatus.IN_PROGRESS m) →
  inv (strict (rows DeploymentStatus.IN_PROGRESS N)) w → outcome (Raise e) w.
Proof. intros HN Hw. right. right. split; [by exists e|]. revert Hw. by apply rows_mono. Qed.

(** Concluding the deployment. *)
Lemma wp_conclude (ok : bool) (N : gmap uuid Instance → Prop) w :
  let s := if ok then DeploymentStatus.SUCCEEDED else DeploymentStatus.FAILED in
  inv (strict (rows DeploymentStatus.IN_PROGRESS N)) w →
  (∀ m, N m → fleet DeploymentStatus.IN_PROGRESS m) → (∀ m, N m → fleet s m) →
  wp (transition_deployment deployment s None ;; commit) outcome w.
Proof.
  intros s Hw HN HNs.
  eapply (wp_transition_deployment_commit _ (rows s (fleet s)) _ _ (p <| dep_status := DeploymentStatus.IN_PROGRESS |>));
    [exact Hw| |by destruct ok| | |].
  - intros d (-> & _). apply lookup_insert_eq.
  - intros d d' (E1 & E2 & E3 & E4) F1 F2 F3 F4. split; [by rewrite F1, E1, insert_insert_eq|].
    split; [congruence|]. split; [intros k; rewrite <-E3; unfold active_release; by rewrite F3|]. rewrite F2. by apply HNs.
  - intros w' Hw'. destruct ok; [by left|right; by left].
  - intros e w' Hw'. by eapply outcome_raised.
Qed.

(** What follows the change of the instances. *)
Lemma wp_after_scaling (ok : bool) (N : gmap uuid Instance → Prop) (domain : bool) w :
  let s := if ok then DeploymentStatus.SUCCEEDED else DeploymentStatus.FAILED in
  inv (strict (rows DeploymentStatus.IN_PROGRESS N)) w →
  (∀ m, N m → fleet DeploymentStatus.IN_PROGRESS m) → (∀ m, N m → fleet s m) →
  wp (when domain
        (p ← row db_deployments deployment;
         result ← sync_gateway application (dep_created_by p);
         when (negb (gs_ok result))
           (_log deployment "error" ("gateway sync: " +:+ py_str env_float_repr (gs_message result)))) ;;
      transition_deployment deployment s None ;; commit) outcome w.
Proof.
  intros s Hw HN HNs. eapply wp_bind_keeps; [keeps_auto|exact Hw| |intros; by eapply outcome_raised].
  intros _ w' Hw'. by eapply wp_conclude.
Qed.

Hypothesis Htarget : 0 ≤ target.
Hypothesis Hdeployment : db_deployments d0 !! deployment = Some p.
Hypothesis Hstatus : dep_status p = DeploymentStatus.IN_PROGRESS.
Hypothesis Happlication : is_Some (db_applications d0 !! application).
Hypothesis Hrelease : is_Some (db_releases d0 !! release).

Lemma unchanged_rows w (N : gmap uuid Instance → Prop) :
  N (db_instances d0) → inv (strict (λ d, d = d0)) w → inv (strict (rows DeploymentStatus.IN_PROGRESS N)) w.
Proof.
  intros HN (E1 & E2 & Hd)%inv_strict. apply inv_strict. rewrite E1, E2.
  assert (rows DeploymentStatus.IN_PROGRESS N d0); [|done]. split; [|done].
  rewrite insert_id; [done|]. rewrite <-Hstatus, Hdeployment. by destruct p.
Qed.

(** A run that gives up before it changes an instance. *)
Lemma wp_give_up msg w :
  inv (strict (λ d, d = d0)) w →
  wp (_log deployment "error" msg ;; transition_deployment deployment DeploymentStatus.FAILED None ;; commit) outcome w.
Proof.
  intros Hw. apply (unchanged_rows _ _ unchanged_grown) in Hw.
  assert (∀ s m, s ≠ DeploymentStatus.SUCCEEDED → grown [] (Some []) m → fleet s m) as Hf
    by (intros s m Hs Hm; apply grown_fleet; [done|]; by eapply grown_any).
  eapply wp_bind_keeps; [keeps_auto|exact Hw| |intros; eapply outcome_raised; [|done]; intros; by apply Hf].
  intros _ w' Hw'. apply (wp_conclude false _ _ Hw'); intros m Hm; by apply Hf.
Qed.

Lemma wp_run_scale_body w :
  inv (strict (λ d, d = d0)) w → wp (run_scale_body deployment) outcome w.
Proof.
  assert (∀ s m, s ≠ DeploymentStatus.SUCCEEDED → grown [] None m → fleet s m) as Hg by (intros; by apply grown_fleet).
  assert (∀ s m, s ≠ DeploymentStatus.SUCCEEDED → shrunk surplus [] m → fleet s m) as Hs by (intros; by apply shrunk_fleet).
  assert (∀ e w, inv (strict (λ d, d = d0)) w → outcome (Raise e) w) as He.
  { intros e w' Hw'. eapply (outcome_raised (grown [] None)); [by auto|]. apply unchanged_rows; [|done].
    eapply grown_any, unchanged_grown. }
  intros Hw. unfold run_scale_body.
  eapply wp_bind_hoare; [apply hoare_row|exact Hw| |exact He]. clear Hw. intros q w1 Hw (d1 & -> & Hq).
  assert (q = p) as -> by congruence.
  do 2 (eapply wp_bind_hoare; [apply hoare_query|eassumption| |exact He]; clear Hw; intros ? ? Hw (? & -> & ->)).
  destruct Happlication as [a Ha]. destruct Hrelease as [rel Hrel]. rewrite Ha, Hrel.
  destruct (app_server_id a) as [srv|], (app_port_range_start a) as [ps|], (app_port_range_end a) as [pe|];
    try (by apply wp_give_up).
  eapply wp_bind_keeps; [keeps_auto|exact Hw| |exact He]. clear Hw. intros c w4 Hw.
  eapply wp_bind_keeps; [keeps_auto|exact Hw| |exact He]. clear Hw. intros [[ag g]|] w5 Hw; [|by apply wp_give_up].
  eapply wp_bind_hoare; [apply hoare_query|exact Hw| |exact He]. clear Hw. intros found w6 Hw (d6 & -> & ->).
  change (select db_instances (is_live_of application) d0) with (replicas application (db_instances d0)).
  fold current. apply wp_bind. destruct (Z.ltb_spec current target) as [Hlt|Hge].
  - eapply wp_mono; [apply wp_scale_up; apply unchanged_rows; [apply unchanged_grown|done]|].
    intros [[]|e] w7; simpl.
    + intros (l & Hl & Hw7).
      assert (∀ m, grown l (Some l) m → fleet DeploymentStatus.SUCCEEDED m) by (intros m Hm; apply (grown_succeeded l); [done|lia]).
      apply (wp_after_scaling true _ _ _ Hw7); [|done]. intros m Hm. apply Hg; [done|]. by eapply grown_any.
    + intros Hw7. apply (wp_after_scaling false _ false _ Hw7); intros; by apply Hg.
    + intros Hw7. eapply outcome_raised; [|exact Hw7]. auto.
  - destruct (Z.ltb_spec target current) as [Hlt|Heq].
    + eapply wp_mono; [apply (wp_scale_down (replicas application (db_instances d0)) (current - target) ag c w6),
                         unchanged_rows; [apply unchanged_shrunk|done]|]. fold surplus.
      intros [[]|e] w7; simpl; intros Hw7.
      * apply (wp_after_scaling true _ _ _ Hw7); [|intros m Hm; apply shrunk_succeeded; [lia|done]].
        intros m Hm. apply Hs; [done|]. by eapply shrunk_none.
      * apply (wp_after_scaling false _ false _ Hw7); intros; by apply Hs.
      * eapply outcome_raised; [|exact Hw7]. auto.
    + apply wp_ret. apply (unchanged_rows _ _ unchanged_grown) in Hw.
      apply (wp_after_scaling true _ _ _ Hw); intros m Hm.
      * apply Hg; [done|]. by eapply grown_any.
      * apply (grown_succeeded []); [done|]. simpl. lia.
Qed.

End scale.

Lemma scale_ended_mono d0 deployment p (f g : (DB → Prop) → Prop) r r' :
  (∀ s N, let P := rows d0 deployment p s N in f P → g P) → (∀ e, r = Raise e → ∃ e', r' = Raise e') →
  scale_ended d0 deployment p f r → scale_ended d0 deployment p g r'.
Proof.
  intros HP Hr [?|[?|[[e E] ?]]]; [left|right; left|right; right; split; [by eapply Hr|]]; by apply HP.
Qed.

(** C3. A scale operation has one of three outcomes, whatever agent, probes and
    gateway answer: it SUCCEEDED, and then the application has exactly as many
    replicas as were asked for - the new ones are RUNNING instances of the
    deployment's release, the ones that were too many, the newest, are STOPPED;
    it FAILED; or an exception ended it while it was IN_PROGRESS. In all three no
    instance has changed but new ones of the application and the surplus of a
    scale-down, and no other deployment, no release and no active release. *)
Theorem scale_outcome `{Env} deployment token p w :
  w_committed w = w_db w → ready w →
  db_deployments (w_db w) !! deployment = Some p → dep_status p = DeploymentStatus.IN_PROGRESS →
  0 ≤ dep_instance_count p →
  is_Some (db_applications (w_db w) !! dep_application_id p) → is_Some (db_releases (w_db w) !! dep_release_id p) →
  let '(r, w') := run_scale deployment token w in
  scale_ended (w_db w) deployment p (λ rows, rows (w_committed w')) r.
Proof.
  intros Hc [Ha Hd] Hp Hps Ht Happ Hrel. unfold run_scale.
  rewrite (bind_run _ _ _ _ _ (session_get_run _ _ _ Ha)), Hp.
  pose proof (wp_run_scale_body (w_db w) deployment p Ht Hp Hps Happ Hrel w) as Hbody.
  unfold try_finally. unfold wp in Hbody. destruct (run_scale_body deployment w) as [r w1].
  destruct (release_lock_of deployment token w1) as [rf w2] eqn:Efin.
  assert (scale_ended (w_db w) deployment p (λ P, inv (strict P) w1) r) as Hend.
  { apply Hbody, inv_strict. by rewrite Hc. }
  assert (∀ r', (∀ e, r = Raise e → ∃ e', r' = Raise e') →
    scale_ended (w_db w) deployment p (λ rows, rows (w_committed w2)) r') as Hfin.
  { intros r' Hr'. eapply scale_ended_mono; [|exact Hr'|exact Hend]. intros s N P HP.
    destruct (rows_release_lock_of (w_db w) deployment p s N token w1 HP) as [Hw2 _].
    rewrite Efin in Hw2. by apply inv_strict in Hw2 as (_ & ? & _). }
  destruct rf; apply Hfin; [eauto|]. intros e0 _. by eexists.
Qed.

(** ** A concrete run: from one replica to two *)

Lemma scale_outcome_witness :
  let E := outside (answers_at [7]%nat) probe_ok gateway_ok in
  let run := run_scale switch1 77 (demo_world (demo_db "deploy" 2)) in
  (run.1, length (replicas app1 (db_instances (w_committed run.2)))) = (Ok tt, 2%nat) ∧
  scale_ended (demo_db "deploy" 2) switch1 (demo_deployment "deploy" 2) (λ rows, rows (w_committed run.2)) run.1.
Proof.
  intros E run. split; [vm_compute; reflexivity|].
  assert (is_Some (db_applications (demo_db "deploy" 2) !! app1)) as Happ by (vm_compute; by eexists).
  assert (is_Some (db_releases (demo_db "deploy" 2) !! new_release)) as Hrel by (vm_compute; by eexists).
  pose proof (scale_outcome switch1 77 (demo_deployment "deploy" 2) (demo_world (demo_db "deploy" 2))
    eq_refl (conj eq_refl eq_refl) eq_refl eq_refl ltac:(discriminate) Happ Hrel) as Hw.
  unfold run. destruct (run_scale switch1 77 (demo_world (demo_db "deploy" 2))) as [r w']. exact Hw.
Defined.
