(* ===== verification/Reconcile.v ===== *)
(** Recovery after a restart of the control plane: [InstanceService.reconcile_on_startup]
    always completes, and leaves nothing in a state that only a running task
    could move on. *)

From S2P Require Import Prelude Python Enums StateMachines HealerYaml Schema Session Hoare.
From S2P Require Import Repositories Protocol LockService CommandService Scenario AuditService.
From S2P Require Import DeploymentService InstanceService.
Local Open Scope Z_scope.

(** ** One deployment *)

Lemma force_release_run id w :
  ready w →
  ∃ w', force_release id w = (Ok tt, w') ∧ ready w' ∧ w_committed w' = w_db w' ∧
    db_deployments (w_db w') = db_deployments (w_db w) ∧ db_instances (w_db w') = db_instances (w_db w) ∧
    (∀ k, db_applications (w_db w') !! k =
          if decide (k = id) then set_lock None None <$> db_applications (w_db w) !! k
          else db_applications (w_db w) !! k).
Proof.
  intros Hr. unfold force_release, mbind, st_bind. rewrite (update_application_where_run _ _ _ _ Hr).
  destruct (db_applications (w_db w) !! id) as [a|] eqn:E; rewrite commit_run by exact Hr;
    (eexists; split; [done|]; split; [exact Hr|]; split; [done|]; split; [done|]; split; [done|]);
    intros k; simpl; destruct (decide (k = id)) as [->|]; simpl.
  - by rewrite lookup_insert_eq, E.
  - by rewrite lookup_insert_ne.
  - by rewrite E.
  - done.
Qed.

Lemma reconcile_deployment_run `{Env} id p w :
  ready w → db_deployments (w_db w) !! id = Some p → dep_status p = DeploymentStatus.IN_PROGRESS →
  ∃ w', reconcile_deployment id w = (Ok tt, w') ∧ ready w' ∧ w_committed w' = w_db w' ∧
    db_deployments (w_db w') =
      <[id := p <| dep_failure_reason := Some STUCK_DEPLOYMENT_REASON |> <| dep_status := DeploymentStatus.FAILED |>]>
        (db_deployments (w_db w)) ∧
    db_instances (w_db w') = db_instances (w_db w) ∧
    (∀ k, db_applications (w_db w') !! k =
          if decide (k = dep_application_id p) then set_lock None None <$> db_applications (w_db w) !! k
          else db_applications (w_db w) !! k).
Proof.
  intros Hr Hp Hs. pose proof Hr as [Ha _]. unfold reconcile_deployment.
  rewrite (bind_run _ _ _ _ _ (assign_run _ _ _ _ _ Ha Hp)).
  set (w1 := w <| w_db := _ |>). set (p1 := p <| dep_failure_reason := Some STUCK_DEPLOYMENT_REASON |>) in *.
  assert (db_deployments (w_db w1) !! id = Some p1) as Hp1 by apply lookup_insert_eq.
  unfold add_log. unfold mbind at 1, st_bind at 1. rewrite (bind_run _ _ _ _ _ (row_run _ _ _ w1 Ha Hp1)).
  rewrite (bind_run _ _ _ _ _ (now_run _)), db_modify_run by exact Ha.
  set (w2 := (w1 <| w_tick := _ |>) <| w_db := _ |>).
  destruct (transition_deployment_run id DeploymentStatus.FAILED None p1 w2) as (w3 & Ht & Hr3 & Hd3 & Hi3 & Ha3 & _);
    [exact Hr|exact Hp1|simpl; by rewrite Hs|].
  rewrite (bind_run _ _ _ _ _ Ht).
  assert (db_deployments (w_db w3) !! id = Some (p1 <| dep_status := DeploymentStatus.FAILED |>)) as Hp3
    by (rewrite Hd3; apply lookup_insert_eq).
  rewrite (bind_run _ _ _ _ _ (row_run _ _ _ _ (proj1 Hr3) Hp3)).
  destruct (force_release_run (dep_application_id p) w3 Hr3) as (w4 & Hf & Hr4 & Hc4 & Hd4 & Hi4 & Ha4).
  exists w4. split; [exact Hf|]. split; [done|]. split; [done|].
  rewrite Hd4, Hd3, Hi4, Hi3. split; [simpl; by rewrite insert_insert_eq|]. split; [done|].
  intros k. by rewrite Ha4, Ha3.
Qed.

(** ** All stuck deployments *)

(** While [todo] is left: exactly its deployments are in progress, the locks of
    the others' applications are free, and instances are as they were. *)
Definition reconciling (w0 : World) (todo : list uuid) (w : World) : Prop :=
  ready w ∧ NoDup todo ∧
  (∀ id, id ∈ todo → db_deployments (w_db w) !! id = db_deployments (w_db w0) !! id) ∧
  (∀ id p, db_deployments (w_db w) !! id = Some p → dep_status p = DeploymentStatus.IN_PROGRESS → id ∈ todo) ∧
  (∀ id, id ∈ todo → ∃ p, db_deployments (w_db w0) !! id = Some p ∧ dep_status p = DeploymentStatus.IN_PROGRESS) ∧
  db_instances (w_db w) = db_instances (w_db w0) ∧
  (∀ k a, db_applications (w_db w) !! k = Some a →
     app_operation_lock a = None ∨
     ((∀ id p, db_deployments (w_db w0) !! id = Some p → dep_status p = DeploymentStatus.IN_PROGRESS →
         dep_application_id p = k → id ∈ todo) ∧ db_applications (w_db w0) !! k = Some a)).

Lemma reconciling_step `{Env} w0 id todo w :
  reconciling w0 (id :: todo) w →
  wp (reconcile_deployment id) (λ r w', match r with Ok _ => reconciling w0 todo w' | Raise _ => False end) w.
Proof.
  intros (Hr & Hnd & Hsame & Hall & Hprog & Hinst & Hlock). apply NoDup_cons in Hnd as [Hni Hnd].
  destruct (Hprog id) as (p & Hp0 & Hs); [left|].
  assert (db_deployments (w_db w) !! id = Some p) as Hp by (rewrite Hsame; [done|left]).
  destruct (reconcile_deployment_run id p w Hr Hp Hs) as (w' & Hrun & Hr' & _ & Hd' & Hi' & Ha').
  unfold wp. rewrite Hrun. simpl. split; [done|]. split; [done|]. split; [|split; [|split; [|split]]].
  - intros k Hk. rewrite Hd', lookup_insert_ne by congruence. apply Hsame. by right.
  - intros k q Hq Hqs. rewrite Hd' in Hq. apply lookup_insert_Some in Hq as [[<- <-]|[Hne Hq]]; [done|].
    specialize (Hall k q Hq Hqs). apply elem_of_cons in Hall as [->|?]; [done|done].
  - intros k Hk. apply Hprog. by right.
  - by rewrite Hi'.
  - intros k a Hk. rewrite Ha' in Hk. destruct (decide (k = dep_application_id p)) as [->|Hne].
    + left. apply fmap_Some in Hk as (b & _ & ->). done.
    + destruct (Hlock k a Hk) as [?|[Hin ?]]; [by left|right]. split; [|done].
      intros j q Hq Hqs Hqa. specialize (Hin j q Hq Hqs Hqa). apply elem_of_cons in Hin as [->|?]; [congruence|done].
Qed.

Lemma reconciling_init w :
  ready w →
  reconciling w (map fst (select db_deployments (λ p, bool_decide (dep_status p = DeploymentStatus.IN_PROGRESS)) (w_db w))) w.
Proof.
  intros Hr. assert (∀ id p, db_deployments (w_db w) !! id = Some p → dep_status p = DeploymentStatus.IN_PROGRESS →
    id ∈ map fst (select db_deployments (λ p, bool_decide (dep_status p = DeploymentStatus.IN_PROGRESS)) (w_db w))) as Hin.
  { intros id p Hp Hs. apply select_keys. exists p. split; [done|]. by apply bool_decide_eq_true. }
  split; [done|]. split; [apply select_keys_nodup|]. split; [done|]. split; [done|]. split; [|split; [done|]].
  - intros id (p & Hp & Hs)%select_keys. apply bool_decide_eq_true in Hs. by exists p.
  - intros k a Ha. right. split; [|done]. intros id p Hp Hs _. by eapply Hin.
Qed.

(** ** Instances *)

Lemma instance_transition_run id target i w :
  ready w → db_instances (w_db w) !! id = Some i → legal INSTANCE_TRANSITIONS (inst_status i) target →
  live_status target = false →
  InstanceRepository_transition id target w =
  (Ok tt, w <| w_db := (w_db w) <| db_instances := <[id := i <| inst_status := target |>]> (db_instances (w_db w)) |> |>).
Proof.
  intros Hr Hi Hl Hdead. pose proof Hr as [Ha _]. unfold InstanceRepository_transition.
  rewrite (bind_run _ _ _ _ _ (row_run _ _ _ _ Ha Hi)). unfold mbind at 1, st_bind at 1.
  rewrite require_transition_run. unfold legal in Hl. rewrite Hl.
  rewrite (bind_run _ _ _ _ _ (query_run _ _ Ha)). rewrite bool_decide_eq_true_2.
  - rewrite (bind_run _ _ _ _ _ (assign_run _ _ _ _ _ Ha Hi)). by rewrite flush_run by exact Hr.
  - intros Hlive. simpl in Hlive. congruence.
Qed.

Definition failing (w0 : World) (todo : list uuid) (w : World) : Prop :=
  ready w ∧ NoDup todo ∧ db_deployments (w_db w) = db_deployments (w_db w0) ∧
  db_applications (w_db w) = db_applications (w_db w0) ∧
  (∀ id, id ∈ todo → ∃ i, db_instances (w_db w) !! id = Some i ∧ inst_status i ∈ _TRANSIENT_INSTANCE_STATUSES) ∧
  (∀ id i, db_instances (w_db w) !! id = Some i → inst_status i ∈ _TRANSIENT_INSTANCE_STATUSES → id ∈ todo) ∧
  (∀ id i, db_instances (w_db w0) !! id = Some i → inst_status i ∉ _TRANSIENT_INSTANCE_STATUSES →
     db_instances (w_db w) !! id = Some i).

Lemma transient_may_fail s : s ∈ _TRANSIENT_INSTANCE_STATUSES → legal INSTANCE_TRANSITIONS s InstanceStatus.FAILED.
Proof.
  unfold _TRANSIENT_INSTANCE_STATUSES. rewrite !elem_of_cons, elem_of_nil.
  intros [->|[->|[->|[]]]]; vm_compute; reflexivity.
Qed.

Lemma failed_not_transient : InstanceStatus.FAILED ∉ _TRANSIENT_INSTANCE_STATUSES.
Proof. unfold _TRANSIENT_INSTANCE_STATUSES. rewrite !elem_of_cons, elem_of_nil. intros [?|[?|[?|[]]]]; done. Qed.

Lemma failing_step w0 id todo w :
  failing w0 (id :: todo) w →
  wp (reconcile_instance id) (λ r w', match r with Ok _ => failing w0 todo w' | Raise _ => False end) w.
Proof.
  intros (Hr & Hnd & Hd & Ha & Htodo & Hall & Hkeep). apply NoDup_cons in Hnd as [Hni Hnd].
  destruct (Htodo id) as (i & Hi & Hs); [left|]. unfold wp, reconcile_instance.
  rewrite (bind_run _ _ _ _ _ (assign_run _ _ _ _ _ (proj1 Hr) Hi)).
  set (i1 := i <| inst_failure_reason := _ |>). set (w1 := w <| w_db := _ |>).
  assert (db_instances (w_db w1) !! id = Some i1) as Hi1 by apply lookup_insert_eq.
  rewrite (instance_transition_run id InstanceStatus.FAILED i1 w1 Hr Hi1 (transient_may_fail _ Hs) eq_refl). simpl.
  split; [exact Hr|]. split; [done|]. split; [done|]. split; [done|]. simpl. split; [|split].
  - intros k Hk. destruct (Htodo k) as (j & Hj & ?); [by right|]. exists j.
    rewrite !lookup_insert_ne by congruence. done.
  - intros k j Hj Hjs. rewrite insert_insert_eq in Hj. apply lookup_insert_Some in Hj as [[<- <-]|[Hne Hj]].
    + by apply failed_not_transient in Hjs.
    + specialize (Hall k j Hj Hjs). by apply elem_of_cons in Hall as [->|?].
  - intros k j Hj Hjs. rewrite !lookup_insert_ne; [by apply Hkeep|..]; intros <-;
      specialize (Hkeep id j Hj Hjs); congruence.
Qed.

(** What recovery makes of a database: no deployment is IN_PROGRESS, no instance
    is STARTING, RESTARTING or DRAINING, the application of every deployment it
    failed is unlocked, instances in any other status are untouched, and
    everything is committed. *)
Definition recovered (d : DB) (w' : World) : Prop :=
  w_committed w' = w_db w' ∧
  (∀ id p, db_deployments (w_db w') !! id = Some p → dep_status p ≠ DeploymentStatus.IN_PROGRESS) ∧
  (∀ id i, db_instances (w_db w') !! id = Some i → inst_status i ∉ _TRANSIENT_INSTANCE_STATUSES) ∧
  (∀ id p a, db_deployments d !! id = Some p → dep_status p = DeploymentStatus.IN_PROGRESS →
     db_applications (w_db w') !! dep_application_id p = Some a → app_operation_lock a = None) ∧
  (∀ id i, db_instances d !! id = Some i → inst_status i ∉ _TRANSIENT_INSTANCE_STATUSES →
     db_instances (w_db w') !! id = Some i).

(** Recovery completes and is complete, on a fresh session over any database. *)
Lemma reconcile_completes `{Env} w0 :
  ready w0 → ∃ n w', reconcile_on_startup w0 = (Ok n, w') ∧ recovered (w_db w0) w'.
Proof.
  intros Hr0. unfold recovered.
  unfold reconcile_on_startup, reconcile_stuck_deployments, reconcile_stuck_instances.
  unfold mbind at 1, st_bind at 1. rewrite (bind_run _ _ _ _ _ (query_run _ _ (proj1 Hr0))).
  set (stuck := select db_deployments _ _).
  pose proof (wp_for_each (reconciling w0) (λ _ _, False) (map fst stuck) reconcile_deployment w0
    (reconciling_init w0 Hr0) (λ x xs s Hs, reconciling_step w0 x xs s Hs)) as Hdep.
  unfold wp in Hdep. destruct (for_each (map fst stuck) reconcile_deployment w0) as [[[]|e] w1] eqn:E1; [|done].
  simpl in Hdep. rewrite (bind_run _ _ _ _ _ E1).
  destruct Hdep as (Hr1 & _ & _ & Hnone & _ & Hinst & Hlock).
  rewrite (bind_run _ _ _ _ _ (commit_run w1 Hr1)). simpl.
  set (w2 := w1 <| w_committed := w_db w1 |>). assert (ready w2) as Hr2 by exact Hr1.
  unfold mbind at 1, st_bind at 1. rewrite (bind_run _ _ _ _ _ (query_run _ _ (proj1 Hr2))).
  set (stuck2 := select db_instances _ _).
  assert (failing w2 (map fst stuck2) w2) as Hinit.
  { split; [done|]. split; [apply select_keys_nodup|]. split; [done|]. split; [done|]. split; [|split; [|done]].
    - intros id (i & Hi & Hs)%select_keys. apply bool_decide_eq_true in Hs. by exists i.
    - intros id i Hi Hs. apply select_keys. exists i. split; [done|]. by apply bool_decide_eq_true. }
  pose proof (wp_for_each (failing w2) (λ _ _, False) (map fst stuck2) reconcile_instance w2
    Hinit (λ x xs s Hs, failing_step w2 x xs s Hs)) as Hfail.
  unfold wp in Hfail. destruct (for_each (map fst stuck2) reconcile_instance w2) as [[[]|e] w3] eqn:E2; [|done].
  simpl in Hfail. rewrite (bind_run _ _ _ _ _ E2).
  destruct Hfail as (Hr3 & _ & Hd3 & Ha3 & _ & Hclean & Hkeep).
  rewrite (bind_run _ _ _ _ _ (commit_run w3 Hr3)). simpl.
  do 2 eexists. split; [done|]. split; [done|]. simpl. rewrite Hd3, Ha3. split; [|split; [|split]].
  - intros id p Hp Hs. specialize (Hnone id p Hp Hs). by apply elem_of_nil in Hnone.
  - intros id i Hi Hs. specialize (Hclean id i Hi Hs). by apply elem_of_nil in Hclean.
  - intros id p a Hp Hs Ha. destruct (Hlock _ a Ha) as [?|[Hin _]]; [done|].
    specialize (Hin id p Hp Hs eq_refl). by apply elem_of_nil in Hin.
  - intros id i Hi Hs. apply Hkeep; [|done]. simpl. by rewrite Hinst.
Qed.
