(* ===== verification/CommandProperties.v ===== *)
(** Properties of the command service: what a reported event does, who may
    report it, resubmission, and the sweep of overdue commands. *)

From S2P Require Import Prelude Python Enums StateMachines Schema Session Hoare Repositories.
From S2P Require Import Protocol CommandService.
Local Open Scope Z_scope.

(** ** Recording an event *)

(** The row after an event. *)
Definition reported (status : agent_command_status) (result error : json) (c : AgentCommand) : AgentCommand :=
  c <| cmd_status := status |>
    <| cmd_result := match result with JNull => cmd_result c | _ => Some result end |>
    <| cmd_error := match error with JStr s => Some s | _ => cmd_error c end |>.

Definition event_detail (result error : json) : option json :=
  match result with
  | JNull => if truthy error then Some (JObj [("error", error)]) else None
  | _ => Some (JObj [("result", result)])
  end.

(** The waiter of a command is woken by terminal statuses only. *)
Definition woken (command : uuid) (status : agent_command_status) (waiters : gmap uuid bool) : gmap uuid bool :=
  if bool_decide (status ∈ TERMINAL_STATUSES) then alter (λ _, true) command waiters else waiters.

(** A world with a command row replaced. *)
Definition put (command : uuid) (c : AgentCommand) (w : World) : World :=
  w <| w_db := (w_db w) <| db_agent_commands := <[command := c]> (db_agent_commands (w_db w)) |> |>.

Lemma put_put command c c' w : put command c (put command c' w) = put command c w.
Proof. unfold put. simpl. by rewrite insert_insert_eq. Qed.

Lemma put_lookup command c w : db_agent_commands (w_db (put command c w)) !! command = Some c.
Proof. apply lookup_insert_eq. Qed.

Lemma transition_run command current target c w :
  ready w → db_agent_commands (w_db w) !! command = Some c → legal AGENT_COMMAND_TRANSITIONS current target →
  AgentCommandRepository_transition command current target w = (Ok tt, put command (c <| cmd_status := target |>) w).
Proof.
  intros Hr Hc Hl. unfold AgentCommandRepository_transition. unfold mbind at 1, st_bind at 1.
  rewrite require_transition_run, Hl.
  rewrite (bind_run _ _ _ _ _ (assign_run db_agent_commands command _ c w (proj1 Hr) Hc)).
  apply flush_run, Hr.
Qed.

Lemma transition_refused command current target w :
  can_transition AGENT_COMMAND_TRANSITIONS current target = false →
  AgentCommandRepository_transition command current target w =
  (Raise (InvalidTransition (agent_command_status_value current) (agent_command_status_value target)), w).
Proof. intros Hl. unfold AgentCommandRepository_transition, mbind, st_bind. by rewrite require_transition_run, Hl. Qed.

(** An optional assignment to the row that was just written. *)
Lemma when_assign_run (b : bool) command f c w :
  ready w →
  when b (assign db_agent_commands command f) (put command c w) = (Ok tt, put command (if b then f c else c) w).
Proof.
  intros Hr. destruct b; [|done]. simpl.
  rewrite (assign_run db_agent_commands command f c (put command c w) (proj1 Hr) (put_lookup _ _ _)).
  by rewrite <-(put_put command (f c) c w).
Qed.

(** An event about an existing command either follows the state machine, and
    then the command, its history and its waiter are updated together, or is
    refused with [InvalidTransition] and changes nothing. *)
Theorem record_event_correct command c status result error occurred_at w :
  ready w → db_agent_commands (w_db w) !! command = Some c →
  (error = JNull ∨ ∃ s, error = JStr s) →
  record_event command status result error occurred_at w =
  if can_transition AGENT_COMMAND_TRANSITIONS (cmd_status c) status then
    (Ok tt,
     w <| w_db := (w_db w)
            <| db_agent_commands := <[command := reported status result error c]> (db_agent_commands (w_db w)) |>
            <| db_agent_command_events := db_agent_command_events (w_db w) ++
                 [ {| ev_command_id := command; ev_status := status; ev_detail := event_detail result error;
                      ev_occurred_at := occurred_at |} ] |> |>
       <| w_waiters := woken command status (w_waiters w) |>)
  else (Raise (InvalidTransition (agent_command_status_value (cmd_status c)) (agent_command_status_value status)), w).
Proof.
  intros Hr Hc He. unfold record_event. rewrite (bind_run _ _ _ _ _ (row_run _ _ _ _ (proj1 Hr) Hc)).
  destruct (can_transition _ _ _) eqn:Hl;
    [|unfold mbind, st_bind; by rewrite transition_refused].
  rewrite (bind_run _ _ _ _ _ (transition_run _ _ _ _ _ Hr Hc Hl)).
  rewrite (bind_run _ _ _ _ _ (when_assign_run _ _ _ _ _ Hr)).
  match goal with |- context [put command ?x w] => set (c1 := x) end.
  assert (∀ k : unit → M unit, (when (match error with JNull => false | _ => true end)
    (e ← opt_text_value error; assign db_agent_commands command (λ c, c <| cmd_error := e |>)) ≫= k) (put command c1 w)
    = k tt (put command (reported status result error c) w)) as Herr.
  { intros k. destruct He as [-> | [s ->]].
    - unfold reported. subst c1. by destruct result, c.
    - transitivity ((when true (assign db_agent_commands command (λ c, c <| cmd_error := Some s |>)) ≫= k)
        (put command c1 w)); [reflexivity|].
      rewrite (bind_run _ _ _ _ _ (when_assign_run _ _ _ _ _ Hr)).
      unfold reported. subst c1. by destruct result, c. }
  rewrite Herr. unfold add_command_event.
  rewrite (bind_run _ _ _ _ _ (db_modify_run _ (put _ _ w) (proj1 Hr))).
  match goal with |- (flush ≫= _) ?w' = _ => rewrite (bind_run _ _ _ _ _ (flush_run w' Hr)) end.
  unfold woken. case_bool_decide; by destruct w.
Qed.

(** ** Agents are isolated from each other *)

(** The rows of other agents, and their commands, are as in [d0]. *)
Definition others_kept (agent : uuid) (d0 d : DB) : Prop :=
  (∀ id c, db_agent_commands d0 !! id = Some c → cmd_agent_id c ≠ agent → db_agent_commands d !! id = Some c) ∧
  (∀ id a, db_agents d0 !! id = Some a → id ≠ agent → db_agents d !! id = Some a) ∧
  hide_agents d = hide_agents d0.

Section isolation.
Context `{Env} (agent : uuid) (d0 : DB).
Let I := strict (others_kept agent d0).

Lemma isolation_own_command id f :
  (∀ c, db_agent_commands d0 !! id = Some c → cmd_agent_id c = agent) → keeps I (assign db_agent_commands id f).
Proof.
  intros Hown. apply hoare_assign. intros d r (Hc & Ha & Hh) Hr. split; [|done].
  intros k c Hk Hne. simpl. rewrite lookup_insert_ne; [by apply Hc|]. intros ->. by apply Hne, Hown.
Qed.

Lemma isolation_own_agent f : keeps I (assign db_agents agent f).
Proof.
  apply hoare_assign. intros d r (Hc & Ha & Hh) Hr. split; [done|]. split; [|done].
  intros k a Hk Hne. simpl. rewrite lookup_insert_ne; [by apply Ha|done].
Qed.

Lemma isolation_other_tables f :
  (∀ d, db_agent_commands (f d) = db_agent_commands d ∧ db_agents (f d) = db_agents d ∧
        hide_agents (f d) = hide_agents d) → keeps I (db_modify f).
Proof.
  intros Hf. apply hoare_db_modify. intros d (Hc & Ha & Hh). destruct (Hf d) as (E1 & E2 & E3).
  unfold I, others_kept. simpl. rewrite E1, E2, E3. done.
Qed.

Lemma isolation_connections id f : keeps I (assign db_agent_connections id f).
Proof. apply hoare_assign. by intros d r (Hc & Ha & Hh) Hr. Qed.

Lemma isolation_record_event id s r e t :
  (∀ c, db_agent_commands d0 !! id = Some c → cmd_agent_id c = agent) → keeps I (record_event id s r e t).
Proof.
  intros Hown. pose proof (isolation_own_command id) as Hassign.
  assert (∀ ev, keeps I (add_command_event ev)) by (intros; by apply isolation_other_tables).
  unfold record_event, AgentCommandRepository_transition, require_transition, _signal_waiter.
  keeps_auto; by apply Hassign.
Qed.

Lemma isolation_command_event payload : keeps I (_handle_command_event agent payload).
Proof.
  unfold _handle_command_event. apply keeps_bind; [destruct payload; simpl; keeps_auto|]. intros p.
  destruct (negb _); [keeps_auto|]. destruct (dict_get p "command_id" JNull); try (keeps_auto; fail).
  destruct (uuid_of_string s) as [id|]; [|keeps_auto].
  eapply hoare_bind; [apply hoare_query|]. intros [c|] (d & Hd & Hc); [|keeps_auto].
  case_bool_decide as Hagent; simpl; [|keeps_auto].
  assert (∀ c', db_agent_commands d0 !! id = Some c' → cmd_agent_id c' = agent) as Hown.
  { intros c' Hc'. destruct (decide (cmd_agent_id c' = agent)) as [|Hne]; [done|].
    destruct Hd as (Hk & _). rewrite (Hk id c' Hc' Hne) in Hc. congruence. }
  pose proof (isolation_record_event id) as Hrec. keeps_auto; by apply Hrec.
Qed.

Lemma isolation_socket_message message : keeps I (agent_socket_message agent message).
Proof.
  pose proof isolation_command_event. pose proof isolation_own_agent. pose proof isolation_connections.
  assert (∀ s, keeps I (db_modify (λ d, d <| db_metrics_snapshots := db_metrics_snapshots d ++ [s] |>)))
    by (intros; by apply isolation_other_tables).
  unfold agent_socket_message, agent_socket_close, _handle_message, apply_hello, apply_heartbeat,
    connection_unregister, as_dict. keeps_auto.
Qed.

End isolation.

(** C18. Whatever an agent sends, it changes no command of another agent, no other
    agent's row, and no table outside the agents' own. *)
Theorem agents_are_isolated `{Env} agent message w :
  w_committed w = w_db w → w_deleted w = [] →
  others_kept agent (w_db w) (w_committed (agent_socket_message agent message w).2).
Proof.
  intros Hc Hd. destruct (isolation_socket_message agent (w_db w) message w) as [(_ & Hi & _) _]; [|done].
  apply inv_strict. rewrite Hc. by repeat split.
Qed.

(** ** Resubmission *)

(** No two commands share an idempotency key. *)
Definition keys_unique (d : DB) : Prop :=
  ∀ k1 k2 c1 c2, db_agent_commands d !! k1 = Some c1 → db_agent_commands d !! k2 = Some c2 →
    cmd_idempotency_key c1 = cmd_idempotency_key c2 → k1 = k2.

Lemma get_by_idempotency_key_run key w :
  w_active w = true →
  ∃ r, get_by_idempotency_key key w = (Ok r, w) ∧
    match r with
    | Some (id, c) => db_agent_commands (w_db w) !! id = Some c ∧ cmd_idempotency_key c = key
    | None => ∀ id c, db_agent_commands (w_db w) !! id = Some c → cmd_idempotency_key c ≠ key
    end.
Proof.
  intros Ha. unfold get_by_idempotency_key. rewrite query_run by done. eexists. split; [done|].
  pose proof (first_select db_agent_commands (λ c, bool_decide (cmd_idempotency_key c = key)) (w_db w)) as Hf.
  destruct (first _) as [[id c]|]; [by rewrite bool_decide_eq_true in Hf|].
  intros id c Hc. exact (proj1 (bool_decide_eq_false _) (Hf id c Hc)).
Qed.

Section keys.
Context `{Env}.
Let I := strict keys_unique.

Lemma keys_assign id f :
  (∀ c, cmd_idempotency_key (f c) = cmd_idempotency_key c) → keeps I (assign db_agent_commands id f).
Proof.
  intros Hf. apply hoare_assign. intros d r Hd Hr k1 k2 c1 c2. simpl.
  rewrite !lookup_insert_Some. intros [[<- <-]|[? H1]] [[<- <-]|[? H2]]; rewrite ?Hf; eauto.
Qed.

Lemma keys_transition id s t : keeps I (AgentCommandRepository_transition id s t).
Proof.
  unfold AgentCommandRepository_transition, require_transition. keeps_auto. by apply keys_assign.
Qed.

(** Writes to other tables. *)
Lemma keys_modify f : (∀ d, db_agent_commands (f d) = db_agent_commands d) → keeps I (db_modify f).
Proof. intros Hf. apply hoare_db_modify. intros d Hd. unfold I, keys_unique. simpl. by rewrite Hf. Qed.

Lemma keys_assign_other {R} (tbl : DB → gmap uuid R) `{!Upd tbl} id f :
  (∀ d t, db_agent_commands (d <| tbl := t |>) = db_agent_commands d) → keeps I (assign tbl id f).
Proof. intros Hf. apply hoare_assign. intros d r Hd _. unfold I, keys_unique. simpl. by rewrite Hf. Qed.

Lemma keys_insert_other {R} (tbl : DB → gmap uuid R) `{!Upd tbl} r :
  (∀ d t, db_agent_commands (d <| tbl := t |>) = db_agent_commands d) → keeps I (insert_row tbl r).
Proof. intros Hf. eapply hoare_keeps, hoare_insert_row. intros d id Hd _. unfold I, keys_unique. simpl. by rewrite Hf. Qed.

Lemma keys_record_event id s r e t : keeps I (record_event id s r e t).
Proof.
  pose proof keys_transition.
  assert (∀ ev, keeps I (add_command_event ev)) by (intros; by apply keys_modify).
  unfold record_event, _signal_waiter. keeps_auto; by apply keys_assign.
Qed.

Lemma keys_close agent : keeps I (agent_socket_close agent).
Proof. unfold agent_socket_close, connection_unregister. keeps_auto; by apply keys_assign_other. Qed.

Lemma keys_handle_incoming i : keeps I (handle_incoming i).
Proof.
  pose proof keys_transition. pose proof keys_record_event. pose proof keys_close.
  pose proof (keeps_make_envelope I). pose proof (keeps_send_json I).
  assert (∀ ev, keeps I (add_command_event ev)) by (intros; by apply keys_modify).
  destruct i; simpl; apply keeps_other_session;
    unfold agent_socket_open, deliver_pending_commands, connection_register, connection_get,
      list_pending_for_agent, agent_socket_message, _handle_message, _handle_command_event, apply_hello,
      apply_heartbeat, as_dict, expire_overdue_commands;
    keeps_auto; first [by apply keys_assign_other|by apply keys_insert_other|by apply keys_modify].
Qed.

End keys.

(** C20. Resubmitting an idempotency key: when some command has the key, the
    command service answers with such a command and does nothing else - no row,
    no message to the agent, no waiter. When none has it, a submission keeps the
    keys unique, whatever the agents do meanwhile. *)
Theorem submit_command_idempotent `{Env} agent command_type payload key correlation_id ttl hook w :
  ready w → keys_unique (w_db w) → w_committed w = w_db w →
  (∀ id, keeps (strict keys_unique) (hook id)) →
  let run := submit_command agent command_type payload key correlation_id ttl hook w in
  (∀ id c, db_agent_commands (w_db w) !! id = Some c → cmd_idempotency_key c = key → run = (Ok id, w)) ∧
  keys_unique (w_committed run.2).
Proof.
  intros Hr Hk Hc Hhook run. subst run. unfold submit_command.
  destruct (get_by_idempotency_key_run key w (proj1 Hr)) as (r & Hget & Hspec).
  rewrite (bind_run _ _ _ _ _ Hget). destruct r as [[id c]|].
  - destruct Hspec as [Hid Hkey]. split; [|simpl; by rewrite Hc].
    intros id' c' Hid' Hkey'. by rewrite (Hk id' id c' c Hid' Hid) by congruence.
  - split; [intros id c Hid Hkey; by destruct (Hspec id c Hid)|].
    rewrite (bind_run _ _ _ _ _ (now_run _)). set (w1 := w <| w_tick := _ |>).
    destruct (db_agents (w_db w) !! agent) as [a|] eqn:Ea.
    2: { unfold row, mbind at 1, st_bind at 1. rewrite (bind_run _ _ _ _ _ (session_get_run db_agents agent w1 (proj1 Hr))).
         unfold w1. simpl. rewrite Ea. simpl. by rewrite Hc. }
    rewrite (bind_run _ _ _ _ _ (row_run db_agents agent a w1 (proj1 Hr) Ea)), (bind_run _ _ _ _ _ (now_run _)).
    match goal with |- keys_unique (w_committed ((insert_row _ ?c ≫= _) ?w2).2) =>
      destruct (insert_row_run db_agent_commands c w2 (proj1 Hr)) as (id & Hid & _ & Hins) end.
    rewrite (bind_run _ _ _ _ _ Hins).
    match goal with |- keys_unique (w_committed (?m ?w3).2) => assert (keeps (strict keys_unique) m) as Hm end.
    { pose proof keys_transition. pose proof keys_handle_incoming.
      pose proof (keeps_make_envelope (strict keys_unique)). pose proof (keeps_send_json (strict keys_unique)).
      unfold yield_to_tasks, connection_get. keeps_auto. }
    match goal with |- keys_unique (w_committed (_ ?w3).2) => destruct (Hm w3) as [(_ & Hkeys & _) _]; [|done] end.
    apply inv_strict. simpl. rewrite Hc. split; [|by split; [|apply Hr]].
    intros k1 k2 c1 c2. simpl. rewrite !lookup_insert_Some.
    intros [[<- <-]|[? H1]] [[<- <-]|[? H2]] Heq; simpl in *; [done|..|by eauto];
      [destruct (Hspec k2 c2 H2)|destruct (Hspec k1 c1 H1)]; congruence.
Qed.

(** ** The sweep of overdue commands *)

Definition expired_status (s : agent_command_status) : agent_command_status :=
  if decide (s = AgentCommandStatus.PENDING) then AgentCommandStatus.EXPIRED else AgentCommandStatus.TIMED_OUT.

(** What the sweep does to a row. *)
Definition swept (now_ : Z) (c : AgentCommand) : AgentCommand :=
  if overdue now_ c then c <| cmd_status := expired_status (cmd_status c) |> else c.

Lemma overdue_move now_ c :
  overdue now_ c = true → legal AGENT_COMMAND_TRANSITIONS (cmd_status c) (expired_status (cmd_status c)).
Proof.
  unfold overdue. rewrite andb_true_iff, bool_decide_eq_true. intros [Hs _]. revert Hs.
  unfold overdue_statuses. rewrite !elem_of_cons, elem_of_nil.
  intros [->|[->|[->|[->|[]]]]]; vm_compute; reflexivity.
Qed.

Lemma swept_not_overdue now_ c : overdue now_ (swept now_ c) = false.
Proof.
  unfold swept. destruct (overdue now_ c) eqn:E; [|done]. unfold overdue. simpl.
  unfold expired_status. by destruct (decide _).
Qed.

(** The event of a command the sweep expires: it names the command and the status
    the command gets, at the time of the sweep. *)
Definition sweep_event (now_ : Z) (kc : uuid * AgentCommand) : AgentCommandEvent :=
  {| ev_command_id := kc.1; ev_status := expired_status (cmd_status kc.2); ev_detail := None; ev_occurred_at := now_ |}.

(** One turn of the loop. *)
Definition sweep_one (now_ : Z) (kc : uuid * AgentCommand) : M unit :=
  let '(id, c) := kc in
  AgentCommandRepository_transition id (cmd_status c) (expired_status (cmd_status c)) ;;
  add_command_event (sweep_event now_ (id, c)).

(** The loop over commands that are different and overdue. *)
Lemma sweep_loop_run now_ l w :
  ready w → NoDup l.*1 → Forall (λ kc, db_agent_commands (w_db w) !! kc.1 = Some kc.2 ∧ overdue now_ kc.2 = true) l →
  ∃ m,
    for_each l (sweep_one now_) w =
    (Ok tt, w <| w_db := (w_db w) <| db_agent_commands := m |>
                 <| db_agent_command_events := db_agent_command_events (w_db w) ++ map (sweep_event now_) l |> |>) ∧
    (∀ k, m !! k = if decide (k ∈ l.*1) then swept now_ <$> db_agent_commands (w_db w) !! k
                   else db_agent_commands (w_db w) !! k).
Proof.
  revert w. induction l as [|[id c] l IH]; intros w Hr Hnd Hl.
  - exists (db_agent_commands (w_db w)). simpl. rewrite app_nil_r. split; [by destruct w as [[] ? ? ? ? ? ? ? ? ?]|done].
  - apply NoDup_cons in Hnd as [Hid Hnd]. apply Forall_cons in Hl as [[Hc Ho] Hl]. simpl in Hc, Ho.
    assert (sweep_one now_ (id, c) w = db_modify (λ d, d <| db_agent_command_events := db_agent_command_events d ++
      [sweep_event now_ (id, c)] |>) (put id (c <| cmd_status := expired_status (cmd_status c) |>) w)) as Hone.
    { unfold sweep_one.
      by rewrite (bind_run _ _ _ _ _ (transition_run id _ _ c w Hr Hc (overdue_move _ _ Ho))). }
    rewrite (db_modify_run _ (put _ _ w) (proj1 Hr)) in Hone.
    cbn [for_each]. rewrite (bind_run _ _ _ _ _ Hone).
    match goal with |- context [for_each l _ ?w1] => destruct (IH w1) as (m & Hrun & Hm) end;
      [done|done| |].
    { apply Forall_forall. intros [k c'] Hk. simpl. rewrite Forall_forall in Hl.
      destruct (Hl _ Hk) as [Hk1 Hk2]. rewrite lookup_insert_ne; [done|].
      intros ->. apply Hid. apply list_elem_of_fmap. by exists (k, c'). }
    rewrite Hrun. exists m. split.
    + simpl. rewrite <-app_assoc. done.
    + intros k. rewrite Hm. simpl. destruct (decide (k = id)) as [->|Hne].
      * rewrite decide_False by done. rewrite decide_True by left. rewrite lookup_insert_eq, Hc. simpl.
        unfold swept. by rewrite Ho.
      * rewrite lookup_insert_ne by done. destruct (decide (k ∈ l.*1)).
        -- by rewrite decide_True by by right.
        -- rewrite decide_False; [done|]. by intros [?|?]%elem_of_cons.
Qed.

(** C21. The sweep never fails, expires exactly the overdue commands (PENDING ones
    as EXPIRED, the others as TIMED_OUT), leaves every other command as it was
    and no command overdue, adds for each expired command, and for no other, one
    event that names it, the status it got and the time of the sweep, and returns
    their number. *)
Theorem sweep_is_exact now_ w :
  ready w →
  let expired := select db_agent_commands (overdue now_) (w_db w) in
  ∃ w',
    expire_overdue_commands now_ w = (Ok (length expired), w') ∧
    db_agent_commands (w_db w') = swept now_ <$> db_agent_commands (w_db w) ∧
    select db_agent_commands (overdue now_) (w_db w') = [] ∧
    NoDup expired.*1 ∧
    db_agent_command_events (w_db w') = db_agent_command_events (w_db w) ++ map (sweep_event now_) expired.
Proof.
  intros Hr l. unfold expire_overdue_commands. rewrite (bind_run _ _ _ _ _ (query_run _ w (proj1 Hr))).
  fold l. destruct (sweep_loop_run now_ l w Hr) as (m & Hrun & Hm).
  { apply select_keys_nodup. }
  { apply Forall_forall. intros [k c]. apply elem_of_select. }
  change (for_each l _) with (for_each l (sweep_one now_)). rewrite (bind_run _ _ _ _ _ Hrun).
  match goal with |- context [(flush ≫= _) ?w1] => rewrite (bind_run _ _ _ _ _ (flush_run w1 Hr)) end.
  assert (m = swept now_ <$> db_agent_commands (w_db w)) as ->.
  { apply map_eq. intros k. rewrite Hm, lookup_fmap. destruct (decide (k ∈ l.*1)) as [|Hk]; [done|].
    destruct (db_agent_commands (w_db w) !! k) as [c|] eqn:E; [|done]. simpl. unfold swept.
    destruct (overdue now_ c) eqn:Ho; [|done]. destruct Hk. apply list_elem_of_fmap. exists (k, c).
    split; [done|]. by apply elem_of_select. }
  eexists. split; [reflexivity|]. split; [done|]. split; [|split; [apply select_keys_nodup|done]].
  apply select_nil. simpl. intros k c (c' & <- & _)%lookup_fmap_Some. apply swept_not_overdue.
Qed.
