(* ===== verification/FakeAgent.v ===== *)
(** The agent of the demonstrations, services/control-plane/scripts/fake_agent.py,
    and its conversation with the control plane.

    The script is a process of its own: [AgentEnv] is its clock and its source of
    identifiers, its state the messages it has sent. [json.dumps] and
    [json.loads] carry a message unchanged. Heartbeats are sent by a task beside
    the one that receives; the script is a sequence of the two kinds of event, in
    any order. *)

From S2P Require Import Prelude Python Uuid Enums StateMachines Schema Session Hoare Repositories.
From S2P Require Import Protocol CommandService CommandProperties Scenario.
Local Open Scope Z_scope.

(** ** The script *)

Class AgentEnv := {
  agent_uuid4 : nat → uuid;
  agent_now : nat → Z;
}.

Record AgentProcess := {
  ap_observed : nat;          (* identifiers and times drawn so far *)
  ap_sent : list json;        (* messages sent, newest last *)
}.

#[export] Instance eta_AgentProcess : Eta AgentProcess := λ r, Build_AgentProcess (ap_observed r) (ap_sent r).
#[export] Instance upd_ap_observed : Upd ap_observed := ltac:(solve_upd).
#[export] Instance upd_ap_sent : Upd ap_sent := ltac:(solve_upd).

Abbreviation A := (ST AgentProcess exn).

Definition agent_observe {X} (f : nat → X) : A X :=
  t ← gets ap_observed; modify (λ p, p <| ap_observed := S t |>) ;; mret (f t).

Definition envelope `{AgentEnv} (message_type : string) (payload : json) : A json :=
  message_id ← agent_observe agent_uuid4;
  timestamp ← agent_observe agent_now;
  mret (JObj [ ("protocol_version", JStr PROTOCOL_VERSION); ("message_id", JStr (str_uuid message_id));
               ("type", JStr message_type); ("timestamp", JStr (isoformat timestamp)); ("payload", payload) ]).

Definition ws_send (message : json) : A unit := modify (λ p, p <| ap_sent := ap_sent p ++ [message] |>).

(** [d[key]] *)
Definition subscript (d : json) (key : string) : A json :=
  match d with
  | JObj kvs =>
      match dict_lookup kvs key with
      | Some v => mret v
      | None => raise KeyError
      end
  | _ => raise TypeError
  end.

Definition send_hello `{AgentEnv} (os : string) : A unit :=
  message ← envelope "agent.hello"
    (JObj [ ("agent_version", JStr "0.1.0-fake"); ("os", JStr os); ("arch", JStr "amd64");
            ("adapters", JArr [JStr (if String.eqb os "linux" then os +:+ "-docker" else "windows-waitress-service")]) ]);
  ws_send message.

(** One turn of [heartbeat_loop]. *)
Definition send_heartbeat `{AgentEnv} : A unit :=
  message ← envelope "agent.heartbeat"
    (JObj [ ("cpu_percent", JFloat 5 0); ("memory_percent", JFloat 20 0); ("disk_percent", JFloat 30 0);
            ("instances", JArr []) ]);
  ws_send message.

(** [for status in ("acknowledged", "running")]. The identifier is what the
    command says; time is read before the envelope is made. *)
Definition send_status `{AgentEnv} (command : json) (status : string) : A unit :=
  command_id ← subscript command "command_id";
  occurred_at ← agent_observe agent_now;
  message ← envelope "agent.command_event"
    (JObj [ ("command_id", command_id); ("status", JStr status); ("occurred_at", JStr (isoformat occurred_at)) ]);
  ws_send message.

Definition send_result `{AgentEnv} (command : json) : A unit :=
  command_id ← subscript command "command_id";
  type_ ← subscript command "type";
  occurred_at ← agent_observe agent_now;
  message ← envelope "agent.command_event"
    (JObj [ ("command_id", command_id); ("status", JStr "succeeded");
            ("result", JObj [("ok", JBool true); ("type", type_)]); ("occurred_at", JStr (isoformat occurred_at)) ]);
  ws_send message.

(** The body of [async for raw_message in ws]. *)
Definition on_message `{AgentEnv} (message : json) : A unit :=
  type_ ← subscript message "type";
  if negb (match type_ with JStr s => String.eqb s "control.command" | _ => false end) then mret tt else
  command ← subscript message "payload";
  subscript command "type" ;;
  subscript command "command_id" ;;
  for_each ["acknowledged"; "running"] (send_status command) ;;
  send_result command.

Inductive AgentEvent : Type :=
| HeartbeatDue
| Receives (message : json).

Definition agent_step `{AgentEnv} (e : AgentEvent) : A unit :=
  match e with
  | HeartbeatDue => send_heartbeat
  | Receives message => on_message message
  end.

Definition _run `{AgentEnv} (os : string) (events : list AgentEvent) : A unit :=
  send_hello os ;; for_each events agent_step.

(** ** The control plane's side *)

(** The socket's loop handles one message after the other. *)
Definition hear `{Env} (agent : uuid) (messages : list json) : M unit :=
  for_each messages (λ message, handle_incoming (AgentSends agent message)).

Definition event_message (message_id timestamp : string) (payload : list (string * json)) : json :=
  JObj [ ("protocol_version", JStr PROTOCOL_VERSION); ("message_id", JStr message_id);
         ("type", JStr "agent.command_event"); ("timestamp", JStr timestamp); ("payload", JObj payload) ].

(** The database after an event. *)
Definition after_event (id : uuid) (c : AgentCommand) (status : agent_command_status) (result : json) (occurred_at : Z)
    (d : DB) : DB :=
  d <| db_agent_commands := <[id := reported status result JNull c]> (db_agent_commands d) |>
    <| db_agent_command_events := db_agent_command_events d ++
         [ {| ev_command_id := id; ev_status := status; ev_detail := event_detail result JNull;
              ev_occurred_at := occurred_at |} ] |>.

(** A task that handles a message commits what the handler did. *)
Lemma other_session_run (m : M unit) d' ws w :
  w_deleted w = [] →
  m (w <| w_active := true |>) = (Ok tt, w <| w_active := true |> <| w_db := d' |> <| w_committed := d' |> <| w_waiters := ws |>) →
  other_session m w = (Ok tt, w <| w_db := d' |> <| w_committed := d' |> <| w_waiters := ws |>).
Proof.
  intros Hd Hm. unfold other_session, get_db, try_except, mbind at 1, st_bind at 1. rewrite Hm. unfold mbind, st_bind.
  rewrite commit_run by (by split). destruct w; simpl in *. by subst.
Qed.

Lemma hear_event `{Env} agent id c status value result occurred_at message_id timestamp payload w :
  w_deleted w = [] → db_agent_commands (w_db w) !! id = Some c → cmd_agent_id c = agent → (id < 2 ^ 128)%N →
  legal AGENT_COMMAND_TRANSITIONS (cmd_status c) status →
  dict_get payload "command_id" JNull = JStr (str_uuid id) → str_uuid id ≠ "" →
  dict_get payload "status" JNull = JStr value → parse_command_status (JStr value) = Some status →
  dict_get payload "result" JNull = result → dict_get payload "error" JNull = JNull →
  dict_get payload "occurred_at" JNull = JStr (isoformat occurred_at) → isoformat occurred_at ≠ "" →
  env_fromisoformat (isoformat occurred_at) = Some occurred_at →
  let d' := after_event id c status result occurred_at (w_db w) in
  handle_incoming (AgentSends agent (event_message message_id timestamp payload)) w =
  (Ok tt, w <| w_db := d' |> <| w_committed := d' |> <| w_waiters := woken id status (w_waiters w) |>).
Proof.
  intros Hd Hc Hag Hid Hl Pid Hne Pst Hst Pres Perr Pocc Hocc Hiso d'.
  apply other_session_run; [done|]. set (w1 := w <| w_active := true |>).
  assert (ready w1) as Hr by done.
  assert (_handle_command_event agent (JObj payload) w1 =
    (Ok tt, w1 <| w_db := d' |> <| w_waiters := woken id status (w_waiters w) |>)) as Hev.
  { unfold _handle_command_event. unfold mbind at 1, st_bind at 1. cbn [as_dict mret st_ret]. rewrite Pid, Pst, Pres, Perr, Pocc.
    assert (∀ s, s ≠ "" → truthy (JStr s) = true) as Htr by (intros [|? ?]; done).
    rewrite Htr by done. cbn [negb]. rewrite uuid_of_str_uuid by done.
    assert (session_get db_agent_commands id w1 = (Ok (Some c), w1)) as Hget by (rewrite session_get_run; [by rewrite <-Hc|done]).
    rewrite (bind_run _ _ _ _ _ Hget).
    rewrite bool_decide_eq_true_2 by done. cbn [negb]. rewrite Hst, Htr by done. rewrite Hiso.
    unfold mbind at 1, st_bind at 1. cbn [mret st_ret].
    rewrite (record_event_correct id c status result JNull occurred_at w1 Hr Hc (or_introl eq_refl)).
    unfold legal in Hl. by rewrite Hl. }
  unfold agent_socket_message, try_except, mbind at 1, st_bind at 1.
  assert (_handle_message agent (event_message message_id timestamp payload) w1 = _handle_command_event agent (JObj payload) w1)
    as -> by reflexivity.
  rewrite Hev. rewrite commit_run by done. done.
Qed.

Lemma append_nonempty a b : b ≠ "" → a +:+ b ≠ "".
Proof. intros Hb. by destruct a. Qed.

Lemma isoformat_nonempty t : isoformat t ≠ "".
Proof. unfold isoformat. destruct (civil_from_days _) as [[y m] d]. by repeat apply append_nonempty. Qed.

Lemma str_uuid_nonempty u : (u < 2 ^ 128)%N → str_uuid u ≠ "".
Proof. intros Hu E. pose proof (uuid_of_str_uuid u Hu) as H. rewrite E in H. discriminate. Qed.

(** ** The conversation *)

(** What the agent answers a command with. *)
Definition fake_result (c : AgentCommand) : json :=
  JObj [("ok", JBool true); ("type", JStr (agent_command_type_value (cmd_command_type c)))].

Definition command_done (c : AgentCommand) : AgentCommand :=
  c <| cmd_status := AgentCommandStatus.SUCCEEDED |> <| cmd_result := Some (fake_result c) |>.

Definition status_event (id : uuid) (status : agent_command_status) (detail : option json) (t : Z) : AgentCommandEvent :=
  {| ev_command_id := id; ev_status := status; ev_detail := detail; ev_occurred_at := t |}.

(** The three answers, in order, with the times they report. *)
Lemma on_message_run `{Env} `{AgentEnv} id c w0 w0' message p :
  make_envelope "control.command" (_command_envelope_payload id c) w0 = (Ok message, w0') →
  ∃ m1 m2 m3 s1 s2 s3 n1 n2 n3 p',
    let base status t :=
      [ ("command_id", JStr (str_uuid id)); ("status", JStr status); ("occurred_at", JStr (isoformat (agent_now t))) ] in
    on_message message p = (Ok tt, p') ∧
    ap_sent p' = ap_sent p ++
      [ event_message m1 s1 (base "acknowledged" n1); event_message m2 s2 (base "running" n2);
        event_message m3 s3 [ ("command_id", JStr (str_uuid id)); ("status", JStr "succeeded"); ("result", fake_result c);
                              ("occurred_at", JStr (isoformat (agent_now n3))) ] ].
Proof.
  unfold make_envelope, mbind, st_bind. simpl. intros [= <- <-].
  do 10 eexists. split; [reflexivity|]. simpl. by rewrite <-!app_assoc.
Qed.

(** Handles the next answer, on the row the one before left. *)
Ltac hear_next st res t :=
  erewrite bind_run; [|eapply (hear_event _ _ _ st _ res t);
    first [reflexivity|eassumption|apply lookup_insert_eq|done|solve [eauto]|
           unfold legal; match goal with E : cmd_status _ = _ |- _ => rewrite E end; reflexivity]].

Lemma three_events id c t1 t2 t3 d :
  let c1 := reported AgentCommandStatus.ACKNOWLEDGED JNull JNull c in
  let c2 := reported AgentCommandStatus.RUNNING JNull JNull c1 in
  after_event id c2 AgentCommandStatus.SUCCEEDED (fake_result c) t3
    (after_event id c1 AgentCommandStatus.RUNNING JNull t2 (after_event id c AgentCommandStatus.ACKNOWLEDGED JNull t1 d)) =
  d <| db_agent_commands := <[id := command_done c]> (db_agent_commands d) |>
    <| db_agent_command_events := db_agent_command_events d ++
         [ status_event id AgentCommandStatus.ACKNOWLEDGED None t1; status_event id AgentCommandStatus.RUNNING None t2;
           status_event id AgentCommandStatus.SUCCEEDED (Some (JObj [("result", fake_result c)])) t3 ] |>.
Proof.
  intros c1 c2. destruct d; unfold after_event; cbn. rewrite !insert_insert_eq, <-!app_assoc. by destruct c.
Qed.

(** C19. The two ends of the socket understand each other: when the demonstration
    agent receives the envelope the control plane makes for a command it has
    sent, it answers with three messages, and the control plane, hearing them,
    moves the command from SENT through ACKNOWLEDGED and RUNNING to SUCCEEDED,
    with the agent's result, one event for each answer in order, and the waiter
    of the command woken; nothing else changes. (For identifiers of 128 bits, and
    as far as [fromisoformat] reads what [isoformat] prints of the agent's times.) *)
Theorem command_round_trip `{Env} `{AgentEnv} agent id c message w0 w0' p w :
  make_envelope "control.command" (_command_envelope_payload id c) w0 = (Ok message, w0') →
  w_committed w = w_db w → w_deleted w = [] → db_agent_commands (w_db w) !! id = Some c →
  cmd_agent_id c = agent → cmd_status c = AgentCommandStatus.SENT → (id < 2 ^ 128)%N →
  (∀ n, env_fromisoformat (isoformat (agent_now n)) = Some (agent_now n)) →
  ∃ answers p' t1 t2 t3,
    on_message message p = (Ok tt, p') ∧ ap_sent p' = ap_sent p ++ answers ∧
    let d' := (w_db w)
      <| db_agent_commands := <[id := command_done c]> (db_agent_commands (w_db w)) |>
      <| db_agent_command_events := db_agent_command_events (w_db w) ++
           [ status_event id AgentCommandStatus.ACKNOWLEDGED None t1; status_event id AgentCommandStatus.RUNNING None t2;
             status_event id AgentCommandStatus.SUCCEEDED (Some (JObj [("result", fake_result c)])) t3 ] |> in
    hear agent answers w =
      (Ok tt, w <| w_db := d' |> <| w_committed := d' |> <| w_waiters := alter (λ _, true) id (w_waiters w) |>).
Proof.
  intros Hmsg Hc Hd Hrow Hag Hst Hid Hiso.
  destruct (on_message_run id c w0 w0' message p Hmsg) as (m1 & m2 & m3 & s1 & s2 & s3 & n1 & n2 & n3 & p' & Hrun & Hsent).
  eexists _, p', (agent_now n1), (agent_now n2), (agent_now n3). split; [exact Hrun|]. split; [exact Hsent|].
  pose proof (str_uuid_nonempty id Hid). pose proof isoformat_nonempty.
  cbv zeta. unfold hear. cbn [for_each].
  hear_next AgentCommandStatus.ACKNOWLEDGED JNull (agent_now n1).
  hear_next AgentCommandStatus.RUNNING JNull (agent_now n2).
  hear_next AgentCommandStatus.SUCCEEDED (fake_result c) (agent_now n3).
  destruct w as [d cm act del tk u cs ws wi g]. cbn in *. subst.
  rewrite (three_events id c (agent_now n1) (agent_now n2) (agent_now n3) d). reflexivity.
Qed.

(** ** A concrete conversation *)

Definition demo_agent : AgentEnv := {| agent_uuid4 := λ n, N.of_nat n; agent_now := λ _, t0 |}.

(** The control plane reads the one time the agent's clock shows. *)
Definition reads_agent_time : Env :=
  let E := outside (answers_at []) probe_ok gateway_ok in
  {| env_now := env_now; env_incoming := env_incoming; env_send_ok := env_send_ok; env_http_get := env_http_get;
     env_gateway_post := env_gateway_post; env_elapsed := env_elapsed; env_certificates_post := env_certificates_post;
     env_encrypt := env_encrypt; env_decrypt := env_decrypt; env_float_repr := env_float_repr;
     env_exn_text := env_exn_text;
     env_fromisoformat := λ s, if String.eqb s (isoformat t0) then Some t0 else None;
     env_validate_hello := env_validate_hello; env_validate_heartbeat := env_validate_heartbeat |}.

Definition sent_command : AgentCommand :=
  {| cmd_agent_id := agent1; cmd_command_type := AgentCommandType.START_INSTANCE; cmd_payload := JObj [];
     cmd_idempotency_key := "start-instance:90"; cmd_status := AgentCommandStatus.SENT; cmd_correlation_id := None;
     cmd_expires_at := None; cmd_result := None; cmd_error := None; cmd_created_at := t0 |}.

Definition conversation_world : World :=
  (demo_world ((demo_db "deploy" 1) <| db_agent_commands := {[ 55%N := sent_command ]} |>))
    <| w_waiters := {[ 55%N := false ]} |>.

Lemma command_round_trip_witness :
  let E := reads_agent_time in let F := demo_agent in
  ∃ answers w', hear agent1 answers conversation_world = (Ok tt, w') ∧ length answers = 3%nat ∧
    db_agent_commands (w_committed w') !! 55%N = Some (command_done sent_command) ∧ w_waiters w' !! 55%N = Some true.
Proof.
  intros E F.
  destruct (make_envelope (H:=E) "control.command" (_command_envelope_payload 55%N sent_command) conversation_world)
    as [[message|e] w0'] eqn:Em; [|discriminate].
  destruct (command_round_trip (H:=E) (H0:=F) agent1 55%N sent_command message conversation_world w0'
    {| ap_observed := 0; ap_sent := [] |} conversation_world Em eq_refl eq_refl eq_refl eq_refl eq_refl eq_refl)
    as (answers & p' & t1 & t2 & t3 & Hrun & Hsent & Hear).
  { intros n. vm_compute. reflexivity. }
  exists answers. eexists. split; [exact Hear|]. split.
  - assert (ap_sent p' = answers) as <- by exact Hsent. injection Em as <- _. revert Hrun. vm_compute. by intros [= <-].
  - split; vm_compute; reflexivity.
Defined.
