(* ===== verification/ScaleProperties.v ===== *)
(** Properties of replica scaling: what [start_scale] accepts and writes, and
    which instances a scale-down removes. *)

From S2P Require Import Prelude Python Enums StateMachines HealerYaml Schema Session Hoare.
From S2P Require Import Repositories CommandService Scenario DeploymentService ScaleService.
Local Open Scope Z_scope.

(** Scaling down removes the newest instances first: as many as asked for (or
    all of them), and none that is kept is newer than one that is drained. *)
Theorem to_drain_newest_first live count :
  0 ≤ count →
  ∃ kept, to_drain live count ++ kept ≡ₚ live ∧
    Z.of_nat (length (to_drain live count)) = Z.min count (Z.of_nat (length live)) ∧
    ∀ x y, x ∈ to_drain live count → y ∈ kept → inst_created_at y.2 ≤ inst_created_at x.2.
Proof.
  intros Hc. unfold to_drain. set (sorted := order_by_desc _ _).
  exists (drop (Z.to_nat count) sorted). split.
  - rewrite take_drop. apply sort_by_permutation.
  - split.
    + rewrite length_take. unfold sorted, order_by_desc. rewrite sort_by_permutation. lia.
    + intros x y Hx Hy. pose proof (order_by_desc_sorted (λ kv : uuid * Instance, inst_created_at kv.2) live) as Hs.
      fold sorted in Hs. rewrite <-(take_drop (Z.to_nat count) sorted) in Hs.
      exact (StronglySorted_app_1_elem_of _ _ _ _ _ Hs Hx Hy).
Qed.

Definition newer_instance : Instance :=
  {| inst_application_id := app1; inst_release_id := Some old_release; inst_server_id := server1;
     inst_port := 9001; inst_status := InstanceStatus.RUNNING; inst_service_name := Some "Healer-demo-9001";
     inst_deployment_id := None; inst_healing_attempts := 0; inst_last_healing_attempt_at := None;
     inst_failure_reason := None; inst_created_at := 5 |}.

Lemma to_drain_newest_first_witness :
  let live := [(1%N, demo_instance InstanceStatus.RUNNING 9000);
               (2%N, newer_instance)] in
  to_drain live 1 = [(2%N, newer_instance)] ∧
  ∃ kept, to_drain live 1 ++ kept ≡ₚ live.
Proof.
  intros live. split; [vm_compute; reflexivity|].
  destruct (to_drain_newest_first live 1) as (kept & Hp & _); [discriminate|]. by exists kept.
Defined.

(** The release a scale operation runs. *)
Definition ready_release_of (application : uuid) (d : DB) (release : uuid) : Prop :=
  ∃ r, db_releases d !! release = Some r ∧ rel_application_id r = application ∧ rel_status r = ReleaseStatus.READY.

Lemma first_ready_release application w release r :
  w_active w = true →
  ∃ l, ready_releases application w = (Ok l, w) ∧
    (first l = Some (release, r) → ready_release_of application (w_db w) release).
Proof.
  intros Ha. unfold ready_releases. rewrite query_run by done. eexists. split; [done|].
  unfold first. set (l := order_by_desc _ _). intros Hl.
  assert ((release, r) ∈ l) as Hin by (destruct l; [done|]; injection Hl as ->; left).
  unfold l, order_by_desc in Hin. rewrite sort_by_permutation in Hin. apply elem_of_select in Hin as [Hr Hp].
  apply andb_true_iff in Hp as [H1%bool_decide_eq_true H2%bool_decide_eq_true]. by exists r.
Qed.

(** The row [start_scale] and [start_deployment] insert. *)
Lemma insert_deployment_run `{Env} application release count kind actor w :
  ready w →
  ∃ id p w', insert_deployment application release count kind actor w = (Ok id, w') ∧ ready w' ∧
    db_deployments (w_db w) !! id = None ∧
    dep_application_id p = application ∧ dep_release_id p = release ∧ dep_instance_count p = count ∧
    dep_status p = DeploymentStatus.PENDING ∧
    w_db w' = (w_db w) <| db_deployments := <[id := p]> (db_deployments (w_db w)) |>.
Proof.
  intros Hr. unfold insert_deployment. rewrite (bind_run _ _ _ _ _ (now_run _)).
  match goal with |- context [insert_row _ ?p ?w1] =>
    destruct (insert_row_run db_deployments p w1 (proj1 Hr)) as (id & Hid & _ & Hins); exists id, p end.
  eexists. split; [exact Hins|]. by repeat split; try apply Hr.
Qed.

(** [start_scale] accepts a target within the application's bounds only. When
    it succeeds it has committed a new deployment of a READY release of the
    application, IN_PROGRESS, for that many instances, and the application's
    desired replica count is the target; otherwise it raises [ScaleSetupError]
    and has changed no row. *)
Theorem start_scale_correct `{Env} application target actor_id a w :
  ready w → db_applications (w_db w) !! application = Some a →
  match start_scale application target actor_id w with
  | (Ok id, w') =>
      app_min_replicas a ≤ target ≤ app_max_replicas a ∧ db_deployments (w_db w) !! id = None ∧
      (∃ p, db_deployments (w_db w') !! id = Some p ∧ dep_status p = DeploymentStatus.IN_PROGRESS ∧
            dep_application_id p = application ∧ dep_instance_count p = target ∧
            ready_release_of application (w_db w) (dep_release_id p)) ∧
      db_applications (w_db w') = <[application := a <| app_desired_replicas := target |>]> (db_applications (w_db w)) ∧
      w_committed w' = w_db w'
  | (Raise e, w') => (∃ msg, e = ScaleSetupError msg) ∧ w_db w' = w_db w
  end.
Proof.
  intros Hr Ha. unfold start_scale. rewrite (bind_run _ _ _ _ _ (row_run _ _ _ _ (proj1 Hr) Ha)).
  destruct ((target <? app_min_replicas a) || (app_max_replicas a <? target))%bool eqn:Hb; [by split; [eexists|]|].
  destruct (app_server_id a) as [server|]; [|by split; [eexists|]].
  unfold AgentRepository_get_by_server_id. rewrite (bind_run _ _ _ _ _ (query_run _ w (proj1 Hr))).
  destruct (not_connected _); [by split; [eexists|]|].
  unfold mbind at 1, st_bind at 1. unfold ready_releases. rewrite query_run by apply Hr.
  match goal with |- context [first ?l] => destruct (first l) as [[release r]|] eqn:Hf end; [|by split; [eexists|]].
  destruct (first_ready_release application w release r (proj1 Hr)) as (l & Hl & Hready).
  unfold ready_releases in Hl. rewrite query_run in Hl by apply Hr. injection Hl as <-. specialize (Hready Hf).
  destruct (insert_deployment_run application release target "deploy" actor_id w Hr)
    as (id & p & w1 & Hins & Hr1 & Hid & E1 & E2 & E3 & Es & Edb).
  rewrite (bind_run _ _ _ _ _ Hins).
  assert (db_deployments (w_db w1) !! id = Some p) as Hp by (rewrite Edb; apply lookup_insert_eq).
  destruct (transition_deployment_run id DeploymentStatus.IN_PROGRESS actor_id p w1 Hr1 Hp)
    as (w2 & Ht & Hr2 & Hd2 & _ & Ha2 & _); [by rewrite Es|].
  rewrite (bind_run _ _ _ _ _ Ht).
  assert (db_applications (w_db w2) !! application = Some a) as Ha2' by (by rewrite Ha2, Edb).
  rewrite (bind_run _ _ _ _ _ (assign_run _ _ _ _ _ (proj1 Hr2) Ha2')).
  match goal with |- context [(commit ≫= _) ?w3] => rewrite (bind_run _ _ _ _ _ (commit_run w3 Hr2)) end.
  simpl. apply orb_false_iff in Hb as [?%Z.ltb_ge ?%Z.ltb_ge]. split; [lia|]. split; [done|].
  rewrite Hd2, Ha2, Edb. split; [|done]. eexists. split; [apply lookup_insert_eq|]. simpl. by rewrite E2.
Qed.

Lemma start_scale_correct_witness :
  let E := outside (answers_at []) probe_ok gateway_ok in
  let w := demo_world (demo_db "deploy" 1) in
  ∃ id w', start_scale app1 3 None w = (Ok id, w') ∧ 1 ≤ 3 ≤ 3 ∧ w_committed w' = w_db w'.
Proof.
  intros E w. pose proof (start_scale_correct app1 3 None demo_app w) as Hrun.
  assert ((start_scale app1 3 None w).1 = Ok 100%N) as Hok by (vm_compute; reflexivity).
  destruct (start_scale app1 3 None w) as [[id|e] w']; [|discriminate].
  destruct Hrun as (Hb & _ & _ & _ & Hc); [by split|vm_compute; reflexivity|].
  exists id, w'. split; [reflexivity|]. split; [exact Hb|exact Hc].
Defined.
