(* ===== verification/HealingProperties.v ===== *)
(** The counters of self-healing: the number of healing attempts of an instance,
    counted along the replacements it led to, never exceeds the configured
    maximum. What that means for the restarts themselves is in [HealingBudget]. *)

From S2P Require Import Prelude Python Enums StateMachines HealerYaml Schema Session Hoare.
From S2P Require Import Repositories Protocol LockService CommandService Scenario ApplicationService.
From S2P Require Import AuditService GatewayService HealthCheckService DeploymentService.
From S2P Require Import ScaleService SelfHealingService.
Local Open Scope Z_scope.

(** Every health check allows at most [m] attempts, and no instance has used
    more. *)
Definition attempts_bounded (m : Z) (d : DB) : Prop :=
  map_Forall (λ _ h, hc_max_restart_attempts h ≤ m) (db_health_checks d) ∧
  map_Forall (λ _ i, inst_healing_attempts i ≤ m) (db_instances d).

(** What counting an attempt does to an instance. *)
Definition counted (now_ : Z) (x : Instance) : Instance :=
  x <| inst_healing_attempts := inst_healing_attempts x + 1 |> <| inst_last_healing_attempt_at := Some now_ |>.

(** One more attempt is counted only below the maximum of the health check, and
    committed before anything else happens: what holds then is what the rest
    starts from. *)
Lemma keeps_count `{Env} (P P' : DB → Prop) i hc (abandon k : M unit) :
  (∀ d x h now_, P d → db_instances d !! i = Some x → db_health_checks d !! hc = Some h →
     inst_healing_attempts x < hc_max_restart_attempts h →
     P' (d <| db_instances := <[i := counted now_ x]> (db_instances d) |>)) →
  keeps (strict P) abandon →
  (∀ w, inv (strict P') w → inv (strict P) (k w).2) →
  keeps (strict P) (x ← row db_instances i;
           h ← row db_health_checks hc;
           waiting ← match inst_last_healing_attempt_at x with
                     | Some last => now_ ← now; mret (in_cooldown now_ last (hc_restart_cooldown_seconds h))
                     | None => mret false
                     end;
           if waiting : bool then mret tt
           else if hc_max_restart_attempts h <=? inst_healing_attempts x then abandon
           else
             now_ ← now;
             assign db_instances i (λ x, x <| inst_healing_attempts := inst_healing_attempts x + 1 |>
                                           <| inst_last_healing_attempt_at := Some now_ |>) ;;
             commit ;; k).
Proof.
  intros HP Hg Hk w Hw. destruct (w_active w) eqn:Ha.
  2: { unfold row, session_get, query, require_active, mbind, st_bind. simpl. by rewrite Ha. }
  destruct (db_instances (w_db w) !! i) as [x|] eqn:Ex.
  2: { unfold row, session_get, query, require_active, mbind, st_bind. simpl. rewrite Ha. simpl. by rewrite Ex. }
  rewrite (bind_run _ _ _ _ _ (row_run _ _ _ _ Ha Ex)).
  destruct (db_health_checks (w_db w) !! hc) as [h|] eqn:Eh.
  2: { unfold row, session_get, query, require_active, mbind, st_bind. simpl. rewrite Ha. simpl. by rewrite Eh. }
  rewrite (bind_run _ _ _ _ _ (row_run _ _ _ _ Ha Eh)).
  assert (∃ b t, (match inst_last_healing_attempt_at x with
                  | Some last => now_ ← now; mret (in_cooldown now_ last (hc_restart_cooldown_seconds h))
                  | None => mret false
                  end) w = (Ok b, w <| w_tick := t |>)) as (b & t & Hwait).
  { destruct (inst_last_healing_attempt_at x); [by eexists _, _|]. exists false, (w_tick w). by destruct w. }
  rewrite (bind_run _ _ _ _ _ Hwait). set (w1 := w <| w_tick := t |>). assert (inv (strict P) w1) as Hw1 by exact Hw.
  destruct b; [by split|]. destruct (Z.leb_spec (hc_max_restart_attempts h) (inst_healing_attempts x)) as [|Hlt];
    [by apply Hg|].
  apply inv_strict in Hw as (Hdb & _ & Hd).
  rewrite (bind_run _ _ _ _ _ (now_run _)). set (w2 := w1 <| w_tick := _ |>).
  rewrite (bind_run _ _ _ _ _ (assign_run db_instances i _ x w2 Ha Ex)).
  match goal with |- inv _ (_ ?w3).2 ∧ _ => rewrite (bind_run _ _ w3 _ _ (commit_run w3 (conj Ha Hd))) end.
  split; [|done]. apply Hk, inv_strict. simpl.
  pose proof (HP (w_db w) x h (env_now (w_tick w1)) Hdb Ex Eh Hlt). done.
Qed.

Section bounded.
Context `{Env} (m : Z) (Hm : 0 ≤ m).
Let I := strict (attempts_bounded m).

#[local] Instance bounded_agents : AgentStable I.
Proof.
  intros d d' Hf [Hh Hi]. split.
  - by rewrite <-(agent_frame_eq db_health_checks d d' Hf (λ _, eq_refl)).
  - by rewrite <-(agent_frame_eq db_instances d d' Hf (λ _, eq_refl)).
Qed.
#[local] Instance bounded_records : RecordStable I.
Proof.
  intros d d' Hf [Hh Hi]. split.
  - by rewrite <-(record_frame_eq db_health_checks d d' Hf (λ _, eq_refl)).
  - by rewrite <-(record_frame_eq db_instances d d' Hf (λ _, eq_refl)).
Qed.

Lemma bounded_put d id i :
  I d → inst_healing_attempts i ≤ m → I (d <| db_instances := <[id := i]> (db_instances d) |>).
Proof. intros [Hh Hi] Hle. split; [done|]. by apply map_Forall_insert_2. Qed.

Lemma bounded_transition id target : keeps I (InstanceRepository_transition id target).
Proof.
  apply hoare_instance_transition. intros d i Hd Hi _ _. apply bounded_put; [done|]. exact (proj2 Hd id i Hi).
Qed.

Lemma bounded_note id f :
  (∀ i, inst_healing_attempts (f i) = inst_healing_attempts i) → keeps I (assign db_instances id f).
Proof.
  intros Hf. apply hoare_assign. intros d i Hd Hi. apply bounded_put; [done|]. rewrite Hf. exact (proj2 Hd id i Hi).
Qed.

Lemma bounded_lock id cond f : keeps I (update_application_where id cond f).
Proof. apply hoare_update_application_where. by intros d a Hd Ha _. Qed.

Lemma bounded_try_allocate a r s p q : keeps I (try_allocate a r s p q).
Proof.
  unfold try_allocate. apply hoare_try_except; [|intros e; keeps_auto].
  apply keeps_bind; [|intros id; keeps_auto]. eapply hoare_keeps, hoare_allocate_instance.
  intros d id i port Hd _ Hrow _ _ _. apply bounded_put; [done|]. destruct Hrow as (_&_&_&_&_&->). done.
Qed.

Lemma bounded_give_up a i r : keeps I (_give_up a i r).
Proof. pose proof bounded_transition. unfold _give_up. keeps_auto. by apply bounded_note. Qed.

(** The replacement inherits the count of the instance it replaces. *)
Lemma bounded_replace a r i hc c ag s : keeps I (_replace a r i hc c ag s).
Proof.
  pose proof bounded_transition. pose proof bounded_give_up. pose proof bounded_try_allocate.
  unfold _replace. apply keeps_bind; [keeps_auto|]. intros ap.
  destruct (app_port_range_start ap), (app_port_range_end ap); try apply bounded_give_up.
  apply keeps_bind; [keeps_auto|]. intros f0. apply keeps_bind; [keeps_auto|]. intros [replacement|msg]; [|keeps_auto].
  eapply hoare_bind; [apply hoare_row|]. intros f (d & Hd & Hf). apply keeps_bind.
  - apply hoare_assign. intros d' j Hd' _. apply bounded_put; [done|]. exact (proj2 Hd _ _ Hf).
  - intros _. keeps_auto.
Qed.

Lemma bounded_attempt_recovery a i hc ag c s : keeps I (attempt_recovery a i hc ag c s).
Proof.
  pose proof bounded_transition. pose proof bounded_give_up. pose proof bounded_replace.
  unfold attempt_recovery. keeps_auto; by apply bounded_note.
Qed.

Lemma bounded_handle a i hc : keeps I (handle_unhealthy_instance a i hc).
Proof.
  pose proof bounded_transition. pose proof bounded_give_up. pose proof bounded_attempt_recovery.
  unfold handle_unhealthy_instance. do 7 (apply keeps_bind; [keeps_auto|intros ?]).
  repeat (match goal with |- hoare _ (match ?x with _ => _ end) _ => destruct x end); [keeps_auto| |keeps_auto].
  apply (keeps_count _ (attempts_bounded m)); [|done|intros w Hw; by apply bounded_attempt_recovery].
  intros d x h now_ Hd Hx Hh Hlt. apply bounded_put; [exact Hd|]. pose proof (proj1 Hd hc h Hh). simpl in *. lia.
Qed.

Lemma bounded_tick : keeps I tick.
Proof.
  pose proof bounded_handle. pose proof bounded_lock.
  unfold tick, _poll_and_maybe_heal, _heal, acquire, release. keeps_auto.
Qed.

End bounded.

(** A round of the health monitor: if no health check allows more than [m]
    restart attempts and no instance has used more, that is so afterwards, for the
    replacements it created too. *)
Lemma tick_attempts_bounded `{Env} m w :
  0 ≤ m → inv (strict (attempts_bounded m)) w → attempts_bounded m (w_committed (tick w).2).
Proof. intros Hm Hw. by destruct (bounded_tick m Hm w Hw) as [(_ & Hr & _) _]. Qed.
