(* ===== verification/HealingBudget.v ===== *)
(** The budget of self-healing: every restart the health monitor attempts is paid
    for by the attempts its instance, or the lineage of replacements it belongs
    to, has left. *)

From S2P Require Import Prelude Python Enums StateMachines HealerYaml Schema Session Hoare.
From S2P Require Import Repositories Protocol LockService CommandService Scenario ApplicationService.
From S2P Require Import AuditService GatewayService HealthCheckService DeploymentService.
From S2P Require Import ScaleService SelfHealingService HealingProperties.
Local Open Scope Z_scope.

(** ** Restarts and what is left *)

Definition is_restart (e : AuditLog) : bool := String.eqb (au_action e) "instance.restart_attempted".

(** The restarts the audit log tells of. *)
Definition restarts (d : DB) : Z := Z.of_nat (length (List.filter is_restart (db_audit_logs d))).

(** The instances that may come to be restarted without an operator: not those
    still PENDING, and not those STOPPED or FAILED for good. *)
Definition live (s : instance_status) : bool :=
  match s with
  | InstanceStatus.PENDING | InstanceStatus.STOPPED | InstanceStatus.FAILED => false
  | _ => true
  end.

(** The attempts an instance has left, and those it may use. *)
Definition slack (m : Z) (i : Instance) : Z := Z.max 0 (m - inst_healing_attempts i).
Definition weight (m : Z) (i : Instance) : Z := if live (inst_status i) then slack m i else 0.

Definition total (m : Z) (rows : gmap uuid Instance) : Z := map_fold (λ _ i acc, weight m i + acc) 0 rows.

Definition budget (m : Z) (d : DB) : Z := total m (db_instances d).

(** No health check allows more than [m] attempts. *)
Definition allows (m : Z) (d : DB) : Prop := map_Forall (λ _ h, hc_max_restart_attempts h ≤ m) (db_health_checks d).

Section total.
Context (m : Z).

Lemma slack_nonneg i : 0 ≤ slack m i.
Proof. unfold slack. lia. Qed.

Lemma weight_nonneg i : 0 ≤ weight m i.
Proof. unfold weight. pose proof (slack_nonneg i). destruct (live _); lia. Qed.

Lemma weight_slack i : weight m i ≤ slack m i.
Proof. unfold weight. pose proof (slack_nonneg i). destruct (live _); lia. Qed.

Lemma total_new rows id i : rows !! id = None → total m (<[id := i]> rows) = weight m i + total m rows.
Proof. intros Hid. unfold total. rewrite map_fold_insert_L; [done|lia|done]. Qed.

Lemma total_put rows id x y :
  rows !! id = Some x → total m (<[id := y]> rows) = total m rows - weight m x + weight m y.
Proof.
  intros Hx. pose proof (insert_delete_id rows id x Hx) as Hrows.
  rewrite <-Hrows at 2. rewrite <-(insert_delete_eq rows id y).
  rewrite !total_new by apply lookup_delete_eq. lia.
Qed.

Lemma total_nonneg rows : 0 ≤ total m rows.
Proof.
  unfold total. apply (map_fold_weak_ind (λ acc _, 0 ≤ acc)); [done|]. intros id i r acc _ Hacc.
  pose proof (weight_nonneg i). lia.
Qed.

End total.

Lemma live_source s t : legal INSTANCE_TRANSITIONS s t → live t = true → t ≠ InstanceStatus.STARTING → live s = true.
Proof. by destruct s, t. Qed.

(** ** What is paid for *)

(** What the health monitor's bookkeeping leaves alone. *)
Definition quiet (d d' : DB) : Prop :=
  db_instances d' = db_instances d ∧ db_health_checks d' = db_health_checks d ∧ restarts d' = restarts d.

Class Quiet (P : DB → Prop) := quiet_holds d d' : quiet d d' → P d → P d'.

Section stages.
Context (m : Z) (C : Z).

Definition spent (d : DB) : Z := restarts d + budget m d.

(** All restarts are within [C]. *)
Definition within (d : DB) : Prop := allows m d ∧ spent d ≤ C.

(** [i] can be healed, and an attempt of it has been counted that it has not made. *)
Definition owed (i : uuid) (d : DB) : Prop :=
  within d ∧ ∀ x, db_instances d !! i = Some x → live (inst_status x) = true → spent d ≤ C - 1.

(** [i] is being healed. *)
Definition healing (i : uuid) (d : DB) : Prop :=
  within d ∧ ∃ x, db_instances d !! i = Some x ∧ live (inst_status x) = true.

(** [i] failed, and what it had left is free for a replacement. *)
Definition freed (i : uuid) (d : DB) : Prop :=
  allows m d ∧ ∃ x, db_instances d !! i = Some x ∧ spent d + slack m x ≤ C.

(** [r] may become live. *)
Definition funded (r : uuid) (d : DB) : Prop :=
  allows m d ∧ ∃ y, db_instances d !! r = Some y ∧ spent d - weight m y + slack m y ≤ C.

#[export] Instance quiet_within : Quiet within.
Proof. intros d d' (Hi & Hh & Hr). unfold within, allows, spent, budget. by rewrite Hi, Hh, Hr. Qed.
#[export] Instance quiet_owed i : Quiet (owed i).
Proof.
  intros d d' Hq [Hw Ho]. split; [by eapply quiet_within|]. destruct Hq as (Hi & Hh & Hr). revert Ho.
  unfold spent, budget. by rewrite Hi, Hr.
Qed.
#[export] Instance quiet_healing i : Quiet (healing i).
Proof. intros d d' Hq [Hw Ho]. split; [by eapply quiet_within|]. destruct Hq as (Hi & _). by rewrite Hi. Qed.
#[export] Instance quiet_freed i : Quiet (freed i).
Proof. intros d d' (Hi & Hh & Hr). unfold freed, allows, spent, budget. by rewrite Hi, Hh, Hr. Qed.
#[export] Instance quiet_funded i : Quiet (funded i).
Proof. intros d d' (Hi & Hh & Hr). unfold funded, allows, spent, budget. by rewrite Hi, Hh, Hr. Qed.

Lemma owed_within i d : owed i d → within d.
Proof. by intros []. Qed.
Lemma healing_within i d : healing i d → within d.
Proof. by intros []. Qed.
Lemma freed_within i d : freed i d → within d.
Proof. intros (Ha & x & _ & Hx). split; [done|]. pose proof (slack_nonneg m x). lia. Qed.
Lemma funded_within r d : funded r d → within d.
Proof. intros (Ha & y & _ & Hy). split; [done|]. pose proof (weight_slack m y). lia. Qed.

Lemma spent_put d id x y :
  db_instances d !! id = Some x →
  spent (d <| db_instances := <[id := y]> (db_instances d) |>) = spent d - weight m x + weight m y.
Proof. intros Hx. unfold spent, budget. simpl. rewrite (total_put m _ id x y Hx). unfold restarts. simpl. lia. Qed.

Lemma within_put d id x y :
  within d → db_instances d !! id = Some x → weight m y ≤ weight m x →
  within (d <| db_instances := <[id := y]> (db_instances d) |>).
Proof. intros [Ha Hs] Hx Hw. split; [done|]. rewrite (spent_put d id x y Hx). lia. Qed.

(** A move that does not bring an instance back to life. *)
Lemma weight_move x target :
  legal INSTANCE_TRANSITIONS (inst_status x) target → target ≠ InstanceStatus.STARTING →
  weight m (x <| inst_status := target |>) ≤ weight m x.
Proof.
  intros Hl Ht. pose proof (weight_nonneg m x). unfold weight in *. simpl. destruct (live target) eqn:Et; [|done].
  by rewrite (live_source _ _ Hl Et Ht).
Qed.

(** Counting an attempt pays for it. *)
Lemma owed_count d i x h hc now_ :
  within d → db_instances d !! i = Some x → db_health_checks d !! hc = Some h →
  inst_healing_attempts x < hc_max_restart_attempts h →
  owed i (d <| db_instances := <[i := counted now_ x]> (db_instances d) |>).
Proof.
  intros [Ha Hs] Hx Hh Hlt. pose proof (Ha hc h Hh) as Hm. simpl in Hm.
  assert (slack m (counted now_ x) = slack m x - 1) as Hsl by (unfold slack, counted; simpl; lia).
  assert (weight m (counted now_ x) ≤ weight m x) as Hw.
  { unfold weight. replace (inst_status (counted now_ x)) with (inst_status x) by done. destruct (live _); lia. }
  split; [by apply (within_put d i x)|]. simpl. intros y. rewrite lookup_insert_eq. intros [= <-] Hlive.
  rewrite (spent_put d i x _ Hx). unfold weight.
  replace (inst_status (counted now_ x)) with (inst_status x) in * by done. rewrite Hlive. lia.
Qed.

End stages.

(** ** Bookkeeping that is not a restart *)

(** Frames of the agents' tables say nothing of instances and audit entries. *)
Lemma agent_frame_quiet d d' : agent_frame d d' → quiet d d'.
Proof.
  intros Hf. split_and!.
  - by rewrite (agent_frame_eq db_instances d d' Hf (λ _, eq_refl)).
  - by rewrite (agent_frame_eq db_health_checks d d' Hf (λ _, eq_refl)).
  - unfold restarts. by rewrite (agent_frame_eq db_audit_logs d d' Hf (λ _, eq_refl)).
Qed.

Section quiet.
Context `{Env} (P : DB → Prop) `{!Quiet P}.
Let I := strict P.

#[local] Instance quiet_agents : AgentStable I.
Proof. intros d d' Hf. by apply quiet_holds, agent_frame_quiet. Qed.

Lemma quiet_write f : (∀ d, quiet d (f d)) → keeps I (db_modify f).
Proof. intros Hf. apply hoare_db_modify. intros d. by apply quiet_holds. Qed.

Lemma quiet_insert {R} (tbl : DB → gmap uuid R) `{!Upd tbl} r :
  (∀ d t, quiet d (d <| tbl := t |>)) → keeps I (insert_row tbl r).
Proof. intros Hf. eapply hoare_keeps, hoare_insert_row. intros d id Hd _. eapply quiet_holds; [apply Hf|exact Hd]. Qed.

Lemma quiet_entry a1 action a3 a4 a5 :
  String.eqb action "instance.restart_attempted" = false → keeps I (record a1 action a3 a4 a5).
Proof.
  intros Ha. unfold record, add_audit. keeps_auto. apply quiet_write. intros d. split_and!; [done|done|].
  unfold restarts. simpl. rewrite List.filter_app, length_app. unfold is_restart at 2. simpl. rewrite Ha. simpl. lia.
Qed.

Lemma quiet_log_audit action i l :
  String.eqb action "instance.restart_attempted" = false → keeps I (_log_audit action i l).
Proof. intros Ha. pose proof (λ a1 a3 a4 a5, quiet_entry a1 action a3 a4 a5 Ha). unfold _log_audit. keeps_auto. Qed.

Lemma quiet_notify a i r : keeps I (_notify_administrators a i r).
Proof. unfold _notify_administrators, add_notification. keeps_auto. by apply quiet_insert. Qed.

Lemma quiet_add_health_result r : keeps I (add_health_result r).
Proof. unfold add_health_result. keeps_auto; by apply quiet_write. Qed.

Lemma quiet_check h p pa t e : keeps I (check_instance_once h p pa t e).
Proof. unfold check_instance_once. keeps_auto. Qed.

Lemma quiet_wait_until_healthy hc i h p : keeps I (wait_until_healthy hc i h p).
Proof.
  pose proof quiet_add_health_result. pose proof quiet_check. unfold wait_until_healthy.
  assert (∀ n s f, keeps I (wait_loop n hc i h p s f)) as Hloop by (induction n; intros; simpl; keeps_auto).
  keeps_auto.
Qed.

Lemma quiet_sync_gateway a actor : keeps I (sync_gateway a actor).
Proof.
  pose proof (λ a1 a3 a4 a5, quiet_entry a1 "gateway.sync" a3 a4 a5 eq_refl).
  unfold sync_gateway, gateway_result, as_dict. keeps_auto.
Qed.

Lemma quiet_sync_if_routed a c : keeps I (sync_if_routed a c).
Proof. pose proof quiet_sync_gateway. unfold sync_if_routed. keeps_auto. Qed.

Lemma quiet_restart ag r i c : keeps I (_restart ag r i c).
Proof. apply keeps_restart. apply _. Qed.

Lemma quiet_lock id cond f : keeps I (update_application_where id cond f).
Proof. apply hoare_update_application_where. intros d a Hd _ _. by eapply quiet_holds; [|exact Hd]. Qed.

End quiet.

(** ** Restarts *)

Lemma inv_weaken (P P' : DB → Prop) w : (∀ d, P d → P' d) → inv (strict P) w → inv (strict P') w.
Proof. intros H (Hdb & Hc & Hd)%inv_strict. apply inv_strict. auto. Qed.

(** From one predicate to another. *)
Definition takes {A} (P P' : DB → Prop) (m : M A) : Prop := ∀ w, inv (strict P) w → inv (strict P') (m w).2.

Lemma takes_keeps {A} (P P' : DB → Prop) (m : M A) : (∀ d, P d → P' d) → keeps (strict P') m → takes P P' m.
Proof. intros H Hm w Hw. by apply Hm, (inv_weaken P). Qed.

Lemma takes_bind {A B} (P P' : DB → Prop) (m : M A) (f : A → M B) :
  (∀ d, P d → P' d) → keeps (strict P) m → (∀ a, takes P P' (f a)) → takes P P' (m ≫= f).
Proof.
  intros H Hm Hf w Hw. destruct (Hm w Hw) as [Hw' _]. unfold mbind, st_bind.
  destruct (m w) as [[a|e] w']; simpl in *; [by apply Hf|by apply (inv_weaken P)].
Qed.

Lemma takes_then {A B} (P P1 P2 : DB → Prop) (m : M A) (f : A → M B) :
  (∀ d, P1 d → P2 d) → takes P P1 m → (∀ a, takes P1 P2 (f a)) → takes P P2 (m ≫= f).
Proof.
  intros H Hm Hf w Hw. specialize (Hm w Hw). unfold mbind, st_bind.
  destruct (m w) as [[a|e] w']; simpl in *; [by apply Hf|by apply (inv_weaken P1)].
Qed.

Lemma takes_transition {A} (P P1 P2 : DB → Prop) id target (k : M A) :
  (∀ d i, P d → db_instances d !! id = Some i → legal INSTANCE_TRANSITIONS (inst_status i) target →
     P1 (d <| db_instances := <[id := i <| inst_status := target |>]> (db_instances d) |>)) →
  (∀ d, P d → P2 d) → takes P1 P2 k →
  takes P P2 (InstanceRepository_transition id target ;; commit ;; k).
Proof.
  intros H1 H2 Hk w Hw.
  apply (wp_transition_commit_bind P P1 id target k (λ _ w', inv (strict P2) w') w Hw H1).
  - intros w' Hw'. by apply Hk.
  - intros e w' Hw'. by apply (inv_weaken P).
Qed.

(** A restart that is told of costs one. *)
Lemma restart_logged `{Env} m C i l :
  takes (healing m (C - 1) i) (healing m C i) (_log_audit "instance.restart_attempted" i l).
Proof.
  assert (∀ d, healing m (C - 1) i d → healing m C i d) as Hle.
  { intros d ([Ha Hs] & Hx). split; [|done]. split; [done|lia]. }
  intros w Hw. unfold _log_audit. destruct (w_active w) eqn:Ha.
  2: { unfold row, session_get, query, require_active, mbind, st_bind. simpl. rewrite Ha. by apply (inv_weaken _ _ _ Hle). }
  pose proof Hw as (([Hal Hs] & x & Hx & Hlive) & _ & Hd)%inv_strict.
  rewrite (bind_run _ _ _ _ _ (row_run _ _ _ _ Ha Hx)).
  rewrite (bind_run _ _ _ _ _ (record_run _ _ _ _ _ _ (conj Ha Hd))).
  rewrite commit_run by done. apply inv_strict. simpl. split; [|split; [|done]].
  all: split; [split; [exact Hal|]|by exists x].
  all: revert Hs; unfold spent, budget, restarts; simpl; rewrite List.filter_app, length_app; simpl; lia.
Qed.

Section healing.
Context `{Env} (m C : Z).
Let I := strict (within m C).

Lemma within_note id f :
  (∀ x, weight m (f x) = weight m x) → keeps I (assign db_instances id f).
Proof. intros Hf. apply hoare_assign. intros d x Hd Hx. apply (within_put m C d id x); [done..|]. by rewrite Hf. Qed.

Lemma within_transition id target :
  target ≠ InstanceStatus.STARTING → keeps I (InstanceRepository_transition id target).
Proof.
  intros Ht. apply hoare_instance_transition. intros d x Hd Hx Hl _. apply (within_put m C d id x); [done..|].
  by apply weight_move.
Qed.

Lemma within_give_up a i r : keeps I (_give_up a i r).
Proof.
  assert (keeps I (InstanceRepository_transition i InstanceStatus.FAILED)) by (by apply within_transition).
  pose proof (quiet_log_audit (within m C) "instance.recovery_failed" i [("reason", JStr r)] eq_refl).
  pose proof (quiet_notify (within m C)). unfold _give_up. keeps_auto. by apply within_note.
Qed.

(** An instance that fails frees what it had left. *)
Lemma healing_failed d i x :
  healing m C i d → db_instances d !! i = Some x →
  freed m C i (d <| db_instances := <[i := x <| inst_status := InstanceStatus.FAILED |>]> (db_instances d) |>).
Proof.
  intros ([Ha Hs] & y & Hy & Hlive) Hx. rewrite Hx in Hy. injection Hy as <-. split; [exact Ha|].
  eexists. split; [apply lookup_insert_eq|]. rewrite (spent_put m d i x _ Hx). unfold weight. rewrite Hlive. simpl.
  replace (slack m (x <| inst_status := InstanceStatus.FAILED |>)) with (slack m x) by done. lia.
Qed.

Lemma freed_allocate a r s p q i : keeps (strict (freed m C i)) (try_allocate a r s p q).
Proof.
  eapply hoare_keeps, hoare_try_allocate. intros d id j port (Ha & x & Hx & Hs) Hid (_ & _ & _ & _ & Hp & _) _ _ _.
  split; [exact Ha|]. exists x. simpl. rewrite lookup_insert_ne by (intros ->; congruence). split; [done|].
  revert Hs. unfold spent, budget. simpl. rewrite total_new by done. unfold weight at 1. rewrite Hp. simpl.
  unfold restarts. simpl. lia.
Qed.

(** The replacement takes over the count of the instance it replaces, and with it
    what that one had left. *)
Lemma freed_copied d f x r y g :
  freed m C f d → db_instances d !! f = Some x → db_instances d !! r = Some y →
  inst_status (g y) = inst_status y → inst_healing_attempts (g y) = inst_healing_attempts x →
  funded m C r (d <| db_instances := <[r := g y]> (db_instances d) |>).
Proof.
  intros (Ha & x' & Hx' & Hs) Hx Hy Hst Hat. rewrite Hx in Hx'. injection Hx' as <-. split; [exact Ha|].
  exists (g y). simpl. split; [apply lookup_insert_eq|]. rewrite (spent_put m d r y _ Hy).
  assert (slack m (g y) = slack m x) as -> by (unfold slack; by rewrite Hat).
  pose proof (weight_nonneg m y). lia.
Qed.

Lemma funded_started d r y :
  funded m C r d → db_instances d !! r = Some y →
  within m C (d <| db_instances := <[r := y <| inst_status := InstanceStatus.STARTING |>]> (db_instances d) |>).
Proof.
  intros (Ha & y' & Hy' & Hs) Hy. rewrite Hy in Hy'. injection Hy' as <-. split; [exact Ha|].
  rewrite (spent_put m d r y _ Hy). pose proof (weight_slack m (y <| inst_status := InstanceStatus.STARTING |>)) as Hw.
  replace (slack m (y <| inst_status := InstanceStatus.STARTING |>)) with (slack m y) in Hw by done. lia.
Qed.

Lemma funded_runs {A} r (k : M A) w :
  funded m C r (w_db w) → within m C (w_committed w) → w_deleted w = [] → takes (within m C) (within m C) k →
  inv I ((InstanceRepository_transition r InstanceStatus.STARTING ;; commit ;; k) w).2.
Proof.
  intros Hf Hc Hd Hk.
  assert (∀ d, within m C d → inv I (w <| w_db := d |>)) as Hany by (intros d Hdb; by apply inv_strict).
  pose proof (Hany _ (funded_within m C r _ Hf)) as Hw. replace (w <| w_db := w_db w |>) with w in Hw by (by destruct w).
  unfold InstanceRepository_transition, assign, row, session_get, query, db_modify, commit, flush, require_active.
  unfold mbind, st_bind. simpl.
  destruct (w_active w) eqn:Ha; simpl; [|done].
  destruct (db_instances (w_db w) !! r) as [y|] eqn:Ey; simpl; [|done].
  rewrite require_transition_run. destruct (can_transition _ _ _) eqn:Hl; simpl; [|done].
  rewrite Ha. simpl. case_bool_decide as Hx; simpl; [|by apply inv_strict].
  rewrite Ha. simpl. rewrite Ey. simpl. rewrite Ha. simpl. unfold require_active, mbind, st_bind. simpl.
  rewrite Ha. simpl. rewrite Ha. simpl. rewrite Hd. simpl.
  apply Hk, inv_strict. simpl. pose proof (funded_started _ _ _ Hf Ey). done.
Qed.

(** From the replacement's row to its start. *)
Lemma freed_replacement {A} f r (g : Instance → Instance → Instance) (k : M A) :
  (∀ x y, inst_status (g x y) = inst_status y ∧ inst_healing_attempts (g x y) = inst_healing_attempts x) →
  takes (within m C) (within m C) k →
  takes (freed m C f) (within m C)
    (x ← row db_instances f;
     assign db_instances r (g x) ;;
     InstanceRepository_transition r InstanceStatus.STARTING ;; commit ;; k).
Proof.
  intros Hg Hk w Hw. pose proof (inv_weaken _ _ w (freed_within m C f) Hw) as Hweak.
  destruct (w_active w) eqn:Ha.
  2: { unfold row, session_get, query, require_active, mbind, st_bind. simpl. by rewrite Ha. }
  pose proof Hw as (Hdb & Hc & Hd)%inv_strict. pose proof Hdb as (_ & x & Hx & _).
  rewrite (bind_run _ _ _ _ _ (row_run _ _ _ _ Ha Hx)).
  destruct (db_instances (w_db w) !! r) as [y|] eqn:Hy.
  2: { unfold assign, row, session_get, query, require_active, mbind, st_bind. simpl. rewrite Ha. simpl. by rewrite Hy. }
  rewrite (bind_run _ _ _ _ _ (assign_run db_instances r (g x) y w Ha Hy)).
  apply funded_runs; [|by eapply freed_within|exact Hd|exact Hk].
  destruct (Hg x y). by eapply freed_copied.
Qed.

Lemma keeps_takes {A} (P : DB → Prop) (k : M A) : keeps (strict P) k → takes P P k.
Proof. intros Hk w Hw. by apply Hk. Qed.

Lemma within_replaced a r i rep hc c ag s :
  keeps I (r' ← row db_instances rep;
           _log_audit "instance.replaced" i
             [ ("replacement_instance_id", JStr (str_uuid rep)); ("replacement_port", JInt (inst_port r')) ] ;;
           start_payload ← _build_start_instance_payload r rep c;
           command ← submit_command_and_wait ag AgentCommandType.START_INSTANCE start_payload
                       ("start-instance:" +:+ str_uuid rep) None 200;
           start_ok ← command_ok command;
           if negb start_ok then
             InstanceRepository_transition rep InstanceStatus.FAILED ;;
             commit ;;
             _give_up a rep "replacement instance failed to start"
           else
             healthy ← match s with
                       | Some server =>
                           r' ← row db_instances rep;
                           wait_until_healthy hc rep (srv_hostname server) (inst_port r')
                       | None => mret true
                       end;
             if negb healthy then
               InstanceRepository_transition rep InstanceStatus.UNHEALTHY ;;
               commit ;;
               _give_up a rep "replacement instance never became healthy"
             else
               InstanceRepository_transition rep InstanceStatus.RUNNING ;;
               commit ;;
               _log_audit "instance.recovered" rep [("via", JStr "replacement")] ;;
               sync_if_routed a c).
Proof.
  pose proof (λ t, within_transition rep t). pose proof (quiet_agents (within m C)). pose proof within_give_up.
  pose proof (λ i l, quiet_log_audit (within m C) "instance.replaced" i l eq_refl).
  pose proof (λ i l, quiet_log_audit (within m C) "instance.recovered" i l eq_refl).
  pose proof (quiet_wait_until_healthy (within m C)). pose proof (quiet_sync_if_routed (within m C)).
  unfold I in *. keeps_auto; auto.
Qed.

Lemma freed_replace a r i hc c ag s : takes (freed m C i) (within m C) (_replace a r i hc c ag s).
Proof.
  unfold _replace. pose proof (freed_within m C i) as Hle. pose proof within_give_up as Hgive.
  apply takes_bind; [done|keeps_auto|]. intros ap.
  destruct (app_port_range_start ap), (app_port_range_end ap); try by apply takes_keeps.
  apply takes_bind; [done|keeps_auto|]. intros f0. apply takes_bind; [done|apply freed_allocate|].
  intros [rep|msg]; [|by apply takes_keeps].
  apply (freed_replacement i rep (λ f i, i <| inst_healing_attempts := inst_healing_attempts f |>
                                           <| inst_deployment_id := inst_deployment_id f |>)); [done|].
  apply keeps_takes, within_replaced.
Qed.

(** A failed restart, from the moment the reason is noted. *)
Lemma healing_retire a r i hc c ag s :
  takes (healing m C i) (within m C)
    (assign db_instances i (λ i, i <| inst_failure_reason := Some "restart did not restore a healthy instance" |>) ;;
     InstanceRepository_transition i InstanceStatus.FAILED ;;
     commit ;;
     x ← row db_instances i;
     _log_audit "instance.restart_failed" i [("attempt", JInt (inst_healing_attempts x))] ;;
     _replace a r i hc c ag s).
Proof.
  pose proof (healing_within m C i) as Hle. apply takes_bind; [done| |intros _].
  - apply hoare_assign. intros d x [Hw (y & Hy & Hlive)] Hx. rewrite Hx in Hy. injection Hy as <-.
    split; [by apply (within_put m C d i x)|]. eexists. split; [apply lookup_insert_eq|done].
  - apply (takes_transition _ (freed m C i)); [|done|].
    + intros d x Hd Hx _. by apply healing_failed.
    + pose proof (freed_within m C i) as Hle'. apply takes_bind; [done|keeps_auto|]. intros x.
      apply takes_bind; [done|by apply quiet_log_audit; [apply _|]|]. intros _. apply freed_replace.
Qed.

Lemma healing_attempt a r i hc c ag s :
  takes (healing m C i) (within m C)
    (restarted ← _restart ag r i c;
     healthy ← match restarted, s with
               | true, Some server =>
                   x ← row db_instances i;
                   wait_until_healthy hc i (srv_hostname server) (inst_port x)
               | _, _ => mret false
               end;
     if healthy : bool then
       InstanceRepository_transition i InstanceStatus.RUNNING ;;
       assign db_instances i (λ i, i <| inst_failure_reason := None |>) ;;
       commit ;;
       x ← row db_instances i;
       _log_audit "instance.recovered" i [("attempt", JInt (inst_healing_attempts x))] ;;
       sync_if_routed a c
     else
       assign db_instances i (λ i, i <| inst_failure_reason := Some "restart did not restore a healthy instance" |>) ;;
       InstanceRepository_transition i InstanceStatus.FAILED ;;
       commit ;;
       x ← row db_instances i;
       _log_audit "instance.restart_failed" i [("attempt", JInt (inst_healing_attempts x))] ;;
       _replace a r i hc c ag s).
Proof.
  pose proof (healing_within m C i) as Hle. pose proof (quiet_wait_until_healthy (healing m C i)) as Hwait.
  apply takes_bind; [done|by apply quiet_restart; apply _|]. intros restarted.
  apply takes_bind; [done|keeps_auto; by apply Hwait|]. intros [|]; [|apply healing_retire].
  apply takes_keeps; [done|]. pose proof (λ t, within_transition i t).
  pose proof (λ l, quiet_log_audit (within m C) "instance.recovered" i l eq_refl).
  pose proof (quiet_sync_if_routed (within m C)). unfold I in *. keeps_auto; auto. by apply within_note.
Qed.

Lemma owed_attempt_recovery a i hc ag c s : takes (owed m C i) (within m C) (attempt_recovery a i hc ag c s).
Proof.
  pose proof (owed_within m C i) as Hle. unfold attempt_recovery.
  apply takes_bind; [done|keeps_auto|]. intros x. apply takes_bind; [done|keeps_auto|]. intros release_row.
  destruct (inst_release_id x) as [release|]; [destruct release_row|]; try (apply takes_keeps; [done|apply within_give_up]).
  apply (takes_transition _ (healing m (C - 1) i)); [|done|].
  - intros d y [[Ha Hs] Ho] Hy Hl.
    assert (live (inst_status y) = true) as Hlive by (by eapply live_source; [exact Hl|..]). specialize (Ho y Hy Hlive).
    split; [|eexists; split; [apply lookup_insert_eq|done]].
    apply (within_put m (C - 1) d i y); [by split|done|by apply weight_move].
  - assert (∀ d, healing m (C - 1) i d → within m C d) as Hle1 by (intros d [[Ha Hs] _]; split; [done|lia]).
    apply takes_bind; [done|keeps_auto|]. intros y.
    eapply takes_then; [apply healing_within|apply restart_logged|]. intros _. apply healing_attempt.
Qed.

Lemma within_handle a i hc : keeps I (handle_unhealthy_instance a i hc).
Proof.
  pose proof (quiet_agents (within m C)). pose proof (λ i t, within_transition i t). pose proof within_give_up.
  pose proof (λ i l, quiet_log_audit (within m C) "instance.removed_unhealthy" i l eq_refl).
  pose proof (quiet_sync_if_routed (within m C)). unfold I in *.
  unfold handle_unhealthy_instance. do 7 (apply keeps_bind; [keeps_auto; auto|intros ?]).
  repeat (match goal with |- hoare _ (match ?x with _ => _ end) _ => destruct x end); [keeps_auto; auto| |auto].
  apply (keeps_count _ (owed m C i)); [|done|intros w Hw; by apply owed_attempt_recovery].
  intros d x h now_ Hd Hx Hh Hlt. by eapply owed_count.
Qed.

Lemma within_tick : keeps I tick.
Proof.
  pose proof (quiet_agents (within m C)). pose proof within_handle. pose proof (quiet_lock (within m C)).
  pose proof (quiet_add_health_result (within m C)). pose proof (quiet_check (within m C)). unfold I in *.
  unfold tick, _poll_and_maybe_heal, _heal, acquire, release. keeps_auto; auto.
Qed.

End healing.

(** ** Rounds *)

(** The health monitor alone: its rounds, each on a session of its own, and
    agents that write their tables in between. *)
Inductive monitoring `{Env} : DB → DB → Prop :=
| MonitorRound w : ready w → w_db w = w_committed w → monitoring (w_committed w) (w_committed (tick w).2)
| AgentTraffic d d' : agent_frame d d' → monitoring d d'.

Lemma monitoring_attempts `{Env} m d d' : 0 ≤ m → monitoring d d' → attempts_bounded m d → attempts_bounded m d'.
Proof.
  intros Hm [w Hr Hc|d1 d2 Hf] Hd.
  - apply tick_attempts_bounded; [done|]. apply inv_strict. rewrite Hc. by destruct Hr.
  - destruct (agent_frame_quiet _ _ Hf) as (Hi & Hh & _). unfold attempts_bounded in *. by rewrite Hi, Hh.
Qed.

Lemma monitoring_within `{Env} m C d d' : monitoring d d' → within m C d → within m C d'.
Proof.
  intros [w Hr Hc|d1 d2 Hf] Hd.
  - assert (inv (strict (within m C)) w) as Hw by (apply inv_strict; rewrite Hc; by destruct Hr).
    by destruct (within_tick m C w Hw) as [(_ & Hr' & _) _].
  - eapply quiet_within; [by apply agent_frame_quiet|exact Hd].
Qed.

(** C23. Self-healing is bounded: over any number of rounds of the health monitor,
    with whatever agents, probes and the gateway answer, the restart attempts the
    audit log tells of, together with the attempts the instances that can still be
    healed have left, never grow. So the monitor attempts at most
    [budget m d] restarts before an operator acts: each of them uses up one attempt
    of its instance, and a replacement inherits what the instance it replaces had
    left. No instance, replacements included, ever counts more than [m], where [m]
    bounds what the health checks allow. *)
Theorem restart_attempts_bounded `{Env} m d d' :
  0 ≤ m → attempts_bounded m d → rtc monitoring d d' →
  attempts_bounded m d' ∧ restarts d' + budget m d' ≤ restarts d + budget m d ∧
  restarts d' - restarts d ≤ budget m d.
Proof.
  intros Hm Hd Hrun.
  assert (attempts_bounded m d' ∧ within m (restarts d + budget m d) d') as [Ha [_ Hs]].
  { assert (within m (restarts d + budget m d) d) as Hw by (split; [apply Hd|done]).
    revert Hd Hw. generalize (restarts d + budget m d). induction Hrun as [|d1 d2 d3 Hs _ IH]; [done|].
    intros C H1 H2. apply IH; [by eapply monitoring_attempts|by eapply monitoring_within]. }
  pose proof (total_nonneg m (db_instances d')) as Hn. unfold spent, budget in *. split; [done|]. lia.
Qed.

(** The probe fails, so does the restart, and so does the replacement that takes
    over what was left: one restart, and no instance left to heal. *)
Lemma restart_attempts_bounded_witness :
  let E := outside (answers_at []) probe_bad gateway_ok in
  let d := demo_db "deploy" 1 in let d' := w_committed (tick (demo_world d)).2 in
  budget 3 d = 3 ∧ restarts d = 0 ∧ restarts d' = 1 ∧ budget 3 d' = 0 ∧
  attempts_bounded 3 d' ∧ restarts d' + budget 3 d' ≤ restarts d + budget 3 d ∧ restarts d' - restarts d ≤ budget 3 d.
Proof.
  intros E d d'. do 4 (split; [vm_compute; reflexivity|]).
  apply (restart_attempts_bounded 3 d d'); [discriminate| |].
  - split; apply map_Forall_to_list; vm_compute; repeat constructor; discriminate.
  - apply rtc_once. exact (MonitorRound (demo_world d) (conj eq_refl eq_refl) eq_refl).
Defined.
