(* ===== verification/InstanceProperties.v ===== *)
(** Outcomes of the manual actions on an instance: what the committed status
    is when [restart_instance] and [stop_instance] return, and when they
    raise. *)

From S2P Require Import Prelude Python Enums StateMachines HealerYaml Schema Session Hoare.
From S2P Require Import Repositories Protocol LockService CommandService Scenario ApplicationService.
From S2P Require Import AuditService GatewayService DeploymentService SelfHealingService.
From S2P Require Import InstanceService.
Local Open Scope Z_scope.

(** The instance exists, with one of the given statuses. *)
Definition status_in (instance : uuid) (allowed : list instance_status) (d : DB) : Prop :=
  ∃ i, db_instances d !! instance = Some i ∧ inst_status i ∈ allowed.

Section stages.
Context `{Env} (instance : uuid) (allowed : list instance_status).
Let I := strict (status_in instance allowed).

#[export] Instance status_agents : AgentStable (strict (status_in instance allowed)).
Proof. intros d d' Hf. unfold status_in. simpl. by rewrite (agent_frame_eq db_instances d d' Hf (λ _, eq_refl)). Qed.
#[export] Instance status_records : RecordStable (strict (status_in instance allowed)).
Proof. intros d d' Hf. unfold status_in. simpl. by rewrite (record_frame_eq db_instances d d' Hf (λ _, eq_refl)). Qed.

Lemma status_lock id cond f : keeps I (update_application_where id cond f).
Proof. apply hoare_update_application_where. by intros d a Hd Ha _. Qed.

Lemma status_acquire id op : keeps I (acquire_for_action id op).
Proof. pose proof status_lock. unfold acquire_for_action, acquire. keeps_auto. Qed.

Lemma status_release id t : keeps I (LockService.release id t).
Proof. pose proof status_lock. unfold LockService.release. keeps_auto. Qed.

Lemma status_transition target : target ∈ allowed → keeps I (InstanceRepository_transition instance target).
Proof.
  intros Ht. apply hoare_instance_transition. intros d i Hd Hi _ _. eexists. split; [apply lookup_insert_eq|done].
Qed.

Lemma status_note f : (∀ i, inst_status (f i) = inst_status i) → keeps I (assign db_instances instance f).
Proof.
  intros Hf. apply hoare_assign. intros d i (j & Hj & Hs) Hi. eexists. split; [apply lookup_insert_eq|].
  rewrite Hf. congruence.
Qed.

Lemma status_set_failure c s : keeps I (set_failure instance c s).
Proof. unfold set_failure. keeps_auto. by apply status_note. Qed.

End stages.

(** The lock is given back in the end; only an unusable session can prevent
    that. *)
Lemma wp_finally_release {A} (body : M A) id t (Q : result exn A → World → Prop) w :
  wp body Q w → (∀ r w1, Q r w1 → Q r (LockService.release id t w1).2) →
  wp (try_finally body (LockService.release id t)) (λ r w', r = Raise PendingRollbackError ∨ Q r w') w.
Proof.
  intros Hb HQ. apply wp_try_finally. eapply wp_mono; [exact Hb|]. intros r w1 Hr. unfold wp.
  pose proof (release_raises id t w1) as Hraise. specialize (HQ r w1 Hr).
  destruct (LockService.release id t w1) as [[[]|e] w2]; [by right|]. left. by rewrite (Hraise e eq_refl).
Qed.

(** [allowed] covers the statuses an action passes through, [done_] is the
    status it ends with. *)
Definition action_outcome (instance : uuid) (allowed : list instance_status) (done_ : instance_status)
    (r : result exn unit) (w : World) : Prop :=
  match r with
  | Ok _ => inv (strict (status_in instance [done_])) w
  | Raise _ => inv (strict (status_in instance allowed)) w
  end.

Lemma action_outcome_release instance allowed done_ id t r w :
  action_outcome instance allowed done_ r w → action_outcome instance allowed done_ r (LockService.release id t w).2.
Proof. destruct r; simpl; intros Hw; by apply status_release. Qed.

Lemma wp_stop_locked `{Env} instance s0 app ag w :
  let allowed := [s0; InstanceStatus.DRAINING; InstanceStatus.FAILED] in
  inv (strict (status_in instance allowed)) w →
  wp (stop_locked app instance ag) (action_outcome instance allowed InstanceStatus.STOPPED) w.
Proof.
  intros allowed Hw. set (I := strict (status_in instance allowed)) in *.
  assert (keeps I (InstanceRepository_transition instance InstanceStatus.DRAINING))
    by (apply status_transition; set_solver).
  assert (keeps I (InstanceRepository_transition instance InstanceStatus.FAILED))
    by (apply status_transition; set_solver).
  pose proof (status_set_failure instance allowed) as Hfail.
  unfold stop_locked.
  do 8 (eapply wp_bind_keeps; [keeps_auto|eassumption| |by intros]; clear Hw; intros ? ? Hw).
  destruct (_ && _)%bool.
  - eapply wp_transition_commit; [exact Hw| |by intros|by intros].
    intros d i Hd Hi _. eexists. split; [apply lookup_insert_eq|left].
  - eapply (wp_hoare I _ (λ _, False)); [|exact Hw|].
    + apply keeps_bind; [done|]. intros _. apply keeps_bind; [apply Hfail|]. intros reason.
      apply keeps_bind; [keeps_auto|]. intros _. apply hoare_raise.
    + intros [[]|e] w1 Hw1 Hno; [by destruct (Hno tt)|done].
Qed.

Lemma wp_restart_locked `{Env} instance s0 app release ag w :
  let allowed := [s0; InstanceStatus.RESTARTING; InstanceStatus.RUNNING; InstanceStatus.FAILED] in
  inv (strict (status_in instance allowed)) w →
  wp (restart_locked app instance release ag) (action_outcome instance allowed InstanceStatus.RUNNING) w.
Proof.
  intros allowed Hw. set (I := strict (status_in instance allowed)) in *.
  assert (keeps I (InstanceRepository_transition instance InstanceStatus.RESTARTING))
    by (apply status_transition; set_solver).
  assert (keeps I (InstanceRepository_transition instance InstanceStatus.FAILED))
    by (apply status_transition; set_solver).
  pose proof (status_set_failure instance allowed) as Hfail.
  unfold restart_locked.
  do 9 (eapply wp_bind_keeps; [keeps_auto|eassumption| |by intros]; clear Hw; intros ? ? Hw).
  match goal with |- wp (if ?b then _ else _) _ _ => destruct b end.
  - eapply wp_bind_keeps; [by apply status_note|eassumption| |by intros]. clear Hw. intros [] w1 Hw.
    apply (wp_transition_commit_bind _ (status_in instance [InstanceStatus.RUNNING])) with (1 := Hw); [| |by intros].
    { intros d i Hd Hi _. eexists. split; [apply lookup_insert_eq|]. by apply list_elem_of_singleton. }
    intros w2 Hw2. eapply wp_keeps; [apply keeps_sync_if_routed, _|exact Hw2|].
    intros [[]|e] w3 Hw3; [exact Hw3|].
    apply inv_strict in Hw3 as ((i1 & ? & ?%list_elem_of_singleton) & (i2 & ? & ?%list_elem_of_singleton) & ?).
    apply inv_strict. split; [exists i1|split; [exists i2|done]]; (split; [done|set_solver]).
  - eapply (wp_hoare I _ (λ _, False)); [|exact Hw|].
    + apply keeps_bind; [apply Hfail|]. intros reason. apply keeps_bind; [done|]. intros _.
      apply keeps_bind; [keeps_auto|]. intros _. apply hoare_raise.
    + intros [[]|e] w1 Hw1 Hno; [by destruct (Hno tt)|done].
Qed.

(** What the caller of an action sees. *)
Definition action_result (instance : uuid) (allowed : list instance_status) (done_ : instance_status)
    (run : result exn unit * World) : Prop :=
  match run with
  | (Ok _, w') => status_in instance [done_] (w_committed w')
  | (Raise e, w') => e = PendingRollbackError ∨ status_in instance allowed (w_committed w')
  end.

Lemma action_result_wp instance allowed done_ (m : M unit) w :
  wp m (λ r w', r = Raise PendingRollbackError ∨ action_outcome instance allowed done_ r w') w →
  action_result instance allowed done_ (m w).
Proof.
  unfold wp. destruct (m w) as [[[]|e] w']; simpl.
  - intros [?|Hw]; [done|]. by apply inv_strict in Hw as (_ & ? & _).
  - intros [[= ->]|Hw]; [by left|right]. by apply inv_strict in Hw as (_ & ? & _).
Qed.

(** A manual stop returns only with the instance committed as STOPPED. When it
    raises, the instance keeps its status, is still DRAINING or is FAILED - it
    is never reported as stopped without the agent's confirmation - unless the
    session was left unusable. *)
Theorem manual_stop_outcome `{Env} application instance i w :
  w_committed w = w_db w → w_deleted w = [] → db_instances (w_db w) !! instance = Some i →
  action_result instance [inst_status i; InstanceStatus.DRAINING; InstanceStatus.FAILED] InstanceStatus.STOPPED
    (stop_instance application instance w).
Proof.
  intros Hc Hd Hi. apply action_result_wp. set (allowed := [_; _; _]).
  assert (inv (strict (status_in instance allowed)) w) as Hw.
  { apply inv_strict. rewrite Hc. assert (status_in instance allowed (w_db w)); [|done]. exists i. split; [done|left]. }
  clear Hc Hd Hi. unfold stop_instance.
  eapply wp_bind_keeps; [keeps_auto|exact Hw| |by right]. intros j w1 Hw1.
  destruct (negb _); [by apply wp_raise; right|].
  eapply wp_bind_keeps; [keeps_auto|exact Hw1| |by right]. intros [[ag a]|] w2 Hw2; [|by apply wp_raise; right].
  destruct (not_connected _); [by apply wp_raise; right|].
  eapply wp_bind_keeps; [apply status_acquire|exact Hw2| |by right]. intros t w3 Hw3.
  apply wp_finally_release; [by apply wp_stop_locked|]. intros r w4. apply action_outcome_release.
Qed.

(** A manual restart returns only with the instance committed as RUNNING. *)
Theorem manual_restart_outcome `{Env} application instance i w :
  w_committed w = w_db w → w_deleted w = [] → db_instances (w_db w) !! instance = Some i →
  action_result instance
    [inst_status i; InstanceStatus.RESTARTING; InstanceStatus.RUNNING; InstanceStatus.FAILED] InstanceStatus.RUNNING
    (restart_instance application instance w).
Proof.
  intros Hc Hd Hi. apply action_result_wp. set (allowed := [_; _; _; _]).
  assert (inv (strict (status_in instance allowed)) w) as Hw.
  { apply inv_strict. rewrite Hc. assert (status_in instance allowed (w_db w)); [|done]. exists i. split; [done|left]. }
  clear Hc Hd Hi. unfold restart_instance.
  eapply wp_bind_keeps; [keeps_auto|exact Hw| |by right]. intros j w1 Hw1.
  destruct (negb _); [by apply wp_raise; right|].
  eapply wp_bind_keeps; [keeps_auto|exact Hw1| |by right]. intros ag w2 Hw2.
  eapply wp_bind_keeps; [keeps_auto|exact Hw2| |by right]. intros rel w3 Hw3.
  destruct ag as [[ag a]|]; [|by apply wp_raise; right].
  destruct (not_connected _); [by apply wp_raise; right|].
  destruct (inst_release_id j) as [release|]; [|by apply wp_raise; right].
  destruct rel as [rel|]; [|by apply wp_raise; right].
  eapply wp_bind_keeps; [apply status_acquire|exact Hw3| |by right]. intros t w4 Hw4.
  apply wp_finally_release; [by apply wp_restart_locked|]. intros r w5. apply action_outcome_release.
Qed.

Lemma manual_stop_outcome_witness :
  let E := outside (answers_at [8]%nat) probe_ok gateway_ok in
  let run := stop_instance app1 instance1 (demo_world (demo_db "deploy" 1)) in
  run.1 = Ok tt ∧
  action_result instance1 [InstanceStatus.RUNNING; InstanceStatus.DRAINING; InstanceStatus.FAILED]
    InstanceStatus.STOPPED run.
Proof.
  intros E run. split; [vm_compute; reflexivity|].
  apply (manual_stop_outcome app1 instance1 (demo_instance InstanceStatus.RUNNING 9000)
    (demo_world (demo_db "deploy" 1))); [reflexivity|reflexivity|vm_compute; reflexivity].
Defined.

Lemma manual_restart_outcome_witness :
  let E := outside (answers_at [8]%nat) probe_ok gateway_ok in
  let run := restart_instance app1 instance1 (demo_world (demo_db "deploy" 1)) in
  run.1 = Ok tt ∧
  action_result instance1
    [InstanceStatus.RUNNING; InstanceStatus.RESTARTING; InstanceStatus.RUNNING; InstanceStatus.FAILED]
    InstanceStatus.RUNNING run.
Proof.
  intros E run. split; [vm_compute; reflexivity|].
  apply (manual_restart_outcome app1 instance1 (demo_instance InstanceStatus.RUNNING 9000)
    (demo_world (demo_db "deploy" 1))); [reflexivity|reflexivity|vm_compute; reflexivity].
Defined.
