(* ===== verification/LogProperties.v ===== *)
(** Properties of the log service: no stored secret is shown, and a stream ends. *)

From Stdlib Require Import Ascii.
From S2P Require Import Prelude Python Enums HealerYaml Schema Session Hoare Permissions Repositories Redaction.
From S2P Require Import Security Protocol CommandService AuditService DeploymentService Scenario LogService.
Local Open Scope Z_scope.

(** ** The secrets a reader must not see *)

Definition stored_secret `{Env} (d : DB) (application : uuid) (v : string) : Prop :=
  ∃ id s, db_secret_records d !! id = Some s ∧ sec_application_id s = Some application ∧
          sec_encrypted_value s ≠ "" ∧ env_decrypt (sec_encrypted_value s) = Some v.

(** The line shows none of the application's secrets. *)
Definition hides `{Env} (d : DB) (application : uuid) (line : string) : Prop :=
  ∀ v, stored_secret d application v → hideable (to_text v) → ¬ occurs (to_text v) (to_text line).

Section hides.
Context `{Env} (I : invariant).

Lemma hoare_decrypt_all l :
  hoare I (decrypt_all l) (λ kvs, ∀ id s v, (id, s) ∈ l → sec_encrypted_value s ≠ "" →
    env_decrypt (sec_encrypted_value s) = Some v → v ∈ map snd kvs).
Proof.
  induction l as [|[id s] l IH]; simpl.
  - apply hoare_ret. intros id s v Hin. by apply elem_of_nil in Hin.
  - case_decide as He.
    + eapply hoare_weaken; [exact IH|]. intros kvs Hk id' s' v [[= -> ->]|Hin]%elem_of_cons Hne Hd; [done|].
      by eapply Hk.
    + unfold decrypt_secret. eapply (hoare_bind _ _ _ (λ v, env_decrypt (sec_encrypted_value s) = Some v)).
      { destruct (env_decrypt _) as [v|]; [by apply hoare_ret|apply hoare_raise]. }
      intros v Ev. eapply hoare_bind; [exact IH|]. intros kvs Hk. apply hoare_ret. simpl.
      intros id' s' v' [[= -> ->]|Hin]%elem_of_cons Hne Hd; [simplify_eq; left|right; by eapply Hk].
Qed.

(** The values that redaction is given include every secret of the application. *)
Lemma hoare_get_secret_values application :
  hoare I (get_secret_values application) (λ vs, ∃ d, I d ∧ ∀ v, stored_secret d application v → v ∈ vs).
Proof.
  unfold get_secret_values. eapply hoare_bind; [apply hoare_query|]. intros l (d & Hd & ->).
  eapply hoare_bind; [apply hoare_decrypt_all|]. intros kvs Hk. apply hoare_ret. exists d. split; [done|].
  intros v (id & s & Hs & Ha & Hne & Hv). eapply Hk; [|done|done].
  apply elem_of_select. split; [exact Hs|by apply bool_decide_eq_true].
Qed.

Lemma hoare_redact_members vs l :
  hoare I (redact_members vs l) (λ lines, ∀ line, line ∈ lines → ∃ raw, line = redact_line raw vs).
Proof.
  induction l as [|x l IH]; simpl.
  - apply hoare_ret. intros line Hin. by apply elem_of_nil in Hin.
  - destruct x; try apply hoare_raise. eapply hoare_bind; [exact IH|]. intros rest Hr. apply hoare_ret.
    intros line [->|Hin]%elem_of_cons; [by eexists|by apply Hr].
Qed.

Lemma hoare_redact_json_lines d application vs lines :
  (∀ v, stored_secret d application v → v ∈ vs) →
  hoare I (redact_json_lines lines vs) (λ out, ∀ line, line ∈ out → hides d application line).
Proof.
  intros Hvs. unfold redact_json_lines. apply keeps_bind; [unfold py_iter; keeps_auto|]. intros members.
  eapply hoare_weaken; [apply hoare_redact_members|]. intros out Hout line Hin v Hv.
  destruct (Hout line Hin) as (raw & ->). apply redact_line_hides. by apply Hvs.
Qed.

End hides.

(** The secrets and instances of a snapshot are those it was taken of. *)
Lemma snapshot_secrets `{Env} d0 d application v :
  snapshot d0 d → stored_secret d0 application v → stored_secret d application v.
Proof. intros Hd. unfold stored_secret. by rewrite (agent_frame_eq db_secret_records d0 d Hd (λ _, eq_refl)). Qed.

Section snapshot.
Context `{Env} (d0 : DB) (application instance : uuid).
Hypothesis Hinstance : ∀ i, db_instances d0 !! instance = Some i → inst_application_id i = application.
Abbreviation I := (snapshot d0).

(** The secrets read for the instance are its application's. *)
Lemma hoare_instance_secrets {A} (k : list string → M A) (Q : A → Prop) :
  (∀ vs, (∀ v, stored_secret d0 application v → v ∈ vs) → hoare I (k vs) Q) →
  hoare I (i ← row db_instances instance; vs ← get_secret_values (inst_application_id i); k vs) Q.
Proof.
  intros Hk. eapply hoare_bind; [apply hoare_row|]. intros i (d & Hd & Hi).
  rewrite <-(agent_frame_eq db_instances d0 d Hd (λ _, eq_refl)) in Hi. rewrite (Hinstance i Hi).
  eapply hoare_bind; [apply hoare_get_secret_values|]. intros vs (d' & Hd' & Hvs). apply Hk.
  intros v Hv. apply Hvs. by eapply snapshot_secrets.
Qed.

Lemma hoare_fetch_instance_log stream max_bytes max_lines offset :
  hoare I (fetch_instance_log instance stream max_bytes max_lines offset)
    (λ r, ∀ line, line ∈ r.2 → hides d0 application line).
Proof.
  unfold fetch_instance_log. apply keeps_bind; [keeps_auto|]. intros chunk.
  apply hoare_instance_secrets. intros vs Hvs.
  eapply hoare_bind; [by apply hoare_redact_json_lines|]. intros lines Hl. by apply hoare_ret.
Qed.

(** A poll that has a chunk knows the secrets. *)
Lemma hoare_stream_poll stream clock first_ offset :
  hoare I (stream_poll application instance stream clock first_ offset)
    (λ p, match p with
          | PollChunk _ vs => ∀ v, stored_secret d0 application v → v ∈ vs
          | PollStop (EvLines _) | PollRetry (EvLines _) _ => False
          | _ => True
          end).
Proof.
  unfold stream_poll. apply hoare_try_finally; [|keeps_auto].
  apply keeps_bind; [keeps_auto|]. intros [i|]; [|by apply hoare_ret].
  case_bool_decide; [simpl|by apply hoare_ret].
  apply keeps_bind; [keeps_auto|]. intros [[msg c]|chunk]; [by apply hoare_ret|].
  apply hoare_instance_secrets. intros vs Hvs. by apply hoare_ret.
Qed.

Definition events_hide (events : list LogEvent) : Prop :=
  ∀ lines line, EvLines lines ∈ events → line ∈ lines → hides d0 application line.

Lemma events_hide_other event events :
  (∀ lines, event ≠ EvLines lines) → events_hide events → events_hide (event :: events).
Proof. intros He Hes lines line [<-|Hin]%elem_of_cons Hl; [by destruct (He lines)|by eapply Hes]. Qed.

Lemma hoare_chunk_events chunk vs :
  (∀ v, stored_secret d0 application v → v ∈ vs) → hoare I (chunk_events chunk vs) events_hide.
Proof.
  intros Hvs. unfold chunk_events. destruct (truthy _).
  - eapply hoare_bind; [by apply hoare_redact_json_lines|]. intros out Hout. apply hoare_ret.
    intros lines line [= ->]%list_elem_of_singleton Hl. by apply Hout.
  - apply hoare_ret. intros lines line Hin. by apply elem_of_nil in Hin.
Qed.

Lemma hoare_stream_loop fuel stream started clock first_ offset :
  hoare I (stream_loop fuel application instance stream started clock first_ offset) (λ r, events_hide r.1.1).
Proof.
  assert (events_hide []) as Hnil by (intros lines line Hin; by apply elem_of_nil in Hin).
  revert clock first_ offset. induction fuel as [|n IH]; intros clock first_ offset; simpl; [by apply hoare_ret|].
  apply keeps_bind; [unfold monotonic; keeps_auto|]. clear clock. intros clock.
  destruct (negb _); [by apply hoare_ret, events_hide_other|].
  eapply (hoare_bind _ _ _ (λ r, match r with
    | inr (PollChunk _ vs) => ∀ v, stored_secret d0 application v → v ∈ vs
    | inr (PollStop (EvLines _) | PollRetry (EvLines _) _) => False
    | _ => True end)).
  { apply hoare_try_except; [|intros e; by apply hoare_ret].
    eapply hoare_bind; [apply hoare_stream_poll|]. intros p Hp. by apply hoare_ret. }
  intros [e|[ev|ev c|chunk vs]] Hp; [by apply hoare_ret|..].
  - apply hoare_ret, events_hide_other; [by destruct ev|done].
  - eapply hoare_bind; [apply IH|]. intros [[events e] c'] Hes. apply hoare_ret, events_hide_other; [by destruct ev|done].
  - eapply (hoare_bind _ _ _ (λ r, match r with inr l => events_hide l | inl _ => True end)).
    { apply hoare_try_except; [|intros e; by apply hoare_ret].
      eapply hoare_bind; [by apply hoare_chunk_events|]. intros l Hl. by apply hoare_ret. }
    intros [e|new] Hnew; [by apply hoare_ret|]. apply keeps_bind; [keeps_auto|]. intros c.
    eapply hoare_bind; [apply IH|]. intros [[events e] c'] Hes. apply hoare_ret. simpl.
    intros lines line [Hin|Hin]%elem_of_app Hl; [by eapply Hnew|by eapply Hes].
Qed.

End snapshot.

(** The guard of both routes. *)
Lemma get_instance_run application instance w :
  ready w →
  _get_instance application instance w =
  (match db_instances (w_db w) !! instance with
   | Some i => if bool_decide (inst_application_id i = application) then Ok tt
               else Raise (HTTPException HTTP_404_NOT_FOUND "instance not found")
   | None => Raise (HTTPException HTTP_404_NOT_FOUND "instance not found")
   end, w).
Proof.
  intros [Ha _]. unfold _get_instance. rewrite (bind_run _ _ _ _ _ (session_get_run db_instances instance w Ha)).
  destruct (db_instances (w_db w) !! instance) as [i|]; [|done]. by destruct (bool_decide _).
Qed.

(** Behind the guard the instance is the application's. *)
Lemma guarded_run {A} application instance (m : M A) w (Q : result exn A → Prop) :
  ready w → (∀ e, Q (Raise e)) →
  ((∀ i, db_instances (w_db w) !! instance = Some i → inst_application_id i = application) → Q (m w).1) →
  Q ((_get_instance application instance ;; m) w).1.
Proof.
  intros Hw He HQ. unfold mbind, st_bind. rewrite get_instance_run by done.
  destruct (db_instances (w_db w) !! instance) as [i|]; [|apply He].
  case_bool_decide as Ha; [|apply He]. apply HQ. intros j [= <-]. done.
Qed.

Lemma get_instance_log_hides `{Env} application instance stream max_bytes max_lines offset w chunk lines line :
  ready w → w_committed w = w_db w →
  (get_instance_log application instance stream max_bytes max_lines offset w).1 = Ok (chunk, lines) →
  line ∈ lines → hides (w_db w) application line.
Proof.
  intros Hw Hc. unfold get_instance_log. apply guarded_run; [done..|]. intros Hi Hrun.
  refine (proj2 (hoare_try_except _ _ _ (λ r, ∀ line, line ∈ r.2 → hides (w_db w) application line) _ _ w
                   (snapshot_inv w Hw Hc)) _ Hrun line).
  - by apply hoare_fetch_instance_log.
  - intros e. destruct e; apply hoare_raise.
Qed.

Lemma stream_route_hides `{Env} application instance stream w events e lines line :
  ready w → w_committed w = w_db w →
  (stream_instance_log_route application instance stream w).1 = Ok (events, e) →
  EvLines lines ∈ events → line ∈ lines → hides (w_db w) application line.
Proof.
  intros Hw Hc. unfold stream_instance_log_route, get_db, try_except, mbind, st_bind. rewrite get_instance_run by done.
  destruct (db_instances (w_db w) !! instance) as [i|] eqn:Ei; [|done].
  case_bool_decide as Ha; [|done]. rewrite commit_run by done. simpl.
  set (w1 := w <| w_committed := w_db w |>).
  assert (inv (snapshot (w_db w)) w1) as Hinv by (destruct Hw; by apply inv_strict).
  intros Hrun Hin Hl. unfold stream_instance_log in Hrun.
  refine (proj2 (keeps_bind (snapshot (w_db w)) (monotonic 0) _ (λ r, events_hide (w_db w) application r.1) _ _ w1 Hinv)
            _ Hrun lines line Hin Hl).
  - unfold monotonic. keeps_auto.
  - intros started. eapply hoare_bind; [apply hoare_stream_loop; intros j; rewrite Ei; by intros [= <-]|].
    intros [[es e'] c] Hes. by apply hoare_ret.
Qed.

(** C32. No line of a log shows a secret: whatever an agent sends, no line that a
    log request returns and no line of a log stream contains a secret stored for
    the application, as long as the secret contains no bracket and is no part of
    the redaction mark. (Lines only: the text with which an agent reports a failed
    command is shown as it is, [Findings.agent_error_shows_a_secret].) Reading logs
    changes no table but the agents'. *)
Theorem logs_hide_secrets `{Env} application instance stream w :
  ready w → w_committed w = w_db w →
  (∀ max_bytes max_lines offset,
     let '(r, w') := get_instance_log application instance stream max_bytes max_lines offset w in
     agent_frame (w_db w) (w_committed w') ∧
     ∀ chunk lines line, r = Ok (chunk, lines) → line ∈ lines → hides (w_db w) application line) ∧
  let '(r, w') := stream_instance_log_route application instance stream w in
  agent_frame (w_db w) (w_committed w') ∧
  ∀ events e lines line, r = Ok (events, e) → EvLines lines ∈ events → line ∈ lines →
    hides (w_db w) application line.
Proof.
  intros Hw Hc. pose proof (snapshot_inv w Hw Hc) as Hinv. split.
  - intros mb ml off. destruct (get_instance_log _ _ _ _ _ _ w) as [r w'] eqn:E.
    destruct (keeps_get_instance_log (snapshot (w_db w)) application instance stream mb ml off w Hinv) as [Hi _].
    rewrite E in Hi. split; [apply Hi|]. intros chunk lines line -> Hl.
    eapply get_instance_log_hides; [done|done|by rewrite E|done].
  - destruct (stream_instance_log_route _ _ _ w) as [r w'] eqn:E.
    destruct (keeps_stream_instance_log_route (snapshot (w_db w)) application instance stream w Hinv) as [Hi _].
    rewrite E in Hi. split; [apply Hi|]. intros events e lines line -> Hin Hl.
    eapply stream_route_hides; [done|done|by rewrite E|done|done].
Qed.

(** ** A stream ends *)

Lemma yield_to_tasks_ok `{Env} w : ∃ w', yield_to_tasks w = (Ok tt, w').
Proof.
  unfold yield_to_tasks. unfold mbind, st_bind. simpl. generalize (w <| w_tick := S (w_tick w) |>).
  induction (env_incoming (w_tick w)) as [|i l IH]; intros w1; simpl; [by eexists|].
  assert (∃ w2, handle_incoming i w1 = (Ok tt, w2)) as (w2 & E).
  { destruct i; simpl; unfold other_session; destruct (get_db _ _); by eexists. }
  unfold mbind, st_bind. rewrite E. apply IH.
Qed.

Lemma asyncio_sleep_ok `{Env} s clock w : ∃ clock' w', asyncio_sleep s clock w = (Ok clock', w') ∧ clock + seconds s ≤ clock'.
Proof.
  unfold asyncio_sleep, mbind at 1, st_bind at 1. destruct (yield_to_tasks_ok w) as (w1 & ->).
  eexists _, _. split; [reflexivity|]. lia.
Qed.

(** The event that ends a stream at its limit. *)
Definition at_the_limit : LogEvent := EvClosed "stream duration limit reached; reconnect to keep tailing".

Definition goes_on (event : LogEvent) : Prop :=
  match event with EvClosed _ => False | _ => True end.

(** The instance is there, and the application's. *)
Definition has_instance (d : DB) (application instance : uuid) : Prop :=
  ∃ i, db_instances d !! instance = Some i ∧ inst_application_id i = application.

(** How a stream that started at [started] may end: after its limit with the event
    that says so, with the error that the instance is not there, which then is
    the case, or by an exception, which has no event. No event before the last
    closes the stream. *)
Definition concluded (d : DB) (application instance : uuid) (started : Z) (r : list LogEvent * option exn * Z) : Prop :=
  let '(events, e, clock) := r in
  match e with
  | Some _ => Forall goes_on events
  | None => ∃ before last, events = before ++ [last] ∧ Forall goes_on before ∧
      (last = at_the_limit ∧ seconds STREAM_MAX_SECONDS ≤ clock - started ∨
       last = EvError "instance not found" ∧ ¬ has_instance d application instance)
  end.

Lemma concluded_app d application instance started new events e clock :
  Forall goes_on new → concluded d application instance started (events, e, clock) →
  concluded d application instance started (new ++ events, e, clock).
Proof.
  intros Hnew. destruct e; simpl; [intros; by apply Forall_app|]. intros (b & l & -> & Hb & Hl).
  exists (new ++ b), l. rewrite app_assoc. split; [done|]. split; [by apply Forall_app|done].
Qed.

Lemma try_run {A B} (m : M A) (f : A → B) (g : exn → B) w :
  ∃ b w', try_except (a ← m; mret (f a)) (λ e, mret (g e)) w = (Ok b, w') ∧
    match m w with (Ok a, w1) => b = f a ∧ w' = w1 | (Raise e, w1) => b = g e ∧ w' = w1 end.
Proof. unfold try_except, mbind, st_bind. destruct (m w) as [[a|e] w']; simpl; by eexists _, _. Qed.

Lemma chunk_events_shape chunk vs w l : (chunk_events chunk vs w).1 = Ok l → (length l ≤ 1)%nat ∧ Forall goes_on l.
Proof.
  unfold chunk_events. destruct (truthy _); [|by intros [= <-]; simpl; split; [lia|]].
  unfold mbind, st_bind. destruct (redact_json_lines _ _ _) as [[lines|] ?]; [|done]. intros [= <-].
  split; [done|]. by apply Forall_singleton.
Qed.

Section stream.
Context `{Env} (d0 : DB) (application instance : uuid).
Abbreviation I := (snapshot d0).

Lemma hoare_asyncio_sleep s clock : hoare I (asyncio_sleep s clock) (λ clock', clock + seconds s ≤ clock').
Proof.
  intros w Hw. split; [exact (proj1 (keeps_asyncio_sleep I s clock w Hw))|]. intros c Hc.
  destruct (asyncio_sleep_ok s clock w) as (clock' & w' & E & Hle). rewrite E in Hc. by simplify_eq/=.
Qed.

(** A poll that is repeated slept; one that stops did not find the instance. *)
Lemma hoare_stream_poll_clock stream clock first_ offset :
  hoare I (stream_poll application instance stream clock first_ offset)
    (λ p, match p with
          | PollRetry event clock' => goes_on event ∧ clock + seconds STREAM_POLL_SECONDS ≤ clock'
          | PollStop event => event = EvError "instance not found" ∧ ¬ has_instance d0 application instance
          | PollChunk _ _ => True
          end).
Proof.
  unfold stream_poll. apply hoare_try_finally; [|keeps_auto].
  eapply hoare_bind; [apply hoare_query|]. intros o (d & Hd & ->).
  rewrite <-(agent_frame_eq db_instances d0 d Hd (λ _, eq_refl)).
  destruct (db_instances d0 !! instance) as [i|] eqn:Ei.
  2: { apply hoare_ret. split; [done|]. intros (i & Hi & _). congruence. }
  case_bool_decide; simpl.
  2: { apply hoare_ret. split; [done|]. intros (j & Hj & Ha). congruence. }
  eapply (hoare_bind _ _ _ (λ r, match r with inl (_, c) => clock + seconds STREAM_POLL_SECONDS ≤ c | inr _ => True end)).
  { apply hoare_try_except.
    - apply keeps_bind; [keeps_auto|]. intros c. by apply hoare_ret.
    - intros e. destruct e; try apply hoare_raise.
      eapply hoare_bind; [apply hoare_asyncio_sleep|]. intros c Hc. by apply hoare_ret. }
  intros [[msg c]|chunk] Hc; [by apply hoare_ret|].
  apply keeps_bind; [keeps_auto|]. intros j. apply keeps_bind; [keeps_auto|]. intros vs. by apply hoare_ret.
Qed.

Lemma stream_loop_concludes fuel stream started clock first_ offset w :
  inv I w →
  seconds STREAM_MAX_SECONDS ≤ clock - started + seconds STREAM_POLL_SECONDS * (Z.of_nat fuel - 1) → (0 < fuel)%nat →
  ∃ r w', stream_loop fuel application instance stream started clock first_ offset w = (Ok r, w') ∧
    concluded d0 application instance started r ∧ (length r.1.1 ≤ fuel)%nat.
Proof.
  revert clock first_ offset w. induction fuel as [|n IH]; intros clock first_ offset w Hw Hf Hpos; [lia|].
  cbn [stream_loop]. unfold mbind at 1, st_bind at 1. unfold monotonic at 1.
  unfold mbind at 1, st_bind at 1. simpl.
  set (clock1 := clock + Z.of_N _). set (w1 := w <| w_tick := _ |>).
  assert (clock ≤ clock1) by lia. assert (inv I w1) as Hw1 by exact Hw. generalize w1 Hw1. clear w1 Hw1 Hw. intros w1 Hw.
  destruct (Z.ltb_spec (clock1 - started) (seconds STREAM_MAX_SECONDS)) as [Hlt|Hge]; simpl.
  2: { eexists _, _. split; [reflexivity|]. split; [|simpl; lia]. exists [], at_the_limit. split; [done|]. split; [apply Forall_nil_2|]. by left. }
  assert (∀ clock' first_ offset w, inv I w → clock1 + seconds STREAM_POLL_SECONDS ≤ clock' →
    ∃ r w', stream_loop n application instance stream started clock' first_ offset w = (Ok r, w') ∧
      concluded d0 application instance started r ∧ (length r.1.1 ≤ n)%nat) as Hnext.
  { intros clock' f o w2 Hw2 Hc. apply IH; [done|..]; unfold STREAM_POLL_SECONDS, STREAM_MAX_SECONDS, seconds in *; lia. }
  unfold mbind at 1, st_bind at 1.
  destruct (try_run (stream_poll application instance stream clock1 first_ offset) inr inl w1) as (poll & w2 & -> & Hpoll).
  destruct (hoare_stream_poll_clock stream clock1 first_ offset w1 Hw) as [Hw2 Hp].
  destruct (stream_poll application instance stream clock1 first_ offset w1) as [[p|e] w3]; simpl in *;
    destruct Hpoll as [-> ->].
  2: { eexists _, _. split; [reflexivity|]. split; [apply Forall_nil_2|simpl; lia]. }
  specialize (Hp p eq_refl). destruct p as [ev|ev c|chunk vs].
  - eexists _, _. split; [reflexivity|]. split; [|simpl; lia]. exists [], ev. split; [done|]. split; [apply Forall_nil_2|]. by right.
  - destruct Hp as [Hev Hp]. destruct (Hnext c first_ offset w3 Hw2 Hp) as ([[events e] c'] & w4 & E & Hc & Hl).
    unfold mbind, st_bind. rewrite E. eexists _, _. split; [reflexivity|]. split; [|simpl in *; lia].
    apply (concluded_app _ _ _ _ [ev]); [by apply Forall_singleton|done].
  - unfold mbind at 1, st_bind at 1.
    destruct (try_run (chunk_events chunk vs) inr inl w3) as (new & w4 & -> & Hnew).
    assert (inv I (chunk_events chunk vs w3).2) as Hw4.
    { assert (keeps I (chunk_events chunk vs)) as Hk by (unfold chunk_events; keeps_auto). by apply Hk. }
    pose proof (chunk_events_shape chunk vs w3) as Hshape.
    destruct (chunk_events chunk vs w3) as [[l|e] w4']; simpl in *; destruct Hnew as [-> ->].
    2: { eexists _, _. split; [reflexivity|]. split; [apply Forall_nil_2|simpl; lia]. }
    destruct (Hshape l eq_refl) as [Hlen Hgo].
    destruct (hoare_asyncio_sleep STREAM_POLL_SECONDS clock1 w4' Hw4) as [Hw5 _].
    destruct (asyncio_sleep_ok STREAM_POLL_SECONDS clock1 w4') as (c & w5 & E & Hc).
    unfold mbind at 1, st_bind at 1. rewrite E in Hw5 |- *.
    destruct (Hnext c false (ch_end_offset chunk) w5 Hw5 Hc) as ([[events e] c'] & w6 & E' & Hcon & Hl).
    unfold mbind, st_bind. rewrite E'. eexists _, _. split; [reflexivity|]. split; [by apply concluded_app|].
    simpl in *. rewrite length_app. lia.
Qed.

End stream.

Lemma monotonic_run `{Env} clock w :
  monotonic clock w = (Ok (clock + Z.of_N (env_elapsed (w_tick w))), w <| w_tick := S (w_tick w) |>).
Proof. done. Qed.

(** C33. A log stream ends by itself: the generator makes at most 301 events, and
    there are three ways for it to end. It closes with the event that names the
    duration limit, and then ten minutes have passed on its clock; it reports
    that the instance was not found, and then the application has no such
    instance; or an exception that nothing catches (a line of the agent that is
    no text, say) ends it, without a closing event. No other event closes it. The
    loop leaves off because every poll sleeps two seconds. *)
Theorem log_stream_ends `{Env} application instance stream w :
  ready w → w_committed w = w_db w →
  ∃ started w0 events e clock w',
    monotonic 0 w = (Ok started, w0) ∧
    stream_loop stream_fuel application instance stream started started true JNull w0 = (Ok (events, e, clock), w') ∧
    stream_instance_log application instance stream w = (Ok (events, e), w') ∧
    (length events ≤ 301)%nat ∧
    concluded (w_db w) application instance started (events, e, clock).
Proof.
  intros Hr Hc. do 2 eexists. assert (Z.of_nat stream_fuel = 301) as Hfuel by (vm_compute; reflexivity).
  destruct (stream_loop_concludes (w_db w) application instance stream_fuel stream
    (0 + Z.of_N (env_elapsed (w_tick w))) (0 + Z.of_N (env_elapsed (w_tick w))) true JNull (w <| w_tick := S (w_tick w) |>))
    as ([[events e] clock] & w' & Hrun & Hcon & Hlen).
  { by apply (snapshot_inv w). }
  { rewrite Hfuel. unfold STREAM_MAX_SECONDS, STREAM_POLL_SECONDS, seconds. lia. }
  { lia. }
  exists events, e, clock, w'. split; [apply monotonic_run|]. split; [exact Hrun|]. split.
  - unfold stream_instance_log. rewrite (bind_run _ _ _ _ _ (monotonic_run 0 w)). by rewrite (bind_run _ _ _ _ _ Hrun).
  - split; [simpl in Hlen; lia|exact Hcon].
Qed.

(** ** A concrete run *)

Definition log_answer : json :=
  JObj [("lines", JArr [JStr "starting with s3cr3t"; JStr "ready"]); ("end_offset", JInt 12)].

Definition log_world : World :=
  demo_world ((demo_db "deploy" 1) <| db_secret_records :=
    {[ 60%N := {| sec_application_id := Some app1; sec_key := "KEY"; sec_encrypted_value := "token:s3cr3t" |} ]} |>).

(** The agent answers during the wait for its command. *)
Definition log_outside : Env :=
  outside_with (λ t, if decide (t = 5%nat) then concat (map (finish_with log_answer) [100%N; 101%N; 102%N]) else [])
    probe_ok gateway_ok gateway_down.

Example log_lines :
  match (get_instance_log (H:=log_outside) app1 instance1 "stdout" None None None log_world).1 with
  | Ok (_, lines) => lines
  | Raise _ => []
  end = ["starting with [REDACTED]"; "ready"].
Proof. vm_compute. reflexivity. Qed.

(** An instance of nobody: the stream says so and ends. *)
Lemma log_stream_ends_witness :
  ∃ w', stream_instance_log (H:=log_outside) app1 77%N "stdout" log_world =
      (Ok ([EvError "instance not found"], None), w') ∧
    ¬ has_instance (w_db log_world) app1 77%N.
Proof.
  assert (ready log_world) as Hready by (split; exact eq_refl).
  destruct (log_stream_ends (H:=log_outside) app1 77%N "stdout" log_world Hready eq_refl)
    as (started & w0 & events & e & clock & w' & _ & _ & Hrun & _ & Hcon).
  assert ((stream_instance_log (H:=log_outside) app1 77%N "stdout" log_world).1 =
          Ok ([EvError "instance not found"], None)) as E by (vm_compute; reflexivity).
  rewrite Hrun in E. injection E as -> ->. exists w'. split; [exact Hrun|].
  destruct Hcon as (before & last & Hev & _ & [[-> _]|[_ Hno]]); [|exact Hno].
  destruct before as [|x [|y l]]; discriminate Hev.
Defined.

Lemma logs_hide_secrets_witness :
  stored_secret (H:=log_outside) (w_db log_world) app1 "s3cr3t" ∧
  ∀ chunk lines line,
    (get_instance_log (H:=log_outside) app1 instance1 "stdout" None None None log_world).1 = Ok (chunk, lines) →
    line ∈ lines → hides (H:=log_outside) (w_db log_world) app1 line.
Proof.
  split.
  - exists 60%N, {| sec_application_id := Some app1; sec_key := "KEY"; sec_encrypted_value := "token:s3cr3t" |}.
    repeat split; discriminate || (vm_compute; reflexivity).
  - assert (ready log_world) as Hready by (split; exact eq_refl).
    destruct (logs_hide_secrets (H:=log_outside) app1 instance1 "stdout" log_world Hready eq_refl) as [Hget _].
    specialize (Hget None None None). destruct (get_instance_log _ _ _ _ _ _ _) as [r w'].
    exact (proj2 Hget).
Defined.
