(* ===== verification/SecretProperties.v ===== *)
(** Secrets behave like a map from names to values. *)

From S2P Require Import Prelude Python Enums Schema Session Hoare Widths Protocol Invariants AuditService Scenario.
Local Open Scope Z_scope.

(** ** What the application is given *)

(** [v] is the value of the secret [key] of the application. *)
Definition secret_value `{Env} (d : DB) (application : uuid) (key v : string) : Prop :=
  ∃ id s, db_secret_records d !! id = Some s ∧ sec_application_id s = Some application ∧ sec_key s = key ∧
          sec_encrypted_value s ≠ "" ∧ env_decrypt (sec_encrypted_value s) = Some v.

(** Every secret of the application can be decrypted. *)
Definition secrets_readable `{Env} (d : DB) (application : uuid) : Prop :=
  ∀ id s, db_secret_records d !! id = Some s → sec_application_id s = Some application →
    sec_encrypted_value s ≠ "" → is_Some (env_decrypt (sec_encrypted_value s)).

Lemma dict_set_lookup {K V} `{EqDecision K} (l : list (K * V)) k v k' :
  dict_lookup (dict_set l k v) k' = if decide (k' = k) then Some v else dict_lookup l k'.
Proof.
  induction l as [|[k0 v0] l IH]; simpl; repeat case_decide; simplify_eq/=; try done;
    repeat case_decide; simplify_eq; rewrite ?IH; repeat case_decide; naive_solver.
Qed.

(** A dictionary built from pairs whose keys differ. *)
Lemma dict_update_lookup {K V} `{EqDecision K} (l d : list (K * V)) k v :
  (∀ k v1 v2, (k, v1) ∈ l → (k, v2) ∈ l → v1 = v2) →
  dict_lookup (dict_update d l) k = Some v ↔
  (k, v) ∈ l ∨ ((∀ v', (k, v') ∉ l) ∧ dict_lookup d k = Some v).
Proof.
  unfold dict_update. revert d. induction l as [|[k0 v0] l IH]; intros d Hu; simpl; [set_solver|].
  rewrite IH by set_solver. rewrite dict_set_lookup. setoid_rewrite elem_of_cons. case_decide as Hk; simplify_eq.
  - split.
    + intros [Hin|[_ [= ->]]]; left; [by right|by left].
    + intros [[[= ->]|Hin]|[Hno _]]; [|by left|by destruct (Hno v0); left].
      destruct (decide (Exists (λ kv, kv.1 = k0) l)) as [([k1 v1] & Hin & E)%Exists_exists|Hno].
      * simpl in E. subst k1. left. rewrite (Hu k0 v0 v1); [done|by left|by right].
      * right. split; [|done]. intros v' Hin. apply Hno, Exists_exists. by exists (k0, v').
  - naive_solver.
Qed.

Section secrets.
Context `{Env} (application : uuid).

Lemma decrypt_all_run l w :
  (∀ id s, (id, s) ∈ l → sec_encrypted_value s ≠ "" → is_Some (env_decrypt (sec_encrypted_value s))) →
  ∃ kvs, decrypt_all l w = (Ok kvs, w) ∧
    ∀ k v, (k, v) ∈ kvs ↔ ∃ id s, (id, s) ∈ l ∧ sec_key s = k ∧ sec_encrypted_value s ≠ "" ∧
                                 env_decrypt (sec_encrypted_value s) = Some v.
Proof.
  induction l as [|[id s] l IH]; intros Hr; simpl.
  - exists []. split; [done|]. set_solver.
  - destruct IH as (kvs & E & Hk); [intros; eapply Hr; [by right|done]|]. case_decide as He.
    + exists kvs. split; [done|]. intros k v. rewrite Hk. setoid_rewrite elem_of_cons. naive_solver.
    + destruct (Hr id s) as [v0 Hv0]; [left|done|]. unfold decrypt_secret, mbind, st_bind. rewrite Hv0. simpl.
      rewrite E. eexists. split; [done|]. intros k v. rewrite elem_of_cons, Hk. setoid_rewrite elem_of_cons.
      naive_solver.
Qed.

Lemma elem_of_secrets_of d id s :
  (id, s) ∈ secrets_of application d ↔ db_secret_records d !! id = Some s ∧ sec_application_id s = Some application.
Proof. unfold secrets_of. by rewrite elem_of_select, bool_decide_eq_true. Qed.

(** [get_secret_values] reads exactly the values of the application's secrets. *)
Lemma get_secret_values_run w :
  w_active w = true → secrets_readable (w_db w) application →
  ∃ vs, get_secret_values application w = (Ok vs, w) ∧
    ∀ v, v ∈ vs ↔ ∃ k, secret_value (w_db w) application k v.
Proof.
  intros Ha Hr. unfold get_secret_values. rewrite (bind_run _ _ _ _ _ (query_run _ w Ha)).
  destruct (decrypt_all_run (secrets_of application (w_db w)) w) as (kvs & E & Hk).
  { intros id s [Hs Happ]%elem_of_secrets_of Hne. by eapply Hr. }
  rewrite (bind_run _ _ _ _ _ E). eexists. split; [reflexivity|]. intros v. split.
  - intros ([k v'] & -> & (id & s & [Hs Happ]%elem_of_secrets_of & Hk')%Hk)%list_elem_of_fmap. by exists k, id, s.
  - intros (k & id & s & Hs & Happ & Hk'). apply list_elem_of_fmap. exists (k, v). split; [done|].
    apply Hk. exists id, s. by rewrite elem_of_secrets_of.
Qed.

(** [get_secret_dict] reads exactly the secrets of the application. *)
Lemma get_secret_dict_run w :
  w_active w = true → secret_keys_unique (w_db w) → secrets_readable (w_db w) application →
  ∃ kvs, get_secret_dict application w = (Ok kvs, w) ∧
    ∀ k v, dict_lookup kvs k = Some v ↔ secret_value (w_db w) application k v.
Proof.
  intros Ha Hu Hr. unfold get_secret_dict. rewrite (bind_run _ _ _ _ _ (query_run _ w Ha)).
  pose proof (elem_of_secrets_of (w_db w)) as Hof.
  destruct (decrypt_all_run (secrets_of application (w_db w)) w) as (kvs & E & Hk).
  { intros id s Hin Hne. apply Hof in Hin as [Hs Happ]. by eapply Hr. }
  rewrite (bind_run _ _ _ _ _ E). eexists. split; [reflexivity|]. intros k v. rewrite dict_update_lookup.
  - rewrite Hk. setoid_rewrite Hof. simpl. unfold secret_value. naive_solver.
  - intros k' v1 v2 (id1 & s1 & H1 & E1 & _ & D1)%Hk (id2 & s2 & H2 & E2 & _ & D2)%Hk.
    apply Hof in H1 as [H1 A1], H2 as [H2 A2].
    assert (id1 = id2) as <- by (eapply Hu; [done|done|by eexists|congruence|congruence]). congruence.
Qed.

(** ** Writing *)

Definition secret_row (key encrypted : string) : SecretRecord :=
  {| sec_application_id := Some application; sec_key := key; sec_encrypted_value := encrypted |}.

(** The row of the secret, or a free one. *)
Definition secret_slot (d : DB) (key : string) (id : uuid) : Prop :=
  match db_secret_records d !! id with
  | Some s => sec_application_id s = Some application ∧ sec_key s = key
  | None => ∀ k s, db_secret_records d !! k = Some s → sec_application_id s = Some application → sec_key s ≠ key
  end.

Lemma secret_named_spec key s :
  secret_named application key s = true ↔ sec_application_id s = Some application ∧ sec_key s = key.
Proof. unfold secret_named. by rewrite andb_true_iff, !bool_decide_eq_true. Qed.

Lemma insert_secret_run key encrypted w :
  ready w → (String.length key ≤ 255)%nat →
  (∀ k s, db_secret_records (w_db w) !! k = Some s → secret_named application key s = false) →
  ∃ id, db_secret_records (w_db w) !! id = None ∧
    (∀ k s, db_secret_records (w_db w) !! k = Some s → sec_application_id s = Some application → sec_key s ≠ key) ∧
    ∃ w', insert_secret (secret_row key encrypted) w = (Ok id, w') ∧ ready w' ∧
      w_db w' = (w_db w) <| db_secret_records := <[id := secret_row key encrypted]> (db_secret_records (w_db w)) |>.
Proof.
  intros [Ha Hd] Hlen Hno.
  destruct (insert_row_run db_secret_records (secret_row key encrypted) w Ha) as (id & Hid & _ & E).
  exists id. split; [done|]. split.
  { intros k s Hs Happ Hk. specialize (Hno k s Hs). by rewrite (proj2 (secret_named_spec key s)) in Hno. }
  unfold insert_secret, text_value. simpl sec_key. replace (255 <? String.length key)%nat with false
    by (symmetry; apply Nat.ltb_ge; lia).
  unfold mbind at 1, st_bind at 1. simpl. rewrite insert_unique_run by done.
  assert (select db_secret_records (λ t, (bool_decide (sec_application_id t = Some application)
            && bool_decide (sec_key t = key))%bool) (w_db w) = []) as ->.
  { apply select_nil. exact Hno. }
  rewrite E. eexists. split; [reflexivity|]. done.
Qed.

Lemma set_secret_run key value w :
  ready w → (String.length key ≤ 255)%nat →
  ∃ id t w', set_secret application key value w = (Ok id, w') ∧ ready w' ∧ secret_slot (w_db w) key id ∧
    w_db w' = (w_db w) <| db_secret_records := <[id := secret_row key (env_encrypt t value)]> (db_secret_records (w_db w)) |>.
Proof.
  intros [Ha Hd] Hlen. unfold set_secret, encrypt_secret. unfold observe at 1, mbind at 1, st_bind at 1.
  unfold mbind at 1, st_bind at 1. unfold mbind at 1, st_bind at 1. simpl. set (w1 := w <| w_tick := _ |>).
  assert (w_active w1 = true) as Ha1 by done. rewrite (bind_run _ _ _ _ _ (query_run _ w1 Ha1)).
  pose proof (first_select db_secret_records (secret_named application key) (w_db w)) as Hf.
  change (w_db w1) with (w_db w). destruct (first _) as [[id s]|].
  - destruct Hf as [Hs (Happ & Hk)%secret_named_spec].
    rewrite (bind_run _ _ _ _ _ (bind_run _ _ _ _ _ (assign_run db_secret_records id _ s w1 Ha1 Hs))).
    match goal with |- context [(flush ≫= _) ?w2] => rewrite (bind_run _ _ _ _ _ (flush_run w2 (conj Ha1 Hd))) end.
    eexists id, _, _. split; [reflexivity|]. split; [done|]. unfold secret_slot, secret_row. rewrite Hs.
    split; [done|]. simpl. by rewrite <-Happ, <-Hk.
  - destruct (insert_secret_run key (env_encrypt (w_tick w) value) w1) as (id & Hid & Hno & w2 & E & Hw2 & Edb); [done..|].
    rewrite (bind_run _ _ _ _ _ E), (bind_run _ _ _ _ _ (flush_run w2 Hw2)).
    eexists id, _, _. split; [reflexivity|]. split; [done|]. split; [|done].
    unfold secret_slot. change (w_db w1) with (w_db w) in *. by rewrite Hid.
Qed.

(** ** Removing *)

Lemma delete_secret_run key w :
  ready w →
  ∃ b w', delete_secret application key w = (Ok b, w') ∧ ready w' ∧
    if b : bool then
      ∃ id s, db_secret_records (w_db w) !! id = Some s ∧ sec_application_id s = Some application ∧ sec_key s = key ∧
        w_db w' = (w_db w) <| db_secret_records := delete id (db_secret_records (w_db w)) |>
    else w' = w ∧
      ∀ k s, db_secret_records (w_db w) !! k = Some s → sec_application_id s = Some application → sec_key s ≠ key.
Proof.
  intros Hw. pose proof Hw as [Ha Hd]. unfold delete_secret. rewrite (bind_run _ _ _ _ _ (query_run _ w Ha)).
  pose proof (first_select db_secret_records (secret_named application key) (w_db w)) as Hf.
  destruct (first _) as [[id s]|].
  - destruct Hf as [Hs (Happ & Hk)%secret_named_spec].
    rewrite (bind_run _ _ _ _ _ (db_modify_run _ w Ha)).
    match goal with |- context [(flush ≫= _) ?w2] => rewrite (bind_run _ _ _ _ _ (flush_run w2 (conj Ha Hd))) end.
    eexists true, _. split; [reflexivity|]. split; [done|]. by exists id, s.
  - exists false, w. split; [done|]. split; [done|]. split; [done|]. intros k s Hs Happ Hk.
    specialize (Hf k s Hs). by rewrite (proj2 (secret_named_spec key s)) in Hf.
Qed.

End secrets.

(** ** Secrets as a map *)

Section map.
Context `{Env}.

Lemma secret_value_insert d application key enc value id application' k v :
  secret_slot application d key id → secret_keys_unique d → enc ≠ "" → env_decrypt enc = Some value →
  secret_value (d <| db_secret_records := <[id := secret_row application key enc]> (db_secret_records d) |>)
    application' k v ↔
  if decide (application' = application ∧ k = key) then v = value else secret_value d application' k v.
Proof.
  intros Hslot Hu Hne Hdec. unfold secret_value. simpl. case_decide as Hc.
  - destruct Hc as [-> ->]. split; [|intros ->; exists id, (secret_row application key enc); by rewrite lookup_insert_eq].
    intros (k' & s & [[<- <-]|[Hk' Hs]]%lookup_insert_Some & Happ & Hk & Hn & Hd); simpl in *; [congruence|].
    exfalso. unfold secret_slot in Hslot. destruct (db_secret_records d !! id) as [s0|] eqn:E0.
    + destruct Hslot. apply Hk'. eapply Hu; [done|done|by eexists|congruence|congruence].
    + by destruct (Hslot k' s).
  - split; intros (k' & s & Hs & Happ & Hk & Hn & Hd).
    + apply lookup_insert_Some in Hs as [[<- <-]|[Hk' Hs]]; simpl in *; [|by exists k', s].
      destruct Hc. by simplify_eq.
    + exists k', s. rewrite lookup_insert_ne; [done|]. intros <-. apply Hc. unfold secret_slot in Hslot.
      rewrite Hs in Hslot. destruct Hslot. split; congruence.
Qed.

Lemma secret_value_delete d application key s id application' k v :
  db_secret_records d !! id = Some s → sec_application_id s = Some application → sec_key s = key →
  secret_keys_unique d →
  secret_value (d <| db_secret_records := delete id (db_secret_records d) |>) application' k v ↔
  (application' ≠ application ∨ k ≠ key) ∧ secret_value d application' k v.
Proof.
  intros Hs Happ Hk Hu. unfold secret_value. simpl. split.
  - intros (k' & s' & [Hk' Hs']%lookup_delete_Some & Ha' & E & Hn & Hd). split; [|by exists k', s'].
    destruct (decide (application' = application)) as [->|]; [right|by left]. intros ->. apply Hk'.
    eapply Hu; [done|done|by eexists|congruence|congruence].
  - intros (Hne & k' & s' & Hs' & Ha' & E & Hn & Hd). exists k', s'. split; [|done].
    rewrite lookup_delete_ne; [done|]. intros <-. rewrite Hs in Hs'. destruct Hne; congruence.
Qed.

Lemma secret_slot_unique d application key enc id :
  secret_slot application d key id → fits "secret_records" "key" key → secret_keys_unique d →
  secret_keys_unique (d <| db_secret_records := <[id := secret_row application key enc]> (db_secret_records d) |>).
Proof.
  unfold secret_slot. intros Hslot Hfits. apply kept. destruct (db_secret_records d !! id) as [s|] eqn:E.
  - destruct Hslot as [Ha Hk]. apply (step_secret_change d id s); [done|]. unfold same_secret, secret_row.
    destruct s; simplify_eq/=. done.
  - apply step_secret_new; [done| |done]. intros k t Ht Ha. by eapply Hslot.
Qed.

End map.

(** C34. Secrets round trip: what is stored under a name is what the application
    is given under that name, for as long as it is not replaced or deleted; the
    other names and the other applications keep their values. Deleting removes
    the name and nothing else, and says whether there was one. Before and after
    the deletion the redaction of logs is given exactly the values that the
    application is given. [Fernet] decrypts
    what it encrypted and never yields an empty token. *)
Theorem secrets_round_trip `{Env} application key value w :
  (∀ t v, env_decrypt (env_encrypt t v) = Some v) → (∀ t v, env_encrypt t v ≠ "") →
  ready w → (String.length key ≤ 255)%nat → secret_keys_unique (w_db w) → secrets_readable (w_db w) application →
  ∃ before id w1 after after_values w2 left left_values,
    get_secret_dict application w = (Ok before, w) ∧
    set_secret application key value w = (Ok id, w1) ∧
    get_secret_dict application w1 = (Ok after, w1) ∧
    (∀ k, dict_lookup after k = if decide (k = key) then Some value else dict_lookup before k) ∧
    get_secret_values application w1 = (Ok after_values, w1) ∧
    (∀ v, v ∈ after_values ↔ ∃ k, dict_lookup after k = Some v) ∧
    delete_secret application key w1 = (Ok true, w2) ∧
    get_secret_dict application w2 = (Ok left, w2) ∧
    get_secret_values application w2 = (Ok left_values, w2) ∧
    (∀ v, v ∈ left_values ↔ ∃ k, dict_lookup left k = Some v) ∧
    (∀ k, dict_lookup left k = if decide (k = key) then None else dict_lookup before k) ∧
    (∀ other k v, other ≠ application →
       (secret_value (w_db w1) other k v ↔ secret_value (w_db w) other k v) ∧
       (secret_value (w_db w2) other k v ↔ secret_value (w_db w) other k v)).
Proof.
  intros Hinv Hne Hw Hlen Hu Hr.
  destruct (get_secret_dict_run application w) as (before & E0 & H0); [apply Hw|done..|].
  destruct (set_secret_run application key value w) as (id & t & w1 & E1 & Hw1 & Hslot & Edb); [done..|].
  pose proof (λ a k v, secret_value_insert (w_db w) application key _ value id a k v Hslot Hu (Hne t value) (Hinv t value)) as Hins.
  rewrite <-Edb in Hins.
  assert (secret_keys_unique (w_db w1)) as Hu1 by (rewrite Edb; apply secret_slot_unique; [done| |done]; by solve_fits 255%nat).
  assert (secrets_readable (w_db w1) application) as Hr1.
  { intros k s. rewrite Edb. simpl. intros [[<- <-]|[_ Hs]]%lookup_insert_Some; simpl; [by rewrite Hinv|by eapply Hr]. }
  destruct (get_secret_dict_run application w1) as (after & E2 & H2); [apply Hw1|done..|].
  destruct (delete_secret_run application key w1 Hw1) as (b & w2 & E3 & Hw2 & Hb).
  destruct b; [|destruct Hb as [_ Hb]; exfalso; apply (Hb id (secret_row application key (env_encrypt t value)));
    [rewrite Edb; simpl; apply lookup_insert_eq|done..]].
  destruct Hb as (id' & s & Hs & Happ & Hk & Edb2).
  pose proof (λ a k v, secret_value_delete (w_db w1) application key s id' a k v Hs Happ Hk Hu1) as Hdel.
  rewrite <-Edb2 in Hdel.
  assert (secret_keys_unique (w_db w2)) as Hu2 by (rewrite Edb2; by eapply kept; [apply step_secret_gone|]).
  assert (secrets_readable (w_db w2) application) as Hr2.
  { intros k s'. rewrite Edb2. simpl. intros [_ Hs']%lookup_delete_Some. by eapply Hr1. }
  destruct (get_secret_dict_run application w2) as (left & E4 & H4); [apply Hw2|done..|].
  destruct (get_secret_values_run application w1) as (vs1 & V1 & HV1); [apply Hw1|done|].
  destruct (get_secret_values_run application w2) as (vs2 & V2 & HV2); [apply Hw2|done|].
  exists before, id, w1, after, vs1, w2, left, vs2. split_and!; try done.
  - intros k. apply option_eq. intros v. rewrite H2, Hins. destruct (decide (k = key)) as [->|].
    + rewrite decide_True by done. naive_solver.
    + rewrite decide_False by naive_solver. by rewrite H0.
  - intros v. rewrite HV1. by setoid_rewrite H2.
  - intros v. rewrite HV2. by setoid_rewrite H4.
  - intros k. apply option_eq. intros v. rewrite H4, Hdel, Hins. destruct (decide (k = key)) as [->|].
    + naive_solver.
    + rewrite decide_False by naive_solver. rewrite H0. naive_solver.
  - intros other k v Ho. rewrite Hdel, Hins. rewrite decide_False by naive_solver. naive_solver.
Qed.

(** ** A concrete run *)

Definition secret_world : World :=
  demo_world ((demo_db "deploy" 1) <| db_secret_records :=
    {[ 60%N := {| sec_application_id := Some app1; sec_key := "KEY"; sec_encrypted_value := "token:s3cr3t" |} ]} |>).

Definition secret_outside : Env := outside (answers_at []) probe_ok gateway_ok.

Lemma substring_whole s : String.substring 0 (String.length s) s = s.
Proof. induction s as [|c s IH]; simpl; [done|]. by rewrite IH. Qed.

Lemma token_round_trip t v : env_decrypt (Env:=secret_outside) (env_encrypt (Env:=secret_outside) t v) = Some v.
Proof.
  unfold env_decrypt, env_encrypt, secret_outside, outside, outside_with.
  replace (startswith "token:" ("token:" +:+ v)) with true by by destruct v.
  replace (String.length ("token:" +:+ v) - 6)%nat with (String.length v)
    by (change (String.length ("token:" +:+ v)) with (6 + String.length v)%nat; lia).
  by rewrite <-(substring_whole v) at 3.
Qed.

Lemma secrets_round_trip_witness :
  ∃ id w1 after values, set_secret (H:=secret_outside) app1 "DB_PASSWORD" "hunter2" secret_world = (Ok id, w1) ∧
    get_secret_dict (H:=secret_outside) app1 w1 = (Ok after, w1) ∧
    dict_lookup after "DB_PASSWORD" = Some "hunter2" ∧ dict_lookup after "KEY" = Some "s3cr3t" ∧
    get_secret_values (H:=secret_outside) app1 w1 = (Ok values, w1) ∧ "hunter2" ∈ values.
Proof.
  destruct (secrets_round_trip (H:=secret_outside) app1 "DB_PASSWORD" "hunter2" secret_world)
    as (before & id & w1 & after & values & w2 & left & rest & E0 & E1 & E2 & Hafter & EV & HV & _).
  - intros t v. apply token_round_trip.
  - done.
  - split; exact eq_refl.
  - vm_compute. lia.
  - intros k1 k2 s1 s2 H1 H2 _ _ _. cbn in H1, H2.
    apply lookup_singleton_Some in H1 as [<- _], H2 as [<- _]. done.
  - intros k s Hs _ _. cbn in Hs. apply lookup_singleton_Some in Hs as [_ <-]. by eexists.
  - assert (dict_lookup after "DB_PASSWORD" = Some "hunter2") as Hnew by (by rewrite Hafter).
    exists id, w1, after, values. split; [exact E1|]. split; [exact E2|]. split; [exact Hnew|]. split.
    + rewrite Hafter, decide_False by done.
      assert (before = [("KEY", "s3cr3t")]) as ->; [|done].
      apply (f_equal fst) in E0. vm_compute in E0. congruence.
    + split; [exact EV|]. apply HV. by exists "DB_PASSWORD".
Defined.
