(* ===== verification/SlugProperties.v ===== *)
(** Application slugs: what [_unique_slug] picks, and that the Gateway Manager
    accepts it. *)

From S2P Require Import Prelude Python Regex Schema Session Hoare NginxManager CommandService.
From S2P Require Import Scenario ApplicationService.
From Stdlib Require Import Ascii.
Local Open Scope Z_scope.

(** A name for files, services and upstreams: lower-case letters, digits and
    dashes, and it does not start with a dash. *)
Definition slug_shape (s : string) : Prop :=
  match String.list_ascii_of_string s with
  | c :: l => is_slug_head c = true ∧ Forall (λ c, is_slug_tail c = true) l
  | [] => False
  end.

Definition candidate (base : string) (k : Z) : string := base +:+ "-" +:+ str_int k.

(** The loop stops at the first candidate that is free. *)
Lemma unique_slug_loop_least n base slug suffix d :
  unique_slug_loop n base slug suffix d = slug ∨
  ∃ k, suffix ≤ k ∧ unique_slug_loop n base slug suffix d = candidate base k ∧
    slug_taken slug d = true ∧ ∀ j, suffix ≤ j < k → slug_taken (candidate base j) d = true.
Proof.
  revert slug suffix. induction n as [|n IH]; intros slug suffix; simpl; [by left|].
  destruct (slug_taken slug d) eqn:Et; [right|by left].
  destruct (IH (base +:+ "-" +:+ str_int suffix) (suffix + 1)) as [E|(k & Hk & E & Ht & Hj)].
  - exists suffix. split; [lia|]. split; [done|]. split; [done|]. lia.
  - exists k. split; [lia|]. split; [done|]. split; [done|]. intros j Hr.
    destruct (decide (j = suffix)) as [->|]; [done|]. apply Hj. lia.
Qed.

Lemma slug_head_char c : is_slug_char c = true → is_slug_head c = true.
Proof. destruct c as [[] [] [] [] [] [] [] []]; vm_compute; done. Qed.

Lemma slug_tail_char c : is_slug_char c = true ∨ c = "-"%char → is_slug_tail c = true.
Proof. intros [Hc| ->]; [|done]. unfold is_slug_tail. by rewrite (slug_head_char c Hc). Qed.

(** What is left after stripping does not start with a stripped character. *)
Lemma lstrip_by_head p s c l : String.list_ascii_of_string (lstrip_by p s) = c :: l → p c = false.
Proof.
  induction s as [|a s IH]; simpl; [done|]. destruct (p a) eqn:Ea; [done|]. simpl. by intros [= <- _].
Qed.

Lemma lstrip_by_suffix p s :
  ∃ pre, String.list_ascii_of_string s = pre ++ String.list_ascii_of_string (lstrip_by p s).
Proof.
  induction s as [|a s [pre IH]]; simpl; [by exists []|]. destruct (p a); [|by exists []].
  exists (a :: pre). by rewrite IH.
Qed.

Lemma strip_by_head p s c l : String.list_ascii_of_string (strip_by p s) = c :: l → p c = false.
Proof.
  unfold strip_by. intros E. set (t := lstrip_by p s) in *.
  destruct (lstrip_by_suffix p (str_rev t)) as [pre Hpre].
  unfold str_rev in E at 1. rewrite String.list_ascii_of_string_of_list_ascii in E.
  unfold str_rev in Hpre at 1. rewrite String.list_ascii_of_string_of_list_ascii in Hpre.
  apply (f_equal (@rev ascii)) in Hpre. rewrite rev_involutive, rev_app_distr, E in Hpre. simpl in Hpre.
  by eapply lstrip_by_head.
Qed.

Lemma slugify_shape name : slug_shape (_slugify name).
Proof.
  pose proof (slugify_alphabet name) as Hc. revert Hc. unfold slug_shape, _slugify.
  case_decide as E; [intros _; vm_compute; by repeat constructor|]. intros Hc.
  destruct (String.list_ascii_of_string (strip_by _ _)) as [|c l] eqn:El.
  - apply E. apply (f_equal String.string_of_list_ascii) in El.
    by rewrite String.string_of_list_ascii_of_string in El.
  - split.
    + destruct (Hc c) as [Hs| ->]; [left|by apply slug_head_char|].
      by apply strip_by_head in El.
    + apply Forall_forall. intros x Hx. apply slug_tail_char, Hc. by right.
Qed.

Lemma candidate_shape base k : slug_shape base → slug_shape (candidate base k).
Proof.
  unfold slug_shape, candidate. rewrite chars_app.
  destruct (String.list_ascii_of_string base) as [|c l]; [done|]. simpl. intros [Hc Hl]. split; [done|].
  apply Forall_app. split; [done|]. apply Forall_cons. split; [done|]. apply Forall_forall. intros x Hx.
  apply str_int_chars in Hx. apply slug_tail_char. destruct Hx as [Hx| ->]; [left|by right].
  revert Hx. destruct x as [[] [] [] [] [] [] [] []]; vm_compute; done.
Qed.

(** C25. The slug of a new application: the search always ends, without changing
    anything, with a slug no application has. It is the slugified name, or that
    name with the smallest number from 2 on that is free; it consists of
    lower-case letters, digits and dashes and does not start with a dash. *)
Theorem unique_slug_correct name w :
  w_active w = true →
  ∃ slug, _unique_slug (_slugify name) w = (Ok slug, w) ∧ slug_shape slug ∧
    (∀ id a, db_applications (w_db w) !! id = Some a → app_slug a ≠ slug) ∧
    (slug = _slugify name ∨
     ∃ k, 2 ≤ k ∧ slug = candidate (_slugify name) k ∧
       slug_taken (_slugify name) (w_db w) = true ∧
       ∀ j, 2 ≤ j < k → slug_taken (candidate (_slugify name) j) (w_db w) = true).
Proof.
  intros Ha. unfold _unique_slug. rewrite query_run by done. eexists. split; [reflexivity|].
  pose proof (unique_slug_free (_slugify name) (w_db w)) as Hfree.
  assert (free_slug (_slugify name) (w_db w) = _slugify name ∨
          ∃ k, 2 ≤ k ∧ free_slug (_slugify name) (w_db w) = candidate (_slugify name) k ∧
            slug_taken (_slugify name) (w_db w) = true ∧
            ∀ j, 2 ≤ j < k → slug_taken (candidate (_slugify name) j) (w_db w) = true) as Hleast
    by apply unique_slug_loop_least.
  split; [|split; [|exact Hleast]].
  - destruct Hleast as [-> |(k & _ & -> & _)]; [apply slugify_shape|apply candidate_shape, slugify_shape].
  - intros id a Hid Hs. apply not_true_iff_false in Hfree. apply Hfree, slug_taken_spec. by exists id, a.
Qed.

Lemma unique_slug_correct_witness :
  ∃ slug, _unique_slug (_slugify "  Demo! ") (demo_world (demo_db "deploy" 1)) =
            (Ok slug, demo_world (demo_db "deploy" 1)) ∧ slug = "demo-2" ∧ slug_shape slug.
Proof.
  destruct (unique_slug_correct "  Demo! " (demo_world (demo_db "deploy" 1))) as (slug & Hrun & Hshape & _);
    [reflexivity|].
  exists slug. split; [exact Hrun|]. split; [|exact Hshape].
  assert ((_unique_slug (_slugify "  Demo! ") (demo_world (demo_db "deploy" 1))).1 = Ok "demo-2") as E
    by (vm_compute; reflexivity).
  rewrite Hrun in E. by injection E.
Defined.

(** ** The Gateway Manager accepts these slugs *)

Lemma lang_upto n p l : (length l ≤ n)%nat → Forall (λ c, p c = true) l → lang (upto n (Cls p)) l.
Proof.
  revert l. induction n as [|n IH]; intros l Hn Hl; simpl.
  - destruct l; [constructor|simpl in Hn; lia].
  - destruct l as [|c l]; [apply lang_alt; left; constructor|]. apply Forall_cons in Hl as [Hc Hl].
    apply lang_alt. right. change (c :: l) with ([c] ++ l). constructor; [by constructor|]. apply IH; [simpl in Hn; lia|done].
Qed.

(** The two services agree on slugs: the name [_managed_path] turns into a file
    name is accepted for every slug the control plane creates, as long as it
    has at most 63 characters. *)
Theorem slugs_accepted_by_gateway s : slug_shape s → (String.length s ≤ 63)%nat → match_dollar _SLUG_RE s = true.
Proof.
  intros Hs Hlen. unfold match_dollar. apply orb_true_iff. left. apply match_list_lang.
  assert (length (String.list_ascii_of_string s) = String.length s) as El.
  { clear. induction s as [|c s IH]; simpl; [done|]. by rewrite IH. }
  unfold slug_shape in Hs. destruct (String.list_ascii_of_string s) as [|c l]; [done|]. destruct Hs as [Hc Hl].
  change (c :: l) with ([c] ++ l). simpl in El. constructor; [by constructor|]. apply lang_upto; [lia|done].
Qed.

Lemma slugs_accepted_by_gateway_witness : match_dollar _SLUG_RE (_slugify "My App (v2)") = true.
Proof. apply slugs_accepted_by_gateway; [apply slugify_shape|vm_compute; lia]. Defined.
