(* ===== verification/ConfigProperties.v ===== *)
(** What a valid healer.yaml guarantees to the rest of the system: bounds on
    ports and replicas, the section its adapter needs, and routing values that
    the Gateway Manager accepts. *)

From S2P Require Import Prelude Python Regex HealerYaml NginxManager CommandService Scenario.
Local Open Scope Z_scope.

(** A port range within 1..65535 with room for every allowed replica count, one of
    the two adapters with the section that adapter reads, and a source the
    adapter can build. *)
Definition well_formed_descriptor (c : HealerYamlV1) : Prop :=
  (1 ≤ pr_start (hy_ports c) ∧ pr_end (hy_ports c) ≤ 65535 ∧
   1 ≤ rc_min (hy_replicas c) ≤ rc_max (hy_replicas c) ∧
   rc_max (hy_replicas c) ≤ pr_end (hy_ports c) - pr_start (hy_ports c) + 1) ∧
  ((hy_adapter c = "windows-waitress-service" ∧ is_Some (hy_windows c) ∧
    sc_type (hy_source c) ∈ ["folder"; "git"]) ∨
   (hy_adapter c = "linux-docker" ∧ is_Some (hy_linux c) ∧ sc_type (hy_source c) ∈ ["dockerfile"; "image"] ∧
    (sc_type (hy_source c) = "image" →
       str_truthy (sc_ref (hy_source c)) = false ∧ fullmatch IMMUTABLE_IMAGE_RE (sc_location (hy_source c)) = true))).

(** A domain with a certificate and a key that the Gateway Manager accepts. *)
Definition routable_domain (c : HealerYamlV1) : Prop :=
  ∀ d cert key, hy_domain c = Some d → dc_cert_path d = Some cert → dc_key_path d = Some key →
    valid_domain_spec {| ds_hostname := dc_hostname d; ds_cert_path := cert; ds_key_path := key |} = true.

Lemma valid_descriptor_guarantees c : valid_healer_yaml c = true → well_formed_descriptor c.
Proof.
  intros Hv. unfold well_formed_descriptor. pose proof (valid_ports_and_replicas c Hv) as Hb. split; [lia|].
  assert (bool_decide (hy_adapter c ∈ ["windows-waitress-service"; "linux-docker"]) = true ∧
          _adapter_matches_source_and_section c = true) as [Had Hm].
  { unfold valid_healer_yaml in Hv. split_valid Hv. done. }
  unfold _adapter_matches_source_and_section in Hm. apply bool_decide_eq_true in Had.
  rewrite !elem_of_cons, elem_of_nil in Had. destruct Had as [E|[E|[]]]; rewrite E in Hm; simpl in Hm;
    rewrite ?andb_true_iff, ?bool_decide_eq_true in Hm; [left; naive_solver|right].
  destruct Hm as [[[Hl Ht] Hr] Hi]. split; [done|]. split; [done|]. split; [done|].
  intros Et. rewrite (bool_decide_eq_true_2 _ Et) in Hr, Hi. simpl in Hr, Hi.
  rewrite negb_true_iff in Hr. by rewrite negb_involutive in Hi.
Qed.

(** The control plane and the Gateway Manager agree on domains: one that
    healer.yaml accepts with a certificate and a key is accepted by the Gateway
    Manager's own validation, so a configured domain never makes a
    synchronisation fail its schema. *)
Theorem valid_domains_are_routable d cert key :
  valid_domain_config d = true → dc_cert_path d = Some cert → dc_key_path d = Some key →
  valid_domain_spec {| ds_hostname := dc_hostname d; ds_cert_path := cert; ds_key_path := key |} = true.
Proof.
  intros Hv Hc Hk. unfold valid_domain_config, _no_traversal in Hv. rewrite Hc, Hk in Hv. simpl in Hv.
  rewrite !andb_true_iff in Hv. destruct Hv as [[[[Hlen Hh] [Hlc Hpc]] [Hlk Hpk]] [Htc Htk]].
  assert (∀ p, length_between 0 1000 p = true → fullmatch _UNIX_PATH_RE p = true → length_between 1 1000 p = true)
    as Hlen1.
  { intros p Hl Hp. destruct p as [|a p]; [done|]. revert Hl. unfold length_between.
    rewrite !andb_true_iff, !Nat.leb_le. cbn [String.length]. lia. }
  unfold valid_domain_spec. simpl. rewrite Hlen, Hh, Hpc, Hpk, Htc, Htk, !Hlen1 by done. done.
Qed.

Lemma valid_descriptor_routable c : valid_healer_yaml c = true → routable_domain c.
Proof.
  intros Hv d cert key Hd. apply valid_domains_are_routable. unfold valid_healer_yaml in Hv. split_valid Hv.
  by rewrite Hd in *.
Qed.
