(* ===== verification/HealerYamlParse.v ===== *)
(** Reading a descriptor: services/control-plane/app/domain/healer_yaml.py and
    the route that previews one, [parse_yaml] of app/api/routes/applications.py.

    PyYAML and pydantic are not part of the program: [YamlLibraries] holds what the
    parser needs of them, reading a text and reading a mapping into the types of
    the model, and [PydanticLaws] what is documented of a [ValidationError]. The
    constraints and validators the model declares are those of [HealerYaml]. *)

From S2P Require Import Prelude Python HealerYaml ConfigProperties Scenario.
Local Open Scope Z_scope.

(** ** Values [yaml.safe_load] builds *)

(** A float is [m * 2^e]; [YOther] stands for what is neither a number, a string
    nor a collection used here (dates, bytes, sets, infinities), by its [repr].
    The keys of a mapping are distinct. *)
Inductive yaml : Type :=
| YNull
| YBool (b : bool)
| YInt (z : Z)
| YFloat (m e : Z)
| YStr (s : string)
| YSeq (l : list yaml)
| YMap (kvs : list (yaml * yaml))
| YOther (repr : string).

(** [data.get(key)] *)
Fixpoint yaml_get (data : list (yaml * yaml)) (key : string) : yaml :=
  match data with
  | [] => YNull
  | (YStr k, v) :: data' => if String.eqb k key then v else yaml_get data' key
  | _ :: data' => yaml_get data' key
  end.

(** [m * 2^e = n] *)
Definition float_is (m e n : Z) : bool := if 0 <=? e then m * 2 ^ e =? n else m =? n * 2 ^ (- e).

(** [value == n], the equality of Python: a boolean is a number. *)
Definition equals_int (value : yaml) (n : Z) : bool :=
  match value with
  | YInt z => z =? n
  | YBool b => Z.b2z b =? n
  | YFloat m e => float_is m e n
  | _ => false
  end.

(** ** The libraries *)

(** An entry of [ValidationError.errors()]: its [loc], each part printed, and its
    [msg]. *)
Record PydanticError := {
  pe_loc : list string;
  pe_msg : string;
}.

(** How [yaml.safe_load] fails: with a [YAMLError], or with what a constructor
    raises, as [datetime.date] does for "2024-13-01". *)
Inductive yaml_failure : Type :=
| YAMLError (text : string)
| ConstructorRaises (e : exn).

(** [read_model]: what pydantic makes of a mapping by the types of the fields
    alone; [violations]: the errors it reports for values that break constraints. *)
Class YamlLibraries := {
  safe_load : string → result yaml_failure yaml;
  read_model : list (yaml * yaml) → result (list PydanticError) HealerYamlV1;
  violations : HealerYamlV1 → list PydanticError;
  yaml_repr : yaml → string;
}.

(** [HealerYamlV1.model_validate(data)] *)
Definition HealerYamlV1_model_validate `{YamlLibraries} (data : list (yaml * yaml)) :
    result (list PydanticError) HealerYamlV1 :=
  match read_model data with
  | Raise errors => Raise errors
  | Ok config => if valid_healer_yaml config then Ok config else Raise (violations config)
  end.

(** A [ValidationError] holds at least one error. *)
Class PydanticLaws `{YamlLibraries} : Prop := {
  unread_has_errors data errors : read_model data = Raise errors → errors ≠ [];
  violation_has_errors c : valid_healer_yaml c = false → violations c ≠ [];
}.

(** ** The parser *)

Record ParseError := {
  err_field : string;
  err_message : string;
}.

(** [HealerYamlParseError.errors] *)
Definition HealerYamlParseError := (list ParseError).

(** [".".join(str(part) for part in error["loc"]) or "<root>"] *)
Definition error_field (e : PydanticError) : string :=
  let field := String.concat "." (pe_loc e) in
  if String.eqb field "" then "<root>" else field.

(** What leaves the parser. *)
Inductive parse_failure : Type :=
| ParseFailed (errors : HealerYamlParseError)
| Uncaught (e : exn).

Definition parse_healer_yaml `{YamlLibraries} (raw_text : string) : result parse_failure HealerYamlV1 :=
  match safe_load raw_text with
  | Raise (YAMLError exc) =>
      Raise (ParseFailed [ {| err_field := "<yaml>"; err_message := "invalid YAML: " +:+ exc |} ])
  | Raise (ConstructorRaises e) => Raise (Uncaught e)
  | Ok (YMap data) =>
      let version := yaml_get data "version" in
      if negb (equals_int version HEALER_YAML_VERSION) then
        Raise (ParseFailed
               [ {| err_field := "version";
                    err_message := "unsupported healer.yaml version " +:+ yaml_repr version +:+ " — only "
                      +:+ str_int HEALER_YAML_VERSION +:+ " is supported" |} ])
      else
        match HealerYamlV1_model_validate data with
        | Ok config => Ok config
        | Raise errors =>
            Raise (ParseFailed (map (λ e, {| err_field := error_field e; err_message := pe_msg e |}) errors))
        end
  | Ok _ => Raise (ParseFailed
              [ {| err_field := "<root>";
                   err_message := "healer.yaml must be a mapping (YAML object) at the top level" |} ])
  end.

(** ** The route *)

Record ParseYamlResponse := {
  py_ok : bool;
  py_config : option HealerYamlV1;
  py_errors : list ParseError;
}.

Definition parse_yaml `{YamlLibraries} (yaml_text : string) : result exn ParseYamlResponse :=
  match parse_healer_yaml yaml_text with
  | Ok config => Ok {| py_ok := true; py_config := Some config; py_errors := [] |}
  | Raise (ParseFailed errors) => Ok {| py_ok := false; py_config := None; py_errors := errors |}
  | Raise (Uncaught e) => Raise e
  end.

(** ** What the page learns *)

(** A text that describes an application: a mapping of version 1 whose values have
    the types of the model and satisfy its constraints. *)
Definition describes `{YamlLibraries} (yaml_text : string) (c : HealerYamlV1) : Prop :=
  ∃ data, safe_load yaml_text = Ok (YMap data) ∧ equals_int (yaml_get data "version") 1 = true ∧
    read_model data = Ok c ∧ valid_healer_yaml c = true.

Lemma error_field_nonempty e : error_field e ≠ "".
Proof. unfold error_field. by destruct (String.eqb_spec (String.concat "." (pe_loc e)) ""). Qed.

Lemma parse_healer_yaml_ok `{YamlLibraries} raw_text c : parse_healer_yaml raw_text = Ok c ↔ describes raw_text c.
Proof.
  unfold parse_healer_yaml, HealerYamlV1_model_validate, describes. change HEALER_YAML_VERSION with 1. split.
  - intros E. repeat case_match; simplify_eq. eexists. split_and!; [done|by apply negb_false_iff|done..].
  - by intros (data & -> & -> & -> & ->).
Qed.

Lemma parse_healer_yaml_errors `{PydanticLaws} raw_text errors :
  parse_healer_yaml raw_text = Raise (ParseFailed errors) → errors ≠ [] ∧ Forall (λ e, err_field e ≠ "") errors.
Proof.
  unfold parse_healer_yaml, HealerYamlV1_model_validate. intros E.
  repeat case_match; simplify_eq; try (split; [done|by repeat constructor]).
  all: split; [|apply Forall_map, Forall_true; intros; apply error_field_nonempty]; intros Hnil%map_eq_nil; subst.
  - by eapply violation_has_errors.
  - by eapply unread_has_errors.
Qed.

Lemma parse_healer_yaml_uncaught `{YamlLibraries} raw_text e :
  parse_healer_yaml raw_text = Raise (Uncaught e) ↔ safe_load raw_text = Raise (ConstructorRaises e).
Proof.
  unfold parse_healer_yaml. split; [intros E; repeat case_match; by simplify_eq|by intros ->].
Qed.

(** C26. Previewing a descriptor gives a verdict on every text that PyYAML can
    read or refuses with a [YAMLError]: either a configuration, exactly when the
    text is a mapping of version 1 whose values have the types and satisfy the
    constraints of the schema, and then one that creating the application accepts
    as it is, with consistent ports, replicas, adapter section and source and a
    domain the Gateway Manager accepts; or a list of errors, at least one, each
    with the field it is about. It fails exactly when a constructor of PyYAML
    raises something else, and then with that. *)
Theorem parse_yaml_verdict `{PydanticLaws} yaml_text :
  match parse_yaml yaml_text with
  | Ok r =>
      (∀ e, safe_load yaml_text ≠ Raise (ConstructorRaises e)) ∧
      ((py_ok r = true ∧ py_errors r = [] ∧
        ∃ c, py_config r = Some c ∧ describes yaml_text c ∧ well_formed_descriptor c ∧ routable_domain c ∧
             ∀ S (s : S), model_validate c s = (Ok c, s)) ∨
       (py_ok r = false ∧ py_config r = None ∧ py_errors r ≠ [] ∧ Forall (λ e, err_field e ≠ "") (py_errors r) ∧
        ∀ c, ¬ describes yaml_text c))
  | Raise e => safe_load yaml_text = Raise (ConstructorRaises e)
  end.
Proof.
  unfold parse_yaml. destruct (parse_healer_yaml yaml_text) as [c|[errors|e]] eqn:E.
  - split; [intros e He%parse_healer_yaml_uncaught; congruence|left].
    pose proof (proj1 (parse_healer_yaml_ok _ _) E) as Hd. assert (valid_healer_yaml c = true) as Hv by (destruct Hd as (? & _ & _ & _ & Hv); exact Hv).
    split_and!; [done..|]. exists c.
    split_and!; [done|done|by apply valid_descriptor_guarantees|by apply valid_descriptor_routable|].
    intros S s. unfold model_validate. by rewrite Hv.
  - split; [intros e He%parse_healer_yaml_uncaught; congruence|right].
    destruct (parse_healer_yaml_errors _ _ E). split_and!; [done..|]. intros c Hc%parse_healer_yaml_ok. congruence.
  - by apply parse_healer_yaml_uncaught.
Qed.

(** ** A small descriptor *)

(** A loader that knows one text, and a reader that knows one mapping. *)
#[local] Instance demo_yaml : YamlLibraries := {|
  safe_load := λ t, if String.eqb t "version: 1" then Ok (YMap [(YStr "version", YInt 1)])
                    else if String.eqb t "2024-13-01" then Raise (ConstructorRaises (ValueError "month must be in 1..12"))
                    else Raise (YAMLError "unexpected end");
  read_model := λ data,
    match data with
    | [(YStr "version", YInt 1)] => Ok demo_config
    | _ => Raise [ {| pe_loc := []; pe_msg := "Field required" |} ]
    end;
  violations := λ _, [ {| pe_loc := ["ports"]; pe_msg := "Value error" |} ];
  yaml_repr := λ _, "None";
|}.

#[local] Instance demo_yaml_laws : PydanticLaws.
Proof. split; intros; simpl in *; [repeat case_match; by simplify_eq|done]. Qed.

Lemma parse_yaml_verdict_witness :
  parse_yaml "version: 1" = Ok {| py_ok := true; py_config := Some demo_config; py_errors := [] |} ∧
  well_formed_descriptor demo_config ∧
  (∃ r, parse_yaml "version: [" = Ok r ∧ py_errors r ≠ []) ∧
  parse_yaml "2024-13-01" = Raise (ValueError "month must be in 1..12").
Proof.
  split; [vm_compute; reflexivity|]. split; [|split; [|reflexivity]].
  - pose proof (parse_yaml_verdict "version: 1") as Hv.
    assert (parse_yaml "version: 1" = Ok {| py_ok := true; py_config := Some demo_config; py_errors := [] |}) as E
      by (vm_compute; reflexivity).
    rewrite E in Hv. destruct Hv as [_ [(_ & _ & c & Hc & _ & Hw & _)|(Hok & _)]]; [|discriminate Hok].
    injection Hc as <-. exact Hw.
  - eexists. split; [reflexivity|discriminate].
Defined.
