(* ===== verification/Witnesses.v ===== *)
(** Concrete runs at which the theorems about single components apply. *)

From S2P Require Import Prelude Python Enums StateMachines HealerYaml Schema Session Hoare.
From S2P Require Import Repositories LockService CommandService Scenario CommandProperties.
From S2P Require Import GatewayService HealthCheckService DeploymentService ReleaseService.
From S2P Require Import ReleaseSwitch.
Local Open Scope Z_scope.

(** The agent and the gateway answer: the new release goes live. *)
Lemma release_switch_all_or_nothing_witness :
  let E := outside (answers_at [5; 17; 32]%nat) probe_ok gateway_ok in
  let d' := w_committed (run_release_switch switch1 77 (demo_world (demo_db "blue_green" 1))).2 in
  active_release app1 d' = Some new_release ∧ ∃ l, length l = 1%nat ∧ serving_set new_release l d'.
Proof.
  intros E d'.
  destruct (release_switch_all_or_nothing (demo_world (demo_db "blue_green" 1)) switch1 77
    (demo_deployment "blue_green" 1) demo_app) as [(_ & Hact & _)|Hdone];
    [reflexivity|reflexivity|vm_compute; reflexivity|discriminate|vm_compute; reflexivity|discriminate| |exact Hdone].
  exfalso. revert Hact. vm_compute. discriminate.
Defined.

(** Two clients compete for the lock; the second gets it after a release. *)
Definition demo_contention : list LockOp :=
  [TryAcquire "deploy"; TryAcquire "scale"; DoRelease (t0 + seconds 0); TryAcquire "scale"].

Lemma at_most_one_lock_holder_witness :
  let E := outside (answers_at []) probe_ok gateway_ok in
  let held := (lock_trace app1 demo_contention [] (demo_world (demo_db "deploy" 1))).1 in
  length held = 1%nat ∧ NoDup held.
Proof.
  intros E held. split; [vm_compute; reflexivity|].
  destruct (lock_trace app1 demo_contention [] (demo_world (demo_db "deploy" 1))) as [h w'] eqn:Ht.
  refine (proj1 (at_most_one_lock_holder app1 demo_contention (demo_world (demo_db "deploy" 1)) h w' _ _ Ht)).
  - intros t t' Hlt. cbn. unfold seconds. lia.
  - by split.
Defined.

Lemma wait_until_healthy_correct_witness :
  let E := outside (answers_at []) probe_ok gateway_ok in
  ∃ rs w', wait_until_healthy check1 instance1 "alpha.local" 9000 (demo_world (demo_db "deploy" 1)) = (Ok true, w') ∧
    Forall (probe_result demo_check check1 instance1 "alpha.local" 9000) rs ∧ ends_with true 1 rs.
Proof.
  intros E.
  destruct (wait_until_healthy_correct check1 instance1 demo_check "alpha.local" 9000
    (demo_world (demo_db "deploy" 1))) as (r & rs & w' & Hrun & _ & _ & Hall & Hr);
    [by split|vm_compute; reflexivity|vm_compute; discriminate|vm_compute; discriminate|].
  assert ((wait_until_healthy check1 instance1 "alpha.local" 9000 (demo_world (demo_db "deploy" 1))).1 = Ok true)
    as Ht by (vm_compute; reflexivity).
  rewrite Hrun in Ht. simpl in Ht. subst r. exists rs, w'. split; [exact Hrun|]. split; [exact Hall|exact Hr].
Defined.

(** Port 9000 is taken by the running instance, so 9001 is allocated. *)
Lemma allocate_instance_lowest_free_port_witness :
  let E := outside (answers_at []) probe_ok gateway_ok in
  let w := demo_world (demo_db "deploy" 1) in
  ∃ id w' port i, _allocate_instance app1 new_release server1 9000 9003 w = (Ok id, w') ∧
    9000 ≤ port ≤ 9003 ∧ ¬ port_free (w_db w) server1 9000 ∧
    w_db w' = (w_db w) <| db_instances := <[id := i]> (db_instances (w_db w)) |> ∧ inst_port i = port.
Proof.
  intros E w.
  pose proof (allocate_instance_lowest_free_port app1 new_release server1 9000 9003 demo_app w) as Hrun.
  assert ((_allocate_instance app1 new_release server1 9000 9003 w).1 = Ok 100%N) as Hok by (vm_compute; reflexivity).
  destruct (_allocate_instance app1 new_release server1 9000 9003 w) as [[id|e] w']; [|discriminate].
  destruct Hrun as (port & i & Hport & _ & _ & _ & Hrow & _ & Hdb);
    [reflexivity|vm_compute; reflexivity|vm_compute; by eexists|vm_compute; by eexists|].
  exists id, w', port, i. split; [reflexivity|]. split; [exact Hport|]. split.
  - intros Hf. apply (Hf instance1 (demo_instance InstanceStatus.RUNNING 9000)); [vm_compute; reflexivity|by split].
  - split; [exact Hdb|]. apply Hrow.
Defined.

(** ** Commands *)

(** A command that the agent has acknowledged, and one of another agent. *)
Definition command1 : uuid := 60%N.
Definition command2 : uuid := 61%N.

Definition demo_command (agent : uuid) (key : string) (status : agent_command_status) : AgentCommand :=
  {| cmd_agent_id := agent; cmd_command_type := AgentCommandType.INSPECT_HOST; cmd_payload := JObj [];
     cmd_idempotency_key := key; cmd_status := status; cmd_correlation_id := None; cmd_expires_at := Some 5;
     cmd_result := None; cmd_error := None; cmd_created_at := 0 |}.

Definition command_world : World :=
  demo_world ((demo_db "deploy" 1) <| db_agent_commands :=
    {[ command1 := demo_command agent1 "one" AgentCommandStatus.RUNNING;
       command2 := demo_command 99%N "two" AgentCommandStatus.PENDING ]} |>).

Lemma record_event_correct_witness :
  (record_event command1 AgentCommandStatus.SUCCEEDED (JObj [("ok", JBool true)]) JNull 7 command_world).1 = Ok tt.
Proof.
  rewrite (record_event_correct command1 (demo_command agent1 "one" AgentCommandStatus.RUNNING));
    [reflexivity|by split|vm_compute; reflexivity|by left].
Defined.

(** An agent that reports on a command of another agent. *)
Lemma agents_are_isolated_witness :
  let E := outside (answers_at []) probe_ok gateway_ok in
  db_agent_commands (w_committed (agent_socket_message agent1 (command_event command2 "sent" JNull) command_world).2)
    !! command2 = Some (demo_command 99%N "two" AgentCommandStatus.PENDING).
Proof.
  intros E.
  destruct (agents_are_isolated agent1 (command_event command2 "sent" JNull) command_world) as (Hc & _);
    [reflexivity|reflexivity|].
  apply Hc; [vm_compute; reflexivity|discriminate].
Defined.

Lemma demo_keys_unique : keys_unique (w_db command_world).
Proof.
  intros k1 k2 c1 c2 H1 H2 Hk.
  change (({[ command1 := demo_command agent1 "one" AgentCommandStatus.RUNNING;
             command2 := demo_command 99%N "two" AgentCommandStatus.PENDING ]} : gmap uuid AgentCommand) !! k1 = Some c1) in H1.
  change (({[ command1 := demo_command agent1 "one" AgentCommandStatus.RUNNING;
             command2 := demo_command 99%N "two" AgentCommandStatus.PENDING ]} : gmap uuid AgentCommand) !! k2 = Some c2) in H2.
  apply lookup_insert_Some in H1 as [[<- <-]|[_ H1]], H2 as [[<- <-]|[_ H2]];
    rewrite ?lookup_singleton_Some in *; naive_solver.
Qed.

Lemma submit_command_idempotent_witness :
  let E := outside (answers_at []) probe_ok gateway_ok in
  submit_command agent1 AgentCommandType.INSPECT_HOST (JObj []) "one" None 60 (λ _, mret tt) command_world =
  (Ok command1, command_world).
Proof.
  intros E.
  destruct (submit_command_idempotent agent1 AgentCommandType.INSPECT_HOST (JObj []) "one" None 60 (λ _, mret tt)
    command_world) as [Hidem _].
  - by split.
  - apply demo_keys_unique.
  - reflexivity.
  - intros id. by apply hoare_ret.
  - apply (Hidem command1 (demo_command agent1 "one" AgentCommandStatus.RUNNING)); [vm_compute; reflexivity|reflexivity].
Defined.

Lemma sweep_is_exact_witness :
  ∃ w', expire_overdue_commands 10 command_world = (Ok 2%nat, w') ∧
    map (λ e, (ev_command_id e, ev_status e, ev_occurred_at e)) (db_agent_command_events (w_db w')) =
      map (λ kc, (kc.1, expired_status (cmd_status kc.2), 10))
          (select db_agent_commands (overdue 10) (w_db command_world)).
Proof.
  destruct (sweep_is_exact 10 command_world) as (w' & Hrun & _ & _ & _ & Hev); [by split|].
  exists w'. split; [exact Hrun|]. rewrite Hev. vm_compute. reflexivity.
Defined.

(** ** Routing *)

Lemma reload_payload_exact_witness :
  ∃ domains upstreams,
    _build_reload_payload app1 (demo_world (demo_db "deploy" 1)) =
      (Ok (JObj [("app_slug", JStr "demo"); ("domains", JArr domains); ("upstreams", JArr upstreams)]),
       demo_world (demo_db "deploy" 1)) ∧
    JObj [("host", JStr "alpha.local"); ("port", JInt 9000)] ∈ upstreams.
Proof.
  destruct (reload_payload_exact app1 demo_app (demo_world (demo_db "deploy" 1))) as (ds & us & Hrun & Hus & _);
    [reflexivity|vm_compute; reflexivity|].
  exists ds, us. split; [exact Hrun|]. apply Hus.
  eexists instance1, (demo_instance InstanceStatus.RUNNING 9000), _. split; [vm_compute; reflexivity|].
  split; [split; [reflexivity|split; [reflexivity|by intros r [= <-]]]|]. split; [vm_compute; reflexivity|reflexivity].
Defined.

Lemma sync_gateway_correct_witness :
  let E := outside (answers_at []) probe_ok gateway_down in
  ∃ result w', sync_gateway app1 None (demo_world (demo_db "deploy" 1)) = (Ok result, w') ∧ gs_ok result = false ∧
    w_committed w' = w_db w'.
Proof.
  intros E.
  destruct (sync_gateway_correct app1 None demo_app (demo_world (demo_db "deploy" 1)))
    as (payload & result & entry & w' & Hrun & _ & Hok & _ & _ & _ & _ & _ & Hc);
    [by split|reflexivity|vm_compute; reflexivity|done|].
  exists result, w'. split; [exact Hrun|]. split; [|exact Hc].
  apply not_true_is_false. intros Ht. apply Hok in Ht as (? & ? & [=] & _).
Defined.
