(* ===== verification/Findings.v ===== *)
(** Concrete runs in which the code does not do what its comments say. Each is
    a computation on the demonstration database of [Scenario]. *)

From S2P Require Import Prelude Python Regex Enums StateMachines HealerYaml Schema Session Hoare.
From S2P Require Import Repositories NginxManager LockService CommandService Scenario.
From S2P Require Import ApplicationService DeploymentService DeploymentOutcome ScaleService ReleaseService.
From S2P Require Import Redaction Regex HealerYaml Metadata DbAdmin DbAdminProperties.
From S2P Require Import LogService LogProperties Routes SystemProperties.
Local Open Scope Z_scope.

(** What an administrator sees after a run: its outcome, the committed
    instances and deployments, and the application's active release and lock. *)
Definition summary (run : result exn unit * World) :=
  let d := w_committed run.2 in
  (run.1,
   map (λ kv, (kv.1, inst_status kv.2, inst_port kv.2)) (map_to_list (db_instances d)),
   map (λ kv, dep_status kv.2) (map_to_list (db_deployments d)),
   map (λ kv, (app_active_release_id kv.2, app_operation_lock kv.2)) (map_to_list (db_applications d))).

(** A scale-up whose new instance starts but fails its health gate: the code
    moves it from STARTING to UNHEALTHY, which the state machine forbids, so
    the run raises, the deployment stays IN_PROGRESS and the instance stays
    STARTING. *)
Example scale_up_unhealthy_is_stuck :
  summary (run_scale (H:=outside (answers_at [7]%nat) probe_bad gateway_ok) switch1 77
             (demo_world (demo_db "deploy" 2))) =
  (Raise (InvalidTransition "starting" "unhealthy"),
   [(100%N, InstanceStatus.STARTING, 9001); (instance1, InstanceStatus.RUNNING, 9000)],
   [DeploymentStatus.IN_PROGRESS], [(Some old_release, None)]).
Proof. vm_compute. reflexivity. Qed.

(** A blue-green switch whose second instance does not start, while the agent
    does not confirm the stop of the first either: RUNNING to FAILED is
    forbidden, so the clean-up raises and the deployment is never marked as
    failed. *)
Example aborted_switch_is_stuck :
  summary (run_release_switch (H:=outside (answers_at [5; 17]%nat) probe_ok gateway_ok) switch1 77
             (demo_world (demo_db "blue_green" 2))) =
  (Raise (InvalidTransition "running" "failed"),
   [(102%N, InstanceStatus.RUNNING, 9001); (instance1, InstanceStatus.RUNNING, 9000);
    (105%N, InstanceStatus.FAILED, 9002)],
   [DeploymentStatus.IN_PROGRESS], [(Some old_release, None)]).
Proof. vm_compute. reflexivity. Qed.

(** A gateway reply whose JSON body is not an object makes [sync_gateway] raise,
    after the active release was switched: the deployment stays IN_PROGRESS and
    the database says that the new release is routed. *)
Example unreadable_gateway_reply_leaves_the_switch :
  summary (run_release_switch (H:=outside (answers_at [5; 17; 32]%nat) probe_ok (HttpResponse 200 (Some (JArr [])) 5))
             switch1 77 (demo_world (demo_db "blue_green" 1))) =
  (Raise AttributeError,
   [(102%N, InstanceStatus.RUNNING, 9001); (instance1, InstanceStatus.RUNNING, 9000)],
   [DeploymentStatus.IN_PROGRESS], [(Some new_release, None)]).
Proof. vm_compute. reflexivity. Qed.

(** An agent that fails to collect a log and quotes the log in its error: the text
    is the detail of the 409, with the secret in it. *)
Definition failed_event (id : uuid) (status error : string) : Incoming :=
  AgentSends agent1
    (JObj [ ("protocol_version", JStr "1.0"); ("type", JStr "agent.command_event");
            ("payload", JObj [ ("command_id", JStr (str_uuid id)); ("status", JStr status); ("error", JStr error) ]) ]).

Definition quoting_agent : Env :=
  outside_with (λ t, if decide (t = 5%nat) then
      concat (map (λ id, [ failed_event id "acknowledged" ""; failed_event id "failed" "no access: KEY=s3cr3t" ])
                  [100%N; 101%N; 102%N]) else [])
    probe_ok gateway_ok gateway_down.

Example agent_error_shows_a_secret :
  stored_secret (H:=quoting_agent) (w_db log_world) app1 "s3cr3t" ∧
  (get_instance_log (H:=quoting_agent) app1 instance1 "stdout" None None None log_world).1 =
    Raise (HTTPException 409 "no access: KEY=s3cr3t").
Proof.
  split; [|vm_compute; reflexivity].
  exists 60%N, {| sec_application_id := Some app1; sec_key := "KEY"; sec_encrypted_value := "token:s3cr3t" |}.
  repeat split; discriminate || (vm_compute; reflexivity).
Qed.

(** The host name of a server may be any text. One that httpx cannot put into a
    URL makes a probe raise [InvalidURL], which is no [HTTPError]: the round of
    the health monitor ends there, nothing is recorded, and a scale operation
    leaves its deployment IN_PROGRESS and its instance STARTING. *)
Example unreadable_host_name_stops_the_monitor :
  let E := outside (answers_at [7]%nat) (HttpInvalidURL "Invalid port: '22:9000'") gateway_ok in
  let round := SelfHealingService.tick (demo_world (demo_db "deploy" 2)) in
  (round.1, db_health_check_results (w_committed round.2),
   summary (run_scale switch1 77 (demo_world (demo_db "deploy" 2)))) =
  (Raise (InvalidURL "Invalid port: '22:9000'"), [],
   (Raise (InvalidURL "Invalid port: '22:9000'"),
    [(100%N, InstanceStatus.STARTING, 9001); (instance1, InstanceStatus.RUNNING, 9000)],
    [DeploymentStatus.IN_PROGRESS], [(Some old_release, None)])).
Proof. vm_compute. reflexivity. Qed.

(** An application whose name has 250 letters is accepted; deploying it builds a
    service name that does not fit its column. The route only expects
    [DeploymentSetupError]: the request fails and the lock stays taken. *)
Definition long_named_app : Application :=
  {| app_name := String.concat "" (replicate 250 "a"); app_slug := _slugify (String.concat "" (replicate 250 "a"));
     app_adapter_type := AdapterType.WINDOWS_WAITRESS_SERVICE; app_server_id := Some server1;
     app_config := Some demo_config; app_port_range_start := Some 9000; app_port_range_end := Some 9003;
     app_min_replicas := 1; app_max_replicas := 3; app_desired_replicas := 1;
     app_operation_lock := None; app_operation_lock_acquired_at := None;
     app_active_release_id := None; app_release_retention_count := 5; app_created_at := 0 |}.

Example long_name_keeps_the_lock :
  let run := perform (H:=outside (answers_at []) probe_ok gateway_ok) (H0:=demo_security) (Deploy app1 operator1)
               (demo_world ((demo_db "deploy" 1) <| db_applications := {[ app1 := long_named_app ]} |>)) in
  summary run = (Raise StatementError, [(instance1, InstanceStatus.RUNNING, 9000)], [DeploymentStatus.IN_PROGRESS],
                 [(None, Some "deploy")]).
Proof. vm_compute. reflexivity. Qed.

(** An agent whose deploy result names a step with a number: the flush fails,
    the session is unusable in the [finally], and the lock stays taken. *)
Definition malformed_result : Env :=
  {| env_now := λ t, t0 + seconds (Z.of_nat t);
     env_incoming := λ t,
       if decide (t = 5%nat) then
         concat (map (λ id,
           [ AgentSends agent1 (command_event id "acknowledged" JNull);
             AgentSends agent1 (command_event id "running" JNull);
             AgentSends agent1 (command_event id "succeeded"
               (JObj [("ok", JBool true); ("steps", JArr [JObj [("name", JInt 5)]])])) ]) [100%N])
       else [];
     env_send_ok := λ _, true; env_http_get := λ _ _ _, probe_ok; env_gateway_post := λ _ _, gateway_ok;
     env_elapsed := λ _, 0%N;
     env_certificates_post := λ _ _, HttpError EmptyString; env_encrypt := λ _ v, v;
     env_decrypt := λ _, None; env_float_repr := λ _ _, EmptyString; env_exn_text := λ _, EmptyString;
     env_fromisoformat := λ _, None; env_validate_hello := λ _, None; env_validate_heartbeat := λ _, None |}.

Example malformed_step_keeps_the_lock :
  summary (run_release_switch (H:=malformed_result) switch1 77
             (demo_world ((demo_db "blue_green" 1) <| db_applications :=
                {[ app1 := set_lock (Some "deploy") (Some 77) demo_app ]} |>))) =
  (Raise PendingRollbackError, [(instance1, InstanceStatus.RUNNING, 9000)],
   [DeploymentStatus.IN_PROGRESS], [(Some old_release, Some "deploy")]).
Proof. vm_compute. reflexivity. Qed.

(** Python's [$] lets a slug that ends in a newline through. *)
Example slug_with_a_newline : match_dollar _SLUG_RE (String.append "demo" (String newline EmptyString)) = true.
Proof. vm_compute. reflexivity. Qed.

(** The administration page redacts the environment values of a command's
    payload, and its search still looks at them: two databases that differ only
    there give different answers. *)
Example search_finds_redacted_values :
  shown "agent_commands" (admin_store "x" "y" "hunter2") = shown "agent_commands" (admin_store "x" "y" "other") ∧
  (list_rows "agent_commands" 50 0 (Some "hunter2") None "asc" (admin_store "x" "y" "hunter2")).1 ≠
  (list_rows "agent_commands" 50 0 (Some "hunter2") None "asc" (admin_store "x" "y" "other")).1.
Proof. split; [vm_compute; reflexivity|]. vm_compute. discriminate. Qed.

(** Nor is the order by a redacted column refused: it shows how the hashes of
    two users compare. *)
Example order_by_redacted_column :
  shown "users" (admin_store "x" "y" "k") = shown "users" (admin_store "y" "x" "k") ∧
  (list_rows "users" 50 0 None (Some "password_hash") "asc" (admin_store "x" "y" "k")).1 ≠
  (list_rows "users" 50 0 None (Some "password_hash") "asc" (admin_store "y" "x" "k")).1.
Proof. split; [vm_compute; reflexivity|]. vm_compute. discriminate. Qed.

(** The page's validators use [re.match] with [$]: a host name that ends in a
    newline passes, and so does a traversal before one; the Gateway Manager
    refuses both. *)
Example validators_accept_a_newline :
  lets_through VHostname (String.append "a.example.org" (String newline EmptyString)) = true ∧
  fullmatch _HOSTNAME_RE (String.append "a.example.org" (String newline EmptyString)) = false ∧
  lets_through VUnixPath (String.append "/etc/.." (String newline EmptyString)) = true.
Proof. vm_compute. done. Qed.

(** The agent of the server is gone when the pipeline starts: the deployment
    FAILED, its instance is PENDING still, and no instance can be put on its
    port. *)
Example missing_agent_keeps_the_port :
  let E := outside (answers_at []) probe_ok gateway_ok in
  let run := run_deployment switch1 77 (demo_world (first_db <| db_agents := ∅ |>)) in
  summary run =
    (Ok tt, [(90%N, InstanceStatus.PENDING, 9001); (instance1, InstanceStatus.RUNNING, 9000)],
     [DeploymentStatus.FAILED], [(Some old_release, None)]) ∧
  bool_decide (index_accepts (w_committed run.2) None (demo_instance InstanceStatus.PENDING 9001)) = false.
Proof. split; vm_compute; reflexivity. Qed.
